(* ===== verification/_CoqProject ===== *)
-Q . S2P
Prelude.v
GoStd.v
Prog.v
Util.v
ApiTypes.v
TopologyTypes.v
GoHeap.v
DeepCopy.v
World.v
SSH.v
Machine.v
Resource.v
Relationship.v
Docker.v
Scheduler.v
SchedulerProofs.v
SchedulerTheorems.v
SchedulerProperties.v
Capacity.v
ResourceCtl.v
ResourceTheorems.v
Accounting.v
MachineCtl.v
MachineTheorems.v
ChaosCtl.v
ChaosTheorems.v
Topology.v
TopologyTheorems.v
TiupSpec.v
TiupCtl.v
TopologyCtl.v
WorkloadCtl.v
Client.v
ClientTheorems.v
Kubectl.v
UploadDaemon.v
WorkloadTheorems.v
TopologyCtlProofs.v
TopologyCtlTheorems.v
TiupTheorems.v
Lifecycle.v
Progress.v
Total.v
Services.v
Convergence.v
MachineConvergence.v
TopologyProgress.v
System.v
Isolation.v
IsolationTheorems.v
Webhooks.v
Setup.v
