(* ===== verification/Prelude.v ===== *)
(** * Naglfar: a verification development

    Naglfar runs test clusters on a pool of machines. Its state is Kubernetes objects: machines,
    requests for test resources, the resources, cluster topologies, workloads, process chaos, and
    one shared relationship object that says what is bound where. A manager (src/main.go) runs a
    reconciler per kind of object, and webhooks that default and validate what users write; the
    reconcilers talk to each other only through the objects, and act on the machines through
    Docker daemons, commands over SSH and an upload daemon. This development models those parts
    from the Go source and proves what each promises and what they guarantee together.

    ** How a handler is modelled

    A pure function that may panic has type [go A] (this file). A handler is a program tree
    [io A] (Prog.v): it returns, panics, or makes a [call] and goes on with its answer. World.v
    lists the calls (Kubernetes, Docker, SSH, HTTP, time, random choice, iteration orders) and
    their answers; an answer is arbitrary but for what the language promises ([admissible]). [exec]
    is the executions of a program; [wp], [safe] and [hoare] are the logic for statements "along
    every execution, each call satisfies a guard that may speak of all earlier calls and
    answers", with a soundness theorem. Objects live in the store of the services; a handler that
    goes on with what an update answered does so in the model.

    ** The files

    Shared: Prelude.v (record update, panics, lists, automation), GoStd.v (the part of Go's
    standard library in use: strconv, strings, path, time, slices and nil maps, wrap-around),
    Prog.v, World.v.

    Data: Util.v (src/pkg/util, src/pkg/ref), ApiTypes.v and TopologyTypes.v
    (src/api/v1/*_types.go).

    Components, each with its operations and the lemmas about them:
    - Machine.v: api/v1/machine_types.go and its webhook; what a machine has left ([Rest]).
    - Resource.v: resources and requests, their webhooks and container configurations.
    - Relationship.v: the shared object, its reconciler, and [Ledger], the abstract
      specification of how it may change, with its invariant.
    - Docker.v: src/pkg/docker-util and src/pkg/container; SSH.v: src/pkg/ssh.
    - Scheduler.v: controllers/testresourcerequest_controller.go (SchedulerProofs,
      SchedulerTheorems, SchedulerProperties, Capacity).
    - ResourceCtl.v: controllers/testresource_controller.go (ResourceTheorems).
    - MachineCtl.v: controllers/machine_controller.go (MachineTheorems).
    - ChaosCtl.v: controllers/procchaos_controller.go, its webhook, durations and times
      (ChaosTheorems).
    - Topology.v: api/v1/testclustertopology_webhook.go (TopologyTheorems).
    - TiupSpec.v: BuildSpecification for tiup, dm and flink, and HAProxy's configuration;
      TiupCtl.v: the cluster managers of src/pkg/tiup (TiupTheorems).
    - TopologyCtl.v: controllers/testclustertopology_controller.go (TopologyCtlProofs,
      TopologyCtlTheorems).
    - WorkloadCtl.v: controllers/testworkload_controller.go and its webhook (WorkloadTheorems).
    - Client.v: src/client, src/pkg/kubeutil and the logs command of src/pkg/cmd
      (ClientTheorems); Kubectl.v: the command line of the plugin; UploadDaemon.v: src/cmd/daemon.
    - GoHeap.v and DeepCopy.v: the generated copies of api/v1/zz_generated.deepcopy.go over a
      heap in which pointers, slices and maps share memory; everywhere else a Go value is a Rocq
      value, which these copies justify.
    - Webhooks.v: the interfaces Defaulter and Validator with an instance for each kind, and
      admission as the composition of the handlers; Setup.v: src/main.go, the scheme, flags,
      SetupWithManager and SetupWebhookWithManager.

    Compositions:
    - Lifecycle.v: the abstract life of a test resource.
    - Accounting.v: unbinding a resource and [Rest] of its machine, with the rounding of sizes.
    - Progress.v and TopologyProgress.v: what wakes a reconciler, and that no run is given up
      with work left.
    - Total.v: programs that end against given services, and runs of a reconciler in a row;
      Services.v: the view of the services that matters to a reconciler, and the documented
      behaviour of the calls they share; Convergence.v: the resource reconciler run after run,
      against a store and a daemon that behave as documented ([Cluster]); MachineConvergence.v:
      the machine reconciler ([MachineHost]).
    - System.v: all reconcilers interleaved on the stored relationship and on a stored resource.
    - Isolation.v: the runs interleaved call by call, over the relationship, caches that lag behind
      it, and the containers of the Docker daemons; IsolationTheorems.v: the invariant of these
      worlds and an example that reaches two running containers.

    Definitions keep the names of the Go code; a method of a type is a definition in the module
    of the type or of its file. A Go struct is a record, a nil-able map an option of a [gmap], a
    pointer an option or, where the code shares it, an index into a threaded list; an int is a [Z]
    with [wrap64] where the code computes with it.

    ** What is shown

    - The stored state: the relationship moves along the ledger and keeps the invariant that no
      core is bound twice and no device shared (System, Relationship, SchedulerProofs); a
      resource moves along its life cycle, is well formed, and is never taken over by a second
      owner.
    - Containers: whatever the order of calls and the age of what is read, two containers that run
      two resources on one machine are pinned to cores that have none in common (Isolation).
    - Each reconciler: its state machine and the evidence every transition needs, what it writes
      of other objects, when a finalizer goes (the Theorems files).
    - Accounting: [Rest] is exact, the scheduler fits within capacity, a group is bound whole,
      a lone resource is bound whenever a candidate has room, and what is released is room again
      whatever was rounded.
    - Webhooks: the topology webhook accepts only updates that a declarative specification permits,
      and all of them but for the two kinds of change on which code and comments disagree;
      admitted requests do not panic the scheduler, nor does a machine that was created through
      its webhooks and measured; admission is stable.
    - Memory: every generated copy is independent of its original.
    - The manager: main registers one controller for each kind, its webhooks and the owner index,
      in order, and starts the manager only when all of it succeeded.
    - Deployment: specifications place every component; scaling in names exactly the nodes that
      leave; ports exposed are those of the servers placed.
    - Liveness and termination: no run that returns loses a wakeup but in the cases named; against documented
      services the resource reconciler brings a claimed resource up, and a destroyed or deleted
      one down, and the machine reconciler takes a machine in, or lets it go, in a bounded number
      of runs; [Run] ends within three rounds; a retried request is tried as often as it should
      be.
    - The upload daemon: what the file a proxy mounts holds after its configuration was sent, with
      everything the operating system may refuse and a copy that may end short.
    - Where the code does something else than it means to, a theorem says what it does (two disks
      on one device, a lost node, the logs of another item, and others).

    ** Fuel and parameters

    [Run_loop] (Docker.v) loops until a container runs: [fuel] bounds its rounds, and
    [Run_terminates] shows that three are enough; the machine reconciler is proved for every
    fuel. [Retry_loop] has as much fuel as attempts are left, and [Retry_spec] shows that it is
    never used up. The parsers of GoStd.v and Util.v take the length of their input as fuel.

    Code outside the repository is a class: [Units] with [UnitsLaws] and [UnitsRounding]
    (docker/go-units), [MetaV1] (the metadata types of k8s.io/apimachinery and their copies),
    [RangeOrder] (the order in which a map is ranged over), [APIMachinery], [Cobra] with
    [CobraLaws] (cobra and pflag),
    [LocalTime] (time zones), [Differ] (r3labs/diff), [Daemon], [Services], [Cluster]
    and [MachineHost] (a Docker daemon, alone and with a store), [Yaml],
    [Defaults], [Marshal] (tiup's specifications), [URLs], [ImageReferences] and [Site] (what is
    fixed in an installation: which daemon is whose, which UID is which object's). [Allocator]
    (Machine.v) is an interface inside the development: what the scheduler needs of a machine's
    accounting.

    The API server's optimistic concurrency is in the steps of System.v: a write is stored only
    if it was computed from the stored version. In Isolation.v the caches may show a resource's
    runs any version of the relationship not older than one they have shown, or have written;
    assumed are one run at a time per object (the work queue of controller-runtime), lists of
    resources that are up to date, machines that keep their name, UID and daemon, and resources
    that are not named like a cleaner ([well_named]).

    ** Not modelled

    The generated protobuf stubs and the client of the chaos daemon (src/pkg/chaos), which the
    controllers do not call; the embedded scripts (src/pkg/script), which are found by one call.
    controller-runtime is the answers main gets: how it hands objects to reconcilers is the steps
    of System.v. The verbs and paths of the webhooks' markers are as they are generated from the
    source; the manifests are not read. Log lines are left out, events
    recorded on objects are not. The texts of errors made by libraries are theirs. Of the metadata
    of an object the fields the code reads are kept. *)

From stdpp Require Export sorting base gmap sets list strings pretty option.
From Stdlib Require Export ZArith Lia.

#[global] Open Scope Z_scope.

(** ** Record field update

    [r <| f := v |>] is [r] with field [f] replaced, [r <| f ::= g |>] applies [g] to it.
    A record takes part by an [Eta] instance, its eta expansion written with named projections. *)

Class Eta (R : Type) := eta : R -> R.
Class FieldUpdate {R E : Type} (proj : R -> E) := update_field : (E -> E) -> R -> R.
Arguments update_field {R E} proj {_} f r /.

Ltac derive_field_update :=
  match goal with
  | |- @FieldUpdate ?R ?E ?proj =>
      let inst := constr:(_ : Eta R) in
      let body := eval red in inst in
      lazymatch eval pattern proj in body with
      | ?upd _ =>
          let u := eval cbv beta in
            (fun (f : E -> E) (r : R) => upd (fun x => f (proj x)) r) in
          exact u
      end
  end.

#[export] Hint Extern 1 (FieldUpdate _) => derive_field_update : typeclass_instances.

Declare Scope naglfar_scope.
Delimit Scope naglfar_scope with naglfar.
#[global] Open Scope naglfar_scope.

Notation "r <| proj ::= f |>" := (update_field proj f r)
  (at level 1, left associativity, format "r  <| proj  ::=  f |>") : naglfar_scope.
Notation "r <| proj := v |>" := (update_field proj (fun _ => v) r)
  (at level 1, left associativity, format "r  <| proj  :=  v |>") : naglfar_scope.

(** ** Go computations that can panic

    Most of the pure Go functions of the program are total but for run-time panics: a nil
    dereference, an assignment to an entry of a nil map, a slice bound, an explicit [panic]. *)

Inductive go (A : Type) : Type :=
| Ret (a : A)
| Panic (msg : string).
Arguments Ret {A} a.
Arguments Panic {A} msg.

#[export] Instance go_ret : MRet go := fun A a => Ret a.
#[export] Instance go_bind : MBind go := fun A B f m =>
  match m with Ret a => f a | Panic s => Panic s end.
#[export] Instance go_fmap : FMap go := fun A B f m =>
  match m with Ret a => Ret (f a) | Panic s => Panic s end.

#[export] Instance go_eq_dec `{EqDecision A} : EqDecision (go A).
Proof. solve_decision. Defined.

Definition returns {A} (m : go A) : Prop := exists a, m = Ret a.
#[export] Instance returns_dec {A} (m : go A) : Decision (returns m).
Proof. destruct m as [a|e]; [left; by exists a|right; by intros [a [=]]]. Defined.
Definition panics {A} (m : go A) : Prop := exists s, m = Panic s.

(** Left-to-right loops over a slice, the body threading an accumulator. *)
Fixpoint go_fold {A S} (f : S -> A -> go S) (l : list A) (s : S) : go S :=
  match l with
  | [] => Ret s
  | a :: l' => s' ← f s a; go_fold f l' s'
  end.

Lemma go_bind_Ret_inv {A B} (m : go A) (f : A -> go B) b :
  m ≫= f = Ret b -> exists a, m = Ret a /\ f a = Ret b.
Proof. destruct m; simpl; [eauto | done]. Qed.

Lemma go_bind_returns {A B} (m : go A) (f : A -> go B) :
  returns m -> (forall a, m = Ret a -> returns (f a)) -> returns (m ≫= f).
Proof. intros [a ->] H. apply H; done. Qed.

Lemma go_fold_app {A S} (f : S -> A -> go S) l1 l2 s :
  go_fold f (l1 ++ l2) s = go_fold f l1 s ≫= go_fold f l2.
Proof.
  revert s; induction l1 as [|a l1 IH]; intros s; simpl; [done|].
  destruct (f s a); simpl; [apply IH | done].
Qed.

(** The invariant rule for such a loop. *)
Lemma go_fold_inv {A S} (P : S -> Prop) (f : S -> A -> go S) l s s' :
  (forall a t t', a ∈ l -> P t -> f t a = Ret t' -> P t') ->
  P s -> go_fold f l s = Ret s' -> P s'.
Proof.
  revert s; induction l as [|a l IH]; intros s Hstep Hs; simpl.
  - by intros [= ->].
  - intros (t & Ht & Hrest)%go_bind_Ret_inv.
    eapply IH; [| |exact Hrest].
    + intros b u u' Hb. apply Hstep. by right.
    + eapply Hstep; [by left | exact Hs | exact Ht].
Qed.

Lemma go_fold_returns {A S} (P : S -> Prop) (f : S -> A -> go S) l s :
  (forall a t, a ∈ l -> P t -> exists t', f t a = Ret t' /\ P t') ->
  P s -> exists s', go_fold f l s = Ret s' /\ P s'.
Proof.
  revert s; induction l as [|a l IH]; intros s Hstep Hs; simpl; [eauto|].
  destruct (Hstep a s ltac:(by left) Hs) as (t & -> & Ht). simpl.
  apply IH; [|done]. intros b u Hb. apply Hstep. by right.
Qed.

(** ** Pointers and maps

    A Go pointer or error that may be nil is an [option]; [deref] is the dereference. A Go map
    that may be nil is an [option (gmap string V)]: a nil map reads as empty and an assignment
    to one of its entries panics. *)

Definition deref {A} (p : option A) : go A :=
  match p with
  | Some a => Ret a
  | None => Panic "runtime error: invalid memory address or nil pointer dereference"
  end.

Abbreviation gomap V := (option (gmap string V)).

Definition go_map {V} (m : gomap V) : gmap string V := default ∅ m.
Definition go_lookup {V} (m : gomap V) (k : string) : option V := go_map m !! k.
Definition go_assign {V} (m : gomap V) (k : string) (v : V) : go (gomap V) :=
  match m with
  | Some m' => Ret (Some (<[k := v]> m'))
  | None => Panic "assignment to entry in nil map"
  end.
Definition go_delete {V} (m : gomap V) (k : string) : gomap V := delete k <$> m.

(** ** Machine integers

    [int] and [int64] are 64 bits wide, [int32] is 32; arithmetic wraps around. *)

Definition wrap (w : Z) (z : Z) : Z := (z + 2 ^ (w - 1)) mod 2 ^ w - 2 ^ (w - 1).
Definition wrap64 : Z -> Z := wrap 64.
Definition wrap32 : Z -> Z := wrap 32.
Definition in_int64 (z : Z) : Prop := - 2 ^ 63 <= z < 2 ^ 63.
Definition in_int32 (z : Z) : Prop := - 2 ^ 31 <= z < 2 ^ 31.
Definition maxInt : Z := 2 ^ 63 - 1.

Lemma wrap64_id z : in_int64 z -> wrap64 z = z.
Proof.
  unfold in_int64, wrap64, wrap. change (64 - 1) with 63. intros H.
  rewrite Z.mod_small; lia.
Qed.

Lemma wrap64_range z : in_int64 (wrap64 z).
Proof.
  unfold in_int64, wrap64, wrap. change (64 - 1) with 63.
  pose proof (Z.mod_pos_bound (z + 2 ^ 63) (2 ^ 64) ltac:(lia)). lia.
Qed.

(** [float64(n)] of an integer: the nearest multiple of the unit in the last place, ties to
    even. Every [float64] of the program is an integer converted this way, so it is kept as Z. *)
Definition float64_of_int (z : Z) : Z :=
  let a := Z.abs z in
  if a <? 2 ^ 53 then z else
  let e := Z.log2 a - 52 in
  let q := a / 2 ^ e in
  let r := a mod 2 ^ e in
  let half := 2 ^ (e - 1) in
  let q' := if (half <? r) || ((r =? half) && Z.odd q) then q + 1 else q in
  Z.sgn z * (q' * 2 ^ e).

Lemma float64_of_int_small z : Z.abs z < 2 ^ 53 -> float64_of_int z = z.
Proof. intros H. unfold float64_of_int. destruct (Z.ltb_spec (Z.abs z) (2 ^ 53)); lia. Qed.

(** ** Slices *)

(** [s[i]], with Go's bounds check. *)
Definition go_index {A} (l : list A) (i : Z) : go A :=
  match (if i <? 0 then None else l !! Z.to_nat i) with
  | Some a => Ret a
  | None => Panic "runtime error: index out of range"
  end.

(** [make([]T, 0, c)]: an empty slice, or the panic of a negative capacity. *)
Definition make_slice {A} (c : Z) : go (list A) :=
  if c <? 0 then Panic "runtime error: makeslice: cap out of range" else Ret [].

Definition len {A} (l : list A) : Z := Z.of_nat (length l).

Lemma len_cons {A} (a : A) l : len (a :: l) = len l + 1.
Proof. unfold len. simpl. lia. Qed.
Lemma len_nonneg {A} (l : list A) : 0 <= len l.
Proof. unfold len. lia. Qed.
Lemma len_zero {A} (l : list A) : len l = 0 <-> l = [].
Proof. unfold len. destruct l; simpl; split; intros; [done|done|lia|done]. Qed.

(** ** List lemmas shared by the components *)

Section lists.
Context {A : Type}.
Implicit Types l : list A.

(** stdpp's [filter] against Stdlib's boolean one: the loops that copy the elements
    passing a test all have this shape. *)
Definition filterb (p : A -> bool) l : list A := List.filter p l.

Lemma elem_of_filterb p l x : x ∈ filterb p l <-> x ∈ l /\ p x = true.
Proof. rewrite !list_elem_of_In. apply filter_In. Qed.

Lemma filterb_app p l1 l2 : filterb p (l1 ++ l2) = filterb p l1 ++ filterb p l2.
Proof. apply filter_app. Qed.

Lemma filterb_all p l : (forall x, x ∈ l -> p x = true) -> filterb p l = l.
Proof.
  induction l as [|a l IH]; intros H; [done|]. unfold filterb in *. simpl.
  rewrite (H a) by set_solver. f_equal. apply IH. set_solver.
Qed.

Lemma filterb_length p l : len (filterb p l) <= len l.
Proof.
  induction l as [|a l IH]; [done|]. unfold filterb in *. simpl.
  destruct (p a); rewrite ?len_cons; lia.
Qed.

Lemma filterb_idemp p l : filterb p (filterb p l) = filterb p l.
Proof. apply filterb_all. intros x Hx. by apply elem_of_filterb in Hx as [_ ?]. Qed.

Lemma filterb_NoDup p l : NoDup l -> NoDup (filterb p l).
Proof. rewrite !NoDup_ListNoDup. apply List.NoDup_filter. Qed.

Lemma filterb_sublist p l : filterb p l `sublist_of` l.
Proof.
  induction l as [|a l IH]; [constructor|]. unfold filterb in *. simpl.
  destruct (p a); by constructor.
Qed.
End lists.

Lemma fst_elem_of_map_to_list {V} (m : gmap string V) k :
  k ∈ (map_to_list m).*1 <-> is_Some (m !! k).
Proof.
  rewrite list_elem_of_fmap. split.
  - intros ([k' v] & -> & Hin). apply elem_of_map_to_list in Hin. eauto.
  - intros [v Hv]. exists (k, v). split; [done|]. by apply elem_of_map_to_list.
Qed.

(** The invariant rule for [fold_left], the invariant knowing the elements already seen. *)
Lemma fold_left_seen {A S} (P : list A -> S -> Prop) (f : S -> A -> S) l s :
  P [] s -> (forall seen a s, P seen s -> P (seen ++ [a]) (f s a)) -> P l (fold_left f l s).
Proof.
  intros H0 Hf.
  assert (H : forall seen s, P seen s -> P (seen ++ l) (fold_left f l s)).
  { induction l as [|a l IH]; intros seen s' Hs; simpl; [by rewrite app_nil_r|].
    replace (seen ++ a :: l) with ((seen ++ [a]) ++ l) by by rewrite <-app_assoc. auto. }
  by apply (H []).
Qed.

(** ** Strings *)

Lemma str_app_cons a (s t : string) : String a s +:+ t = String a (s +:+ t).
Proof. done. Qed.
Lemma str_app_nil_l (t : string) : EmptyString +:+ t = t.
Proof. done. Qed.
Lemma str_app_nil_r (s : string) : s +:+ EmptyString = s.
Proof. induction s as [|a s IH]; [done|]. by rewrite str_app_cons, IH. Qed.
Lemma str_app_assoc (s t u : string) : s +:+ (t +:+ u) = (s +:+ t) +:+ u.
Proof. induction s as [|a s IH]; [done|]. by rewrite !str_app_cons, IH. Qed.
Lemma str_length_app (s t : string) :
  String.length (s +:+ t) = (String.length s + String.length t)%nat.
Proof. induction s as [|a s IH]; [done|]. rewrite str_app_cons. simpl. by rewrite IH. Qed.

(** ** Automation *)

Create HintDb naglfar.
Create Rewrite HintDb naglfar_rw.
#[export] Hint Resolve len_nonneg wrap64_range wrap64_id : naglfar.
#[export] Hint Rewrite @len_cons : naglfar_rw.

(** Invert the equations a Go computation leaves behind. *)
Ltac go_inv :=
  repeat match goal with
  | H : _ ≫= _ = Ret _ |- _ =>
      let a := fresh "v" in let H1 := fresh "Hv" in
      apply go_bind_Ret_inv in H; destruct H as (a & H1 & H)
  | H : Ret _ = Ret _ |- _ => injection H; clear H; intros; subst
  | H : mret _ = Ret _ |- _ => unfold mret, go_ret in H
  | H : Panic _ = Ret _ |- _ => discriminate H
  | H : Ret _ = Panic _ |- _ => discriminate H
  end.

(** Case analysis on the matches of the goal or of a hypothesis, keeping the equations. *)
Ltac case_goal :=
  match goal with |- context [match ?x with _ => _ end] => destruct x eqn:? end.
Ltac case_in H :=
  match type of H with context [match ?x with _ => _ end] => destruct x eqn:? end.
