(* ===== verification/GoStd.v ===== *)
(** * The parts of Go's standard library the program uses

    [strings], [strconv], [path], [fmt]'s [%d] and [time]'s RFC 3339, as functions on
    [string]. They are the language's own library, not code of the repository: the map of the
    development has no entry for them. The lemmas are the ones the components use. *)

From Stdlib Require Import Ascii String.
From S2P Require Import Prelude.

#[global] Open Scope Z_scope.


(** ** strings *)

Module strs.

Definition HasPrefix (s pre : string) : bool := String.prefix pre s.

Fixpoint Contains (s sub : string) : bool :=
  String.prefix sub s ||
  match s with EmptyString => false | String _ s' => Contains s' sub end.

Fixpoint HasSuffix (s suf : string) : bool :=
  String.eqb s suf ||
  match s with EmptyString => false | String _ s' => HasSuffix s' suf end.

(** [strings.Split] for a non-empty separator: [skip] counts the characters of a separator
    already recognised, [cur] is the piece being read. *)
Fixpoint split_from (sep : string) (skip : nat) (cur s : string) : list string :=
  match s with
  | EmptyString => [cur]
  | String c s' =>
      match skip with
      | S n => split_from sep n cur s'
      | O =>
          if String.prefix sep s
          then cur :: split_from sep (String.length sep - 1) EmptyString s'
          else split_from sep O (cur +:+ String c EmptyString) s'
      end
  end.
Definition Split (s sep : string) : list string := split_from sep O EmptyString s.

Fixpoint Join (l : list string) (sep : string) : string :=
  match l with
  | [] => ""
  | [a] => a
  | a :: l' => a +:+ sep +:+ Join l' sep
  end.

Definition is_space (c : ascii) : bool :=
  let n := nat_of_ascii c in
  (Nat.eqb n 32 || Nat.eqb n 9 || Nat.eqb n 10 || Nat.eqb n 11 || Nat.eqb n 12 || Nat.eqb n 13)%nat.
Fixpoint trim_left (s : string) : string :=
  match s with
  | String c s' => if is_space c then trim_left s' else s
  | EmptyString => EmptyString
  end.
(** [strings.TrimSpace] on ASCII text. *)
Definition TrimSpace (s : string) : string :=
  String.rev (trim_left (String.rev (trim_left s))).

Definition lower_ascii (c : ascii) : ascii :=
  let n := nat_of_ascii c in
  if (Nat.leb 65 n && Nat.leb n 90)%nat then ascii_of_nat (n + 32)%nat else c.
Fixpoint ToLower (s : string) : string :=
  match s with
  | EmptyString => EmptyString
  | String c s' => String (lower_ascii c) (ToLower s')
  end.

(** No occurrence of a character. *)
Fixpoint free_of (c : ascii) (s : string) : Prop :=
  match s with
  | EmptyString => True
  | String a s' => a <> c /\ free_of c s'
  end.
#[global] Instance free_of_dec c s : Decision (free_of c s).
Proof. induction s as [|a s IH]; simpl; apply _. Defined.

Definition sep1 (c : ascii) : string := String c EmptyString.

Lemma prefix_sep1 c a s : String.prefix (sep1 c) (String a s) = bool_decide (c = a).
Proof.
  unfold sep1. simpl. destruct (ascii_dec c a) as [->|].
  - by rewrite bool_decide_eq_true_2; [destruct s|].
  - by rewrite bool_decide_eq_false_2.
Qed.

Lemma split_from_free c cur s rest :
  free_of c s ->
  split_from (sep1 c) O cur (s +:+ sep1 c +:+ rest) =
  (cur +:+ s) :: split_from (sep1 c) O "" rest.
Proof.
  revert cur; induction s as [|a s IH]; intros cur H.
  - change ("" +:+ sep1 c +:+ rest) with (String c rest). cbn [split_from].
    rewrite prefix_sep1, bool_decide_eq_true_2 by done.
    change (String.length (sep1 c) - 1)%nat with O.
    by rewrite str_app_nil_r.
  - destruct H as [Hne Hfree].
    change (String a s +:+ sep1 c +:+ rest) with (String a (s +:+ sep1 c +:+ rest)).
    cbn [split_from]. rewrite prefix_sep1, bool_decide_eq_false_2 by done.
    rewrite IH by done. f_equal. by rewrite <-str_app_assoc.
Qed.

Lemma split_from_last c cur s :
  free_of c s -> split_from (sep1 c) O cur s = [cur +:+ s].
Proof.
  revert cur; induction s as [|a s IH]; intros cur H.
  - simpl. by rewrite str_app_nil_r.
  - destruct H as [Hne Hfree]. cbn [split_from].
    rewrite prefix_sep1, bool_decide_eq_false_2 by done.
    rewrite IH by done. f_equal. by rewrite <-str_app_assoc.
Qed.

(** A piece free of the separator is cut off exactly. *)
Lemma Split_cons c s rest :
  free_of c s -> Split (s +:+ sep1 c +:+ rest) (sep1 c) = s :: Split rest (sep1 c).
Proof. intros H. unfold Split. rewrite split_from_free by done. done. Qed.

Lemma Split_one c s : free_of c s -> Split s (sep1 c) = [s].
Proof. intros H. unfold Split. by rewrite split_from_last. Qed.

End strs.

(** ** strconv and fmt's [%d] *)

Module strconv.

Definition Itoa (z : Z) : string := pretty z.

#[global] Instance Itoa_inj : Inj (=) (=) Itoa.
Proof. apply pretty_Z_inj. Qed.

Definition digit (c : ascii) : option Z :=
  let n := Z.of_nat (nat_of_ascii c) in
  if (48 <=? n) && (n <=? 57) then Some (n - 48) else None.

Fixpoint digits (s : string) (acc : Z) : option Z :=
  match s with
  | EmptyString => Some acc
  | String c s' => d ← digit c; digits s' (10 * acc + d)
  end.
Definition natural (s : string) : option Z :=
  match s with EmptyString => None | _ => digits s 0 end.

(** [strconv.Atoi]: an optional sign, at least one digit, a value that fits an [int]. The
    value returned beside an error is 0 for bad syntax and the nearest bound out of range. *)
Definition Atoi (s : string) : Z * bool :=
  let '(neg, body) :=
    match s with
    | String "-"%char s' => (true, s')
    | String "+"%char s' => (false, s')
    | _ => (false, s)
    end in
  match natural body with
  | None => (0, false)
  | Some n =>
      let v := if neg : bool then - n else n in
      if v <? - 2 ^ 63 then (- 2 ^ 63, false)
      else if 2 ^ 63 - 1 <? v then (2 ^ 63 - 1, false)
      else (v, true)
  end.

Lemma Atoi_range s : in_int64 (fst (Atoi s)).
Proof.
  unfold Atoi, in_int64.
  set (p := match s with
            | String "-"%char s' => (true, s')
            | String "+"%char s' => (false, s')
            | _ => (false, s) end).
  destruct p as [neg body]. destruct (natural body) as [n|]; [|simpl; lia].
  destruct neg; repeat match goal with |- context [?a <? ?b] => destruct (Z.ltb_spec a b) end;
    simpl; lia.
Qed.

End strconv.

(** ** path *)

Module path.

Definition slash : string := "/".

Fixpoint strip_trailing (rev_s : list ascii) : list ascii :=
  match rev_s with
  | "/"%char :: l => strip_trailing l
  | _ => rev_s
  end.
Fixpoint take_base (rev_s : list ascii) : list ascii :=
  match rev_s with
  | "/"%char :: _ => []
  | c :: l => c :: take_base l
  | [] => []
  end.

(** [path.Base]: the last element, with trailing slashes removed. *)
Definition Base (p : string) : string :=
  match list_ascii_of_string p with
  | [] => "."
  | l =>
      match strip_trailing (rev l) with
      | [] => "/"
      | r => string_of_list_ascii (rev (take_base r))
      end
  end.

(** [path.Clean], by the stack of the elements kept so far (topmost first). *)
Definition clean_step (rooted : bool) (stack : list string) (e : string) : list string :=
  if String.eqb e "" || String.eqb e "." then stack
  else if String.eqb e ".." then
    match stack with
    | top :: rest => if String.eqb top ".." then e :: stack else rest
    | [] => if rooted then [] else [e]
    end
  else e :: stack.

Definition Clean (p : string) : string :=
  if String.eqb p "" then "." else
  let rooted := strs.HasPrefix p "/" in
  let stack := fold_left (clean_step rooted) (strs.Split p "/") [] in
  let body := strs.Join (rev stack) "/" in
  if rooted then "/" +:+ body
  else if String.eqb body "" then "." else body.

(** [path.Join]: the elements from the first non-empty one on, joined and cleaned. *)
Fixpoint Join (l : list string) : string :=
  match l with
  | [] => ""
  | e :: l' => if String.eqb e "" then Join l' else Clean (strs.Join l "/")
  end.

End path.

(** ** time

    An instant is a number of nanoseconds since January 1, year 1, 00:00:00 UTC, Go's zero
    [time.Time]; a [time.Duration] is a number of nanoseconds. *)

Module time.

Definition Nanosecond : Z := 1.
Definition Second : Z := 10 ^ 9.

Definition leap (y : Z) : bool :=
  ((y mod 4 =? 0) && negb (y mod 100 =? 0)) || (y mod 400 =? 0).
Definition days_before_year (y : Z) : Z :=
  let p := y - 1 in 365 * p + p / 4 - p / 100 + p / 400.
Definition days_in (m y : Z) : Z :=
  if m =? 2 then (if leap y then 29 else 28)
  else if (m =? 4) || (m =? 6) || (m =? 9) || (m =? 11) then 30 else 31.
Definition days_before_month (m y : Z) : Z :=
  foldr (fun k acc => days_in (Z.of_nat k) y + acc) 0 (seq 1 (Z.to_nat (m - 1))).

Definition chars (s : string) : list ascii := list_ascii_of_string s.

(** Exactly [n] digits off the front. *)
Fixpoint num (n : nat) (acc : Z) (l : list ascii) : option (Z * list ascii) :=
  match n, l with
  | O, _ => Some (acc, l)
  | S n', c :: l' => d ← strconv.digit c; num n' (10 * acc + d) l'
  | S _, [] => None
  end.
(** One or two digits, as the layout's hour takes them. *)
Definition num12 (l : list ascii) : option (Z * list ascii) :=
  match l with
  | c1 :: c2 :: l' =>
      d1 ← strconv.digit c1;
      match strconv.digit c2 with
      | Some d2 => Some (10 * d1 + d2, l')
      | None => Some (d1, c2 :: l')
      end
  | [c1] => d1 ← strconv.digit c1; Some (d1, [])
  | [] => None
  end.
Definition lit (c : ascii) (l : list ascii) : option (list ascii) :=
  match l with
  | a :: l' => if decide (a = c) then Some l' else None
  | [] => None
  end.
Fixpoint frac_digits (l : list ascii) : list Z * list ascii :=
  match l with
  | c :: l' =>
      match strconv.digit c with
      | Some d => let '(ds, r) := frac_digits l' in (d :: ds, r)
      | None => ([], l)
      end
  | [] => ([], [])
  end.
(** Fractional seconds, in nanoseconds, when a dot and a digit follow the seconds. *)
Definition fraction (l : list ascii) : option (Z * list ascii) :=
  match l with
  | "."%char :: c :: _ =>
      match strconv.digit c with
      | Some _ =>
          let '(ds, r) := frac_digits (tail l) in
          let n := foldl (fun acc d => 10 * acc + d) 0 ds in
          if 10 ^ 9 <=? n then None
          else Some (n * 10 ^ Z.max 0 (9 - Z.of_nat (length ds)), r)
      | None => Some (0, l)
      end
  | _ => Some (0, l)
  end.
(** [Z] or [+hh:mm] or [-hh:mm], the offset in seconds. *)
Definition zone (l : list ascii) : option (Z * list ascii) :=
  match l with
  | "Z"%char :: l' => Some (0, l')
  | c :: l' =>
      sign ← (if decide (c = "+"%char) then Some 1
              else if decide (c = "-"%char) then Some (-1) else None);
      '(h, l1) ← num 2 0 l';
      l2 ← lit ":"%char l1;
      '(m, l3) ← num 2 0 l2;
      Some (sign * (h * 3600 + m * 60), l3)
  | [] => None
  end.

(** [time.Parse(time.RFC3339, s)]; [None] is its error. *)
Definition Parse_RFC3339 (s : string) : option Z :=
  '(y, l) ← num 4 0 (chars s);
  l ← lit "-"%char l; '(mo, l) ← num 2 0 l;
  l ← lit "-"%char l; '(d, l) ← num 2 0 l;
  l ← lit "T"%char l; '(h, l) ← num12 l;
  l ← lit ":"%char l; '(mi, l) ← num 2 0 l;
  l ← lit ":"%char l; '(sec, l) ← num 2 0 l;
  '(ns, l) ← fraction l;
  '(off, l) ← zone l;
  match l with
  | _ :: _ => None
  | [] =>
      if (1 <=? mo) && (mo <=? 12) && (h <? 24) && (mi <? 60) && (sec <? 60)
         && (1 <=? d) && (d <=? days_in mo y)
      then Some (((days_before_year y + days_before_month mo y + (d - 1)) * 86400
                   + h * 3600 + mi * 60 + sec - off) * 10 ^ 9 + ns)
      else None
  end.

(** [time.ParseDuration]: an optional sign, then numbers with units; "0" alone needs none. The
    fraction of a number is scaled in floating point by the library, exactly here. *)
Definition unit_of (u : string) : option Z :=
  if String.eqb u "ns" then Some 1
  else if String.eqb u "us" || String.eqb u "µs" || String.eqb u "μs" then Some (10 ^ 3)
  else if String.eqb u "ms" then Some (10 ^ 6)
  else if String.eqb u "s" then Some (10 ^ 9)
  else if String.eqb u "m" then Some (60 * 10 ^ 9)
  else if String.eqb u "h" then Some (3600 * 10 ^ 9)
  else None.

Fixpoint take_unit (l : list ascii) : list ascii * list ascii :=
  match l with
  | c :: l' =>
      if bool_decide (c = "."%char) || bool_decide (is_Some (strconv.digit c)) then ([], l)
      else let '(u, r) := take_unit l' in (c :: u, r)
  | [] => ([], [])
  end.

Definition number (ds : list Z) : Z := foldl (fun acc d => 10 * acc + d) 0 ds.

Fixpoint duration_parts (fuel : nat) (l : list ascii) (d : Z) : option Z :=
  match l, fuel with
  | [], _ => Some d
  | _, O => None
  | _, S fuel =>
      let '(ints, l1) := frac_digits l in
      let '(fracs, l2) := match l1 with "."%char :: l' => frac_digits l' | _ => ([], l1) end in
      match ints, fracs with
      | [], [] => None
      | _, _ =>
          let '(u, l3) := take_unit l2 in
          unit ← unit_of (string_of_list_ascii u);
          let v := number ints * unit + number fracs * unit / 10 ^ Z.of_nat (length fracs) in
          if (2 ^ 63 - 1 <? number ints * unit) || (2 ^ 63 - 1 <? v) || (2 ^ 63 - 1 <? d + v) then None
          else duration_parts fuel l3 (d + v)
      end
  end.

Definition ParseDuration (s : string) : option Z :=
  let '(neg, l) :=
    match chars s with
    | "-"%char :: l => (true, l)
    | "+"%char :: l => (false, l)
    | l => (false, l)
    end in
  match l with
  | [] => None
  | ["0"%char] => Some 0
  | _ => d ← duration_parts (length l) l 0; Some (if neg : bool then - d else d)
  end.

(** [t.IsZero()]. *)
Definition IsZero (t : Z) : bool := t =? 0.

End time.

Example Parse_zero : time.Parse_RFC3339 "0001-01-01T00:00:00Z" = Some 0.
Proof. reflexivity. Qed.
Example Parse_some :
  time.Parse_RFC3339 "2020-09-24T08:30:00.5+08:00" = Some ((737691 * 86400 + 1800) * 10 ^ 9 + 500000000).
Proof. reflexivity. Qed.
Example Clean_ex : path.Clean "/mnt//a/./b/../*" = "/mnt/a/*".
Proof. reflexivity. Qed.
Example Base_ex : path.Base "/dev/nvme0n1" = "nvme0n1".
Proof. reflexivity. Qed.
Example Atoi_ex : strconv.Atoi "-42" = (-42, true).
Proof. reflexivity. Qed.
Example ParseDuration_ex : time.ParseDuration "1h15m30.5s" = Some (4530 * 10 ^ 9 + 500000000).
Proof. reflexivity. Qed.
Example ParseDuration_bad : time.ParseDuration "10" = None.
Proof. reflexivity. Qed.
