(* ===== verification/Prog.v ===== *)
(** * Effectful programs, their executions and a safety logic

    A reconciler talks to services that are not code of the repository: the Kubernetes API
    server, Docker daemons, hosts over SSH, the clock and the random source. A handler is
    modelled as the tree of its calls, each call's continuation taking the service's answer;
    nothing is assumed of an answer except what [admissible] states. The files that model
    handlers instantiate [call] and [answer] with the program's own services. *)

From S2P Require Import Prelude.

Section programs.
Context {call : Type} (answer : call -> Type).

(** A program: it returns, it panics, or it makes a call and goes on with the answer. *)
Inductive prog (A : Type) : Type :=
| Done (a : A)
| Crash (msg : string)
| Call (c : call) (k : answer c -> prog A).

(** A call made, with the answer it got. Histories list the latest event first. *)
Record event : Type := Event { ev_call : call; ev_answer : answer ev_call }.
End programs.

Arguments Done {call answer A} a.
Arguments Crash {call answer A} msg.
Arguments Call {call answer A} c k.
Arguments Event {call answer} ev_call ev_answer.
Arguments ev_call {call answer} _.
Arguments ev_answer {call answer} _.

Section prog_ops.
Context {call : Type} {answer : call -> Type}.

Fixpoint prog_bind {A B} (f : A -> prog answer B) (m : prog answer A) : prog answer B :=
  match m with
  | Done a => f a
  | Crash s => Crash s
  | Call c k => Call c (fun x => prog_bind f (k x))
  end.

#[export] Instance prog_ret_inst : MRet (prog answer) := fun A a => Done a.
#[export] Instance prog_bind_inst : MBind (prog answer) := @prog_bind.

(** One call, its answer as the result. *)
Definition ask (c : call) : prog answer (answer c) := Call c (fun x => Done x).

(** A pure computation that may panic, run inside a program. *)
Definition lift {A} (m : go A) : prog answer A :=
  match m with Ret a => Done a | Panic s => Crash s end.

(** [defer d] around [p]: Go runs [d] when [p] returns and when it panics. *)
Fixpoint deferring {A} (d : prog answer unit) (p : prog answer A) : prog answer A :=
  match p with
  | Done a => prog_bind (fun _ => Done a) d
  | Crash s => prog_bind (fun _ => Crash s) d
  | Call c k => Call c (fun x => deferring d (k x))
  end.

(** A [for] loop over a slice, threading its state; [inr] leaves the enclosing function. *)
Fixpoint for_each {A S R} (f : S -> A -> prog answer (S + R)) (l : list A) (s : S)
  : prog answer (S + R) :=
  match l with
  | [] => Done (inl s)
  | a :: l' =>
      prog_bind (fun r => match r with inl s' => for_each f l' s' | inr r => Done (inr r) end)
        (f s a)
  end.

(** ** Executions *)

(** [exec ok p h h' r]: from history [h], [p] can run to result [r] with history [h'], every
    answer being one [ok] admits. *)
Fixpoint exec {A} (ok : forall c, answer c -> Prop) (p : prog answer A)
    (h h' : list (event answer)) (r : go A) : Prop :=
  match p with
  | Done a => h' = h /\ r = Ret a
  | Crash s => h' = h /\ r = Panic s
  | Call c k => exists x, ok c x /\ exec ok (k x) (Event c x :: h) h' r
  end.

(** ** A safety logic

    [wp ok G p h Q]: along every admissible execution of [p] from history [h], each call made
    satisfies the guard [G] of the history at that point, and the run ends in [Q]. *)
Fixpoint wp {A} (ok : forall c, answer c -> Prop)
    (G : list (event answer) -> call -> Prop) (p : prog answer A)
    (h : list (event answer)) (Q : list (event answer) -> go A -> Prop) : Prop :=
  match p with
  | Done a => Q h (Ret a)
  | Crash s => Q h (Panic s)
  | Call c k => G h c /\ forall x, ok c x -> wp ok G (k x) (Event c x :: h) Q
  end.

(** Every call of a history satisfied the guard of the history before it. *)
Fixpoint guarded (G : list (event answer) -> call -> Prop) (h : list (event answer)) : Prop :=
  match h with
  | [] => True
  | e :: h' => G h' (ev_call e) /\ guarded G h'
  end.

Section logic.
Context (ok : forall c, answer c -> Prop) (G : list (event answer) -> call -> Prop).

(** Soundness: a [wp] statement says what it should of every execution. *)
Lemma wp_sound {A} (p : prog answer A) h h' r Q :
  wp ok G p h Q -> guarded G h -> exec ok p h h' r -> guarded G h' /\ Q h' r.
Proof.
  revert h. induction p as [a|s|c k IH]; intros h Hwp Hg; simpl in *.
  - intros [-> ->]. done.
  - intros [-> ->]. done.
  - intros (x & Hx & Hexec). destruct Hwp as [Hc Hk].
    eapply IH; [apply Hk, Hx| |exact Hexec]. simpl. done.
Qed.

(** Completeness: what holds of every execution has a [wp] proof. *)
Lemma wp_complete {A} (p : prog answer A) h (Q : list (event answer) -> go A -> Prop) :
  (forall h' r, exec ok p h h' r -> Q h' r) -> wp ok (fun _ _ => True) p h Q.
Proof.
  revert h; induction p as [a|s|c k IH]; intros h H; simpl in *; [auto..|].
  split; [done|]. intros x Hx. apply IH. intros h' r Hr. apply H. eauto.
Qed.

Lemma wp_bind {A B} (m : prog answer A) (f : A -> prog answer B) h Q :
  wp ok G (prog_bind f m) h Q <->
  wp ok G m h (fun h' r =>
    match r with Ret a => wp ok G (f a) h' Q | Panic s => Q h' (Panic s) end).
Proof.
  revert h; induction m as [a|s|c k IH]; intros h; simpl; [done..|].
  split; intros [Hc Hk]; (split; [done|]); intros x Hx; by apply IH, Hk.
Qed.

Lemma wp_mono {A} (p : prog answer A) h (Q Q' : list (event answer) -> go A -> Prop) :
  wp ok G p h Q -> (forall h' r, Q h' r -> Q' h' r) -> wp ok G p h Q'.
Proof.
  intros Hwp HQ; revert h Hwp; induction p as [a|s|c k IH]; intros h; simpl; [auto..|].
  intros [Hc Hk]. split; [done|]. intros x Hx. by apply IH, Hk.
Qed.

(** A weaker guard. *)
Lemma wp_guard {A} (G' : list (event answer) -> call -> Prop) (p : prog answer A) h Q :
  wp ok G p h Q -> (forall h c, G h c -> G' h c) -> wp ok G' p h Q.
Proof.
  intros Hwp HG; revert h Hwp; induction p as [a|s|c k IH]; intros h; simpl; [auto..|].
  intros [Hc Hk]. split; [by apply HG|]. intros x Hx. by apply IH, Hk.
Qed.

Lemma wp_lift {A} (m : go A) h (Q : list (event answer) -> go A -> Prop) :
  Q h m -> wp ok G (lift m) h Q.
Proof. by destruct m. Qed.

(** Executions extend their history. *)
Lemma exec_extends {A} (p : prog answer A) h h' r :
  exec ok p h h' r -> exists new, h' = new ++ h.
Proof.
  revert h; induction p as [a|s|c k IH]; intros h; simpl.
  - intros [-> _]. by exists [].
  - intros [-> _]. by exists [].
  - intros (x & _ & (new & ->)%IH). exists (new ++ [Event c x]). by rewrite <-app_assoc.
Qed.

(** Loop rule: an invariant of history and state. *)
Lemma wp_for_each {A S R} (f : S -> A -> prog answer (S + R)) l s h
    (I : list (event answer) -> S -> Prop) Q :
  I h s ->
  (forall h s a, a ∈ l -> I h s ->
    wp ok G (f s a) h (fun h' r =>
      match r with
      | Ret (inl s') => I h' s'
      | Ret (inr x) => Q h' (Ret (inr x))
      | Panic e => Q h' (Panic e)
      end)) ->
  (forall h s, I h s -> Q h (Ret (inl s))) ->
  wp ok G (for_each f l s) h Q.
Proof.
  revert s h; induction l as [|a l IH]; intros s h HI Hf HQ; simpl; [by apply HQ|].
  apply wp_bind. eapply wp_mono; [apply Hf; [by left|done]|].
  intros h' [[s'|x]|e] H; simpl in *; [|done..].
  apply IH; [done| |done]. intros ??? Hb. apply Hf. by right.
Qed.

(** Deferring a program whose calls are always allowed and which cannot panic. *)
Lemma wp_deferring {A} (d : prog answer unit) (p : prog answer A) h Q :
  wp ok G p h (fun h' r => wp ok G d h' (fun h'' r' =>
    match r' with Ret _ => Q h'' r | Panic s => Q h'' (Panic s) end)) ->
  wp ok G (deferring d p) h Q.
Proof.
  revert h; induction p as [a|s|c k IH]; intros h; simpl.
  - intros H. apply wp_bind. eapply wp_mono; [exact H|]. by intros h' [[]|].
  - intros H. apply wp_bind. eapply wp_mono; [exact H|]. by intros h' [[]|].
  - intros [Hc Hk]. split; [done|]. intros x Hx. by apply IH, Hk.
Qed.
End logic.

(** ** Triples

    [hoare R Pre p Post]: from a history that satisfies [Pre], every call of [p] satisfies the
    guard, the history grows along [R], and if [p] returns, [Post] holds of the history then
    and of what it returned. *)
Section hoare.
Context (ok : forall c, answer c -> Prop) (G : list (event answer) -> call -> Prop).
Context (R : list (event answer) -> list (event answer) -> Prop) {HR : PreOrder R}.

Definition hoare {A} (Pre : list (event answer) -> Prop) (p : prog answer A)
    (Post : list (event answer) -> A -> Prop) : Prop :=
  forall h, Pre h -> wp ok G p h (fun h' r =>
    R h h' /\ match r with Ret a => Post h' a | Panic _ => True end).

(** Facts of a history that [R] keeps. *)
Definition stable (F : list (event answer) -> Prop) : Prop := forall h h', R h h' -> F h -> F h'.

Lemma hoare_ret {A} (Pre : list (event answer) -> Prop) (Post : list (event answer) -> A -> Prop) a :
  (forall h, Pre h -> Post h a) -> hoare Pre (Done a) Post.
Proof using HR. intros H h HPre. simpl. split; [done|]. by apply H. Qed.

Lemma hoare_crash {A} Pre (Post : list (event answer) -> A -> Prop) s : hoare Pre (Crash s) Post.
Proof using HR. intros h _. by split. Qed.

Lemma hoare_conseq {A} (Pre Pre' : list (event answer) -> Prop) (Post Post' : list (event answer) -> A -> Prop) p :
  hoare Pre p Post -> (forall h, Pre' h -> Pre h) -> (forall h a, Pre' h -> Post h a -> Post' h a) ->
  stable Pre' -> hoare Pre' p Post'.
Proof using HR.
  intros H HPre HPost Hs h Hh. eapply wp_mono; [by apply H, HPre|].
  intros h' [a|e] [Hext Ha]; (split; [done|]); [|done]. apply HPost; [by eapply Hs|done].
Qed.

Lemma hoare_mono {A} (Pre Pre' : list (event answer) -> Prop) (Post Post' : list (event answer) -> A -> Prop) p :
  hoare Pre p Post -> (forall h, Pre' h -> Pre h) -> (forall h a, Post h a -> Post' h a) -> hoare Pre' p Post'.
Proof using.
  intros H HPre HPost h Hh. eapply wp_mono; [by apply H, HPre|].
  intros h' [a|e] [Hext Ha]; (split; [done|]); [by apply HPost|done].
Qed.

(** Sequencing; a stable fact [F] of the start is still there afterwards. *)
Lemma hoare_bind {A B} (F Pre : list (event answer) -> Prop) (Mid : list (event answer) -> A -> Prop)
    (Post : list (event answer) -> B -> Prop) (p : prog answer A) (f : A -> prog answer B) :
  stable F -> hoare Pre p Mid -> (forall h, Pre h -> F h) ->
  (forall a, hoare (fun h => F h /\ Mid h a) (f a) Post) ->
  hoare Pre (prog_bind f p) Post.
Proof using HR.
  intros HF Hp HPre Hf h Hh. apply wp_bind. eapply wp_mono; [by apply Hp|].
  intros h' [a|e] [Hext Ha]; simpl; [|done].
  eapply wp_mono; [apply Hf; split; [by eapply HF, HPre|done]|].
  intros h'' r [Hext' Hr]. split; [by etrans|done].
Qed.

Lemma hoare_ask (Pre : list (event answer) -> Prop) (c : call) (Post : list (event answer) -> answer c -> Prop) :
  (forall h, Pre h -> G h c /\ forall x, ok c x -> R h (Event c x :: h) /\ Post (Event c x :: h) x) ->
  hoare Pre (ask c) Post.
Proof using. intros H h Hh. unfold ask. simpl. split; [by apply H|]. intros x Hx. by apply H. Qed.

Lemma hoare_lift {A} (Pre : list (event answer) -> Prop) (Post : list (event answer) -> A -> Prop) (m : go A) :
  (forall h a, Pre h -> m = Ret a -> Post h a) -> hoare Pre (lift m) Post.
Proof using HR. intros H h Hh. apply wp_lift. split; [done|]. destruct m; [by apply H|done]. Qed.

(** The loop rule: an invariant of the history, the elements seen and the state. *)
Lemma hoare_for_each {A S B} (I : list (event answer) -> list A -> S -> Prop)
    (Q : list (event answer) -> B -> Prop) (f : S -> A -> prog answer (S + B)) (l : list A) (s : S) :
  (forall seen a rest s, l = seen ++ a :: rest -> hoare (fun h => I h seen s) (f s a)
     (fun h r => match r with inl s' => I h (seen ++ [a]) s' | inr x => Q h x end)) ->
  hoare (fun h => I h [] s) (for_each f l s) (fun h r => match r with inl s' => I h l s' | inr x => Q h x end).
Proof using HR.
  intros Hf. assert (Hgen : forall l' seen s, l = seen ++ l' ->
    hoare (fun h => I h seen s) (for_each f l' s)
      (fun h r => match r with inl s' => I h l s' | inr x => Q h x end)).
  { induction l' as [|a l' IH]; intros seen s0 Hl h Hh; simpl.
    - rewrite app_nil_r in Hl. subst. by split.
    - apply wp_bind. eapply wp_mono; [by eapply Hf|].
      intros h' [[s'|x]|e] [Hext Hr]; simpl in *; [|by split..].
      eapply wp_mono; [apply (IH (seen ++ [a])); [by rewrite <-app_assoc|done]|].
      intros h'' r [Hext' Hr']. split; [by etrans|done]. }
  by apply (Hgen l []).
Qed.

Lemma hoare_deferring {A} (Pre : list (event answer) -> Prop) (Post : list (event answer) -> A -> Prop)
    (d : prog answer unit) (p : prog answer A) :
  hoare Pre p Post -> hoare (fun _ => True) d (fun _ _ => True) -> (forall a, stable (fun h => Post h a)) ->
  hoare Pre (deferring d p) Post.
Proof using HR.
  intros Hp Hd Hs h Hh. apply wp_deferring. eapply wp_mono; [by apply Hp|].
  intros h' r [Hext Hr]. eapply wp_mono; [by apply Hd|].
  intros h'' [[]|e] [Hext' _]; (split; [by etrans|]); [|done].
  destruct r as [a|e]; [by eapply Hs|done].
Qed.
End hoare.

(** ** Running against concrete services *)

Section run.
Context {S : Type} (serve : forall c, S -> answer c * S).

Fixpoint run {A} (p : prog answer A) (s : S) : go A * S * list call :=
  match p with
  | Done a => (Ret a, s, [])
  | Crash m => (Panic m, s, [])
  | Call c k =>
      let '(x, s1) := serve c s in
      let '(r, s2, l) := run (k x) s1 in (r, s2, c :: l)
  end.

Lemma run_exec {A} (ok : forall c, answer c -> Prop) (p : prog answer A) s h :
  (forall c s, ok c (fst (serve c s))) ->
  exists h', exec ok p h h' (fst (fst (run p s))).
Proof.
  intros Hok. revert s h; induction p as [a|m|c k IH]; intros s h; simpl; [eauto..|].
  destruct (serve c s) as [x s1] eqn:Hx.
  destruct (IH x s1 (Event c x :: h)) as [h' Hexec].
  exists h', x. split.
  - pose proof (Hok c s) as Hc. by rewrite Hx in Hc.
  - by destruct (run (k x) s1) as [[r s2] l].
Qed.
End run.

(** Running against services that answer from the history alone; the run is an execution
    when all of its answers are admissible. *)
Fixpoint replay {A} (serve : list (event answer) -> forall c, answer c) (p : prog answer A)
    (h : list (event answer)) : list (event answer) * go A :=
  match p with
  | Done a => (h, Ret a)
  | Crash m => (h, Panic m)
  | Call c k => replay serve (k (serve h c)) (Event c (serve h c) :: h)
  end.

Lemma replay_extends {A} serve (p : prog answer A) h :
  exists new, fst (replay serve p h) = new ++ h.
Proof.
  revert h; induction p as [a|m|c k IH]; intros h; simpl; [by exists []..|].
  destruct (IH (serve h c) (Event c (serve h c) :: h)) as [new ->].
  exists (new ++ [Event c (serve h c)]). by rewrite <-app_assoc.
Qed.

Lemma replay_exec {A} (ok : forall c, answer c -> Prop) serve (p : prog answer A) h :
  Forall (fun e => ok (ev_call e) (ev_answer e)) (fst (replay serve p h)) ->
  exec ok p h (fst (replay serve p h)) (snd (replay serve p h)).
Proof.
  revert h; induction p as [a|m|c k IH]; intros h; simpl; [done..|].
  intros Hall. exists (serve h c). split; [|by apply IH].
  destruct (replay_extends serve (k (serve h c)) (Event c (serve h c) :: h)) as [new Hnew].
  rewrite Hnew in Hall. apply Forall_app in Hall as [_ Hall]. by apply Forall_inv in Hall.
Qed.
End prog_ops.

(** Handlers return [(result, error)] pairs; [let? x := m orelse e => h in k] is
    [x, e := m; if e != nil { h }; k], and [check m orelse e => h in k] drops [x]. *)
Notation "'let?' x ':=' m 'orelse' e '=>' h 'in' k" :=
  (m ≫= (fun r => match r with inl e => h | inr x => k end))
  (at level 10, x pattern, e name, m at level 100, h at level 200, k at level 200,
   format "'let?'  x  ':='  m  'orelse'  e  '=>'  h  'in' '//' k") : naglfar_scope.
Notation "'check' m 'orelse' e '=>' h 'in' k" :=
  (m ≫= (fun r => match r with Some e => h | None => k end))
  (at level 10, e name, m at level 100, h at level 200, k at level 200,
   format "'check'  m  'orelse'  e  '=>'  h  'in' '//' k") : naglfar_scope.

(** Symbolic execution of [wp] goals: run the program to its next call or result. *)
Ltac wp_run :=
  cbn [wp prog_bind mbind mret prog_bind_inst prog_ret_inst ask lift deferring for_each].
