(* ===== verification/Util.v ===== *)
(** * pkg/util and pkg/ref

    [pkg/util]: slices of strings, sizes in bytes, times and durations. [pkg/ref]: the
    references to objects that the relationship's maps are keyed by. *)

From Stdlib Require Import Ascii.
From S2P Require Import Prelude GoStd.

(** ** pkg/util/slice.go *)

Module Slice.

Definition StringsContains (list : list string) (target : string) : bool :=
  existsb (fun elem => String.eqb elem target) list.

(** The capacity [len(list)-1] is negative for an empty list, and [make] panics then. *)
Definition StringsRemove (l : list string) (target : string) : go (list string) :=
  newList ← make_slice (len l - 1);
  Ret (fold_left (fun newList elem =>
         if negb (String.eqb target elem) then newList ++ [elem] else newList) l newList).

Lemma StringsContains_spec l s : StringsContains l s = true <-> s ∈ l.
Proof.
  unfold StringsContains. rewrite existsb_exists. setoid_rewrite String.eqb_eq.
  split.
  - intros (x & Hin & <-). by apply list_elem_of_In.
  - intros Hin. exists s. split; [by apply list_elem_of_In|done].
Qed.

Lemma append_filter {A} (p : A -> bool) l acc :
  fold_left (fun acc a => if p a then acc ++ [a] else acc) l acc = acc ++ filterb p l.
Proof.
  revert acc; induction l as [|a l IH]; intros acc; simpl.
  - by rewrite app_nil_r.
  - rewrite IH. unfold filterb. simpl. destruct (p a); [by rewrite <-app_assoc|done].
Qed.

Lemma StringsRemove_Ret l s :
  l <> [] -> StringsRemove l s = Ret (filterb (fun e => negb (String.eqb s e)) l).
Proof.
  intros Hne. unfold StringsRemove, make_slice.
  destruct (Z.ltb_spec (len l - 1) 0) as [H|H].
  - destruct l; [done|]. rewrite len_cons in H. pose proof (len_nonneg l). lia.
  - simpl. by rewrite append_filter.
Qed.

Lemma StringsRemove_nil s : panics (StringsRemove [] s).
Proof. eexists. reflexivity. Qed.

Lemma StringsRemove_not_contains l l' s : StringsRemove l s = Ret l' -> s ∉ l'.
Proof.
  intros H. destruct (decide (l = [])) as [->|Hne].
  { destruct (StringsRemove_nil s) as [e He]. by rewrite He in H. }
  rewrite StringsRemove_Ret in H by done. injection H as <-.
  intros Hin. apply elem_of_filterb in Hin as [_ Hs].
  by rewrite String.eqb_refl in Hs.
Qed.

(** [StringsRemove] keeps the other elements, in order, and none equal to the target; on
    an empty list it does not return the empty list, it panics. *)
Lemma StringsRemove_spec l s :
  match StringsRemove l s with
  | Ret l' => l <> [] /\ l' = filterb (fun e => negb (String.eqb s e)) l /\ s ∉ l'
  | Panic _ => l = []
  end.
Proof.
  destruct (decide (l = [])) as [->|Hne]; [done|].
  rewrite StringsRemove_Ret by done. split; [done|]. split; [done|].
  by eapply StringsRemove_not_contains, StringsRemove_Ret.
Qed.

End Slice.

(** ** pkg/util/bytes_size.go

    github.com/docker/go-units is not code of the repository: parsing a size and printing one
    are parameters. What the code relies on is documented there: a parsed size is an int64, a
    printed non-negative size below 1 EiB parses back (the printing keeps four significant
    digits, so not to the same number), zero to zero, and neither the empty string nor a
    printed negative size parses. *)

Class Units := {
  RAMInBytes : string -> option Z;
  units_BytesSize : Z -> string;
}.

Class UnitsLaws (U : Units) : Prop := {
  units_parse_range s n : RAMInBytes s = Some n -> in_int64 n;
  units_print_parse n : 0 <= n < 2 ^ 60 -> exists n', RAMInBytes (units_BytesSize n) = Some n';
  units_zero : RAMInBytes (units_BytesSize 0) = Some 0;
  units_empty : RAMInBytes "" = None;
  units_negative n : n < 0 -> RAMInBytes (units_BytesSize n) = None;
}.

Module BytesSize.
Section BytesSize.
Context {U : Units}.

(** [type BytesSize string]. *)
Definition t := string.

Definition ToSize (b : t) : option Z := RAMInBytes b.

Definition Unwrap (b : t) : go Z :=
  match ToSize b with
  | Some size => Ret size
  | None => Panic ("BytesSize(" +:+ b +:+ ") is invalid")
  end.

Definition Size (size : Z) : t := units_BytesSize (float64_of_int size).

Definition Zero (b : t) : t := Size 0.

Definition Sub (b other : t) : go t :=
  x ← Unwrap b;
  y ← Unwrap other;
  Ret (Size (wrap64 (x - y))).

Lemma Unwrap_Ret b n : Unwrap b = Ret n <-> ToSize b = Some n.
Proof. unfold Unwrap. destruct (ToSize b); split; congruence. Qed.

Lemma Unwrap_panics b : ToSize b = None -> panics (Unwrap b).
Proof. intros H. unfold Unwrap, panics. rewrite H. eauto. Qed.

Context {L : UnitsLaws U}.

Lemma Unwrap_range b n : Unwrap b = Ret n -> in_int64 n.
Proof. intros H%Unwrap_Ret. by eapply units_parse_range. Qed.

Lemma Unwrap_Zero b : Unwrap (Zero b) = Ret 0.
Proof. apply Unwrap_Ret. unfold ToSize, Zero, Size. simpl. apply units_zero. Qed.

Lemma float64_of_int_neg z : z < 0 -> float64_of_int z < 0.
Proof.
  intros Hz. unfold float64_of_int. destruct (Z.ltb_spec (Z.abs z) (2 ^ 53)); [lia|].
  set (e := Z.log2 (Z.abs z) - 52).
  assert (Hlog : 53 <= Z.log2 (Z.abs z)) by (apply Z.log2_le_pow2; lia).
  assert (He : 0 < 2 ^ e) by (apply Z.pow_pos_nonneg; lia).
  assert (Hq : 0 < Z.abs z / 2 ^ e).
  { apply Z.div_str_pos. split; [done|].
    pose proof (Z.log2_spec (Z.abs z) ltac:(lia)) as [Hl _].
    etrans; [|exact Hl]. apply Z.pow_le_mono_r; lia. }
  rewrite Z.sgn_neg by lia.
  match goal with |- context [if ?c then _ else _] => destruct c end; nia.
Qed.

Lemma float64_of_int_nonneg z : 0 <= z -> 0 <= float64_of_int z <= 2 * z.
Proof.
  intros Hz. unfold float64_of_int. rewrite Z.abs_eq by done.
  destruct (Z.ltb_spec z (2 ^ 53)); [lia|]. set (e := Z.log2 z - 52).
  assert (Hlog : 53 <= Z.log2 z) by (apply Z.log2_le_pow2; lia).
  assert (He : 0 < 2 ^ e) by (apply Z.pow_pos_nonneg; lia).
  assert (Hhalf : 2 * 2 ^ (e - 1) = 2 ^ e).
  { rewrite <-Z.pow_succ_r by lia. f_equal. lia. }
  pose proof (Z.div_mod z (2 ^ e) ltac:(lia)) as Hdm.
  pose proof (Z.mod_pos_bound z (2 ^ e) He) as Hmod.
  pose proof (Z.div_pos z (2 ^ e) Hz He) as Hq.
  rewrite Z.sgn_pos by lia.
  destruct (Z.ltb_spec (2 ^ (e - 1)) (z mod 2 ^ e)) as [Hr|Hr]; simpl; [nia|].
  destruct (Z.eqb_spec (z mod 2 ^ e) (2 ^ (e - 1))) as [Hr'|Hr']; simpl; [destruct (Z.odd _); nia|nia].
Qed.

(** C39. [Sub] of two sizes, neither negative and the first below 2^59, never panics itself, and what it returns is a size a later [Unwrap]
    accepts exactly when nothing more was taken than was there: a reserve larger than the
    memory leaves a size on which every later comparison panics. *)
Theorem Sub_usable b other x y :
  Unwrap b = Ret x -> Unwrap other = Ret y -> 0 <= x < 2 ^ 59 -> 0 <= y ->
  exists r, Sub b other = Ret r /\ (returns (Unwrap r) <-> y <= x).
Proof.
  intros Hx Hy Hxb Hyb. unfold Sub. rewrite Hx; simpl. rewrite Hy; simpl. eexists; split; [done|].
  pose proof (Unwrap_range _ _ Hx). pose proof (Unwrap_range _ _ Hy).
  rewrite wrap64_id by (unfold in_int64 in *; lia). split.
  - intros [n Hn]. apply Unwrap_Ret in Hn. destruct (Z.le_gt_cases y x) as [|Hlt]; [done|]. exfalso.
    unfold ToSize, Size in Hn. rewrite units_negative in Hn; [done|]. apply float64_of_int_neg. lia.
  - intros Hle. pose proof (float64_of_int_nonneg (x - y) ltac:(lia)).
    destruct (units_print_parse (float64_of_int (x - y)) ltac:(lia)) as [n Hn].
    exists n. by apply Unwrap_Ret.
Qed.
End BytesSize.
End BytesSize.

(** ** A concrete instance

    Sizes printed exactly, as binary digits, the least significant first; the examples and
    witnesses of the development run on it. *)

Module BinarySizes.
Fixpoint print_pos (p : positive) : string :=
  match p with
  | xH => "1"
  | xO p => String "0" (print_pos p)
  | xI p => String "1" (print_pos p)
  end.
Definition print (z : Z) : string :=
  match z with Z0 => "0" | Zpos p => print_pos p | Zneg p => String "-" (print_pos p) end.

Fixpoint value (s : string) : option Z :=
  match s with
  | EmptyString => Some 0
  | String c s' =>
      d ← (if decide (c = "0"%char) then Some 0 else if decide (c = "1"%char) then Some 1 else None);
      n ← value s'; Some (d + 2 * n)
  end.
Definition parse (s : string) : option Z :=
  match s with
  | EmptyString => None
  | _ => n ← value s; if n <? 2 ^ 63 then Some n else None
  end.

Lemma value_range s n : value s = Some n -> 0 <= n.
Proof.
  revert n; induction s as [|c s IH]; intros n; simpl; [by intros [= <-]|].
  destruct (value s) as [m|]; [specialize (IH m eq_refl)|];
    repeat destruct (decide _); simpl; intros H; try discriminate; injection H; lia.
Qed.

Lemma value_print_pos p : value (print_pos p) = Some (Zpos p).
Proof. induction p as [p IH|p IH|]; simpl; [rewrite IH|rewrite IH|]; done. Qed.

#[export] Instance units : Units := {| RAMInBytes := parse; units_BytesSize := print |}.

#[export] Instance laws : UnitsLaws units.
Proof.
  assert (Hpos : forall p, print_pos p <> EmptyString) by by intros [].
  split; simpl.
  - intros s n. unfold parse. destruct s as [|c s]; [done|].
    destruct (value _) as [m|] eqn:Hm; simpl; [|done].
    destruct (Z.ltb_spec m (2 ^ 63)); [|done]. intros [= <-].
    apply value_range in Hm. unfold in_int64. lia.
  - intros n Hn. destruct n as [|p|p]; [by exists 0| |lia]. exists (Zpos p). simpl. unfold parse.
    specialize (Hpos p). pose proof (value_print_pos p) as Hv.
    destruct (print_pos p); [done|]. rewrite Hv. simpl.
    destruct (Z.ltb_spec (Zpos p) (2 ^ 63)); [done|lia].
  - done.
  - done.
  - intros n Hn. destruct n as [|p|p]; [lia..|]. done.
Qed.
End BinarySizes.

Lemma Sub_usable_witness :
  exists r, BytesSize.Sub (U := BinarySizes.units) "01" "11" = Ret r /\
            ~ returns (BytesSize.Unwrap (U := BinarySizes.units) r).
Proof.
  destruct (BytesSize.Sub_usable (L := BinarySizes.laws) "01" "11" 2 3 eq_refl eq_refl
              ltac:(lia) ltac:(lia)) as (r & Hr & Hiff).
  exists r. split; [exact Hr|]. intros H. apply Hiff in H. lia.
Defined.

(** ** pkg/util/math.go *)

Module Math.
Definition MinDuration (durations : list Z) : Z :=
  fold_left (fun min duration => if duration <? min then duration else min) durations maxInt.

Lemma fold_min_spec l m :
  let r := fold_left (fun min d => if d <? min then d else min) l m in
  r <= m /\ (forall d, d ∈ l -> r <= d) /\ (r = m \/ r ∈ l).
Proof.
  revert m; induction l as [|a l IH]; intros m; simpl.
  - split; [lia|]. split; [set_solver|auto].
  - specialize (IH (if a <? m then a else m)). simpl in IH.
    destruct IH as (H1 & H2 & H3).
    destruct (Z.ltb_spec a m); (split; [lia|split]).
    + intros d [->|Hd]%elem_of_cons; auto.
    + destruct H3 as [->|H3]; [right; left|right; by right].
    + intros d [->|Hd]%elem_of_cons; [lia|auto].
    + destruct H3 as [->|H3]; [by left|right; by right].
Qed.

(** [MinDuration] is the least of its arguments; of none it is the largest duration. *)
Lemma MinDuration_spec l :
  MinDuration l <= maxInt /\ (forall d, d ∈ l -> MinDuration l <= d) /\
  (MinDuration l = maxInt \/ MinDuration l ∈ l).
Proof. apply fold_min_spec. Qed.
End Math.

(** ** pkg/ref/ref.go *)

Record NamespacedName := mkNamespacedName {
  NamespacedName_Namespace : string;
  NamespacedName_Name : string;
}.
#[export] Instance NamespacedName_eq_dec : EqDecision NamespacedName.
Proof. solve_decision. Defined.

Record Ref := mkRef {
  Ref_Namespace : string;
  Ref_Name : string;
  Ref_UID : string;
}.
#[export] Instance Ref_eq_dec : EqDecision Ref.
Proof. solve_decision. Defined.
#[export] Instance Ref_countable : Countable Ref.
Proof.
  refine (inj_countable' (fun r => (Ref_Namespace r, Ref_Name r, Ref_UID r))
            (fun '(a, b, c) => mkRef a b c) _).
  by intros [].
Qed.

Definition Namespaced (r : Ref) : NamespacedName :=
  mkNamespacedName (Ref_Namespace r) (Ref_Name r).

Definition Key (r : Ref) : string :=
  Ref_Namespace r +:+ "/" +:+ Ref_Name r +:+ "/" +:+ Ref_UID r.

Definition ParseKey (key : string) : go Ref :=
  match strs.Split key "/" with
  | [ns; name; uid] => Ret (mkRef ns name uid)
  | _ => Panic ("invalid key: " +:+ key)
  end.

(** Kubernetes names and UIDs hold no slash. *)
Definition slash_free (r : Ref) : Prop :=
  strs.free_of "/" (Ref_Namespace r) /\ strs.free_of "/" (Ref_Name r) /\
  strs.free_of "/" (Ref_UID r).
#[export] Instance slash_free_dec r : Decision (slash_free r).
Proof. unfold slash_free. apply _. Defined.

Lemma ParseKey_of_Key r : slash_free r -> ParseKey (Key r) = Ret r.
Proof.
  intros (Hns & Hname & Huid). unfold ParseKey, Key. destruct r as [ns name uid]; simpl in *.
  change "/" with (strs.sep1 "/").
  rewrite strs.Split_cons, strs.Split_cons, strs.Split_one by done. done.
Qed.

(** The key identifies the reference, so the relationship's maps can be keyed by it. *)
Lemma Key_inj_slash_free r1 r2 : slash_free r1 -> slash_free r2 -> Key r1 = Key r2 -> r1 = r2.
Proof.
  intros H1 H2 Hk.
  pose proof (ParseKey_of_Key r1 H1) as E1. pose proof (ParseKey_of_Key r2 H2) as E2.
  rewrite Hk, E2 in E1. congruence.
Qed.

(** A reference of slash-free parts is recovered from its key, so distinct references have
    distinct keys in the relationship's maps. *)
Lemma Key_roundtrip r :
  slash_free r ->
  ParseKey (Key r) = Ret r /\ forall r', slash_free r' -> Key r' = Key r -> r' = r.
Proof. intros H. split; [by apply ParseKey_of_Key|]. intros r' H'. by apply Key_inj_slash_free. Qed.

Lemma Key_roundtrip_witness :
  ParseKey (Key (mkRef "default" "n1" "uid-1")) = Ret (mkRef "default" "n1" "uid-1").
Proof.
  refine (proj1 (Key_roundtrip (mkRef "default" "n1" "uid-1") _)).
  refine (bool_decide_unpack _ _). vm_compute. exact I.
Defined.

#[export] Hint Resolve Key_inj_slash_free Slice.StringsRemove_not_contains : naglfar.
