(* ===== verification/ApiTypes.v ===== *)
(** * api/v1: the objects

    The structs of api/v1/*_types.go, one Record per struct with the struct's fields, and the
    enumerations with their constants. A string enumeration keeps a constructor for the empty
    string (Go's zero value) and one for any other string. Metadata of the Kubernetes API
    machinery the program never reads (TypeMeta, resource versions, ...) is left out;
    [ObjectMeta_Controller] is what [metav1.GetControllerOf] answers on the object. *)

From S2P Require Import Prelude GoStd Util.

(** ** metav1.ObjectMeta *)

Record OwnerReference := mkOwnerReference {
  OwnerReference_APIVersion : string;
  OwnerReference_Kind : string;
  OwnerReference_Name : string;
  OwnerReference_UID : string;
}.

Record ObjectMeta := mkObjectMeta {
  ObjectMeta_Namespace : string;
  ObjectMeta_Name : string;
  ObjectMeta_UID : string;
  ObjectMeta_ResourceVersion : string;
  ObjectMeta_DeletionTimestamp : option Z;
  ObjectMeta_Finalizers : list string;
  ObjectMeta_Controller : option OwnerReference;
}.
#[export] Instance ObjectMeta_eta : Eta ObjectMeta := fun m => {|
  ObjectMeta_Namespace := ObjectMeta_Namespace m;
  ObjectMeta_Name := ObjectMeta_Name m;
  ObjectMeta_UID := ObjectMeta_UID m;
  ObjectMeta_ResourceVersion := ObjectMeta_ResourceVersion m;
  ObjectMeta_DeletionTimestamp := ObjectMeta_DeletionTimestamp m;
  ObjectMeta_Finalizers := ObjectMeta_Finalizers m;
  ObjectMeta_Controller := ObjectMeta_Controller m |}.

#[export] Instance OwnerReference_eq_dec : EqDecision OwnerReference.
Proof. solve_decision. Defined.
#[export] Instance ObjectMeta_eq_dec : EqDecision ObjectMeta.
Proof. solve_decision. Defined.

Definition zeroMeta : ObjectMeta := mkObjectMeta "" "" "" "" None [] None.

(** [meta.DeletionTimestamp.IsZero()], true of a nil timestamp. *)
Definition DeletionTimestamp_IsZero (m : ObjectMeta) : bool :=
  match ObjectMeta_DeletionTimestamp m with None => true | Some t => time.IsZero t end.

(** [ref.CreateRef] (pkg/ref/ref.go). *)
Definition CreateRef (meta : ObjectMeta) : Ref :=
  mkRef (ObjectMeta_Namespace meta) (ObjectMeta_Name meta) (ObjectMeta_UID meta).

(** ** machine_types.go *)

Definition DiskKind := string.
Definition NVMEKind : DiskKind := "nvme".
Definition OtherKind : DiskKind := "other".

Inductive MachineState :=
| MachineStateNone | MachineShutdown | MachineStarting | MachineReady | MachineStateOther (s : string).
#[export] Instance MachineState_eq_dec : EqDecision MachineState.
Proof. solve_decision. Defined.

Record ReserveResources := mkReserveResources {
  ReserveResources_Cores : Z; (* int32 *)
  ReserveResources_Memory : BytesSize.t;
}.
#[export] Instance ReserveResources_eta : Eta ReserveResources := fun r => {|
  ReserveResources_Cores := ReserveResources_Cores r;
  ReserveResources_Memory := ReserveResources_Memory r |}.

Record StorageDevice := mkStorageDevice {
  StorageDevice_Filesystem : string;
  StorageDevice_Total : BytesSize.t;
  StorageDevice_Used : BytesSize.t;
  StorageDevice_MountPoint : string;
}.
#[export] Instance StorageDevice_eta : Eta StorageDevice := fun d => {|
  StorageDevice_Filesystem := StorageDevice_Filesystem d;
  StorageDevice_Total := StorageDevice_Total d;
  StorageDevice_Used := StorageDevice_Used d;
  StorageDevice_MountPoint := StorageDevice_MountPoint d |}.

Record MachineInfo := mkMachineInfo {
  MachineInfo_Architecture : string;
  MachineInfo_Threads : Z; (* int32 *)
  MachineInfo_Memory : BytesSize.t;
  MachineInfo_StorageDevices : gmap string StorageDevice;
}.
#[export] Instance MachineInfo_eta : Eta MachineInfo := fun i => {|
  MachineInfo_Architecture := MachineInfo_Architecture i;
  MachineInfo_Threads := MachineInfo_Threads i;
  MachineInfo_Memory := MachineInfo_Memory i;
  MachineInfo_StorageDevices := MachineInfo_StorageDevices i |}.

Record DiskResource := mkDiskResource {
  DiskResource_Size : BytesSize.t;
  DiskResource_Kind : DiskKind;
  DiskResource_MountPath : string;
}.

Record AvailableResource := mkAvailableResource {
  AvailableResource_Memory : BytesSize.t;
  AvailableResource_IdleCPUSet : list Z;
  AvailableResource_Disks : gmap string DiskResource;
}.
#[export] Instance AvailableResource_eta : Eta AvailableResource := fun a => {|
  AvailableResource_Memory := AvailableResource_Memory a;
  AvailableResource_IdleCPUSet := AvailableResource_IdleCPUSet a;
  AvailableResource_Disks := AvailableResource_Disks a |}.

Record MachineSpec := mkMachineSpec {
  MachineSpec_Host : string;
  MachineSpec_DockerPort : Z;
  MachineSpec_DockerVersion : string;
  MachineSpec_DockerTLS : bool;
  MachineSpec_Reserve : option ReserveResources;
  MachineSpec_ExclusiveDisks : list string;
}.
#[export] Instance MachineSpec_eta : Eta MachineSpec := fun s => {|
  MachineSpec_Host := MachineSpec_Host s;
  MachineSpec_DockerPort := MachineSpec_DockerPort s;
  MachineSpec_DockerVersion := MachineSpec_DockerVersion s;
  MachineSpec_DockerTLS := MachineSpec_DockerTLS s;
  MachineSpec_Reserve := MachineSpec_Reserve s;
  MachineSpec_ExclusiveDisks := MachineSpec_ExclusiveDisks s |}.

Record MachineStatus := mkMachineStatus {
  MachineStatus_State : MachineState;
  MachineStatus_ChaosPort : Z;
  MachineStatus_Info : option MachineInfo;
  MachineStatus_UploadPort : Z;
}.
#[export] Instance MachineStatus_eta : Eta MachineStatus := fun s => {|
  MachineStatus_State := MachineStatus_State s;
  MachineStatus_ChaosPort := MachineStatus_ChaosPort s;
  MachineStatus_Info := MachineStatus_Info s;
  MachineStatus_UploadPort := MachineStatus_UploadPort s |}.

Record Machine := mkMachine {
  Machine_ObjectMeta : ObjectMeta;
  Machine_Spec : MachineSpec;
  Machine_Status : MachineStatus;
}.
#[export] Instance Machine_eta : Eta Machine := fun m => {|
  Machine_ObjectMeta := Machine_ObjectMeta m;
  Machine_Spec := Machine_Spec m;
  Machine_Status := Machine_Status m |}.

Definition Machine_Name (m : Machine) : string := ObjectMeta_Name (Machine_ObjectMeta m).

Definition zeroMachine : Machine :=
  mkMachine zeroMeta (mkMachineSpec "" 0 "" false None [])
    (mkMachineStatus MachineStateNone 0 None 0).

(** ** relationship_types.go *)

Record DiskBinding := mkDiskBinding {
  DiskBinding_Kind : DiskKind;
  DiskBinding_Size : BytesSize.t;
  DiskBinding_Device : string;
  DiskBinding_OriginPath : string;
  DiskBinding_MountPath : string;
}.

Record ResourceBinding := mkResourceBinding {
  ResourceBinding_Memory : BytesSize.t;
  ResourceBinding_CPUSet : list Z;
  ResourceBinding_Disks : gmap string DiskBinding;
}.
#[export] Instance ResourceBinding_eta : Eta ResourceBinding := fun b => {|
  ResourceBinding_Memory := ResourceBinding_Memory b;
  ResourceBinding_CPUSet := ResourceBinding_CPUSet b;
  ResourceBinding_Disks := ResourceBinding_Disks b |}.

Definition zeroBinding : ResourceBinding := mkResourceBinding "" [] ∅.

Record ResourceRef := mkResourceRef {
  ResourceRef_Ref : Ref;
  ResourceRef_Binding : ResourceBinding;
}.
Record MachineRef := mkMachineRef {
  MachineRef_Ref : Ref;
  MachineRef_Binding : ResourceBinding;
}.
Definition zeroMachineRef : MachineRef := mkMachineRef (mkRef "" "" "") zeroBinding.

(** The program only stores non-nil lists, so an entry is nil exactly when it is missing. *)
Definition ResourceRefList := list ResourceRef.
(** A nil slice of accepted requests is told apart from an empty one. *)
Definition AcceptResources := option (list Ref).

Record RelationshipStatus := mkRelationshipStatus {
  MachineToResources : gomap ResourceRefList;
  ResourceToMachine : gomap MachineRef;
  AcceptedRequests : AcceptResources;
  MachineLocks : gomap Ref;
}.
#[export] Instance RelationshipStatus_eta : Eta RelationshipStatus := fun s => {|
  MachineToResources := MachineToResources s;
  ResourceToMachine := ResourceToMachine s;
  AcceptedRequests := AcceptedRequests s;
  MachineLocks := MachineLocks s |}.

Record Relationship := mkRelationship {
  Relationship_ObjectMeta : ObjectMeta;
  Relationship_Status : RelationshipStatus;
}.
#[export] Instance Relationship_eta : Eta Relationship := fun r => {|
  Relationship_ObjectMeta := Relationship_ObjectMeta r;
  Relationship_Status := Relationship_Status r |}.

Definition zeroRelationship : Relationship :=
  mkRelationship zeroMeta (mkRelationshipStatus None None None None).

(** ** testresource_types.go *)

Inductive ResourceState :=
| ResourceStateNone | ResourcePending | ResourceUninitialized | ResourceReady
| ResourceFinish | ResourceDestroy | ResourceStateOther (s : string).
#[export] Instance ResourceState_eq_dec : EqDecision ResourceState.
Proof. solve_decision. Defined.

Definition ResourceState_String (s : ResourceState) : string :=
  match s with
  | ResourceStateNone => ""
  | ResourcePending => "pending"
  | ResourceUninitialized => "uninitialized"
  | ResourceReady => "ready"
  | ResourceFinish => "finish"
  | ResourceDestroy => "destroy"
  | ResourceStateOther s => s
  end.

Inductive ResourcePhase :=
| ResourcePhaseNone | ResourcePhasePending | ResourcePhaseRunning | ResourcePhaseFailed
| ResourcePhaseSucceeded | ResourcePhaseOther (s : string).
#[export] Instance ResourcePhase_eq_dec : EqDecision ResourcePhase.
Proof. solve_decision. Defined.

Definition PullImagePolicy := string.
Definition PullPolicyAlways : PullImagePolicy := "Always".
Definition PullPolicyIfNotPresent : PullImagePolicy := "IfNotPresent".

Record DiskSpec := mkDiskSpec {
  DiskSpec_MountPath : string;
  DiskSpec_Kind : DiskKind;
  DiskSpec_Size : BytesSize.t;
}.
#[export] Instance DiskSpec_eta : Eta DiskSpec := fun d => {|
  DiskSpec_MountPath := DiskSpec_MountPath d;
  DiskSpec_Kind := DiskSpec_Kind d;
  DiskSpec_Size := DiskSpec_Size d |}.

Record TestResourceSpec := mkTestResourceSpec {
  TestResourceSpec_Memory : BytesSize.t;
  TestResourceSpec_Cores : Z; (* int32 *)
  TestResourceSpec_MachineSelector : string;
  TestResourceSpec_Disks : gmap string DiskSpec;
  TestResourceSpec_Machine : string;
}.
#[export] Instance TestResourceSpec_eta : Eta TestResourceSpec := fun s => {|
  TestResourceSpec_Memory := TestResourceSpec_Memory s;
  TestResourceSpec_Cores := TestResourceSpec_Cores s;
  TestResourceSpec_MachineSelector := TestResourceSpec_MachineSelector s;
  TestResourceSpec_Disks := TestResourceSpec_Disks s;
  TestResourceSpec_Machine := TestResourceSpec_Machine s |}.

Record TestResourceMount := mkTestResourceMount {
  TestResourceMount_Type : string;
  TestResourceMount_Source : string;
  TestResourceMount_Target : string;
  TestResourceMount_ReadOnly : bool;
}.

Record ResourceContainerSpec := mkResourceContainerSpec {
  ContainerSpec_Privilege : bool;
  ContainerSpec_CapAdd : list string;
  ContainerSpec_Mounts : list TestResourceMount;
  ContainerSpec_Binds : list string;
  ContainerSpec_Image : string;
  ContainerSpec_ImagePullPolicy : PullImagePolicy;
  ContainerSpec_Command : list string;
  ContainerSpec_Envs : list string;
  ContainerSpec_ExposedPorts : list string;
  ContainerSpec_PortBindings : string;
  ContainerSpec_ClusterIP : string;
}.
#[export] Instance ResourceContainerSpec_eta : Eta ResourceContainerSpec := fun s => {|
  ContainerSpec_Privilege := ContainerSpec_Privilege s;
  ContainerSpec_CapAdd := ContainerSpec_CapAdd s;
  ContainerSpec_Mounts := ContainerSpec_Mounts s;
  ContainerSpec_Binds := ContainerSpec_Binds s;
  ContainerSpec_Image := ContainerSpec_Image s;
  ContainerSpec_ImagePullPolicy := ContainerSpec_ImagePullPolicy s;
  ContainerSpec_Command := ContainerSpec_Command s;
  ContainerSpec_Envs := ContainerSpec_Envs s;
  ContainerSpec_ExposedPorts := ContainerSpec_ExposedPorts s;
  ContainerSpec_PortBindings := ContainerSpec_PortBindings s;
  ContainerSpec_ClusterIP := ContainerSpec_ClusterIP s |}.

Definition zeroContainerSpec : ResourceContainerSpec :=
  mkResourceContainerSpec false [] [] [] "" "" [] [] [] "" "".

(** The container spec is embedded; the status' own [PortBindings] shadows the embedded one. *)
Record TestResourceStatus := mkTestResourceStatus {
  TestResourceStatus_State : ResourceState;
  TestResourceStatus_Phase : ResourcePhase;
  TestResourceStatus_ExitCode : Z;
  TestResourceStatus_Container : ResourceContainerSpec;
  TestResourceStatus_HostIP : string;
  TestResourceStatus_HostName : string;
  TestResourceStatus_Password : string;
  TestResourceStatus_SSHPort : Z;
  TestResourceStatus_PortBindings : string;
  TestResourceStatus_ClaimRef : option Ref;
}.
#[export] Instance TestResourceStatus_eta : Eta TestResourceStatus := fun s => {|
  TestResourceStatus_State := TestResourceStatus_State s;
  TestResourceStatus_Phase := TestResourceStatus_Phase s;
  TestResourceStatus_ExitCode := TestResourceStatus_ExitCode s;
  TestResourceStatus_Container := TestResourceStatus_Container s;
  TestResourceStatus_HostIP := TestResourceStatus_HostIP s;
  TestResourceStatus_HostName := TestResourceStatus_HostName s;
  TestResourceStatus_Password := TestResourceStatus_Password s;
  TestResourceStatus_SSHPort := TestResourceStatus_SSHPort s;
  TestResourceStatus_PortBindings := TestResourceStatus_PortBindings s;
  TestResourceStatus_ClaimRef := TestResourceStatus_ClaimRef s |}.

Record TestResource := mkTestResource {
  TestResource_ObjectMeta : ObjectMeta;
  TestResource_Spec : TestResourceSpec;
  TestResource_Status : TestResourceStatus;
}.
#[export] Instance TestResource_eta : Eta TestResource := fun r => {|
  TestResource_ObjectMeta := TestResource_ObjectMeta r;
  TestResource_Spec := TestResource_Spec r;
  TestResource_Status := TestResource_Status r |}.

Definition TestResource_Name (r : TestResource) : string :=
  ObjectMeta_Name (TestResource_ObjectMeta r).
Definition TestResource_State (r : TestResource) : ResourceState :=
  TestResourceStatus_State (TestResource_Status r).
Definition TestResource_Image (r : TestResource) : string :=
  ContainerSpec_Image (TestResourceStatus_Container (TestResource_Status r)).

Definition zeroResourceStatus : TestResourceStatus :=
  mkTestResourceStatus ResourceStateNone ResourcePhaseNone 0 zeroContainerSpec "" "" "" 0 "" None.
Definition zeroTestResource : TestResource :=
  mkTestResource zeroMeta (mkTestResourceSpec "" 0 "" ∅ "") zeroResourceStatus.

(** ** testresourcerequest_types.go *)

Inductive TestResourceRequestState :=
| TestResourceRequestStateNone | TestResourceRequestPending | TestResourceRequestReady
| TestResourceRequestStateOther (s : string).
#[export] Instance TestResourceRequestState_eq_dec : EqDecision TestResourceRequestState.
Proof. solve_decision. Defined.

Record ResourceRequestItem := mkResourceRequestItem {
  ResourceRequestItem_Name : string;
  ResourceRequestItem_Spec : TestResourceSpec;
}.

Record MachineRequest := mkMachineRequest {
  MachineRequest_Name : string;
  MachineRequest_TestMachineResource : string;
  MachineRequest_Exclusive : bool;
}.

Record TestResourceRequestSpec := mkTestResourceRequestSpec {
  TestResourceRequestSpec_Machines : list MachineRequest;
  TestResourceRequestSpec_Items : list ResourceRequestItem;
}.

Record TestResourceRequest := mkTestResourceRequest {
  TestResourceRequest_ObjectMeta : ObjectMeta;
  TestResourceRequest_Spec : TestResourceRequestSpec;
  TestResourceRequest_State : TestResourceRequestState;
}.
#[export] Instance TestResourceRequest_eta : Eta TestResourceRequest := fun r => {|
  TestResourceRequest_ObjectMeta := TestResourceRequest_ObjectMeta r;
  TestResourceRequest_Spec := TestResourceRequest_Spec r;
  TestResourceRequest_State := TestResourceRequest_State r |}.

Definition TestResourceRequest_Items (r : TestResourceRequest) : list ResourceRequestItem :=
  TestResourceRequestSpec_Items (TestResourceRequest_Spec r).
Definition zeroTestResourceRequest : TestResourceRequest :=
  mkTestResourceRequest zeroMeta (mkTestResourceRequestSpec [] []) TestResourceRequestStateNone.

(** ** procchaos_types.go *)

Record ProcChaosTask := mkProcChaosTask {
  ProcChaosTask_Pattern : string;
  ProcChaosTask_Nodes : list string;
  ProcChaosTask_KillAll : bool;
  ProcChaosTask_Period : string;
}.
Record ProcChaosState := mkProcChaosState {
  ProcChaosState_KilledTime : string;
  ProcChaosState_KilledNode : string;
}.
#[export] Instance ProcChaosState_eta : Eta ProcChaosState := fun s => {|
  ProcChaosState_KilledTime := ProcChaosState_KilledTime s;
  ProcChaosState_KilledNode := ProcChaosState_KilledNode s |}.
Record ProcChaos := mkProcChaos {
  ProcChaos_ObjectMeta : ObjectMeta;
  ProcChaos_Request : string;
  ProcChaos_Tasks : list ProcChaosTask;
  ProcChaos_States : list ProcChaosState;
}.
#[export] Instance ProcChaos_eta : Eta ProcChaos := fun p => {|
  ProcChaos_ObjectMeta := ProcChaos_ObjectMeta p;
  ProcChaos_Request := ProcChaos_Request p;
  ProcChaos_Tasks := ProcChaos_Tasks p;
  ProcChaos_States := ProcChaos_States p |}.
#[export] Instance ProcChaosTask_eq_dec : EqDecision ProcChaosTask.
Proof. solve_decision. Defined.
#[export] Instance ProcChaosState_eq_dec : EqDecision ProcChaosState.
Proof. solve_decision. Defined.
#[export] Instance ProcChaos_eq_dec : EqDecision ProcChaos.
Proof. solve_decision. Defined.

(** ** testworkload_types.go *)

Inductive TestWorkloadState :=
| TestWorkloadStateNone | TestWorkloadStatePending | TestWorkloadStateRunning
| TestWorkloadStateSucceeded | TestWorkloadStateFailed | TestWorkloadStateOther (s : string).
#[export] Instance TestWorkloadState_eq_dec : EqDecision TestWorkloadState.
Proof. solve_decision. Defined.

Record ClusterTopologyRef := mkClusterTopologyRef {
  ClusterTopologyRef_Name : string;
  ClusterTopologyRef_AliasName : string;
}.
Record ResourceRequestRef := mkResourceRequestRef {
  ResourceRequestRef_Name : string;
  ResourceRequestRef_Node : string;
}.
Record ContainerSpec := mkContainerSpec {
  Workload_ResourceRequest : ResourceRequestRef;
  Workload_Image : string;
  Workload_ImagePullPolicy : PullImagePolicy;
  Workload_Command : list string;
}.
Record TestWorkloadItemSpec := mkTestWorkloadItemSpec {
  TestWorkloadItemSpec_Name : string;
  TestWorkloadItemSpec_DockerContainer : option ContainerSpec;
}.
Record TestWorkloadSpec := mkTestWorkloadSpec {
  TestWorkloadSpec_ClusterTopologiesRefs : list ClusterTopologyRef;
  TestWorkloadSpec_Workloads : list TestWorkloadItemSpec;
  TestWorkloadSpec_TeardownTestClusterTopology : list string;
}.
Record WorkloadStatus := mkWorkloadStatus { WorkloadStatus_Phase : ResourcePhase }.
Record TestWorkloadStatus := mkTestWorkloadStatus {
  TestWorkloadStatus_State : TestWorkloadState;
  TestWorkloadStatus_WorkloadStatus : gomap WorkloadStatus;
  TestWorkloadStatus_Results : gomap string;
}.
#[export] Instance TestWorkloadStatus_eta : Eta TestWorkloadStatus := fun s => {|
  TestWorkloadStatus_State := TestWorkloadStatus_State s;
  TestWorkloadStatus_WorkloadStatus := TestWorkloadStatus_WorkloadStatus s;
  TestWorkloadStatus_Results := TestWorkloadStatus_Results s |}.
Record TestWorkload := mkTestWorkload {
  TestWorkload_ObjectMeta : ObjectMeta;
  TestWorkload_Spec : TestWorkloadSpec;
  TestWorkload_Status : TestWorkloadStatus;
}.
#[export] Instance TestWorkload_eta : Eta TestWorkload := fun w => {|
  TestWorkload_ObjectMeta := TestWorkload_ObjectMeta w;
  TestWorkload_Spec := TestWorkload_Spec w;
  TestWorkload_Status := TestWorkload_Status w |}.
