(* ===== verification/TopologyTypes.v ===== *)
(** * api/v1/testclustertopology_types.go

    The description of a TiDB, Flink or DM cluster, its hosts ([AllHosts]) and the status of a
    cluster topology. The component slices of a cluster are kept as [goslice]s: the webhook and
    the controller compare clusters with [reflect.DeepEqual], for which a nil slice differs
    from an empty one. *)

From S2P Require Import Prelude GoStd Util ApiTypes.

Abbreviation goslice A := (option (list A)).
Definition elems {A} (s : goslice A) : list A := default [] s.

Definition PatchPolicy := string.
Definition PatchPolicyReplace : PatchPolicy := "Replace".
Definition PatchPolicyPatch : PatchPolicy := "Patch".

Inductive ClusterTopologyState :=
| ClusterTopologyStateNone | ClusterTopologyStatePending | ClusterTopologyStateReady
| ClusterTopologyStateUpdating | ClusterTopologyStateOther (s : string).
#[export] Instance ClusterTopologyState_eq_dec : EqDecision ClusterTopologyState.
Proof. solve_decision. Defined.

Record TiDBClusterVersion := mkTiDBClusterVersion {
  Version_Version : string;
  Version_TiDBDownloadURL : string;
  Version_TiKVDownloadURL : string;
  Version_PDDownloadURL : string;
  Version_PatchPolicy : PatchPolicy;
}.
#[export] Instance TiDBClusterVersion_eq_dec : EqDecision TiDBClusterVersion.
Proof. solve_decision. Defined.

Record ServerConfigs := mkServerConfigs {
  ServerConfigs_TiDB : string;
  ServerConfigs_TiKV : string;
  ServerConfigs_PD : string;
}.
#[export] Instance ServerConfigs_eq_dec : EqDecision ServerConfigs.
Proof. solve_decision. Defined.

Record TiDBSpec := mkTiDBSpec {
  TiDBSpec_Host : string;
  TiDBSpec_Port : Z;
  TiDBSpec_Config : string;
  TiDBSpec_StatusPort : Z;
  TiDBSpec_DeployDir : string;
  TiDBSpec_LogDir : string;
}.
#[export] Instance TiDBSpec_eq_dec : EqDecision TiDBSpec.
Proof. solve_decision. Defined.
#[export] Instance TiDBSpec_eta : Eta TiDBSpec := fun t => {|
  TiDBSpec_Host := TiDBSpec_Host t; TiDBSpec_Port := TiDBSpec_Port t;
  TiDBSpec_Config := TiDBSpec_Config t; TiDBSpec_StatusPort := TiDBSpec_StatusPort t;
  TiDBSpec_DeployDir := TiDBSpec_DeployDir t; TiDBSpec_LogDir := TiDBSpec_LogDir t |}.
Definition TiDBSpec_EntryID (t : TiDBSpec) : string :=
  TiDBSpec_Host t +:+ ":" +:+ strconv.Itoa (TiDBSpec_Port t).

Record PDSpec := mkPDSpec {
  PDSpec_Host : string;
  PDSpec_ClientPort : Z;
  PDSpec_PeerPort : Z;
  PDSpec_Config : string;
  PDSpec_DeployDir : string;
  PDSpec_DataDir : string;
  PDSpec_LogDir : string;
}.
#[export] Instance PDSpec_eq_dec : EqDecision PDSpec.
Proof. solve_decision. Defined.
#[export] Instance PDSpec_eta : Eta PDSpec := fun t => {|
  PDSpec_Host := PDSpec_Host t; PDSpec_ClientPort := PDSpec_ClientPort t;
  PDSpec_PeerPort := PDSpec_PeerPort t; PDSpec_Config := PDSpec_Config t;
  PDSpec_DeployDir := PDSpec_DeployDir t; PDSpec_DataDir := PDSpec_DataDir t;
  PDSpec_LogDir := PDSpec_LogDir t |}.
Definition PDSpec_EntryID (t : PDSpec) : string :=
  PDSpec_Host t +:+ "-" +:+ strconv.Itoa (PDSpec_ClientPort t).

Record TiKVSpec := mkTiKVSpec {
  TiKVSpec_Host : string;
  TiKVSpec_Port : Z;
  TiKVSpec_StatusPort : Z;
  TiKVSpec_Config : string;
  TiKVSpec_DeployDir : string;
  TiKVSpec_DataDir : string;
  TiKVSpec_LogDir : string;
}.
#[export] Instance TiKVSpec_eq_dec : EqDecision TiKVSpec.
Proof. solve_decision. Defined.
#[export] Instance TiKVSpec_eta : Eta TiKVSpec := fun t => {|
  TiKVSpec_Host := TiKVSpec_Host t; TiKVSpec_Port := TiKVSpec_Port t;
  TiKVSpec_StatusPort := TiKVSpec_StatusPort t; TiKVSpec_Config := TiKVSpec_Config t;
  TiKVSpec_DeployDir := TiKVSpec_DeployDir t; TiKVSpec_DataDir := TiKVSpec_DataDir t;
  TiKVSpec_LogDir := TiKVSpec_LogDir t |}.
Definition TiKVSpec_EntryID (t : TiKVSpec) : string :=
  TiKVSpec_Host t +:+ "-" +:+ strconv.Itoa (TiKVSpec_Port t).

Record PumpSpec := mkPumpSpec {
  PumpSpec_Host : string;
  PumpSpec_SSHPort : Z;
  PumpSpec_Port : Z;
  PumpSpec_DeployDir : string;
  PumpSpec_DataDir : string;
  PumpSpec_Config : string;
}.
#[export] Instance PumpSpec_eq_dec : EqDecision PumpSpec.
Proof. solve_decision. Defined.

Record DrainerSpec := mkDrainerSpec {
  DrainerSpec_Host : string;
  DrainerSpec_Config : string;
  DrainerSpec_SSHPort : Z;
  DrainerSpec_Port : Z;
  DrainerSpec_CommitTS : Z;
  DrainerSpec_DeployDir : string;
  DrainerSpec_DataDir : string;
}.
#[export] Instance DrainerSpec_eq_dec : EqDecision DrainerSpec.
Proof. solve_decision. Defined.

Record PrometheusSpec := mkPrometheusSpec {
  PrometheusSpec_Host : string;
  PrometheusSpec_Port : Z;
  PrometheusSpec_DeployDir : string;
  PrometheusSpec_DataDir : string;
  PrometheusSpec_LogDir : string;
}.
#[export] Instance PrometheusSpec_eq_dec : EqDecision PrometheusSpec.
Proof. solve_decision. Defined.

Record TiFlashSpec := mkTiFlashSpec {
  TiFlashSpec_Host : string;
  TiFlashSpec_TCPPort : Z;
  TiFlashSpec_HTTPPort : Z;
  TiFlashSpec_ServicePort : Z;
  TiFlashSpec_ProxyPort : Z;
  TiFlashSpec_ProxyStatusPort : Z;
  TiFlashSpec_MetricsPort : Z;
  TiFlashSpec_DeployDir : string;
  TiFlashSpec_DataDir : string;
  TiFlashSpec_Config : string;
  TiFlashSpec_LearnerConfig : string;
  TiFlashSpec_LogDir : string;
}.
#[export] Instance TiFlashSpec_eq_dec : EqDecision TiFlashSpec.
Proof. solve_decision. Defined.

Record GrafanaSpec := mkGrafanaSpec {
  GrafanaSpec_Host : string;
  GrafanaSpec_Port : Z;
  GrafanaSpec_DeployDir : string;
}.
#[export] Instance GrafanaSpec_eq_dec : EqDecision GrafanaSpec.
Proof. solve_decision. Defined.

Record Global := mkGlobal {
  Global_DeployDir : string;
  Global_DataDir : string;
}.
#[export] Instance Global_eq_dec : EqDecision Global.
Proof. solve_decision. Defined.

Record CDCSpec := mkCDCSpec {
  CDCSpec_Host : string;
  CDCSpec_Port : Z;
  CDCSpec_DeployDir : string;
  CDCSpec_LogDir : string;
}.
#[export] Instance CDCSpec_eq_dec : EqDecision CDCSpec.
Proof. solve_decision. Defined.

Record AlertManagerSpec := mkAlertManagerSpec {
  AlertManagerSpec_Host : string;
  AlertManagerSpec_WebPort : Z;
  AlertManagerSpec_ClusterPort : Z;
  AlertManagerSpec_DeployDir : string;
  AlertManagerSpec_DataDir : string;
  AlertManagerSpec_LogDir : string;
}.
#[export] Instance AlertManagerSpec_eq_dec : EqDecision AlertManagerSpec.
Proof. solve_decision. Defined.

Record HAProxy := mkHAProxy {
  HAProxy_Host : string;
  HAProxy_Port : Z;
  HAProxy_Version : string;
  HAProxy_Config : string;
}.
#[export] Instance HAProxy_eq_dec : EqDecision HAProxy.
Proof. solve_decision. Defined.

Record TiDBCluster := mkTiDBCluster {
  TiDBCluster_TiUPMirror : string;
  TiDBCluster_UpgradePolicy : string;
  TiDBCluster_Version : TiDBClusterVersion;
  TiDBCluster_Global : option Global;
  TiDBCluster_ServerConfigs : ServerConfigs;
  TiDBCluster_Control : string;
  TiDBCluster_HAProxy : option HAProxy;
  TiDBCluster_TiDB : goslice TiDBSpec;
  TiDBCluster_TiKV : goslice TiKVSpec;
  TiDBCluster_PD : goslice PDSpec;
  TiDBCluster_Pump : goslice PumpSpec;
  TiDBCluster_Drainer : goslice DrainerSpec;
  TiDBCluster_Monitor : goslice PrometheusSpec;
  TiDBCluster_Grafana : goslice GrafanaSpec;
  TiDBCluster_AlertManager : goslice AlertManagerSpec;
  TiDBCluster_CDC : goslice CDCSpec;
  TiDBCluster_TiFlash : goslice TiFlashSpec;
}.
#[export] Instance TiDBCluster_eq_dec : EqDecision TiDBCluster.
Proof. solve_decision. Defined.
#[export] Instance TiDBCluster_eta : Eta TiDBCluster := fun c => {|
  TiDBCluster_TiUPMirror := TiDBCluster_TiUPMirror c;
  TiDBCluster_UpgradePolicy := TiDBCluster_UpgradePolicy c;
  TiDBCluster_Version := TiDBCluster_Version c;
  TiDBCluster_Global := TiDBCluster_Global c;
  TiDBCluster_ServerConfigs := TiDBCluster_ServerConfigs c;
  TiDBCluster_Control := TiDBCluster_Control c;
  TiDBCluster_HAProxy := TiDBCluster_HAProxy c;
  TiDBCluster_TiDB := TiDBCluster_TiDB c;
  TiDBCluster_TiKV := TiDBCluster_TiKV c;
  TiDBCluster_PD := TiDBCluster_PD c;
  TiDBCluster_Pump := TiDBCluster_Pump c;
  TiDBCluster_Drainer := TiDBCluster_Drainer c;
  TiDBCluster_Monitor := TiDBCluster_Monitor c;
  TiDBCluster_Grafana := TiDBCluster_Grafana c;
  TiDBCluster_AlertManager := TiDBCluster_AlertManager c;
  TiDBCluster_CDC := TiDBCluster_CDC c;
  TiDBCluster_TiFlash := TiDBCluster_TiFlash c |}.

(** The components [AllHosts] visits by reflection, in the struct's field order: Pump, Drainer
    and AlertManager are not among them. *)
Definition TiDBCluster_AllHosts (c : TiDBCluster) : gset string :=
  list_to_set
    ([TiDBCluster_Control c]
     ++ match TiDBCluster_HAProxy c with Some h => [HAProxy_Host h] | None => [] end
     ++ (TiDBSpec_Host <$> elems (TiDBCluster_TiDB c))
     ++ (TiKVSpec_Host <$> elems (TiDBCluster_TiKV c))
     ++ (PDSpec_Host <$> elems (TiDBCluster_PD c))
     ++ (PrometheusSpec_Host <$> elems (TiDBCluster_Monitor c))
     ++ (GrafanaSpec_Host <$> elems (TiDBCluster_Grafana c))
     ++ (CDCSpec_Host <$> elems (TiDBCluster_CDC c))
     ++ (TiFlashSpec_Host <$> elems (TiDBCluster_TiFlash c))).

Record JobManagerSpec := mkJobManagerSpec {
  JobManagerSpec_Host : string;
  JobManagerSpec_WebPort : Z;
  JobManagerSpec_Config : string;
}.
Record TaskManagerSpec := mkTaskManagerSpec {
  TaskManagerSpec_Host : string;
  TaskManagerSpec_Config : string;
}.
Record FlinkCluster := mkFlinkCluster {
  FlinkCluster_Version : string;
  FlinkCluster_JobManager : JobManagerSpec;
  FlinkCluster_TaskManager : list TaskManagerSpec;
}.
Definition FlinkCluster_AllHosts (c : FlinkCluster) : gset string :=
  list_to_set (JobManagerSpec_Host (FlinkCluster_JobManager c)
               :: (TaskManagerSpec_Host <$> FlinkCluster_TaskManager c)).

Record DMServerConfigs := mkDMServerConfigs {
  DMServerConfigs_Master : string;
  DMServerConfigs_Worker : string;
}.
Record MasterSpec := mkMasterSpec {
  MasterSpec_Host : string;
  MasterSpec_Port : Z;
  MasterSpec_PeerPort : Z;
  MasterSpec_DeployDir : string;
  MasterSpec_DataDir : string;
  MasterSpec_Config : string;
  MasterSpec_LogDir : string;
}.
Record WorkerSpec := mkWorkerSpec {
  WorkerSpec_Host : string;
  WorkerSpec_Port : Z;
  WorkerSpec_DeployDir : string;
  WorkerSpec_DataDir : string;
  WorkerSpec_LogDir : string;
  WorkerSpec_Config : string;
}.
Record DMCluster := mkDMCluster {
  DMCluster_Version : string;
  DMCluster_Global : option Global;
  DMCluster_ServerConfigs : DMServerConfigs;
  DMCluster_Control : string;
  DMCluster_Master : list MasterSpec;
  DMCluster_Worker : list WorkerSpec;
  DMCluster_AlertManager : list AlertManagerSpec;
  DMCluster_Monitor : list PrometheusSpec;
  DMCluster_Grafana : list GrafanaSpec;
}.
Definition DMCluster_AllHosts (c : DMCluster) : gset string :=
  list_to_set
    ([DMCluster_Control c]
     ++ (MasterSpec_Host <$> DMCluster_Master c)
     ++ (WorkerSpec_Host <$> DMCluster_Worker c)
     ++ (AlertManagerSpec_Host <$> DMCluster_AlertManager c)
     ++ (PrometheusSpec_Host <$> DMCluster_Monitor c)
     ++ (GrafanaSpec_Host <$> DMCluster_Grafana c)).

Record TestClusterTopologySpec := mkTestClusterTopologySpec {
  Topology_ResourceRequest : string;
  Topology_TiDBCluster : option TiDBCluster;
  Topology_FlinkCluster : option FlinkCluster;
  Topology_DMCluster : option DMCluster;
}.

Record TiDBClusterInfo := mkTiDBClusterInfo {
  TiDBClusterInfo_IsScaling : bool;
  TiDBClusterInfo_PendingOfflineList : list string;
  TiDBClusterInfo_OfflineList : list string;
}.
#[export] Instance TiDBClusterInfo_eta : Eta TiDBClusterInfo := fun i => {|
  TiDBClusterInfo_IsScaling := TiDBClusterInfo_IsScaling i;
  TiDBClusterInfo_PendingOfflineList := TiDBClusterInfo_PendingOfflineList i;
  TiDBClusterInfo_OfflineList := TiDBClusterInfo_OfflineList i |}.

Record TestClusterTopologyStatus := mkTestClusterTopologyStatus {
  TopologyStatus_PreTiDBCluster : option TiDBCluster;
  TopologyStatus_TiDBClusterInfo : TiDBClusterInfo;
  TopologyStatus_State : ClusterTopologyState;
}.
#[export] Instance TestClusterTopologyStatus_eta : Eta TestClusterTopologyStatus := fun s => {|
  TopologyStatus_PreTiDBCluster := TopologyStatus_PreTiDBCluster s;
  TopologyStatus_TiDBClusterInfo := TopologyStatus_TiDBClusterInfo s;
  TopologyStatus_State := TopologyStatus_State s |}.

Record TestClusterTopology := mkTestClusterTopology {
  Topology_ObjectMeta : ObjectMeta;
  Topology_Spec : TestClusterTopologySpec;
  Topology_Status : TestClusterTopologyStatus;
}.
#[export] Instance TestClusterTopology_eta : Eta TestClusterTopology := fun t => {|
  Topology_ObjectMeta := Topology_ObjectMeta t;
  Topology_Spec := Topology_Spec t;
  Topology_Status := Topology_Status t |}.
Definition Topology_Name (t : TestClusterTopology) : string :=
  ObjectMeta_Name (Topology_ObjectMeta t).
