(* ===== verification/GoHeap.v ===== *)
(** * Go values that share memory

    Elsewhere a Go value is a Rocq value, pointers and slices included, which is sound as long
    as nothing is changed through one of two references to the same memory. The copies of
    api/v1/zz_generated.deepcopy.go are what the program relies on for that; this file is the
    memory they work on: a heap of cells, values with references into it, the statements the
    generated functions are made of, and the law that makes a function a deep copy. *)

From S2P Require Import Prelude.

(** ** Values and cells *)

Inductive scalar := SInt (z : Z) | SString (s : string) | SBool (b : bool).

Abbreviation addr := positive.

(** A struct holds its fields in place; a slice is the part of an array from an offset on, of
    a length. *)
Inductive gval :=
| VScalar (x : scalar)
| VNil
| VRef (a : addr)
| VSlice (a : addr) (off n : nat)
| VStruct (fields : gmap string gval).

Inductive cell :=
| CVar (v : gval)
| CArray (l : list gval)
| CMap (m : gmap string gval).

Abbreviation heap := (gmap addr cell).

(** The types of the API: what a value of each may refer to. *)
Inductive ty :=
| TScalar
| TPtr (t : ty)
| TSlice (t : ty)
| TMap (t : ty)
| TStruct (fields : list (string * ty)).

(** A value read to the end: what two deeply equal values have in common. *)
Inductive tree :=
| Leaf (x : scalar)
| Nil
| Pointee (t : tree)
| Items (l : list tree)
| Entries (m : gmap string tree)
| Fields (l : list (string * tree)).

Section ty_ind.
Context (P : ty -> Prop).
Context (Hscalar : P TScalar) (Hptr : forall t, P t -> P (TPtr t)) (Hslice : forall t, P t -> P (TSlice t))
  (Hmap : forall t, P t -> P (TMap t)) (Hstruct : forall fs, Forall (fun f => P f.2) fs -> P (TStruct fs)).
Fixpoint ty_deep_ind (t : ty) : P t :=
  match t with
  | TScalar => Hscalar
  | TPtr t => Hptr t (ty_deep_ind t)
  | TSlice t => Hslice t (ty_deep_ind t)
  | TMap t => Hmap t (ty_deep_ind t)
  | TStruct fs => Hstruct fs
      ((fix go fs : Forall (fun f => P f.2) fs :=
          match fs with [] => Forall_nil_2 _ | (n, t) :: l => Forall_cons_2 _ (n, t) l (ty_deep_ind t) (go l) end) fs)
  end.
End ty_ind.

(** ** Reading *)

(** The elements of a slice. *)
Definition slice_items (l : list gval) (off n : nat) : option (list gval) :=
  if (off + n <=? length l)%nat then Some (take n (drop off l)) else None.

Fixpoint read_list {A} (f : gval -> option A) (l : list gval) : option (list A) :=
  match l with
  | [] => Some []
  | x :: l => y ← f x; ys ← read_list f l; Some (y :: ys)
  end.

Definition read_map {A} (f : gval -> option A) (m : gmap string gval) : option (gmap string A) :=
  if bool_decide (map_Forall (fun _ o => is_Some o) (f <$> m)) then Some (omap f m) else None.

Fixpoint read (t : ty) (h : heap) (v : gval) : option tree :=
  match t with
  | TScalar => match v with VScalar x => Some (Leaf x) | _ => None end
  | TPtr t =>
      match v with
      | VNil => Some Nil
      | VRef a => match h !! a with Some (CVar x) => Pointee <$> read t h x | _ => None end
      | _ => None
      end
  | TSlice t =>
      match v with
      | VNil => Some Nil
      | VSlice a off n =>
          match h !! a with
          | Some (CArray l) => xs ← slice_items l off n; Items <$> read_list (read t h) xs
          | _ => None
          end
      | _ => None
      end
  | TMap t =>
      match v with
      | VNil => Some Nil
      | VRef a => match h !! a with Some (CMap m) => Entries <$> read_map (read t h) m | _ => None end
      | _ => None
      end
  | TStruct fs =>
      match v with
      | VStruct m =>
          Fields <$> (fix go (fs : list (string * ty)) : option (list (string * tree)) :=
            match fs with
            | [] => Some []
            | (n, t) :: l => x ← m !! n; y ← read t h x; ys ← go l; Some ((n, y) :: ys)
            end) fs
      | _ => None
      end
  end.

(** The fields of a struct, one by one. *)
Fixpoint read_fields (fs : list (string * ty)) (h : heap) (m : gmap string gval) : option (list (string * tree)) :=
  match fs with
  | [] => Some []
  | (n, t) :: l => x ← m !! n; y ← read t h x; ys ← read_fields l h m; Some ((n, y) :: ys)
  end.

(** A type without references: a value of it is copied by an assignment. *)
Fixpoint flat (t : ty) : bool :=
  match t with
  | TScalar => true
  | TStruct fs => (fix go (fs : list (string * ty)) := match fs with [] => true | (_, t) :: l => flat t && go l end) fs
  | _ => false
  end.

(** ** The statements of a copy

    A [copier] is what the generated code does to give [out] a copy of [in]: from the contents
    of [in], the contents of [out], and the heap afterwards. The order in which a map is ranged
    over is the language's to choose. *)

Definition copier := gval -> heap -> go (gval * heap).

Definition alloc (c : cell) (h : heap) : addr * heap := let a := fresh (dom h) in (a, <[a := c]> h).

Definition nil_deref : string := "invalid memory address or nil pointer dereference".

Definition load (v : gval) (h : heap) : go gval :=
  match v with
  | VRef a => match h !! a with Some (CVar x) => Ret x | _ => Panic nil_deref end
  | _ => Panic nil_deref
  end.

(** The elements of a slice; a nil slice has none. *)
Definition load_items (v : gval) (h : heap) : go (list gval) :=
  match v with
  | VSlice a off n =>
      match h !! a with
      | Some (CArray l) => match slice_items l off n with Some xs => Ret xs | None => Panic nil_deref end
      | _ => Panic nil_deref
      end
  | VNil => Ret []
  | _ => Panic nil_deref
  end.

Definition load_map (v : gval) (h : heap) : go (gmap string gval) :=
  match v with
  | VRef a => match h !! a with Some (CMap m) => Ret m | _ => Panic nil_deref end
  | VNil => Ret ∅
  | _ => Panic nil_deref
  end.

(** [out.F = in.F]. *)
Definition keep : copier := fun v h => Ret (v, h).

(** [if in.F != nil { ... }]: a nil stays a nil. *)
Definition if_set (c : copier) : copier := fun v h =>
  match v with VNil => Ret (VNil, h) | _ => c v h end.

(** [*out = new(T)], and [c] fills it from what [in] points to. The cell is written once it is
    filled: nothing can read it before. *)
Definition new_from (c : copier) : copier := fun v h =>
  x ← load v h;
  '(y, h) ← c x h;
  let '(a, h) := alloc (CVar y) h in
  Ret (VRef a, h).

Fixpoint each (c : copier) (l : list gval) (h : heap) : go (list gval * heap) :=
  match l with
  | [] => Ret ([], h)
  | x :: l => '(y, h) ← c x h; '(ys, h) ← each c l h; Ret (y :: ys, h)
  end.

(** [*out = make([]T, len( *in))] and, for every [i], [c] from element to element. *)
Definition make_each (c : copier) : copier := fun v h =>
  xs ← load_items v h;
  '(ys, h) ← each c xs h;
  let '(a, h) := alloc (CArray ys) h in
  Ret (VSlice a 0 (length ys), h).

(** [*out = make([]T, len( *in)); copy( *out, *in)]. *)
Definition make_copy : copier := fun v h =>
  xs ← load_items v h;
  let '(a, h) := alloc (CArray xs) h in
  Ret (VSlice a 0 (length xs), h).

Section make_map.
Context (order : list (string * gval) -> list (string * gval)).

Fixpoint entries (c : copier) (l : list (string * gval)) (out : gmap string gval) (h : heap)
    : go (gmap string gval * heap) :=
  match l with
  | [] => Ret (out, h)
  | (k, x) :: l => '(y, h) ← c x h; entries c l (<[k := y]> out) h
  end.

(** [*out = make(map[string]T, len( *in))] and [for key, val := range *in { ( *out)[key] = ... }]. *)
Definition make_map (c : copier) : copier := fun v h =>
  m ← load_map v h;
  '(out, h) ← entries c (order (map_to_list m)) ∅ h;
  let '(a, h) := alloc (CMap out) h in
  Ret (VRef a, h).
End make_map.

(** [*val.DeepCopy()]: the copy is made in memory of its own, and read from there. *)
Definition by_copy (c : copier) : copier := fun v h =>
  '(y, h) ← c v h;
  let '(a, h) := alloc (CVar y) h in
  y ← load (VRef a) h;
  Ret (y, h).

Fixpoint assign (statements : list (string * copier)) (m out : gmap string gval) (h : heap)
    : go (gmap string gval * heap) :=
  match statements with
  | [] => Ret (out, h)
  | (n, c) :: l =>
      match m !! n with
      | Some x => '(y, h) ← c x h; assign l m (<[n := y]> out) h
      | None => Panic nil_deref
      end
  end.

(** [*out = *in], then the statements, each on a field. *)
Definition copy_struct (statements : list (string * copier)) : copier := fun v h =>
  match v with
  | VStruct m => '(out, h) ← assign statements m m h; Ret (VStruct out, h)
  | _ => Panic nil_deref
  end.

(** [DeepCopy] around [DeepCopyInto]: a nil is copied to a nil. *)
Definition deep_copy (into : copier) : copier := if_set (new_from into).

(** ** The law

    Whatever the heap: if the value can be read to the end, the copy succeeds, leaves all that
    was there as it was, and the copy reads the same in the memory it allocated alone. *)

Definition copies (t : ty) (c : copier) : Prop := forall h v tr,
  read t h v = Some tr ->
  exists v' new, c v h = Ret (v', h ∪ new) /\ h ##ₘ new /\ read t new v' = Some tr.

(** ** Reading in a larger heap *)

Lemma read_list_mono {A} (f g : gval -> option A) l ys :
  (forall x y, f x = Some y -> g x = Some y) -> read_list f l = Some ys -> read_list g l = Some ys.
Proof.
  intros Hfg. revert ys; induction l as [|x l IH]; intros ys; simpl; [done|].
  intros (y & Hy & H)%bind_Some. apply bind_Some in H as (ys' & Hys & [= <-]).
  by rewrite (Hfg _ _ Hy), (IH _ Hys).
Qed.

Lemma read_map_Some {A} (f : gval -> option A) m tm : read_map f m = Some tm <-> f <$> m = Some <$> tm.
Proof.
  unfold read_map. case_bool_decide as H.
  - split.
    + intros [= <-]. apply map_eq. intros k. rewrite !lookup_fmap, lookup_omap. specialize (H k).
      rewrite lookup_fmap in H. destruct (m !! k) as [x|]; simpl in *; [|done].
      destruct (H _ eq_refl) as [y ->]. done.
    + intros E. f_equal. apply map_eq. intros k. rewrite lookup_omap.
      apply (f_equal (.!! k)) in E. rewrite !lookup_fmap in E.
      destruct (m !! k), (tm !! k); simpl in *; congruence.
  - split; [done|]. intros E. destruct H. rewrite E. intros k o. rewrite lookup_fmap.
    destruct (tm !! k); simpl; [|done]. intros [= <-]. by eexists.
Qed.

Lemma read_map_lookup {A} (f : gval -> option A) m tm :
  read_map f m = Some tm <-> forall k, f <$> m !! k = Some <$> tm !! k.
Proof.
  rewrite read_map_Some. split.
  - intros E k. apply (f_equal (.!! k)) in E. by rewrite !lookup_fmap in E.
  - intros E. apply map_eq. intros k. by rewrite !lookup_fmap.
Qed.

Lemma read_map_mono {A} (f g : gval -> option A) m tm :
  (forall x y, f x = Some y -> g x = Some y) -> read_map f m = Some tm -> read_map g m = Some tm.
Proof.
  intros Hfg. rewrite !read_map_lookup. intros E k. specialize (E k).
  destruct (m !! k), (tm !! k); simpl in *; try done. f_equal. apply Hfg. congruence.
Qed.

Lemma read_struct fs h v :
  read (TStruct fs) h v = match v with VStruct m => Fields <$> read_fields fs h m | _ => None end.
Proof.
  destruct v as [| | | |m]; try done. cbn [read]. f_equal. induction fs as [|[n t] l IH]; [done|].
  cbn [read_fields]. by rewrite <-IH.
Qed.

Lemma read_fields_mono fs h h' m ys :
  Forall (fun f => forall v tr, read f.2 h v = Some tr -> read f.2 h' v = Some tr) fs ->
  read_fields fs h m = Some ys -> read_fields fs h' m = Some ys.
Proof.
  intros Hfs. revert ys; induction Hfs as [|[n t] l Ht _ IH]; intros ys; simpl in *; [done|].
  intros (x & Hx & H)%bind_Some. apply bind_Some in H as (y & Hy & H).
  apply bind_Some in H as (ys' & Hys & [= <-]). rewrite Hx. simpl. rewrite (Ht _ _ Hy). simpl.
  by rewrite (IH _ Hys).
Qed.

Lemma read_mono t h h' v tr : h ⊆ h' -> read t h v = Some tr -> read t h' v = Some tr.
Proof.
  intros Hh. revert v tr. induction t as [|t IH|t IH|t IH|fs IH] using ty_deep_ind; intros v tr.
  - done.
  - destruct v; try done. cbn [read]. destruct (h !! a) as [[x| |]|] eqn:Ha; try done.
    rewrite (lookup_weaken _ _ _ _ Ha Hh). intros (y & Hy & ->)%fmap_Some. by rewrite (IH _ _ Hy).
  - destruct v; try done. cbn [read]. destruct (h !! a) as [[|l|]|] eqn:Ha; try done.
    rewrite (lookup_weaken _ _ _ _ Ha Hh). intros (xs & Hxs & H)%bind_Some.
    apply fmap_Some in H as (ys & Hys & ->). rewrite Hxs. simpl. by rewrite (read_list_mono _ _ _ _ IH Hys).
  - destruct v; try done. cbn [read]. destruct (h !! a) as [[| |m]|] eqn:Ha; try done.
    rewrite (lookup_weaken _ _ _ _ Ha Hh). intros (ys & Hys & ->)%fmap_Some.
    by rewrite (read_map_mono _ _ _ _ IH Hys).
  - rewrite !read_struct. destruct v; try done. intros (ys & Hys & ->)%fmap_Some.
    by rewrite (read_fields_mono _ _ _ _ _ IH Hys).
Qed.

Lemma read_mono_l t h1 h2 v tr : read t h1 v = Some tr -> read t (h1 ∪ h2) v = Some tr.
Proof. apply read_mono, map_union_subseteq_l. Qed.
Lemma read_mono_r t h1 h2 v tr : h1 ##ₘ h2 -> read t h2 v = Some tr -> read t (h1 ∪ h2) v = Some tr.
Proof. intros H. by apply read_mono, map_union_subseteq_r. Qed.
#[export] Hint Resolve read_mono_l read_mono_r : naglfar.

(** A flat type is read without looking at the heap. *)
Lemma flat_fields fs h h' m :
  Forall (fun f => flat f.2 = true -> forall v, read f.2 h v = read f.2 h' v) fs ->
  flat (TStruct fs) = true -> read_fields fs h m = read_fields fs h' m.
Proof.
  induction 1 as [|[n t] l Ht _ IH]; [done|]. intros [H1 H2]%andb_true_iff. simpl in *.
  destruct (m !! n) as [x|]; simpl; [|done]. rewrite (Ht H1 x). destruct (read t h' x); simpl; [|done].
  by rewrite (IH H2).
Qed.

Lemma flat_read t h h' v : flat t = true -> read t h v = read t h' v.
Proof.
  revert v. induction t as [|t IH|t IH|t IH|fs IH] using ty_deep_ind; intros v Hf; try done.
  rewrite !read_struct. destruct v; try done. f_equal. apply flat_fields; [|done].
  revert IH. apply Forall_impl. intros [n t] Ht Hft w. by apply Ht.
Qed.

(** ** Every statement is a deep copy *)

Lemma alloc_copies h new c : h ##ₘ new ->
  exists a, alloc c (h ∪ new) = (a, h ∪ <[a := c]> new) /\ h ##ₘ <[a := c]> new /\ new ⊆ <[a := c]> new.
Proof.
  intros Hd. unfold alloc. pose proof (is_fresh (dom (h ∪ new))) as Hf.
  set (a := fresh (dom (h ∪ new))) in *. rewrite dom_union, not_elem_of_union, !not_elem_of_dom in Hf.
  destruct Hf as [Hh Hn]. exists a. split_and!.
  - by rewrite insert_union_r.
  - by apply map_disjoint_insert_r.
  - by apply insert_subseteq.
Qed.

Lemma copies_keep t : flat t = true -> copies t keep.
Proof.
  intros Hf h v tr H. exists v, ∅. split_and!.
  - by rewrite map_union_empty.
  - apply map_disjoint_empty_r.
  - by rewrite (flat_read _ _ h).
Qed.

(** Nil is read as nil, at the types that have it. *)
Definition nilable (t : ty) : Prop := forall h, read t h VNil = Some Nil.
Lemma nilable_ptr t : nilable (TPtr t). Proof. done. Qed.
Lemma nilable_slice t : nilable (TSlice t). Proof. done. Qed.
Lemma nilable_map t : nilable (TMap t). Proof. done. Qed.
#[export] Hint Resolve nilable_ptr nilable_slice nilable_map : naglfar.

(** A copy of everything but nil. *)
Definition copies_set (t : ty) (c : copier) : Prop := forall h v tr,
  v <> VNil -> read t h v = Some tr ->
  exists v' new, c v h = Ret (v', h ∪ new) /\ h ##ₘ new /\ read t new v' = Some tr.

Lemma copies_if_set t c : nilable t -> copies_set t c -> copies t (if_set c).
Proof.
  intros Hnil H h v tr Hr. destruct v; try (apply H; done).
  exists VNil, ∅. split_and!; [by rewrite map_union_empty|apply map_disjoint_empty_r|].
  rewrite Hnil in Hr. by rewrite Hnil.
Qed.

Lemma copies_new_from t c : copies t c -> copies_set (TPtr t) (new_from c).
Proof.
  intros H h v tr Hv Hr. destruct v; try done. cbn [read] in Hr.
  destruct (h !! a) as [[x| |]|] eqn:Ha; try done. apply fmap_Some in Hr as (y & Hy & ->).
  destruct (H _ _ _ Hy) as (v' & new & Hc & Hd & Hr).
  destruct (alloc_copies h new (CVar v') Hd) as (b & Halloc & Hd' & Hsub).
  exists (VRef b), (<[b := CVar v']> new). unfold new_from, load. rewrite Ha. cbn [mbind go_bind].
  rewrite Hc. cbn [mbind go_bind]. rewrite Halloc. split_and!; [done|done|].
  cbn [read]. rewrite lookup_insert_eq. by rewrite (read_mono _ _ _ _ _ Hsub Hr).
Qed.

Lemma each_copies t c : copies t c -> forall l h trs, read_list (read t h) l = Some trs ->
  exists l' new, each c l h = Ret (l', h ∪ new) /\ h ##ₘ new /\ read_list (read t new) l' = Some trs.
Proof.
  intros H. induction l as [|x l IH]; intros h trs Hr; simpl in Hr.
  - injection Hr as <-. exists [], ∅. split_and!; [by rewrite map_union_empty|apply map_disjoint_empty_r|done].
  - apply bind_Some in Hr as (y & Hy & Hr). apply bind_Some in Hr as (ys & Hys & [= <-]).
    destruct (H _ _ _ Hy) as (v' & new & Hc & Hd & Hv').
    destruct (IH (h ∪ new) ys) as (l' & new' & Hl & Hd' & Hl').
    { eapply read_list_mono; [|exact Hys]. intros z w. apply read_mono_l. }
    apply map_disjoint_union_l in Hd' as [Hd1 Hd2].
    exists (v' :: l'), (new ∪ new'). cbn [each]. rewrite Hc. cbn [mbind go_bind]. rewrite Hl. cbn [mbind go_bind].
    rewrite map_union_assoc. split_and!; [done|by apply map_disjoint_union_r|]. simpl.
    rewrite (read_mono_l _ _ _ _ _ Hv'). simpl.
    by rewrite (read_list_mono _ _ _ _ (fun z w => read_mono_r t new new' z w Hd2) Hl').
Qed.

Lemma load_items_slice h a off n l xs : h !! a = Some (CArray l) -> slice_items l off n = Some xs ->
  load_items (VSlice a off n) h = Ret xs.
Proof. intros Ha Hx. unfold load_items. by rewrite Ha, Hx. Qed.

Lemma slice_items_all l : slice_items l 0 (length l) = Some l.
Proof. unfold slice_items. simpl. by rewrite Nat.leb_refl, drop_0, firstn_all. Qed.

Lemma copies_make_each t c : copies t c -> copies_set (TSlice t) (make_each c).
Proof.
  intros H h v tr Hv Hr. destruct v; try done. cbn [read] in Hr.
  destruct (h !! a) as [[|l|]|] eqn:Ha; try done. apply bind_Some in Hr as (xs & Hxs & Hr).
  apply fmap_Some in Hr as (ys & Hys & ->). destruct (each_copies t c H xs h ys Hys) as (l' & new & Hl & Hd & Hl').
  destruct (alloc_copies h new (CArray l') Hd) as (b & Halloc & Hd' & Hsub).
  exists (VSlice b 0 (length l')), (<[b := CArray l']> new). unfold make_each.
  rewrite (load_items_slice _ _ _ _ _ _ Ha Hxs). cbn [mbind go_bind]. rewrite Hl. cbn [mbind go_bind].
  rewrite Halloc. split_and!; [done|done|]. cbn [read]. rewrite lookup_insert_eq, slice_items_all. simpl.
  by rewrite (read_list_mono _ _ _ _ (fun z w => read_mono t _ _ z w Hsub) Hl').
Qed.

Lemma each_keep l h : each keep l h = Ret (l, h).
Proof. induction l as [|x l IH]; [done|]. cbn [each keep mbind go_bind]. by rewrite IH. Qed.

Lemma copies_make_copy t : flat t = true -> copies_set (TSlice t) make_copy.
Proof.
  intros Hf h v tr Hv Hr. destruct (copies_make_each t keep (copies_keep t Hf) h v tr Hv Hr) as (v' & new & Hc & H).
  exists v', new. split; [|done]. rewrite <-Hc. unfold make_copy, make_each.
  destruct (load_items v h) as [xs|e]; [|done]. cbn [mbind go_bind]. by rewrite each_keep.
Qed.

Lemma by_copy_value t c h v v' new tr :
  c v h = Ret (v', h ∪ new) -> h ##ₘ new -> read t new v' = Some tr ->
  exists v' new, by_copy c v h = Ret (v', h ∪ new) /\ h ##ₘ new /\ read t new v' = Some tr.
Proof.
  intros Hc Hd Hr'. destruct (alloc_copies h new (CVar v') Hd) as (b & Halloc & Hd' & Hsub).
  exists v', (<[b := CVar v']> new). unfold by_copy. rewrite Hc. cbn [mbind go_bind]. rewrite Halloc.
  unfold load. rewrite lookup_union_r by (by eapply map_disjoint_Some_r; [|apply lookup_insert_eq]).
  rewrite lookup_insert_eq. split_and!; [done|done|]. by apply (read_mono _ new).
Qed.

Lemma copies_by_copy t c : copies t c -> copies t (by_copy c).
Proof. intros H h v tr Hr. destruct (H h v tr Hr) as (v' & new & Hc & Hd & Hr'). by eapply by_copy_value. Qed.

Lemma copies_set_by_copy t c : copies_set t c -> copies_set t (by_copy c).
Proof. intros H h v tr Hv Hr. destruct (H h v tr Hv Hr) as (v' & new & Hc & Hd & Hr'). by eapply by_copy_value. Qed.

(** What a run of assignments to distinct names leaves: each name has its copy, the others are
    as they were. The entries of a map and the fields of a struct are both assigned so. *)
Definition assigned (h new : heap) (l : list (string * (gval * ty))) (out out' : gmap string gval) : Prop :=
  (forall k, k ∉ l.*1 -> out' !! k = out !! k) /\
  (forall k x t tr, (k, (x, t)) ∈ l -> read t h x = Some tr -> exists y, out' !! k = Some y /\ read t new y = Some tr).

Lemma assigned_nil h new out : assigned h new [] out out.
Proof. split; [done|]. intros k x t tr H. by apply not_elem_of_nil in H. Qed.

Lemma assigned_cons h new new' k x t y l out out' :
  k ∉ l.*1 -> (h ∪ new) ##ₘ new' ->
  (forall tr, read t h x = Some tr -> read t new y = Some tr) ->
  assigned (h ∪ new) new' l (<[k := y]> out) out' ->
  assigned h (new ∪ new') ((k, (x, t)) :: l) out out'.
Proof.
  intros Hk Hd Hy [H1 H2]. apply map_disjoint_union_l in Hd as [Hd1 Hd2]. split.
  - intros k' [Hne Hk']%not_elem_of_cons. rewrite H1 by done. by rewrite lookup_insert_ne.
  - intros k' x' t' tr [[= -> -> ->]|Hin]%elem_of_cons Hr.
    + exists y. rewrite H1, lookup_insert_eq by done. split; [done|]. by apply read_mono_l, Hy.
    + destruct (H2 k' x' t' tr Hin (read_mono_l _ _ _ _ _ Hr)) as (y' & Hy' & Hr').
      exists y'. split; [done|]. by apply read_mono_r.
Qed.

Section maps.
Context (order : list (string * gval) -> list (string * gval)) (order_perm : forall l, order l ≡ₚ l).

Lemma entries_copies t c : copies t c -> forall l h out, NoDup l.*1 ->
  Forall (fun e => is_Some (read t h e.2)) l ->
  exists out' new, entries c l out h = Ret (out', h ∪ new) /\ h ##ₘ new /\
    assigned h new (prod_map id (., t) <$> l) out out'.
Proof using.
  intros H. induction l as [|[k x] l IH]; intros h out Hnd Hall.
  - exists out, ∅. split_and!; [by rewrite map_union_empty|apply map_disjoint_empty_r|apply assigned_nil].
  - apply list.NoDup_cons in Hnd as [Hk Hnd]. apply list.Forall_cons in Hall as [[tr Htr] Hall]. simpl in Htr.
    destruct (H _ _ _ Htr) as (y & new & Hc & Hd & Hy).
    destruct (IH (h ∪ new) (<[k := y]> out) Hnd) as (out' & new' & Hl & Hd' & Ha).
    { revert Hall. apply Forall_impl. intros [k' x'] [tr' Htr']. exists tr'. by apply read_mono_l. }
    exists out', (new ∪ new'). cbn [entries]. rewrite Hc. cbn [mbind go_bind]. rewrite Hl, map_union_assoc.
    pose proof Hd' as [Hd1 _]%map_disjoint_union_l.
    split_and!; [done|by apply map_disjoint_union_r|]. cbn. apply (assigned_cons _ _ _ _ _ _ y); [|done|congruence|done].
    rewrite <-list_fmap_compose. exact Hk.
Qed.

Lemma copies_make_map t c : copies t c -> copies_set (TMap t) (make_map order c).
Proof using order_perm.
  intros H h v tr Hv Hr. destruct v; try done. cbn [read] in Hr.
  destruct (h !! a) as [[| |m]|] eqn:Ha; try done. apply fmap_Some in Hr as (tm & Hm & ->).
  pose proof (proj1 (read_map_lookup _ _ _) Hm) as Hlook.
  destruct (entries_copies t c H (order (map_to_list m)) h ∅) as (out & new & Hl & Hd & [Hout1 Hout2]).
  { rewrite order_perm. apply NoDup_fst_map_to_list. }
  { rewrite order_perm. apply list.Forall_forall. intros [k x] Hin%elem_of_map_to_list. specialize (Hlook k).
    rewrite Hin in Hlook. simpl in Hlook. destruct (tm !! k) as [y|]; simpl in *; [|done].
    injection Hlook as ->. by eexists. }
  destruct (alloc_copies h new (CMap out) Hd) as (b & Halloc & Hd' & Hsub).
  exists (VRef b), (<[b := CMap out]> new). unfold make_map, load_map. rewrite Ha. cbn [mbind go_bind].
  rewrite Hl. cbn [mbind go_bind]. rewrite Halloc. split_and!; [done|done|].
  cbn [read]. rewrite lookup_insert_eq. rewrite (proj2 (read_map_lookup _ _ tm)); [done|]. intros k.
  specialize (Hlook k). destruct (m !! k) as [x|] eqn:Hk; simpl in Hlook.
  - destruct (tm !! k) as [y|]; [|done]. injection Hlook as Hy.
    destruct (Hout2 k x t y) as (x' & -> & Hx'); [|done|].
    + apply list_elem_of_fmap. exists (k, x). split; [done|]. rewrite order_perm. by apply elem_of_map_to_list.
    + simpl. f_equal. by apply (read_mono _ new).
  - destruct (tm !! k); [done|]. rewrite Hout1; [done|]. rewrite <-list_fmap_compose.
    intros ((k' & x) & -> & Hin)%list_elem_of_fmap. rewrite order_perm in Hin. simpl in Hk.
    apply elem_of_map_to_list in Hin. congruence.
Qed.
End maps.

(** ** Structs *)

Fixpoint statement_of (n : string) (statements : list (string * copier)) : option copier :=
  match statements with
  | [] => None
  | (n', c) :: l => if String.eqb n n' then Some c else statement_of n l
  end.

(** The statements copy every field that has references. *)
Fixpoint covers (fs : list (string * ty)) (statements : list (string * copier)) : Prop :=
  match fs with
  | [] => True
  | (n, t) :: l =>
      match statement_of n statements with Some c => copies t c | None => flat t = true end /\ covers l statements
  end.

(** Fields and statements are named once, and the statements name fields. *)
Definition well_named (fs : list (string * ty)) (names : list string) : bool :=
  bool_decide (NoDup fs.*1) && bool_decide (NoDup names) && forallb (fun n => bool_decide (n ∈ fs.*1)) names.

Lemma statement_of_in n c ss : NoDup ss.*1 -> (n, c) ∈ ss -> statement_of n ss = Some c.
Proof.
  induction ss as [|[n' c'] l IH]; intros Hnd Hin; [by apply not_elem_of_nil in Hin|].
  apply list.NoDup_cons in Hnd as [Hn' Hnd]. simpl.
  apply elem_of_cons in Hin as [[= -> ->]|Hin]; [by rewrite String.eqb_refl|].
  destruct (String.eqb_spec n n') as [->|]; [|by apply IH].
  destruct Hn'. apply list_elem_of_fmap. by exists (n', c).
Qed.

Lemma statement_of_notin n ss : n ∉ ss.*1 -> statement_of n ss = None.
Proof.
  induction ss as [|[n' c'] l IH]; [done|]. intros [Hne Hl]%not_elem_of_cons. simpl.
  simpl in Hne. apply String.eqb_neq in Hne. by rewrite Hne, IH.
Qed.

Lemma covers_in fs ss n t : covers fs ss -> (n, t) ∈ fs ->
  match statement_of n ss with Some c => copies t c | None => flat t = true end.
Proof.
  induction fs as [|[n' t'] l IH]; intros H Hin; [by apply not_elem_of_nil in Hin|]. destruct H as [H1 H2].
  apply elem_of_cons in Hin as [[= -> ->]|Hin]; [done|by apply IH].
Qed.

Lemma read_fields_in fs h m ys n t : read_fields fs h m = Some ys -> (n, t) ∈ fs ->
  exists x tr, m !! n = Some x /\ read t h x = Some tr.
Proof.
  revert ys; induction fs as [|[n' t'] l IH]; intros ys H Hin; [by apply not_elem_of_nil in Hin|].
  simpl in H. apply bind_Some in H as (x & Hx & H). apply bind_Some in H as (y & Hy & H).
  apply bind_Some in H as (ys' & Hys & _). apply elem_of_cons in Hin as [[= -> ->]|Hin]; [by eauto|by eapply IH].
Qed.

Lemma read_fields_ext fs h h' m m' ys :
  (forall n t x tr, (n, t) ∈ fs -> m !! n = Some x -> read t h x = Some tr ->
     exists x', m' !! n = Some x' /\ read t h' x' = Some tr) ->
  read_fields fs h m = Some ys -> read_fields fs h' m' = Some ys.
Proof.
  revert ys; induction fs as [|[n t] l IH]; intros ys Hext H; [done|]. simpl in *.
  apply bind_Some in H as (x & Hx & H). apply bind_Some in H as (y & Hy & H).
  apply bind_Some in H as (ys' & Hys & [= <-]).
  destruct (Hext n t x y) as (x' & -> & Hx'); [by left|done|done|]. simpl. rewrite Hx'. simpl.
  rewrite (IH ys'); [done| |done]. intros n' t' x0 tr Hin. apply Hext. by right.
Qed.

Lemma unique_field (fs : list (string * ty)) n t t' : NoDup fs.*1 -> (n, t') ∈ fs -> (n, t) ∈ fs -> t' = t.
Proof.
  intros Hnd H1%(elem_of_list_to_map_1 (M := gmap string) _ _ _ Hnd)
    H2%(elem_of_list_to_map_1 (M := gmap string) _ _ _ Hnd). congruence.
Qed.

Lemma assign_copies fs m ss : NoDup fs.*1 -> covers fs ss -> forall l h out ys,
  NoDup l.*1 -> (forall n c, (n, c) ∈ l -> statement_of n ss = Some c /\ n ∈ fs.*1) ->
  read_fields fs h m = Some ys ->
  exists out' new, assign l m out h = Ret (out', h ∪ new) /\ h ##ₘ new /\
    (forall n, n ∉ l.*1 -> out' !! n = out !! n) /\
    (forall n t x tr, n ∈ l.*1 -> (n, t) ∈ fs -> m !! n = Some x -> read t h x = Some tr ->
       exists y, out' !! n = Some y /\ read t new y = Some tr).
Proof.
  intros Hfs Hcov. induction l as [|[n c] l IH]; intros h out ys Hnd Hl Hr.
  - exists out, ∅. split_and!; [by rewrite map_union_empty|apply map_disjoint_empty_r|done|].
    intros n t x tr H. by apply not_elem_of_nil in H.
  - apply list.NoDup_cons in Hnd as [Hn Hnd]. destruct (Hl n c) as [Hs Hin]; [by left|].
    apply list_elem_of_fmap in Hin as ([n' t] & [= <-] & Hin).
    destruct (read_fields_in _ _ _ _ _ _ Hr Hin) as (x & tr & Hx & Htr).
    pose proof (covers_in _ _ _ _ Hcov Hin) as Hc. rewrite Hs in Hc.
    destruct (Hc _ _ _ Htr) as (y & new & Hcy & Hd & Hy).
    destruct (IH (h ∪ new) (<[n := y]> out) ys Hnd) as (out' & new' & Hrest & Hd' & H1 & H2).
    { intros n' c' H'. apply Hl. by right. }
    { eapply read_fields_mono; [|exact Hr]. apply list.Forall_forall. intros f _ v tr'. apply read_mono_l. }
    pose proof Hd' as [Hd1 Hd2]%map_disjoint_union_l.
    exists out', (new ∪ new'). cbn [assign]. rewrite Hx, Hcy. cbn [mbind go_bind]. rewrite Hrest, map_union_assoc.
    split_and!; [done|by apply map_disjoint_union_r| |].
    + intros n' [Hne Hn']%not_elem_of_cons. rewrite H1 by done. by rewrite lookup_insert_ne.
    + intros n' t' x' tr' [->|Hn']%elem_of_cons Hin' Hx' Htr'.
      * assert (t' = t) as -> by by eapply unique_field. exists y. rewrite H1, lookup_insert_eq by done.
        split; [done|]. simpl in Hx'. apply read_mono_l. congruence.
      * destruct (H2 n' t' x' tr' Hn' Hin' Hx' (read_mono_l _ _ _ _ _ Htr')) as (y' & Hy' & Hr').
        exists y'. split; [done|]. by apply read_mono_r.
Qed.

Lemma copies_struct fs ss : well_named fs ss.*1 = true -> covers fs ss -> copies (TStruct fs) (copy_struct ss).
Proof.
  intros Hn Hcov h v tr Hr. rewrite read_struct in Hr. destruct v as [| | | |m]; try done.
  apply fmap_Some in Hr as (ys & Hys & ->).
  unfold well_named in Hn. rewrite !andb_true_iff, !bool_decide_eq_true, forallb_forall in Hn.
  destruct Hn as [[Hfs Hss] Hin].
  destruct (assign_copies fs m ss Hfs Hcov ss h m ys Hss) as (out & new & Ha & Hd & H1 & H2); [|done|].
  { intros n c Hnc. split; [by apply statement_of_in|]. apply (bool_decide_eq_true _), Hin, list_elem_of_In.
    apply list_elem_of_fmap. by exists (n, c). }
  exists (VStruct out), new. cbn [copy_struct]. rewrite Ha. split_and!; [done|done|].
  rewrite read_struct. rewrite (read_fields_ext fs h new m out ys); [done| |done].
  intros n t x tr Hint Hx Htr. destruct (decide (n ∈ ss.*1)) as [Hn|Hn]; [by eapply H2|].
  exists x. rewrite H1 by done. split; [done|]. pose proof (covers_in _ _ _ _ Hcov Hint) as Hc.
  rewrite statement_of_notin in Hc by done. by rewrite (flat_read _ _ h).
Qed.
