(* ===== verification/DeepCopy.v ===== *)
(** * The generated deep copies

    api/v1/zz_generated.deepcopy.go, on the memory of GoHeap.v: the types of the API with the
    references a value of each can hold (the structs of api/v1/*_types.go and pkg/ref), and one
    [DeepCopyInto], [DeepCopy] and, for the objects, [DeepCopyObject] per type. The statement
    [*out = *in] that opens a [DeepCopyInto] is [copy_struct]; its list has the statements after
    it, in order. The metadata of Kubernetes is not code of the repository: its types and copies
    are the class [MetaV1], with the promise that they are deep copies. *)

From S2P Require Import Prelude GoHeap.

(** The metadata of an object and of a list, and the kind they are tagged with. *)
Class MetaV1 := {
  TypeMeta_type : ty;
  TypeMeta_flat : flat TypeMeta_type = true;
  ObjectMeta_type : ty;
  ObjectMeta_DeepCopyInto : copier;
  ObjectMeta_copies : copies ObjectMeta_type ObjectMeta_DeepCopyInto;
  ListMeta_type : ty;
  ListMeta_DeepCopyInto : copier;
  ListMeta_copies : copies ListMeta_type ListMeta_DeepCopyInto;
}.

(** The order in which a map is ranged over: any. *)
Class RangeOrder := {
  order : list (string * gval) -> list (string * gval);
  order_perm l : order l ≡ₚ l;
}.

Section deepcopy.
Context {Meta : MetaV1} {Range : RangeOrder}.

(** ** The types *)

Definition AlertManagerSpec_type : ty := TStruct
  [("Host", TScalar); ("WebPort", TScalar); ("ClusterPort", TScalar); ("DeployDir", TScalar);
   ("DataDir", TScalar); ("LogDir", TScalar)].
Definition DiskResource_type : ty := TStruct
  [("Size", TScalar); ("Kind", TScalar); ("MountPath", TScalar)].
Definition AvailableResource_type : ty := TStruct
  [("Memory", TScalar); ("IdleCPUSet", TSlice TScalar); ("Disks", TMap DiskResource_type)].
Definition CDCSpec_type : ty := TStruct
  [("Host", TScalar); ("Port", TScalar); ("DeployDir", TScalar); ("LogDir", TScalar)].
Definition ClusterTopologyRef_type : ty := TStruct
  [("Name", TScalar); ("AliasName", TScalar)].
Definition ResourceRequestRef_type : ty := TStruct
  [("Name", TScalar); ("Node", TScalar)].
Definition ContainerSpec_type : ty := TStruct
  [("ResourceRequest", ResourceRequestRef_type); ("Image", TScalar); ("ImagePullPolicy", TScalar);
   ("Command", TSlice TScalar)].
Definition DMServerConfigs_type : ty := TStruct
  [("Master", TScalar); ("Worker", TScalar)].
Definition Global_type : ty := TStruct
  [("DeployDir", TScalar); ("DataDir", TScalar)].
Definition GrafanaSpec_type : ty := TStruct
  [("Host", TScalar); ("Port", TScalar); ("DeployDir", TScalar)].
Definition MasterSpec_type : ty := TStruct
  [("Host", TScalar); ("Port", TScalar); ("PeerPort", TScalar); ("DeployDir", TScalar);
   ("DataDir", TScalar); ("Config", TScalar); ("LogDir", TScalar)].
Definition PrometheusSpec_type : ty := TStruct
  [("Host", TScalar); ("Port", TScalar); ("DeployDir", TScalar); ("DataDir", TScalar);
   ("LogDir", TScalar)].
Definition WorkerSpec_type : ty := TStruct
  [("Host", TScalar); ("Port", TScalar); ("DeployDir", TScalar); ("DataDir", TScalar);
   ("LogDir", TScalar); ("Config", TScalar)].
Definition DMCluster_type : ty := TStruct
  [("Version", TScalar); ("Global", TPtr Global_type); ("ServerConfigs", DMServerConfigs_type);
   ("Control", TScalar); ("Master", TSlice MasterSpec_type); ("Worker", TSlice WorkerSpec_type);
   ("AlertManager", TSlice AlertManagerSpec_type); ("Monitor", TSlice PrometheusSpec_type);
   ("Grafana", TSlice GrafanaSpec_type)].
Definition DiskBinding_type : ty := TStruct
  [("Kind", TScalar); ("Size", TScalar); ("Device", TScalar); ("OriginPath", TScalar);
   ("MountPath", TScalar)].
Definition DiskSpec_type : ty := TStruct
  [("MountPath", TScalar); ("Kind", TScalar); ("Size", TScalar)].
Definition DrainerSpec_type : ty := TStruct
  [("Host", TScalar); ("Config", TScalar); ("SSHPort", TScalar); ("Port", TScalar);
   ("CommitTS", TScalar); ("DeployDir", TScalar); ("DataDir", TScalar)].
Definition JobManagerSpec_type : ty := TStruct
  [("Host", TScalar); ("WebPort", TScalar); ("Config", TScalar)].
Definition TaskManagerSpec_type : ty := TStruct
  [("Host", TScalar); ("Config", TScalar)].
Definition FlinkCluster_type : ty := TStruct
  [("Version", TScalar); ("JobManager", JobManagerSpec_type);
   ("TaskManager", TSlice TaskManagerSpec_type)].
Definition HAProxy_type : ty := TStruct
  [("Host", TScalar); ("Port", TScalar); ("Version", TScalar); ("Config", TScalar)].
Definition ReserveResources_type : ty := TStruct
  [("Cores", TScalar); ("Memory", TScalar)].
Definition MachineSpec_type : ty := TStruct
  [("Host", TScalar); ("DockerPort", TScalar); ("DockerVersion", TScalar); ("DockerTLS", TScalar);
   ("Reserve", TPtr ReserveResources_type); ("ExclusiveDisks", TSlice TScalar)].
Definition StorageDevice_type : ty := TStruct
  [("Filesystem", TScalar); ("Total", TScalar); ("Used", TScalar); ("MountPoint", TScalar)].
Definition MachineInfo_type : ty := TStruct
  [("Architecture", TScalar); ("Threads", TScalar); ("Memory", TScalar);
   ("StorageDevices", TMap StorageDevice_type)].
Definition MachineStatus_type : ty := TStruct
  [("State", TScalar); ("ChaosPort", TScalar); ("Info", TPtr MachineInfo_type); ("UploadPort", TScalar)].
Definition Machine_type : ty := TStruct
  [("TypeMeta", TypeMeta_type); ("ObjectMeta", ObjectMeta_type); ("Spec", MachineSpec_type);
   ("Status", MachineStatus_type)].
Definition MachineList_type : ty := TStruct
  [("TypeMeta", TypeMeta_type); ("ListMeta", ListMeta_type); ("Items", TSlice Machine_type)].
Definition Ref_type : ty := TStruct
  [("Namespace", TScalar); ("Name", TScalar); ("UID", TScalar)].
Definition ResourceBinding_type : ty := TStruct
  [("Memory", TScalar); ("CPUSet", TSlice TScalar); ("Disks", TMap DiskBinding_type)].
Definition MachineRef_type : ty := TStruct
  [("Ref", Ref_type); ("Binding", ResourceBinding_type)].
Definition MachineRequest_type : ty := TStruct
  [("Name", TScalar); ("TestMachineResource", TScalar); ("Exclusive", TScalar)].
Definition PDSpec_type : ty := TStruct
  [("Host", TScalar); ("ClientPort", TScalar); ("PeerPort", TScalar); ("Config", TScalar);
   ("DeployDir", TScalar); ("DataDir", TScalar); ("LogDir", TScalar)].
Definition ProcChaosTask_type : ty := TStruct
  [("Pattern", TScalar); ("Nodes", TSlice TScalar); ("KillAll", TScalar); ("Period", TScalar)].
Definition ProcChaosSpec_type : ty := TStruct
  [("Request", TScalar); ("Tasks", TSlice (TPtr ProcChaosTask_type))].
Definition ProcChaosState_type : ty := TStruct
  [("KilledTime", TScalar); ("KilledNode", TScalar)].
Definition ProcChaosStatus_type : ty := TStruct
  [("States", TSlice (TPtr ProcChaosState_type))].
Definition ProcChaos_type : ty := TStruct
  [("TypeMeta", TypeMeta_type); ("ObjectMeta", ObjectMeta_type); ("Spec", ProcChaosSpec_type);
   ("Status", ProcChaosStatus_type)].
Definition ProcChaosList_type : ty := TStruct
  [("TypeMeta", TypeMeta_type); ("ListMeta", ListMeta_type); ("Items", TSlice ProcChaos_type)].
Definition PumpSpec_type : ty := TStruct
  [("Host", TScalar); ("SSHPort", TScalar); ("Port", TScalar); ("DeployDir", TScalar);
   ("DataDir", TScalar); ("Config", TScalar)].
Definition RelationshipSpec_type : ty := TStruct
  [].
Definition ResourceRef_type : ty := TStruct
  [("Ref", Ref_type); ("Binding", ResourceBinding_type)].
Definition RelationshipStatus_type : ty := TStruct
  [("MachineToResources", TMap (TSlice ResourceRef_type)); ("ResourceToMachine", TMap MachineRef_type);
   ("AcceptedRequests", TSlice Ref_type); ("MachineLocks", TMap Ref_type)].
Definition Relationship_type : ty := TStruct
  [("TypeMeta", TypeMeta_type); ("ObjectMeta", ObjectMeta_type); ("Spec", RelationshipSpec_type);
   ("Status", RelationshipStatus_type)].
Definition RelationshipList_type : ty := TStruct
  [("TypeMeta", TypeMeta_type); ("ListMeta", ListMeta_type); ("Items", TSlice Relationship_type)].
Definition TestResourceMount_type : ty := TStruct
  [("Type", TScalar); ("Source", TScalar); ("Target", TScalar); ("ReadOnly", TScalar)].
Definition ResourceContainerSpec_type : ty := TStruct
  [("Privilege", TScalar); ("CapAdd", TSlice TScalar); ("Mounts", TSlice TestResourceMount_type);
   ("Binds", TSlice TScalar); ("Image", TScalar); ("ImagePullPolicy", TScalar);
   ("Command", TSlice TScalar); ("Envs", TSlice TScalar); ("ExposedPorts", TSlice TScalar);
   ("PortBindings", TScalar); ("ClusterIP", TScalar)].
Definition TestResourceSpec_type : ty := TStruct
  [("Memory", TScalar); ("Cores", TScalar); ("MachineSelector", TScalar); ("Disks", TMap DiskSpec_type);
   ("Machine", TScalar)].
Definition ResourceRequestItem_type : ty := TStruct
  [("Name", TScalar); ("Spec", TestResourceSpec_type)].
Definition ServerConfigs_type : ty := TStruct
  [("TiDB", TScalar); ("TiKV", TScalar); ("PD", TScalar)].
Definition TiDBClusterVersion_type : ty := TStruct
  [("Version", TScalar); ("TiDBDownloadURL", TScalar); ("TiKVDownloadURL", TScalar);
   ("PDDownloadURL", TScalar); ("PatchPolicy", TScalar)].
Definition TiDBSpec_type : ty := TStruct
  [("Host", TScalar); ("Port", TScalar); ("Config", TScalar); ("StatusPort", TScalar);
   ("DeployDir", TScalar); ("LogDir", TScalar)].
Definition TiFlashSpec_type : ty := TStruct
  [("Host", TScalar); ("TCPPort", TScalar); ("HTTPPort", TScalar); ("ServicePort", TScalar);
   ("ProxyPort", TScalar); ("ProxyStatusPort", TScalar); ("MetricsPort", TScalar);
   ("DeployDir", TScalar); ("DataDir", TScalar); ("Config", TScalar); ("LearnerConfig", TScalar);
   ("LogDir", TScalar)].
Definition TiKVSpec_type : ty := TStruct
  [("Host", TScalar); ("Port", TScalar); ("StatusPort", TScalar); ("Config", TScalar);
   ("DeployDir", TScalar); ("DataDir", TScalar); ("LogDir", TScalar)].
Definition TiDBCluster_type : ty := TStruct
  [("TiUPMirror", TScalar); ("UpgradePolicy", TScalar); ("Version", TiDBClusterVersion_type);
   ("Global", TPtr Global_type); ("ServerConfigs", ServerConfigs_type); ("Control", TScalar);
   ("HAProxy", TPtr HAProxy_type); ("TiDB", TSlice TiDBSpec_type); ("TiKV", TSlice TiKVSpec_type);
   ("PD", TSlice PDSpec_type); ("Pump", TSlice PumpSpec_type); ("Drainer", TSlice DrainerSpec_type);
   ("Monitor", TSlice PrometheusSpec_type); ("Grafana", TSlice GrafanaSpec_type);
   ("AlertManager", TSlice AlertManagerSpec_type); ("CDC", TSlice CDCSpec_type);
   ("TiFlash", TSlice TiFlashSpec_type)].
Definition TestClusterTopologySpec_type : ty := TStruct
  [("ResourceRequest", TScalar); ("TiDBCluster", TPtr TiDBCluster_type);
   ("FlinkCluster", TPtr FlinkCluster_type); ("DMCluster", TPtr DMCluster_type)].
Definition TiDBClusterInfo_type : ty := TStruct
  [("IsScaling", TScalar); ("PendingOfflineList", TSlice TScalar); ("OfflineList", TSlice TScalar)].
Definition TestClusterTopologyStatus_type : ty := TStruct
  [("PreTiDBCluster", TPtr TiDBCluster_type); ("TiDBClusterInfo", TiDBClusterInfo_type);
   ("State", TScalar)].
Definition TestClusterTopology_type : ty := TStruct
  [("TypeMeta", TypeMeta_type); ("ObjectMeta", ObjectMeta_type); ("Spec", TestClusterTopologySpec_type);
   ("Status", TestClusterTopologyStatus_type)].
Definition TestClusterTopologyList_type : ty := TStruct
  [("TypeMeta", TypeMeta_type); ("ListMeta", ListMeta_type); ("Items", TSlice TestClusterTopology_type)].
Definition TestResourceStatus_type : ty := TStruct
  [("State", TScalar); ("Phase", TScalar); ("ExitCode", TScalar);
   ("ResourceContainerSpec", ResourceContainerSpec_type); ("HostIP", TScalar); ("HostName", TScalar);
   ("Password", TScalar); ("SSHPort", TScalar); ("PortBindings", TScalar); ("ClaimRef", TPtr Ref_type)].
Definition TestResource_type : ty := TStruct
  [("TypeMeta", TypeMeta_type); ("ObjectMeta", ObjectMeta_type); ("Spec", TestResourceSpec_type);
   ("Status", TestResourceStatus_type)].
Definition TestResourceList_type : ty := TStruct
  [("TypeMeta", TypeMeta_type); ("ListMeta", ListMeta_type); ("Items", TSlice TestResource_type)].
Definition TestResourceRequestSpec_type : ty := TStruct
  [("Machines", TSlice (TPtr MachineRequest_type)); ("Items", TSlice (TPtr ResourceRequestItem_type))].
Definition TestResourceRequestStatus_type : ty := TStruct
  [("State", TScalar)].
Definition TestResourceRequest_type : ty := TStruct
  [("TypeMeta", TypeMeta_type); ("ObjectMeta", ObjectMeta_type); ("Spec", TestResourceRequestSpec_type);
   ("Status", TestResourceRequestStatus_type)].
Definition TestResourceRequestList_type : ty := TStruct
  [("TypeMeta", TypeMeta_type); ("ListMeta", ListMeta_type); ("Items", TSlice TestResourceRequest_type)].
Definition TestWorkloadItemSpec_type : ty := TStruct
  [("Name", TScalar); ("DockerContainer", TPtr ContainerSpec_type)].
Definition TestWorkloadSpec_type : ty := TStruct
  [("ClusterTopologiesRefs", TSlice ClusterTopologyRef_type);
   ("Workloads", TSlice TestWorkloadItemSpec_type); ("TeardownTestClusterTopology", TSlice TScalar)].
Definition TestWorkloadResult_type : ty := TStruct
  [("PlainText", TScalar)].
Definition WorkloadStatus_type : ty := TStruct
  [("Phase", TScalar)].
Definition TestWorkloadStatus_type : ty := TStruct
  [("State", TScalar); ("WorkloadStatus", TMap WorkloadStatus_type);
   ("Results", TMap TestWorkloadResult_type)].
Definition TestWorkload_type : ty := TStruct
  [("TypeMeta", TypeMeta_type); ("ObjectMeta", ObjectMeta_type); ("Spec", TestWorkloadSpec_type);
   ("Status", TestWorkloadStatus_type)].
Definition WorkflowStepItem_type : ty := TStruct
  [("Name", TScalar); ("TestResourceRequest", TPtr TestResourceSpec_type);
   ("TestClusterTopology", TPtr TestClusterTopology_type); ("TestWorkload", TPtr TestWorkload_type)].
Definition TestWorkflowSpec_type : ty := TStruct
  [("Steps", TSlice WorkflowStepItem_type)].
Definition TestWorkflowStatus_type : ty := TStruct
  [].
Definition TestWorkflow_type : ty := TStruct
  [("TypeMeta", TypeMeta_type); ("ObjectMeta", ObjectMeta_type); ("Spec", TestWorkflowSpec_type);
   ("Status", TestWorkflowStatus_type)].
Definition TestWorkflowList_type : ty := TStruct
  [("TypeMeta", TypeMeta_type); ("ListMeta", ListMeta_type); ("Items", TSlice TestWorkflow_type)].
Definition TestWorkloadList_type : ty := TStruct
  [("TypeMeta", TypeMeta_type); ("ListMeta", ListMeta_type); ("Items", TSlice TestWorkload_type)].

(** ** The functions *)

(** [DeepCopyObject]: the copy as an interface, which is nil for a nil copy. *)
Definition as_object (c : copier) : copier := fun v h =>
  '(out, h) ← c v h;
  match out with VNil => Ret (VNil, h) | out => Ret (out, h) end.

Definition AcceptResources_DeepCopyInto : copier := make_copy.
Definition AcceptResources_DeepCopy : copier := if_set (by_copy AcceptResources_DeepCopyInto).

Definition AlertManagerSpec_DeepCopyInto : copier := copy_struct [].
Definition AlertManagerSpec_DeepCopy : copier := deep_copy AlertManagerSpec_DeepCopyInto.

Definition DiskResource_DeepCopyInto : copier := copy_struct [].
Definition DiskResource_DeepCopy : copier := deep_copy DiskResource_DeepCopyInto.

Definition AvailableResource_DeepCopyInto : copier := copy_struct
  [("IdleCPUSet", if_set make_copy); ("Disks", if_set (make_map order keep))].
Definition AvailableResource_DeepCopy : copier := deep_copy AvailableResource_DeepCopyInto.

Definition CDCSpec_DeepCopyInto : copier := copy_struct [].
Definition CDCSpec_DeepCopy : copier := deep_copy CDCSpec_DeepCopyInto.

Definition ClusterTopologyRef_DeepCopyInto : copier := copy_struct [].
Definition ClusterTopologyRef_DeepCopy : copier := deep_copy ClusterTopologyRef_DeepCopyInto.

Definition ResourceRequestRef_DeepCopyInto : copier := copy_struct [].
Definition ResourceRequestRef_DeepCopy : copier := deep_copy ResourceRequestRef_DeepCopyInto.

Definition ContainerSpec_DeepCopyInto : copier := copy_struct
  [("ResourceRequest", keep); ("Command", if_set make_copy)].
Definition ContainerSpec_DeepCopy : copier := deep_copy ContainerSpec_DeepCopyInto.

Definition DMServerConfigs_DeepCopyInto : copier := copy_struct [].
Definition DMServerConfigs_DeepCopy : copier := deep_copy DMServerConfigs_DeepCopyInto.

Definition Global_DeepCopyInto : copier := copy_struct [].
Definition Global_DeepCopy : copier := deep_copy Global_DeepCopyInto.

Definition GrafanaSpec_DeepCopyInto : copier := copy_struct [].
Definition GrafanaSpec_DeepCopy : copier := deep_copy GrafanaSpec_DeepCopyInto.

Definition MasterSpec_DeepCopyInto : copier := copy_struct [].
Definition MasterSpec_DeepCopy : copier := deep_copy MasterSpec_DeepCopyInto.

Definition PrometheusSpec_DeepCopyInto : copier := copy_struct [].
Definition PrometheusSpec_DeepCopy : copier := deep_copy PrometheusSpec_DeepCopyInto.

Definition WorkerSpec_DeepCopyInto : copier := copy_struct [].
Definition WorkerSpec_DeepCopy : copier := deep_copy WorkerSpec_DeepCopyInto.

Definition DMCluster_DeepCopyInto : copier := copy_struct
  [("Global", if_set (new_from keep)); ("ServerConfigs", keep); ("Master", if_set make_copy);
   ("Worker", if_set make_copy); ("AlertManager", if_set make_copy); ("Monitor", if_set make_copy);
   ("Grafana", if_set make_copy)].
Definition DMCluster_DeepCopy : copier := deep_copy DMCluster_DeepCopyInto.

Definition DiskBinding_DeepCopyInto : copier := copy_struct [].
Definition DiskBinding_DeepCopy : copier := deep_copy DiskBinding_DeepCopyInto.

Definition DiskSpec_DeepCopyInto : copier := copy_struct [].
Definition DiskSpec_DeepCopy : copier := deep_copy DiskSpec_DeepCopyInto.

Definition DrainerSpec_DeepCopyInto : copier := copy_struct [].
Definition DrainerSpec_DeepCopy : copier := deep_copy DrainerSpec_DeepCopyInto.

Definition JobManagerSpec_DeepCopyInto : copier := copy_struct [].
Definition JobManagerSpec_DeepCopy : copier := deep_copy JobManagerSpec_DeepCopyInto.

Definition TaskManagerSpec_DeepCopyInto : copier := copy_struct [].
Definition TaskManagerSpec_DeepCopy : copier := deep_copy TaskManagerSpec_DeepCopyInto.

Definition FlinkCluster_DeepCopyInto : copier := copy_struct
  [("JobManager", keep); ("TaskManager", if_set make_copy)].
Definition FlinkCluster_DeepCopy : copier := deep_copy FlinkCluster_DeepCopyInto.

Definition HAProxy_DeepCopyInto : copier := copy_struct [].
Definition HAProxy_DeepCopy : copier := deep_copy HAProxy_DeepCopyInto.

Definition ReserveResources_DeepCopyInto : copier := copy_struct [].
Definition ReserveResources_DeepCopy : copier := deep_copy ReserveResources_DeepCopyInto.

Definition MachineSpec_DeepCopyInto : copier := copy_struct
  [("Reserve", if_set (new_from keep)); ("ExclusiveDisks", if_set make_copy)].
Definition MachineSpec_DeepCopy : copier := deep_copy MachineSpec_DeepCopyInto.

Definition StorageDevice_DeepCopyInto : copier := copy_struct [].
Definition StorageDevice_DeepCopy : copier := deep_copy StorageDevice_DeepCopyInto.

Definition MachineInfo_DeepCopyInto : copier := copy_struct
  [("StorageDevices", if_set (make_map order keep))].
Definition MachineInfo_DeepCopy : copier := deep_copy MachineInfo_DeepCopyInto.

Definition MachineStatus_DeepCopyInto : copier := copy_struct
  [("Info", if_set (new_from MachineInfo_DeepCopyInto))].
Definition MachineStatus_DeepCopy : copier := deep_copy MachineStatus_DeepCopyInto.

Definition Machine_DeepCopyInto : copier := copy_struct
  [("TypeMeta", keep); ("ObjectMeta", ObjectMeta_DeepCopyInto); ("Spec", MachineSpec_DeepCopyInto);
   ("Status", MachineStatus_DeepCopyInto)].
Definition Machine_DeepCopy : copier := deep_copy Machine_DeepCopyInto.
Definition Machine_DeepCopyObject : copier := as_object Machine_DeepCopy.

Definition MachineList_DeepCopyInto : copier := copy_struct
  [("TypeMeta", keep); ("ListMeta", ListMeta_DeepCopyInto);
   ("Items", if_set (make_each Machine_DeepCopyInto))].
Definition MachineList_DeepCopy : copier := deep_copy MachineList_DeepCopyInto.
Definition MachineList_DeepCopyObject : copier := as_object MachineList_DeepCopy.

Definition ResourceBinding_DeepCopyInto : copier := copy_struct
  [("CPUSet", if_set make_copy); ("Disks", if_set (make_map order keep))].
Definition ResourceBinding_DeepCopy : copier := deep_copy ResourceBinding_DeepCopyInto.

Definition MachineRef_DeepCopyInto : copier := copy_struct
  [("Ref", keep); ("Binding", ResourceBinding_DeepCopyInto)].
Definition MachineRef_DeepCopy : copier := deep_copy MachineRef_DeepCopyInto.

Definition MachineRequest_DeepCopyInto : copier := copy_struct [].
Definition MachineRequest_DeepCopy : copier := deep_copy MachineRequest_DeepCopyInto.

Definition PDSpec_DeepCopyInto : copier := copy_struct [].
Definition PDSpec_DeepCopy : copier := deep_copy PDSpec_DeepCopyInto.

Definition ProcChaosTask_DeepCopyInto : copier := copy_struct
  [("Nodes", if_set make_copy)].
Definition ProcChaosTask_DeepCopy : copier := deep_copy ProcChaosTask_DeepCopyInto.

Definition ProcChaosSpec_DeepCopyInto : copier := copy_struct
  [("Tasks", if_set (make_each (if_set (new_from ProcChaosTask_DeepCopyInto))))].
Definition ProcChaosSpec_DeepCopy : copier := deep_copy ProcChaosSpec_DeepCopyInto.

Definition ProcChaosState_DeepCopyInto : copier := copy_struct [].
Definition ProcChaosState_DeepCopy : copier := deep_copy ProcChaosState_DeepCopyInto.

Definition ProcChaosStatus_DeepCopyInto : copier := copy_struct
  [("States", if_set (make_each (if_set (new_from keep))))].
Definition ProcChaosStatus_DeepCopy : copier := deep_copy ProcChaosStatus_DeepCopyInto.

Definition ProcChaos_DeepCopyInto : copier := copy_struct
  [("TypeMeta", keep); ("ObjectMeta", ObjectMeta_DeepCopyInto); ("Spec", ProcChaosSpec_DeepCopyInto);
   ("Status", ProcChaosStatus_DeepCopyInto)].
Definition ProcChaos_DeepCopy : copier := deep_copy ProcChaos_DeepCopyInto.
Definition ProcChaos_DeepCopyObject : copier := as_object ProcChaos_DeepCopy.

Definition ProcChaosList_DeepCopyInto : copier := copy_struct
  [("TypeMeta", keep); ("ListMeta", ListMeta_DeepCopyInto);
   ("Items", if_set (make_each ProcChaos_DeepCopyInto))].
Definition ProcChaosList_DeepCopy : copier := deep_copy ProcChaosList_DeepCopyInto.
Definition ProcChaosList_DeepCopyObject : copier := as_object ProcChaosList_DeepCopy.

Definition PumpSpec_DeepCopyInto : copier := copy_struct [].
Definition PumpSpec_DeepCopy : copier := deep_copy PumpSpec_DeepCopyInto.

Definition RelationshipSpec_DeepCopyInto : copier := copy_struct [].
Definition RelationshipSpec_DeepCopy : copier := deep_copy RelationshipSpec_DeepCopyInto.

Definition ResourceRef_DeepCopyInto : copier := copy_struct
  [("Ref", keep); ("Binding", ResourceBinding_DeepCopyInto)].
Definition ResourceRef_DeepCopy : copier := deep_copy ResourceRef_DeepCopyInto.

Definition RelationshipStatus_DeepCopyInto : copier := copy_struct
  [("MachineToResources", if_set (make_map order (if_set (make_each ResourceRef_DeepCopyInto))));
   ("ResourceToMachine", if_set (make_map order (by_copy MachineRef_DeepCopyInto)));
   ("AcceptedRequests", if_set make_copy); ("MachineLocks", if_set (make_map order keep))].
Definition RelationshipStatus_DeepCopy : copier := deep_copy RelationshipStatus_DeepCopyInto.

Definition Relationship_DeepCopyInto : copier := copy_struct
  [("TypeMeta", keep); ("ObjectMeta", ObjectMeta_DeepCopyInto); ("Spec", keep);
   ("Status", RelationshipStatus_DeepCopyInto)].
Definition Relationship_DeepCopy : copier := deep_copy Relationship_DeepCopyInto.
Definition Relationship_DeepCopyObject : copier := as_object Relationship_DeepCopy.

Definition RelationshipList_DeepCopyInto : copier := copy_struct
  [("TypeMeta", keep); ("ListMeta", ListMeta_DeepCopyInto);
   ("Items", if_set (make_each Relationship_DeepCopyInto))].
Definition RelationshipList_DeepCopy : copier := deep_copy RelationshipList_DeepCopyInto.
Definition RelationshipList_DeepCopyObject : copier := as_object RelationshipList_DeepCopy.

Definition TestResourceMount_DeepCopyInto : copier := copy_struct [].
Definition TestResourceMount_DeepCopy : copier := deep_copy TestResourceMount_DeepCopyInto.

Definition ResourceContainerSpec_DeepCopyInto : copier := copy_struct
  [("CapAdd", if_set make_copy); ("Mounts", if_set make_copy); ("Binds", if_set make_copy);
   ("Command", if_set make_copy); ("Envs", if_set make_copy); ("ExposedPorts", if_set make_copy)].
Definition ResourceContainerSpec_DeepCopy : copier := deep_copy ResourceContainerSpec_DeepCopyInto.

Definition ResourceRefList_DeepCopyInto : copier := make_each ResourceRef_DeepCopyInto.
Definition ResourceRefList_DeepCopy : copier := if_set (by_copy ResourceRefList_DeepCopyInto).

Definition TestResourceSpec_DeepCopyInto : copier := copy_struct
  [("Disks", if_set (make_map order keep))].
Definition TestResourceSpec_DeepCopy : copier := deep_copy TestResourceSpec_DeepCopyInto.

Definition ResourceRequestItem_DeepCopyInto : copier := copy_struct
  [("Spec", TestResourceSpec_DeepCopyInto)].
Definition ResourceRequestItem_DeepCopy : copier := deep_copy ResourceRequestItem_DeepCopyInto.

Definition ServerConfigs_DeepCopyInto : copier := copy_struct [].
Definition ServerConfigs_DeepCopy : copier := deep_copy ServerConfigs_DeepCopyInto.

Definition TiDBClusterVersion_DeepCopyInto : copier := copy_struct [].
Definition TiDBClusterVersion_DeepCopy : copier := deep_copy TiDBClusterVersion_DeepCopyInto.

Definition TiDBSpec_DeepCopyInto : copier := copy_struct [].
Definition TiDBSpec_DeepCopy : copier := deep_copy TiDBSpec_DeepCopyInto.

Definition TiFlashSpec_DeepCopyInto : copier := copy_struct [].
Definition TiFlashSpec_DeepCopy : copier := deep_copy TiFlashSpec_DeepCopyInto.

Definition TiKVSpec_DeepCopyInto : copier := copy_struct [].
Definition TiKVSpec_DeepCopy : copier := deep_copy TiKVSpec_DeepCopyInto.

Definition TiDBCluster_DeepCopyInto : copier := copy_struct
  [("Version", keep); ("Global", if_set (new_from keep)); ("ServerConfigs", keep);
   ("HAProxy", if_set (new_from keep)); ("TiDB", if_set make_copy); ("TiKV", if_set make_copy);
   ("PD", if_set make_copy); ("Pump", if_set make_copy); ("Drainer", if_set make_copy);
   ("Monitor", if_set make_copy); ("Grafana", if_set make_copy); ("AlertManager", if_set make_copy);
   ("CDC", if_set make_copy); ("TiFlash", if_set make_copy)].
Definition TiDBCluster_DeepCopy : copier := deep_copy TiDBCluster_DeepCopyInto.

Definition TestClusterTopologySpec_DeepCopyInto : copier := copy_struct
  [("TiDBCluster", if_set (new_from TiDBCluster_DeepCopyInto));
   ("FlinkCluster", if_set (new_from FlinkCluster_DeepCopyInto));
   ("DMCluster", if_set (new_from DMCluster_DeepCopyInto))].
Definition TestClusterTopologySpec_DeepCopy : copier := deep_copy TestClusterTopologySpec_DeepCopyInto.

Definition TiDBClusterInfo_DeepCopyInto : copier := copy_struct
  [("PendingOfflineList", if_set make_copy); ("OfflineList", if_set make_copy)].
Definition TiDBClusterInfo_DeepCopy : copier := deep_copy TiDBClusterInfo_DeepCopyInto.

Definition TestClusterTopologyStatus_DeepCopyInto : copier := copy_struct
  [("PreTiDBCluster", if_set (new_from TiDBCluster_DeepCopyInto));
   ("TiDBClusterInfo", TiDBClusterInfo_DeepCopyInto)].
Definition TestClusterTopologyStatus_DeepCopy : copier := deep_copy TestClusterTopologyStatus_DeepCopyInto.

Definition TestClusterTopology_DeepCopyInto : copier := copy_struct
  [("TypeMeta", keep); ("ObjectMeta", ObjectMeta_DeepCopyInto);
   ("Spec", TestClusterTopologySpec_DeepCopyInto); ("Status", TestClusterTopologyStatus_DeepCopyInto)].
Definition TestClusterTopology_DeepCopy : copier := deep_copy TestClusterTopology_DeepCopyInto.
Definition TestClusterTopology_DeepCopyObject : copier := as_object TestClusterTopology_DeepCopy.

Definition TestClusterTopologyList_DeepCopyInto : copier := copy_struct
  [("TypeMeta", keep); ("ListMeta", ListMeta_DeepCopyInto);
   ("Items", if_set (make_each TestClusterTopology_DeepCopyInto))].
Definition TestClusterTopologyList_DeepCopy : copier := deep_copy TestClusterTopologyList_DeepCopyInto.
Definition TestClusterTopologyList_DeepCopyObject : copier := as_object TestClusterTopologyList_DeepCopy.

Definition TestResourceStatus_DeepCopyInto : copier := copy_struct
  [("ResourceContainerSpec", ResourceContainerSpec_DeepCopyInto); ("ClaimRef", if_set (new_from keep))].
Definition TestResourceStatus_DeepCopy : copier := deep_copy TestResourceStatus_DeepCopyInto.

Definition TestResource_DeepCopyInto : copier := copy_struct
  [("TypeMeta", keep); ("ObjectMeta", ObjectMeta_DeepCopyInto); ("Spec", TestResourceSpec_DeepCopyInto);
   ("Status", TestResourceStatus_DeepCopyInto)].
Definition TestResource_DeepCopy : copier := deep_copy TestResource_DeepCopyInto.
Definition TestResource_DeepCopyObject : copier := as_object TestResource_DeepCopy.

Definition TestResourceList_DeepCopyInto : copier := copy_struct
  [("TypeMeta", keep); ("ListMeta", ListMeta_DeepCopyInto);
   ("Items", if_set (make_each TestResource_DeepCopyInto))].
Definition TestResourceList_DeepCopy : copier := deep_copy TestResourceList_DeepCopyInto.
Definition TestResourceList_DeepCopyObject : copier := as_object TestResourceList_DeepCopy.

Definition TestResourceRequestSpec_DeepCopyInto : copier := copy_struct
  [("Machines", if_set (make_each (if_set (new_from keep))));
   ("Items", if_set (make_each (if_set (new_from ResourceRequestItem_DeepCopyInto))))].
Definition TestResourceRequestSpec_DeepCopy : copier := deep_copy TestResourceRequestSpec_DeepCopyInto.

Definition TestResourceRequestStatus_DeepCopyInto : copier := copy_struct [].
Definition TestResourceRequestStatus_DeepCopy : copier := deep_copy TestResourceRequestStatus_DeepCopyInto.

Definition TestResourceRequest_DeepCopyInto : copier := copy_struct
  [("TypeMeta", keep); ("ObjectMeta", ObjectMeta_DeepCopyInto);
   ("Spec", TestResourceRequestSpec_DeepCopyInto); ("Status", keep)].
Definition TestResourceRequest_DeepCopy : copier := deep_copy TestResourceRequest_DeepCopyInto.
Definition TestResourceRequest_DeepCopyObject : copier := as_object TestResourceRequest_DeepCopy.

Definition TestResourceRequestList_DeepCopyInto : copier := copy_struct
  [("TypeMeta", keep); ("ListMeta", ListMeta_DeepCopyInto);
   ("Items", if_set (make_each TestResourceRequest_DeepCopyInto))].
Definition TestResourceRequestList_DeepCopy : copier := deep_copy TestResourceRequestList_DeepCopyInto.
Definition TestResourceRequestList_DeepCopyObject : copier := as_object TestResourceRequestList_DeepCopy.

Definition TestWorkloadItemSpec_DeepCopyInto : copier := copy_struct
  [("DockerContainer", if_set (new_from ContainerSpec_DeepCopyInto))].
Definition TestWorkloadItemSpec_DeepCopy : copier := deep_copy TestWorkloadItemSpec_DeepCopyInto.

Definition TestWorkloadSpec_DeepCopyInto : copier := copy_struct
  [("ClusterTopologiesRefs", if_set make_copy);
   ("Workloads", if_set (make_each TestWorkloadItemSpec_DeepCopyInto));
   ("TeardownTestClusterTopology", if_set make_copy)].
Definition TestWorkloadSpec_DeepCopy : copier := deep_copy TestWorkloadSpec_DeepCopyInto.

Definition TestWorkloadResult_DeepCopyInto : copier := copy_struct [].
Definition TestWorkloadResult_DeepCopy : copier := deep_copy TestWorkloadResult_DeepCopyInto.

Definition WorkloadStatus_DeepCopyInto : copier := copy_struct [].
Definition WorkloadStatus_DeepCopy : copier := deep_copy WorkloadStatus_DeepCopyInto.

Definition TestWorkloadStatus_DeepCopyInto : copier := copy_struct
  [("WorkloadStatus", if_set (make_map order keep)); ("Results", if_set (make_map order keep))].
Definition TestWorkloadStatus_DeepCopy : copier := deep_copy TestWorkloadStatus_DeepCopyInto.

Definition TestWorkload_DeepCopyInto : copier := copy_struct
  [("TypeMeta", keep); ("ObjectMeta", ObjectMeta_DeepCopyInto); ("Spec", TestWorkloadSpec_DeepCopyInto);
   ("Status", TestWorkloadStatus_DeepCopyInto)].
Definition TestWorkload_DeepCopy : copier := deep_copy TestWorkload_DeepCopyInto.
Definition TestWorkload_DeepCopyObject : copier := as_object TestWorkload_DeepCopy.

Definition WorkflowStepItem_DeepCopyInto : copier := copy_struct
  [("TestResourceRequest", if_set (new_from TestResourceSpec_DeepCopyInto));
   ("TestClusterTopology", if_set (new_from TestClusterTopology_DeepCopyInto));
   ("TestWorkload", if_set (new_from TestWorkload_DeepCopyInto))].
Definition WorkflowStepItem_DeepCopy : copier := deep_copy WorkflowStepItem_DeepCopyInto.

Definition TestWorkflowSpec_DeepCopyInto : copier := copy_struct
  [("Steps", if_set (make_each WorkflowStepItem_DeepCopyInto))].
Definition TestWorkflowSpec_DeepCopy : copier := deep_copy TestWorkflowSpec_DeepCopyInto.

Definition TestWorkflowStatus_DeepCopyInto : copier := copy_struct [].
Definition TestWorkflowStatus_DeepCopy : copier := deep_copy TestWorkflowStatus_DeepCopyInto.

Definition TestWorkflow_DeepCopyInto : copier := copy_struct
  [("TypeMeta", keep); ("ObjectMeta", ObjectMeta_DeepCopyInto); ("Spec", TestWorkflowSpec_DeepCopyInto);
   ("Status", keep)].
Definition TestWorkflow_DeepCopy : copier := deep_copy TestWorkflow_DeepCopyInto.
Definition TestWorkflow_DeepCopyObject : copier := as_object TestWorkflow_DeepCopy.

Definition TestWorkflowList_DeepCopyInto : copier := copy_struct
  [("TypeMeta", keep); ("ListMeta", ListMeta_DeepCopyInto);
   ("Items", if_set (make_each TestWorkflow_DeepCopyInto))].
Definition TestWorkflowList_DeepCopy : copier := deep_copy TestWorkflowList_DeepCopyInto.
Definition TestWorkflowList_DeepCopyObject : copier := as_object TestWorkflowList_DeepCopy.

Definition TestWorkloadList_DeepCopyInto : copier := copy_struct
  [("TypeMeta", keep); ("ListMeta", ListMeta_DeepCopyInto);
   ("Items", if_set (make_each TestWorkload_DeepCopyInto))].
Definition TestWorkloadList_DeepCopy : copier := deep_copy TestWorkloadList_DeepCopyInto.
Definition TestWorkloadList_DeepCopyObject : copier := as_object TestWorkloadList_DeepCopy.

(** ** All of them *)

(** Every function of the file with the type it copies, but for the two [DeepCopyInto] of lists,
    which are only called by their [DeepCopy] and do not keep a nil. *)
Definition deep_copies : list (ty * copier) :=
  [(TSlice Ref_type, AcceptResources_DeepCopy); (AlertManagerSpec_type, AlertManagerSpec_DeepCopyInto);
   (TPtr AlertManagerSpec_type, AlertManagerSpec_DeepCopy);
   (DiskResource_type, DiskResource_DeepCopyInto); (TPtr DiskResource_type, DiskResource_DeepCopy);
   (AvailableResource_type, AvailableResource_DeepCopyInto);
   (TPtr AvailableResource_type, AvailableResource_DeepCopy); (CDCSpec_type, CDCSpec_DeepCopyInto);
   (TPtr CDCSpec_type, CDCSpec_DeepCopy); (ClusterTopologyRef_type, ClusterTopologyRef_DeepCopyInto);
   (TPtr ClusterTopologyRef_type, ClusterTopologyRef_DeepCopy);
   (ResourceRequestRef_type, ResourceRequestRef_DeepCopyInto);
   (TPtr ResourceRequestRef_type, ResourceRequestRef_DeepCopy);
   (ContainerSpec_type, ContainerSpec_DeepCopyInto); (TPtr ContainerSpec_type, ContainerSpec_DeepCopy);
   (DMServerConfigs_type, DMServerConfigs_DeepCopyInto);
   (TPtr DMServerConfigs_type, DMServerConfigs_DeepCopy); (Global_type, Global_DeepCopyInto);
   (TPtr Global_type, Global_DeepCopy); (GrafanaSpec_type, GrafanaSpec_DeepCopyInto);
   (TPtr GrafanaSpec_type, GrafanaSpec_DeepCopy); (MasterSpec_type, MasterSpec_DeepCopyInto);
   (TPtr MasterSpec_type, MasterSpec_DeepCopy); (PrometheusSpec_type, PrometheusSpec_DeepCopyInto);
   (TPtr PrometheusSpec_type, PrometheusSpec_DeepCopy); (WorkerSpec_type, WorkerSpec_DeepCopyInto);
   (TPtr WorkerSpec_type, WorkerSpec_DeepCopy); (DMCluster_type, DMCluster_DeepCopyInto);
   (TPtr DMCluster_type, DMCluster_DeepCopy); (DiskBinding_type, DiskBinding_DeepCopyInto);
   (TPtr DiskBinding_type, DiskBinding_DeepCopy); (DiskSpec_type, DiskSpec_DeepCopyInto);
   (TPtr DiskSpec_type, DiskSpec_DeepCopy); (DrainerSpec_type, DrainerSpec_DeepCopyInto);
   (TPtr DrainerSpec_type, DrainerSpec_DeepCopy); (JobManagerSpec_type, JobManagerSpec_DeepCopyInto);
   (TPtr JobManagerSpec_type, JobManagerSpec_DeepCopy);
   (TaskManagerSpec_type, TaskManagerSpec_DeepCopyInto);
   (TPtr TaskManagerSpec_type, TaskManagerSpec_DeepCopy); (FlinkCluster_type, FlinkCluster_DeepCopyInto);
   (TPtr FlinkCluster_type, FlinkCluster_DeepCopy); (HAProxy_type, HAProxy_DeepCopyInto);
   (TPtr HAProxy_type, HAProxy_DeepCopy); (ReserveResources_type, ReserveResources_DeepCopyInto);
   (TPtr ReserveResources_type, ReserveResources_DeepCopy); (MachineSpec_type, MachineSpec_DeepCopyInto);
   (TPtr MachineSpec_type, MachineSpec_DeepCopy); (StorageDevice_type, StorageDevice_DeepCopyInto);
   (TPtr StorageDevice_type, StorageDevice_DeepCopy); (MachineInfo_type, MachineInfo_DeepCopyInto);
   (TPtr MachineInfo_type, MachineInfo_DeepCopy); (MachineStatus_type, MachineStatus_DeepCopyInto);
   (TPtr MachineStatus_type, MachineStatus_DeepCopy); (Machine_type, Machine_DeepCopyInto);
   (TPtr Machine_type, Machine_DeepCopy); (TPtr Machine_type, Machine_DeepCopyObject);
   (MachineList_type, MachineList_DeepCopyInto); (TPtr MachineList_type, MachineList_DeepCopy);
   (TPtr MachineList_type, MachineList_DeepCopyObject);
   (ResourceBinding_type, ResourceBinding_DeepCopyInto);
   (TPtr ResourceBinding_type, ResourceBinding_DeepCopy); (MachineRef_type, MachineRef_DeepCopyInto);
   (TPtr MachineRef_type, MachineRef_DeepCopy); (MachineRequest_type, MachineRequest_DeepCopyInto);
   (TPtr MachineRequest_type, MachineRequest_DeepCopy); (PDSpec_type, PDSpec_DeepCopyInto);
   (TPtr PDSpec_type, PDSpec_DeepCopy); (ProcChaosTask_type, ProcChaosTask_DeepCopyInto);
   (TPtr ProcChaosTask_type, ProcChaosTask_DeepCopy); (ProcChaosSpec_type, ProcChaosSpec_DeepCopyInto);
   (TPtr ProcChaosSpec_type, ProcChaosSpec_DeepCopy); (ProcChaosState_type, ProcChaosState_DeepCopyInto);
   (TPtr ProcChaosState_type, ProcChaosState_DeepCopy);
   (ProcChaosStatus_type, ProcChaosStatus_DeepCopyInto);
   (TPtr ProcChaosStatus_type, ProcChaosStatus_DeepCopy); (ProcChaos_type, ProcChaos_DeepCopyInto);
   (TPtr ProcChaos_type, ProcChaos_DeepCopy); (TPtr ProcChaos_type, ProcChaos_DeepCopyObject);
   (ProcChaosList_type, ProcChaosList_DeepCopyInto); (TPtr ProcChaosList_type, ProcChaosList_DeepCopy);
   (TPtr ProcChaosList_type, ProcChaosList_DeepCopyObject); (PumpSpec_type, PumpSpec_DeepCopyInto);
   (TPtr PumpSpec_type, PumpSpec_DeepCopy); (RelationshipSpec_type, RelationshipSpec_DeepCopyInto);
   (TPtr RelationshipSpec_type, RelationshipSpec_DeepCopy); (ResourceRef_type, ResourceRef_DeepCopyInto);
   (TPtr ResourceRef_type, ResourceRef_DeepCopy);
   (RelationshipStatus_type, RelationshipStatus_DeepCopyInto);
   (TPtr RelationshipStatus_type, RelationshipStatus_DeepCopy);
   (Relationship_type, Relationship_DeepCopyInto); (TPtr Relationship_type, Relationship_DeepCopy);
   (TPtr Relationship_type, Relationship_DeepCopyObject);
   (RelationshipList_type, RelationshipList_DeepCopyInto);
   (TPtr RelationshipList_type, RelationshipList_DeepCopy);
   (TPtr RelationshipList_type, RelationshipList_DeepCopyObject);
   (TestResourceMount_type, TestResourceMount_DeepCopyInto);
   (TPtr TestResourceMount_type, TestResourceMount_DeepCopy);
   (ResourceContainerSpec_type, ResourceContainerSpec_DeepCopyInto);
   (TPtr ResourceContainerSpec_type, ResourceContainerSpec_DeepCopy);
   (TSlice ResourceRef_type, ResourceRefList_DeepCopy);
   (TestResourceSpec_type, TestResourceSpec_DeepCopyInto);
   (TPtr TestResourceSpec_type, TestResourceSpec_DeepCopy);
   (ResourceRequestItem_type, ResourceRequestItem_DeepCopyInto);
   (TPtr ResourceRequestItem_type, ResourceRequestItem_DeepCopy);
   (ServerConfigs_type, ServerConfigs_DeepCopyInto); (TPtr ServerConfigs_type, ServerConfigs_DeepCopy);
   (TiDBClusterVersion_type, TiDBClusterVersion_DeepCopyInto);
   (TPtr TiDBClusterVersion_type, TiDBClusterVersion_DeepCopy); (TiDBSpec_type, TiDBSpec_DeepCopyInto);
   (TPtr TiDBSpec_type, TiDBSpec_DeepCopy); (TiFlashSpec_type, TiFlashSpec_DeepCopyInto);
   (TPtr TiFlashSpec_type, TiFlashSpec_DeepCopy); (TiKVSpec_type, TiKVSpec_DeepCopyInto);
   (TPtr TiKVSpec_type, TiKVSpec_DeepCopy); (TiDBCluster_type, TiDBCluster_DeepCopyInto);
   (TPtr TiDBCluster_type, TiDBCluster_DeepCopy);
   (TestClusterTopologySpec_type, TestClusterTopologySpec_DeepCopyInto);
   (TPtr TestClusterTopologySpec_type, TestClusterTopologySpec_DeepCopy);
   (TiDBClusterInfo_type, TiDBClusterInfo_DeepCopyInto);
   (TPtr TiDBClusterInfo_type, TiDBClusterInfo_DeepCopy);
   (TestClusterTopologyStatus_type, TestClusterTopologyStatus_DeepCopyInto);
   (TPtr TestClusterTopologyStatus_type, TestClusterTopologyStatus_DeepCopy);
   (TestClusterTopology_type, TestClusterTopology_DeepCopyInto);
   (TPtr TestClusterTopology_type, TestClusterTopology_DeepCopy);
   (TPtr TestClusterTopology_type, TestClusterTopology_DeepCopyObject);
   (TestClusterTopologyList_type, TestClusterTopologyList_DeepCopyInto);
   (TPtr TestClusterTopologyList_type, TestClusterTopologyList_DeepCopy);
   (TPtr TestClusterTopologyList_type, TestClusterTopologyList_DeepCopyObject);
   (TestResourceStatus_type, TestResourceStatus_DeepCopyInto);
   (TPtr TestResourceStatus_type, TestResourceStatus_DeepCopy);
   (TestResource_type, TestResource_DeepCopyInto); (TPtr TestResource_type, TestResource_DeepCopy);
   (TPtr TestResource_type, TestResource_DeepCopyObject);
   (TestResourceList_type, TestResourceList_DeepCopyInto);
   (TPtr TestResourceList_type, TestResourceList_DeepCopy);
   (TPtr TestResourceList_type, TestResourceList_DeepCopyObject);
   (TestResourceRequestSpec_type, TestResourceRequestSpec_DeepCopyInto);
   (TPtr TestResourceRequestSpec_type, TestResourceRequestSpec_DeepCopy);
   (TestResourceRequestStatus_type, TestResourceRequestStatus_DeepCopyInto);
   (TPtr TestResourceRequestStatus_type, TestResourceRequestStatus_DeepCopy);
   (TestResourceRequest_type, TestResourceRequest_DeepCopyInto);
   (TPtr TestResourceRequest_type, TestResourceRequest_DeepCopy);
   (TPtr TestResourceRequest_type, TestResourceRequest_DeepCopyObject);
   (TestResourceRequestList_type, TestResourceRequestList_DeepCopyInto);
   (TPtr TestResourceRequestList_type, TestResourceRequestList_DeepCopy);
   (TPtr TestResourceRequestList_type, TestResourceRequestList_DeepCopyObject);
   (TestWorkloadItemSpec_type, TestWorkloadItemSpec_DeepCopyInto);
   (TPtr TestWorkloadItemSpec_type, TestWorkloadItemSpec_DeepCopy);
   (TestWorkloadSpec_type, TestWorkloadSpec_DeepCopyInto);
   (TPtr TestWorkloadSpec_type, TestWorkloadSpec_DeepCopy);
   (TestWorkloadResult_type, TestWorkloadResult_DeepCopyInto);
   (TPtr TestWorkloadResult_type, TestWorkloadResult_DeepCopy);
   (WorkloadStatus_type, WorkloadStatus_DeepCopyInto);
   (TPtr WorkloadStatus_type, WorkloadStatus_DeepCopy);
   (TestWorkloadStatus_type, TestWorkloadStatus_DeepCopyInto);
   (TPtr TestWorkloadStatus_type, TestWorkloadStatus_DeepCopy);
   (TestWorkload_type, TestWorkload_DeepCopyInto); (TPtr TestWorkload_type, TestWorkload_DeepCopy);
   (TPtr TestWorkload_type, TestWorkload_DeepCopyObject);
   (WorkflowStepItem_type, WorkflowStepItem_DeepCopyInto);
   (TPtr WorkflowStepItem_type, WorkflowStepItem_DeepCopy);
   (TestWorkflowSpec_type, TestWorkflowSpec_DeepCopyInto);
   (TPtr TestWorkflowSpec_type, TestWorkflowSpec_DeepCopy);
   (TestWorkflowStatus_type, TestWorkflowStatus_DeepCopyInto);
   (TPtr TestWorkflowStatus_type, TestWorkflowStatus_DeepCopy);
   (TestWorkflow_type, TestWorkflow_DeepCopyInto); (TPtr TestWorkflow_type, TestWorkflow_DeepCopy);
   (TPtr TestWorkflow_type, TestWorkflow_DeepCopyObject);
   (TestWorkflowList_type, TestWorkflowList_DeepCopyInto);
   (TPtr TestWorkflowList_type, TestWorkflowList_DeepCopy);
   (TPtr TestWorkflowList_type, TestWorkflowList_DeepCopyObject);
   (TestWorkloadList_type, TestWorkloadList_DeepCopyInto);
   (TPtr TestWorkloadList_type, TestWorkloadList_DeepCopy);
   (TPtr TestWorkloadList_type, TestWorkloadList_DeepCopyObject)].

(** ** They are deep copies *)

Lemma copies_as_object t c : copies t c -> copies t (as_object c).
Proof.
  intros H h v tr Hr. destruct (H h v tr Hr) as (v' & new & Hc & Hrest). exists v', new. split; [|done].
  unfold as_object. rewrite Hc. by destruct v'.
Qed.

Ltac copied :=
  lazymatch goal with
  | |- copies _ keep => apply copies_keep; first [reflexivity|apply TypeMeta_flat]
  | |- copies _ ObjectMeta_DeepCopyInto => apply ObjectMeta_copies
  | |- copies _ ListMeta_DeepCopyInto => apply ListMeta_copies
  | |- copies _ (if_set _) => apply copies_if_set; [auto with naglfar|copied_set]
  | |- copies _ (by_copy _) => apply copies_by_copy; copied
  | |- copies _ (as_object _) => apply copies_as_object; copied
  | |- copies ?t (copy_struct _) =>
      let t' := eval hnf in t in change t with t';
      apply copies_struct; [vm_compute; reflexivity|simpl; repeat split; first [reflexivity|apply TypeMeta_flat|copied]]
  | |- copies ?t ?c => let c' := eval red in c in change (copies t c'); copied
  end
with copied_set :=
  lazymatch goal with
  | |- copies_set _ make_copy => apply copies_make_copy; reflexivity
  | |- copies_set _ (make_each _) => apply copies_make_each; copied
  | |- copies_set _ (make_map _ _) => apply copies_make_map; [apply order_perm|copied]
  | |- copies_set _ (new_from _) => apply copies_new_from; copied
  | |- copies_set ?t (by_copy ?c) => apply copies_set_by_copy; copied_set
  | |- copies_set ?t ?c => let c' := eval red in c in change (copies_set t c'); copied_set
  end.

Lemma deep_copies_all : Forall (fun p => copies p.1 p.2) deep_copies.
Proof. unfold deep_copies. repeat constructor; simpl fst; simpl snd; copied. Qed.

(** C31. A copy and its original are independent. Each generated function succeeds on every value
    of its type that can be read to the end, leaves all memory as it was, and returns a value
    that reads the same; whatever is done afterwards to the memory there was before the copy,
    the copy still reads so, and whatever is done to the memory the copy brought, the original
    does. Not in the list are DeepCopyInto of the slice types AcceptResources and
    ResourceRefList, which make an empty slice of a nil one and are called on others only. *)
Theorem deep_copies_independent t c h v tr :
  (t, c) ∈ deep_copies -> read t h v = Some tr ->
  exists v' new, c v h = Ret (v', h ∪ new) /\ h ##ₘ new /\
    (forall before, before ##ₘ new -> read t (before ∪ new) v' = Some tr) /\
    (forall brought, h ##ₘ brought -> read t (h ∪ brought) v = Some tr).
Proof.
  intros Hin Hr. pose proof (proj1 (list.Forall_forall _ _) deep_copies_all _ Hin) as Hc.
  destruct (Hc h v tr Hr) as (v' & new & Hrun & Hd & Hr'). exists v', new. split_and!; [done|done| |].
  - intros before Hb. by apply read_mono_r.
  - intros brought Hb. by apply read_mono_l.
Qed.
End deepcopy.

(** ** An example *)

Module DeepCopyExample.

(** Metadata with the fields the controllers read. *)
#[local] Instance example_meta : MetaV1.
Proof.
  refine {|
    TypeMeta_type := TStruct [("Kind", TScalar); ("APIVersion", TScalar)];
    ObjectMeta_type := TStruct [("Name", TScalar); ("Finalizers", TSlice TScalar); ("Labels", TMap TScalar)];
    ObjectMeta_DeepCopyInto :=
      copy_struct [("Finalizers", if_set make_copy); ("Labels", if_set (make_map id keep))];
    ListMeta_type := TStruct [("ResourceVersion", TScalar)];
    ListMeta_DeepCopyInto := copy_struct [] |}.
  - reflexivity.
  - apply copies_struct; [vm_compute; reflexivity|]. simpl. split_and!; [done| | |done].
    + apply copies_if_set; [done|by apply copies_make_copy].
    + apply copies_if_set; [done|]. apply copies_make_map; [done|by apply copies_keep].
  - apply copies_struct; [vm_compute; reflexivity|done].
Defined.
#[local] Instance example_order : RangeOrder := {| order := id; order_perm := fun l => reflexivity l |}.

(** A machine's information with one device, and a topology that names one Flink node. *)
Definition str (s : string) : gval := VScalar (SString s).
Definition struct (l : list (string * gval)) : gval := VStruct (list_to_map l).
Definition example_flink : gval :=
  struct [("Version", str "-1.9"); ("JobManager", struct [("Host", str "n1"); ("WebPort", VScalar (SInt 8081)); ("Config", str "")]);
          ("TaskManager", VSlice 1 1 1)].
Definition example_task (host : string) : gval := struct [("Host", str host); ("Config", str "")].
Definition example_heap : heap :=
  {[1%positive := CArray [example_task "n2"; example_task "n3"]; 2%positive := CVar example_flink]}.
Definition example_spec : gval :=
  struct [("ResourceRequest", str "rr"); ("TiDBCluster", VNil); ("FlinkCluster", VRef 2); ("DMCluster", VNil)].

Lemma deep_copies_independent_witness : exists v' new tr,
  TestClusterTopologySpec_DeepCopyInto example_spec example_heap = Ret (v', example_heap ∪ new) /\
  (forall before, before ##ₘ new -> read TestClusterTopologySpec_type (before ∪ new) v' = Some tr).
Proof.
  destruct (deep_copies_independent TestClusterTopologySpec_type TestClusterTopologySpec_DeepCopyInto
              example_heap example_spec
              (default Nil (read TestClusterTopologySpec_type example_heap example_spec)))
    as (v' & new & H1 & _ & H2 & _).
  - apply (list_elem_of_lookup_2 _ 116). reflexivity.
  - vm_compute. reflexivity.
  - eexists v', new, _. split; [exact H1|exact H2].
Defined.
End DeepCopyExample.
