(* ===== verification/World.v ===== *)
(** * The services the program calls

    The Kubernetes API server, the Docker daemons of the machines, hosts over SSH and HTTP, the
    clock and the random sources: [call] lists the requests the program makes and [answer] what
    each can be answered with. They are not code of the repository, so an answer is arbitrary
    except for the language's own promises, in [admissible]: a range over a map visits each key
    once in some order, a shuffle permutes, [sort.Slice] sorts, [rand.Intn] is in range; and the
    error of a dialled connection is the library's.

    Log lines are not modelled; events recorded on objects are. *)

From S2P Require Import Prelude GoStd Util ApiTypes TopologyTypes Prog.

(** ** Errors

    A Go error is one the program makes ([Errorf] and the two types of pkg/tiup/common.go) or
    one a library returned, known by its text and what the libraries' predicates say of it. *)

Record ext_error := mkExtError {
  ext_text : string;
  ext_IsNotFound : bool;              (* apierrors.IsNotFound *)
  ext_IsAlreadyExists : bool;         (* apierrors.IsAlreadyExists *)
  ext_IsErrContainerNotFound : bool;  (* docker.IsErrContainerNotFound *)
  ext_IsErrNotFound : bool;           (* docker.IsErrNotFound *)
  ext_IsErrImageNotFound : bool;      (* docker.IsErrImageNotFound *)
}.

Inductive error :=
| Errorf (msg : string)
| External (e : ext_error)
| ErrClusterDuplicated (ClusterName : string)
| ErrClusterNotExist (ClusterName : string).

(** [err.Error()]. *)
Definition Error (e : error) : string :=
  match e with
  | Errorf msg => msg
  | External e => ext_text e
  | ErrClusterDuplicated n => "cluster name " +:+ n +:+ " is duplicated"
  | ErrClusterNotExist n => "cluster name " +:+ n +:+ " is not exist"
  end.

Definition ext_is (p : ext_error -> bool) (e : error) : bool :=
  match e with External x => p x | _ => false end.
Definition IsNotFound : error -> bool := ext_is ext_IsNotFound.
Definition IsAlreadyExists : error -> bool := ext_is ext_IsAlreadyExists.
Definition IsErrContainerNotFound : error -> bool := ext_is ext_IsErrContainerNotFound.
Definition IsErrNotFound : error -> bool := ext_is ext_IsErrNotFound.
Definition IsErrImageNotFound : error -> bool := ext_is ext_IsErrImageNotFound.

(** [client.IgnoreNotFound] of controller-runtime: nil for a not-found error, else the error. *)
Definition IgnoreNotFound (e : error) : option error := if IsNotFound e then None else Some e.

(** [tiup.IgnoreClusterDuplicated] and [tiup.IgnoreClusterNotExist] (pkg/tiup/common.go). *)
Definition IgnoreClusterDuplicated (err : option error) : option error :=
  match err with Some (ErrClusterDuplicated _) => None | _ => err end.
Definition IgnoreClusterNotExist (err : option error) : option error :=
  match err with Some (ErrClusterNotExist _) => None | _ => err end.

(** ** ctrl.Result *)

Record Result := mkResult {
  Requeue : bool;
  RequeueAfter : Z;
}.
Definition noRequeue : Result := mkResult false 0.
Definition after (d : Z) : Result := mkResult false d.

(** ** Docker *)

Record Mount := mkMount {
  Mount_Type : string;
  Mount_Source : string;
  Mount_Target : string;
  Mount_ReadOnly : bool;
}.
Definition bindMount (source target : string) : Mount := mkMount "bind" source target false.

Record PortBinding := mkPortBinding {
  PortBinding_HostIP : string;
  PortBinding_HostPort : string;
}.

(** The fields of [container.Config] and [container.HostConfig] the program sets or reads. *)
Record Config := mkConfig {
  Config_Hostname : string;
  Config_Image : string;
  Config_Entrypoint : list string;
  Config_Cmd : list string;
  Config_Env : list string;
  Config_ExposedPorts : gset string;
  Config_Labels : gomap string;
}.
#[export] Instance Config_eta : Eta Config := fun c => {|
  Config_Hostname := Config_Hostname c; Config_Image := Config_Image c;
  Config_Entrypoint := Config_Entrypoint c; Config_Cmd := Config_Cmd c;
  Config_Env := Config_Env c; Config_ExposedPorts := Config_ExposedPorts c;
  Config_Labels := Config_Labels c |}.
Definition zeroConfig : Config := mkConfig "" "" [] [] [] ∅ None.

Record HostConfig := mkHostConfig {
  HostConfig_Binds : list string;
  HostConfig_Mounts : list Mount;
  HostConfig_PublishAllPorts : bool;
  HostConfig_Memory : Z;
  HostConfig_CpusetCpus : string;
  HostConfig_CapAdd : list string;
  HostConfig_Privileged : bool;
  HostConfig_PidMode : string;
  HostConfig_PortBindings : gmap string (list PortBinding);
  HostConfig_RestartPolicy : string;
}.
#[export] Instance HostConfig_eta : Eta HostConfig := fun h => {|
  HostConfig_Binds := HostConfig_Binds h; HostConfig_Mounts := HostConfig_Mounts h;
  HostConfig_PublishAllPorts := HostConfig_PublishAllPorts h;
  HostConfig_Memory := HostConfig_Memory h; HostConfig_CpusetCpus := HostConfig_CpusetCpus h;
  HostConfig_CapAdd := HostConfig_CapAdd h; HostConfig_Privileged := HostConfig_Privileged h;
  HostConfig_PidMode := HostConfig_PidMode h; HostConfig_PortBindings := HostConfig_PortBindings h;
  HostConfig_RestartPolicy := HostConfig_RestartPolicy h |}.
Definition zeroHostConfig : HostConfig := mkHostConfig [] [] false 0 "" [] false "" ∅ "".

(** [types.ContainerJSON]: what an inspection of a container answers. *)
Record ContainerState := mkContainerState {
  ContainerState_Running : bool;
  ContainerState_Restarting : bool;
  ContainerState_ExitCode : Z;
  ContainerState_StartedAt : string;
  ContainerState_FinishedAt : string;
}.
Record ContainerJSON := mkContainerJSON {
  ContainerJSON_ID : string;
  ContainerJSON_Name : string;
  ContainerJSON_State : ContainerState;
  ContainerJSON_Config : option Config;
  ContainerJSON_HostConfig : option HostConfig;
  ContainerJSON_Networks : gmap string string; (* network name to the IP address in it *)
  ContainerJSON_Ports : gmap string (list PortBinding);
}.

(** The fields the program sets of [types.ExecConfig] and [types.ContainerLogsOptions]. *)
Record ExecConfig := mkExecConfig {
  ExecConfig_AttachStdout : bool;
  ExecConfig_AttachStderr : bool;
  ExecConfig_Env : list string;
  ExecConfig_Cmd : list string;
}.
Record LogsOptions := mkLogsOptions {
  LogsOptions_ShowStdout : bool;
  LogsOptions_ShowStderr : bool;
  LogsOptions_Follow : bool;
}.

(** A client is known by the daemon's URL and the API version it was made with. *)
Record DockerClient := mkDockerClient {
  DockerClient_URL : string;
  DockerClient_Version : string;
}.

(** ** Kubernetes objects *)

Inductive kind :=
| KMachine | KTestResource | KTestResourceRequest | KTestClusterTopology | KTestWorkload
| KProcChaos | KRelationship.

Definition obj (k : kind) : Type :=
  match k with
  | KMachine => Machine
  | KTestResource => TestResource
  | KTestResourceRequest => TestResourceRequest
  | KTestClusterTopology => TestClusterTopology
  | KTestWorkload => TestWorkload
  | KProcChaos => ProcChaos
  | KRelationship => Relationship
  end.

Definition obj_meta (k : kind) : obj k -> ObjectMeta :=
  match k with
  | KMachine => Machine_ObjectMeta
  | KTestResource => TestResource_ObjectMeta
  | KTestResourceRequest => TestResourceRequest_ObjectMeta
  | KTestClusterTopology => Topology_ObjectMeta
  | KTestWorkload => TestWorkload_ObjectMeta
  | KProcChaos => ProcChaos_ObjectMeta
  | KRelationship => Relationship_ObjectMeta
  end.

(** ** Calls *)

Inductive call :=
(* Kubernetes *)
| Get (k : kind) (key : NamespacedName)
| List (k : kind) (namespace : option string) (owner : option string)
| Update (k : kind) (o : obj k)
| StatusUpdate (k : kind) (o : obj k)
| Create (k : kind) (o : obj k)
| Delete (k : kind) (o : obj k)
| SetControllerReference (owner : TestResourceRequest) (o : TestResource)
| RecordEvent (eventtype reason message : string)
(* Docker *)
| DockerNewClient (url version : string)
| DockerClose (c : DockerClient)
| ContainerInspect (c : DockerClient) (name : string)
| ContainerCreate (c : DockerClient) (cfg : Config) (host : HostConfig) (name : string)
| ContainerStart (c : DockerClient) (name : string)
| ContainerWait (c : DockerClient) (name : string)
| ContainerRemove (c : DockerClient) (name : string) (force : bool)
| ContainerLogs (c : DockerClient) (name : string) (o : LogsOptions)
| ContainerExecCreate (c : DockerClient) (name : string) (o : ExecConfig)
| ContainerExecAttach (c : DockerClient) (id : string) (o : ExecConfig)
| NetworkConnect (c : DockerClient) (network name : string)
| ImageInspect (c : DockerClient) (image : string)
| ImagePull (c : DockerClient) (image : string)
(* the stream a pull, a command or the logs answer: copied, taken apart, closed *)
| StreamCopy (c : DockerClient)
| StdCopy (c : DockerClient)
| StreamClose (c : DockerClient)
(* remote hosts *)
| ReadFile (path : string)
| ParsePrivateKey (key : string)
| SSHDial (user key host : string) (port : Z)
| SSHNewSession (host : string) (port : Z)
| SSHRun (host : string) (port : Z) (command : string)
| SSHCloseSession (host : string) (port : Z)
| SSHClose (host : string) (port : Z)
| SCPPrivateKey (user keyPath : string)
| SCPConnect (host : string) (port : Z)
| SCPCopy (host : string) (port : Z) (content path permissions : string)
| HTTPPost (url fileName body : string)
(* the environment of a command, and the clients it makes *)
| Getenv (name : string)
| Sleep (d : Z)
| BuildConfigFromFlags (masterUrl kubeconfigPath : string)
| ToRESTConfig
| NewForConfig
| ClientNew
(* decoding by reflection, and the files packed into the binary *)
| UnmarshalMachineInfo (text : string)
| UnmarshalStrings (text : string)
| ScriptFind (name : string)
(* time, chance and the orders the language leaves open *)
| TimeNow
| RandIntn (n : Z)
| RangeKeys (keys : list string)
| ShuffleMachines (l : list Machine)
| SortMachines (less : Machine -> Machine -> bool) (l : list Machine).

Definition answer (c : call) : Type :=
  match c with
  | Get k _ => error + obj k
  | List k _ _ => option error * list (obj k)
  | Update k _ | StatusUpdate k _ | Create k _ => error + obj k
  | Delete _ _ => option error
  | SetControllerReference _ _ => error + TestResource
  | RecordEvent _ _ _ => unit
  | DockerNewClient _ _ => error + DockerClient
  | DockerClose _ => unit
  | ContainerInspect _ _ => error + ContainerJSON
  | ContainerCreate _ _ _ _ => error + list string
  | ContainerStart _ _ | ContainerRemove _ _ _ | NetworkConnect _ _ _ => option error
  | ContainerWait _ _ => error + Z
  | ContainerLogs _ _ _ | ContainerExecAttach _ _ _ => option error
  | ContainerExecCreate _ _ _ => error + string
  | ImageInspect _ _ | ImagePull _ _ | StreamCopy _ | StreamClose _ => option error
  | StdCopy _ => string * string * option error
  | ReadFile _ => error + string
  | ParsePrivateKey _ | SSHDial _ _ _ _ | SSHNewSession _ _ => option error
  | SSHRun _ _ _ => string * string * option error
  | SSHCloseSession _ _ | SSHClose _ _ => unit
  | SCPPrivateKey _ _ | SCPConnect _ _ | SCPCopy _ _ _ _ _ => option error
  | HTTPPost _ _ _ => option error
  | Getenv _ => string
  | Sleep _ => unit
  | BuildConfigFromFlags _ _ | ToRESTConfig | NewForConfig | ClientNew => option error
  | UnmarshalMachineInfo _ => option error * option MachineInfo
  | UnmarshalStrings _ => option error * list string
  | ScriptFind _ => error + string
  | TimeNow => Z
  | RandIntn _ => Z
  | RangeKeys _ => list string
  | ShuffleMachines _ => list Machine
  | SortMachines _ _ => list Machine
  end%type.

(** An error that is not one of the program's own. *)
Definition external (r : option error) : Prop :=
  match r with Some (External _) | None => True | Some _ => False end.

(** The promises of the language, and that dialling a host fails with an error of the library:
    everything else may answer anything. *)
Definition admissible (c : call) : answer c -> Prop :=
  match c with
  | RandIntn n => fun x => 0 <= x < n
  | RangeKeys ks => fun l => l ≡ₚ ks
  | ShuffleMachines ms => fun l => l ≡ₚ ms
  | SortMachines less ms => fun l => l ≡ₚ ms /\ StronglySorted (fun a b => less b a = false) l
  | SSHDial _ _ _ _ => external
  | _ => fun _ => True
  end.

Abbreviation io := (prog answer).
Abbreviation history := (list (event answer)).

(** [safe G p Q]: from the empty history, whatever the services answer, every call [p] makes
    satisfies [G] of the calls and answers so far, and [p] ends in [Q]. *)
Definition safe {A} (G : history -> call -> Prop) (p : io A)
    (Q : history -> go A -> Prop) : Prop :=
  wp admissible G p [] Q.

(** ** Short names for the calls *)

Definition get (k : kind) (key : NamespacedName) : io (error + obj k) := ask (Get k key).
Definition list_objs (k : kind) (ns owner : option string) : io (option error * list (obj k)) :=
  ask (List k ns owner).

(** The error half of an answer; [r.Update] and [r.Status().Update] replace the object in
    memory by the server's copy, which most callers drop. *)
Definition err_of {A} (r : error + A) : option error :=
  match r with inl e => Some e | inr _ => None end.
Definition update (k : kind) (o : obj k) : io (option error) :=
  r ← ask (Update k o); mret (err_of r).
Definition status_update (k : kind) (o : obj k) : io (option error) :=
  r ← ask (StatusUpdate k o); mret (err_of r).
Definition record_event (eventtype reason message : string) : io unit :=
  ask (RecordEvent eventtype reason message).

(** A range over a map: the keys in the order of this iteration. *)
Definition range_keys {V} (m : gmap string V) : io (list string) :=
  ask (RangeKeys (map_to_list m).*1).

(** The services of the examples: one whose every fallible call fails, and one error of each
    kind the callers tell apart. *)
Definition unavailable : error := External (mkExtError "unavailable" false false false false false).
Definition not_found : error := External (mkExtError "not found" true false true true true).

Definition refuse (c : call) : answer c :=
  match c return answer c with
  | Get _ _ | Update _ _ | StatusUpdate _ _ | Create _ _ | SetControllerReference _ _
  | DockerNewClient _ _ | ContainerInspect _ _ | ContainerCreate _ _ _ _ | ContainerWait _ _
  | ContainerExecCreate _ _ _ | ScriptFind _ | ReadFile _ => inl unavailable
  | List _ _ _ => (Some unavailable, [])
  | Delete _ _ | ContainerStart _ _ | ContainerRemove _ _ _ | NetworkConnect _ _ _
  | ContainerLogs _ _ _ | ContainerExecAttach _ _ _ | StreamCopy _ | StreamClose _
  | ImageInspect _ _ | ImagePull _ _ | ParsePrivateKey _ | SSHDial _ _ _ _ | SSHNewSession _ _ | SCPPrivateKey _ _ | SCPConnect _ _ | SCPCopy _ _ _ _ _
  | HTTPPost _ _ _ | BuildConfigFromFlags _ _ | ToRESTConfig | NewForConfig | ClientNew => Some unavailable
  | Getenv _ => ""
  | Sleep _ | RecordEvent _ _ _ | DockerClose _ | SSHCloseSession _ _ | SSHClose _ _ => tt
  | SSHRun _ _ _ | StdCopy _ => ("", "", Some unavailable)
  | UnmarshalMachineInfo _ => (Some unavailable, Some (mkMachineInfo "" 0 "" ∅))
  | UnmarshalStrings _ => (Some unavailable, [])
  | TimeNow | RandIntn _ => 0
  | RangeKeys ks => ks
  | ShuffleMachines l | SortMachines _ l => l
  end.

(** ** Reading a history *)

Definition obj_as (k k' : kind) : obj k' -> option (obj k) :=
  match k', k return obj k' -> option (obj k) with
  | KMachine, KMachine => Some
  | KTestResource, KTestResource => Some
  | KTestResourceRequest, KTestResourceRequest => Some
  | KTestClusterTopology, KTestClusterTopology => Some
  | KTestWorkload, KTestWorkload => Some
  | KProcChaos, KProcChaos => Some
  | KRelationship, KRelationship => Some
  | _, _ => fun _ => None
  end.

(** The object an answer to a [Get] of its kind carries. *)
Definition got (k : kind) (c : call) : answer c -> option (obj k) :=
  match c return answer c -> option (obj k) with
  | Get k' _ => fun r => match r with inl _ => None | inr o => obj_as k k' o end
  | _ => fun _ => None
  end.

(** The latest object of a kind read from the API server: the state the handler works from. *)
Fixpoint last_got (k : kind) (h : history) : option (obj k) :=
  match h with
  | [] => None
  | e :: h' =>
      match got k (ev_call e) (ev_answer e) with
      | Some o => Some o
      | None => last_got k h'
      end
  end.

(** Some event of the history satisfies a predicate on calls and answers. *)
Definition happened (P : forall c, answer c -> Prop) (h : history) : Prop :=
  Exists (fun e => P (ev_call e) (ev_answer e)) h.

Lemma happened_here (P : forall c, answer c -> Prop) c x h : P c x -> happened P (Event c x :: h).
Proof. intros H. by constructor. Qed.
Lemma happened_later (P : forall c, answer c -> Prop) e h : happened P h -> happened P (e :: h).
Proof. intros H. by constructor. Qed.
Lemma happened_impl (P Q : forall c, answer c -> Prop) h :
  (forall c x, P c x -> Q c x) -> happened P h -> happened Q h.
Proof. unfold happened. rewrite !Exists_exists. intros HPQ (e & He & HP). eauto. Qed.
#[export] Hint Resolve happened_here happened_later : naglfar.

(** The object an answer shows: what was read, or what an update stored. *)
Definition shown (k : kind) (c : call) : answer c -> option (obj k) :=
  match c return answer c -> option (obj k) with
  | Get k' _ | Update k' _ | StatusUpdate k' _ => fun r =>
      match r with inl _ => None | inr o => obj_as k k' o end
  | _ => fun _ => None
  end.

(** The object in the memory of a handler that goes on with what its updates answer. *)
Fixpoint last_shown (k : kind) (h : history) : option (obj k) :=
  match h with
  | [] => None
  | e :: h' =>
      match shown k (ev_call e) (ev_answer e) with
      | Some o => Some o
      | None => last_shown k h'
      end
  end.

(** Growing without showing another object of a kind. *)
Definition holds_still (k : kind) (h h' : history) : Prop :=
  (last_shown k h' = last_shown k h /\ last_got k h' = last_got k h) /\
  forall P, happened P h -> happened P h'.

#[export] Instance holds_still_preorder k : PreOrder (holds_still k).
Proof.
  split; [by intros h|]. intros h1 h2 h3 ((E1 & F1) & H1) ((E2 & F2) & H2).
  split; [by rewrite E2, F2|auto].
Qed.

Lemma admissible_range_keys {V} (m : gmap string V) l k :
  admissible (RangeKeys (map_to_list m).*1) l -> k ∈ l <-> is_Some (m !! k).
Proof. simpl. intros ->. apply fst_elem_of_map_to_list. Qed.
