(* ===== verification/SSH.v ===== *)
(** * The SSH executor

    pkg/ssh/executor.go: a client made from a key file, and one command run over a session of
    it. The key file is read and parsed while the configuration is built, and either failing
    panics. *)

From S2P Require Import Prelude ApiTypes Prog World.

Module sshUtil.

(** A client is the connection it embeds. *)
Record Client := mkClient {
  Client_host : string;
  Client_port : Z;
}.

Definition NewSSHClient (username keyPath host : string) (port : Z) : io (error + Client) :=
  let? key := ask (ReadFile keyPath) orelse err => Crash (Error err) in
  check ask (ParsePrivateKey key) orelse err => Crash (Error err) in
  check ask (SSHDial username key host port) orelse err => mret (inl err) in
  mret (inr (mkClient host port)).

(** What the command wrote, and its error; nothing is written when no session is opened. *)
Definition RunCommand (c : Client) (command : string) : io (string * string * option error) :=
  check ask (SSHNewSession (Client_host c) (Client_port c)) orelse err => mret ("", "", Some err) in
  deferring (ask (SSHCloseSession (Client_host c) (Client_port c)))
    (ask (SSHRun (Client_host c) (Client_port c) command)).

(** [Close] of the embedded connection. *)
Definition Close (c : Client) : io unit := ask (SSHClose (Client_host c) (Client_port c)).

End sshUtil.
