(* ===== verification/Machine.v ===== *)
(** * Machines: what a machine offers and what is left of it

    api/v1/machine_types.go ([Available], [Rest] and the CPU sets) and api/v1/machine_webhook.go
    (defaulting and validation). Memory sizes go through the [Units] parameter. *)

From S2P Require Import Prelude GoStd Util ApiTypes Prog World.

Module Machine.
Section Machine.
Context {U : Units}.

(** ** CPU sets *)

(** [for i := 0; i < int(threads); i++ { append(i) }]. *)
Definition makeCPUSet (threads : Z) : list Z := seqZ 0 threads.

(** The cores of [cpuSet] not in [allocSet], through a map used as a set, sorted. The order the
    map is ranged in does not show: see [sorted_cores_unique]. *)
Definition deleteCPUSet (cpuSet allocSet : list Z) : list Z :=
  let set : gset Z := list_to_set cpuSet ∖ list_to_set allocSet in
  merge_sort Z.le (elements set).

Fixpoint cpuSetStr_from (i : Z) (cpuSet : list Z) (str : string) : string :=
  match cpuSet with
  | [] => str
  | core :: rest =>
      cpuSetStr_from (i + 1) rest
        (if i =? 0 then strconv.Itoa core else str +:+ "," +:+ strconv.Itoa core)
  end.
Definition cpuSetStr (cpuSet : list Z) : string := cpuSetStr_from 0 cpuSet "".

(** ** Available *)

Definition diskResource (device : string) (disk : StorageDevice) : go DiskResource :=
  size ← BytesSize.Sub (StorageDevice_Total disk) (StorageDevice_Used disk);
  Ret (mkDiskResource size
         (if strs.HasPrefix (path.Base device) "nvme" then NVMEKind else OtherKind)
         (StorageDevice_MountPoint disk)).

(** The loop over the storage devices, in the order [devices] of this iteration. *)
Definition availableDisks (exclusive : gset string) (devices : list (string * StorageDevice))
    : go (gmap string DiskResource) :=
  go_fold (fun disks '(device, disk) =>
      if decide (device ∈ exclusive) then
        d ← diskResource device disk; Ret (<[device := d]> disks)
      else Ret disks)
    devices ∅.

Definition Available (r : Machine) : go (option AvailableResource) :=
  match MachineStatus_Info (Machine_Status r) with
  | None => Ret None
  | Some info =>
      reserve ← deref (MachineSpec_Reserve (Machine_Spec r));
      memory ← BytesSize.Sub (MachineInfo_Memory info) (ReserveResources_Memory reserve);
      disks ← availableDisks (list_to_set (MachineSpec_ExclusiveDisks (Machine_Spec r)))
                (map_to_list (MachineInfo_StorageDevices info));
      Ret (Some (mkAvailableResource memory
             (deleteCPUSet (makeCPUSet (MachineInfo_Threads info))
                           (makeCPUSet (ReserveResources_Cores reserve)))
             disks))
  end.

(** ** Rest *)

(** The loop over one binding's disks: [None] when a device is not there any more. *)
Fixpoint removeDisks (bindings : list DiskBinding) (disks : gmap string DiskResource)
    : option (gmap string DiskResource) :=
  match bindings with
  | [] => Some disks
  | b :: l =>
      match disks !! DiskBinding_Device b with
      | None => None
      | Some _ => removeDisks l (delete (DiskBinding_Device b) disks)
      end
  end.

Definition disk_bindings (b : ResourceBinding) : list DiskBinding :=
  (map_to_list (ResourceBinding_Disks b)).*2.

Fixpoint restLoop (resources : ResourceRefList) (rest : AvailableResource)
    : go (option AvailableResource) :=
  match resources with
  | [] => Ret (Some rest)
  | refer :: l =>
      let b := ResourceRef_Binding refer in
      let idle := deleteCPUSet (AvailableResource_IdleCPUSet rest) (ResourceBinding_CPUSet b) in
      memory ← BytesSize.Sub (AvailableResource_Memory rest) (ResourceBinding_Memory b);
      match removeDisks (disk_bindings b) (AvailableResource_Disks rest) with
      | None => Ret None (* something wrong *)
      | Some disks => restLoop l (mkAvailableResource memory idle disks)
      end
  end.

Definition Machine_Rest (r : Machine) (resources : ResourceRefList) : go (option AvailableResource) :=
  rest ← Available r;
  match rest with
  | None => Ret None
  | Some rest => restLoop resources rest
  end.

Definition DockerURL (r : Machine) : string :=
  "tcp://" +:+ MachineSpec_Host (Machine_Spec r) +:+ ":"
    +:+ strconv.Itoa (MachineSpec_DockerPort (Machine_Spec r)).

Definition ChaosURL (r : Machine) : string :=
  MachineSpec_Host (Machine_Spec r) +:+ ":"
    +:+ strconv.Itoa (MachineStatus_ChaosPort (Machine_Status r)).

(** [Machine.DockerClient], with [docker.NewClient] a call to the library. *)
Definition DockerClient (r : Machine) : io (error + DockerClient) :=
  if MachineSpec_DockerTLS (Machine_Spec r) then
    mret (inl (Errorf "docker tls is unimplemented"))
  else ask (DockerNewClient (DockerURL r) (MachineSpec_DockerVersion (Machine_Spec r))).

(** ** machine_webhook.go *)

Definition GiB : Z := 2 ^ 30.

Definition defaultReserve (reserve : option ReserveResources) : ReserveResources :=
  let r := default (mkReserveResources 0 "") reserve in
  let r := if ReserveResources_Cores r =? 0 then r <| ReserveResources_Cores := 1 |> else r in
  if String.eqb (ReserveResources_Memory r) ""
  then r <| ReserveResources_Memory := BytesSize.Size (1 * GiB) |> else r.

Definition Default (r : Machine) : Machine :=
  let spec := Machine_Spec r in
  let spec :=
    if MachineSpec_DockerPort spec =? 0
    then spec <| MachineSpec_DockerPort := if MachineSpec_DockerTLS spec then 2376 else 2375 |>
    else spec in
  let spec := spec <| MachineSpec_Reserve := Some (defaultReserve (MachineSpec_Reserve spec)) |> in
  let spec :=
    if String.eqb (MachineSpec_DockerVersion spec) ""
    then spec <| MachineSpec_DockerVersion := "1.25" |> else spec in
  r <| Machine_Spec := spec |>.

(** The size library's error text is not modelled. *)
Definition ValidateCreate (r : Machine) : option error :=
  let spec := Machine_Spec r in
  if MachineSpec_DockerPort spec <? 0 then
    Some (Errorf ("invalid port " +:+ strconv.Itoa (MachineSpec_DockerPort spec)))
  else
    match MachineSpec_Reserve spec with
    | Some reserve =>
        if ReserveResources_Cores reserve <? 0 then
          Some (Errorf ("invalid cpu cores " +:+ strconv.Itoa (ReserveResources_Cores reserve)))
        else if negb (String.eqb (ReserveResources_Memory reserve) "")
             && negb (bool_decide (is_Some (BytesSize.ToSize (ReserveResources_Memory reserve))))
        then Some (Errorf "invalid memory size")
        else None
    | None => None
    end.

Definition ValidateUpdate (r old : Machine) : option error := None.

(** ** CPU sets: lemmas *)

Lemma elem_of_makeCPUSet n x : x ∈ makeCPUSet n <-> 0 <= x < n.
Proof. unfold makeCPUSet. rewrite elem_of_seqZ. lia. Qed.

Lemma makeCPUSet_NoDup n : NoDup (makeCPUSet n).
Proof. apply NoDup_seqZ. Qed.

Lemma elem_of_deleteCPUSet cpus alloc x :
  x ∈ deleteCPUSet cpus alloc <-> x ∈ cpus /\ x ∉ alloc.
Proof.
  unfold deleteCPUSet. rewrite merge_sort_Permutation, elem_of_elements.
  rewrite elem_of_difference, !elem_of_list_to_set. done.
Qed.

Lemma deleteCPUSet_NoDup cpus alloc : NoDup (deleteCPUSet cpus alloc).
Proof. unfold deleteCPUSet. rewrite merge_sort_Permutation. apply NoDup_elements. Qed.

Lemma deleteCPUSet_sorted cpus alloc : StronglySorted Z.le (deleteCPUSet cpus alloc).
Proof. apply (StronglySorted_merge_sort Z.le). Qed.

(** Whatever order the map was ranged in, sorting gives this list. *)
Lemma sorted_cores_unique cpus alloc l :
  l ≡ₚ elements (list_to_set cpus ∖ list_to_set alloc : gset Z) ->
  StronglySorted Z.le l -> l = deleteCPUSet cpus alloc.
Proof.
  intros Hperm Hsorted. eapply (StronglySorted_unique Z.le); [done|apply deleteCPUSet_sorted|].
  rewrite Hperm. unfold deleteCPUSet. by rewrite merge_sort_Permutation.
Qed.

Lemma cpuSetStr_from_nonzero i l str :
  0 < i -> cpuSetStr_from i l str =
           foldl (fun s c => s +:+ "," +:+ strconv.Itoa c) str l.
Proof.
  revert i str; induction l as [|c l IH]; intros i str Hi; simpl; [done|].
  destruct (Z.eqb_spec i 0); [lia|]. apply IH; lia.
Qed.

Lemma foldl_join l str :
  foldl (fun s c => s +:+ "," +:+ strconv.Itoa c) str l =
  match l with [] => str | _ => str +:+ "," +:+ strs.Join (strconv.Itoa <$> l) "," end.
Proof.
  revert str; induction l as [|c l IH]; intros str; [done|].
  cbn [foldl]. rewrite IH. destruct l as [|d l]; [done|].
  rewrite <-!str_app_assoc. done.
Qed.

(** The string handed to Docker as the CPUs of a container is the comma-separated list of
    the cores. *)
Lemma cpuSetStr_Join l : cpuSetStr l = strs.Join (strconv.Itoa <$> l) ",".
Proof.
  unfold cpuSetStr. destruct l as [|c l]; [done|].
  cbn [cpuSetStr_from]. change (0 =? 0) with true. cbn iota.
  rewrite cpuSetStr_from_nonzero, foldl_join by lia. by destruct l.
Qed.

(** ** Disks: lemmas *)

Definition devices_of (bs : list DiskBinding) : list string := DiskBinding_Device <$> bs.

Lemma availableDisks_dom (exclusive : gset string) (devices : list (string * StorageDevice))
    (disks disks' : gmap string DiskResource) d :
  go_fold (fun disks '(device, disk) =>
      if decide (device ∈ exclusive) then
        d ← diskResource device disk; Ret (<[device := d]> disks)
      else Ret disks) devices disks = Ret disks' ->
  is_Some (disks' !! d) <-> is_Some (disks !! d) \/ (d ∈ devices.*1 /\ d ∈ exclusive).
Proof.
  revert disks; induction devices as [|[device disk] devices IH]; intros disks; simpl.
  - intros [= ->]. set_solver.
  - intros H. go_inv. apply IH in H. rewrite H. clear H IH.
    rewrite elem_of_cons. destruct (decide (device ∈ exclusive)) as [Hex|Hex]; go_inv.
    + destruct (decide (device = d)) as [->|Hne].
      * rewrite lookup_insert_eq. split; [|eauto]. intros _. right. auto.
      * rewrite lookup_insert_ne by done. naive_solver.
    + naive_solver.
Qed.

Lemma removeDisks_spec bs disks :
  match removeDisks bs disks with
  | Some disks' =>
      NoDup (devices_of bs) /\ (forall d, d ∈ devices_of bs -> is_Some (disks !! d)) /\
      disks' = foldr delete disks (devices_of bs)
  | None => ~ (NoDup (devices_of bs) /\ forall d, d ∈ devices_of bs -> is_Some (disks !! d))
  end.
Proof.
  revert disks; induction bs as [|b bs IH]; intros disks; simpl.
  { split; [constructor|]. split; [set_solver|done]. }
  destruct (disks !! DiskBinding_Device b) as [r|] eqn:Hb.
  - specialize (IH (delete (DiskBinding_Device b) disks)).
    destruct (removeDisks bs _) as [disks'|].
    + destruct IH as (Hnd & Hin & ->). split; [|split].
      * constructor; [|done]. intros Hbin. apply Hin in Hbin as [? Hx].
        by rewrite lookup_delete_eq in Hx.
      * intros d [->|Hd]%elem_of_cons; [eauto|].
        apply Hin in Hd as [x Hx]. apply lookup_delete_Some in Hx as [_ Hx]. eauto.
      * clear. induction (devices_of bs) as [|d l IHl]; simpl; [done|].
        by rewrite IHl, delete_delete.
    + intros [Hnd Hin]. apply list.NoDup_cons in Hnd as [Hni Hnd]. apply IH. split; [done|].
      intros d Hd. rewrite lookup_delete_ne; [apply Hin; by right|].
      intros <-. contradiction.
  - intros [_ Hin]. destruct (Hin (DiskBinding_Device b)) as [x Hx]; [by left|]. congruence.
Qed.

Lemma lookup_foldr_delete {V} (l : list string) (m : gmap string V) d :
  is_Some (foldr delete m l !! d) <-> is_Some (m !! d) /\ d ∉ l.
Proof.
  induction l as [|e l IH]; simpl; [set_solver|].
  destruct (decide (e = d)) as [->|Hne].
  - rewrite lookup_delete_eq. split; [intros [? ?]; done|]. set_solver.
  - rewrite lookup_delete_ne by done. rewrite IH. set_solver.
Qed.

(** The map of disks is ranged in an arbitrary order; the outcome does not depend on it. *)
Lemma removeDisks_Permutation bs bs' disks :
  bs ≡ₚ bs' -> removeDisks bs disks = removeDisks bs' disks.
Proof.
  intros Hp. assert (Hd : devices_of bs ≡ₚ devices_of bs') by (unfold devices_of; by rewrite Hp).
  pose proof (removeDisks_spec bs disks) as H1. pose proof (removeDisks_spec bs' disks) as H2.
  destruct (removeDisks bs disks) as [m1|], (removeDisks bs' disks) as [m2|]; [| | |done].
  - destruct H1 as (_ & _ & ->), H2 as (_ & _ & ->). f_equal.
    clear -Hd. induction Hd; simpl; [done|by f_equal|apply delete_delete|by etrans].
  - destruct H1 as (Hn & Hin & _). exfalso. apply H2. rewrite <-Hd.
    split; [done|]. intros d. rewrite <-Hd. apply Hin.
  - destruct H2 as (Hn & Hin & _). exfalso. apply H1. rewrite Hd.
    split; [done|]. intros d. rewrite Hd. apply Hin.
Qed.

(** ** Rest: lemmas *)

Lemma Available_inv m a :
  Available m = Ret (Some a) ->
  exists info reserve,
    MachineStatus_Info (Machine_Status m) = Some info /\
    MachineSpec_Reserve (Machine_Spec m) = Some reserve /\
    BytesSize.Sub (MachineInfo_Memory info) (ReserveResources_Memory reserve)
      = Ret (AvailableResource_Memory a) /\
    (forall c, c ∈ AvailableResource_IdleCPUSet a <->
       0 <= c < MachineInfo_Threads info /\ ~ 0 <= c < ReserveResources_Cores reserve) /\
    NoDup (AvailableResource_IdleCPUSet a) /\
    (forall d, is_Some (AvailableResource_Disks a !! d) <->
       is_Some (MachineInfo_StorageDevices info !! d) /\
       d ∈ MachineSpec_ExclusiveDisks (Machine_Spec m)).
Proof.
  unfold Available. intros H.
  destruct (MachineStatus_Info _) as [info|]; [|discriminate].
  apply go_bind_Ret_inv in H as (reserve & Hr & H).
  destruct (MachineSpec_Reserve _) as [reserve'|]; [|discriminate]. injection Hr as ->.
  apply go_bind_Ret_inv in H as (mem & Hmem & H).
  apply go_bind_Ret_inv in H as (disks & Hdisks & H). injection H as <-.
  exists info, reserve. do 3 (split; [done|]). split; [|split]; simpl.
  - intros c. by rewrite elem_of_deleteCPUSet, !elem_of_makeCPUSet.
  - apply deleteCPUSet_NoDup.
  - intros d. apply (availableDisks_dom _ _ _ _ d) in Hdisks.
    rewrite Hdisks, fst_elem_of_map_to_list, elem_of_list_to_set, lookup_empty.
    split; [intros [[? ?]|?]; done|by right].
Qed.

Definition ref_devices (r : ResourceRef) : list string :=
  devices_of (disk_bindings (ResourceRef_Binding r)).
Definition ref_cpus (r : ResourceRef) : list Z := ResourceBinding_CPUSet (ResourceRef_Binding r).

Lemma restLoop_inv l rest rest' :
  restLoop l rest = Ret (Some rest') -> NoDup (AvailableResource_IdleCPUSet rest) ->
  NoDup (AvailableResource_IdleCPUSet rest') /\
  (forall c, c ∈ AvailableResource_IdleCPUSet rest' <->
     c ∈ AvailableResource_IdleCPUSet rest /\ forall r, r ∈ l -> c ∉ ref_cpus r) /\
  (forall d, is_Some (AvailableResource_Disks rest' !! d) <->
     is_Some (AvailableResource_Disks rest !! d) /\ forall r, r ∈ l -> d ∉ ref_devices r).
Proof.
  revert rest; induction l as [|r l IH]; intros rest; simpl.
  - intros [= ->] Hnd. split; [done|]. split; set_solver.
  - intros H Hnd. apply go_bind_Ret_inv in H as (mem & _ & H).
    destruct (removeDisks _ _) as [disks|] eqn:Hrm; [|discriminate].
    pose proof (removeDisks_spec (disk_bindings (ResourceRef_Binding r))
                  (AvailableResource_Disks rest)) as Hspec.
    rewrite Hrm in Hspec. destruct Hspec as (_ & _ & ->).
    apply IH in H as (Hnd' & Hc & Hd); [|apply deleteCPUSet_NoDup].
    split; [done|]. split.
    + intros c. rewrite Hc. simpl. rewrite elem_of_deleteCPUSet.
      setoid_rewrite elem_of_cons. unfold ref_cpus. naive_solver.
    + intros d. rewrite Hd. simpl. rewrite lookup_foldr_delete.
      setoid_rewrite elem_of_cons. unfold ref_devices. naive_solver.
Qed.

(** When something rests, every bound device was there and bound once. *)
Lemma restLoop_devices l rest rest' :
  restLoop l rest = Ret (Some rest') ->
  NoDup (l ≫= ref_devices) /\
  forall d, d ∈ l ≫= ref_devices -> is_Some (AvailableResource_Disks rest !! d).
Proof.
  revert rest; induction l as [|r l IH]; intros rest; simpl.
  - intros _. split; [constructor|set_solver].
  - intros H. apply go_bind_Ret_inv in H as (mem & _ & H).
    destruct (removeDisks _ _) as [disks|] eqn:Hrm; [|discriminate].
    pose proof (removeDisks_spec (disk_bindings (ResourceRef_Binding r))
                  (AvailableResource_Disks rest)) as Hspec.
    rewrite Hrm in Hspec. destruct Hspec as (Hnd & Hin & ->).
    apply IH in H as [Hnd' Hin']. simpl in Hin'. setoid_rewrite lookup_foldr_delete in Hin'.
    split.
    + apply list.NoDup_app. split; [done|]. split; [|done]. intros d Hd Hd'. by apply Hin' in Hd' as [_ []].
    + intros d [Hd|Hd]%elem_of_app; [by apply Hin|]. by apply Hin' in Hd as [? _].
Qed.

End Machine.

(** ** What the schedulers rely on

    The interface between [Machine.Rest] and the reconcilers that hand its result out: the CPUs
    and devices of what rests are in no allocated binding. *)

Class Allocator := {
  Rest : Machine -> ResourceRefList -> go (option AvailableResource);
  Rest_idle_NoDup m l a :
    Rest m l = Ret (Some a) -> NoDup (AvailableResource_IdleCPUSet a);
  Rest_idle_free m l a c r :
    Rest m l = Ret (Some a) -> c ∈ AvailableResource_IdleCPUSet a -> r ∈ l -> c ∉ ref_cpus r;
  Rest_disks_free m l a d r :
    Rest m l = Ret (Some a) -> is_Some (AvailableResource_Disks a !! d) -> r ∈ l ->
    d ∉ ref_devices r;
}.

Lemma Rest_inv `{U : Units} m l a :
  Machine_Rest m l = Ret (Some a) ->
  exists a0, Available m = Ret (Some a0) /\ restLoop l a0 = Ret (Some a).
Proof.
  unfold Machine_Rest. intros H. apply go_bind_Ret_inv in H as ([a0|] & Ha & H); [eauto|done].
Qed.

(** The memory left of a machine: what was measured, less the reserve, less what is bound, one
    binding after the other. *)
Definition memory_left `{U : Units} (m : Machine) (l : ResourceRefList) : go BytesSize.t :=
  info ← deref (MachineStatus_Info (Machine_Status m));
  reserve ← deref (MachineSpec_Reserve (Machine_Spec m));
  memory ← BytesSize.Sub (MachineInfo_Memory info) (ReserveResources_Memory reserve);
  go_fold (fun memory r => BytesSize.Sub memory (ResourceBinding_Memory (ResourceRef_Binding r))) l memory.

Lemma restLoop_memory `{U : Units} l rest rest' :
  restLoop l rest = Ret (Some rest') ->
  go_fold (fun memory r => BytesSize.Sub memory (ResourceBinding_Memory (ResourceRef_Binding r))) l
    (AvailableResource_Memory rest) = Ret (AvailableResource_Memory rest').
Proof.
  revert rest; induction l as [|r l IH]; intros rest; simpl; [by intros [= ->]|]. intros H.
  apply go_bind_Ret_inv in H as (mem & -> & H). simpl.
  destruct (removeDisks _ _) as [disks|]; [|done]. by apply IH in H.
Qed.

Lemma Rest_memory `{U : Units} m l a :
  Machine_Rest m l = Ret (Some a) -> memory_left m l = Ret (AvailableResource_Memory a).
Proof.
  intros (a0 & Ha & Hl)%Rest_inv. apply Available_inv in Ha as (info & reserve & Hi & Hr & Hm & _).
  unfold memory_left. rewrite Hi. simpl. rewrite Hr. simpl. rewrite Hm. simpl. by apply restLoop_memory.
Qed.

(** The functional specification of [Rest]: what is idle is what the machine has, outside the
    reserve, less what is bound. *)
Lemma Rest_spec `{U : Units} m l a :
  Machine_Rest m l = Ret (Some a) ->
  NoDup (AvailableResource_IdleCPUSet a) /\
  (forall c, c ∈ AvailableResource_IdleCPUSet a <->
     (exists info reserve,
        MachineStatus_Info (Machine_Status m) = Some info /\
        MachineSpec_Reserve (Machine_Spec m) = Some reserve /\
        0 <= c < MachineInfo_Threads info /\ ~ 0 <= c < ReserveResources_Cores reserve) /\
     forall r, r ∈ l -> c ∉ ref_cpus r) /\
  (forall d, is_Some (AvailableResource_Disks a !! d) <->
     (exists info,
        MachineStatus_Info (Machine_Status m) = Some info /\
        is_Some (MachineInfo_StorageDevices info !! d) /\
        d ∈ MachineSpec_ExclusiveDisks (Machine_Spec m)) /\
     forall r, r ∈ l -> d ∉ ref_devices r).
Proof.
  intros (a0 & Ha & Hl)%Rest_inv.
  apply Available_inv in Ha as (info & reserve & Hi & Hr & _ & Hcpu & Hnd & Hdisk).
  apply restLoop_inv in Hl as (Hnd' & Hcpu' & Hdisk'); [|done].
  split; [done|]. split.
  - intros c. rewrite Hcpu', Hcpu, Hi, Hr. naive_solver.
  - intros d. rewrite Hdisk', Hdisk, Hi. naive_solver.
Qed.

#[global] Instance machine_allocator `{U : Units} : Allocator.
Proof.
  refine {| Rest := Machine_Rest |}; intros m l a.
  - intros H. apply (Rest_spec _ _ _ H).
  - intros c r H Hc Hr. apply Rest_spec in H as (_ & Hcpu & _). apply Hcpu in Hc as [_ Hc].
    by apply Hc.
  - intros d r H Hd Hr. apply Rest_spec in H as (_ & _ & Hdisk). apply Hdisk in Hd as [_ Hd].
    by apply Hd.
Defined.

(** C17. [Rest] accounts for a machine exactly: when it answers something, every device bound in
    the list is one the machine has and is bound once; a core is idle iff the machine has it,
    the reserve leaves it and no binding of the list has it; a disk is left iff the machine has
    it, it is an exclusive disk, and no binding of the list has it. *)
Theorem rest_accounts `{U : Units} m l a :
  Machine_Rest m l = Ret (Some a) ->
  NoDup (l ≫= ref_devices) /\
  NoDup (AvailableResource_IdleCPUSet a) /\
  (forall c, c ∈ AvailableResource_IdleCPUSet a <->
     (exists info reserve,
        MachineStatus_Info (Machine_Status m) = Some info /\
        MachineSpec_Reserve (Machine_Spec m) = Some reserve /\
        0 <= c < MachineInfo_Threads info /\ ~ 0 <= c < ReserveResources_Cores reserve) /\
     forall r, r ∈ l -> c ∉ ref_cpus r) /\
  (forall d, is_Some (AvailableResource_Disks a !! d) <->
     (exists info,
        MachineStatus_Info (Machine_Status m) = Some info /\
        is_Some (MachineInfo_StorageDevices info !! d) /\
        d ∈ MachineSpec_ExclusiveDisks (Machine_Spec m)) /\
     forall r, r ∈ l -> d ∉ ref_devices r).
Proof.
  intros H. split; [|by apply Rest_spec].
  apply Rest_inv in H as (a0 & _ & Hl). by apply restLoop_devices in Hl as [? _].
Qed.

(** A machine of four threads and two exclusive disks, one thread in reserve, and one binding. *)
Definition example_machine : Machine :=
  zeroMachine
    <| Machine_Spec ::= fun s => s <| MachineSpec_Reserve := Some (mkReserveResources 1 "1") |>
                                   <| MachineSpec_ExclusiveDisks := ["/dev/nvme0"; "/dev/sda"] |> |>
    <| Machine_Status ::= fun s => s <| MachineStatus_State := MachineReady |>
         <| MachineStatus_Info := Some (mkMachineInfo "x86" 4 "0001"
              {["/dev/nvme0" := mkStorageDevice "ext4" "0001" "0" "/a";
                "/dev/sda" := mkStorageDevice "ext4" "01" "0" "/b"]}) |> |>.
Definition example_ref : ResourceRef :=
  mkResourceRef (mkRef "default" "n1" "uid-n1")
    (mkResourceBinding "1" [1] {["d" := mkDiskBinding "nvme" "0001" "/dev/nvme0" "/a" "/mnt/d"]}).

Lemma rest_accounts_witness :
  exists a, Machine_Rest (U := BinarySizes.units) example_machine [example_ref] = Ret (Some a) /\
            2 ∈ AvailableResource_IdleCPUSet a /\ 1 ∉ AvailableResource_IdleCPUSet a.
Proof.
  eexists. split; [vm_compute; reflexivity|].
  destruct (rest_accounts (U := BinarySizes.units) example_machine [example_ref] _ ltac:(vm_compute; reflexivity))
    as (_ & _ & Hcpu & _).
  split; [vm_compute; set_solver|]. intros [_ H]%Hcpu. apply (H example_ref); vm_compute; set_solver.
Defined.

End Machine.
