(* ===== verification/Resource.v ===== *)
(** * Test resources and requests for them

    The methods of [TestResource] (api/v1/testresource_types.go), its webhook
    (api/v1/testresource_webhook.go), and the request that owns resources
    (api/v1/testresourcerequest_types.go and its webhook). *)

From S2P Require Import Prelude GoStd Util ApiTypes Prog World Machine.

(** ** ResourceState *)

Definition IsRequired (r : ResourceState) : bool :=
  negb (bool_decide (r = ResourceStateNone)) && negb (bool_decide (r = ResourcePending)).

Definition CouldUninstall (r : ResourceState) : bool :=
  match r with
  | ResourceUninitialized | ResourceReady | ResourceFinish => true
  | _ => false
  end.

Module TestResource.
Section TestResource.
Context {U : Units}.

Definition cleanerImage : string := "hub.pingcap.net/mahjonp/alpine:latest".
Definition SSHPort : string := "22/tcp".

Definition ContainerName (r : TestResource) : string :=
  ObjectMeta_Namespace (TestResource_ObjectMeta r) +:+ "." +:+ TestResource_Name r.

Definition ContainerCleanerName (r : TestResource) : string :=
  ObjectMeta_Namespace (TestResource_ObjectMeta r) +:+ "." +:+ TestResource_Name r +:+ "-cleaner".

(** One bind mount per bound disk, in the order the map was ranged in. *)
Definition disk_mounts (binding : ResourceBinding) (keys : list string) : list Mount :=
  omap (fun name =>
          disk ← ResourceBinding_Disks binding !! name;
          Some (bindMount (DiskBinding_OriginPath disk) (DiskBinding_MountPath disk))) keys.

Definition container_mount (m : TestResourceMount) : Mount :=
  mkMount (TestResourceMount_Type m) (TestResourceMount_Source m)
    (TestResourceMount_Target m) (TestResourceMount_ReadOnly m).

Definition ContainerConfig (r : TestResource) (binding : ResourceBinding)
    : io (Config * HostConfig) :=
  let spec := TestResourceStatus_Container (TestResource_Status r) in
  keys ← range_keys (ResourceBinding_Disks binding);
  let mounts := disk_mounts binding keys ++ (container_mount <$> ContainerSpec_Mounts spec) in
  let exposedPorts : gset string := list_to_set (ContainerSpec_ExposedPorts spec) in
  let command := ContainerSpec_Command spec in
  let config := zeroConfig
    <| Config_Hostname := TestResourceStatus_HostName (TestResource_Status r) |>
    <| Config_Image := ContainerSpec_Image spec |>
    <| Config_Entrypoint := take 1 command |>
    <| Config_Cmd := drop 1 command |>
    <| Config_Env := ContainerSpec_Envs spec |>
    <| Config_ExposedPorts := exposedPorts |> in
  memory ← lift (BytesSize.Unwrap (ResourceBinding_Memory binding));
  let hostConfig := zeroHostConfig
    <| HostConfig_Binds := ContainerSpec_Binds spec |>
    <| HostConfig_Mounts := mounts |>
    <| HostConfig_PublishAllPorts := true |>
    <| HostConfig_Memory := memory |>
    <| HostConfig_CpusetCpus := Machine.cpuSetStr (ResourceBinding_CPUSet binding) |>
    <| HostConfig_CapAdd := ContainerSpec_CapAdd spec |>
    <| HostConfig_Privileged := ContainerSpec_Privilege spec |> in
  mret (config, hostConfig).

Definition ContainerCleanerConfig (r : TestResource) (binding : ResourceBinding)
    : io (Config * HostConfig) :=
  keys ← range_keys (ResourceBinding_Disks binding);
  let mounts := disk_mounts binding keys in
  let config := zeroConfig <| Config_Image := cleanerImage |> in
  let hostConfig := zeroHostConfig <| HostConfig_Mounts := mounts |> in
  let config :=
    if 0 <? len mounts then
      config <| Config_Cmd :=
        ["sh"; "-c"; strs.Join ((fun m => "rm -rf " +:+ path.Join [Mount_Target m; "*"]) <$> mounts) ";"] |>
    else config in
  mret (config, hostConfig).

(** ** testresource_webhook.go *)

Definition mountPrefix : string := "/mnt".

Definition defaultDisk (name : string) (disk : DiskSpec) : DiskSpec :=
  let disk :=
    if String.eqb (DiskSpec_MountPath disk) ""
    then disk <| DiskSpec_MountPath := path.Join [mountPrefix; name] |> else disk in
  if String.eqb (DiskSpec_Size disk) ""
  then disk <| DiskSpec_Size := BytesSize.Zero (DiskSpec_Size disk) |> else disk.

Definition Default (r : TestResource) : TestResource :=
  r <| TestResource_Spec ::= fun spec =>
    spec <| TestResourceSpec_Disks ::= map_imap (fun name disk => Some (defaultDisk name disk)) |> |>.

(** Which invalid disk is reported depends on the map's order, and the text on the size
    library; that some disk is invalid does not. *)
Definition Spec_ValidateCreate (r : TestResourceSpec) : option error :=
  match BytesSize.ToSize (TestResourceSpec_Memory r) with
  | None => Some (Errorf "invalid memory size")
  | Some _ =>
      if existsb (fun disk => negb (String.eqb (DiskSpec_Size disk) "")
                     && negb (bool_decide (is_Some (BytesSize.ToSize (DiskSpec_Size disk)))))
           (map_to_list (TestResourceSpec_Disks r)).*2
      then Some (Errorf "invalid disk size")
      else None
  end.

Definition ValidateCreate (r : TestResource) : option error :=
  Spec_ValidateCreate (TestResource_Spec r).

(** ** Lemmas *)

Lemma Default_disk (r : TestResource) name disk :
  TestResourceSpec_Disks (TestResource_Spec (Default r)) !! name = Some disk ->
  exists disk0, TestResourceSpec_Disks (TestResource_Spec r) !! name = Some disk0 /\
                disk = defaultDisk name disk0.
Proof.
  unfold Default. simpl. rewrite map_lookup_imap.
  destruct (_ !! name) as [disk0|]; simpl; [|done]. intros [= <-]. eauto.
Qed.

Lemma Spec_ValidateCreate_disk (s : TestResourceSpec) name disk :
  Spec_ValidateCreate s = None -> TestResourceSpec_Disks s !! name = Some disk ->
  DiskSpec_Size disk = "" \/ is_Some (BytesSize.ToSize (DiskSpec_Size disk)).
Proof.
  unfold Spec_ValidateCreate. destruct (BytesSize.ToSize _); [|done].
  match goal with |- context [existsb ?p ?l] => destruct (existsb p l) eqn:Hex end; [done|].
  intros _ Hd. destruct (String.eqb_spec (DiskSpec_Size disk) "") as [He|He]; [by left|]. right.
  destruct (decide (is_Some (BytesSize.ToSize (DiskSpec_Size disk)))) as [|Hn]; [done|].
  exfalso. revert Hex. apply not_false_iff_true, existsb_exists. exists disk. split.
  - apply list_elem_of_In, list_elem_of_fmap. exists (name, disk).
    split; [done|]. by apply elem_of_map_to_list.
  - apply String.eqb_neq in He. rewrite He. by rewrite bool_decide_eq_false_2.
Qed.

(** The sizes of an admitted resource never make a later [Unwrap] panic: after the
    defaulting and the validating webhook its memory parses, and so does the size of every disk,
    the omitted ones included. *)
Lemma admitted_sizes `{L : !UnitsLaws U} (r : TestResource) :
  ValidateCreate (Default r) = None ->
  returns (BytesSize.Unwrap (TestResourceSpec_Memory (TestResource_Spec (Default r)))) /\
  forall name disk, TestResourceSpec_Disks (TestResource_Spec (Default r)) !! name = Some disk ->
    returns (BytesSize.Unwrap (DiskSpec_Size disk)).
Proof.
  unfold ValidateCreate. intros Hv. split.
  { revert Hv. unfold Spec_ValidateCreate. destruct (BytesSize.ToSize _) as [n|] eqn:Hn; [|done].
    intros _. exists n. by apply BytesSize.Unwrap_Ret. }
  intros name disk Hd. pose proof (Spec_ValidateCreate_disk _ _ _ Hv Hd) as [He|[n Hn]].
  - apply Default_disk in Hd as (disk0 & _ & ->). unfold defaultDisk in *.
    destruct (String.eqb_spec (DiskSpec_MountPath disk0) ""); simpl in *;
      destruct (String.eqb_spec (DiskSpec_Size disk0) ""); simpl in *; try done;
      exists 0; apply BytesSize.Unwrap_Zero.
  - exists n. by apply BytesSize.Unwrap_Ret.
Qed.

Lemma disk_mounts_length b keys :
  keys ≡ₚ (map_to_list (ResourceBinding_Disks b)).*1 ->
  length (disk_mounts b keys) = size (ResourceBinding_Disks b).
Proof.
  intros Hp. unfold disk_mounts.
  assert (Hall : Forall (fun k => is_Some (ResourceBinding_Disks b !! k)) keys).
  { apply list.Forall_forall. intros k Hk. rewrite Hp in Hk. by apply fst_elem_of_map_to_list. }
  rewrite <-length_map_to_list, <-(length_fmap fst), <-Hp. clear Hp.
  induction Hall as [|k l [d Hd] _ IH]; [done|].
  csimpl. rewrite Hd. csimpl. by rewrite IH.
Qed.
End TestResource.

Lemma admitted_sizes_witness :
  returns (BytesSize.Unwrap (U := BinarySizes.units) "0").
Proof.
  refine (proj2 (admitted_sizes (L := BinarySizes.laws) (zeroTestResource
    <| TestResource_Spec := mkTestResourceSpec "1" 1 "" {["d" := mkDiskSpec "" NVMEKind ""]} "" |>) _)
    "d" (mkDiskSpec "/mnt/d" NVMEKind "0") _); vm_compute; reflexivity.
Defined.
End TestResource.

(** ** testresourcerequest_types.go and testresourcerequest_webhook.go *)

Module TestResourceRequest.
Section TestResourceRequest.
Context {U : Units}.

(** The item's spec, deep-copied, in the namespace of the request. *)
Definition ConstructTestResource (r : TestResourceRequest) (idx : Z) : go TestResource :=
  item ← go_index (TestResourceRequest_Items r) idx;
  Ret (zeroTestResource
    <| TestResource_ObjectMeta := zeroMeta
         <| ObjectMeta_Name := ResourceRequestItem_Name item |>
         <| ObjectMeta_Namespace := ObjectMeta_Namespace (TestResourceRequest_ObjectMeta r) |> |>
    <| TestResource_Spec := ResourceRequestItem_Spec item |>).

(** The loop over the items, with the set of logical machine names. *)
Fixpoint checkItems_loop (names : gset string) (items : list ResourceRequestItem) : option error :=
  match items with
  | [] => None
  | item :: l =>
      let machine := TestResourceSpec_Machine (ResourceRequestItem_Spec item) in
      if negb (String.eqb machine "") && negb (bool_decide (machine ∈ names))
      then Some (Errorf ("no exist machine item: " +:+ machine))
      else checkItems_loop names l
  end.

Definition checkItems (r : TestResourceRequest) : option error :=
  checkItems_loop
    (list_to_set (MachineRequest_Name <$> TestResourceRequestSpec_Machines (TestResourceRequest_Spec r)))
    (TestResourceRequest_Items r).

Fixpoint validateItems (items : list ResourceRequestItem) : option error :=
  match items with
  | [] => None
  | item :: l =>
      match TestResource.Spec_ValidateCreate (ResourceRequestItem_Spec item) with
      | Some err => Some err
      | None => validateItems l
      end
  end.

Definition ValidateCreate (r : TestResourceRequest) : option error :=
  match validateItems (TestResourceRequest_Items r) with
  | Some err => Some err
  | None => checkItems r
  end.

Lemma checkItems_spec r item :
  checkItems r = None -> item ∈ TestResourceRequest_Items r ->
  TestResourceSpec_Machine (ResourceRequestItem_Spec item) <> "" ->
  exists m, m ∈ TestResourceRequestSpec_Machines (TestResourceRequest_Spec r) /\
            MachineRequest_Name m = TestResourceSpec_Machine (ResourceRequestItem_Spec item).
Proof.
  unfold checkItems. generalize (TestResourceRequest_Items r) as items.
  induction items as [|i items IH]; simpl; [set_solver|].
  set (mach := TestResourceSpec_Machine (ResourceRequestItem_Spec i)).
  destruct (String.eqb_spec mach "") as [He|He]; simpl.
  - intros H [->|Hin]%elem_of_cons Hne; [done|by apply IH].
  - destruct (bool_decide_reflect (mach ∈ (list_to_set (MachineRequest_Name <$>
      TestResourceRequestSpec_Machines (TestResourceRequest_Spec r)) : gset string)))
      as [Hm|Hm]; [|done]. simpl.
    intros H [->|Hin]%elem_of_cons Hne; [|by apply IH].
    apply elem_of_list_to_set, list_elem_of_fmap in Hm as (m & Hm & Hin). eauto.
Qed.
End TestResourceRequest.
End TestResourceRequest.

(** A resource and its cleaner run in containers of different names. *)
Lemma cleaner_name r : TestResource.ContainerCleanerName r <> TestResource.ContainerName r.
Proof.
  unfold TestResource.ContainerCleanerName, TestResource.ContainerName. intros H%(f_equal String.length).
  rewrite !str_length_app in H. simpl in H. lia.
Qed.
