(* ===== verification/Relationship.v ===== *)
(** * The relationship: who is bound where

    The singleton object in which the reconcilers keep what is bound to what
    (api/v1/relationship_types.go), the reconciler that initialises it
    (controllers/relationship_controller.go), and the abstract specification [Ledger] of how
    it may change: every reconciler's update is proved, in its own file, to be a sequence of
    ledger steps from the relationship it read. *)

From S2P Require Import Prelude GoStd Util ApiTypes Prog World Machine.

(** [relationshipName], the one relationship of the system. *)
Definition relationshipName : NamespacedName := mkNamespacedName "default" "machine-testresource".

(** [getRelationship], the same method in the three reconcilers that have it: a relationship
    that does not exist reads as an empty one. *)
Definition getRelationship : io (error + Relationship) :=
  r ← get KRelationship relationshipName;
  match r with
  | inl err => if IsNotFound err then mret (inr zeroRelationship) else mret (inl err)
  | inr relation => mret (inr relation)
  end.

(** ** AcceptResources and ResourceRefList *)

Definition IfExist (a : AcceptResources) (r : Ref) : bool :=
  existsb (fun item => bool_decide (item = r)) (default [] a).

Definition Remove (a : AcceptResources) (r : Ref) : AcceptResources :=
  Some (fold_left (fun newA item => if negb (bool_decide (item = r)) then newA ++ [item] else newA)
          (default [] a) []).

Definition Clone (r : ResourceRefList) : ResourceRefList :=
  fold_left (fun resources ref => resources ++ [ref]) r [].

Lemma Clone_id r : Clone r = r.
Proof.
  unfold Clone.
  assert (H : forall acc, fold_left (fun resources ref => resources ++ [ref]) r acc = acc ++ r).
  { induction r as [|a r IH]; intros acc; simpl; [by rewrite app_nil_r|].
    rewrite IH. by rewrite <-app_assoc. }
  by rewrite H.
Qed.

Lemma IfExist_spec a r : IfExist a r = true <-> exists l, a = Some l /\ r ∈ l.
Proof.
  unfold IfExist. rewrite existsb_exists. split.
  - intros (x & Hx & ->%bool_decide_eq_true). apply list_elem_of_In in Hx.
    destruct a as [l|]; [eauto|set_solver].
  - intros (l & -> & Hr). exists r. split; [by apply list_elem_of_In|]. by apply bool_decide_eq_true.
Qed.

Lemma Remove_filter a r :
  Remove a r = Some (filterb (fun item => negb (bool_decide (item = r))) (default [] a)).
Proof.
  unfold Remove. by rewrite (Slice.append_filter (fun item => negb (bool_decide (item = r)))).
Qed.

Lemma elem_of_Remove a r x :
  x ∈ default [] (Remove a r) <-> x ∈ default [] a /\ x <> r.
Proof.
  rewrite Remove_filter. simpl. rewrite elem_of_filterb, negb_true_iff, bool_decide_eq_false. done.
Qed.

Lemma Remove_IfExist a r : IfExist (Remove a r) r = false.
Proof.
  apply not_true_iff_false. intros (l & Hl & Hr)%IfExist_spec.
  assert (Hin : r ∈ default [] (Remove a r)) by by rewrite Hl.
  by apply elem_of_Remove in Hin as [_ []].
Qed.

(** ** The relationship reconciler *)

Definition init_status (s : RelationshipStatus) : RelationshipStatus :=
  mkRelationshipStatus
    (Some (go_map (MachineToResources s)))
    (Some (go_map (ResourceToMachine s)))
    (Some (default [] (AcceptedRequests s)))
    (Some (go_map (MachineLocks s))).

Definition initialized (s : RelationshipStatus) : bool :=
  bool_decide (is_Some (MachineToResources s)) && bool_decide (is_Some (ResourceToMachine s))
  && bool_decide (is_Some (AcceptedRequests s)) && bool_decide (is_Some (MachineLocks s)).

(** The error of the status update is dropped: the code returns a literal nil. *)
Definition RelationshipReconciler_Reconcile (req : NamespacedName) : io (Result * option error) :=
  let? relation := get KRelationship req orelse err => mret (noRequeue, IgnoreNotFound err) in
  if initialized (Relationship_Status relation) then mret (noRequeue, None)
  else
    let relation := relation <| Relationship_Status ::= init_status |> in
    err ← status_update KRelationship relation;
    mret (noRequeue, None).

(** ** Pairs of a list *)

Fixpoint pairwise {A} (R : A -> A -> Prop) (l : list A) : Prop :=
  match l with
  | [] => True
  | a :: l' => (forall b, b ∈ l' -> R a b) /\ pairwise R l'
  end.

Lemma pairwise_sublist {A} (R : A -> A -> Prop) l l' :
  l `sublist_of` l' -> pairwise R l' -> pairwise R l.
Proof.
  induction 1 as [|a l l' Hsub IH|a l l' Hsub IH]; simpl; [done| |].
  - intros [Ha Hl]. split; [|auto]. intros b Hb. apply Ha. by eapply elem_of_sublist.
  - intros [_ ?]. auto.
Qed.

Lemma pairwise_app {A} (R : A -> A -> Prop) l l' :
  pairwise R (l ++ l') <-> pairwise R l /\ pairwise R l' /\ forall a b, a ∈ l -> b ∈ l' -> R a b.
Proof.
  induction l as [|a l IH]; simpl; [set_solver|]. rewrite IH.
  setoid_rewrite elem_of_app. setoid_rewrite elem_of_cons. naive_solver.
Qed.

Lemma pairwise_elem {A} (R : A -> A -> Prop) l a b :
  pairwise R l -> a ∈ l -> b ∈ l -> a <> b -> R a b \/ R b a.
Proof.
  induction l as [|x l IH]; simpl; [set_solver|]. intros [Hx Hl] Ha Hb Hne.
  apply elem_of_cons in Ha as [->|Ha], Hb as [->|Hb]; [done|by left; apply Hx|by right; apply Hx|by apply IH].
Qed.

(** ** The ledger: how the relationship may change *)

Module Ledger.

Abbreviation status := RelationshipStatus.

Definition entries (s : status) (key : string) : ResourceRefList :=
  default [] (go_lookup (MachineToResources s) key).

(** Two bindings share no core, and no device. *)
Definition apart (r1 r2 : ResourceRef) : Prop :=
  (forall c, c ∈ Machine.ref_cpus r1 -> c ∉ Machine.ref_cpus r2) /\
  (forall d, d ∈ Machine.ref_devices r1 -> d ∉ Machine.ref_devices r2).

(** The new bindings of a machine are apart from the ones it has and from each other. *)
Definition fresh (l new : ResourceRefList) : Prop :=
  Forall (fun r => NoDup (Machine.ref_cpus r)) new /\ pairwise apart new /\
  forall r r', r ∈ l -> r' ∈ new -> apart r r'.

(** [ResourceToMachine] is updated for exactly the resources of [new]. *)
Definition bound_to (mref : Ref) (new : ResourceRefList) (rtm rtm' : gmap string MachineRef) : Prop :=
  (forall k, k ∉ ((fun r => Key (ResourceRef_Ref r)) <$> new) -> rtm' !! k = rtm !! k) /\
  (forall k, k ∈ ((fun r => Key (ResourceRef_Ref r)) <$> new) ->
     exists r, r ∈ new /\ Key (ResourceRef_Ref r) = k /\
       rtm' !! k = Some (mkMachineRef mref (ResourceRef_Binding r))).

Definition not_of (res : Ref) (r : ResourceRef) : bool := negb (bool_decide (ResourceRef_Ref r = res)).

Inductive step (s : status) : status -> Prop :=
(** nil maps become empty ones *)
| step_init : step s (init_status s)
(** a group of resources is bound to a machine *)
| step_bind mref new mtr rtm rtm' :
    MachineToResources s = Some mtr -> ResourceToMachine s = Some rtm ->
    fresh (entries s (Key mref)) new -> bound_to mref new rtm rtm' ->
    step s (s <| MachineToResources := Some (<[Key mref := entries s (Key mref) ++ new]> mtr) |>
              <| ResourceToMachine := Some rtm' |>)
(** a machine is locked for a request, never away from another one *)
| step_lock machine req locks :
    MachineLocks s = Some locks ->
    (locks !! machine = None \/ locks !! machine = Some req) ->
    step s (s <| MachineLocks := Some (<[machine := req]> locks) |>)
(** a request is accepted *)
| step_accept req :
    step s (s <| AcceptedRequests := Some (default [] (AcceptedRequests s) ++ [req]) |>)
(** a request is gone: its entry and all of its locks *)
| step_release req :
    step s (s <| AcceptedRequests ::= fun a => Remove a req |>
              <| MachineLocks ::= fmap (filter (fun kv : string * Ref => kv.2 <> req)) |>)
(** a resource leaves a machine, and what it is bound to is forgotten *)
| step_unbind key res mtr :
    MachineToResources s = Some mtr ->
    step s (s <| MachineToResources := Some (<[key := filterb (not_of res) (entries s key)]> mtr) |>
              <| ResourceToMachine ::= fun m => go_delete m (Key res) |>)
(** a machine enters, or leaves when nothing is bound to it *)
| step_add_machine key mtr :
    MachineToResources s = Some mtr -> mtr !! key = None ->
    step s (s <| MachineToResources := Some (<[key := []]> mtr) |>)
| step_drop_machine key :
    entries s key = [] ->
    step s (s <| MachineToResources ::= fun m => go_delete m key |>).

Abbreviation steps := (rtc step).

(** The state the ledger starts in: the object just created. *)
Definition start : status := Relationship_Status zeroRelationship.

(** ** The invariant *)

(** On every machine no core is in two bindings, nor twice in one; no two bindings share a
    device; and whatever a resource is said to be bound to says so too. *)
Record inv (s : status) : Prop := {
  inv_cpus key r : r ∈ entries s key -> NoDup (Machine.ref_cpus r);
  inv_apart key : pairwise apart (entries s key);
  inv_bound k mref : go_lookup (ResourceToMachine s) k = Some mref ->
    exists r, r ∈ entries s (Key (MachineRef_Ref mref)) /\ Key (ResourceRef_Ref r) = k /\
              ResourceRef_Binding r = MachineRef_Binding mref;
}.

Lemma entries_upd mtr key l key' (s : status) :
  entries (s <| MachineToResources := Some (<[key := l]> mtr) |>) key' =
  if decide (key = key') then l else default [] (mtr !! key').
Proof.
  unfold entries, go_lookup. simpl. destruct (decide (key = key')) as [->|Hne].
  - by rewrite lookup_insert_eq.
  - by rewrite lookup_insert_ne.
Qed.

Lemma entries_some (s : status) mtr key :
  MachineToResources s = Some mtr -> entries s key = default [] (mtr !! key).
Proof. intros H. unfold entries, go_lookup. by rewrite H. Qed.

Lemma entries_proper (s s' : status) key :
  MachineToResources s = MachineToResources s' -> entries s key = entries s' key.
Proof. unfold entries. by intros ->. Qed.

Lemma inv_start : inv start.
Proof. split; unfold entries, go_lookup, go_map; simpl; intros; set_solver. Qed.

(** Only the two maps of bindings matter. *)
Lemma inv_same (s s' : status) :
  (forall key, entries s' key = entries s key) ->
  (forall k, go_lookup (ResourceToMachine s') k = go_lookup (ResourceToMachine s) k) ->
  inv s -> inv s'.
Proof.
  intros He Hr [H1 H2 H3]. split.
  - intros key r. rewrite He. apply H1.
  - intros key. rewrite He. apply H2.
  - intros k mref. rewrite Hr. setoid_rewrite He. apply H3.
Qed.

Lemma step_inv_bind (s : status) mref new mtr rtm rtm' :
  MachineToResources s = Some mtr -> ResourceToMachine s = Some rtm ->
  fresh (entries s (Key mref)) new -> bound_to mref new rtm rtm' -> inv s ->
  inv (s <| MachineToResources := Some (<[Key mref := entries s (Key mref) ++ new]> mtr) |>
         <| ResourceToMachine := Some rtm' |>).
Proof.
  intros Hm Hr (Hnd & Hpw & Hap) (Hold & Hnew) [H1 H2 H3].
  assert (He : forall key, entries (s <| MachineToResources := Some (<[Key mref := entries s (Key mref) ++ new]> mtr) |>
         <| ResourceToMachine := Some rtm' |>) key =
      if decide (Key mref = key) then entries s (Key mref) ++ new else entries s key).
  { intros key. rewrite (entries_some s mtr key) by done. apply entries_upd. }
  split.
  - intros key r. rewrite He. case_decide; [|apply H1].
    intros [Hin|Hin]%elem_of_app; [by eapply H1|]. by eapply list.Forall_forall in Hnd.
  - intros key. rewrite He. case_decide; [|apply H2]. apply pairwise_app. auto.
  - intros k m Hk. unfold go_lookup in Hk. simpl in Hk. setoid_rewrite He.
    destruct (decide (k ∈ ((fun r => Key (ResourceRef_Ref r)) <$> new))) as [Hin|Hin].
    + destruct (Hnew k Hin) as (r & Hrin & Hkey & Hv). rewrite Hv in Hk. injection Hk as <-.
      exists r. simpl. rewrite decide_True by done. split; [|done]. apply elem_of_app. by right.
    + rewrite Hold in Hk by done.
      assert (Hk' : go_lookup (ResourceToMachine s) k = Some m) by (unfold go_lookup; by rewrite Hr).
      apply H3 in Hk' as (r & Hrin & Hkey & Hb). exists r. split; [|done].
      destruct (decide (Key mref = Key (MachineRef_Ref m))) as [Heq|]; [|done].
      rewrite <-Heq in Hrin. apply elem_of_app. by left.
Qed.

Lemma step_inv_unbind (s : status) key0 res mtr :
  MachineToResources s = Some mtr ->
  inv s ->
  inv (s <| MachineToResources := Some (<[key0 := filterb (not_of res) (entries s (key0))]> mtr) |>
         <| ResourceToMachine ::= fun m => go_delete m (Key res) |>).
Proof.
  intros Hm [H1 H2 H3].
  assert (He : forall key, entries (s <| MachineToResources := Some (<[key0 := filterb (not_of res) (entries s (key0))]> mtr) |>
         <| ResourceToMachine ::= fun m => go_delete m (Key res) |>) key =
      if decide (key0 = key) then filterb (not_of res) (entries s (key0)) else entries s key).
  { intros key. rewrite (entries_some s mtr key) by done. apply entries_upd. }
  split.
  - intros key r. rewrite He. case_decide; [|apply H1]. intros [Hin _]%elem_of_filterb. by eapply H1.
  - intros key. rewrite He. case_decide; [|apply H2].
    eapply pairwise_sublist; [apply filterb_sublist|apply H2].
  - intros k m Hk. setoid_rewrite He.
    assert (Hk' : k <> Key res /\ go_lookup (ResourceToMachine s) k = Some m).
    { unfold go_lookup, go_delete, go_map in *. simpl in Hk.
      destruct (ResourceToMachine s) as [rtm|]; simpl in *; [|done].
      apply lookup_delete_Some in Hk. naive_solver. }
    destruct Hk' as [Hne Hk']. apply H3 in Hk' as (r & Hrin & Hkey & Hb). exists r.
    split; [|done]. case_decide as Heq; [|done]. rewrite <-Heq in Hrin.
    apply elem_of_filterb. split; [done|]. unfold not_of.
    apply negb_true_iff, bool_decide_eq_false. intros Hres. apply Hne. by rewrite <-Hkey, Hres.
Qed.

Lemma step_inv s s' : step s s' -> inv s -> inv s'.
Proof.
  intros Hstep. destruct Hstep.
  - by apply inv_same.
  - by apply step_inv_bind with (rtm := rtm).
  - by apply inv_same.
  - by apply inv_same.
  - by apply inv_same.
  - by eapply step_inv_unbind.
  - apply inv_same; [|done]. intros k. rewrite entries_upd, (entries_some s mtr k) by done.
    case_decide as Hk; [|done]. subst. symmetry. exact (f_equal (default []) H0).
  - apply inv_same; [|done]. intros k. revert H. unfold entries, go_lookup, go_delete, go_map. simpl.
    destruct (MachineToResources s) as [mtr|]; simpl; [|done].
    destruct (decide (key = k)) as [->|Hne]; [by rewrite lookup_delete_eq|].
    by rewrite lookup_delete_ne.
Qed.

Lemma steps_inv s s' : steps s s' -> inv s -> inv s'.
Proof. induction 1; eauto using step_inv. Qed.

(** A lock leaves its request only by the release of that request. *)
Lemma step_lock_kept s s' machine req :
  step s s' -> go_lookup (MachineLocks s) machine = Some req ->
  go_lookup (MachineLocks s') machine = Some req \/
  (go_lookup (MachineLocks s') machine = None /\
   s' = s <| AcceptedRequests ::= fun a => Remove a req |>
          <| MachineLocks ::= fmap (filter (fun kv : string * Ref => kv.2 <> req)) |>).
Proof.
  intros Hstep Hl. destruct Hstep as [| |machine' req' locks Hm Hor| |req'| | |];
    try (left; exact Hl).
  - left. unfold go_lookup in *. simpl. rewrite Hm in Hl. simpl in Hl.
    destruct (decide (machine' = machine)) as [->|Hne]; [|by rewrite lookup_insert_ne].
    rewrite lookup_insert_eq. destruct Hor as [Hn|Hn]; congruence.
  - unfold go_lookup, go_map in *. simpl. destruct (MachineLocks s) as [locks|] eqn:Hlocks; [|done].
    simpl in *. destruct (decide (req' = req)) as [->|Hne].
    + right. split; [|done]. apply map_lookup_filter_None. right.
      intros r Hr. rewrite Hl in Hr. injection Hr as <-. simpl. by intros [].
    + left. apply map_lookup_filter_Some. split; [done|]. simpl. congruence.
Qed.

End Ledger.

(** ** Reading the relationship *)

(** What a read of the relationship showed: its status, or the empty one of an object that is
    not there. A read that failed otherwise shows nothing. *)
Definition relationship_read (c : call) : answer c -> option RelationshipStatus :=
  match c return answer c -> option RelationshipStatus with
  | Get KRelationship _ => fun r =>
      match r with
      | inl err => if IsNotFound err then Some Ledger.start else None
      | inr o => Some (Relationship_Status o)
      end
  | _ => fun _ => None
  end.

Fixpoint last_relationship (h : history) : RelationshipStatus :=
  match h with
  | [] => Ledger.start
  | e :: h' =>
      match relationship_read (ev_call e) (ev_answer e) with
      | Some s => s
      | None => last_relationship h'
      end
  end.

Lemma last_relationship_absent key err h :
  IsNotFound err = true -> last_relationship (Event (Get KRelationship key) (inl err) :: h) = Ledger.start.
Proof. intros H. simpl. by rewrite H. Qed.

(** The contract of every reconciler with the ledger: a status update of the relationship is
    a sequence of ledger steps from the relationship last read. *)
Definition ledger_guard (h : history) (c : call) : Prop :=
  match c with
  | StatusUpdate KRelationship o =>
      Ledger.steps (last_relationship h) (Relationship_Status o)
  | Update KRelationship _ | Create KRelationship _ | Delete KRelationship _ => False
  | _ => True
  end.

Lemma wp_getRelationship (G : history -> call -> Prop) h Q :
  G h (Get KRelationship relationshipName) ->
  (forall x : error + Relationship,
     let h' := Event (Get KRelationship relationshipName) x :: h in
     match x with
     | inl err => (if IsNotFound err then Q h' (Ret (inr zeroRelationship)) else Q h' (Ret (inl err)))
     | inr rel => Q h' (Ret (inr rel))
     end) ->
  wp admissible G getRelationship h Q.
Proof.
  intros HG H. unfold getRelationship, get. wp_run. split; [done|]. intros x _.
  specialize (H x). destruct x as [err|rel]; [|done]. by destruct (IsNotFound err).
Qed.

Lemma RelationshipReconciler_ledger req h :
  wp admissible ledger_guard (RelationshipReconciler_Reconcile req) h (fun _ _ => True).
Proof.
  unfold RelationshipReconciler_Reconcile, get, status_update. wp_run.
  split; [done|]. intros [err|rel] _; [done|].
  destruct (initialized _); [done|]. wp_run. simpl.
  split; [|done]. apply rtc_once. constructor.
Qed.

(** The relationship reconciler stores the object only when one of its maps is nil, and then
    with exactly the nil ones made, so that no reconciler that reads it later writes to a nil
    map; but it ends without an error even when the store failed. *)
Lemma relationship_initialised req :
  safe (fun h c => match c with
      | StatusUpdate KRelationship o => exists rel, last_got KRelationship h = Some rel /\
          initialized (Relationship_Status rel) = false /\
          Relationship_Status o = init_status (Relationship_Status rel) /\
          initialized (Relationship_Status o) = true
      | Get KRelationship key => key = req
      | _ => False
      end)
    (RelationshipReconciler_Reconcile req)
    (fun h r => last_got KRelationship h = None \/ r = Ret (noRequeue, None)).
Proof.
  unfold safe, RelationshipReconciler_Reconcile, get, status_update. wp_run.
  split; [done|]. intros [err|rel] _; [by left|].
  destruct (initialized _) eqn:Hi; [by right|]. wp_run. split; [|by right].
  exists rel. split; [done|]. split; [done|]. split; [done|].
  unfold initialized, init_status. simpl. by destruct (Relationship_Status rel) as [[] [] [] []].
Qed.

(** ** Stretches of a handler that leave the relationship read alone

    [computes G P p]: from any history, every call of [p] satisfies [G], [p] does not read the
    relationship again, and if it returns, what it returns satisfies [P]. *)

Definition extends (h h' : history) : Prop :=
  last_relationship h' = last_relationship h /\ (forall P, happened P h -> happened P h') /\
  forall k, last_got k h' = last_got k h.

#[export] Instance extends_preorder : PreOrder extends.
Proof.
  split; [by intros h|]. intros h1 h2 h3 (E1 & H1 & F1) (E2 & H2 & F2).
  split; [by rewrite E2|]. split; [auto|]. intros k. by rewrite F2.
Qed.

Definition computes (G : history -> call -> Prop) {A} (P : A -> Prop) (p : io A) : Prop :=
  forall h, wp admissible G p h (fun h' r =>
    extends h h' /\ match r with Ret a => P a | Panic _ => True end).

(** Calls that read no object. *)
Definition neutral (c : call) : Prop :=
  forall x, relationship_read c x = None /\ forall k, got k c x = None.

Section computes.
Context (G : history -> call -> Prop).

Lemma computes_mono {A} (P Q : A -> Prop) p :
  computes G P p -> (forall a, P a -> Q a) -> computes G Q p.
Proof.
  intros H HPQ h. eapply wp_mono; [apply H|]. intros h' [a|e] [? ?]; auto.
Qed.

Lemma computes_bind {A B} (P : A -> Prop) (Q : B -> Prop) (p : io A) (f : A -> io B) :
  computes G P p -> (forall a, P a -> computes G Q (f a)) -> computes G Q (p ≫= f).
Proof.
  intros Hp Hf h. apply wp_bind. eapply wp_mono; [apply Hp|].
  intros h' [a|e] [Hext Ha]; [|done]. eapply wp_mono; [by apply Hf|].
  intros h'' r [Hext' Hr]. split; [by etrans|done].
Qed.

Lemma computes_ret {A} (P : A -> Prop) a : P a -> computes G P (mret a).
Proof. intros H h. by split. Qed.

Lemma computes_lift {A} (P : A -> Prop) (m : go A) :
  (forall a, m = Ret a -> P a) -> computes G P (lift m).
Proof. intros H h. apply wp_lift. split; [done|]. destruct m; auto. Qed.

Lemma computes_lift_eq {A} (m : go A) : computes G (fun a => m = Ret a) (lift m).
Proof. by apply computes_lift. Qed.

Lemma computes_ask (c : call) (P : answer c -> Prop) :
  (forall h, G h c) -> neutral c -> (forall x, admissible c x -> P x) -> computes G P (ask c).
Proof.
  intros HG Hn HP h. unfold ask. cbn [wp]. split; [apply HG|]. intros x Hx.
  cbn [wp]. split; [|by auto]. destruct (Hn x) as [Hr Hg]. split; [|split].
  - cbn [last_relationship ev_call ev_answer]. by rewrite Hr.
  - by intros; apply happened_later.
  - intros k. cbn [last_got ev_call ev_answer]. by rewrite Hg.
Qed.

Lemma computes_deferring {A} (P : A -> Prop) (d : io unit) (p : io A) :
  computes G (fun _ => True) d -> computes G P p -> computes G P (deferring d p).
Proof.
  intros Hd Hp h. apply wp_deferring. eapply wp_mono; [apply Hp|]. intros h1 r [Hext Hr].
  eapply wp_mono; [apply Hd|]. intros h2 [[]|e] [Hext2 _]; (split; [by etrans|done]).
Qed.

(** The loop rule, the invariant knowing the elements already seen. *)
Lemma computes_for_each {A S R} (I : list A -> S -> Prop) (Q : R -> Prop)
    (f : S -> A -> io (S + R)) (l : list A) (s : S) :
  I [] s ->
  (forall seen a rest s, l = seen ++ a :: rest -> I seen s ->
     computes G (fun r => match r with inl s' => I (seen ++ [a]) s' | inr x => Q x end) (f s a)) ->
  computes G (fun r => match r with inl s' => I l s' | inr x => Q x end) (for_each f l s).
Proof.
  assert (Hgen : forall seen s l', I seen s -> l = seen ++ l' ->
    (forall seen a rest s, l = seen ++ a :: rest -> I seen s ->
       computes G (fun r => match r with inl s' => I (seen ++ [a]) s' | inr x => Q x end) (f s a)) ->
    computes G (fun r => match r with inl s' => I l s' | inr x => Q x end) (for_each f l' s)).
  { intros seen s0 l'. revert seen s0. induction l' as [|a l' IH]; intros seen s0 HI Hl Hf.
    - rewrite app_nil_r in Hl. subst. by apply computes_ret.
    - change (for_each f (a :: l') s0) with
        (f s0 a ≫= fun r => match r with inl s' => for_each f l' s' | inr r => mret (inr r) end).
      eapply computes_bind; [by eapply Hf|]. intros [s'|x] Hr.
      + apply (IH (seen ++ [a])); [done| |done]. by rewrite <-app_assoc.
      + by apply computes_ret. }
  intros HI Hf. by apply (Hgen [] s l).
Qed.
End computes.

Lemma computes_range_keys (G : history -> call -> Prop) {V} (m : gmap string V) :
  (forall h, G h (RangeKeys (map_to_list m).*1)) ->
  computes G (fun keys => keys ≡ₚ (map_to_list m).*1) (range_keys m).
Proof. intros HG. unfold range_keys. by apply (computes_ask G (RangeKeys _)). Qed.
