(* ===== verification/Docker.v ===== *)
(** * pkg/docker-util and pkg/container

    The helpers around the Docker client, and the configurations of the containers Naglfar
    itself runs on a machine. The bytes of a stream stay with the services: [StreamCopy] reads
    one to its end, [StdCopy] takes it apart into what was written to each output. *)

From S2P Require Import Prelude GoStd Util ApiTypes Prog World Machine Relationship.

Definition MakeClient (machine : Machine) : io (error + DockerClient) := Machine.DockerClient machine.

(** [TimeIsZero] (pkg/docker-util/time.go), the same function as [timeIsZero] of
    controllers/testresource_controller.go. *)
Definition TimeIsZero (timeStr : string) : bool :=
  match time.Parse_RFC3339 timeStr with
  | Some datatime => time.IsZero datatime
  | None => false
  end.

(** [defer reader.Close()]: the error is dropped. *)
Definition closing (client : DockerClient) : io unit := _ ← ask (StreamClose client); mret tt.

(** [Client.Exec] (pkg/docker-util/exec.go): what a command run in a container wrote to its two
    outputs. How the command ended is not asked. *)
Definition Exec (client : DockerClient) (name : string) (config : ExecConfig) : io (string * string * option error) :=
  let? id := ask (ContainerExecCreate client name config) orelse err => mret ("", "", Some err) in
  check ask (ContainerExecAttach client id config) orelse err => mret ("", "", Some err) in
  deferring (closing client) (ask (StdCopy client)).

(** [Client.Logs] (pkg/docker-util/logs.go): the error of closing counts when there is no other. *)
Definition Logs (client : DockerClient) (container : string) (options : LogsOptions)
    : io (string * string * option error) :=
  check ask (ContainerLogs client container options) orelse err => mret ("", "", Some err) in
  '(stdout, stderr, err) ← ask (StdCopy client);
  closeErr ← ask (StreamClose client);
  mret (stdout, stderr, match (err : option error) with None => closeErr | Some _ => err end).

Definition PullImageByPolicy (client : DockerClient) (image : string) (policy : PullImagePolicy)
    : io (option error) :=
  err ← ask (ImageInspect client image);
  let pull : io (option error) :=
    check ask (ImagePull client image) orelse err => mret (Some err) in
    deferring (closing client) (ask (StreamCopy client)) in
  match err with
  | None => if String.eqb policy PullPolicyAlways then pull else mret None
  | Some e => if IsErrImageNotFound e then pull else mret (Some e)
  end.

Record RunOptions := mkRunOptions {
  RunOptions_Policy : PullImagePolicy;
  RunOptions_Config : Config;
  RunOptions_HostConfig : HostConfig;
}.

Definition out_of_fuel : string := "out of fuel".

(** The loop of [Run], with fuel; [Run_terminates] is about how much is enough. *)
Fixpoint Run_loop (fuel : nat) (client : DockerClient) (name : string) (options : RunOptions)
    : io (error + ContainerJSON) :=
  match fuel with
  | O => Crash out_of_fuel
  | S fuel =>
      r ← ask (ContainerInspect client name);
      match r with
      | inl err =>
          if negb (IsErrNotFound err) then mret (inl err)
          else
            r ← ask (ContainerCreate client (RunOptions_Config options) (RunOptions_HostConfig options) name);
            match r with
            | inl err => mret (inl err)
            | inr _ => Run_loop fuel client name options
            end
      | inr stat =>
          if TimeIsZero (ContainerState_StartedAt (ContainerJSON_State stat)) then
            err ← ask (ContainerStart client name);
            match err with
            | Some err => mret (inl err)
            | None => Run_loop fuel client name options
            end
          else mret (inr stat)
      end
  end.

Definition Run (fuel : nat) (client : DockerClient) (name image : string) (options : RunOptions)
    : io (error + ContainerJSON) :=
  let policy := if String.eqb (RunOptions_Policy options) "" then PullPolicyIfNotPresent
                else RunOptions_Policy options in
  check PullImageByPolicy client image policy orelse err => mret (inl err) in
  Run_loop fuel client name options.

Definition JustExec (fuel : nat) (client : DockerClient) (name image : string) (options : RunOptions)
    : io (error + string) :=
  let? stat := Run fuel client name image options orelse err => mret (inl err) in
  let? exitCode := ask (ContainerWait client (ContainerJSON_ID stat)) orelse err => mret (inl err) in
  if negb (exitCode =? 0) then
    mret (inl (Errorf ("container " +:+ ContainerJSON_ID stat +:+ " exit with " +:+ strconv.Itoa exitCode)))
  else
    '(stdout, _, err) ← Logs client (ContainerJSON_Name stat) (mkLogsOptions true false false);
    match (err : option error) with
    | Some err => mret (inl err)
    | None =>
        check ask (ContainerRemove client (ContainerJSON_ID stat) true) orelse err => mret (inl err) in
        mret (inr stdout)
    end.

(** ** Streams read no object, and change none *)

Section streams.
Context (G : history -> call -> Prop) (client : DockerClient).
Hypothesis Hopen : forall h c, match c with
  | ImageInspect _ _ | ImagePull _ _ | ContainerLogs _ _ _ | StreamCopy _ | StdCopy _ | StreamClose _ => G h c
  | _ => True
  end.

Lemma computes_closing : computes G (fun _ => True) (closing client).
Proof.
  eapply computes_bind; [|intros err _; by apply computes_ret].
  apply (computes_ask G (StreamClose client) (fun _ => True)); [intros h; apply (Hopen h (StreamClose client))|done..].
Qed.

Lemma computes_PullImageByPolicy image policy :
  computes G (fun _ => True) (PullImageByPolicy client image policy).
Proof.
  unfold PullImageByPolicy. cbv zeta.
  assert (Hask : forall c : call, (forall h, G h c) -> neutral c -> computes G (fun _ => True) (ask c)).
  { intros c HG Hn. by apply (computes_ask G c (fun _ => True)). }
  eapply computes_bind; [apply (Hask (ImageInspect client image)); [intros h; apply (Hopen h (ImageInspect client image))|done]|].
  assert (Hpull : computes G (fun _ => True)
    (check ask (ImagePull client image) orelse err => mret (Some err) in
     deferring (closing client) (ask (StreamCopy client)))).
  { eapply computes_bind; [apply (Hask (ImagePull client image)); [intros h; apply (Hopen h (ImagePull client image))|done]|].
    intros [err|] _; [by apply computes_ret|].
    apply computes_deferring; [apply computes_closing|].
    apply (Hask (StreamCopy client)); [intros h; apply (Hopen h (StreamCopy client))|done]. }
  intros [err|] _; [destruct (IsErrImageNotFound err)|destruct (String.eqb _ _)];
    first [exact Hpull|by apply computes_ret].
Qed.

Lemma computes_StdCopy : computes G (fun _ => True) (ask (StdCopy client)).
Proof. apply (computes_ask G (StdCopy client)); [intros h; apply (Hopen h (StdCopy client))|done..]. Qed.

Lemma computes_Logs name options : computes G (fun _ => True) (Logs client name options).
Proof.
  unfold Logs. eapply computes_bind.
  { apply (computes_ask G (ContainerLogs client name options) (fun _ => True)); [intros h; apply (Hopen h (ContainerLogs client name options))|done..]. }
  intros [err|] _; [by apply computes_ret|].
  eapply computes_bind; [apply computes_StdCopy|]. intros [[out serr] err] _.
  eapply computes_bind; [|intros e _; by apply computes_ret].
  apply (computes_ask G (StreamClose client) (fun _ => True)); [intros h; apply (Hopen h (StreamClose client))|done..].
Qed.
End streams.

(** ** pkg/container *)

Module container.

Definition ChaosDaemon : string := "chaos-daemon".
Definition ChaosDaemonPort : string := "31767/tcp".
Definition ChaosDaemonImage : string := "docker.io/pingcap/chaos-daemon:v1.0.2".
Definition LockerLabel : string := "locker".
Definition dockerSocket : string := "/var/run/docker.sock".
Definition sysDir : string := "/sys".

Definition ChaosDaemonCfg (locker : string) : Config * HostConfig :=
  let mounts := (fun m => bindMount m m) <$> [dockerSocket; sysDir] in
  (zeroConfig
     <| Config_Image := ChaosDaemonImage |>
     <| Config_Cmd := ["/usr/local/bin/chaos-daemon"; "--runtime"; "docker"] |>
     <| Config_Labels := Some {[ LockerLabel := locker ]} |>
     <| Config_ExposedPorts := {[ ChaosDaemonPort ]} |>,
   zeroHostConfig
     <| HostConfig_Mounts := mounts |>
     <| HostConfig_PublishAllPorts := true |>
     <| HostConfig_CapAdd := ["SYS_PTRACE"; "NET_ADMIN"; "MKNOD"; "SYS_CHROOT"; "SYS_ADMIN"; "KILL"; "IPC_LOCK"] |>).

Definition statScript : string := "os-stat.sh".
Definition MachineStatImage : string := "docker.io/alexeiled/nsenter".
Definition MachineStat : string := "naglfar-machine-stat".

Definition MachineStatCfg : io (Config * HostConfig) :=
  r ← ask (ScriptFind statScript);
  match r with
  | inl err => Crash ("fail to find " +:+ statScript +:+ ": " +:+ Error err)
  | inr osStatScript =>
      mret (zeroConfig
              <| Config_Image := MachineStatImage |>
              <| Config_Cmd := ["-m"; "--target"; "1"; "--"; "sh"; "-c"; osStatScript] |>,
            zeroHostConfig
              <| HostConfig_Privileged := true |>
              <| HostConfig_PidMode := "host" |>)
  end.

Definition UploadDaemon : string := "upload-daemon".
Definition UploadDaemonImage : string := "docker.io/pingcapqe/upload-daemon:latest".
Definition UploadPath : string := "/var/naglfar/lib".
Definition UploadDaemonInternalPort : Z := 6666.
Definition UploadDaemonExternalPort : Z := 31234.

Definition UploadDaemonCfg (upload : string) : Config * HostConfig :=
  (zeroConfig <| Config_Image := UploadDaemonImage |>,
   zeroHostConfig
     <| HostConfig_PortBindings := {[ strconv.Itoa UploadDaemonInternalPort +:+ "/tcp" :=
          [mkPortBinding "0.0.0.0" (strconv.Itoa UploadDaemonExternalPort)] ]} |>
     <| HostConfig_Binds := [UploadPath +:+ ":" +:+ UploadPath] |>
     <| HostConfig_Mounts := [] |>
     <| HostConfig_PublishAllPorts := true |>
     <| HostConfig_RestartPolicy := "always" |>).
End container.

(** ** Termination of [Run]

    Documented behaviour of a daemon, as an interface: a state in which a container may be
    there and may have been started; a successful create leaves it there, a successful start
    leaves it started, and an inspection tells the truth about both. *)

Class Daemon (St : Type) (serve : forall c : call, St -> answer c * St)
    (client : DockerClient) (name : string) := {
  present : St -> Prop;
  started : St -> Prop;
  inspect_absent s : forall r s', serve (ContainerInspect client name) s = (r, s') ->
    (present s -> present s') /\ (started s -> started s') /\
    match r with
    | inl err => present s -> IsErrNotFound err = false
    | inr stat =>
        started s -> TimeIsZero (ContainerState_StartedAt (ContainerJSON_State stat)) = false
    end;
  create_present s cfg host : forall r s',
    serve (ContainerCreate client cfg host name) s = (inr r, s') -> present s';
  start_started s : forall s',
    serve (ContainerStart client name) s = (None, s') -> present s -> present s' /\ started s';
  present_found s r s' : serve (ContainerInspect client name) s = (inr r, s') -> present s';
}.

Section termination.
Context {St : Type} (serve : forall c : call, St -> answer c * St).
Context (client : DockerClient) (name : string) `{D : !Daemon St serve client name}.

Abbreviation result p s := (fst (fst (run serve p s))).

Lemma run_bind {A B} (m : io A) (f : A -> io B) s :
  result (m ≫= f) s =
  match result m s with
  | Ret a => result (f a) (snd (fst (run serve m s)))
  | Panic e => Panic e
  end.
Proof.
  revert s; induction m as [a|e|c k IH]; intros s; [done|done|].
  change ((Call c k) ≫= f) with (Call c (fun x => (k x) ≫= f) : io B).
  cbn [run]. destruct (serve c s) as [x s1]. specialize (IH x s1).
  destruct (run serve (k x ≫= f) s1) as [[r s2] l].
  destruct (run serve (k x) s1) as [[r' s2'] l']. simpl in *. done.
Qed.

(** One more unit of fuel where the loop starts over. *)
Lemma run_ask {A} (c : call) (k : answer c -> io A) s x s1 :
  serve c s = (x, s1) -> result (ask c ≫= k) s = result (k x) s1.
Proof.
  intros H. change (ask c ≫= k) with (Call c k : io A). cbn [run]. rewrite H.
  by destruct (run serve (k x) s1) as [[r s2] l].
Qed.

Lemma Run_loop_started options fuel s :
  present s -> started s -> returns (result (Run_loop (S fuel) client name options) s).
Proof.
  intros Hp Hs. cbn [Run_loop]. destruct (serve (ContainerInspect client name) s) as [r s1] eqn:Hr.
  rewrite (run_ask _ _ _ _ _ Hr). destruct (inspect_absent s _ _ Hr) as (_ & _ & H).
  destruct r as [err|stat].
  - rewrite H by done. simpl. by eexists.
  - rewrite H by done. by eexists.
Qed.

Lemma Run_loop_present options fuel s :
  present s -> returns (result (Run_loop (S (S fuel)) client name options) s).
Proof.
  intros Hp. remember (S fuel) as n. cbn [Run_loop].
  destruct (serve (ContainerInspect client name) s) as [r s1] eqn:Hr.
  rewrite (run_ask _ _ _ _ _ Hr). destruct (inspect_absent s _ _ Hr) as (Hp1 & _ & H).
  destruct r as [err|stat].
  - rewrite H by done. by eexists.
  - destruct (TimeIsZero _); [|by eexists].
    destruct (serve (ContainerStart client name) s1) as [e s2] eqn:He.
    rewrite (run_ask _ _ _ _ _ He). destruct e as [e|]; [by eexists|].
    destruct (start_started s1 _ He) as [Hp2 Hs2]; [auto|].
    subst n. by apply Run_loop_started.
Qed.

(** Three rounds are enough whatever the state of the container. *)
Lemma Run_loop_returns options fuel s :
  returns (result (Run_loop (S (S (S fuel))) client name options) s).
Proof.
  remember (S (S fuel)) as n. cbn [Run_loop].
  destruct (serve (ContainerInspect client name) s) as [r s1] eqn:Hr.
  rewrite (run_ask _ _ _ _ _ Hr). destruct r as [err|stat].
  - destruct (IsErrNotFound err); [|by eexists]. simpl negb. cbn iota.
    destruct (serve (ContainerCreate client (RunOptions_Config options)
                (RunOptions_HostConfig options) name) s1) as [r s2] eqn:Hc.
    rewrite (run_ask _ _ _ _ _ Hc). destruct r as [e|w]; [by eexists|].
    subst n. apply Run_loop_present. by eapply create_present.
  - pose proof (present_found _ _ _ Hr) as Hp1.
    destruct (TimeIsZero _); [|by eexists].
    destruct (serve (ContainerStart client name) s1) as [e s2] eqn:He.
    rewrite (run_ask _ _ _ _ _ He). destruct e as [e|]; [by eexists|].
    destruct (start_started s1 _ He) as [Hp2 Hs2]; [done|].
    subst n. by apply Run_loop_started.
Qed.

(** A pull ends, one way or the other. *)
Lemma pull_returns image s :
  returns (result (check ask (ImagePull client image) orelse err => mret (Some err) in
                   deferring (closing client) (ask (StreamCopy client))) s).
Proof.
  destruct (serve (ImagePull client image) s) as [[e|] s1] eqn:Hp; rewrite (run_ask _ _ _ _ _ Hp); [by eexists|].
  cbn [deferring ask]. destruct (serve (StreamCopy client) s1) as [x s2] eqn:Hc.
  change (returns (result (ask (StreamCopy client) ≫= (fun x => closing client ≫= fun _ => mret x)) s1)).
  rewrite (run_ask _ _ _ _ _ Hc). unfold closing. cbn [mbind prog_bind_inst prog_bind ask mret prog_ret_inst run].
  destruct (serve (StreamClose client) s2) as [y s3]. by eexists.
Qed.

(** C33. [Run] terminates: against any daemon that behaves as documented, three rounds of its
    loop are enough, whatever the container's state, the image and the options. *)
Theorem Run_terminates options image fuel s :
  returns (result (Run (3 + fuel) client name image options) s).
Proof.
  unfold Run. rewrite run_bind.
  assert (Hpull : forall policy s, returns (result (PullImageByPolicy client image policy) s)).
  { intros policy s0. unfold PullImageByPolicy.
    destruct (serve (ImageInspect client image) s0) as [r s1] eqn:Hr.
    rewrite (run_ask _ _ _ _ _ Hr).
    destruct r as [e|]; [destruct (IsErrImageNotFound e)|destruct (String.eqb _ _)];
      first [apply pull_returns|by eexists]. }
  match goal with |- context [PullImageByPolicy client image ?p] => destruct (Hpull p s) as [err ->] end.
  destruct err as [err|]; [by eexists|].
  apply Run_loop_returns.
Qed.
End termination.

(** A daemon with at most one container: absent, created or started. *)
Definition example_daemon (c : call) : option bool -> answer c * option bool :=
  match c return option bool -> answer c * option bool with
  | ContainerInspect _ name => fun s =>
      match s with
      | None => (inl not_found, s)
      | Some st =>
          (inr (mkContainerJSON "id" name
                  (mkContainerState false false 0
                     (if st then "2020-01-01T00:00:00Z" else "0001-01-01T00:00:00Z") "0001-01-01T00:00:00Z")
                  None None ∅ ∅), s)
      end
  | ContainerCreate _ _ _ _ => fun _ => (inr [], Some false)
  | ContainerStart _ _ => fun s => (None, Some true)
  | ImageInspect _ _ | ImagePull _ _ => fun s => (None, s)
  | c => fun s => (refuse c, s)
  end.

#[local] Instance example_daemon_laws client name : Daemon (option bool) example_daemon client name.
Proof.
  refine {| present := fun s => is_Some s; started := fun s => s = Some true |}.
  - intros [st|] r s'; cbn [example_daemon]; intros [= <- <-].
    + split; [done|]. split; [done|]. intros [= ->]. done.
    + split; [done|]. split; [done|]. by intros [].
  - intros s cfg host r s' [= <- <-]. by eexists.
  - intros s s' [= <-] _. split; [by eexists|done].
  - intros [st|] r s'; cbn [example_daemon]; intros [= <- <-]; by eexists.
Defined.

Lemma Run_terminates_witness :
  returns (fst (fst (run example_daemon
    (Run 3 (mkDockerClient "tcp://h:2375" "1.25") "c" "img" (mkRunOptions "" zeroConfig zeroHostConfig)) None))).
Proof. apply (Run_terminates example_daemon (mkDockerClient "tcp://h:2375" "1.25") "c" _ "img" 0 None). Defined.
