(* ===== verification/Scheduler.v ===== *)
(** * The request reconciler: scheduling resources onto machines

    controllers/testresourcerequest_controller.go. [Reconcile] drives a request from pending to
    ready: it creates the resources, and once binds all of them to machines, in the
    relationship ([tryRequest]). The machine side is the [Allocator] interface. *)

From S2P Require Import Prelude GoStd Util ApiTypes Prog World Machine Resource Relationship.

Definition pickCpuSet (cpuSet : list Z) (i : Z) : list Z :=
  if len cpuSet <? i then [] else take (Z.to_nat i) cpuSet.

Module Scheduler.
Section Scheduler.
Context {U : Units} {A : Machine.Allocator}.

Definition requestFinalizer : string := "testresourcerequest.naglfar.pingcap.com".

(** The resources of an item group are pointers: a name that is no resource's is nil. *)
Record ItemGroup := mkItemGroup {
  ExplicitMachine : string;
  Items : list (option TestResource);
}.

(** ** Fitting a resource into what rests of a machine *)

(** The inner loop of [resourceOverflow]: the first device, in the order of this iteration,
    that has the kind and the size. *)
Fixpoint find_device (disk : DiskSpec) (disks : gmap string DiskResource) (devices : list string)
    : go (option (string * DiskResource)) :=
  match devices with
  | [] => Ret None
  | device :: l =>
      match disks !! device with
      | None => find_device disk disks l
      | Some diskResource =>
          if String.eqb (DiskSpec_Kind disk) (DiskResource_Kind diskResource) then
            want ← BytesSize.Unwrap (DiskSpec_Size disk);
            have ← BytesSize.Unwrap (DiskResource_Size diskResource);
            if want <=? have then Ret (Some (device, diskResource)) else find_device disk disks l
          else find_device disk disks l
      end
  end.

(** The outer loop. What is deleted is the entry of the disk's name, not of the device. *)
Fixpoint bindDisks (specs : gmap string DiskSpec) (names : list string)
    (rest : gmap string DiskResource) (bound : gmap string DiskBinding)
    : io (gmap string DiskBinding) :=
  match names with
  | [] => mret bound
  | name :: l =>
      match specs !! name with
      | None => bindDisks specs l rest bound
      | Some disk =>
          devices ← range_keys rest;
          r ← lift (find_device disk rest devices);
          match r with
          | None => bindDisks specs l rest bound
          | Some (device, diskResource) =>
              bindDisks specs l (delete name rest)
                (<[name := mkDiskBinding (DiskSpec_Kind disk) (DiskResource_Size diskResource) device
                             (DiskResource_MountPath diskResource) (DiskSpec_MountPath disk)]> bound)
          end
      end
  end.

(** [None] is the pair of a nil binding and true. *)
Definition resourceOverflow (rest : option AvailableResource) (newResource : TestResourceSpec)
    : io (option ResourceBinding) :=
  match rest with
  | None => mret None
  | Some rest =>
      let cpuSet := pickCpuSet (AvailableResource_IdleCPUSet rest) (TestResourceSpec_Cores newResource) in
      names ← range_keys (TestResourceSpec_Disks newResource);
      disks ← bindDisks (TestResourceSpec_Disks newResource) names (AvailableResource_Disks rest) ∅;
      let binding := mkResourceBinding (TestResourceSpec_Memory newResource) cpuSet disks in
      if Z.of_nat (size disks) <? Z.of_nat (size (TestResourceSpec_Disks newResource)) then mret None
      else
        have ← lift (BytesSize.Unwrap (AvailableResource_Memory rest));
        want ← lift (BytesSize.Unwrap (TestResourceSpec_Memory newResource));
        if (have <? want) || (len cpuSet <? TestResourceSpec_Cores newResource) then mret None
        else mret (Some binding)
  end.

(** ** Binding a group *)

Definition machine_key (m : Machine) : string := Key (CreateRef (Machine_ObjectMeta m)).
Definition resource_ref (r : TestResource) : Ref := CreateRef (TestResource_ObjectMeta r).

(** The loop over the group's items on one machine: [inr] is [continue FindMachines]. *)
Definition fit_item (machine : Machine)
    (st : ResourceRefList * gmap string ResourceBinding) (item : option TestResource)
    : io ((ResourceRefList * gmap string ResourceBinding) + unit) :=
  let '(allocatedResources, bindings) := st in
  rest ← lift (Machine.Rest machine allocatedResources);
  item ← lift (deref item);
  binding ← resourceOverflow rest (TestResource_Spec item);
  match binding with
  | None => mret (inr tt)
  | Some binding =>
      mret (inl (allocatedResources ++ [mkResourceRef (resource_ref item) binding],
                 <[TestResource_Name item := binding]> bindings))
  end.

(** [ResourceToMachine] after the group is placed. A missing name in [bindings] would be a
    nil dereference. *)
Definition assign_resources (machine : Machine) (bindings : gmap string ResourceBinding)
    (items : list (option TestResource)) (rtm : gomap MachineRef) : go (gomap MachineRef) :=
  go_fold (fun rtm item =>
      item ← deref item;
      binding ← deref (bindings !! TestResource_Name item);
      go_assign rtm (Key (resource_ref item))
        (mkMachineRef (CreateRef (Machine_ObjectMeta machine)) binding))
    items rtm.

Definition place_group (rel : Relationship) (machine : Machine) (allocatedResources : ResourceRefList)
    (bindings : gmap string ResourceBinding) (items : list (option TestResource)) : go Relationship :=
  let status := Relationship_Status rel in
  mtr ← go_assign (MachineToResources status) (machine_key machine) allocatedResources;
  rtm ← assign_resources machine bindings items (ResourceToMachine status);
  Ret (rel <| Relationship_Status := status <| MachineToResources := mtr |>
                                            <| ResourceToMachine := rtm |> |>).

(** The relationship is updated in place: the result carries it along with the machine. *)
Fixpoint tryBindResource (rel : Relationship) (candidateMachines : list Machine) (group : ItemGroup)
    : io (option (Machine * Relationship)) :=
  match candidateMachines with
  | [] => mret None
  | machine :: l =>
      let allocatedResources :=
        Clone (default [] (go_lookup (MachineToResources (Relationship_Status rel)) (machine_key machine))) in
      r ← for_each (fit_item machine) (Items group) (allocatedResources, ∅);
      match r with
      | inr _ => tryBindResource rel l group
      | inl (allocatedResources, bindings) =>
          rel ← lift (place_group rel machine allocatedResources bindings (Items group));
          mret (Some (machine, rel))
      end
  end.

(** ** Groups and candidates *)

Definition groupCoLocatedItems (items : list ResourceRequestItem) (resourceMap : gmap string TestResource)
    : io (list ItemGroup) :=
  let '(namedMachineItem, noNamedMachineItemGroup) :=
    fold_left (fun '(named, unnamed) item =>
        let machine := TestResourceSpec_Machine (ResourceRequestItem_Spec item) in
        let resource := resourceMap !! ResourceRequestItem_Name item in
        if negb (String.eqb machine "")
        then (<[machine := default [] (named !! machine) ++ [resource]]> named, unnamed)
        else (named, unnamed ++ [mkItemGroup "" [resource]]))
      items (∅ : gmap string (list (option TestResource)), []) in
  machines ← range_keys namedMachineItem;
  mret (((fun machine => mkItemGroup machine (default [] (namedMachineItem !! machine))) <$> machines)
        ++ noNamedMachineItemGroup).

Definition allocated_count (rel : Relationship) (m : Machine) : Z :=
  len (default [] (go_lookup (MachineToResources (Relationship_Status rel)) (machine_key m))).

Definition machine_less (explicitMachines : gmap string Machine) (rel : Relationship)
    (m1 m2 : Machine) : bool :=
  let m1ok := bool_decide (is_Some (explicitMachines !! Machine_Name m1)) in
  let m2ok := bool_decide (is_Some (explicitMachines !! Machine_Name m2)) in
  if m1ok && negb m2ok then true
  else if negb m1ok && m2ok then false
  else allocated_count rel m2 <? allocated_count rel m1.

Definition sortMachines (allMachines explicitMachines : gmap string Machine) (rel : Relationship)
    : io (list Machine) :=
  keys ← range_keys allMachines;
  let result := omap (fun key => allMachines !! key) keys in
  result ← (ask (ShuffleMachines result) : io (list Machine));
  (ask (SortMachines (machine_less explicitMachines rel) result) : io (list Machine)).

Definition selectNonLockMachines (machines : gmap string Machine) (relations : Relationship)
    : gmap string Machine :=
  filter (fun kv => go_lookup (MachineLocks (Relationship_Status relations)) kv.1 = None) machines.

Definition filterMachines (machines : list Machine) (pred : Machine -> bool) : list Machine :=
  filterb pred machines.

Definition getMachines : io (error + gmap string Machine) :=
  '(err, items) ← list_objs KMachine None None;
  match err with
  | Some err => mret (inl err)
  | None =>
      mret (inr (fold_left (fun book machine =>
          if bool_decide (MachineStatus_State (Machine_Status machine) = MachineReady)
          then <[Machine_Name machine := machine]> book else book) items ∅))
  end.

Definition listResources (request : TestResourceRequest) : io (option error * list TestResource) :=
  list_objs KTestResource (Some (ObjectMeta_Namespace (TestResourceRequest_ObjectMeta request))) None.

Definition listOwnedResources (request : TestResourceRequest) : io (option error * list TestResource) :=
  list_objs KTestResource (Some (ObjectMeta_Namespace (TestResourceRequest_ObjectMeta request)))
    (Some (ObjectMeta_Name (TestResourceRequest_ObjectMeta request))).

Fixpoint removeAllResources (resources : list TestResource) : io (option error) :=
  match resources with
  | [] => mret None
  | resource :: l =>
      err ← ask (Delete KTestResource resource);
      match (err : option error) ≫= IgnoreNotFound with
      | Some _ => mret err
      | None => removeAllResources l
      end
  end.

(** ** tryRequest *)

Definition request_ref (r : TestResourceRequest) : Ref := CreateRef (TestResourceRequest_ObjectMeta r).

Definition requeue10 : Result * option error := (after (10 * time.Second), None).

(** The maps built from the machine requests, or the error of a machine that is not ready. *)
Definition requested_machines (machines : gmap string Machine) (requests : list MachineRequest)
    : error + (gmap string MachineRequest * gmap string Machine) :=
  fold_left (fun acc machineRequest =>
      match acc with
      | inl err => inl err
      | inr (requestsMap, explicit) =>
          let requestsMap := <[MachineRequest_Name machineRequest := machineRequest]> requestsMap in
          let name := MachineRequest_TestMachineResource machineRequest in
          if String.eqb name "" then inr (requestsMap, explicit)
          else match machines !! name with
               | None => inl (Errorf ("no ready ExplicitMachine " +:+ name))
               | Some machine => inr (requestsMap, <[name := machine]> explicit)
               end
      end) requests (inr (∅, ∅)).

(** The candidates of one group; [None] when the machine it names is locked. *)
Definition group_candidates (rel : Relationship) (machineRequestsMap : gmap string MachineRequest)
    (candidateMachines : gmap string Machine) (sortedMachineList : list Machine) (group : ItemGroup)
    : go (option string + list Machine) :=
  if String.eqb (ExplicitMachine group) "" then Ret (inr sortedMachineList)
  else
    machineRequest ← deref (machineRequestsMap !! ExplicitMachine group);
    let name := MachineRequest_TestMachineResource machineRequest in
    let list :=
      if String.eqb name "" then inr sortedMachineList
      else match candidateMachines !! name with
           | None => inl (Some name)
           | Some explicitMachine => inr [explicitMachine]
           end in
    match list with
    | inl e => Ret (inl e)
    | inr list =>
        Ret (inr (if MachineRequest_Exclusive machineRequest
                  then filterMachines list (fun m => allocated_count rel m =? 0) else list))
    end.

Definition is_exclusive (machineRequestsMap : gmap string MachineRequest) (group : ItemGroup) : go bool :=
  if String.eqb (ExplicitMachine group) "" then Ret false
  else machineRequest ← deref (machineRequestsMap !! ExplicitMachine group);
       Ret (MachineRequest_Exclusive machineRequest).

(** One group of the loop of [tryRequest]; [inr] returns from it. *)
Definition bind_group (machineRequestsMap : gmap string MachineRequest)
    (candidateMachines : gmap string Machine) (sortedMachineList : list Machine)
    (st : Relationship * list string) (group : ItemGroup)
    : io ((Relationship * list string) + (Result * option error)) :=
  let '(rel, toLockMachines) := st in
  candidates ← lift (group_candidates rel machineRequestsMap candidateMachines sortedMachineList group);
  match candidates with
  | inl name =>
      record_event "Warning" "Request" ("no ready machine " +:+ default "" name);;
      mret (inr requeue10)
  | inr candidateMachineList =>
      bindMachine ← tryBindResource rel candidateMachineList group;
      match bindMachine with
      | None =>
          record_event "Warning" "Request" "fail to find suitable machines";;
          mret (inr requeue10)
      | Some (machine, rel) =>
          exclusive ← lift (is_exclusive machineRequestsMap group);
          mret (inl (rel, if exclusive : bool then toLockMachines ++ [Machine_Name machine] else toLockMachines))
      end
  end.

Definition lock_machines (toLockMachines : list string) (self : Ref) (locks : gomap Ref) : go (gomap Ref) :=
  go_fold (fun locks machine => go_assign locks machine self) toLockMachines locks.

Definition tryRequest (rel : Relationship) (request : TestResourceRequest)
    (resourceMap : gmap string TestResource) : io (Result * option error) :=
  let? machines := getMachines orelse err => mret (noRequeue, Some err) in
  match requested_machines machines (TestResourceRequestSpec_Machines (TestResourceRequest_Spec request)) with
  | inl err => mret (noRequeue, Some err)
  | inr (machineRequestsMap, explicitRequestMachines) =>
      let candidateMachines := selectNonLockMachines machines rel in
      itemGroups ← groupCoLocatedItems (TestResourceRequest_Items request) resourceMap;
      sortedMachineList ← sortMachines candidateMachines explicitRequestMachines rel;
      r ← for_each (bind_group machineRequestsMap candidateMachines sortedMachineList) itemGroups (rel, []);
      match r with
      | inr result => mret result
      | inl (rel, toLockMachines) =>
          locks ← lift (lock_machines toLockMachines (request_ref request)
                          (MachineLocks (Relationship_Status rel)));
          let rel := rel <| Relationship_Status ::= fun status =>
            status <| MachineLocks := locks |>
                   <| AcceptedRequests := Some (default [] (AcceptedRequests status) ++ [request_ref request]) |> |> in
          err ← status_update KRelationship rel;
          mret (noRequeue, err)
      end
  end.

(** ** reconcilePending *)

(** The loop over the namespace's resources; [inr] returns from [reconcilePending]. *)
Definition note_resource (request : TestResourceRequest)
    (st : gmap string TestResource * Z) (item : TestResource)
    : io ((gmap string TestResource * Z) + (Result * option error)) :=
  let '(resourceMap, requiredCount) := st in
  let owned := match ObjectMeta_Controller (TestResource_ObjectMeta item) with
               | None => false
               | Some owner => String.eqb (OwnerReference_UID owner)
                                 (ObjectMeta_UID (TestResourceRequest_ObjectMeta request))
               end in
  if negb owned then
    record_event "Warning" "Request" ("there exists old resource named: " +:+ TestResource_Name item);;
    mret (inr requeue10)
  else
    mret (inl (<[TestResource_Name item := item]> resourceMap,
               if IsRequired (TestResource_State item) then requiredCount + 1 else requiredCount)).

(** The loop that creates the missing resources. *)
Definition create_missing (request : TestResourceRequest) (resourceMap : gmap string TestResource)
    (idx : Z) (item : ResourceRequestItem) : io (Z + (Result * option error)) :=
  if bool_decide (is_Some (resourceMap !! ResourceRequestItem_Name item)) then mret (inl (idx + 1))
  else
    tr ← lift (TestResourceRequest.ConstructTestResource request idx);
    r ← ask (SetControllerReference request tr);
    match r with
    | inl _ => mret (inr requeue10)
    | inr tr =>
        r ← ask (Create KTestResource tr);
        match r with
        | inl err => if IsAlreadyExists err then mret (inl (idx + 1)) else mret (inr (noRequeue, Some err))
        | inr _ => mret (inl (idx + 1))
        end
    end.

Definition reconcilePending (request : TestResourceRequest) : io (Result * option error) :=
  '(err, resources) ← listResources request;
  match err with
  | Some err => mret (noRequeue, Some err)
  | None =>
  r ← for_each (note_resource request) resources (∅, 0);
  match r with
  | inr result => mret result
  | inl (resourceMap, requiredCount) =>
  '(err, _) ← listOwnedResources request;
  match (err : option error) with
  | Some err => mret (noRequeue, Some err)
  | None =>
  let items := TestResourceRequest_Items request in
  if negb (Z.of_nat (size resourceMap) =? len items) then
    r ← for_each (create_missing request resourceMap) items 0;
    match r with
    | inr result => mret result
    | inl _ => mret (after time.Second, None)
    end
  else if requiredCount =? len items then
    (* the error of this update is dropped *)
    err ← status_update KTestResourceRequest
            (request <| TestResourceRequest_State := TestResourceRequestReady |>);
    mret (noRequeue, None)
  else
    let? rel := getRelationship orelse err => mret (noRequeue, Some err) in
    if negb (IfExist (AcceptedRequests (Relationship_Status rel)) (request_ref request))
    then tryRequest rel request resourceMap
    else mret (after time.Second, None)
  end
  end
  end.

Definition reconcileReady (request : TestResourceRequest) : io (Result * option error) :=
  mret (noRequeue, None).

(** ** reconcileDeletion *)

Definition release_request (self : Ref) (status : RelationshipStatus) : RelationshipStatus :=
  let toCleanMachineKeys :=
    (filterb (fun '(machine, requestRef) => bool_decide (requestRef = self))
       (map_to_list (go_map (MachineLocks status)))).*1 in
  status <| AcceptedRequests ::= fun a => Remove a self |>
         <| MachineLocks ::= fun locks => fold_left go_delete toCleanMachineKeys locks |>.

Definition reconcileDeletion (resourceRequest : TestResourceRequest) : io (Result * option error) :=
  '(err, resources) ← listOwnedResources resourceRequest;
  match err with
  | Some err => mret (noRequeue, Some err)
  | None =>
  check removeAllResources resources orelse err => mret (noRequeue, Some err) in
  if negb (len resources =? 0) then mret (after time.Second, None)
  else
    let? rel := getRelationship orelse err => mret (noRequeue, Some err) in
    let rel := rel <| Relationship_Status ::= release_request (request_ref resourceRequest) |> in
    check status_update KRelationship rel orelse err => mret (noRequeue, Some err) in
    finalizers ← lift (Slice.StringsRemove
      (ObjectMeta_Finalizers (TestResourceRequest_ObjectMeta resourceRequest)) requestFinalizer);
    err ← update KTestResourceRequest
      (resourceRequest <| TestResourceRequest_ObjectMeta ::= fun m => m <| ObjectMeta_Finalizers := finalizers |> |>);
    mret (noRequeue, err)
  end.

Definition Reconcile (req : NamespacedName) : io (Result * option error) :=
  let? resourceRequest := get KTestResourceRequest req orelse err => mret (noRequeue, IgnoreNotFound err) in
  let meta := TestResourceRequest_ObjectMeta resourceRequest in
  let live := DeletionTimestamp_IsZero meta in
  let finalized := Slice.StringsContains (ObjectMeta_Finalizers meta) requestFinalizer in
  if live && negb finalized then
    err ← update KTestResourceRequest
      (resourceRequest <| TestResourceRequest_ObjectMeta ::= fun m =>
         m <| ObjectMeta_Finalizers := ObjectMeta_Finalizers m ++ [requestFinalizer] |> |>);
    mret (noRequeue, err)
  else if negb live && finalized then reconcileDeletion resourceRequest
  else
    match TestResourceRequest_State resourceRequest with
    | TestResourceRequestStateNone =>
        err ← status_update KTestResourceRequest
                (resourceRequest <| TestResourceRequest_State := TestResourceRequestPending |>);
        mret (mkResult (match err with None => true | Some _ => false end) 0, err)
    | TestResourceRequestPending => reconcilePending resourceRequest
    | TestResourceRequestReady => reconcileReady resourceRequest
    | TestResourceRequestStateOther _ => mret (noRequeue, None)
    end.

End Scheduler.
End Scheduler.
