(* ===== verification/SchedulerProofs.v ===== *)
(** * The request reconciler: proofs

    The bindings [tryRequest] makes: disjoint, on ready and unlocked machines, for all the
    items or for none; its updates of the relationship are ledger steps. *)

From S2P Require Import Prelude GoStd Util ApiTypes Prog World Machine Resource Relationship Scheduler.
Import Scheduler.

(** ** Picking CPUs and devices *)

Lemma pickCpuSet_sublist l i : pickCpuSet l i `sublist_of` l.
Proof. unfold pickCpuSet. destruct (_ <? _); [apply sublist_nil_l|apply sublist_take]. Qed.

Lemma pickCpuSet_length l i : i <= len l -> len (pickCpuSet l i) = Z.max 0 i.
Proof.
  intros H. unfold pickCpuSet. destruct (Z.ltb_spec (len l) i); [lia|].
  unfold len in *. rewrite length_take. lia.
Qed.

Section proofs.
Context {U : Units} {A : Machine.Allocator}.
Context (G : history -> call -> Prop) (HG : forall h ks, G h (RangeKeys ks)).

(** A device good for a disk: its kind, and at least its size. *)
Definition suits (disk : DiskSpec) (dr : DiskResource) : Prop :=
  DiskSpec_Kind disk = DiskResource_Kind dr /\
  exists want have, BytesSize.Unwrap (DiskSpec_Size disk) = Ret want /\
    BytesSize.Unwrap (DiskResource_Size dr) = Ret have /\ want <= have.

(** The binding of one of the asked disks to a suitable device of the machine. *)
Definition disk_fits (avail : gmap string DiskResource) (specs : gmap string DiskSpec)
    (name : string) (b : DiskBinding) : Prop :=
  exists disk dr, specs !! name = Some disk /\ avail !! DiskBinding_Device b = Some dr /\ suits disk dr /\
    b = mkDiskBinding (DiskSpec_Kind disk) (DiskResource_Size dr) (DiskBinding_Device b)
          (DiskResource_MountPath dr) (DiskSpec_MountPath disk).

Lemma find_device_in disk disks devices device r :
  find_device disk disks devices = Ret (Some (device, r)) -> disks !! device = Some r /\ suits disk r.
Proof.
  clear HG G.
  induction devices as [|d l IH]; simpl; [done|].
  destruct (disks !! d) as [dr|] eqn:Hd; [|done]. destruct (String.eqb_spec (DiskSpec_Kind disk) (DiskResource_Kind dr)); [|done].
  intros H. apply go_bind_Ret_inv in H as (want & Hwant & H).
  apply go_bind_Ret_inv in H as (have & Hhave & H).
  destruct (Z.leb_spec want have); [|by apply IH]. injection H as <- <-.
  split; [done|]. split; [done|]. eauto.
Qed.

(** Every binding made is of an asked disk to one of the machine's remaining devices. *)
Lemma bindDisks_devices specs names rest bound (avail : gmap string DiskResource) :
  (forall d dr, rest !! d = Some dr -> avail !! d = Some dr) ->
  (forall n b, bound !! n = Some b -> disk_fits avail specs n b) ->
  computes G (fun bound' : gmap string DiskBinding =>
      forall n b, bound' !! n = Some b -> disk_fits avail specs n b)
    (bindDisks specs names rest bound).
Proof.
  revert rest bound; induction names as [|name l IH]; intros rest bound Hrest Hbound.
  { by apply computes_ret. }
  cbn [bindDisks]. destruct (specs !! name) as [disk|] eqn:Hname; [|by apply IH].
  eapply computes_bind; [by apply computes_range_keys|]. intros devices _.
  eapply computes_bind.
  { apply (computes_lift G (fun r => forall device dr, r = Some (device, dr) ->
      rest !! device = Some dr /\ suits disk dr)).
    intros r Hr device dr ->. by eapply find_device_in. }
  intros [[device dr]|] Hd; [|by apply IH]. destruct (Hd device dr eq_refl) as [Hin Hsuits]. apply IH.
  - intros d x Hx. apply lookup_delete_Some in Hx as [_ Hx]. eauto.
  - intros n b. destruct (decide (name = n)) as [->|Hne].
    + rewrite lookup_insert_eq. intros [= <-]. exists disk, dr. simpl. auto.
    + rewrite lookup_insert_ne by done. apply Hbound.
Qed.

Definition fits (rest : AvailableResource) (spec : TestResourceSpec) (b : ResourceBinding) : Prop :=
  ResourceBinding_CPUSet b `sublist_of` AvailableResource_IdleCPUSet rest /\
  len (ResourceBinding_CPUSet b) = Z.max 0 (TestResourceSpec_Cores spec) /\
  ResourceBinding_Memory b = TestResourceSpec_Memory spec /\
  (exists have want, BytesSize.Unwrap (AvailableResource_Memory rest) = Ret have /\
     BytesSize.Unwrap (TestResourceSpec_Memory spec) = Ret want /\ want <= have) /\
  (size (TestResourceSpec_Disks spec) <= size (ResourceBinding_Disks b))%nat /\
  (forall n d, ResourceBinding_Disks b !! n = Some d ->
     disk_fits (AvailableResource_Disks rest) (TestResourceSpec_Disks spec) n d).

Lemma resourceOverflow_fits rest spec :
  computes G (fun r => forall b, r = Some b -> exists a, rest = Some a /\ fits a spec b)
    (resourceOverflow rest spec).
Proof.
  unfold resourceOverflow. destruct rest as [a|]; [|by apply computes_ret].
  eapply computes_bind; [by apply computes_range_keys|]. intros names _.
  eapply computes_bind.
  { apply (bindDisks_devices _ _ _ _ (AvailableResource_Disks a)); [done|].
    intros n b. by rewrite lookup_empty. }
  intros disks Hdisks. cbn beta zeta. case_goal; [by apply computes_ret|].
  eapply computes_bind; [apply computes_lift_eq|]. intros have Hhave.
  eapply computes_bind; [apply computes_lift_eq|]. intros want Hwant.
  simpl in Hhave, Hwant. destruct ((have <? want) || _) eqn:Hor; [by apply computes_ret|].
  apply computes_ret. intros b [= <-]. exists a. split; [done|].
  apply orb_false_iff in Hor as [Hmem Hcpu]. apply Z.ltb_ge in Hmem, Hcpu.
  match goal with H : (_ <? _) = false |- _ => apply Z.ltb_ge in H end.
  split; [apply pickCpuSet_sublist|]. split; [|split; [done|]; split; [by eauto|]].
  { apply pickCpuSet_length. simpl in Hcpu. unfold pickCpuSet in Hcpu.
    destruct (Z.ltb_spec (len (AvailableResource_IdleCPUSet a)) (TestResourceSpec_Cores spec)); [|done].
    change (len []) with 0 in Hcpu. pose proof (len_nonneg (AvailableResource_IdleCPUSet a)). lia. }
  split; [simpl; lia|]. exact Hdisks.
Qed.

(** ** Fitting a group on a machine *)

Lemma ref_devices_elem (r : ResourceRef) d :
  d ∈ Machine.ref_devices r <->
  exists n b, ResourceBinding_Disks (ResourceRef_Binding r) !! n = Some b /\ DiskBinding_Device b = d.
Proof.
  clear HG G.
  unfold Machine.ref_devices, Machine.devices_of, Machine.disk_bindings.
  rewrite list_elem_of_fmap. setoid_rewrite list_elem_of_fmap. split.
  - intros (b & -> & [n b'] & -> & Hin). apply elem_of_map_to_list in Hin. eauto.
  - intros (n & b & Hin & <-). exists b. split; [done|]. exists (n, b).
    split; [done|]. by apply elem_of_map_to_list.
Qed.

Lemma fresh_snoc m l new a spec ref b :
  Ledger.fresh l new -> Machine.Rest m (l ++ new) = Ret (Some a) -> fits a spec b ->
  Ledger.fresh l (new ++ [mkResourceRef ref b]).
Proof.
  clear HG G.
  intros (Hnd & Hpw & Hap) Hrest (Hcpus & _ & _ & _ & _ & Hdisks).
  pose proof (Machine.Rest_idle_NoDup _ _ _ Hrest) as Hidle.
  assert (Hnew : forall r, r ∈ l ++ new -> Ledger.apart r (mkResourceRef ref b)).
  { intros r Hr. split.
    - intros c Hc Hc'. eapply Machine.Rest_idle_free; [exact Hrest| |exact Hr|exact Hc].
      eapply elem_of_sublist; [exact Hc'|exact Hcpus].
    - intros d Hd (n & disk & Hn & <-)%ref_devices_elem.
      eapply Machine.Rest_disks_free; [exact Hrest| |exact Hr|exact Hd].
      destruct (Hdisks _ _ Hn) as (? & dr & _ & Hdr & _). by exists dr. }
  split; [|split].
  - apply Forall_app. split; [done|]. apply Forall_singleton. by eapply sublist_NoDup.
  - apply pairwise_app. split; [done|]. split; [simpl; set_solver|].
    intros r r' Hr ->%list_elem_of_singleton. apply Hnew. apply elem_of_app. by right.
  - intros r r' Hr [Hr'| ->%list_elem_of_singleton]%elem_of_app; [by apply Hap|].
    apply Hnew. apply elem_of_app. by left.
Qed.

(** Items are looked up by name in one map: a name has one resource. *)
Definition one_per_name (items : list (option TestResource)) : Prop :=
  forall r r', Some r ∈ items -> Some r' ∈ items -> TestResource_Name r = TestResource_Name r' -> r = r'.

(** What the loop of [tryBindResource] has so far. *)
Record fitted (l : ResourceRefList) (items seen : list (option TestResource))
    (new : ResourceRefList) (bindings : gmap string ResourceBinding) : Prop := {
  fitted_fresh : Ledger.fresh l new;
  fitted_new r : r ∈ new -> exists item, Some item ∈ items /\ ResourceRef_Ref r = resource_ref item;
  fitted_bindings name b : bindings !! name = Some b ->
    exists item r, Some item ∈ items /\ TestResource_Name item = name /\ r ∈ new /\
      ResourceRef_Ref r = resource_ref item /\ ResourceRef_Binding r = b;
  fitted_seen item : item ∈ seen -> exists r, item = Some r /\ is_Some (bindings !! TestResource_Name r) /\
      exists e, e ∈ new /\ ResourceRef_Ref e = resource_ref r;
}.

Lemma fit_items machine l items :
  computes G (fun r : ResourceRefList * gmap string ResourceBinding + unit =>
      match r with
      | inl (alloc, bindings) => exists new, alloc = l ++ new /\ fitted l items items new bindings
      | inr _ => True
      end)
    (for_each (fit_item machine) items (l, ∅)).
Proof.
  eapply computes_mono;
    [apply (computes_for_each G
       (fun seen '(alloc, bindings) => exists new, alloc = l ++ new /\ fitted l items seen new bindings)
       (fun _ => True))|by intros [[]|]].
  { exists []. rewrite app_nil_r. split; [done|].
    split; [by repeat constructor; set_solver|set_solver| |set_solver].
    intros name b. by rewrite lookup_empty. }
  intros seen item rest [alloc bindings] -> (new & -> & Hf). unfold fit_item.
  eapply computes_bind; [apply computes_lift_eq|].
  intros avail Hrest.
  eapply computes_bind; [apply computes_lift_eq|].
  intros it Hit. destruct item as [it'|]; [injection Hit as ->|done]. eapply computes_bind; [apply resourceOverflow_fits|]. intros [b|] Hb; [|by apply computes_ret].
  destruct (Hb b eq_refl) as (a & -> & Hfits). apply computes_ret.
  exists (new ++ [mkResourceRef (resource_ref it) b]). rewrite app_assoc. split; [done|].
  destruct Hf as [H1 H2 H3 H4]. split.
  - by eapply fresh_snoc.
  - intros r [Hr| ->%list_elem_of_singleton]%elem_of_app; [by apply H2|].
    exists it. split; [set_solver|done].
  - intros name b'. destruct (decide (TestResource_Name it = name)) as [<-|Hne].
    + rewrite lookup_insert_eq. intros [= <-]. exists it, (mkResourceRef (resource_ref it) b).
      repeat split; [set_solver|]. apply elem_of_app. right. by left.
    + rewrite lookup_insert_ne by done. intros (i & r & ? & ? & ? & ?)%H3.
      exists i, r. repeat split; [done..| |naive_solver|naive_solver]. apply elem_of_app. by left.
  - intros i [Hi| ->%list_elem_of_singleton]%elem_of_app.
    + destruct (H4 i Hi) as (r & -> & Hsome & e & He & Hre). exists r. split; [done|]. split.
      * destruct (decide (TestResource_Name it = TestResource_Name r)) as [->|];
          [by rewrite lookup_insert_eq|by rewrite lookup_insert_ne].
      * exists e. split; [apply elem_of_app; by left|done].
    + exists it. split; [done|]. rewrite lookup_insert_eq. split; [done|].
      eexists. split; [apply elem_of_app; right; by left|done].
Qed.

(** ** Recording the group *)

Lemma assign_resources_lookup machine bindings items rtm rtm' k :
  assign_resources machine bindings items rtm = Ret rtm' ->
  (forall item, item ∈ items -> exists r b, item = Some r /\ bindings !! TestResource_Name r = Some b) /\
  (items <> [] -> is_Some rtm) /\ (is_Some rtm -> is_Some rtm') /\
  ((forall r, Some r ∈ items -> Key (resource_ref r) <> k) /\ go_lookup rtm' k = go_lookup rtm k \/
   exists r b, Some r ∈ items /\ Key (resource_ref r) = k /\ bindings !! TestResource_Name r = Some b /\
     go_lookup rtm' k = Some (mkMachineRef (CreateRef (Machine_ObjectMeta machine)) b)).
Proof.
  clear HG G.
  unfold assign_resources. revert rtm; induction items as [|item items IH]; intros rtm.
  { intros [= ->]. split; [set_solver|]. split; [done|]. split; [done|]. left. split; [set_solver|done]. }
  cbn [go_fold]. intros H. apply go_bind_Ret_inv in H as (rtm1 & H1 & H).
  apply go_bind_Ret_inv in H1 as (r & Hr & H1). apply go_bind_Ret_inv in H1 as (b & Hb & H1).
  destruct item as [r'|]; [injection Hr as ->|done].
  destruct (bindings !! TestResource_Name r) as [b'|] eqn:Hbind; [injection Hb as ->|done].
  destruct rtm as [m|]; [|done]. injection H1 as <-.
  apply IH in H as (Hall & _ & Hsome & Hk). split; [|split; [|split]].
  - intros i [->|Hi]%elem_of_cons; [eauto|by apply Hall].
  - eauto.
  - intros _. apply Hsome. eauto.
  - destruct Hk as [[Hno Hk]|(r0 & b0 & Hin & Hkey & Hb0 & Hk)].
    + rewrite Hk. unfold go_lookup, go_map. simpl.
      destruct (decide (Key (resource_ref r) = k)) as [<-|Hne].
      * rewrite lookup_insert_eq. right. exists r, b. repeat split; [by left|done].
      * rewrite lookup_insert_ne by done. left. split; [|done].
        intros r1 [Heq|Hin]%elem_of_cons; [congruence|by apply Hno].
    + right. exists r0, b0. repeat split; [by right|done..].
Qed.

(** What a group's placement does to the relationship. *)
Record placed (s s' : RelationshipStatus) (machine : Machine) (items : list (option TestResource)) : Prop := {
  placed_step : Ledger.step s s';
  placed_same : MachineLocks s' = MachineLocks s /\ AcceptedRequests s' = AcceptedRequests s;
  placed_others key : key <> machine_key machine -> Ledger.entries s' key = Ledger.entries s key;
  placed_grows : exists new,
    Ledger.entries s' (machine_key machine) = Ledger.entries s (machine_key machine) ++ new;
  placed_bound item : item ∈ items -> exists r b, item = Some r /\
    go_lookup (ResourceToMachine s') (Key (resource_ref r)) =
      Some (mkMachineRef (CreateRef (Machine_ObjectMeta machine)) b);
  placed_bindings k : go_lookup (ResourceToMachine s') k = go_lookup (ResourceToMachine s) k \/
    exists r b, Some r ∈ items /\ Key (resource_ref r) = k /\
      go_lookup (ResourceToMachine s') k = Some (mkMachineRef (CreateRef (Machine_ObjectMeta machine)) b);
}.

Lemma place_group_placed rel machine new bindings items rel' :
  let s := Relationship_Status rel in
  fitted (Ledger.entries s (machine_key machine)) items items new bindings ->
  one_per_name items -> items <> [] ->
  place_group rel machine (Ledger.entries s (machine_key machine) ++ new) bindings items = Ret rel' ->
  placed s (Relationship_Status rel') machine items.
Proof.
  clear HG G.
  intros s [Hfresh Hnew Hbind Hseen] Hone Hne H. unfold place_group in H. fold s in H.
  apply go_bind_Ret_inv in H as (mtr & Hmtr & H). apply go_bind_Ret_inv in H as (rtm & Hrtm & H).
  injection H as <-. destruct (MachineToResources s) as [m|] eqn:Hm; [|done]. injection Hmtr as <-.
  pose proof (fun k => assign_resources_lookup _ _ _ _ _ k Hrtm) as Hlook.
  destruct (Hlook "") as (Hall & Hsome & Hsome' & _).
  destruct (ResourceToMachine s) as [r0|] eqn:Hr0; [|by destruct (Hsome Hne)].
  destruct rtm as [r1|]; [|by destruct Hsome' as [? [=]]]. clear Hsome Hsome'.
  (* an element of [new] has the reference of an item, and conversely *)
  assert (Hkeys : forall k, k ∈ ((fun r => Key (ResourceRef_Ref r)) <$> new) <->
            exists r, Some r ∈ items /\ Key (resource_ref r) = k).
  { intros k. rewrite list_elem_of_fmap. split.
    - intros (e & -> & He). destruct (Hnew e He) as (r & Hr & ->). eauto.
    - intros (r & Hr & <-). destruct (Hseen _ Hr) as (r' & [= <-] & _ & e & He & Hre).
      exists e. by rewrite Hre. }
  split.
  - apply (Ledger.step_bind s (CreateRef (Machine_ObjectMeta machine)) new m r0 r1); [done..|].
    split; intros k Hk; destruct (Hlook k) as (_ & _ & _ & Hcase).
    + destruct Hcase as [[_ Hcase]|(r & b & Hin & Hkey & _)]; [exact Hcase|].
      exfalso. apply Hk, Hkeys. eauto.
    + apply Hkeys in Hk as (r & Hr & Hk).
      destruct Hcase as [[Hno _]|(r' & b & Hin & Hkey & Hb & Hcase)]; [by destruct (Hno r)|].
      destruct (Hbind _ _ Hb) as (r'' & e & Hin'' & Hname & He & Hre & Hbe).
      assert (r'' = r') as -> by by apply Hone. exists e. rewrite Hre, Hbe. done.
  - done.
  - intros key Hk. unfold Ledger.entries, go_lookup, go_map. simpl. rewrite Hm. simpl.
    by rewrite lookup_insert_ne.
  - exists new. unfold Ledger.entries at 1, go_lookup, go_map. simpl. by rewrite lookup_insert_eq.
  - intros item Hi. destruct (Hall item Hi) as (r & b & -> & Hb).
    destruct (Hlook (Key (resource_ref r))) as (_ & _ & _ & [[Hno _]|(r' & b' & _ & _ & _ & Hk)]);
      [by destruct (Hno r)|]. eauto.
  - intros k. destruct (Hlook k) as (_ & _ & _ & [[_ Hk]|(r' & b' & Hin & Hkey & _ & Hk)]).
    + left. unfold go_lookup in *. simpl in *. by rewrite Hr0.
    + right. eauto.
Qed.

(** ** tryBindResource *)

Lemma tryBindResource_placed rel candidates group :
  one_per_name (Items group) -> Items group <> [] ->
  computes G (fun r : option (Machine * Relationship) =>
      match r with
      | Some (machine, rel') => machine ∈ candidates /\
          placed (Relationship_Status rel) (Relationship_Status rel') machine (Items group)
      | None => True
      end)
    (tryBindResource rel candidates group).
Proof.
  intros Hone Hne. induction candidates as [|machine l IH]; [by apply computes_ret|].
  cbn [tryBindResource]. rewrite Clone_id.
  eapply computes_bind; [apply (fit_items machine _ (Items group))|].
  intros [[alloc bindings]|[]] Hr.
  - destruct Hr as (new & -> & Hfit).
    eapply computes_bind; [apply computes_lift_eq|]. intros rel' Hplace. apply computes_ret.
    split; [by left|]. by eapply place_group_placed.
  - eapply computes_mono; [exact IH|]. intros [[m rel']|]; [|done].
    intros [Hin Hp]. split; [by right|done].
Qed.

(** ** Groups *)

Definition named_by_name (resourceMap : gmap string TestResource) : Prop :=
  forall n r, resourceMap !! n = Some r -> TestResource_Name r = n.

Abbreviation item_machine item := (TestResourceSpec_Machine (ResourceRequestItem_Spec item)).

(** Every element of a group is the resource of an item that asks for the group's machine. *)
Definition group_of (items : list ResourceRequestItem) (resourceMap : gmap string TestResource)
    (machine : string) (l : list (option TestResource)) : Prop :=
  l <> [] /\ forall x, x ∈ l -> exists item, item ∈ items /\
    x = resourceMap !! ResourceRequestItem_Name item /\ item_machine item = machine.

Lemma group_of_one_per_name items resourceMap machine l :
  named_by_name resourceMap -> group_of items resourceMap machine l -> one_per_name l.
Proof.
  clear HG G.
  intros Hn [_ H] r r' (i & _ & Hr & _)%H (i' & _ & Hr' & _)%H Hname.
  pose proof (Hn _ _ (eq_sym Hr)). pose proof (Hn _ _ (eq_sym Hr')). congruence.
Qed.

Lemma group_of_app items item resourceMap machine l :
  group_of items resourceMap machine l -> group_of (items ++ [item]) resourceMap machine l.
Proof.
  clear HG G.
  intros [Hne H]. split; [done|]. intros x (i & Hi & ?)%H. exists i. split; [|done]. set_solver.
Qed.

Definition grouped (resourceMap : gmap string TestResource) (items : list ResourceRequestItem)
    (acc : gmap string (list (option TestResource)) * list ItemGroup) : Prop :=
  (forall m l, acc.1 !! m = Some l -> m <> "" /\ group_of items resourceMap m l) /\
  (forall g, g ∈ acc.2 -> ExplicitMachine g = "" /\ group_of items resourceMap "" (Items g)) /\
  (forall item, item ∈ items ->
     (exists l, acc.1 !! item_machine item = Some l /\ resourceMap !! ResourceRequestItem_Name item ∈ l) \/
     (exists g, g ∈ acc.2 /\ resourceMap !! ResourceRequestItem_Name item ∈ Items g)).

Lemma groupCoLocatedItems_groups items resourceMap :
  computes G (fun groups : list ItemGroup =>
      (forall g, g ∈ groups -> group_of items resourceMap (ExplicitMachine g) (Items g)) /\
      (forall item, item ∈ items ->
         exists g, g ∈ groups /\ resourceMap !! ResourceRequestItem_Name item ∈ Items g))
    (groupCoLocatedItems items resourceMap).
Proof.
  unfold groupCoLocatedItems.
  match goal with |- context [fold_left ?f items ?s] =>
    assert (Hg : grouped resourceMap items (fold_left f items s)) end.
  { apply fold_left_seen.
    - split; [|split]; simpl; [intros m l; by rewrite lookup_empty|set_solver..].
    - intros seen item [named unnamed] (H1 & H2 & H3). cbn beta zeta iota.
      destruct (String.eqb_spec (item_machine item) "") as [He|He]; cbn [negb]; cbn iota; simpl in H1, H2, H3.
      + split; [|split]; cbn [fst snd].
        * intros m l Hl. split; [by eapply H1|]. by apply group_of_app, H1.
        * intros g [Hg| ->%list_elem_of_singleton]%elem_of_app.
          { split; [by apply H2|]. by apply group_of_app, H2. }
          split; [done|]. split; [done|]. intros x ->%list_elem_of_singleton.
          exists item. split; [set_solver|done].
        * intros i [[Hi|Hi]%H3| ->%list_elem_of_singleton]%elem_of_app; [by left| |].
          { right. destruct Hi as (g & ? & ?). exists g. set_solver. }
          right. eexists. split; [apply elem_of_app; right; by left|]. by left.
      + split; [|split]; cbn [fst snd].
        * intros m l. destruct (decide (item_machine item = m)) as [<-|Hne].
          { rewrite lookup_insert_eq. intros [= <-]. split; [done|]. split; [by destruct (default [] _)|].
            intros x [Hx| ->%list_elem_of_singleton]%elem_of_app; [|exists item; set_solver].
            destruct (named !! item_machine item) as [l|] eqn:Hl; simpl in Hx; [|set_solver].
            destruct (H1 _ _ Hl) as (_ & _ & Hgrp). destruct (Hgrp _ Hx) as (i & ? & ?).
            exists i. split; [set_solver|done]. }
          rewrite lookup_insert_ne by done. intros Hl. split; [by eapply H1|]. by apply group_of_app, H1.
        * intros g Hg. split; [by apply H2|]. by apply group_of_app, H2.
        * intros i [[Hi|Hi]%H3| ->%list_elem_of_singleton]%elem_of_app.
          { left. destruct Hi as (l & Hl & Hin). destruct (decide (item_machine item = item_machine i)) as [Heq|Hne].
            - rewrite Heq, lookup_insert_eq. eexists. split; [done|]. rewrite Hl. set_solver.
            - rewrite lookup_insert_ne by done. eauto. }
          { right. by destruct Hi as (g & ? & ?); exists g. }
          left. rewrite lookup_insert_eq. eexists. split; [done|]. set_solver. }
  destruct (fold_left _ items _) as [named unnamed]. destruct Hg as (H1 & H2 & H3).
  cbn [fst snd] in H1, H2, H3.
  eapply computes_bind; [by apply computes_range_keys|]. intros machines Hp. apply computes_ret.
  assert (Hk : forall m, m ∈ machines <-> is_Some (named !! m)).
  { intros m. rewrite <-fst_elem_of_map_to_list. by rewrite Hp. }
  split.
  - intros g [(m & -> & Hm)%list_elem_of_fmap|Hg]%elem_of_app; simpl.
    + apply Hk in Hm as [l Hl]. rewrite Hl. by apply H1.
    + destruct (H2 g Hg) as [-> ?]. done.
  - intros item [(l & Hl & Hin)|(g & Hg & Hin)]%H3.
    + exists (mkItemGroup (item_machine item) (default [] (named !! item_machine item))).
      split; [|simpl; by rewrite Hl]. apply elem_of_app. left. apply list_elem_of_fmap.
      eexists. split; [done|]. apply Hk. eauto.
    + exists g. split; [|done]. apply elem_of_app. by right.
Qed.

(** ** Machines *)

(** The machines of a book, as [getMachines] makes it. *)
Definition book_of (listed : list Machine) (book : gmap string Machine) : Prop :=
  forall k m, book !! k = Some m ->
    m ∈ listed /\ Machine_Name m = k /\ MachineStatus_State (Machine_Status m) = MachineReady.

Lemma book_of_fold listed :
  book_of listed (fold_left (fun book machine =>
    if bool_decide (MachineStatus_State (Machine_Status machine) = MachineReady)
    then <[Machine_Name machine := machine]> book else book) listed ∅).
Proof.
  clear HG G.
  apply fold_left_seen; [intros k m; by rewrite lookup_empty|].
  intros seen a book H k m. destruct (bool_decide_reflect
    (MachineStatus_State (Machine_Status a) = MachineReady)) as [Hr|Hr].
  - destruct (decide (Machine_Name a = k)) as [<-|Hne].
    + rewrite lookup_insert_eq. intros [= <-]. set_solver.
    + rewrite lookup_insert_ne by done. intros (? & ? & ?)%H. set_solver.
  - intros (? & ? & ?)%H. set_solver.
Qed.

(** Sorting keeps to the candidates and puts the explicitly requested machines first. *)
Definition explicit_first (explicit : gmap string Machine) (l : list Machine) : Prop :=
  StronglySorted (fun a b => is_Some (explicit !! Machine_Name b) ->
                             is_Some (explicit !! Machine_Name a)) l.

Lemma machine_less_explicit explicit rel a b :
  machine_less explicit rel b a = false ->
  is_Some (explicit !! Machine_Name b) -> is_Some (explicit !! Machine_Name a).
Proof.
  clear HG G.
  unfold machine_less. intros H Hb. rewrite (bool_decide_eq_true_2 _ Hb) in H.
  destruct (bool_decide_reflect (is_Some (explicit !! Machine_Name a))); [done|]. discriminate.
Qed.

Lemma sortMachines_spec all explicit rel :
  (forall h l, G h (ShuffleMachines l)) -> (forall h less l, G h (SortMachines less l)) ->
  computes G (fun l : list Machine =>
      (forall m, m ∈ l -> exists k, all !! k = Some m) /\ explicit_first explicit l)
    (sortMachines all explicit rel).
Proof.
  intros HG1 HG2. unfold sortMachines.
  eapply computes_bind; [by apply computes_range_keys|]. intros keys _. cbn zeta.
  eapply computes_bind.
  { by apply (computes_ask G (ShuffleMachines _) (fun l => l ≡ₚ omap (fun key => all !! key) keys)). }
  intros l Hl. eapply computes_mono.
  { by apply (computes_ask G (SortMachines _ _) (fun l' => l' ≡ₚ l /\
      StronglySorted (fun a b => machine_less explicit rel b a = false) l')). }
  intros l' [Hp Hs]. split.
  - intros m Hm. rewrite Hp, Hl in Hm. apply list_elem_of_omap in Hm as (k & _ & Hk). eauto.
  - unfold explicit_first. clear -Hs. induction Hs as [|a l Hs IH Ha]; constructor; [done|].
    eapply list.Forall_impl; [exact Ha|]. intros b Hb Hx. simpl in Hb. by apply (machine_less_explicit _ rel a b).
Qed.

Lemma selectNonLockMachines_lookup machines rel k m :
  selectNonLockMachines machines rel !! k = Some m <->
  machines !! k = Some m /\ go_lookup (MachineLocks (Relationship_Status rel)) k = None.
Proof.
  clear HG G. unfold selectNonLockMachines. by rewrite map_lookup_filter_Some. Qed.

(** ** The loop over the groups *)

Definition from_candidates (candidates : gmap string Machine) (l : list Machine) : Prop :=
  forall m, m ∈ l -> exists k, candidates !! k = Some m.

Lemma group_candidates_spec rel requests candidates sorted group l :
  from_candidates candidates sorted ->
  group_candidates rel requests candidates sorted group = Ret (inr l) ->
  from_candidates candidates l /\
  (forall b, is_exclusive requests group = Ret b -> b = true ->
     forall m, m ∈ l -> allocated_count rel m = 0).
Proof.
  clear HG G.
  intros Hsorted. unfold group_candidates, is_exclusive.
  destruct (String.eqb _ ""); [intros [= <-]; split; [done|by intros b [= <-]]|].
  destruct (requests !! ExplicitMachine group) as [mr|]; simpl; [|done].
  match goal with |- context [match ?e with inl _ => _ | inr _ => _ end] =>
    destruct e as [x|l0] eqn:Hl0; [done|] end.
  assert (Hl : from_candidates candidates l0).
  { destruct (String.eqb _ ""); [by injection Hl0 as <-|].
    destruct (candidates !! MachineRequest_TestMachineResource mr) as [m|] eqn:Hm; [|done].
    injection Hl0 as <-. intros m' ->%list_elem_of_singleton. eauto. }
  intros [= <-]. destruct (MachineRequest_Exclusive mr); (split; [|intros b [= <-] Hb; try done]).
  - intros m [Hm _]%elem_of_filterb. by apply Hl.
  - intros m [_ Hm]%elem_of_filterb. by apply Z.eqb_eq.
  - done.
Qed.

(** The state of the loop, against the relationship the request started from. *)
Record progress (base : RelationshipStatus) (candidates : gmap string Machine)
    (seen : list ItemGroup) (rel : Relationship) (locks : list string) : Prop := {
  progress_steps : Ledger.steps base (Relationship_Status rel);
  progress_locks : MachineLocks (Relationship_Status rel) = MachineLocks base;
  progress_accepted : AcceptedRequests (Relationship_Status rel) = AcceptedRequests base;
  progress_entries key :
    (exists new, Ledger.entries (Relationship_Status rel) key = Ledger.entries base key ++ new) /\
    (Ledger.entries (Relationship_Status rel) key = Ledger.entries base key \/
     exists k m, candidates !! k = Some m /\ machine_key m = key);
  progress_bound g item : g ∈ seen -> item ∈ Items g ->
    exists r, item = Some r /\
      is_Some (go_lookup (ResourceToMachine (Relationship_Status rel)) (Key (resource_ref r)));
  progress_bindings k :
    go_lookup (ResourceToMachine (Relationship_Status rel)) k = go_lookup (ResourceToMachine base) k \/
    exists g r n m b, g ∈ seen /\ Some r ∈ Items g /\ Key (resource_ref r) = k /\ candidates !! n = Some m /\
      go_lookup (ResourceToMachine (Relationship_Status rel)) k =
        Some (mkMachineRef (CreateRef (Machine_ObjectMeta m)) b);
  progress_tolock n : n ∈ locks ->
    exists k m, candidates !! k = Some m /\ Machine_Name m = n /\
      Ledger.entries base (machine_key m) = [];
}.

Lemma bind_group_progress base requests candidates sorted seen group rel locks :
  (forall h t r m, G h (RecordEvent t r m)) ->
  from_candidates candidates sorted -> one_per_name (Items group) -> Items group <> [] ->
  progress base candidates seen rel locks ->
  computes G (fun r : Relationship * list string + Result * option error =>
      match r with
      | inl (rel', locks') => progress base candidates (seen ++ [group]) rel' locks'
      | inr x => x = requeue10
      end)
    (bind_group requests candidates sorted (rel, locks) group).
Proof.
  intros HGe Hsorted Hone Hne [P1 P2 P3 P4 P5 P7 P6]. unfold bind_group.
  eapply computes_bind; [apply computes_lift_eq|]. intros [name|l] Hl.
  { eapply computes_bind; [by apply (computes_ask G (RecordEvent _ _ _) (fun _ => True))|].
    intros _ _. by apply computes_ret. }
  apply group_candidates_spec in Hl as [Hl Hexcl]; [|done].
  eapply computes_bind; [by apply tryBindResource_placed|]. intros [[machine rel']|] Hp.
  2:{ eapply computes_bind; [by apply (computes_ask G (RecordEvent _ _ _) (fun _ => True))|].
      intros _ _. by apply computes_ret. }
  destruct Hp as [Hm [Q1 [Q2 Q2'] Q3 Q4 Q5 Q6]]. destruct (Hl machine Hm) as (k & Hk).
  eapply computes_bind; [apply computes_lift_eq|]. intros exclusive Hex. apply computes_ret.
  assert (Hentries : forall key,
    (exists new, Ledger.entries (Relationship_Status rel') key = Ledger.entries base key ++ new) /\
    (Ledger.entries (Relationship_Status rel') key = Ledger.entries base key \/
     exists k m, candidates !! k = Some m /\ machine_key m = key)).
  { intros key. destruct (P4 key) as [[new Hnew] Hor]. destruct (decide (key = machine_key machine)) as [->|Hkey].
    - split; [|right; by eauto]. destruct Q4 as [new' Hnew']. exists (new ++ new').
      by rewrite Hnew', Hnew, app_assoc.
    - rewrite (Q3 _ Hkey). by eauto. }
  split; [by eapply rtc_r|congruence|congruence|exact Hentries| | |].
  - intros g item [Hg| ->%list_elem_of_singleton]%elem_of_app Hi.
    + destruct (P5 g item Hg Hi) as (r & -> & Hr). exists r. split; [done|].
      destruct (Q6 (Key (resource_ref r))) as [->|(r' & b & _ & _ & ->)]; eauto.
    + destruct (Q5 item Hi) as (r & b & -> & Hr). exists r. split; [done|]. rewrite Hr. eauto.
  - intros key. destruct (Q6 key) as [Heq|(r & b & Hr & Hkey & Heq)].
    + rewrite Heq. destruct (P7 key) as [?|(g & r & n & m & b & Hg & ?)]; [by left|right].
      exists g, r, n, m, b. split; [set_solver|done].
    + right. exists group, r, k, machine, b. split; [set_solver|done].
  - intros n Hn. destruct exclusive; [|by apply P6].
    apply elem_of_app in Hn as [Hn| ->%list_elem_of_singleton]; [by apply P6|].
    exists k, machine. split; [done|]. split; [done|].
    pose proof (Hexcl true Hex eq_refl machine Hm) as Hz. apply len_zero in Hz.
    destruct (P4 (machine_key machine)) as [[new Hnew] _].
    assert (Hnil : Ledger.entries (Relationship_Status rel) (machine_key machine) = []) by exact Hz.
    rewrite Hnil in Hnew. symmetry in Hnew. by apply app_eq_nil in Hnew as [? _].
Qed.

(** ** tryRequest *)

Lemma lock_machines_spec names self locks locks' :
  lock_machines names self locks = Ret locks' ->
  forall n, go_lookup locks' n = if decide (n ∈ names) then Some self else go_lookup locks n.
Proof.
  clear HG G.
  unfold lock_machines. revert locks; induction names as [|m names IH]; intros locks.
  - intros [= ->] n. by rewrite decide_False by set_solver.
  - cbn [go_fold]. intros H n. apply go_bind_Ret_inv in H as (locks1 & H1 & H).
    destruct locks as [l|]; [|done]. injection H1 as <-. rewrite (IH _ H n).
    destruct (decide (n ∈ names)) as [Hin|Hin]; [by rewrite decide_True by set_solver|].
    unfold go_lookup, go_map. simpl. destruct (decide (m = n)) as [->|Hne].
    + rewrite lookup_insert_eq. by rewrite decide_True by set_solver.
    + rewrite lookup_insert_ne by done. by rewrite decide_False by set_solver.
Qed.

Lemma lock_machines_steps names self (s : RelationshipStatus) locks' :
  (forall n, n ∈ names -> go_lookup (MachineLocks s) n = None \/ go_lookup (MachineLocks s) n = Some self) ->
  lock_machines names self (MachineLocks s) = Ret locks' ->
  Ledger.steps s (s <| MachineLocks := locks' |>).
Proof.
  clear HG G.
  unfold lock_machines. revert s; induction names as [|m names IH]; intros s Hfree.
  - intros [= <-]. destruct s. apply rtc_refl.
  - cbn [go_fold]. intros H. apply go_bind_Ret_inv in H as (locks1 & H1 & H).
    destruct (MachineLocks s) as [l|] eqn:Hl; [|done]. injection H1 as <-.
    eapply rtc_l.
    { apply (Ledger.step_lock s m self l Hl). apply (Hfree m). by left. }
    refine (IH (s <| MachineLocks := Some (<[m := self]> l) |>) _ H).
    intros n Hn. unfold go_lookup, go_map. simpl. destruct (decide (m = n)) as [->|Hne].
    + right. by rewrite lookup_insert_eq.
    + rewrite lookup_insert_ne by done. apply (Hfree n). by right.
Qed.
End proofs.

(** A machine of the latest [List], ready when it was listed. *)
Definition listed_ready (h : history) (m : Machine) : Prop :=
  MachineStatus_State (Machine_Status m) = MachineReady /\
  happened (fun c => match c return answer c -> Prop with
                     | List KMachine _ _ => fun r => m ∈ r.2
                     | _ => fun _ => False
                     end) h.

(** What an accepted request may do to the relationship: [s] is what was read. *)
Record acceptance (h : history) (request : TestResourceRequest)
    (resourceMap : gmap string TestResource) (s s' : RelationshipStatus) : Prop := {
  acceptance_steps : Ledger.steps s s';
  acceptance_accepted :
    AcceptedRequests s' = Some (default [] (AcceptedRequests s) ++ [request_ref request]);
  acceptance_all item : item ∈ TestResourceRequest_Items request ->
    exists r, resourceMap !! ResourceRequestItem_Name item = Some r /\
      is_Some (go_lookup (ResourceToMachine s') (Key (resource_ref r)));
  acceptance_new : IfExist (AcceptedRequests s) (request_ref request) = false;
  acceptance_bindings k : go_lookup (ResourceToMachine s') k = go_lookup (ResourceToMachine s) k \/
    exists n r m b, resourceMap !! n = Some r /\ Key (resource_ref r) = k /\ listed_ready h m /\
      go_lookup (ResourceToMachine s') k = Some (mkMachineRef (CreateRef (Machine_ObjectMeta m)) b);
  acceptance_machines key : Ledger.entries s' key <> Ledger.entries s key ->
    exists m, machine_key m = key /\ listed_ready h m /\
      go_lookup (MachineLocks s) (Machine_Name m) = None;
  acceptance_locks name : go_lookup (MachineLocks s') name <> go_lookup (MachineLocks s) name ->
    go_lookup (MachineLocks s) name = None /\
    go_lookup (MachineLocks s') name = Some (request_ref request) /\
    exists m, Machine_Name m = name /\ listed_ready h m /\ Ledger.entries s (machine_key m) = [];
  acceptance_kept key : exists new, Ledger.entries s' key = Ledger.entries s key ++ new;
}.

(** The guard of [tryRequest], called with history [h0]: the only object it writes is the
    relationship, and only so. *)
Definition accept_guard (h0 : history) (request : TestResourceRequest)
    (resourceMap : gmap string TestResource) (h : history) (c : call) : Prop :=
  match c with
  | StatusUpdate KRelationship o =>
      extends h0 h /\
      acceptance h request resourceMap (last_relationship h) (Relationship_Status o)
  | StatusUpdate _ _ | Update _ _ | Create _ _ | Delete _ _ => False
  | _ => True
  end.

Lemma requested_machines_ok machines requests :
  match requested_machines machines requests with
  | inl _ => True
  | inr (_, explicit) => forall k m, explicit !! k = Some m -> machines !! k = Some m
  end.
Proof.
  unfold requested_machines. apply (fold_left_seen (fun _ r => match r with
    | inl _ => True
    | inr (_, explicit) => forall k m, explicit !! k = Some m -> machines !! k = Some m end)).
  { intros k m. by rewrite lookup_empty. }
  intros _ a [e|[rm ex]] H; [done|]. destruct (String.eqb _ ""); [done|].
  destruct (machines !! _) as [m0|] eqn:Hm0; [|done]. intros k m.
  destruct (decide (MachineRequest_TestMachineResource a = k)) as [<-|Hne].
  - rewrite lookup_insert_eq. by intros [= <-].
  - rewrite lookup_insert_ne by done. apply H.
Qed.

Section tryRequest.
Context {U : Units} {A : Machine.Allocator}.

Lemma tryRequest_accepts rel request resourceMap h :
  named_by_name resourceMap -> last_relationship h = Relationship_Status rel ->
  IfExist (AcceptedRequests (Relationship_Status rel)) (request_ref request) = false ->
  wp admissible (accept_guard h request resourceMap) (tryRequest rel request resourceMap) h (fun _ _ => True).
Proof.
  intros Hnamed Hlast Hfresh. unfold tryRequest. apply wp_bind. unfold getMachines, list_objs.
  cbn [wp mbind prog_bind_inst prog_bind ask mret prog_ret_inst]. split; [done|].
  intros [[err|] items] _; cbn [wp prog_bind mret prog_ret_inst]; [done|].
  set (h1 := Event (List KMachine None None) (None, items) :: h).
  match goal with |- context [requested_machines ?b] => set (machines := b) end.
  assert (Hbook : book_of items machines) by apply book_of_fold.
  destruct (requested_machines machines _) as [err|[requests explicit]]; [done|].
  set (base := Relationship_Status rel).
  set (candidates := selectNonLockMachines machines rel).
  set (G := accept_guard h request resourceMap).
  assert (Hcand : forall k m, candidates !! k = Some m ->
    m ∈ items /\ Machine_Name m = k /\ MachineStatus_State (Machine_Status m) = MachineReady /\
    go_lookup (MachineLocks base) k = None).
  { intros k m (Hm & Hk)%selectNonLockMachines_lookup. apply Hbook in Hm as (? & ? & ?). done. }
  apply wp_bind. eapply wp_mono; [by apply (groupCoLocatedItems_groups G)|].
  intros h2 [groups|] [Hext2 Hgroups]; [|done].
  apply wp_bind. eapply wp_mono; [by apply (sortMachines_spec G)|].
  intros h3 [sorted|] [Hext3 Hsorted]; [|done]. destruct Hsorted as [Hsorted _].
  destruct Hgroups as [Hgrp Hall].
  apply wp_bind. eapply wp_mono.
  { apply (computes_for_each G
      (fun seen '(rel', locks) => progress base candidates seen rel' locks) (fun _ => True)).
    - split; [apply rtc_refl|done..| |set_solver|by left|set_solver].
      intros key. split; [exists []; by rewrite app_nil_r|by left].
    - intros seen g rest [rel' locks] Hg Hp. eapply computes_mono.
      + apply (bind_group_progress G); [done|done|exact Hsorted| | |exact Hp].
        * eapply group_of_one_per_name; [done|]. apply Hgrp. rewrite Hg. set_solver.
        * apply Hgrp. rewrite Hg. set_solver.
      + by intros [[]|]. }
  intros h4 [[[rel' locks]|x]|e] [Hext4 Hp]; [|done..].
  assert (Hext : extends h1 h4) by (etrans; [|exact Hext4]; by etrans).
  assert (Hlast4 : last_relationship h4 = base) by by rewrite (proj1 Hext).
  assert (Hready : forall k m, candidates !! k = Some m -> listed_ready h4 m).
  { intros k m (Hin & _ & Hr & _)%Hcand. split; [done|]. apply (proj1 (proj2 Hext)), happened_here. done. }
  destruct Hp as [P1 P2 P3 P4 P5 P7 P6].
  apply wp_bind, wp_lift. rewrite P2.
  destruct (lock_machines locks _ (MachineLocks base)) as [locks'|e] eqn:Hlocks; [|done].
  unfold status_update. cbn [wp mbind prog_bind_inst prog_bind ask mret prog_ret_inst].
  split; [|done]. cbn [accept_guard G]. rewrite Hlast4. split.
  { etrans; [|exact Hext]. split; [done|]. split; [by intros; apply happened_later|done]. }
  pose proof (lock_machines_spec _ _ _ _ Hlocks) as Hlook.
  assert (Hfree : forall n, n ∈ locks -> go_lookup (MachineLocks base) n = None).
  { intros n (k & m & Hk & Hn & _)%P6. apply Hcand in Hk as (_ & Hname & _ & Hl). congruence. }
  split.
  - etrans; [exact P1|]. eapply rtc_r.
    { apply (lock_machines_steps locks (request_ref request) (Relationship_Status rel') locks');
        [|by rewrite P2]. rewrite P2. intros n Hn. left. by apply Hfree. }
    exact (Ledger.step_accept ((Relationship_Status rel') <| MachineLocks := locks' |>) (request_ref request)).
  - simpl. by rewrite P3.
  - intros item Hi. destruct (Hall item Hi) as (g & Hg & Hin).
    destruct (P5 g _ Hg Hin) as (r & Hr & Hsome). exists r. done.
  - done.
  - intros key. destruct (P7 key) as [?|(g & r & n & m & b & Hg & Hin & Hkey & Hm & Heq)]; [by left|right].
    destruct (Hgrp g Hg) as [_ Hof]. destruct (Hof _ Hin) as (item & _ & Hr & _).
    exists (ResourceRequestItem_Name item), r, m, b. split; [done|]. split; [done|]. split; [by eapply Hready|done].
  - intros key Hne. destruct (P4 key) as [_ [Heq|(k & m & Hk & Hm)]]; [by destruct Hne|].
    exists m. split; [done|]. split; [by eapply Hready|].
    apply Hcand in Hk as (_ & -> & _ & Hl). done.
  - intros name. simpl. rewrite Hlook. destruct (decide (name ∈ locks)) as [Hin|Hin]; [|by intros []].
    intros _. split; [by apply Hfree|]. split; [done|]. destruct (P6 _ Hin) as (k & m & Hk & Hn & He).
    exists m. split; [done|]. split; [by eapply Hready|done].
  - intros key. apply (P4 key).
Qed.
End tryRequest.

(** ** Release *)

Lemma fold_go_delete keys (locks : gomap Ref) n :
  go_lookup (fold_left go_delete keys locks) n = if decide (n ∈ keys) then None else go_lookup locks n.
Proof.
  revert locks; induction keys as [|k keys IH]; intros locks; [done|].
  cbn [fold_left]. rewrite IH. destruct (decide (n ∈ keys)) as [Hin|Hin].
  - by rewrite decide_True by set_solver.
  - unfold go_lookup, go_delete, go_map. destruct locks as [m|]; simpl.
    + destruct (decide (k = n)) as [->|Hne].
      * rewrite lookup_delete_eq. by rewrite decide_True by set_solver.
      * rewrite lookup_delete_ne by done. by rewrite decide_False by set_solver.
    + by destruct (decide _).
Qed.

Lemma fold_go_delete_None keys (locks : gomap Ref) :
  fold_left go_delete keys locks = None <-> locks = None.
Proof.
  revert locks; induction keys as [|k keys IH]; intros locks; [done|]. cbn [fold_left].
  rewrite IH. by destruct locks.
Qed.

(** Releasing is the ledger's release: the keys collected first are those of the request. *)
Lemma release_request_step self s :
  release_request self s =
  s <| AcceptedRequests ::= fun a => Remove a self |>
    <| MachineLocks ::= fmap (filter (fun kv : string * Ref => kv.2 <> self)) |>.
Proof.
  unfold release_request. destruct s as [mtr rtm acc locks]. cbn. f_equal.
  match goal with |- fold_left go_delete ?keys _ = _ => set (ks := keys) end.
  destruct locks as [l|]; [|by apply fold_go_delete_None].
  destruct (fold_left go_delete ks (Some l)) as [l'|] eqn:Hl'; [|by apply fold_go_delete_None in Hl'].
  simpl. f_equal. apply map_eq. intros n.
  pose proof (fold_go_delete ks (Some l) n) as H. rewrite Hl' in H.
  unfold go_lookup, go_map in H. simpl in H. rewrite H.
  assert (Hks : n ∈ ks <-> l !! n = Some self).
  { unfold ks. rewrite list_elem_of_fmap. split.
    - intros ([n' r] & -> & [Hin Hr]%elem_of_filterb). apply elem_of_map_to_list in Hin.
      apply bool_decide_eq_true in Hr. simpl in *. by subst.
    - intros Hn. exists (n, self). split; [done|]. apply elem_of_filterb.
      split; [by apply elem_of_map_to_list|by apply bool_decide_eq_true]. }
  destruct (decide (n ∈ ks)) as [Hin|Hin].
  - symmetry. apply map_lookup_filter_None. right. intros r Hr. apply Hks in Hin.
    rewrite Hin in Hr. injection Hr as <-. simpl. by intros [].
  - symmetry. destruct (l !! n) as [r|] eqn:Hn.
    + apply map_lookup_filter_Some. split; [done|]. simpl. intros ->. by apply Hin, Hks.
    + apply map_lookup_filter_None. by left.
Qed.

(** ** The other stretches of the handler *)

Lemma note_resources_spec request resources (G : history -> call -> Prop) :
  (forall h t r m, G h (RecordEvent t r m)) ->
  computes G (fun r : gmap string TestResource * Z + Result * option error =>
      match r with
      | inl (resourceMap, requiredCount) =>
          named_by_name resourceMap /\
          (forall n r, resourceMap !! n = Some r -> r ∈ resources) /\
          requiredCount = len (filterb (fun r => IsRequired (TestResource_State r)) resources) /\
          (forall r, r ∈ resources -> exists owner,
             ObjectMeta_Controller (TestResource_ObjectMeta r) = Some owner /\
             OwnerReference_UID owner = ObjectMeta_UID (TestResourceRequest_ObjectMeta request)) /\
          (NoDup (TestResource_Name <$> resources) -> Z.of_nat (size resourceMap) = len resources)
      | inr x => x = requeue10
      end)
    (for_each (note_resource request) resources (∅, 0)).
Proof.
  intros HGe. eapply computes_mono;
    [apply (computes_for_each G (fun seen '(resourceMap, requiredCount) =>
       named_by_name resourceMap /\ (forall n r, resourceMap !! n = Some r -> r ∈ seen) /\
       requiredCount = len (filterb (fun r => IsRequired (TestResource_State r)) seen) /\
       (forall r, r ∈ seen -> exists owner,
          ObjectMeta_Controller (TestResource_ObjectMeta r) = Some owner /\
          OwnerReference_UID owner = ObjectMeta_UID (TestResourceRequest_ObjectMeta request)) /\
       (NoDup (TestResource_Name <$> seen) -> Z.of_nat (size resourceMap) = len seen))
       (fun x => x = requeue10))|by intros [[rm n]|x]].
  { split; [by intros n r; rewrite lookup_empty|].
    split; [by intros n r; rewrite lookup_empty|]. split; [done|].
    split; [set_solver|]. done. }
  intros seen item rest [rm n] _ (H1 & H2 & -> & H4 & H5). unfold note_resource.
  set (owned := match ObjectMeta_Controller _ with None => _ | Some _ => _ end).
  destruct owned eqn:Howned; subst owned; cbn [negb]; cbn iota.
  2:{ eapply computes_bind; [by apply (computes_ask G (RecordEvent _ _ _) (fun _ => True))|].
      intros _ _. by apply computes_ret. }
  apply computes_ret. split; [|split; [|split; [|split]]].
  - intros k r. destruct (decide (TestResource_Name item = k)) as [<-|Hne].
    + rewrite lookup_insert_eq. by intros [= <-].
    + rewrite lookup_insert_ne by done. apply H1.
  - intros k r. destruct (decide (TestResource_Name item = k)) as [<-|Hne].
    + rewrite lookup_insert_eq. intros [= <-]. set_solver.
    + rewrite lookup_insert_ne by done. intros ?%H2. set_solver.
  - rewrite filterb_app. unfold len. rewrite length_app. cbn [filterb List.filter].
    destruct (IsRequired _); simpl; lia.
  - intros r [Hr| ->%list_elem_of_singleton]%elem_of_app; [by apply H4|].
    destruct (ObjectMeta_Controller _) as [owner|]; [|done]. apply String.eqb_eq in Howned. eauto.
  - rewrite fmap_app. intros (Hnd & Hni & _)%list.NoDup_app.
    rewrite map_size_insert_None.
    + specialize (H5 Hnd). unfold len in *. rewrite length_app. simpl. lia.
    + destruct (rm !! TestResource_Name item) as [r|] eqn:Hr; [|done]. exfalso.
      apply (Hni (TestResource_Name item)); [|simpl; set_solver].
      rewrite <-(H1 _ _ Hr). apply list_elem_of_fmap. exists r. split; [done|]. by eapply H2.
Qed.

Lemma create_missing_spec request resourceMap items (G : history -> call -> Prop) :
  (forall h o r, G h (SetControllerReference o r)) -> (forall h r, G h (Create KTestResource r)) ->
  computes G (fun _ => True) (for_each (create_missing request resourceMap) items 0).
Proof.
  intros HG1 HG2. eapply computes_mono; [apply (computes_for_each G (fun _ _ => True) (fun _ => True))|done].
  { done. }
  intros seen item rest idx _ _. unfold create_missing. case_goal; [by apply computes_ret|].
  eapply computes_bind; [apply computes_lift_eq|]. intros tr _.
  eapply computes_bind; [by apply (computes_ask G (SetControllerReference _ _) (fun _ => True))|].
  intros [e|tr'] _; [by apply computes_ret|].
  eapply computes_bind; [by apply (computes_ask G (Create KTestResource _) (fun _ => True))|].
  intros [e|o] _; [|by apply computes_ret]. destruct (IsAlreadyExists e); by apply computes_ret.
Qed.

Lemma removeAllResources_spec resources (G : history -> call -> Prop) h :
  (forall h r, G h (Delete KTestResource r)) ->
  wp admissible G (removeAllResources resources) h (fun h' r => extends h h' /\ returns r).
Proof.
  intros HG. revert h. induction resources as [|r l IH]; intros h.
  { split; [done|by eexists]. }
  cbn [removeAllResources wp mbind prog_bind_inst prog_bind ask]. split; [apply HG|]. intros e _.
  set (h1 := Event _ e :: h).
  assert (Hext : extends h h1) by by split; [|split; [by intros; apply happened_later|]].
  destruct ((e : option error) ≫= IgnoreNotFound); [by split; [|eexists]|].
  eapply wp_mono; [apply IH|]. intros h2 x [Hext2 Hx]. split; [by etrans|done].
Qed.
