(* ===== verification/SchedulerTheorems.v ===== *)
(** * The request reconciler: its contract

    What [Scheduler.Reconcile] promises of every write it makes, whatever the services answer. *)

From S2P Require Import Prelude GoStd Util ApiTypes Prog World Machine Resource Relationship.
From S2P Require Import Scheduler SchedulerProofs.
Import Scheduler.

Section contract.
Context {U : Units} {A : Machine.Allocator}.

(** A list of the resources of the request's namespace was answered with [l]. *)
Definition resources_listed (request : TestResourceRequest) (owner : option string)
    (l : list TestResource) : history -> Prop :=
  happened (fun c => match c return answer c -> Prop with
    | List KTestResource ns owner' => fun r =>
        ns = Some (ObjectMeta_Namespace (TestResourceRequest_ObjectMeta request)) /\
        owner' = owner /\ r = (None, l)
    | _ => fun _ => False
    end).

(** The request is being deleted, and not yet let go of. *)
Definition deleting (request : TestResourceRequest) : bool :=
  negb (DeletionTimestamp_IsZero (TestResourceRequest_ObjectMeta request)) &&
  Slice.StringsContains (ObjectMeta_Finalizers (TestResourceRequest_ObjectMeta request)) requestFinalizer.

(** The resource is the request's. *)
Definition controlled_by (request : TestResourceRequest) (r : TestResource) : Prop :=
  exists owner, ObjectMeta_Controller (TestResource_ObjectMeta r) = Some owner /\
    OwnerReference_UID owner = ObjectMeta_UID (TestResourceRequest_ObjectMeta request).

(** The relationship was stored without the request. *)
Definition released (request : TestResourceRequest) : history -> Prop :=
  happened (fun c => match c return answer c -> Prop with
    | StatusUpdate KRelationship o => fun r =>
        (exists x, r = inr x) /\
        IfExist (AcceptedRequests (Relationship_Status o)) (request_ref request) = false /\
        forall n, go_lookup (MachineLocks (Relationship_Status o)) n <> Some (request_ref request)
    | _ => fun _ => False
    end).

Definition relationship_guard (h : history) (c : call) : Prop :=
  match c with
  | StatusUpdate KRelationship o =>
      exists request, last_got KTestResourceRequest h = Some request /\
        ((exists l resourceMap, resources_listed request None l h /\
            (deleting request = false /\ TestResourceRequest_State request = TestResourceRequestPending) /\
            (forall n r, resourceMap !! n = Some r ->
               r ∈ l /\ TestResource_Name r = n /\ controlled_by request r) /\
            acceptance h request resourceMap (last_relationship h) (Relationship_Status o)) \/
         (resources_listed request
            (Some (ObjectMeta_Name (TestResourceRequest_ObjectMeta request))) [] h /\
          deleting request = true /\
          Relationship_Status o = release_request (request_ref request) (last_relationship h)))
  | Update KRelationship _ | Create KRelationship _ | Delete KRelationship _ => False
  | _ => True
  end.

Definition ready_guard (h : history) (c : call) : Prop :=
  match c with
  | StatusUpdate KTestResourceRequest o =>
      exists request, last_got KTestResourceRequest h = Some request /\
      match TestResourceRequest_State request, TestResourceRequest_State o with
      | TestResourceRequestStateNone, TestResourceRequestPending => True
      | TestResourceRequestPending, TestResourceRequestReady =>
          exists l, resources_listed request None l h /\
            (forall r, r ∈ l -> controlled_by request r) /\
            len (filterb (fun r => IsRequired (TestResource_State r)) l) = len (TestResourceRequest_Items request) /\
            (NoDup (TestResource_Name <$> l) -> forall r, r ∈ l -> IsRequired (TestResource_State r) = true)
      | _, _ => False
      end
  | StatusUpdate KTestResource _ | Update KTestResource _ => False
  | _ => True
  end.

Definition finalizer_guard (h : history) (c : call) : Prop :=
  match c with
  | Update KTestResourceRequest o =>
      exists request, last_got KTestResourceRequest h = Some request /\
      (requestFinalizer ∈ ObjectMeta_Finalizers (TestResourceRequest_ObjectMeta o) \/
       (DeletionTimestamp_IsZero (TestResourceRequest_ObjectMeta request) = false /\
        resources_listed request
          (Some (ObjectMeta_Name (TestResourceRequest_ObjectMeta request))) [] h /\
        released request h))
  | Create KTestResourceRequest _ | Delete KTestResourceRequest _ => False
  | _ => True
  end.

Definition contract (h : history) (c : call) : Prop :=
  relationship_guard h c /\ ready_guard h c /\ finalizer_guard h c.

Lemma filterb_full {B} (p : B -> bool) l : len (filterb p l) = len l -> forall x, x ∈ l -> p x = true.
Proof.
  induction l as [|a l IH]; intros H x; [set_solver|]. unfold filterb in *. simpl in H.
  pose proof (filterb_length p l) as Hle. unfold filterb in Hle.
  destruct (p a) eqn:Ha; rewrite ?len_cons in H; [|lia].
  intros [->|Hx]%elem_of_cons; [done|]. apply IH; [lia|done].
Qed.

Lemma filterb_len_NoDup request l (rm : gmap string TestResource) :
  (NoDup (TestResource_Name <$> l) -> Z.of_nat (size rm) = len l) ->
  Z.of_nat (size rm) = len (TestResourceRequest_Items request) ->
  len (filterb (fun r => IsRequired (TestResource_State r)) l) = len (TestResourceRequest_Items request) ->
  NoDup (TestResource_Name <$> l) -> forall r, r ∈ l -> IsRequired (TestResource_State r) = true.
Proof. intros H1 H2 H3 Hnd r Hr. specialize (H1 Hnd). eapply (filterb_full (fun r => IsRequired (TestResource_State r)) l); [lia|done]. Qed.

Lemma reconcilePending_contract request h :
  last_got KTestResourceRequest h = Some request ->
  TestResourceRequest_State request = TestResourceRequestPending -> deleting request = false ->
  wp admissible contract (reconcilePending request) h (fun _ _ => True).
Proof.
  intros Hgot Hstate Hlive. unfold reconcilePending, listResources, listOwnedResources, list_objs.
  set (c1 := List KTestResource _ None).
  cbn [wp mbind prog_bind_inst prog_bind ask]. split; [done|]. intros [[err|] l] _; [done|].
  cbn [prog_bind]. set (h1 := Event c1 (None, l) :: h).
  apply wp_bind. eapply wp_mono; [by apply (note_resources_spec request l contract)|].
  intros h2 [[[rm n]|x]|e] [Hext2 Hr]; [|done..].
  destruct Hr as (Hnamed & Hin & -> & Howned & Hsize).
  assert (Hl2 : resources_listed request None l h2).
  { apply (proj1 (proj2 Hext2)), happened_here. done. }
  assert (Hgot2 : last_got KTestResourceRequest h2 = Some request).
  { by rewrite (proj2 (proj2 Hext2)). }
  clear Hext2. cbn [wp mbind prog_bind_inst prog_bind ask]. split; [done|]. intros [[err|] l'] _; [done|].
  match goal with |- context [Event ?c _ :: h2] => set (h3 := Event c (None, l') :: h2) end.
  assert (Hl3 : resources_listed request None l h3) by by apply happened_later.
  cbn [prog_bind]. destruct (Z.of_nat (size rm) =? _) eqn:Hsz; cbn [negb].
  2:{ apply wp_bind. eapply wp_mono; [by apply (create_missing_spec request rm _ contract)|].
      intros h4 [[x|x]|e] _; done. }
  apply Z.eqb_eq in Hsz. destruct (_ =? len _) eqn:Hcount.
  - apply Z.eqb_eq in Hcount. unfold status_update. wp_run. split; [|done].
    split; [done|]. split; [|done]. cbn [ready_guard]. exists request. split; [exact Hgot2|].
    rewrite Hstate. simpl. exists l. split; [done|]. split; [done|]. split; [done|].
    by eapply filterb_len_NoDup.
  - apply wp_bind. apply wp_getRelationship; [done|]. intros x. cbn zeta.
    set (h4 := Event (Get KRelationship relationshipName) x :: h3).
    assert (Hgo : forall rel, last_relationship h4 = Relationship_Status rel ->
      wp admissible contract (if negb (IfExist (AcceptedRequests (Relationship_Status rel)) (request_ref request))
        then tryRequest rel request rm else mret (after time.Second, None)) h4 (fun _ _ => True)).
    { intros rel Hrel. destruct (IfExist _ _) eqn:Hfresh; cbn [negb]; [done|].
      assert (Hgot4 : last_got KTestResourceRequest h4 = Some request) by by destruct x.
      eapply wp_guard; [by apply tryRequest_accepts|]. intros h5 c Hc.
      destruct c; try done;
        destruct k; try done. destruct Hc as [(Hlast & Hhap & Hg) Hacc].
      split; [|done]. exists request. split; [by rewrite Hg|]. left. exists l, rm.
      split; [by apply Hhap, happened_later|]. split; [done|]. split; [|done].
      intros n r Hr. split; [by eapply Hin|]. split; [by apply Hnamed|]. by eapply Howned, Hin. }
    destruct x as [err|rel]; [|by apply Hgo]. destruct (IsNotFound err) eqn:Hnf; [|done].
    by apply (Hgo zeroRelationship), last_relationship_absent.
Qed.

Lemma release_request_released request s :
  IfExist (AcceptedRequests (release_request (request_ref request) s)) (request_ref request) = false /\
  forall n, go_lookup (MachineLocks (release_request (request_ref request) s)) n <> Some (request_ref request).
Proof.
  rewrite release_request_step. split; [apply Remove_IfExist|].
  intros n. unfold go_lookup, go_map. simpl. destruct (MachineLocks s) as [l|]; simpl; [|done].
  intros [_ []]%map_lookup_filter_Some. done.
Qed.

Lemma request_deletion_contract request h :
  last_got KTestResourceRequest h = Some request ->
  DeletionTimestamp_IsZero (TestResourceRequest_ObjectMeta request) = false ->
  requestFinalizer ∈ ObjectMeta_Finalizers (TestResourceRequest_ObjectMeta request) ->
  wp admissible contract (reconcileDeletion request) h (fun _ r => returns r).
Proof.
  intros Hgot Hdel Hfin. unfold reconcileDeletion, listOwnedResources, list_objs.
  set (c1 := List KTestResource _ _).
  cbn [wp mbind prog_bind_inst prog_bind ask]. split; [done|].
  intros [[err|] l] _; [by eexists|]. cbn [prog_bind]. set (h1 := Event c1 (None, l) :: h).
  apply wp_bind. eapply wp_mono; [by apply (removeAllResources_spec l contract)|].
  intros h2 r [Hext2 [err ->]]. destruct err as [err|]; [by eexists|].
  match goal with |- context [negb ?b] => destruct b eqn:Hlen end; cbn [negb]; [|by eexists].
  apply Z.eqb_eq in Hlen. apply (proj1 (len_zero l)) in Hlen. subst l.
  assert (Hl2 : resources_listed request
      (Some (ObjectMeta_Name (TestResourceRequest_ObjectMeta request))) [] h2).
  { apply (proj1 (proj2 Hext2)), happened_here. done. }
  assert (Hgot2 : last_got KTestResourceRequest h2 = Some request) by by rewrite (proj2 (proj2 Hext2)).
  apply wp_bind, wp_getRelationship; [done|]. intros x. cbn zeta.
  set (h3 := Event (Get KRelationship relationshipName) x :: h2).
  assert (Hgo : forall rel, last_relationship h3 = Relationship_Status rel ->
    wp admissible contract
      (err ← status_update KRelationship
               (rel <| Relationship_Status ::= release_request (request_ref request) |>);
       match err with
       | Some err => mret (noRequeue, Some err)
       | None =>
           finalizers ← lift (Slice.StringsRemove
             (ObjectMeta_Finalizers (TestResourceRequest_ObjectMeta request)) requestFinalizer);
           err ← update KTestResourceRequest
             (request <| TestResourceRequest_ObjectMeta ::= fun m => m <| ObjectMeta_Finalizers := finalizers |> |>);
           mret (noRequeue, err)
       end) h3 (fun _ r => returns r)).
  { intros rel Hrel.
    assert (Hgot3 : last_got KTestResourceRequest h3 = Some request) by by destruct x.
    unfold status_update, update.
    cbn [wp mbind prog_bind_inst prog_bind ask mret prog_ret_inst]. split.
    { split; [|done]. exists request. split; [done|]. right.
      split; [by apply happened_later|]. split; [|by rewrite Hrel].
      unfold deleting. rewrite Hdel. by apply Slice.StringsContains_spec. }
    intros r _. destruct r as [err|rel']; cbn [err_of prog_bind wp]; [by eexists|].
    rewrite Slice.StringsRemove_Ret by (intros Hnil; rewrite Hnil in Hfin; set_solver).
    cbn [lift wp mbind prog_bind_inst prog_bind ask mret prog_ret_inst]. split; [|intros; by eexists].
    split; [done|]. split; [done|]. exists request. split; [done|]. right. split; [done|].
    split; [by do 2 apply happened_later|].
    apply happened_here. split; [by eexists|]. apply release_request_released. }
  destruct x as [err|rel]; [|by apply Hgo]. destruct (IsNotFound err) eqn:Hnf; [|by eexists].
  by apply (Hgo zeroRelationship), last_relationship_absent.
Qed.

Lemma request_contract req : safe contract (Reconcile req) (fun _ _ => True).
Proof.
  unfold safe, Reconcile, get. cbn [wp mbind prog_bind_inst prog_bind ask mret prog_ret_inst].
  split; [done|]. intros [err|request] _; [done|].
  set (h1 := [Event (Get KTestResourceRequest req) (inr request)]).
  assert (Hgot : last_got KTestResourceRequest h1 = Some request) by done.
  destruct (DeletionTimestamp_IsZero _) eqn:Hdel; cbn [negb andb];
    destruct (Slice.StringsContains _ _) eqn:Hfin; cbn [negb andb].
  2:{ unfold update. wp_run. split; [|done]. split; [done|]. split; [done|].
      exists request. split; [done|]. left. simpl. set_solver. }
  2:{ apply Slice.StringsContains_spec in Hfin.
      eapply wp_mono; [by apply request_deletion_contract|done]. }
  all: destruct (TestResourceRequest_State request) eqn:Hstate; [|by apply reconcilePending_contract; [..|unfold deleting; rewrite Hdel, Hfin]|done..].
  all: unfold status_update; wp_run; split; [|intros [] ?; done]; split; [done|]; split; [|done];
    exists request; by rewrite Hstate.
Qed.

(** The updates of the relationship are sequences of ledger steps. *)
Lemma request_ledger req : safe ledger_guard (Reconcile req) (fun _ _ => True).
Proof.
  eapply wp_guard; [apply request_contract|]. intros h c (Hc & _).
  destruct c; try done;
    destruct k; try done. destruct Hc as (request & _ & [(l & rm & _ & _ & _ & Hacc)|(_ & _ & Heq)]).
  - apply Hacc.
  - simpl. rewrite Heq, release_request_step. apply rtc_once. constructor.
Qed.
End contract.
