(* ===== verification/SchedulerProperties.v ===== *)
(** * The request reconciler: its properties

    What scheduling guarantees, from the writes of [Scheduler.Reconcile] down to the fit of one
    resource on one machine; and what it does not: one device can be given to two disks of a
    resource. *)

From S2P Require Import Prelude GoStd Util ApiTypes Prog World Machine Resource Relationship.
From S2P Require Import Scheduler SchedulerProofs SchedulerTheorems.
Import Scheduler.

Section properties.
Context {U : Units}.

(** ** The writes *)

(** C2. Every write the request reconciler makes to the relationship, from any start and
    whatever the services answer, is of one of two kinds. Either it accepts a request that was
    read pending, alive and not accepted yet, all of it at once: every item's resource is then
    bound to a machine, machines that changed were listed ready and were not locked, only free
    machines become locked, and only for this request, existing bindings are kept, and what is
    bound anew are resources of its own that were listed. Or it forgets a request that is being
    deleted and none of whose resources is left. *)
Theorem relationship_writes req : safe relationship_guard (Reconcile req) (fun _ _ => True).
Proof. eapply wp_guard; [apply request_contract|]. by intros h c (? & _). Qed.

(** C24. A request is only ever moved from no state to pending and from pending to ready, and to
    ready only when the namespace holds nothing but resources of the request, as many of them
    required as it has items. *)
Theorem ready_writes req : safe ready_guard (Reconcile req) (fun _ _ => True).
Proof. eapply wp_guard; [apply request_contract|]. by intros h c (_ & ? & _). Qed.

(** C23. The finalizer of a request goes only when it is being deleted, its resources are all
    gone, and the relationship was stored without its acceptance and its locks. *)
Theorem finalizer_writes req : safe finalizer_guard (Reconcile req) (fun _ _ => True).
Proof. eapply wp_guard; [apply request_contract|]. by intros h c (_ & _ & ?). Qed.

(** Deleting a request that carries the finalizer returns, whatever the services answer:
    none of its dereferences, map writes or slice makes panics. *)
Lemma reconcileDeletion_returns request h :
  last_got KTestResourceRequest h = Some request ->
  DeletionTimestamp_IsZero (TestResourceRequest_ObjectMeta request) = false ->
  requestFinalizer ∈ ObjectMeta_Finalizers (TestResourceRequest_ObjectMeta request) ->
  wp admissible (fun _ _ => True) (reconcileDeletion request) h (fun _ r => returns r).
Proof. intros. eapply wp_guard; [by apply request_deletion_contract|done]. Qed.

(** Releasing a request forgets exactly it: its acceptance and its locks go, all the
    others stay, and no binding changes. *)
Lemma release_request_exact self s :
  (forall r, r ∈ default [] (AcceptedRequests (release_request self s)) <->
     r ∈ default [] (AcceptedRequests s) /\ r <> self) /\
  (forall n, go_lookup (MachineLocks (release_request self s)) n =
     if decide (go_lookup (MachineLocks s) n = Some self) then None else go_lookup (MachineLocks s) n) /\
  MachineToResources (release_request self s) = MachineToResources s /\
  ResourceToMachine (release_request self s) = ResourceToMachine s.
Proof.
  rewrite release_request_step. split; [intros r; apply elem_of_Remove|]. split; [|done].
  intros n. unfold go_lookup, go_map.
  destruct (MachineLocks s) as [l|] eqn:Hl; simpl; rewrite Hl; simpl; [|by rewrite lookup_empty].
  rewrite map_lookup_filter. destruct (l !! n) as [r|]; [simpl|by destruct (decide (None = Some self))].
  destruct (decide (r = self)) as [->|Hne].
  - rewrite option_guard_False by naive_solver. by rewrite decide_True.
  - rewrite option_guard_True by done. rewrite decide_False by congruence. done.
Qed.

(** ** The fit *)


(** Binding a group picks one of the candidates and puts the whole group there, or leaves
    the relationship alone: one ledger step, the other machines, the locks and the accepted
    requests untouched, and each resource of the group bound to the machine. *)
Theorem tryBindResource_places rel candidates group :
  one_per_name (Items group) -> Items group <> [] ->
  computes (fun _ _ => True) (fun r : option (Machine * Relationship) =>
      match r with
      | Some (machine, rel') => machine ∈ candidates /\
          placed (Relationship_Status rel) (Relationship_Status rel') machine (Items group)
      | None => True
      end)
    (tryBindResource rel candidates group).
Proof. intros. by apply tryBindResource_placed. Qed.

(** ** Groups and candidates *)

(** What the loop of [groupCoLocatedItems] has grouped so far, counted. *)
Lemma grouped_count (resourceMap : gmap string TestResource) items :
  let acc := fold_left (fun '(named, unnamed) item =>
        let machine := TestResourceSpec_Machine (ResourceRequestItem_Spec item) in
        let resource := resourceMap !! ResourceRequestItem_Name item in
        if negb (String.eqb machine "")
        then (<[machine := default [] (named !! machine) ++ [resource]]> named, unnamed)
        else (named, unnamed ++ [mkItemGroup "" [resource]]))
      items (∅ : gmap string (list (option TestResource)), []) in
  mjoin (map_to_list acc.1).*2 ++ (acc.2 ≫= Items) ≡ₚ
  (fun item => resourceMap !! ResourceRequestItem_Name item) <$> items.
Proof.
  apply (fold_left_seen (fun items acc => mjoin (map_to_list acc.1).*2 ++ (acc.2 ≫= Items) ≡ₚ
    (fun item => resourceMap !! ResourceRequestItem_Name item) <$> items)); [done|].
  intros seen item [named unnamed] H. cbn [fst snd] in *. rewrite fmap_app, <-H. clear H. cbn zeta.
  set (machine := TestResourceSpec_Machine _). set (res := resourceMap !! _).
  destruct (negb _); cbn [fst snd].
  - rewrite <-(insert_delete_eq named), map_to_list_insert by apply lookup_delete_eq. csimpl.
    destruct (named !! machine) as [l|] eqn:Hl; simpl.
    + rewrite <-(map_to_list_delete named machine l) by done. csimpl. solve_Permutation.
    + rewrite delete_id by done. solve_Permutation.
  - rewrite bind_app. csimpl. by rewrite app_assoc.
Qed.

(** C36. Grouping partitions the items: every item's resource is in exactly one group, as often
    as the request has it; no group is empty; and a group's items all ask for the group's
    machine. *)
Theorem groupCoLocatedItems_partition items resourceMap :
  computes (fun _ _ => True) (fun groups : list ItemGroup =>
      groups ≫= Items ≡ₚ (fun item => resourceMap !! ResourceRequestItem_Name item) <$> items /\
      forall g, g ∈ groups -> group_of items resourceMap (ExplicitMachine g) (Items g))
    (groupCoLocatedItems items resourceMap).
Proof.
  intros h. pose proof (groupCoLocatedItems_groups (fun _ _ => True) (fun _ _ => I) items resourceMap h) as Hg.
  revert Hg. unfold groupCoLocatedItems. pose proof (grouped_count resourceMap items) as Hcount.
  destruct (fold_left _ items _) as [named unnamed]. cbn [fst snd] in Hcount. unfold range_keys.
  cbn [wp mbind prog_bind_inst prog_bind ask mret prog_ret_inst]. intros [_ Hg]. split; [done|].
  intros keys Hkeys. destruct (Hg keys Hkeys) as (Hext & Hgroups & _). split; [done|]. split; [|done].
  rewrite <-Hcount, bind_app. f_equiv. simpl in Hkeys.
  trans (mjoin ((fun m => default [] (named !! m)) <$> keys)).
  { clear. induction keys as [|k l IH]; csimpl; [done|]. by rewrite IH. }
  rewrite Hkeys. clear. apply reflexive_eq. f_equal.
  rewrite <-list_fmap_compose. apply list_fmap_ext. intros i [k v] Hkv. simpl.
  apply list_elem_of_lookup_2, elem_of_map_to_list in Hkv. by rewrite Hkv.
Qed.

(** Sorting the candidates keeps all of them, the machines the request names first, and
    among the others, as among those, a machine with more resources before one with fewer: a
    request is packed, not spread. *)
Lemma sortMachines_order all explicit rel :
  computes (fun _ _ => True) (fun l =>
      l ≡ₚ (map_to_list all).*2 /\
      StronglySorted (fun a b =>
        (is_Some (explicit !! Machine_Name b) -> is_Some (explicit !! Machine_Name a)) /\
        ((is_Some (explicit !! Machine_Name a) <-> is_Some (explicit !! Machine_Name b)) ->
         allocated_count rel b <= allocated_count rel a)) l)
    (sortMachines all explicit rel).
Proof.
  unfold sortMachines. eapply computes_bind; [by apply computes_range_keys|]. intros keys Hkeys.
  cbn zeta. eapply computes_bind.
  { by apply (computes_ask (fun _ _ => True) (ShuffleMachines _) (fun l => l ≡ₚ omap (fun key => all !! key) keys)). }
  intros l Hl. eapply computes_mono.
  { by apply (computes_ask (fun _ _ => True) (SortMachines _ _) (fun l' => l' ≡ₚ l /\
      StronglySorted (fun a b => machine_less explicit rel b a = false) l')). }
  intros l' [Hp Hs]. split.
  - rewrite Hp, Hl, Hkeys. clear. apply reflexive_eq.
    assert (H : Forall (fun kv => all !! kv.1 = Some kv.2) (map_to_list all)).
    { apply list.Forall_forall. intros [k v] Hkv. by apply elem_of_map_to_list. }
    revert H. generalize (map_to_list all) as m. induction m as [|[k v] m IH]; [done|].
    intros [Hk Hm]%list.Forall_cons. csimpl in *. rewrite Hk. f_equal. by apply IH.
  - clear -Hs. induction Hs as [|a l Hs IH Ha]; constructor; [done|].
    eapply list.Forall_impl; [exact Ha|]. intros b Hb. simpl in Hb.
    split; [by apply (machine_less_explicit _ rel a b)|]. intros Hiff.
    revert Hb. unfold machine_less. rewrite (bool_decide_ext _ _ Hiff).
    destruct (bool_decide _); simpl; apply Z.ltb_ge.
Qed.

(** ** What admission is for *)

(** The machine requests by name, as [tryRequest] maps them. *)
Lemma requested_machines_names machines requests rm ex m :
  requested_machines machines requests = inr (rm, ex) -> m ∈ requests -> is_Some (rm !! MachineRequest_Name m).
Proof.
  intros H Hm. unfold requested_machines in H. revert rm ex H.
  match goal with |- context [fold_left ?f requests ?s] =>
    set (r := fold_left f requests s);
    assert (Hr : match r with inl _ => True | inr (rm, _) =>
        forall m, m ∈ requests -> is_Some (rm !! MachineRequest_Name m) end) end.
  { subst r. apply (fold_left_seen (fun seen r => match r with inl _ => True | inr (rm, _) =>
        forall m, m ∈ seen -> is_Some (rm !! MachineRequest_Name m) end)).
    { intros x Hx. set_solver. }
    intros seen a [e|[rm ex]] Hseen; [done|].
    assert (Hin : forall x, x ∈ seen ++ [a] -> is_Some (<[MachineRequest_Name a := a]> rm !! MachineRequest_Name x)).
    { intros x [Hx| ->%list_elem_of_singleton]%elem_of_app; [|rewrite lookup_insert_eq; by eexists].
      apply lookup_insert_is_Some'. auto. }
    cbn zeta. destruct (String.eqb _ ""); [done|]. by destruct (machines !! _). }
  intros rm ex Heq. rewrite Heq in Hr. auto.
Qed.

(** C37. Scheduling a group of an admitted request never dereferences a missing machine
    request: the webhook's [checkItems] is what [tryRequest] relies on. *)
Theorem admitted_groups_no_panic request machines rm ex resourceMap rel candidates sorted g :
  TestResourceRequest.ValidateCreate request = None ->
  requested_machines machines (TestResourceRequestSpec_Machines (TestResourceRequest_Spec request)) = inr (rm, ex) ->
  group_of (TestResourceRequest_Items request) resourceMap (ExplicitMachine g) (Items g) ->
  returns (group_candidates rel rm candidates sorted g) /\ returns (is_exclusive rm g).
Proof.
  intros Hval Hreq [Hne Hgrp]. unfold group_candidates, is_exclusive.
  destruct (String.eqb_spec (ExplicitMachine g) "") as [He|He]; [split; by eexists|].
  destruct (Items g) as [|x l] eqn:Hitems; [done|].
  destruct (Hgrp x ltac:(by left)) as (item & Hin & _ & Hm).
  unfold TestResourceRequest.ValidateCreate in Hval.
  destruct (TestResourceRequest.validateItems _); [done|].
  destruct (TestResourceRequest.checkItems_spec request item Hval Hin) as (mr & Hmr & Hname); [congruence|].
  apply (requested_machines_names _ _ _ _ _ Hreq) in Hmr. rewrite Hname, Hm in Hmr.
  destruct Hmr as [mr' ->]. simpl. split; [|by eexists].
  destruct (String.eqb _ ""); [by eexists|]. destruct (candidates !! _); by eexists.
Qed.
End properties.

(** ** One device for two disks *)

#[local] Existing Instance BinarySizes.units.

(** What rests of a machine with one disk, and a resource that asks for two such disks. *)
Definition one_disk : AvailableResource :=
  mkAvailableResource "0001" [1; 2] {["/dev/nvme0" := mkDiskResource "0001" NVMEKind "/a"]}.
Definition two_disks : TestResourceSpec :=
  mkTestResourceSpec "1" 1 "" {["d1" := mkDiskSpec "/mnt/d1" NVMEKind "1";
                                "d2" := mkDiskSpec "/mnt/d2" NVMEKind "1"]} "".

(** The fit deletes what it takes by the disk's name, not by the device: it gives one
    device to two disks of a resource, and from then on nothing rests of a machine the binding
    is on, so the machine takes no resource any more. *)
Lemma one_device_for_two_disks :
  exists h b d1 d2,
    exec admissible (resourceOverflow (Some one_disk) two_disks) [] h (Ret (Some b)) /\
    ResourceBinding_Disks b !! "d1" = Some d1 /\ ResourceBinding_Disks b !! "d2" = Some d2 /\
    DiskBinding_Device d1 = DiskBinding_Device d2 /\
    forall m l ref a, mkResourceRef ref b ∈ l -> Machine.Machine_Rest m l <> Ret (Some a).
Proof.
  set (run := replay (fun _ => refuse) (resourceOverflow (Some one_disk) two_disks) []).
  exists (fst run).
  exists (mkResourceBinding "1" [1] {["d1" := mkDiskBinding NVMEKind "0001" "/dev/nvme0" "/a" "/mnt/d1";
                                      "d2" := mkDiskBinding NVMEKind "0001" "/dev/nvme0" "/a" "/mnt/d2"]}).
  eexists _, _. split; [|split; [reflexivity|split; [reflexivity|split]]].
  - match goal with |- exec _ _ _ _ ?r => replace r with (snd run) by (vm_compute; reflexivity) end.
    apply replay_exec. vm_compute. repeat constructor.
  - reflexivity.
  - intros m l ref a Hin H. apply Machine.Rest_inv in H as (a0 & _ & Hl).
    apply Machine.restLoop_devices in Hl as [Hnd _].
    apply list_elem_of_split in Hin as (l1 & l2 & ->).
    rewrite bind_app, bind_cons in Hnd. apply list.NoDup_app in Hnd as (_ & _ & Hnd).
    apply list.NoDup_app in Hnd as (Hnd & _). revert Hnd. vm_compute.
    intros H. apply list.NoDup_cons in H as [Hn _]. apply Hn. by left.
Qed.

(** ** Witnesses *)

Definition example_request : TestResourceRequest :=
  zeroTestResourceRequest
    <| TestResourceRequest_ObjectMeta ::= fun m => m <| ObjectMeta_Name := "req" |>
         <| ObjectMeta_Finalizers := [requestFinalizer] |> <| ObjectMeta_DeletionTimestamp := Some 1600000000 |> |>
    <| TestResourceRequest_Spec := mkTestResourceRequestSpec [mkMachineRequest "m1" "" true]
         [mkResourceRequestItem "n1" (mkTestResourceSpec "1" 1 "" ∅ "m1")] |>.

Lemma reconcileDeletion_returns_witness :
  wp admissible (fun _ _ => True) (reconcileDeletion example_request)
    [Event (Get KTestResourceRequest (mkNamespacedName "" "req")) (inr example_request)]
    (fun _ r => returns r).
Proof. apply reconcileDeletion_returns; [reflexivity|reflexivity|vm_compute; by left]. Defined.

Definition example_resource : TestResource :=
  zeroTestResource <| TestResource_ObjectMeta ::= fun m => m <| ObjectMeta_Name := "n1" |> |>
    <| TestResource_Spec := mkTestResourceSpec "1" 1 "" ∅ "m1" |>.

Lemma tryBindResource_places_witness :
  computes (fun _ _ => True) (fun r : option (Machine * Relationship) =>
      match r with
      | Some (machine, rel') => machine ∈ [Machine.example_machine] /\
          placed Ledger.start (Relationship_Status rel') machine [Some example_resource]
      | None => True
      end)
    (tryBindResource zeroRelationship [Machine.example_machine] (mkItemGroup "m1" [Some example_resource])).
Proof.
  apply (tryBindResource_places zeroRelationship [Machine.example_machine]
           (mkItemGroup "m1" [Some example_resource])); [|done].
  intros r r' H1%list_elem_of_singleton H2%list_elem_of_singleton _. congruence.
Defined.

Lemma admitted_groups_no_panic_witness :
  returns (is_exclusive {["m1" := mkMachineRequest "m1" "" true]} (mkItemGroup "m1" [Some example_resource])).
Proof.
  refine (proj2 (admitted_groups_no_panic example_request ∅ _ ∅ {["n1" := example_resource]} zeroRelationship ∅ []
            (mkItemGroup "m1" [Some example_resource]) _ _ _)); [vm_compute; reflexivity|vm_compute; reflexivity|].
  split; [done|]. intros x ->%list_elem_of_singleton. eexists. split; [by left|]. split; reflexivity.
Defined.
