(* ===== verification/Capacity.v ===== *)
(** * When there is room: the scheduler accepts what fits

    Scheduler*.v show that what is bound fits. This file shows the converse, with total
    correctness: [resourceOverflow] accepts a resource exactly when the memory, the cores and,
    for each disk, a device are there, and a resource that shares its machine with no other item
    is bound to the first candidate that has room, unless none has. *)

From S2P Require Import Prelude GoStd Util ApiTypes Prog World Machine Resource Relationship Scheduler SchedulerProofs.
Import Scheduler.

(** ** Total correctness

    Along every execution the program returns, with a result that satisfies [P]. *)

Definition total {A} (P : A -> Prop) (p : io A) : Prop :=
  forall h, wp admissible (fun _ _ => True) p h (fun _ r => match r with Ret a => P a | Panic _ => False end).

Lemma total_mono {A} (P Q : A -> Prop) p : total P p -> (forall a, P a -> Q a) -> total Q p.
Proof. intros H HPQ h. eapply wp_mono; [apply H|]. intros h' [a|e] Ha; [by apply HPQ|done]. Qed.

Lemma total_bind {A B} (P : A -> Prop) (Q : B -> Prop) (p : io A) (f : A -> io B) :
  total P p -> (forall a, P a -> total Q (f a)) -> total Q (p ≫= f).
Proof.
  intros Hp Hf h. apply wp_bind. eapply wp_mono; [apply Hp|]. intros h' [a|e] Ha; [by apply Hf|done].
Qed.

Lemma total_ret {A} (P : A -> Prop) a : P a -> total P (mret a).
Proof. by intros H h. Qed.

Lemma total_lift {A} (P : A -> Prop) (m : go A) a : m = Ret a -> P a -> total P (lift m).
Proof. by intros -> H h. Qed.

Lemma total_range_keys {V} (m : gmap string V) : total (fun keys => keys ≡ₚ (map_to_list m).*1) (range_keys m).
Proof. intros h. unfold range_keys, ask. simpl. split; [done|]. by intros x Hx. Qed.

Section capacity.
Context {U : Units} {A : Machine.Allocator}.

(** ** One resource *)

(** A device good for a disk is left. *)
Definition has_device (disks : gmap string DiskResource) (disk : DiskSpec) : Prop :=
  exists device dr, disks !! device = Some dr /\ suits disk dr.

(** What rests of a machine is enough for a resource. *)
Definition covers (rest : AvailableResource) (spec : TestResourceSpec) : Prop :=
  (exists have want, BytesSize.Unwrap (AvailableResource_Memory rest) = Ret have /\
     BytesSize.Unwrap (TestResourceSpec_Memory spec) = Ret want /\ want <= have) /\
  TestResourceSpec_Cores spec <= len (AvailableResource_IdleCPUSet rest) /\
  map_Forall (fun _ disk => has_device (AvailableResource_Disks rest) disk) (TestResourceSpec_Disks spec).

(** The sizes parse, of what rests and of what is asked, and no disk is named like a device. *)
Record well_sized (rest : AvailableResource) (spec : TestResourceSpec) : Prop := {
  sized_memory : returns (BytesSize.Unwrap (AvailableResource_Memory rest));
  sized_want : returns (BytesSize.Unwrap (TestResourceSpec_Memory spec));
  sized_devices : map_Forall (fun _ dr => returns (BytesSize.Unwrap (DiskResource_Size dr))) (AvailableResource_Disks rest);
  sized_disks : map_Forall (fun _ disk => returns (BytesSize.Unwrap (DiskSpec_Size disk))) (TestResourceSpec_Disks spec);
  names_apart : forall name, is_Some (TestResourceSpec_Disks spec !! name) -> AvailableResource_Disks rest !! name = None;
}.

Lemma find_device_total disk disks devices :
  returns (BytesSize.Unwrap (DiskSpec_Size disk)) ->
  map_Forall (fun _ dr => returns (BytesSize.Unwrap (DiskResource_Size dr))) disks ->
  exists r, find_device disk disks devices = Ret r /\
    (is_Some r <-> exists device dr, device ∈ devices /\ disks !! device = Some dr /\ suits disk dr).
Proof using.
  intros [want Hwant] Hdisks. induction devices as [|d l IH]; simpl.
  { exists None. split; [done|]. split; [by intros []|]. intros (? & ? & H & _). by apply not_elem_of_nil in H. }
  destruct IH as (r & Hr & Hiff).
  assert (Hskip : (forall dr, disks !! d = Some dr -> ~ suits disk dr) ->
    is_Some r <-> exists device dr, device ∈ d :: l /\ disks !! device = Some dr /\ suits disk dr).
  { intros Hno. rewrite Hiff. split; intros (device & dr & Hin & Hd & Hs); exists device, dr.
    - split_and!; [by right|done..].
    - apply elem_of_cons in Hin as [->|Hin]; [by destruct (Hno dr)|done]. }
  destruct (disks !! d) as [dr|] eqn:Hd; [|by exists r; split; [done|apply Hskip]].
  destruct (String.eqb_spec (DiskSpec_Kind disk) (DiskResource_Kind dr)) as [Hk|Hk].
  - destruct (Hdisks _ _ Hd) as [have Hhave]. rewrite Hwant. simpl. rewrite Hhave. simpl.
    destruct (Z.leb_spec want have) as [Hle|Hgt].
    + exists (Some (d, dr)). split; [done|]. split; [|by eexists]. intros _. exists d, dr. split; [by left|].
      split; [done|]. split; [done|]. by exists want, have.
    + exists r. split; [done|]. apply Hskip. intros dr' [= <-] [_ (want' & have' & Hw & Hh & Hle)].
      assert (want' = want) as -> by congruence. assert (have' = have) as -> by congruence. lia.
  - exists r. split; [done|]. apply Hskip. by intros dr' [= <-] [Hk' _].
Qed.

Lemma bindDisks_total specs rest names bound :
  map_Forall (fun _ dr => returns (BytesSize.Unwrap (DiskResource_Size dr))) rest ->
  map_Forall (fun _ disk => returns (BytesSize.Unwrap (DiskSpec_Size disk))) specs ->
  (forall name, is_Some (specs !! name) -> rest !! name = None) ->
  total (fun bound' : gmap string DiskBinding => forall n, is_Some (bound' !! n) <->
      is_Some (bound !! n) \/ (n ∈ names /\ exists disk, specs !! n = Some disk /\ has_device rest disk))
    (bindDisks specs names rest bound).
Proof using.
  intros Hrest Hspecs Hapart. revert bound. induction names as [|name l IH]; intros bound.
  { apply total_ret. intros n. split; [by left|]. intros [H|[H _]]; [done|by apply not_elem_of_nil in H]. }
  cbn [bindDisks]. destruct (specs !! name) as [disk|] eqn:Hname.
  - eapply total_bind; [apply total_range_keys|]. intros devices Hdev.
    destruct (find_device_total disk rest devices (Hspecs _ _ Hname) Hrest) as (r & Hr & Hiff).
    eapply total_bind; [exact (total_lift (fun r' => r' = r) _ r Hr eq_refl)|]. intros r' ->.
    assert (Hhas : is_Some r <-> has_device rest disk).
    { rewrite Hiff. split; intros (device & dr & H); exists device, dr; [by destruct H as (_ & ?)|].
      split; [|done]. rewrite Hdev. apply list_elem_of_fmap. exists (device, dr).
      split; [done|]. apply elem_of_map_to_list, H. }
    destruct r as [[device dr]|]; cbn beta iota; (eapply total_mono; [|]).
    + rewrite delete_id by by apply Hapart. apply IH.
    + intros bound' H n. rewrite (H n), elem_of_cons. destruct (decide (n = name)) as [->|Hne].
      * rewrite lookup_insert_eq. split; [|by left; eexists]. intros _. right. split; [by left|].
        exists disk. split; [done|]. apply Hhas. by eexists.
      * rewrite lookup_insert_ne by done. naive_solver.
    + apply IH.
    + intros bound' H n. rewrite (H n), elem_of_cons. split; [naive_solver|].
      intros [Hb|[[->|Hn] (disk' & Hd & Hh)]]; [by left| |right; by eauto].
      assert (disk' = disk) as -> by congruence. apply Hhas in Hh as [? [=]].
  - eapply total_mono; [apply IH|]. intros bound' H n. rewrite (H n), elem_of_cons. split; [naive_solver|].
    intros [Hb|[[->|Hn] (disk' & Hd & Hh)]]; [by left|congruence|right; by eauto].
Qed.

(** The result has as many disks as were asked for exactly when every one has a device. *)
Lemma bound_all (specs : gmap string DiskSpec) (rest : gmap string DiskResource) (bound : gmap string DiskBinding) :
  (forall n, is_Some (bound !! n) <-> exists disk, specs !! n = Some disk /\ has_device rest disk) ->
  (Z.of_nat (size bound) <? Z.of_nat (size specs)) = false <->
  map_Forall (fun _ disk => has_device rest disk) specs.
Proof using.
  intros H. assert (Hsub : dom bound ⊆ dom specs).
  { intros n [b Hb]%elem_of_dom. apply elem_of_dom. destruct (proj1 (H n)) as (d & Hd & _); by eexists. }
  rewrite Z.ltb_ge, <-Nat2Z.inj_le, <-!(size_dom (D := gset string)). split.
  - intros Hle n disk Hn. assert (Hdom : dom bound = dom specs) by (apply set_subseteq_size_eq; [set_solver|lia]).
    assert (Hin : n ∈ dom bound) by (rewrite Hdom; apply elem_of_dom; by eexists).
    apply elem_of_dom, H in Hin as (disk' & Hd' & Hh). by assert (disk' = disk) as -> by congruence.
  - intros Hall. apply subseteq_size. intros n [d Hd]%elem_of_dom. apply elem_of_dom, H. exists d. split; [done|]. by apply (Hall n).
Qed.

Lemma pickCpuSet_enough l i : (len (pickCpuSet l i) <? i) = false <-> i <= len l.
Proof using.
  rewrite Z.ltb_ge. unfold pickCpuSet. destruct (Z.ltb_spec (len l) i) as [Hlt|Hle].
  - pose proof (len_nonneg l). change (len []) with 0. lia.
  - split; [done|]. intros _. unfold len in *. rewrite length_take. lia.
Qed.

(** A resource is accepted on what rests of a machine exactly when there is room for it: as
    much memory as it asks for, as many idle cores, and for each of its disks a device of the
    kind and at least the size (one device may serve two of its disks, as
    [one_device_for_two_disks] shows). In whatever order the disks and devices are ranged over,
    the answer comes and is the same. *)
Lemma overflow_iff rest spec :
  well_sized rest spec ->
  total (fun r => is_Some r <-> covers rest spec) (resourceOverflow (Some rest) spec).
Proof using.
  intros [[have Hhave] [want Hwant] Hdev Hdisks Hapart]. unfold resourceOverflow.
  eapply total_bind; [apply total_range_keys|]. intros names Hnames.
  eapply total_bind; [by apply bindDisks_total|]. intros disks Hb. cbn beta zeta.
  assert (Hbound : forall n, is_Some (disks !! n) <->
            exists disk, TestResourceSpec_Disks spec !! n = Some disk /\ has_device (AvailableResource_Disks rest) disk).
  { intros n. rewrite (Hb n), lookup_empty. split; [intros [[? [=]]|[_ ?]]; done|]. intros (disk & Hd & Hh). right.
    split; [|by exists disk]. rewrite (Hnames : names ≡ₚ _). apply list_elem_of_fmap. exists (n, disk).
    split; [done|]. by apply elem_of_map_to_list. }
  pose proof (bound_all _ _ _ Hbound) as Hall. cbn [ResourceBinding_Disks].
  destruct (_ <? _) eqn:Hsize; [apply total_ret; split; [by intros [? [=]]|]; intros (_ & _ & H); by apply Hall in H|].
  eapply total_bind; [exact (total_lift (fun x => x = have) _ have Hhave eq_refl)|]. intros ? ->.
  eapply total_bind; [exact (total_lift (fun x => x = want) _ want Hwant eq_refl)|]. intros ? ->.
  pose proof (pickCpuSet_enough (AvailableResource_IdleCPUSet rest) (TestResourceSpec_Cores spec)) as Hcpu.
  destruct ((have <? want) || _) eqn:Hor; apply total_ret.
  - split; [by intros [? [=]]|]. intros ((have' & want' & Hh & Hw & Hle) & Hc & _). apply Hcpu in Hc.
    assert (have' = have) as -> by congruence. assert (want' = want) as -> by congruence.
    apply Z.ltb_ge in Hle. by rewrite Hle, Hc in Hor.
  - split; [|by eexists]. intros _. apply orb_false_iff in Hor as [Hm Hc]. apply Z.ltb_ge in Hm.
    split; [by exists have, want|]. split; [by apply Hcpu|by apply Hall].
Qed.

(** ** One item on its machine *)

(** What the relationship lists for a machine. *)
Definition taken (rel : Relationship) (machine : Machine) : ResourceRefList :=
  default [] (go_lookup (MachineToResources (Relationship_Status rel)) (machine_key machine)).

(** A machine has room for a resource beside what is bound to it. *)
Definition has_room (rel : Relationship) (spec : TestResourceSpec) (machine : Machine) : Prop :=
  exists rest, Machine.Rest machine (taken rel machine) = Ret (Some rest) /\ covers rest spec.

(** What is left of a machine is known, and its sizes can be compared. *)
Definition in_order (rel : Relationship) (spec : TestResourceSpec) (machine : Machine) : Prop :=
  exists rest, Machine.Rest machine (taken rel machine) = Ret rest /\
    forall a, rest = Some a -> well_sized a spec.

(** The first machine of a list that satisfies [P], or that there is none. *)
Definition first_of {B} (P : B -> Prop) (l : list B) (r : option B) : Prop :=
  match r with
  | Some x => exists before after, l = before ++ x :: after /\ Forall (fun y => ~ P y) before /\ P x
  | None => Forall (fun y => ~ P y) l
  end.

Definition fit_outcome rel machine item (r : (ResourceRefList * gmap string ResourceBinding) + unit) : Prop :=
  match r with
  | inl (allocated, bindings) => has_room rel (TestResource_Spec item) machine /\
      exists b, allocated = taken rel machine ++ [mkResourceRef (resource_ref item) b] /\
        bindings !! TestResource_Name item = Some b
  | inr _ => ~ has_room rel (TestResource_Spec item) machine
  end.

Lemma fit_item_total rel machine item :
  in_order rel (TestResource_Spec item) machine ->
  total (fit_outcome rel machine item) (fit_item machine (taken rel machine, ∅) (Some item)).
Proof using.
  intros (rest & Hrest & Hsized). unfold fit_item.
  eapply total_bind; [exact (total_lift (fun x => x = rest) _ rest Hrest eq_refl)|]. intros ? ->.
  eapply total_bind; [exact (total_lift (fun x => x = item) (deref (Some item)) item eq_refl eq_refl)|]. intros ? ->.
  destruct rest as [a|].
  - eapply total_bind; [by apply overflow_iff, Hsized|]. intros [binding|] Hiff; apply total_ret.
    + split; [exists a; split; [done|by apply Hiff]|]. exists binding. by rewrite lookup_insert_eq.
    + intros (a' & Ha' & Hc). assert (a' = a) as -> by congruence. by apply Hiff in Hc as [? [=]].
  - unfold resourceOverflow. apply total_ret. intros (a & Ha & _). congruence.
Qed.

(** The relationship with a resource bound to a machine, beside what is bound there. *)
Definition with_bound (rel : Relationship) (item : TestResource) (machine : Machine) (b : ResourceBinding) : Relationship :=
  rel <| Relationship_Status ::= fun s =>
    s <| MachineToResources ::= fmap (<[machine_key machine := taken rel machine ++ [mkResourceRef (resource_ref item) b]]>) |>
      <| ResourceToMachine ::= fmap
           (<[Key (resource_ref item) := mkMachineRef (CreateRef (Machine_ObjectMeta machine)) b]>) |> |>.

Lemma place_group_returns rel machine bindings item b :
  is_Some (MachineToResources (Relationship_Status rel)) -> is_Some (ResourceToMachine (Relationship_Status rel)) ->
  bindings !! TestResource_Name item = Some b ->
  place_group rel machine (taken rel machine ++ [mkResourceRef (resource_ref item) b]) bindings [Some item] =
    Ret (with_bound rel item machine b).
Proof using.
  intros [mtr Hm] [rtm Hr] Hb. unfold place_group, assign_resources, with_bound. rewrite Hm, Hr. cbn. rewrite Hb. cbn.
  do 2 f_equal. destruct rel as [meta []]. simpl in *. by subst.
Qed.

(** C35. When the maps of the relationship are there, and of every candidate what is left is known, its
    sizes and those the resource asks for parse and no disk of the resource is named like a device
    left, then the search for a machine for a resource that shares its machine with no other item
    ends: the resource is bound to the first of the candidates that has room for it beside what is
    bound there already, the relationship changing in that binding alone, and to none only when none
    has room. Room is as the code counts it: one device left may serve two disks of the resource. *)
Theorem lone_resource_placed rel candidates name item :
  is_Some (MachineToResources (Relationship_Status rel)) -> is_Some (ResourceToMachine (Relationship_Status rel)) ->
  Forall (in_order rel (TestResource_Spec item)) candidates ->
  total (fun r => first_of (has_room rel (TestResource_Spec item)) candidates (fst <$> r) /\
      forall machine rel', r = Some (machine, rel') -> exists b, rel' = with_bound rel item machine b)
    (tryBindResource rel candidates (mkItemGroup name [Some item])).
Proof using.
  intros Hm Hr. induction candidates as [|machine l IH]; intros Hall; [apply total_ret; by split; [constructor|]|].
  apply list.Forall_cons in Hall as [Hin Hall]. cbn [tryBindResource Items]. rewrite Clone_id.
  fold (taken rel machine). eapply total_bind.
  { cbn [for_each]. eapply total_bind; [by apply fit_item_total|]. intros r Hres.
    assert (Hret : total (fit_outcome rel machine item) (Done r)) by by apply total_ret. by destruct r. }
  intros [[allocated bindings]|u] Hres.
  - destruct Hres as (Hroom & b & -> & Hb). pose proof (place_group_returns rel machine bindings item b Hm Hr Hb) as Hrel.
    eapply total_bind; [exact (total_lift (fun x => x = with_bound rel item machine b) _ _ Hrel eq_refl)|]. intros ? ->.
    apply total_ret. split; [by exists [], l|]. intros m rel' [= <- <-]. by exists b.
  - eapply total_mono; [by apply IH|]. intros [[m rel']|] [Hf Hb]; (split; [|done]); simpl in *.
    + destruct Hf as (before & after & -> & Hbefore & Hroom). exists (machine :: before), after.
      split_and!; [done|by constructor|done].
    + by constructor.
Qed.
End capacity.

(** ** A machine with room behind one without *)

Definition small_spec : TestResourceSpec := mkTestResourceSpec "1" 1 "" ∅ "".
Definition small_resource : TestResource := zeroTestResource
  <| TestResource_ObjectMeta := zeroMeta <| ObjectMeta_Name := "n1" |> |> <| TestResource_Spec := small_spec |>.
(** A machine that was not measured yet. *)
Definition new_machine : Machine := zeroMachine
  <| Machine_ObjectMeta := zeroMeta <| ObjectMeta_Name := "new" |> |>.
Definition empty_relation : Relationship := zeroRelationship
  <| Relationship_Status := mkRelationshipStatus (Some ∅) (Some ∅) None None |>.

Lemma example_in_order :
  Forall (in_order (U := BinarySizes.units) (A := Machine.machine_allocator (U := BinarySizes.units))
            empty_relation small_spec) [new_machine; Machine.example_machine].
Proof.
  apply list.Forall_cons. split; [|apply list.Forall_singleton].
  - exists None. split; [vm_compute; reflexivity|done].
  - eexists. split; [vm_compute; reflexivity|]. intros a [= <-]. split.
    + eexists. vm_compute. reflexivity.
    + eexists. vm_compute. reflexivity.
    + apply (bool_decide_unpack _). vm_compute. exact I.
    + done.
    + intros n [d Hd]. done.
Qed.

Lemma overflow_iff_witness :
  total (fun r => is_Some r <-> covers (U := BinarySizes.units) (mkAvailableResource "1" [2] ∅) small_spec)
    (resourceOverflow (U := BinarySizes.units) (Some (mkAvailableResource "1" [2] ∅)) small_spec).
Proof.
  apply overflow_iff. split; [by eexists|by eexists|done|done|]. intros n [d Hd]. done.
Defined.

Lemma lone_resource_placed_witness :
  total (fun r => first_of (has_room (U := BinarySizes.units) (A := Machine.machine_allocator (U := BinarySizes.units))
             empty_relation small_spec) [new_machine; Machine.example_machine] (fst <$> r) /\
      forall machine rel', r = Some (machine, rel') -> exists b,
        rel' = with_bound empty_relation small_resource machine b)
    (tryBindResource (U := BinarySizes.units) (A := Machine.machine_allocator (U := BinarySizes.units))
       empty_relation [new_machine; Machine.example_machine] (mkItemGroup "" [Some small_resource])).
Proof.
  apply lone_resource_placed; [by eexists|by eexists|exact example_in_order].
Defined.
