(* ===== verification/ResourceCtl.v ===== *)
(** * The resource reconciler: containers on the bound machine

    controllers/testresource_controller.go. A resource waits to be bound, runs its container on
    the machine it is bound to, follows the container's life, and on deletion removes the
    container, cleans the disks and frees its binding. *)

From S2P Require Import Prelude GoStd Util ApiTypes Prog World Machine Resource Relationship Docker.
From S2P Require Import Scheduler.

(** The capacity is negative for an empty list, and [make] panics then. *)
Definition refsRemove (list : ResourceRefList) (resource : Ref) : go ResourceRefList :=
  newList ← make_slice (len list - 1);
  Ret (fold_left (fun newList elem =>
         if bool_decide (ResourceRef_Ref elem = resource) then newList else newList ++ [elem])
       list newList).

Definition timeIsZero (timeStr : string) : bool :=
  match time.Parse_RFC3339 timeStr with
  | Some datatime => time.IsZero datatime
  | None => false
  end.

Module ResourceCtl.
Section ResourceCtl.
Context {U : Units}.

Definition resourceFinalizer : string := "testresource.naglfar.pingcap.com".
Definition clusterNetwork : string := "naglfar-overlay".

Definition resource_key (r : TestResource) : string := Key (CreateRef (TestResource_ObjectMeta r)).

(** ** Removing containers *)

Definition removeContainer (resource : TestResource) (dockerClient : DockerClient) : io (option error) :=
  let containerName := TestResource.ContainerName resource in
  r ← ask (ContainerInspect dockerClient containerName);
  match r with
  | inl err => if IsErrContainerNotFound err then mret None else mret (Some err)
  | inr _ => ask (ContainerRemove dockerClient containerName true)
  end.

Definition getResourceBinding (resourceRef : Ref) : io (error + ResourceBinding) :=
  let? relation := getRelationship orelse err => mret (inl err) in
  let machine := default zeroMachineRef
    (go_lookup (ResourceToMachine (Relationship_Status relation)) (Key resourceRef)) in
  mret (inr (MachineRef_Binding machine)).

(** The part [createContainer] and [createCleaner] share: the pull, the create, its warnings. *)
Definition pull_and_create (resource : TestResource) (dockerClient : DockerClient)
    (config : Config) (hostConfig : HostConfig) (containerName reason : string) : io (option error) :=
  err ← PullImageByPolicy dockerClient (Config_Image config)
          (ContainerSpec_ImagePullPolicy (TestResourceStatus_Container (TestResource_Status resource)));
  match err with
  | Some err =>
      record_event "Warning" "pullImage" ("pulling image " +:+ Config_Image config +:+ " failed: " +:+ Error err);;
      mret (Some err)
  | None =>
      r ← ask (ContainerCreate dockerClient config hostConfig containerName);
      match r with
      | inl err => record_event "Warning" reason (Error err);; mret (Some err)
      | inr warnings =>
          r ← for_each (R := unit) (fun _ warning => record_event "Warning" reason warning;; mret (inl tt))
                (warnings : list string) tt;
          mret None
      end
  end.

Definition createContainer (resource : TestResource) (dockerClient : DockerClient) : io (option error) :=
  let containerName := TestResource.ContainerName resource in
  let? binding := getResourceBinding (CreateRef (TestResource_ObjectMeta resource))
    orelse err => mret (Some err) in
  '(config, hostConfig) ← TestResource.ContainerConfig resource binding;
  pull_and_create resource dockerClient config hostConfig containerName "ContainerCreate".

Definition createCleaner (resource : TestResource) (dockerClient : DockerClient) : io (option error) :=
  let containerName := TestResource.ContainerCleanerName resource in
  let? binding := getResourceBinding (CreateRef (TestResource_ObjectMeta resource))
    orelse err => mret (Some err) in
  '(config, hostConfig) ← TestResource.ContainerCleanerConfig resource binding;
  pull_and_create resource dockerClient config hostConfig containerName "CleanerCreate".

Definition is_nil (err : option error) : bool := match err with None => true | Some _ => false end.

(** [finalize] between opening the client and closing it: whether to requeue, and the error. *)
Definition finalize_with (resource : TestResource) (dockerClient : DockerClient) : io (bool * option error) :=
  check removeContainer resource dockerClient orelse err => mret (false, IgnoreNotFound err) in
  let cleanerName := TestResource.ContainerCleanerName resource in
  r ← ask (ContainerInspect dockerClient cleanerName);
  match r with
  | inl err =>
      if negb (IsErrContainerNotFound err) then mret (false, Some err)
      else err ← createCleaner resource dockerClient; mret (is_nil err, err)
  | inr stats =>
      if timeIsZero (ContainerState_StartedAt (ContainerJSON_State stats)) then
        err ← ask (ContainerStart dockerClient cleanerName); mret (is_nil err, err : option error)
      else
        let? code := ask (ContainerWait dockerClient cleanerName) orelse err => mret (false, Some err) in
        (if negb (code =? 0)
         then record_event "Warning" "Clean" ("fail to clean container: exit(" +:+ strconv.Itoa code +:+ ")")
         else mret tt);;
        err ← ask (ContainerRemove dockerClient cleanerName false); mret (false, err : option error)
  end.

Definition finalize (resource : TestResource) (machine : Machine) : io (bool * option error) :=
  let? dockerClient := MakeClient machine orelse err => mret (false, Some err) in
  deferring (ask (DockerClose dockerClient)) (finalize_with resource dockerClient).

(** ** Pending *)

(** The fit test of this reconciler: the scheduler's, on the resource's spec. *)
Definition TestResourceReconciler_resourceOverflow (rest : option AvailableResource)
    (newResource : TestResource) : io (option ResourceBinding) :=
  Scheduler.resourceOverflow rest (TestResource_Spec newResource).

Definition requestResource (resource : TestResource) : io (error + string) :=
  let? relation := getRelationship orelse err => mret (inl err) in
  match go_lookup (ResourceToMachine (Relationship_Status relation)) (resource_key resource) with
  | None => mret (inr "")
  | Some machineRef =>
      let? machine := get KMachine (Namespaced (MachineRef_Ref machineRef)) orelse err => mret (inl err) in
      mret (inr (MachineSpec_Host (Machine_Spec machine)))
  end.

Definition with_status (f : TestResourceStatus -> TestResourceStatus) (r : TestResource) : TestResource :=
  r <| TestResource_Status ::= f |>.

Definition reconcileStatePending (resource : TestResource) : io (Result * option error) :=
  let? ip := requestResource resource orelse err => mret (noRequeue, Some err) in
  if negb (String.eqb ip "") then
    err ← status_update KTestResource (with_status (fun s =>
      s <| TestResourceStatus_HostIP := ip |> <| TestResourceStatus_State := ResourceUninitialized |>) resource);
    mret (noRequeue, err)
  else mret (after time.Second, None).

Definition getHostMachine (resourceRef : Ref) : io (error + Machine) :=
  let? relation := getRelationship orelse err => mret (inl err) in
  let machineRef := default zeroMachineRef
    (go_lookup (ResourceToMachine (Relationship_Status relation)) (Key resourceRef)) in
  get KMachine (Namespaced (MachineRef_Ref machineRef)).

(** ** Uninitialized *)

(** The loop over the published ports, in the order of this iteration. *)
Fixpoint port_bindings (ports : gmap string (list PortBinding)) (keys : list string) (acc : string)
    : go string :=
  match keys with
  | [] => Ret acc
  | port :: l =>
      hostPort ← go_index (default [] (ports !! port)) 0;
      let item := port +:+ ":" +:+ PortBinding_HostPort hostPort in
      port_bindings ports l (if String.eqb acc "" then item else acc +:+ "," +:+ item)
  end.

Definition ssh_port (ports : gmap string (list PortBinding)) (port : Z) : Z :=
  match ports !! TestResource.SSHPort with
  | Some (p :: _) => fst (strconv.Atoi (PortBinding_HostPort p))
  | _ => port
  end.

(** The end of a container: the state, the exit code and the phase it gives. *)
Definition finish (stats : ContainerJSON) (s : TestResourceStatus) : TestResourceStatus :=
  let code := ContainerState_ExitCode (ContainerJSON_State stats) in
  s <| TestResourceStatus_State := ResourceFinish |>
    <| TestResourceStatus_ExitCode := code |>
    <| TestResourceStatus_Phase := if code =? 0 then ResourcePhaseSucceeded else ResourcePhaseFailed |>.

Definition finished (stats : ContainerJSON) : bool :=
  negb (timeIsZero (ContainerState_FinishedAt (ContainerJSON_State stats))).

Definition Requeue_err (err : option error) : Result * option error := (mkResult (is_nil err) 0, err).

(** What a started container's inspection makes of the resource. *)
Definition follow_started (resource : TestResource) (stats : ContainerJSON) : io (Result * option error) :=
  let state := ContainerJSON_State stats in
  let last (s : TestResourceStatus -> TestResourceStatus) : io (Result * option error) :=
    err ← status_update KTestResource (with_status (fun st =>
      let st := s st in if finished stats then finish stats st else st) resource);
    mret (noRequeue, err) in
  if ContainerState_Restarting state then mret (mkResult true time.Second, None)
  else if ContainerState_Running state then
    if negb (bool_decide (TestResourceStatus_Phase (TestResource_Status resource) = ResourcePhaseRunning)) then
      err ← status_update KTestResource
        (with_status (fun s => s <| TestResourceStatus_Phase := ResourcePhaseRunning |>) resource);
      mret (noRequeue, err)
    else
      match ContainerJSON_Networks stats !! clusterNetwork with
      | None => mret (noRequeue, Some (Errorf ("network configuration error, miss " +:+ clusterNetwork +:+ " network")))
      | Some ip =>
          let ports := ContainerJSON_Ports stats in
          keys ← range_keys ports;
          bindings ← lift (port_bindings ports keys (TestResourceStatus_PortBindings (TestResource_Status resource)));
          last (fun s =>
            s <| TestResourceStatus_Container ::= fun c => c <| ContainerSpec_ClusterIP := ip |> |>
              <| TestResourceStatus_State := ResourceReady |>
              <| TestResourceStatus_SSHPort ::= ssh_port ports |>
              <| TestResourceStatus_PortBindings := bindings |>)
      end
  else last (fun s => s).

Definition uninitialized_with (resource : TestResource) (dockerClient : DockerClient) : io (Result * option error) :=
  let containerName := TestResource.ContainerName resource in
  r ← ask (ContainerInspect dockerClient containerName);
  match r with
  | inl err =>
      if negb (IsErrContainerNotFound err) then
        record_event "Warning" "CreateContainer"
          ("create container " +:+ containerName +:+ " error: " +:+ Error err);;
        mret (noRequeue, Some err)
      else err ← createContainer resource dockerClient; mret (Requeue_err err)
  | inr stats =>
      if timeIsZero (ContainerState_StartedAt (ContainerJSON_State stats)) then
        match ContainerJSON_Networks stats !! clusterNetwork with
        | None =>
            err ← ask (NetworkConnect dockerClient clusterNetwork containerName); mret (Requeue_err err)
        | Some _ =>
            err ← ask (ContainerStart dockerClient containerName);
            match err with
            | Some err =>
                record_event "Warning" "StartContainer"
                  ("start container " +:+ containerName +:+ " error: " +:+ Error err);;
                mret (noRequeue, Some err)
            | None => mret (mkResult true 0, None)
            end
        end
      else follow_started resource stats
  end.

Definition reconcileStateUninitialized (resource : TestResource) : io (Result * option error) :=
  if bool_decide (TestResourceStatus_Phase (TestResource_Status resource) = ResourcePhaseNone) then
    err ← status_update KTestResource
      (with_status (fun s => s <| TestResourceStatus_Phase := ResourcePhasePending |>) resource);
    mret (noRequeue, err)
  else if String.eqb (TestResource_Image resource) "" then mret (noRequeue, None)
  else
    let? machine := getHostMachine (CreateRef (TestResource_ObjectMeta resource))
      orelse err => mret (noRequeue, Some err) in
    let? dockerClient := MakeClient machine orelse err => mret (noRequeue, Some err) in
    deferring (ask (DockerClose dockerClient)) (uninitialized_with resource dockerClient).

(** ** Ready *)

Definition ready_with (resource : TestResource) (dockerClient : DockerClient) : io (Result * option error) :=
  r ← ask (ContainerInspect dockerClient (TestResource.ContainerName resource));
  match r with
  | inl err =>
      if negb (IsErrContainerNotFound err) then mret (noRequeue, Some err)
      else
        err ← status_update KTestResource
          (with_status (fun s => s <| TestResourceStatus_State := ResourceUninitialized |>) resource);
        mret (noRequeue, err)
  | inr stats =>
      let resource := with_status (fun s =>
        let s := if ContainerState_Restarting (ContainerJSON_State stats)
                 then s <| TestResourceStatus_State := ResourceUninitialized |> else s in
        if finished stats then finish stats s else s) resource in
      if negb (bool_decide (TestResource_State resource = ResourceReady)) then
        err ← status_update KTestResource resource; mret (noRequeue, err)
      else mret (mkResult true time.Second, None)
  end.

Definition reconcileStateReady (resource : TestResource) : io (Result * option error) :=
  let? machine := getHostMachine (CreateRef (TestResource_ObjectMeta resource))
    orelse err => mret (noRequeue, Some err) in
  let? dockerClient := Machine.DockerClient machine orelse err => mret (noRequeue, Some err) in
  deferring (ask (DockerClose dockerClient)) (ready_with resource dockerClient).

(** ** Finish and Destroy *)

Definition reconcileStateFinish (resource : TestResource) : io (Result * option error) :=
  mret (noRequeue, None).

Definition reconcileStateDestroy (resource : TestResource) : io (Result * option error) :=
  let? machine := getHostMachine (CreateRef (TestResource_ObjectMeta resource))
    orelse err => mret (noRequeue, Some err) in
  '(requeue, err) ← finalize resource machine;
  match err with
  | Some err => mret (noRequeue, Some err)
  | None =>
      if requeue : bool then mret (after time.Second, None)
      else
        record_event "Normal" "uninstall" "uninstall resource successfully";;
        (* clear all container spec *)
        err ← status_update KTestResource (with_status (fun s =>
          s <| TestResourceStatus_Container := zeroContainerSpec |>
            <| TestResourceStatus_State := ResourceUninitialized |>) resource);
        mret (noRequeue, err)
  end.

(** ** Deletion *)

(** The last two steps of a deletion: the finalizer goes and the object with it. *)
Definition drop_finalizer (resource : TestResource) : io (Result * option error) :=
  finalizers ← lift (Slice.StringsRemove
    (ObjectMeta_Finalizers (TestResource_ObjectMeta resource)) resourceFinalizer);
  err ← update KTestResource
    (resource <| TestResource_ObjectMeta ::= fun m => m <| ObjectMeta_Finalizers := finalizers |> |>);
  mret (noRequeue, err).

(** Taking the resource off the machine in the relationship. *)
Definition unbind (resource : TestResource) (machine : Machine) (relation : Relationship) : go Relationship :=
  let status := Relationship_Status relation in
  let machineKey := Key (CreateRef (Machine_ObjectMeta machine)) in
  refs ← refsRemove (default [] (go_lookup (MachineToResources status) machineKey))
           (CreateRef (TestResource_ObjectMeta resource));
  mtr ← go_assign (MachineToResources status) machineKey refs;
  Ret (relation <| Relationship_Status := status
    <| MachineToResources := mtr |>
    <| ResourceToMachine ::= fun m => go_delete m (resource_key resource) |> |>).

Definition reconcileDeletion (resource : TestResource) : io (Result * option error) :=
  let? relation := getRelationship orelse err => mret (noRequeue, Some err) in
  match go_lookup (ResourceToMachine (Relationship_Status relation)) (resource_key resource) with
  | None => drop_finalizer resource
  | Some machineRef =>
      let? machine := get KMachine (Namespaced (MachineRef_Ref machineRef))
        orelse err => mret (noRequeue, Some err) in
      '(requeue, err) ← finalize resource machine;
      match err with
      | Some err => mret (noRequeue, Some err)
      | None =>
          if requeue : bool then mret (after time.Second, None)
          else
            relation ← lift (unbind resource machine relation);
            check status_update KRelationship relation orelse err => mret (noRequeue, Some err) in
            drop_finalizer resource
      end
  end.

Definition Reconcile (req : NamespacedName) : io (Result * option error) :=
  let? resource := get KTestResource req orelse err => mret (noRequeue, IgnoreNotFound err) in
  let meta := TestResource_ObjectMeta resource in
  let live := DeletionTimestamp_IsZero meta in
  let finalized := Slice.StringsContains (ObjectMeta_Finalizers meta) resourceFinalizer in
  if live && negb finalized then
    err ← update KTestResource
      (resource <| TestResource_ObjectMeta ::= fun m =>
         m <| ObjectMeta_Finalizers := ObjectMeta_Finalizers m ++ [resourceFinalizer] |> |>);
    mret (noRequeue, err)
  else if negb live && finalized then reconcileDeletion resource
  else
    match TestResource_State resource with
    | ResourceStateNone =>
        err ← status_update KTestResource
          (with_status (fun s => s <| TestResourceStatus_State := ResourcePending |>) resource);
        mret (noRequeue, err)
    | ResourcePending => reconcileStatePending resource
    | ResourceUninitialized => reconcileStateUninitialized resource
    | ResourceReady => reconcileStateReady resource
    | ResourceFinish => reconcileStateFinish resource
    | ResourceDestroy => reconcileStateDestroy resource
    | ResourceStateOther _ => mret (noRequeue, None)
    end.

End ResourceCtl.
End ResourceCtl.
