(* ===== verification/ResourceTheorems.v ===== *)
(** * The resource reconciler: its contract

    What [ResourceCtl.Reconcile] promises of every call it makes, whatever the services answer:
    its updates of the relationship are ledger steps, the resource moves along its state
    machine, it touches no container but its own two and gives them what is bound, and its
    finalizer goes last. *)

From S2P Require Import Prelude GoStd Util ApiTypes Prog World Machine Resource Relationship Docker.
From S2P Require Import Scheduler ResourceCtl.
Import ResourceCtl.

Lemma refsRemove_Ret l res l' :
  refsRemove l res = Ret l' -> l' = filterb (Ledger.not_of res) l.
Proof.
  unfold refsRemove. intros H. apply go_bind_Ret_inv in H as (l0 & H0 & H). injection H as <-.
  unfold make_slice in H0. destruct (_ <? 0); [done|]. injection H0 as <-.
  assert (Hgen : forall acc, fold_left (fun newList elem =>
      if bool_decide (ResourceRef_Ref elem = res) then newList else newList ++ [elem]) l acc =
      acc ++ filterb (Ledger.not_of res) l).
  { induction l as [|a l IH]; intros acc; simpl; [by rewrite app_nil_r|]. rewrite IH.
    unfold Ledger.not_of at 2. destruct (bool_decide _); simpl; [done|by rewrite <-app_assoc]. }
  by rewrite Hgen.
Qed.

(** Taking a resource off a machine's list keeps the other resources, in order; from an
    empty list it does not give the empty list, it panics. *)
Lemma refsRemove_spec l res :
  match refsRemove l res with
  | Ret l' => l <> [] /\ l' = filterb (Ledger.not_of res) l
  | Panic _ => l = []
  end.
Proof.
  destruct l as [|a l]; [done|]. destruct (refsRemove (a :: l) res) as [l'|e] eqn:H.
  - split; [done|]. by apply refsRemove_Ret.
  - exfalso. revert H. unfold refsRemove, make_slice. rewrite len_cons.
    pose proof (len_nonneg l). destruct (Z.ltb_spec (len l + 1 - 1) 0); [lia|done].
Qed.

Section contract.
Context {U : Units}.

(** ** The guards *)

Definition inspected (r : TestResource) (P : ContainerJSON -> Prop) : history -> Prop :=
  happened (fun c => match c return answer c -> Prop with
    | ContainerInspect _ name => fun a =>
        name = TestResource.ContainerName r /\ exists stats, a = inr stats /\ P stats
    | _ => fun _ => False
    end).

Definition container_absent (r : TestResource) : history -> Prop :=
  happened (fun c => match c return answer c -> Prop with
    | ContainerInspect _ name => fun a =>
        name = TestResource.ContainerName r /\ exists err, a = inl err /\ IsErrContainerNotFound err = true
    | _ => fun _ => False
    end).

Definition container_removed (name : string) : history -> Prop :=
  happened (fun c => match c return answer c -> Prop with
    | ContainerRemove _ name' _ => fun a => name' = name /\ a = None
    | _ => fun _ => False
    end).

(** A Docker call answered with an error the API machinery takes for its own not-found. *)
Definition foreign_not_found : history -> Prop :=
  happened (fun c => match c return answer c -> Prop with
    | ContainerInspect _ _ => fun a => exists err, a = inl err /\ IsNotFound err = true
    | ContainerRemove _ _ _ => fun a => exists err, a = Some err /\ IsNotFound err = true
    | _ => fun _ => False
    end).

(** The cleaner of the resource was waited for at a daemon: it ended well, or its exit code was
    reported in an event. *)
Definition cleaner_ended (r : TestResource) (d : DockerClient) (h : history) : Prop :=
  exists code, happened (fun c => match c return answer c -> Prop with
      | ContainerWait d' name => fun a => d' = d /\ name = TestResource.ContainerCleanerName r /\ a = inr code
      | _ => fun _ => False
      end) h /\
    (code = 0 \/ happened (fun c _ => c = RecordEvent "Warning" "Clean"
      ("fail to clean container: exit(" +:+ strconv.Itoa code +:+ ")")) h).

Definition cleaner_removed (r : TestResource) (d : DockerClient) : history -> Prop :=
  happened (fun c => match c return answer c -> Prop with
    | ContainerRemove d' name _ => fun a => d' = d /\ name = TestResource.ContainerCleanerName r /\ a = None
    | _ => fun _ => False
    end).

(** The container is gone, and a cleaner of its disks has ended and was removed. *)
Definition cleaned (r : TestResource) (h : history) : Prop :=
  foreign_not_found h \/
  ((container_absent r h \/ container_removed (TestResource.ContainerName r) h) /\
   exists d, cleaner_ended r d h /\ cleaner_removed r d h).

Definition bound_in (s : RelationshipStatus) (r : TestResource) : option MachineRef :=
  go_lookup (ResourceToMachine s) (resource_key r).

(** The container that was asked for; its address is the daemon's. *)
Definition job (r : TestResource) : ResourceContainerSpec :=
  (TestResourceStatus_Container (TestResource_Status r)) <| ContainerSpec_ClusterIP := "" |>.
Definition claim_on (r : TestResource) : option Ref := TestResourceStatus_ClaimRef (TestResource_Status r).

(** What the reconciler leaves to others: the claim, and the container asked for until it is
    destroyed. *)
Definition framed (r o : TestResource) : Prop :=
  claim_on o = claim_on r /\ (TestResource_State r = ResourceDestroy \/ job o = job r).

(** The transitions of a resource's state, with what must have been seen for each. *)
Definition transition (h : history) (r o : TestResource) : Prop :=
  let st := TestResource_Status o in framed r o /\
  match TestResource_State r, TestResource_State o with
  | ResourceStateNone, ResourcePending => True
  | ResourcePending, ResourceUninitialized =>
      is_Some (bound_in (last_relationship h) r) /\ TestResourceStatus_HostIP st <> ""
  | ResourceUninitialized, ResourceUninitialized => True
  | ResourceUninitialized, ResourceReady =>
      TestResource_Image r <> "" /\ TestResourceStatus_Phase (TestResource_Status r) = ResourcePhaseRunning /\
      inspected r (fun stats => ContainerState_Running (ContainerJSON_State stats) = true /\
        ContainerState_Restarting (ContainerJSON_State stats) = false /\ finished stats = false /\
        ContainerJSON_Networks stats !! clusterNetwork =
          Some (ContainerSpec_ClusterIP (TestResourceStatus_Container st))) h
  | ResourceUninitialized, ResourceFinish | ResourceReady, ResourceFinish =>
      inspected r (fun stats => finished stats = true /\
        TestResourceStatus_ExitCode st = ContainerState_ExitCode (ContainerJSON_State stats)) h /\
      TestResourceStatus_Phase st =
        (if TestResourceStatus_ExitCode st =? 0 then ResourcePhaseSucceeded else ResourcePhaseFailed) /\
      (TestResource_State r = ResourceUninitialized -> TestResource_Image r <> "")
  | ResourceReady, ResourceUninitialized =>
      container_absent r h \/
      inspected r (fun stats => ContainerState_Restarting (ContainerJSON_State stats) = true) h
  | ResourceDestroy, ResourceUninitialized =>
      cleaned r h /\ TestResourceStatus_Container st = zeroContainerSpec
  | _, _ => False
  end.

Definition state_guard (h : history) (c : call) : Prop :=
  match c with
  | StatusUpdate KTestResource o =>
      exists r, last_got KTestResource h = Some r /\ TestResource_ObjectMeta o = TestResource_ObjectMeta r /\
        TestResource_Spec o = TestResource_Spec r /\ transition h r o
  | _ => True
  end.

Definition unbound (r : TestResource) (h : history) : Prop :=
  bound_in (last_relationship h) r = None \/
  (cleaned r h /\ happened (fun c => match c return answer c -> Prop with
    | StatusUpdate KRelationship o => fun a => (exists x, a = inr x) /\ bound_in (Relationship_Status o) r = None
    | _ => fun _ => False
    end) h).

Definition finalizer_guard (h : history) (c : call) : Prop :=
  match c with
  | Update KTestResource o =>
      exists r, last_got KTestResource h = Some r /\
        (exists fs, o = r <| TestResource_ObjectMeta ::= fun m => m <| ObjectMeta_Finalizers := fs |> |>) /\
        (resourceFinalizer ∈ ObjectMeta_Finalizers (TestResource_ObjectMeta o) \/
         (DeletionTimestamp_IsZero (TestResource_ObjectMeta r) = false /\ unbound r h))
  | Create KTestResource _ | Delete KTestResource _ => False
  | ContainerRemove d name _ => forall r, last_got KTestResource h = Some r ->
      name = TestResource.ContainerCleanerName r -> cleaner_ended r d h
  | _ => True
  end.

Definition binding_in (s : RelationshipStatus) (r : TestResource) : ResourceBinding :=
  MachineRef_Binding (default zeroMachineRef (bound_in s r)).

(** The resource is being deleted, and not yet let go of. *)
Definition deleting (r : TestResource) : bool :=
  negb (DeletionTimestamp_IsZero (TestResource_ObjectMeta r)) &&
  Slice.StringsContains (ObjectMeta_Finalizers (TestResource_ObjectMeta r)) resourceFinalizer.

Definition relationship_was (s : RelationshipStatus) : history -> Prop :=
  happened (fun c x => relationship_read c x = Some s).

(** The machine was read as the one that a relationship read before binds the resource to. *)
Definition hosted (r : TestResource) (m : Machine) (h : history) : Prop :=
  exists s, relationship_was s h /\
    happened (fun c => match c return answer c -> Prop with
      | Get KMachine key => fun x =>
          key = Namespaced (MachineRef_Ref (default zeroMachineRef (bound_in s r))) /\ x = inr m
      | _ => fun _ => False
      end) h.

Definition client_made (m : Machine) (d : DockerClient) : history -> Prop :=
  happened (fun c => match c return answer c -> Prop with
    | DockerNewClient url version => fun x =>
        url = Machine.DockerURL m /\ version = MachineSpec_DockerVersion (Machine_Spec m) /\ x = inr d
    | _ => fun _ => False
    end).

(** The client is one of the daemon on the machine the resource is bound to. *)
Definition located (r : TestResource) (d : DockerClient) (h : history) : Prop :=
  exists m, hosted r m h /\ client_made m d h.

(** The daemon a call about containers goes to. *)
Definition daemon_of (c : call) : option DockerClient :=
  match c with
  | ContainerInspect d _ | ContainerCreate d _ _ _ | ContainerStart d _ | ContainerWait d _
  | ContainerRemove d _ _ | NetworkConnect d _ _ => Some d
  | _ => None
  end.

Definition place_guard (h : history) (c : call) : Prop :=
  forall d, daemon_of c = Some d -> exists r, last_got KTestResource h = Some r /\ located r d h.

(** The relationship is written only to take the resource, cleaned up, off its machine. *)
Definition unbind_guard (h : history) (c : call) : Prop :=
  match c with
  | StatusUpdate KRelationship o =>
      exists r, last_got KTestResource h = Some r /\ deleting r = true /\ cleaned r h /\
        ResourceToMachine (Relationship_Status o) =
          go_delete (ResourceToMachine (last_relationship h)) (resource_key r) /\
        AcceptedRequests (Relationship_Status o) = AcceptedRequests (last_relationship h)
  | _ => True
  end.

(** Only its own containers, created with the CPUs and memory of its binding, and the one that
    serves not while the resource is deleted. *)
Definition container_guard (h : history) (c : call) : Prop :=
  match c with
  | ContainerCreate _ cfg host name =>
      exists r, last_got KTestResource h = Some r /\
      let b := binding_in (last_relationship h) r in
      (name = TestResource.ContainerName r /\ deleting r = false /\ Config_Image cfg = TestResource_Image r /\
       HostConfig_CpusetCpus host = Machine.cpuSetStr (ResourceBinding_CPUSet b) /\
       BytesSize.Unwrap (ResourceBinding_Memory b) = Ret (HostConfig_Memory host)) \/
      (name = TestResource.ContainerCleanerName r /\ Config_Image cfg = TestResource.cleanerImage /\
       len (HostConfig_Mounts host) = Z.of_nat (size (ResourceBinding_Disks b)))
  | ContainerStart _ name | ContainerRemove _ name _ | NetworkConnect _ _ name =>
      exists r, last_got KTestResource h = Some r /\
        (name = TestResource.ContainerName r \/ name = TestResource.ContainerCleanerName r)
  | _ => True
  end.

Definition contract (h : history) (c : call) : Prop :=
  ledger_guard h c /\ state_guard h c /\ finalizer_guard h c /\ container_guard h c /\
  place_guard h c /\ unbind_guard h c.

(** ** Walking the handler *)

(** What a stretch that may read the relationship, but not the resource, keeps. *)
Definition keeps (h h' : history) : Prop :=
  (forall P, happened P h -> happened P h') /\ last_got KTestResource h' = last_got KTestResource h.

#[local] Instance keeps_preorder : PreOrder keeps.
Proof.
  split; [by intros h|]. intros h1 h2 h3 [H1 F1] [H2 F2]. split; [auto|by rewrite F2].
Qed.
Lemma extends_keeps h h' : extends h h' -> keeps h h'.
Proof. intros (_ & H & F). split; [done|apply F]. Qed.

Lemma keeps_event h (c : call) (x : answer c) : got KTestResource c x = None -> keeps h (Event c x :: h).
Proof.
  intros Hg. split; [by intros; apply happened_later|]. cbn [last_got ev_call ev_answer]. by rewrite Hg.
Qed.

Context (r : TestResource).

Lemma hosted_keeps m h h' : keeps h h' -> hosted r m h -> hosted r m h'.
Proof. intros [H _] (s & Hs & Hm). exists s. split; by apply H. Qed.

(** The run is the resource's, and the client one of its machine's daemon. *)
Definition home (d : DockerClient) (h : history) : Prop :=
  last_got KTestResource h = Some r /\ located r d h.

Lemma home_keeps d h h' : keeps h h' -> home d h -> home d h'.
Proof.
  intros Hk [Hgot (m & Hm & Hd)]. split; [by rewrite (proj2 Hk)|].
  exists m. split; [by eapply hosted_keeps|by apply Hk].
Qed.

Lemma place_here d h (c : call) : home d h -> daemon_of c = Some d -> place_guard h c.
Proof. intros [Hgot Hl] Hc d'. rewrite Hc. intros [= <-]. by exists r. Qed.

Lemma pull_and_create_spec client config host name reason h :
  (forall h', extends h h' -> contract h' (ContainerCreate client config host name)) ->
  wp admissible contract (pull_and_create r client config host name reason) h
    (fun h' _ => extends h h').
Proof.
  intros Hcreate.
  assert (Hc : computes contract (fun _ => True)
    (PullImageByPolicy client (Config_Image config)
      (ContainerSpec_ImagePullPolicy (TestResourceStatus_Container (TestResource_Status r))))).
  { apply computes_PullImageByPolicy. by intros ? []. }
  unfold pull_and_create. apply wp_bind. eapply wp_mono; [apply Hc|].
  intros h1 [[err|]|e] [Hext _]; [| |done].
  - unfold record_event. wp_run. split; [done|]. intros [] _. cbn [wp].
    etrans; [exact Hext|]. split; [done|]. split; [by intros; apply happened_later|done].
  - cbn [wp mbind prog_bind_inst prog_bind ask mret]. split; [by apply Hcreate|].
    intros [err|warnings] _.
    + unfold record_event. wp_run. split; [done|]. intros [] _. cbn [wp].
      etrans; [exact Hext|]. split; [done|]. split; [by intros; do 2 apply happened_later|done].
    + match goal with |- wp _ _ _ ?h2 _ => assert (Hext2 : extends h h2) end.
      { etrans; [exact Hext|]. split; [done|]. split; [by intros; apply happened_later|done]. }
      apply wp_bind. eapply wp_mono; [apply (computes_for_each contract (fun _ _ => True) (fun _ => True))|].
      * done.
      * intros. eapply computes_bind; [by apply (computes_ask contract (RecordEvent _ _ _) (fun _ => True))|].
        intros _ _. by apply computes_ret.
      * intros h3 [x|e] [Hext3 _]; cbn [wp mret prog_ret_inst]; by etrans.
Qed.

Lemma getResourceBinding_spec h :
  wp admissible contract (getResourceBinding (CreateRef (TestResource_ObjectMeta r))) h
    (fun h' res => keeps h h' /\ forall b, res = Ret (inr b) -> b = binding_in (last_relationship h') r).
Proof.
  unfold getResourceBinding. apply wp_bind, wp_getRelationship; [done|]. intros x. cbn zeta.
  assert (Hk : keeps h (Event (Get KRelationship relationshipName) x :: h)).
  { apply keeps_event. by destruct x. }
  destruct x as [err|rel]; [destruct (IsNotFound err) eqn:Hnf|]; (split; [exact Hk|]); intros b; try done;
    intros [= <-]; [by rewrite last_relationship_absent|done].
Qed.

(** Creating either container: the configuration is computed from the binding just read. *)
Lemma create_spec (config : ResourceBinding -> io (Config * HostConfig)) client name reason h :
  home client h ->
  (forall b, computes contract (fun ch : Config * HostConfig => forall h',
     last_got KTestResource h' = Some r -> binding_in (last_relationship h') r = b ->
     container_guard h' (ContainerCreate client ch.1 ch.2 name)) (config b)) ->
  wp admissible contract
    (let? binding := getResourceBinding (CreateRef (TestResource_ObjectMeta r)) orelse err => mret (Some err) in
     '(c, host) ← config binding;
     pull_and_create r client c host name reason) h (fun h' _ => keeps h h').
Proof.
  intros Hhome Hconf. apply wp_bind. eapply wp_mono; [apply getResourceBinding_spec|].
  intros h1 [[err|b]|e] [Hk Hb]; [done| |done]. specialize (Hb b eq_refl). subst b.
  apply wp_bind. eapply wp_mono; [apply Hconf|].
  intros h2 [[c host]|e] [Hext Hc]; [|by etrans; [|apply extends_keeps]].
  eapply wp_mono; [apply pull_and_create_spec|].
  - intros h3 Hext3. simpl in Hc.
    assert (Hk3 : keeps h h3) by (etrans; [exact Hk|]; apply extends_keeps; by etrans).
    pose proof (home_keeps _ _ _ Hk3 Hhome) as Hhome3.
    do 3 (split; [done|]). split; [|by split; [apply (place_here client)|]].
    apply (Hc h3 (proj1 Hhome3)). by rewrite (proj1 Hext3), (proj1 Hext).
  - intros h3 res Hext3. etrans; [exact Hk|]. apply extends_keeps. by etrans.
Qed.

Lemma createContainer_spec client h :
  home client h -> deleting r = false ->
  wp admissible contract (createContainer r client) h (fun h' _ => keeps h h').
Proof.
  intros Hhome Hlive. apply (create_spec (TestResource.ContainerConfig r)); [done|].
  intros b. unfold TestResource.ContainerConfig.
  eapply computes_bind; [by apply computes_range_keys|]. intros keys _. cbn zeta.
  eapply computes_bind; [apply computes_lift_eq|]. intros memory Hmem. apply computes_ret.
  intros h' Hgot' <-. exists r. split; [done|]. by left.
Qed.

Lemma createCleaner_spec client h :
  home client h -> wp admissible contract (createCleaner r client) h (fun h' _ => keeps h h').
Proof.
  intros Hhome. apply (create_spec (TestResource.ContainerCleanerConfig r)); [done|].
  intros b. unfold TestResource.ContainerCleanerConfig.
  eapply computes_bind; [by apply computes_range_keys|]. intros keys Hkeys. cbn zeta.
  apply computes_ret. intros h' Hgot' <-. exists r. split; [done|]. right. split; [done|].
  split; [by destruct (0 <? _)|]. by rewrite <-(TestResource.disk_mounts_length _ _ Hkeys).
Qed.

(** A call that reads no object, at any point of the handler. *)
Lemma wp_ask_neutral {B} (c : call) (k : answer c -> io B) h Q :
  contract h c -> (forall x, got KTestResource c x = None) ->
  (forall x, keeps h (Event c x :: h) -> wp admissible contract (k x) (Event c x :: h) Q) ->
  wp admissible contract (ask c ≫= k) h Q.
Proof.
  intros Hc Hg Hk. cbn [wp mbind prog_bind_inst prog_bind ask]. split; [done|].
  intros x _. apply Hk. by apply keeps_event.
Qed.

Definition own (name : string) : Prop :=
  name = TestResource.ContainerName r \/ name = TestResource.ContainerCleanerName r.

(** What the handler may ask the daemon of its machine, but for creating a container. *)
Lemma own_contract h c d name :
  home d h -> own name ->
  c = ContainerInspect d name \/ c = ContainerWait d name \/
  c = ContainerStart d name \/
  ((exists f, c = ContainerRemove d name f) /\ (name = TestResource.ContainerCleanerName r -> cleaner_ended r d h)) \/
  (exists n, c = NetworkConnect d n name) -> contract h c.
Proof.
  intros Hhome Hown Hc. assert (Hp : daemon_of c = Some d) by naive_solver.
  pose proof (place_here d h c Hhome Hp). destruct Hhome as [Hgot _].
  destruct Hc as [->|[->|[->|[[[f ->] Hended]|[n ->]]]]]; (do 2 (split; [done|])); (split; [|split; [|done]]);
    try done; try by exists r.
  intros r'. rewrite Hgot. by intros [= <-].
Qed.

Lemma wp_own_call {B} (c : call) (k : answer c -> io B) d name h Q :
  home d h -> own name ->
  c = ContainerInspect d name \/ c = ContainerWait d name \/
  c = ContainerStart d name \/
  ((exists f, c = ContainerRemove d name f) /\ (name = TestResource.ContainerCleanerName r -> cleaner_ended r d h)) \/
  (exists n, c = NetworkConnect d n name) ->
  (forall x, keeps h (Event c x :: h) -> home d (Event c x :: h) ->
     wp admissible contract (k x) (Event c x :: h) Q) ->
  wp admissible contract (ask c ≫= k) h Q.
Proof.
  intros Hhome Hown Hc Hk. apply wp_ask_neutral.
  - by eapply own_contract.
  - naive_solver.
  - intros x Hx. apply Hk; [done|]. by eapply home_keeps.
Qed.

(** [finalize] without an error and without a requeue has cleaned up, and read nothing. *)
Abbreviation finalized h := (fun h' res =>
  keeps h h' /\ (res = Ret (false, None) -> last_relationship h' = last_relationship h /\ cleaned r h')).

Definition main_gone (h : history) : Prop :=
  foreign_not_found h \/ container_absent r h \/ container_removed (TestResource.ContainerName r) h.

Lemma main_gone_keeps h h' : keeps h h' -> main_gone h -> main_gone h'.
Proof. intros [H _] [Hg|[Hg|Hg]]; [left|right; left|right; right]; by apply H. Qed.

Lemma cleaner_ended_keeps d h h' : (forall P, happened P h -> happened P h') -> cleaner_ended r d h -> cleaner_ended r d h'.
Proof. intros H (code & Hw & Hc). exists code. split; [by apply H|]. destruct Hc as [?|Hc]; [by left|right; by apply H]. Qed.

Lemma remove_cleaner_spec client h :
  home client h -> main_gone h -> cleaner_ended r client h ->
  wp admissible contract
    (err ← ask (ContainerRemove client (TestResource.ContainerCleanerName r) false);
     mret (false, err : option error)) h (finalized h).
Proof.
  intros Hhome Hgone Hended. eapply wp_own_call; [done|by right|by eauto 7|]. intros err Hk _.
  split; [done|]. intros [= ->]. split; [done|]. apply (main_gone_keeps _ _ Hk) in Hgone as [Hg|Hg]; [by left|right].
  split; [done|]. exists client. split; [by eapply cleaner_ended_keeps, Hended; apply Hk|by apply happened_here].
Qed.

(** The second half of [finalize]: the cleaner is created, started, waited for, and removed. *)
Lemma cleaner_spec client h :
  home client h -> main_gone h ->
  wp admissible contract
    (r0 ← ask (ContainerInspect client (TestResource.ContainerCleanerName r));
     match r0 with
     | inl err =>
         if negb (IsErrContainerNotFound err) then mret (false, Some err)
         else err ← createCleaner r client; mret (is_nil err, err)
     | inr stats =>
         if timeIsZero (ContainerState_StartedAt (ContainerJSON_State stats)) then
           err ← ask (ContainerStart client (TestResource.ContainerCleanerName r)); mret (is_nil err, err : option error)
         else
           let? code := ask (ContainerWait client (TestResource.ContainerCleanerName r)) orelse err => mret (false, Some err) in
           (if negb (code =? 0)
            then record_event "Warning" "Clean" ("fail to clean container: exit(" +:+ strconv.Itoa code +:+ ")")
            else mret tt);;
           err ← ask (ContainerRemove client (TestResource.ContainerCleanerName r) false); mret (false, err : option error)
     end) h (finalized h).
Proof.
  intros Hhome Hgone. eapply wp_own_call; [done|by right|by left|].
  intros [err|stats] Hk1 Hhome1; set (h1 := Event _ _ :: h) in *.
  - destruct (IsErrContainerNotFound err); cbn [negb]; [|done].
    apply wp_bind. eapply wp_mono; [by apply createCleaner_spec|].
    intros h2 [err'|e] Hk2; (split; [by etrans|]); [by destruct err'|done].
  - destruct (timeIsZero _).
    + eapply wp_own_call; [done|by right|by eauto|]. intros err Hk2 _. split; [by etrans|]. by destruct err.
    + eapply wp_own_call; [done|by right|by eauto|].
      intros [err|code] Hk2 Hhome2; set (h2 := Event _ _ :: h1) in *; [by split; [etrans|]|].
      apply (main_gone_keeps _ _ (transitivity Hk1 Hk2)) in Hgone.
      assert (Hfin : forall h3, keeps h2 h3 -> last_relationship h3 = last_relationship h -> cleaner_ended r client h3 ->
        wp admissible contract
          (err ← ask (ContainerRemove client (TestResource.ContainerCleanerName r) false);
           mret (false, err : option error)) h3 (finalized h)).
      { intros h3 Hk3 Hl3 Hended. eapply wp_mono; [apply remove_cleaner_spec|].
        - by apply (home_keeps _ _ _ Hk3).
        - by apply (main_gone_keeps _ _ Hk3).
        - done.
        - intros h4 res [Hk4 Hres]. split; [do 3 (etrans; [eassumption|]); done|].
          intros [Hl4 Hc]%Hres. by rewrite Hl4. }
      assert (Hwait : happened (fun c => match c return answer c -> Prop with
          | ContainerWait d' name => fun a => d' = client /\ name = TestResource.ContainerCleanerName r /\ a = inr code
          | _ => fun _ => False end) h2) by by apply happened_here.
      apply wp_bind. destruct (Z.eqb_spec code 0) as [Hcode|Hcode]; cbn [negb].
      * cbn [wp mret prog_ret_inst]. apply Hfin; [done..|]. exists code. auto.
      * unfold record_event. cbn [wp ask]. split; [done|]. intros [] _. apply Hfin; [by apply keeps_event|done|].
        exists code. split; [by apply happened_later|]. right. by apply happened_here.
Qed.

Lemma finalize_with_spec client h :
  home client h -> wp admissible contract (finalize_with r client) h (finalized h).
Proof.
  intros Hhome. unfold finalize_with, removeContainer. apply wp_bind.
  eapply wp_own_call; [done|by left|by left|]. intros x Hk1 Hhome1. set (h1 := Event _ x :: h) in *.
  destruct x as [err|stats].
  - destruct (IsErrContainerNotFound err) eqn:Hnf; cbn [wp mret prog_ret_inst].
    + eapply wp_mono; [apply cleaner_spec; [done|]|].
      * right. left. apply happened_here. split; [done|]. by exists err.
      * intros h2 res [Hk2 Hres]. split; [by etrans|]. exact Hres.
    + unfold IgnoreNotFound. destruct (IsNotFound err) eqn:Hap; (split; [exact Hk1|]); [|done].
      intros _. split; [done|]. left. apply happened_here. by exists err.
  - cbn [wp ask]. split.
    { eapply own_contract; [done|by left|]. right. right. right. left. split; [by eexists|].
      intros E. by destruct (cleaner_name r). }
    intros err _. set (h2 := Event _ err :: h1). assert (Hk2 : keeps h1 h2) by by apply keeps_event.
    cbn [wp]. destruct err as [err|].
    + unfold IgnoreNotFound. destruct (IsNotFound err) eqn:Hap; (split; [by etrans|]); [|done].
      intros _. split; [done|]. left. apply happened_here. by exists err.
    + eapply wp_mono; [apply cleaner_spec|].
      * by apply (home_keeps _ _ _ Hk2).
      * right. right. by apply happened_here.
      * intros h3 res [Hk3 Hres]. split; [by do 2 (etrans; [eassumption|])|]. exact Hres.
Qed.

(** The body runs between the opening of a client and its deferred close. *)
Lemma with_client_spec {B} m (onerr : error -> io B) (body : DockerClient -> io B) h
    (Q : history -> go B -> Prop) :
  last_got KTestResource h = Some r -> hosted r m h ->
  (forall h1 err, extends h h1 -> wp admissible contract (onerr err) h1 Q) ->
  (forall h1 client, extends h h1 -> home client h1 ->
     wp admissible contract (body client) h1 (fun h2 res => Q (Event (DockerClose client) tt :: h2) res)) ->
  wp admissible contract
    (let? client := Machine.DockerClient m orelse err => onerr err in
     deferring (ask (DockerClose client)) (body client)) h Q.
Proof.
  intros Hgot Hhost Herr Hbody. unfold Machine.DockerClient.
  destruct (MachineSpec_DockerTLS _); [by apply Herr|].
  cbn [wp mbind prog_bind_inst prog_bind ask]. split; [done|]. intros x _. set (h1 := Event _ x :: h).
  assert (Hext : extends h h1) by by split; [|split; [by intros; apply happened_later|]].
  destruct x as [err|client]; [by apply Herr|].
  apply wp_deferring. eapply wp_mono; [apply Hbody; [done|]|].
  - split; [done|]. exists m. split; [|by apply happened_here].
    apply (hosted_keeps _ h); [by apply extends_keeps|done].
  - intros h2 res HQ. cbn [wp ask]. split; [done|]. by intros [] _.
Qed.

Lemma close_extends h client : extends h (Event (DockerClose client) tt :: h).
Proof. split; [done|]. split; [by intros; apply happened_later|done]. Qed.

Lemma cleaned_mono h h' : (forall P, happened P h -> happened P h') -> cleaned r h -> cleaned r h'.
Proof.
  intros H [Hf|[Ha (d & He & Hc)]]; [left; by apply H|right]. split; [destruct Ha; [left|right]; by apply H|].
  exists d. split; [by eapply cleaner_ended_keeps|by apply H].
Qed.

Lemma finalize_spec m h :
  last_got KTestResource h = Some r -> hosted r m h ->
  wp admissible contract (finalize r m) h (finalized h).
Proof.
  intros Hgot Hhost. unfold finalize, MakeClient. apply with_client_spec; [done|done| |].
  - intros h1 err Hext. split; [by apply extends_keeps|done].
  - intros h1 client Hext Hhome. eapply wp_mono; [by apply finalize_with_spec|].
    intros h2 res [Hk Hres]. pose proof (close_extends h2 client) as Hclose. split.
    + etrans; [by apply extends_keeps|]. etrans; [exact Hk|]. by apply extends_keeps.
    + intros [Hl Hc]%Hres. split; [by rewrite (proj1 Hclose), Hl, (proj1 Hext)|].
      by apply (cleaned_mono h2); [apply Hclose|].
Qed.

Lemma getHostMachine_spec h :
  wp admissible contract (getHostMachine (CreateRef (TestResource_ObjectMeta r))) h (fun h' res =>
    keeps h h' /\ forall m, res = Ret (inr m) -> hosted r m h').
Proof.
  unfold getHostMachine. apply wp_bind, wp_getRelationship; [done|]. intros x. cbn zeta.
  set (h1 := Event (Get KRelationship relationshipName) x :: h).
  assert (Hk : keeps h h1) by (apply keeps_event; by destruct x).
  assert (Hget : forall rel, relationship_was (Relationship_Status rel) h1 ->
    wp admissible contract (get KMachine (Namespaced (MachineRef_Ref (default zeroMachineRef
        (go_lookup (ResourceToMachine (Relationship_Status rel)) (Key (CreateRef (TestResource_ObjectMeta r))))))))
      h1 (fun h' res => keeps h h' /\ forall m, res = Ret (inr m) -> hosted r m h')).
  { intros rel Hrel. unfold get. cbn [wp ask]. split; [done|]. intros y _. split.
    - etrans; [exact Hk|]. apply keeps_event. by destruct y.
    - intros m [= ->]. exists (Relationship_Status rel). split; [by apply happened_later|]. by apply happened_here. }
  destruct x as [err|rel]; [destruct (IsNotFound err) eqn:Hnf|].
  - apply (Hget zeroRelationship), happened_here. simpl. by rewrite Hnf.
  - by split.
  - by apply Hget, happened_here.
Qed.

(** A status update of the resource that only touches its status. *)
Lemma status_contract h f :
  last_got KTestResource h = Some r -> transition h r (with_status f r) ->
  contract h (StatusUpdate KTestResource (with_status f r)).
Proof. intros Hgot Ht. split; [done|]. split; [by exists r|done]. Qed.

Lemma resource_status_update f h Q (k : option error -> io (Result * option error)) :
  last_got KTestResource h = Some r -> transition h r (with_status f r) ->
  (forall x e, wp admissible contract (k e) (Event (StatusUpdate KTestResource (with_status f r)) x :: h) Q) ->
  wp admissible contract (status_update KTestResource (with_status f r) ≫= k) h Q.
Proof.
  intros Hgot Ht Hk. unfold status_update.
  cbn [wp mbind prog_bind_inst prog_bind ask mret prog_ret_inst].
  split; [by apply status_contract|]. intros x _. apply Hk.
Qed.

Lemma reconcileStatePending_contract h :
  last_got KTestResource h = Some r -> TestResource_State r = ResourcePending ->
  wp admissible contract (reconcileStatePending r) h (fun _ _ => True).
Proof.
  intros Hgot Hst. unfold reconcileStatePending, requestResource. apply wp_bind, wp_bind.
  apply wp_getRelationship; [done|]. intros x. cbn zeta.
  assert (Hk : keeps h (Event (Get KRelationship relationshipName) x :: h)).
  { apply keeps_event. by destruct x. }
  set (h1 := Event (Get KRelationship relationshipName) x :: h) in *.
  assert (Hgo : forall rel, last_relationship h1 = Relationship_Status rel ->
    wp admissible contract
      match go_lookup (ResourceToMachine (Relationship_Status rel)) (resource_key r) with
      | Some machineRef =>
          let? machine := get KMachine (Namespaced (MachineRef_Ref machineRef)) orelse err => mret (inl err) in
          mret (inr (MachineSpec_Host (Machine_Spec machine)))
      | None => mret (inr "")
      end h1 (fun h' res => match res with
         | Ret (inr ip) => wp admissible contract
             (if negb (String.eqb ip "") then
                err ← status_update KTestResource (with_status (fun s =>
                  s <| TestResourceStatus_HostIP := ip |> <| TestResourceStatus_State := ResourceUninitialized |>) r);
                mret (noRequeue, err)
              else mret (after time.Second, None)) h' (fun _ _ => True)
         | _ => True end)).
  { intros rel Hrel. destruct (go_lookup _ _) as [mref|] eqn:Hm; [|done].
    unfold get. cbn [wp mbind prog_bind_inst prog_bind ask mret prog_ret_inst]. split; [done|].
    intros [err|m] _; [done|]. cbn [wp mret prog_ret_inst].
    match goal with |- context [negb ?b] => destruct b eqn:Hne end; cbn [negb]; [done|].
    apply String.eqb_neq in Hne.
    apply resource_status_update; [by rewrite <-Hgot; apply Hk| |done].
    unfold transition. simpl. rewrite Hst. simpl. split; [by split; [|right]|]. split; [|done]. unfold bound_in.
    change (is_Some (go_lookup (ResourceToMachine (last_relationship h1)) (resource_key r))).
    rewrite Hrel. by rewrite Hm. }
  destruct x as [err|rel]; [destruct (IsNotFound err) eqn:Hnf|].
  - eapply wp_mono; [by apply (Hgo zeroRelationship), last_relationship_absent|]. by intros h2 [[]|].
  - done.
  - eapply wp_mono; [by apply Hgo|]. by intros h2 [[]|].
Qed.

Lemma inspected_impl (P Q : ContainerJSON -> Prop) h :
  (forall s, P s -> Q s) -> inspected r P h -> inspected r Q h.
Proof.
  intros HPQ. apply happened_impl. intros c x. destruct c; try done.
  intros (-> & s & -> & Hs). by eauto.
Qed.

Lemma transition_finish h f stats :
  TestResource_State r = ResourceUninitialized \/ TestResource_State r = ResourceReady ->
  (TestResource_State r = ResourceUninitialized -> TestResource_Image r <> "") ->
  framed r (with_status f r) -> finished stats = true -> inspected r (fun s => s = stats) h ->
  transition h r (with_status (fun st => finish stats (f st)) r).
Proof.
  intros Hst Him Hfr Hfin Hins. unfold transition. split; [exact Hfr|]. simpl.
  assert (H : inspected r (fun stats0 => finished stats0 = true /\
      ContainerState_ExitCode (ContainerJSON_State stats) = ContainerState_ExitCode (ContainerJSON_State stats0)) h).
  { eapply inspected_impl; [|exact Hins]. by intros s ->. }
  destruct Hst as [Hst|Hst]; rewrite Hst in Him |- *; (split; [exact H|]); (split; [done|exact Him]).
Qed.

Lemma transition_same h f :
  TestResource_State r = ResourceUninitialized ->
  framed r (with_status f r) ->
  TestResource_State (with_status f r) = TestResource_State r -> transition h r (with_status f r).
Proof. intros Hst Hfr Hf. unfold transition. split; [done|]. rewrite Hf, Hst. done. Qed.

(** Changes that leave the claim and the container alone, but for its address. *)
Lemma framed_same f :
  claim_on (with_status f r) = claim_on r -> job (with_status f r) = job r -> framed r (with_status f r).
Proof. intros Hc Hj. split; [done|by right]. Qed.

Lemma follow_started_contract stats h :
  last_got KTestResource h = Some r -> TestResource_State r = ResourceUninitialized ->
  TestResource_Image r <> "" -> inspected r (fun s => s = stats) h ->
  wp admissible contract (follow_started r stats) h (fun _ _ => True).
Proof.
  intros Hgot Hst Him Hins. unfold follow_started.
  destruct (ContainerState_Restarting _) eqn:Hre; [done|].
  destruct (ContainerState_Running _) eqn:Hrun.
  - destruct (bool_decide_reflect (TestResourceStatus_Phase (TestResource_Status r) = ResourcePhaseRunning))
      as [Hph|Hph]; cbn [negb].
    2:{ apply resource_status_update; [done|by apply transition_same; [|apply framed_same|]|done]. }
    destruct (_ !! clusterNetwork) as [ip|] eqn:Hnet; [|done]. cbn zeta.
    apply wp_bind. eapply wp_mono; [by apply computes_range_keys|].
    intros h1 [keys|e] [Hext _]; [|done]. apply wp_bind, wp_lift.
    destruct (port_bindings _ _ _) as [bindings|e]; [|done].
    assert (Hins1 : inspected r (fun s => s = stats) h1) by by apply Hext.
    apply resource_status_update; [by rewrite (proj2 (extends_keeps _ _ Hext))| |done].
    destruct (finished stats) eqn:Hfin.
    + refine (transition_finish h1 _ stats _ _ _ _ _); [by left|done|by apply framed_same|done|done].
    + unfold transition. simpl. rewrite Hst. split; [by apply framed_same|]. split; [done|]. split; [done|].
      eapply inspected_impl; [|exact Hins1]. by intros s ->.
  - apply resource_status_update; [done| |done]. destruct (finished stats) eqn:Hfin.
    + refine (transition_finish h (fun s => s) stats _ _ _ _ _); [by left|done|by apply framed_same|done|done].
    + by apply transition_same; [|apply framed_same|].
Qed.

Lemma uninitialized_with_contract client h :
  home client h -> deleting r = false -> TestResource_State r = ResourceUninitialized -> TestResource_Image r <> "" ->
  wp admissible contract (uninitialized_with r client) h (fun _ _ => True).
Proof.
  intros Hhome Hlive Hst Him. unfold uninitialized_with. eapply wp_own_call; [done|by left|by left|].
  intros [err|stats] Hk Hhome1.
  - destruct (IsErrContainerNotFound err); cbn [negb].
    + apply wp_bind. eapply wp_mono; [by apply createContainer_spec|]. by intros h2 [|] _.
    + unfold record_event. by apply wp_ask_neutral.
  - destruct (timeIsZero _).
    + destruct (_ !! clusterNetwork).
      * eapply wp_own_call; [done|by left|by eauto|].
        intros [err|] _ _; [|done]. unfold record_event. by apply wp_ask_neutral.
      * by eapply wp_own_call; [done|by left|by eauto 6|].
    + apply follow_started_contract; [apply Hhome1|done|done|].
      apply happened_here. split; [done|]. by exists stats.
Qed.

(** A body that runs on the daemon of the machine of the resource. *)
Lemma with_machine_spec (body : DockerClient -> io (Result * option error)) h :
  last_got KTestResource h = Some r ->
  (forall h' client, home client h' -> wp admissible contract (body client) h' (fun _ _ => True)) ->
  wp admissible contract
    (let? machine := getHostMachine (CreateRef (TestResource_ObjectMeta r)) orelse err => mret (noRequeue, Some err) in
     let? dockerClient := Machine.DockerClient machine orelse err => mret (noRequeue, Some err) in
     deferring (ask (DockerClose dockerClient)) (body dockerClient)) h (fun _ _ => True).
Proof.
  intros Hgot Hbody. apply wp_bind. eapply wp_mono; [apply getHostMachine_spec|].
  intros h1 [[err|m]|e] [Hk Hm]; [done| |done].
  apply with_client_spec; [by rewrite (proj2 Hk)|by apply Hm|done|].
  intros h2 client _ Hhome. eapply wp_mono; [by apply Hbody|done].
Qed.

Lemma reconcileStateUninitialized_contract h :
  last_got KTestResource h = Some r -> TestResource_State r = ResourceUninitialized -> deleting r = false ->
  wp admissible contract (reconcileStateUninitialized r) h (fun _ _ => True).
Proof.
  intros Hgot Hst Hlive. unfold reconcileStateUninitialized.
  destruct (bool_decide _).
  { apply resource_status_update; [done|by apply transition_same; [|apply framed_same|]|done]. }
  destruct (String.eqb_spec (TestResource_Image r) "") as [|Him]; [done|].
  apply with_machine_spec; [done|]. intros. by apply uninitialized_with_contract.
Qed.

Lemma ready_with_contract client h :
  home client h -> TestResource_State r = ResourceReady ->
  wp admissible contract (ready_with r client) h (fun _ _ => True).
Proof.
  intros Hhome Hst. unfold ready_with. eapply wp_own_call; [done|by left|by left|].
  intros [err|stats] Hk [Hgot _].
  - destruct (IsErrContainerNotFound err) eqn:Hnf; cbn [negb]; [|done].
    apply resource_status_update; [done| |done].
    unfold transition. simpl. rewrite Hst. split; [by apply framed_same|]. left. apply happened_here. split; [done|]. by exists err.
  - cbn zeta. set (f := fun s : TestResourceStatus => _).
    destruct (bool_decide_reflect (TestResource_State (with_status f r) = ResourceReady)) as [|Hne];
      cbn [negb]; [done|].
    apply resource_status_update; [done| |done]. revert Hne. unfold f.
    destruct (finished stats) eqn:Hfin.
    + intros _. refine (transition_finish _ _ stats _ _ _ _ _); [by right|congruence|destruct (ContainerState_Restarting _); by apply framed_same|done|].
      apply happened_here. split; [done|]. by exists stats.
    + destruct (ContainerState_Restarting _) eqn:Hre.
      * intros _. unfold transition. simpl. rewrite Hst. split; [by apply framed_same|]. right. apply happened_here.
        split; [done|]. by exists stats.
      * intros []. exact Hst.
Qed.

Lemma reconcileStateReady_contract h :
  last_got KTestResource h = Some r -> TestResource_State r = ResourceReady ->
  wp admissible contract (reconcileStateReady r) h (fun _ _ => True).
Proof.
  intros Hgot Hst. apply with_machine_spec; [done|]. intros. by apply ready_with_contract.
Qed.

Lemma reconcileStateDestroy_contract h :
  last_got KTestResource h = Some r -> TestResource_State r = ResourceDestroy ->
  wp admissible contract (reconcileStateDestroy r) h (fun _ _ => True).
Proof.
  intros Hgot Hst. unfold reconcileStateDestroy.
  apply wp_bind. eapply wp_mono; [apply getHostMachine_spec|].
  intros h1 [[err|m]|e] [Hk Hm]; [done| |done].
  assert (Hgot1 : last_got KTestResource h1 = Some r) by by rewrite (proj2 Hk).
  apply wp_bind. eapply wp_mono; [by apply finalize_spec; [|apply Hm]|].
  intros h2 [[[] [err|]]|e] [Hk2 Hres]; try done. destruct (Hres eq_refl) as [_ Hc].
  unfold record_event. apply wp_ask_neutral; [done|done|]. intros [] Hk3.
  apply resource_status_update; [by rewrite (proj2 Hk3), (proj2 Hk2)| |done].
  unfold transition. simpl. rewrite Hst. split; [by split; [|left]|]. split; [|done]. by apply (cleaned_mono h2); [apply Hk3|].
Qed.

(** ** Deletion *)

Lemma drop_finalizer_contract h :
  last_got KTestResource h = Some r -> DeletionTimestamp_IsZero (TestResource_ObjectMeta r) = false ->
  unbound r h -> wp admissible contract (drop_finalizer r) h (fun _ _ => True).
Proof.
  intros Hgot Hdel Hun. unfold drop_finalizer. apply wp_bind, wp_lift.
  destruct (Slice.StringsRemove _ _) as [fs|e]; [|done].
  unfold update. wp_run. split; [|done]. split; [done|]. split; [done|]. split; [|done].
  exists r. split; [done|]. split; [by exists fs|]. by right.
Qed.

Lemma unbind_step m rel rel' :
  unbind r m rel = Ret rel' ->
  Ledger.step (Relationship_Status rel) (Relationship_Status rel') /\
  bound_in (Relationship_Status rel') r = None /\
  ResourceToMachine (Relationship_Status rel') =
    go_delete (ResourceToMachine (Relationship_Status rel)) (resource_key r) /\
  AcceptedRequests (Relationship_Status rel') = AcceptedRequests (Relationship_Status rel).
Proof.
  unfold unbind. intros H. apply go_bind_Ret_inv in H as (refs & Hrefs & H).
  apply go_bind_Ret_inv in H as (mtr & Hmtr & H). injection H as <-.
  apply refsRemove_Ret in Hrefs as ->.
  destruct (MachineToResources (Relationship_Status rel)) as [m0|] eqn:Hm; [|done].
  injection Hmtr as <-. split.
  - pose proof (Ledger.step_unbind (Relationship_Status rel) (Key (CreateRef (Machine_ObjectMeta m)))
                  (CreateRef (TestResource_ObjectMeta r)) m0 Hm) as Hstep.
    unfold Ledger.entries in Hstep. rewrite Hm in Hstep. exact Hstep.
  - split; [|done]. unfold bound_in, go_lookup, go_delete, go_map. simpl.
    destruct (ResourceToMachine _) as [rtm|]; simpl; [|done]. by rewrite lookup_delete_eq.
Qed.

Lemma resource_deletion_contract h :
  last_got KTestResource h = Some r -> DeletionTimestamp_IsZero (TestResource_ObjectMeta r) = false ->
  deleting r = true ->
  wp admissible contract (reconcileDeletion r) h (fun _ _ => True).
Proof.
  intros Hgot Hdel Hdeleting. unfold reconcileDeletion. apply wp_bind, wp_getRelationship; [done|].
  intros x. cbn zeta. set (h1 := Event (Get KRelationship relationshipName) x :: h).
  assert (Hgot1 : last_got KTestResource h1 = Some r) by by destruct x.
  assert (Hgo : forall rel, last_relationship h1 = Relationship_Status rel ->
    relationship_was (Relationship_Status rel) h1 ->
    wp admissible contract
      match go_lookup (ResourceToMachine (Relationship_Status rel)) (resource_key r) with
      | None => drop_finalizer r
      | Some machineRef =>
          let? machine := get KMachine (Namespaced (MachineRef_Ref machineRef))
            orelse err => mret (noRequeue, Some err) in
          '(requeue, err) ← finalize r machine;
          match err with
          | Some err => mret (noRequeue, Some err)
          | None =>
              if requeue : bool then mret (after time.Second, None)
              else
                relation ← lift (unbind r machine rel);
                check status_update KRelationship relation orelse err => mret (noRequeue, Some err) in
                drop_finalizer r
          end
      end h1 (fun _ _ => True)).
  { intros rel Hrel Hread. destruct (go_lookup _ _) as [mref|] eqn:Hm.
    2:{ apply drop_finalizer_contract; [done|done|]. left. unfold bound_in. by rewrite Hrel. }
    unfold get. cbn [wp mbind prog_bind_inst prog_bind ask]. split; [done|].
    intros [err|m] _; [done|]. set (h2 := Event _ _ :: h1).
    assert (Hgot2 : last_got KTestResource h2 = Some r) by done.
    assert (Hhost : hosted r m h2).
    { exists (Relationship_Status rel). split; [by apply happened_later|]. apply happened_here.
      unfold bound_in. by rewrite Hm. }
    apply wp_bind. eapply wp_mono; [by apply finalize_spec|].
    intros h3 [[[] [err|]]|e] [Hk Hres]; try done. destruct (Hres eq_refl) as [Hl Hc].
    apply wp_bind, wp_lift. destruct (unbind r m rel) as [rel'|e] eqn:Hun; [|done].
    apply unbind_step in Hun as (Hstep & Hnone & Hrtm & Hacc).
    assert (Hgot3 : last_got KTestResource h3 = Some r) by by rewrite (proj2 Hk).
    unfold status_update. cbn [wp mbind prog_bind_inst prog_bind ask mret prog_ret_inst]. split.
    { split; [simpl; rewrite Hl; apply rtc_once; by rewrite <-Hrel in Hstep|]. do 4 (split; [done|]).
      exists r. simpl. rewrite Hl. change (last_relationship h2) with (last_relationship h1). rewrite Hrel. by split_and!. }
    intros [err|rel''] _; [done|]. cbn [err_of prog_bind].
    apply drop_finalizer_contract; [done|done|]. right. split.
    - apply (cleaned_mono h3); [by intros; apply happened_later|done].
    - apply happened_here. split; [by eexists|done]. }
  destruct x as [err|rel]; [destruct (IsNotFound err) eqn:Hnf|]; [|done|].
  - apply (Hgo zeroRelationship); [by apply last_relationship_absent|]. apply happened_here. simpl. by rewrite Hnf.
  - apply Hgo; [done|]. by apply happened_here.
Qed.
End contract.

Section Reconcile.
Context {U : Units}.

Lemma resource_contract req : safe contract (Reconcile req) (fun _ _ => True).
Proof.
  unfold safe, Reconcile, get. cbn [wp mbind prog_bind_inst prog_bind ask mret prog_ret_inst].
  split; [done|]. intros [err|r] _; [done|].
  set (h1 := [Event (Get KTestResource req) (inr r)]).
  assert (Hgot : last_got KTestResource h1 = Some r) by done.
  destruct (DeletionTimestamp_IsZero _) eqn:Hdel; cbn [negb andb];
    destruct (Slice.StringsContains _ _) eqn:Hfin; cbn [negb andb].
  2:{ unfold update. wp_run. split; [|done]. split; [done|]. split; [done|]. split; [|done].
      exists r. split; [done|]. split; [by eexists|]. left. simpl. set_solver. }
  2:{ apply resource_deletion_contract; [done|done|]. unfold deleting. by rewrite Hdel, Hfin. }
  all: assert (Hlive : deleting r = false) by (unfold deleting; by rewrite Hdel, ?Hfin).
  all: destruct (TestResource_State r) eqn:Hst; [|by apply reconcileStatePending_contract
    |by apply reconcileStateUninitialized_contract|by apply reconcileStateReady_contract|done
    |by apply reconcileStateDestroy_contract|done].
  all: apply (resource_status_update r); [done| |done]; (split; [by apply framed_same|]); simpl; by rewrite Hst.
Qed.

Lemma resource_ledger req : safe ledger_guard (Reconcile req) (fun _ _ => True).
Proof. eapply wp_guard; [apply resource_contract|]. by intros h c (? & _). Qed.

(** C5. Whatever the services answer, a resource's status moves only along its state machine,
    and on evidence: it is pending until the relationship binds it, becomes ready when its
    container was seen running in the cluster network, finished with the exit code the daemon
    reported, uninitialized again when the container is gone or restarting, and leaves destroy
    only when its container is gone and a cleaner of its disks has ended ([cleaned]). The handler never changes its spec, nor the claim
    on it, nor the container asked for, until that is destroyed. *)
Theorem resource_state_machine req : safe state_guard (Reconcile req) (fun _ _ => True).
Proof. eapply wp_guard; [apply resource_contract|]. by intros h c (_ & ? & _). Qed.

(** C14. The resource reconciler creates, starts, connects and removes only the resource's own
    container and its cleaner, only on the machine a relationship it read binds the resource to,
    and gives the container exactly the cores and the memory bound; while the resource is being
    deleted it creates none but the cleaner. *)
Theorem resource_containers req :
  safe (fun h c => container_guard h c /\ place_guard h c) (Reconcile req) (fun _ _ => True).
Proof. eapply wp_guard; [apply resource_contract|]. by intros h c (_ & _ & _ & ? & ? & _). Qed.

(** C27. A resource's finalizer goes only when it is being deleted and is bound to no machine, or its
    container is gone, a cleaner of its disks has ended and was removed, and the relationship was
    stored without it. The cleaner is removed only after it was waited for; that it failed does not
    stop the deletion, but is reported in an event. What was seen of the containers is taken as done,
    too, when a Docker call fails with an error that the API machinery takes for its own not-found
    ([foreign_not_found]), which the code ignores. *)
Theorem resource_finalizer req : safe finalizer_guard (Reconcile req) (fun _ _ => True).
Proof. eapply wp_guard; [apply resource_contract|]. by intros h c (_ & _ & ? & _). Qed.
End Reconcile.
