(* ===== verification/Accounting.v ===== *)
(** * Releasing a resource gives room back

    The memory a machine has left is a printed size, rounded to what docker/go-units prints of
    it, and [Rest] subtracts the bindings one by one in the order of the list, rounding each
    time. A number below zero has no size, and the next comparison with it would panic. This
    file shows that taking any bindings out of the list is safe all the same: what was left
    before is still there. *)

From S2P Require Import Prelude GoStd Util ApiTypes Prog World Machine Relationship ResourceCtl ResourceTheorems.
Import Machine ResourceCtl ResourceTheorems.

(** Documented behaviour of github.com/docker/go-units: a larger number is not printed as a
    smaller size, and a size printed anew does not grow, since what is parsed is cut to whole
    bytes. *)
Class UnitsRounding (U : Units) : Prop := {
  units_monotone a b x y :
    0 <= a <= b -> RAMInBytes (units_BytesSize a) = Some x -> RAMInBytes (units_BytesSize b) = Some y -> x <= y;
  units_reprint a x y :
    0 <= a -> RAMInBytes (units_BytesSize a) = Some x -> RAMInBytes (units_BytesSize x) = Some y -> y <= x;
}.

Section accounting.
Context {U : Units} {L : UnitsLaws U} {R : UnitsRounding U}.

(** A size that was printed, and its number of bytes. *)
Definition printed (b : BytesSize.t) (x : Z) : Prop :=
  BytesSize.ToSize b = Some x /\ exists n, 0 <= n /\ b = units_BytesSize n.

Lemma printed_nonneg b x : printed b x -> 0 <= x.
Proof using L R.
  intros [Hx (n & Hn & ->)]. apply (units_monotone 0 n 0 x); [lia|apply units_zero|done].
Qed.

(** A size that can be used is not that of a number below zero. *)
Lemma Size_printed n x : BytesSize.ToSize (BytesSize.Size n) = Some x -> printed (BytesSize.Size n) x /\ 0 <= n.
Proof using L.
  intros Hx. assert (0 <= n).
  { destruct (Z.le_gt_cases 0 n) as [|Hn%BytesSize.float64_of_int_neg]; [done|].
    unfold BytesSize.ToSize, BytesSize.Size in Hx. by rewrite units_negative in Hx. }
  split; [|done]. split; [done|]. eexists. split; [|done]. by apply BytesSize.float64_of_int_nonneg.
Qed.

Lemma Sub_inv b other r x y :
  BytesSize.ToSize b = Some x -> BytesSize.ToSize other = Some y -> 0 <= y -> 0 <= x < 2 ^ 53 ->
  BytesSize.Sub b other = Ret r <-> r = BytesSize.Size (x - y).
Proof using L.
  intros Hx Hy Hyn Hxb. unfold BytesSize.Sub. rewrite (proj2 (BytesSize.Unwrap_Ret b x) Hx). simpl.
  rewrite (proj2 (BytesSize.Unwrap_Ret other y) Hy). simpl. apply BytesSize.Unwrap_Ret in Hy.
  apply BytesSize.Unwrap_range in Hy. rewrite wrap64_id by (unfold in_int64 in *; lia). split; congruence.
Qed.

Lemma Size_exact n : 0 <= n < 2 ^ 53 -> BytesSize.Size n = units_BytesSize n.
Proof using. intros Hn. unfold BytesSize.Size. rewrite float64_of_int_small; [done|lia]. Qed.

(** Subtracting takes away, and from more leaves more. *)
Lemma Sub_less b other r x y z :
  printed b x -> x < 2 ^ 53 -> BytesSize.ToSize other = Some y -> 0 <= y ->
  BytesSize.Sub b other = Ret r -> BytesSize.ToSize r = Some z -> printed r z /\ z <= x /\ y <= x.
Proof using L R.
  intros Hb Hlt Hy Hyn Hr Hz. pose proof (printed_nonneg _ _ Hb) as Hx.
  rewrite (Sub_inv b other r x y) in Hr by (apply Hb || done || lia). subst r.
  destruct (Size_printed _ _ Hz) as [Hp Hle]. split; [done|]. split; [|lia].
  rewrite Size_exact in Hz by lia. destruct Hb as [Hb (n & Hn & ->)].
  destruct (units_print_parse x) as [x' Hx']; [lia|]. etrans.
  - by apply (units_monotone (x - y) x z x'); [lia| |].
  - by apply (units_reprint n x x').
Qed.

Lemma Sub_more b b' other r x x' y z :
  printed b x -> printed b' x' -> x <= x' < 2 ^ 53 -> BytesSize.ToSize other = Some y -> 0 <= y ->
  BytesSize.Sub b other = Ret r -> BytesSize.ToSize r = Some z ->
  exists r' z', BytesSize.Sub b' other = Ret r' /\ printed r' z' /\ z <= z' <= x'.
Proof using L R.
  intros Hb Hb' Hle Hy Hyn Hr Hz.
  destruct (Sub_less b other r x y z) as (_ & _ & Hyx); [done|lia|done..|].
  pose proof (printed_nonneg _ _ Hb') as Hx'. pose proof (printed_nonneg _ _ Hb) as Hx.
  assert (Hr' : BytesSize.Sub b' other = Ret (BytesSize.Size (x' - y))).
  { by apply (Sub_inv b' other _ x' y); [apply Hb'| | |lia|]. }
  destruct (units_print_parse (x' - y)) as [z' Hz']; [lia|]. rewrite <-Size_exact in Hz' by lia.
  exists (BytesSize.Size (x' - y)), z'. split; [done|].
  destruct (Sub_less b' other (BytesSize.Size (x' - y)) x' y z') as (Hp & Hzx & _); [done|lia|done..|].
  split; [done|]. split; [|done].
  rewrite (Sub_inv b other r x y) in Hr by (apply Hb || done || lia). subst r.
  rewrite Size_exact in Hz, Hz' by lia. by apply (units_monotone (x - y) (x' - y)); [lia| |].
Qed.

(** ** Disks and cores *)

Lemma removeDisks_less bs disks disks1 : removeDisks bs disks = Some disks1 -> disks1 ⊆ disks.
Proof using.
  revert disks; induction bs as [|b bs IH]; intros disks H; simpl in H; [by injection H as ->|].
  destruct (disks !! _); [|done]. etrans; [by apply IH|apply delete_subseteq].
Qed.

Lemma removeDisks_more bs disks disks1 disks' :
  removeDisks bs disks = Some disks1 -> disks ⊆ disks' ->
  exists disks1', removeDisks bs disks' = Some disks1' /\ disks1 ⊆ disks1'.
Proof using.
  revert disks disks'; induction bs as [|b bs IH]; intros disks disks' H Hsub; simpl in *; [injection H as ->; eauto|].
  destruct (disks !! _) as [d|] eqn:Hd; [|done]. rewrite (lookup_weaken _ _ _ _ Hd Hsub).
  eapply IH; [exact H|]. by apply delete_mono.
Qed.

(** ** The loop *)

(** At least as much of everything. *)
Definition roomier (a a' : AvailableResource) : Prop :=
  (exists x x', BytesSize.ToSize (AvailableResource_Memory a) = Some x /\
     BytesSize.ToSize (AvailableResource_Memory a') = Some x' /\ x <= x') /\
  (forall c, c ∈ AvailableResource_IdleCPUSet a -> c ∈ AvailableResource_IdleCPUSet a') /\
  AvailableResource_Disks a ⊆ AvailableResource_Disks a'.

(** The same while the loop runs: the sizes are printed, and small enough to be exact. *)
Definition room (a a' : AvailableResource) : Prop :=
  (exists x x', printed (AvailableResource_Memory a) x /\ printed (AvailableResource_Memory a') x' /\
     x <= x' < 2 ^ 53) /\
  (forall c, c ∈ AvailableResource_IdleCPUSet a -> c ∈ AvailableResource_IdleCPUSet a') /\
  AvailableResource_Disks a ⊆ AvailableResource_Disks a'.

Lemma room_roomier a a' : room a a' -> roomier a a'.
Proof using. intros [(x & x' & [Hx _] & [Hx' _] & Hle & _) Hrest]. split; [by exists x, x'|done]. Qed.

Definition usable (a : AvailableResource) : Prop := is_Some (BytesSize.ToSize (AvailableResource_Memory a)).

(** The memory of a binding is a number of bytes. *)
Definition sized (r : ResourceRef) : Prop :=
  exists y, BytesSize.ToSize (ResourceBinding_Memory (ResourceRef_Binding r)) = Some y /\ 0 <= y.

Lemma restLoop_usable l rest a : restLoop l rest = Ret (Some a) -> usable a -> usable rest.
Proof using.
  destruct l as [|r l]; simpl; [by intros [= ->]|]. intros H _.
  apply go_bind_Ret_inv in H as (m & Hm & _). apply go_bind_Ret_inv in Hm as (x & Hx & _).
  apply BytesSize.Unwrap_Ret in Hx. by exists x.
Qed.

Lemma restLoop_sublist l' l : sublist l' l -> Forall sized l -> forall rest rest' a,
  restLoop l rest = Ret (Some a) -> usable a -> room rest rest' ->
  exists a', restLoop l' rest' = Ret (Some a') /\ room a a'.
Proof using L R.
  induction 1 as [|r l' l _ IH|r l' l _ IH]; intros Hs rest rest' a H Ha Hroom.
  { exists rest'. by injection H as <-. }
  all: apply list.Forall_cons in Hs as [(y & Hy & Hyn) Hs]; simpl in H;
    apply go_bind_Ret_inv in H as (m & Hm & H);
    destruct (removeDisks _ (AvailableResource_Disks rest)) as [disks|] eqn:Hd; [|done];
    pose proof (restLoop_usable _ _ _ H Ha) as [z Hz]; simpl in Hz;
    destruct Hroom as ((x & x' & Hp & Hp' & Hx) & Hidle & Hsub).
  - destruct (Sub_more _ _ _ _ _ _ _ _ Hp Hp' Hx Hy Hyn Hm Hz) as (m' & z' & Hm' & Hz' & Hle).
    destruct (removeDisks_more _ _ _ _ Hd Hsub) as (disks' & Hd' & Hsub').
    simpl. rewrite Hm'. simpl. rewrite Hd'. eapply IH; [done|exact H|done|]. split_and!; [|intros c; simpl|done].
    + destruct (Sub_less _ _ _ _ _ _ Hp ltac:(lia) Hy Hyn Hm Hz) as [Hpm _].
      exists z, z'. split_and!; [done|done|lia|lia].
    + rewrite !elem_of_deleteCPUSet. intros []. auto.
  - eapply IH; [done|exact H|done|]. destruct (Sub_less _ _ _ _ _ _ Hp ltac:(lia) Hy Hyn Hm Hz) as (Hpm & Hzx & _).
    split_and!; [|intros c; simpl|].
    + exists z, x'. split_and!; [done..|lia|lia].
    + rewrite elem_of_deleteCPUSet. intros []. auto.
    + simpl. etrans; [by eapply removeDisks_less|done].
Qed.

Lemma room_refl a x : printed (AvailableResource_Memory a) x -> x < 2 ^ 53 -> room a a.
Proof using. intros Hp Hlt. split_and!; [by exists x, x|done|done]. Qed.

(** Any bindings can be left out of the list. *)
Lemma Rest_sublist m l l' a a0 x :
  Available m = Ret (Some a0) -> BytesSize.ToSize (AvailableResource_Memory a0) = Some x -> x < 2 ^ 53 ->
  Forall sized l -> sublist l' l -> Machine_Rest m l = Ret (Some a) -> usable a ->
  exists a', Machine_Rest m l' = Ret (Some a') /\ roomier a a'.
Proof using L R.
  intros Ha0 Hx Hlt Hs Hsub H Ha. unfold Machine_Rest in *. rewrite Ha0 in *. simpl in *.
  assert (Hp : printed (AvailableResource_Memory a0) x).
  { apply Available_inv in Ha0 as (info & reserve & _ & _ & Hm & _).
    apply go_bind_Ret_inv in Hm as (u & _ & Hm). apply go_bind_Ret_inv in Hm as (v & _ & [= Hm]).
    rewrite <-Hm in *. by apply Size_printed. }
  destruct (restLoop_sublist l' l Hsub Hs a0 a0 a H Ha) as (a' & Ha' & Hroom%room_roomier);
    [by eapply room_refl|by exists a'].
Qed.

(** What the relationship lists for a machine. *)
Definition bound_to (relation : Relationship) (machine : Machine) : ResourceRefList :=
  default [] (go_lookup (MachineToResources (Relationship_Status relation))
                (Key (CreateRef (Machine_ObjectMeta machine)))).

Lemma unbind_bound resource machine relation relation' :
  unbind resource machine relation = Ret relation' ->
  bound_to relation' machine =
    filterb (Ledger.not_of (CreateRef (TestResource_ObjectMeta resource))) (bound_to relation machine).
Proof using.
  unfold unbind, bound_to. intros H. apply go_bind_Ret_inv in H as (refs & Hrefs & H).
  apply go_bind_Ret_inv in H as (mtr & Hmtr & H). injection H as <-. apply refsRemove_Ret in Hrefs as ->.
  destruct (MachineToResources (Relationship_Status relation)) as [m0|]; [|done]. injection Hmtr as <-.
  unfold go_lookup, go_map. simpl. by rewrite lookup_insert_eq.
Qed.

(** C28. What is released is room again, and nothing else is lost. When something usable is left
    of a machine beside the resources bound to it, then after [unbind] took one of them out of
    the relationship [Rest] answers again, and leaves at least as much memory, every core and
    every disk that was left before; so the comparison the scheduler makes next does not panic,
    whatever was lost to rounding. *)
Theorem release_gives_room resource machine relation relation' a a0 x :
  unbind resource machine relation = Ret relation' ->
  Forall sized (bound_to relation machine) ->
  Available machine = Ret (Some a0) ->
  BytesSize.ToSize (AvailableResource_Memory a0) = Some x -> x < 2 ^ 53 ->
  Machine_Rest machine (bound_to relation machine) = Ret (Some a) -> usable a ->
  exists a', Machine_Rest machine (bound_to relation' machine) = Ret (Some a') /\
    roomier a a' /\ returns (BytesSize.Unwrap (AvailableResource_Memory a')) /\
    forall c r, r ∈ bound_to relation machine ->
      ResourceRef_Ref r = CreateRef (TestResource_ObjectMeta resource) -> c ∈ ref_cpus r ->
      c ∈ AvailableResource_IdleCPUSet a0 ->
      (forall r', r' ∈ bound_to relation machine -> c ∈ ref_cpus r' -> r' = r) ->
      c ∈ AvailableResource_IdleCPUSet a'.
Proof using L R.
  intros Hun Hs Ha0 Hx Hlt H Ha. rewrite (unbind_bound _ _ _ _ Hun).
  destruct (Rest_sublist machine _ (filterb (Ledger.not_of (CreateRef (TestResource_ObjectMeta resource)))
              (bound_to relation machine)) a a0 x Ha0 Hx Hlt Hs (filterb_sublist _ _) H Ha) as (a' & Ha' & Hroom).
  exists a'. split_and!; [done|done| |].
  - destruct Hroom as [(y & y' & _ & Hy' & _) _]. exists y'. by apply BytesSize.Unwrap_Ret.
  - intros c r _ Hof Hc Hidle Hone. pose proof Ha' as (a1 & Ha1 & Hl)%Rest_inv.
    assert (a1 = a0) as -> by congruence. pose proof Ha0 as (_ & _ & _ & _ & _ & _ & Hnd & _)%Available_inv.
    apply restLoop_inv in Hl as (_ & Hl & _); [|done]. apply Hl. split; [done|].
    intros r' [Hr' Hnot]%elem_of_filterb Hc'. rewrite (Hone r' Hr' Hc') in Hnot.
    unfold Ledger.not_of in Hnot. by rewrite Hof, bool_decide_eq_true_2 in Hnot.
Qed.
End accounting.

(** Sizes printed exactly round nothing. *)
#[export] Instance binary_rounding : UnitsRounding BinarySizes.units.
Proof.
  assert (Hexact : forall n x, 0 <= n -> BinarySizes.parse (BinarySizes.print n) = Some x -> x = n).
  { intros [|p|p] x Hn; [by intros [= <-]| |lia]. unfold BinarySizes.parse. simpl.
    pose proof (BinarySizes.value_print_pos p) as Hv. destruct (BinarySizes.print_pos p) eqn:Hp; [by destruct p|].
    rewrite Hv. simpl. destruct (_ <? _); [by intros [= <-]|done]. }
  split; intros a.
  - intros b x y Hab Hx Hy. apply Hexact in Hx, Hy; lia.
  - intros x y Ha Hx Hy. apply Hexact in Hx as ->; [|done]. apply Hexact in Hy; lia.
Qed.

Definition example_resource : TestResource := zeroTestResource
  <| TestResource_ObjectMeta := zeroMeta <| ObjectMeta_Namespace := "default" |> <| ObjectMeta_Name := "n1" |>
       <| ObjectMeta_UID := "uid-n1" |> |>.
Definition example_relation : Relationship := zeroRelationship
  <| Relationship_Status := mkRelationshipStatus
       (Some {[Key (CreateRef (Machine_ObjectMeta example_machine)) := [example_ref]]}) (Some ∅) None None |>.

Definition example_rest (l : ResourceRefList) : AvailableResource :=
  match Machine_Rest (U := BinarySizes.units) example_machine l with
  | Ret (Some a) => a
  | _ => mkAvailableResource "" [] ∅
  end.

Lemma release_gives_room_witness : exists relation' a',
  unbind example_resource example_machine example_relation = Ret relation' /\
  Machine_Rest (U := BinarySizes.units) example_machine (bound_to relation' example_machine) = Ret (Some a') /\
  1 ∈ AvailableResource_IdleCPUSet a'.
Proof.
  eexists. destruct (release_gives_room (U := BinarySizes.units) (L := BinarySizes.laws) (R := binary_rounding)
    example_resource example_machine example_relation _ (example_rest [example_ref]) (example_rest []) 7 eq_refl) as (a' & Ha' & _ & _ & Hc).
  - apply list.Forall_cons. split; [|by apply list.Forall_nil]. exists 1. split; [reflexivity|lia].
  - vm_compute. reflexivity.
  - vm_compute. reflexivity.
  - lia.
  - vm_compute. reflexivity.
  - eexists. vm_compute. reflexivity.
  - exists a'. split_and!; [reflexivity|exact Ha'|]. apply (Hc 1 example_ref).
    + change (example_ref ∈ [example_ref]). by apply list_elem_of_singleton.
    + reflexivity.
    + by apply list_elem_of_singleton.
    + apply (bool_decide_unpack _). vm_compute. exact I.
    + intros r' Hr' _. change (bound_to example_relation example_machine) with [example_ref] in Hr'.
      by apply list_elem_of_singleton in Hr'.
Defined.
