(* ===== verification/MachineCtl.v ===== *)
(** * The machine reconciler: taking machines in and letting them go

    controllers/machine_controller.go. A machine is locked for this Naglfar by a labelled
    container, its resources are measured, an upload daemon is started on it; on deletion it
    waits for its resources to leave, is unlocked, and leaves the relationship. *)

From S2P Require Import Prelude GoStd Util ApiTypes Prog World Machine Relationship Docker.

Module MachineCtl.
Section MachineCtl.
Context {U : Units} (fuel : nat).

Definition machineFinalizer : string := "machine.naglfar.pingcap.com".
Definition machine_uid (m : Machine) : string := ObjectMeta_UID (Machine_ObjectMeta m).

(** ** Measuring *)

(** One storage device with its sizes normalised. The size library's error text is not modelled. *)
Definition normalizeDevice (device : StorageDevice) : option StorageDevice :=
  totalSize ← BytesSize.ToSize (StorageDevice_Total device);
  usedSize ← BytesSize.ToSize (StorageDevice_Used device);
  Some (device <| StorageDevice_Total := BytesSize.Size totalSize |>
               <| StorageDevice_Used := BytesSize.Size usedSize |>).

(** The copy of a nil pointer is nil, and is dereferenced. *)
Definition makeMachineInfo (rawInfo : option MachineInfo) : go (error + MachineInfo) :=
  rawInfo ← deref rawInfo;
  Ret match BytesSize.ToSize (MachineInfo_Memory rawInfo) with
      | None => inl (Errorf "invalid size")
      | Some memory =>
          let info := rawInfo <| MachineInfo_Memory := BytesSize.Size memory |> in
          let devices := normalizeDevice <$> MachineInfo_StorageDevices rawInfo in
          if bool_decide (map_Forall (fun _ d => is_Some d) devices)
          then inr (info <| MachineInfo_StorageDevices := omap id devices |>)
          else inl (Errorf "invalid size")
      end.

(** An undecodable output is logged and what was decoded of it goes on; a JSON null makes the
    pointer decoded into nil. *)
Definition fetchMachineInfo (machine : Machine) (dockerClient : DockerClient) : io (error + MachineInfo) :=
  '(cfg, hostCfg) ← container.MachineStatCfg;
  let? stdout := JustExec fuel dockerClient container.MachineStat container.MachineStatImage
                   (mkRunOptions "" cfg hostCfg) orelse err => mret (inl err) in
  '(_, rawInfo) ← ask (UnmarshalMachineInfo stdout);
  lift (makeMachineInfo rawInfo).

(** ** The lock and the upload daemon *)

Definition first_port (ports : gmap string (list PortBinding)) (port : string) : option string :=
  match ports !! port with
  | Some (p :: _) => Some (PortBinding_HostPort p)
  | _ => None
  end.

Definition tryLock (machine : Machine) (dockerClient : DockerClient) : io (error + Z) :=
  let '(cfg, hostCfg) := container.ChaosDaemonCfg (machine_uid machine) in
  let? stat := Run fuel dockerClient container.ChaosDaemon container.ChaosDaemonImage
                 (mkRunOptions "" cfg hostCfg) orelse err => mret (inl err) in
  (* a nil Config is noted as an error, and dereferenced all the same *)
  config ← lift (deref (ContainerJSON_Config stat));
  match go_lookup (Config_Labels config) container.LockerLabel with
  | None =>
      mret (inl (Errorf ("container " +:+ ContainerJSON_Name stat +:+ " has no label `"
                           +:+ container.LockerLabel +:+ "`")))
  | Some uid =>
      if negb (String.eqb uid (machine_uid machine)) then
        mret (inl (Errorf ("machine(" +:+ Machine_Name machine +:+ ") locked by other naglfar system: UID("
                             +:+ machine_uid machine +:+ ")")))
      else
        mret (inr (match first_port (ContainerJSON_Ports stat) container.ChaosDaemonPort with
                   | Some port => fst (strconv.Atoi port)
                   | None => 0
                   end))
  end.

Definition createUploadDaemon (machine : Machine) (dockerClient : DockerClient) : io (error + Z) :=
  let '(cfg, hostCfg) := container.UploadDaemonCfg (machine_uid machine) in
  let? stat := Run fuel dockerClient container.UploadDaemon container.UploadDaemonImage
                 (mkRunOptions "" cfg hostCfg) orelse err => mret (inl err) in
  let invalid := negb (bool_decide (is_Some (ContainerJSON_Config stat)))
                 || negb (bool_decide (is_Some (ContainerJSON_HostConfig stat))) in
  let port := strconv.Itoa container.UploadDaemonInternalPort +:+ "/tcp" in
  match first_port (ContainerJSON_Ports stat) port with
  | Some hostPort =>
      (* the conversion's error replaces the earlier one *)
      let '(uploadPort, ok) := strconv.Atoi hostPort in
      if negb ok then mret (inl (Errorf ("strconv.Atoi: parsing " +:+ hostPort)))
      else if uploadPort =? 0 then Crash "there's a bug, uploadPort should be zero"
      else mret (inr uploadPort)
  | None =>
      if invalid then mret (inl (Errorf ("invalid occupy container: " +:+ ContainerJSON_Name stat)))
      else Crash "there's a bug, uploadPort should be zero"
  end.

Definition Unlock (machine : Machine) (dockerClient : DockerClient) : io (option error) :=
  r ← ask (ContainerInspect dockerClient container.ChaosDaemon);
  match r with
  | inl err => if negb (IsErrNotFound err) then mret (Some err) else mret None (* locker not found *)
  | inr info =>
      match ContainerJSON_Config info with
      | None => mret None
      | Some config =>
          if negb (bool_decide (is_Some (Config_Labels config)))
             || negb (String.eqb (default "" (go_lookup (Config_Labels config) container.LockerLabel))
                        (machine_uid machine))
          then mret None (* locker released *)
          else ask (ContainerRemove dockerClient container.ChaosDaemon true)
      end
  end.

Definition deleteUploadDaemon (machine : Machine) (dockerClient : DockerClient) : io (option error) :=
  r ← ask (ContainerInspect dockerClient container.UploadDaemon);
  match r with
  | inl err => if negb (IsErrNotFound err) then mret (Some err) else mret None
  | inr info =>
      if negb (bool_decide (is_Some (ContainerJSON_Config info)))
         || negb (bool_decide (is_Some (ContainerJSON_HostConfig info)))
      then mret None
      else ask (ContainerRemove dockerClient container.UploadDaemon true)
  end.

(** ** The states *)

Definition with_status (f : MachineStatus -> MachineStatus) (m : Machine) : Machine :=
  m <| Machine_Status ::= f |>.

Definition starting_with (machine : Machine) (dockerClient : DockerClient) : io (Result * option error) :=
  r ← tryLock machine dockerClient;
  match r with
  | inl err => record_event "Warning" "Lock" (Error err);; mret (noRequeue, Some err)
  | inr chaosPort =>
      r ← fetchMachineInfo machine dockerClient;
      match r with
      | inl err => record_event "Warning" "FetchInfo" (Error err);; mret (noRequeue, Some err)
      | inr info =>
          err ← status_update KMachine (with_status (fun s =>
            s <| MachineStatus_ChaosPort := chaosPort |> <| MachineStatus_Info := Some info |>
              <| MachineStatus_State := MachineReady |>) machine);
          mret (noRequeue, err)
      end
  end.

Definition reconcileStarting (machine : Machine) : io (Result * option error) :=
  let? dockerClient := MakeClient machine orelse err => mret (noRequeue, Some err) in
  deferring (ask (DockerClose dockerClient)) (starting_with machine dockerClient).

Definition upload_with (machine : Machine) (dockerClient : DockerClient) : io (Result * option error) :=
  r ← createUploadDaemon machine dockerClient;
  match r with
  | inl err => record_event "Warning" "upload-daemon" (Error err);; mret (noRequeue, Some err)
  | inr uploadPort =>
      check status_update KMachine (with_status (fun s => s <| MachineStatus_UploadPort := uploadPort |>) machine)
        orelse err => mret (noRequeue, Some err) in
      mret (mkResult true 0, None)
  end.

Definition machine_key (m : Machine) : string := Key (CreateRef (Machine_ObjectMeta m)).

Definition reconcileRunning (machine : Machine) : io (Result * option error) :=
  if MachineStatus_UploadPort (Machine_Status machine) =? 0 then
    let? dockerClient := MakeClient machine orelse err => mret (noRequeue, Some err) in
    deferring (ask (DockerClose dockerClient)) (upload_with machine dockerClient)
  else
    let? relation := getRelationship orelse err => mret (noRequeue, Some err) in
    let status := Relationship_Status relation in
    match go_lookup (MachineToResources status) (machine_key machine) with
    | Some _ => mret (noRequeue, None)
    | None =>
        mtr ← lift (go_assign (MachineToResources status) (machine_key machine) []);
        err ← status_update KRelationship
                (relation <| Relationship_Status := status <| MachineToResources := mtr |> |>);
        mret (noRequeue, err)
    end.

Definition shutdown_with (machine : Machine) (relation : Relationship) (dockerClient : DockerClient)
    : io (Result * option error) :=
  check Unlock machine dockerClient orelse err => mret (noRequeue, Some err) in
  check deleteUploadDaemon machine dockerClient orelse err => mret (noRequeue, Some err) in
  check status_update KRelationship (relation <| Relationship_Status ::= fun s =>
      s <| MachineToResources ::= fun m => go_delete m (machine_key machine) |> |>)
    orelse err => mret (noRequeue, Some err) in
  finalizers ← lift (Slice.StringsRemove (ObjectMeta_Finalizers (Machine_ObjectMeta machine)) machineFinalizer);
  err ← update KMachine
    (machine <| Machine_ObjectMeta ::= fun m => m <| ObjectMeta_Finalizers := finalizers |> |>);
  mret (noRequeue, err).

Definition reconcileShutdown (machine : Machine) : io (Result * option error) :=
  let? relation := getRelationship orelse err => mret (noRequeue, Some err) in
  let resourceList := default [] (go_lookup (MachineToResources (Relationship_Status relation)) (machine_key machine)) in
  if negb (len resourceList =? 0) then mret (mkResult true (10 * time.Second), None)
  else
    let? dockerClient := MakeClient machine orelse err => mret (noRequeue, Some err) in
    deferring (ask (DockerClose dockerClient)) (shutdown_with machine relation dockerClient).

(** [Reconcile] from the point where the machine has been read. *)
Definition reconcile_machine (machine : Machine) : io (Result * option error) :=
  let meta := Machine_ObjectMeta machine in
  let live := DeletionTimestamp_IsZero meta in
  let finalized := Slice.StringsContains (ObjectMeta_Finalizers meta) machineFinalizer in
  if live && negb finalized then
    err ← update KMachine
      (machine <| Machine_ObjectMeta ::= fun m =>
         m <| ObjectMeta_Finalizers := ObjectMeta_Finalizers m ++ [machineFinalizer] |> |>);
    mret (noRequeue, err)
  else if (negb live && finalized)
          && negb (bool_decide (MachineStatus_State (Machine_Status machine) = MachineShutdown)) then
    err ← status_update KMachine
      (with_status (fun s => s <| MachineStatus_State := MachineShutdown |>) machine);
    mret (noRequeue, err)
  else
    match MachineStatus_State (Machine_Status machine) with
    | MachineStarting => reconcileStarting machine
    | MachineReady => reconcileRunning machine
    | MachineShutdown => reconcileShutdown machine
    | MachineStateNone | MachineStateOther _ =>
        err ← status_update KMachine
          (with_status (fun s => s <| MachineStatus_State := MachineStarting |>) machine);
        mret (noRequeue, err)
    end.

Definition Reconcile (req : NamespacedName) : io (Result * option error) :=
  let? relation := getRelationship orelse err => mret (noRequeue, Some err) in
  if negb (bool_decide (is_Some (MachineToResources (Relationship_Status relation))))
  then mret (mkResult true time.Second, None)
  else
    let? machine := get KMachine req orelse err => mret (noRequeue, IgnoreNotFound err) in
    reconcile_machine machine.

End MachineCtl.
End MachineCtl.
