(* ===== verification/MachineTheorems.v ===== *)
(** * The machine reconciler: its contract *)

From S2P Require Import Prelude GoStd Util ApiTypes Prog World Machine Relationship Docker MachineCtl.
Import MachineCtl.

Section contract.
Context {U : Units}.

(** The container of a name was inspected and found as [P] says. *)
Definition found (name : string) (P : ContainerJSON -> Prop) : history -> Prop :=
  happened (fun c => match c return answer c -> Prop with
    | ContainerInspect _ name' => fun a => name' = name /\ exists stat, a = inr stat /\ P stat
    | _ => fun _ => False
    end).

Lemma found_impl name (P Q : ContainerJSON -> Prop) h :
  (forall s, P s -> Q s) -> found name P h -> found name Q h.
Proof.
  intros HPQ. apply happened_impl. intros c x. destruct c; try done.
  intros (-> & s & -> & Hs). by eauto.
Qed.

(** The locker container carries the UID of this machine object. *)
Definition lock_label (m : Machine) (stat : ContainerJSON) : Prop :=
  exists config, ContainerJSON_Config stat = Some config /\
    go_lookup (Config_Labels config) container.LockerLabel = Some (machine_uid m).
Definition labelled (m : Machine) (stat : ContainerJSON) : Prop :=
  exists config, ContainerJSON_Config stat = Some config /\
    default "" (go_lookup (Config_Labels config) container.LockerLabel) = machine_uid m.
(** The port on the host an inspection shows for the locker, 0 when it shows none. *)
Definition chaos_port (stat : ContainerJSON) (port : Z) : Prop :=
  port = match first_port (ContainerJSON_Ports stat) container.ChaosDaemonPort with
         | Some hostPort => fst (strconv.Atoi hostPort)
         | None => 0
         end.

(** The measuring container was found and ended well, and this is what it printed. *)
Definition printed (text : string) (h : history) : Prop :=
  exists stat, found container.MachineStat (fun s => s = stat) h /\
    happened (fun c => match c return answer c -> Prop with
      | ContainerWait _ name => fun x => name = ContainerJSON_ID stat /\ x = inr 0
      | _ => fun _ => False end) h /\
    happened (fun c => match c return answer c -> Prop with
      | ContainerLogs _ name _ => fun x => name = ContainerJSON_Name stat /\ x = None
      | _ => fun _ => False end) h /\
    happened (fun c => match c return answer c -> Prop with
      | StdCopy _ => fun x => x.1.1 = text /\ x.2 = None
      | _ => fun _ => False end) h.

(** The machine was measured: what was printed, decoded and its sizes normalised, is this. *)
Definition measured (info : MachineInfo) (h : history) : Prop :=
  exists text raw, printed text h /\
    happened (fun c => match c return answer c -> Prop with
      | UnmarshalMachineInfo text' => fun x => text' = text /\ x.2 = raw
      | _ => fun _ => False end) h /\
    makeMachineInfo raw = Ret (inr info).

Lemma printed_later text h h' : (forall P, happened P h -> happened P h') -> printed text h -> printed text h'.
Proof. intros Hh (stat & H1 & H2 & H3 & H4). exists stat. split_and!; by apply Hh. Qed.
Lemma measured_later info h h' : (forall P, happened P h -> happened P h') -> measured info h -> measured info h'.
Proof. intros Hh (text & raw & H1 & H2 & H3). exists text, raw. split; [by eapply printed_later|]. split; [by apply Hh|done]. Qed.

(** The port on the host an inspection of the upload daemon shows. *)
Definition upload_port (port : Z) (stat : ContainerJSON) : Prop :=
  exists hostPort,
    first_port (ContainerJSON_Ports stat) (strconv.Itoa container.UploadDaemonInternalPort +:+ "/tcp") = Some hostPort /\
    strconv.Atoi hostPort = (port, true).

(** How a status follows another. What is not named in a case stays as it was. *)
Definition follows (m : Machine) (h : history) (s' : MachineStatus) : Prop :=
  let s := Machine_Status m in
  match MachineStatus_State s, MachineStatus_State s' with
  | MachineStateNone, MachineStarting | MachineStateOther _, MachineStarting =>
      s' = s <| MachineStatus_State := MachineStarting |>
  | MachineStarting, MachineReady =>
      exists port info,
        found container.ChaosDaemon (fun stat => lock_label m stat /\ chaos_port stat port) h /\
        measured info h /\
        s' = s <| MachineStatus_ChaosPort := port |> <| MachineStatus_Info := Some info |>
               <| MachineStatus_State := MachineReady |>
  | MachineReady, MachineReady =>
      MachineStatus_UploadPort s = 0 /\ exists port, port <> 0 /\
        found container.UploadDaemon (upload_port port) h /\ s' = s <| MachineStatus_UploadPort := port |>
  | state, MachineShutdown =>
      state <> MachineShutdown /\ s' = s <| MachineStatus_State := MachineShutdown |> /\
      DeletionTimestamp_IsZero (Machine_ObjectMeta m) = false /\
      machineFinalizer ∈ ObjectMeta_Finalizers (Machine_ObjectMeta m)
  | _, _ => False
  end.

Definition state_guard (h : history) (c : call) : Prop :=
  match c with
  | StatusUpdate KMachine o =>
      exists m, last_got KMachine h = Some m /\ Machine_ObjectMeta o = Machine_ObjectMeta m /\
        Machine_Spec o = Machine_Spec m /\ follows m h (Machine_Status o)
  | StatusUpdate KTestResource _ | Update KTestResource _ => False
  | _ => True
  end.

(** Nothing was bound to the machine, and the relationship was stored without it. *)
Definition dismissed (m : Machine) (h : history) : Prop :=
  Ledger.entries (last_relationship h) (machine_key m) = [] /\
  happened (fun c => match c return answer c -> Prop with
    | StatusUpdate KRelationship o => fun a =>
        (exists x, a = inr x) /\ go_lookup (MachineToResources (Relationship_Status o)) (machine_key m) = None
    | _ => fun _ => False
    end) h.

Definition finalizer_guard (h : history) (c : call) : Prop :=
  match c with
  | Update KMachine o =>
      exists m, last_got KMachine h = Some m /\
        (machineFinalizer ∈ ObjectMeta_Finalizers (Machine_ObjectMeta o) \/
         (MachineStatus_State (Machine_Status m) = MachineShutdown /\ dismissed m h))
  | Create KMachine _ | Delete KMachine _ => False
  | _ => True
  end.

(** The locker is removed only under the UID of its label (a missing label reads as the empty
    UID); otherwise only the upload daemon and the
    measuring container are. *)
Definition remove_guard (h : history) (c : call) : Prop :=
  match c with
  | ContainerRemove _ name _ =>
      exists m, last_got KMachine h = Some m /\
        ((name = container.ChaosDaemon /\ found container.ChaosDaemon (labelled m) h) \/ name = container.UploadDaemon \/
         found container.MachineStat (fun stat => ContainerJSON_ID stat = name) h)
  | _ => True
  end.

(** Its updates of the relationship are ledger steps that bind and accept nothing. *)
Definition relationship_guard (h : history) (c : call) : Prop :=
  ledger_guard h c /\
  match c with
  | StatusUpdate KRelationship o =>
      ResourceToMachine (Relationship_Status o) = ResourceToMachine (last_relationship h) /\
      AcceptedRequests (Relationship_Status o) = AcceptedRequests (last_relationship h)
  | _ => True
  end.

Definition contract (h : history) (c : call) : Prop :=
  relationship_guard h c /\ state_guard h c /\ finalizer_guard h c /\ remove_guard h c.

(** ** Running a container *)

Lemma extends_event h (c : call) (x : answer c) : neutral c -> extends h (Event c x :: h).
Proof.
  intros Hn. destruct (Hn x) as [Hr Hg]. split; [|split].
  - cbn [last_relationship ev_call ev_answer]. by rewrite Hr.
  - by intros; apply happened_later.
  - intros k. cbn [last_got ev_call ev_answer]. by rewrite Hg.
Qed.

Lemma wp_ask_extends {B} (c : call) (k : answer c -> io B) h Q :
  contract h c -> neutral c ->
  (forall x, extends h (Event c x :: h) -> wp admissible contract (k x) (Event c x :: h) Q) ->
  wp admissible contract (ask c ≫= k) h Q.
Proof.
  intros Hc Hn Hk. cbn [wp mbind prog_bind_inst prog_bind ask]. split; [done|].
  intros x _. apply Hk. by apply extends_event.
Qed.

Lemma Run_loop_spec fuel client name options h :
  wp admissible contract (Run_loop fuel client name options) h (fun h' r =>
    extends h h' /\ forall stat, r = Ret (inr stat) -> found name (fun s => s = stat) h').
Proof.
  revert h; induction fuel as [|fuel IH]; intros h; [by split|]. cbn [Run_loop].
  apply wp_ask_extends; [done|done|]. intros [err|stat] Hext.
  - destruct (IsErrNotFound err); cbn [negb]; [|by split].
    apply wp_ask_extends; [done|done|]. intros [err'|w] Hext2; [split; [by etrans|done]|].
    eapply wp_mono; [apply IH|]. intros h3 r [Hext3 Hr]. split; [by do 2 (etrans; [eassumption|])|done].
  - destruct (TimeIsZero _).
    + apply wp_ask_extends; [done|done|]. intros [err'|] Hext2; [split; [by etrans|done]|].
      eapply wp_mono; [apply IH|]. intros h3 r [Hext3 Hr]. split; [by do 2 (etrans; [eassumption|])|done].
    + split; [done|]. intros stat' [= <-]. apply happened_here. split; [done|]. by exists stat.
Qed.

Lemma Run_spec fuel client name image options h :
  wp admissible contract (Run fuel client name image options) h (fun h' r =>
    extends h h' /\ forall stat, r = Ret (inr stat) -> found name (fun s => s = stat) h').
Proof.
  unfold Run. apply wp_bind.
  eapply wp_mono; [apply computes_PullImageByPolicy; by intros ? []|]. intros h1 [[err|]|e] [Hext _]; [by split| |by split].
  eapply wp_mono; [apply Run_loop_spec|]. intros h2 r [Hext2 Hr]. split; [by etrans|done].
Qed.

Context (m : Machine).

Lemma Logs_spec client name options h :
  wp admissible contract (Logs client name options) h (fun h' r => extends h h' /\
    forall out serr, r = Ret (out, serr, None) ->
      happened (fun c => match c return answer c -> Prop with
        | ContainerLogs _ name' _ => fun x => name' = name /\ x = None
        | _ => fun _ => False end) h' /\
      happened (fun c => match c return answer c -> Prop with
        | StdCopy _ => fun x => x.1.1 = out /\ x.2 = None
        | _ => fun _ => False end) h').
Proof.
  unfold Logs. apply wp_ask_extends; [done|done|]. intros [err|] Hext; [by split|].
  apply wp_ask_extends; [done|done|]. intros [[out serr] err] Hext2.
  apply wp_ask_extends; [done|done|]. intros closeErr Hext3. cbn [wp mret prog_ret_inst].
  split; [by do 2 (etrans; [eassumption|])|]. intros out' serr' [= -> -> He].
  destruct err as [err|]; [done|]. split; apply happened_later.
  - by apply happened_later, happened_here.
  - by apply happened_here.
Qed.

Lemma JustExec_spec fuel client image options h :
  last_got KMachine h = Some m ->
  wp admissible contract (JustExec fuel client container.MachineStat image options) h
    (fun h' r => extends h h' /\ forall text, r = Ret (inr text) -> printed text h').
Proof.
  intros Hgot. unfold JustExec. apply wp_bind. eapply wp_mono; [apply Run_spec|].
  intros h1 [[err|stat]|e] [Hext Hr]; [by split| |by split]. specialize (Hr stat eq_refl).
  apply wp_ask_extends; [done|done|]. intros [err|code] Hext2; [cbn [wp mret prog_ret_inst]; split; [by etrans|done]|].
  destruct (Z.eqb_spec code 0) as [->|]; cbn [negb]; [|cbn [wp mret prog_ret_inst]; split; [by etrans|done]].
  apply wp_bind. eapply wp_mono; [apply Logs_spec|].
  intros h3 [[[stdout serr] err]|e] [Hext3 Hlogs]; [|split; [by do 2 (etrans; [eassumption|])|done]].
  assert (Hext' : extends h h3) by by do 2 (etrans; [eassumption|]).
  destruct err as [err|]; [by split|]. destruct (Hlogs _ _ eq_refl) as [Hlog Hcopy].
  assert (Hfound : found container.MachineStat (fun s => s = stat) h3) by by apply Hext3, happened_later.
  apply wp_ask_extends; [|done|].
  - do 3 (split; [done|]). exists m. split; [by rewrite (proj2 (proj2 Hext'))|]. right. right.
    eapply found_impl; [|exact Hfound]. by intros s ->.
  - intros [err|] Hext4; cbn [wp mret prog_ret_inst]; (split; [by etrans|]); [done|]. intros text [= <-].
    exists stat. split; [by apply Hext4|]. split; [|split; by apply Hext4].
    apply Hext4, Hext3. by apply happened_here.
Qed.

Lemma tryLock_spec fuel client h :
  wp admissible contract (tryLock fuel m client) h (fun h' r =>
    extends h h' /\ forall port, r = Ret (inr port) ->
      found container.ChaosDaemon (fun stat => lock_label m stat /\ chaos_port stat port) h').
Proof.
  unfold tryLock. apply wp_bind. eapply wp_mono; [apply Run_spec|].
  intros h1 [[err|stat]|e] [Hext Hr]; [by split| |by split]. specialize (Hr stat eq_refl).
  apply wp_bind, wp_lift. destruct (ContainerJSON_Config stat) as [config|] eqn:Hc; [|by split].
  cbn [deref]. destruct (go_lookup _ _) as [uid|] eqn:Hl; [|by split].
  destruct (String.eqb_spec uid (machine_uid m)) as [->|]; cbn [negb]; (split; [done|]); [|done].
  intros port [= <-]. eapply found_impl; [|exact Hr]. intros s ->. split; [by exists config|done].
Qed.

Lemma fetchMachineInfo_spec fuel client h :
  last_got KMachine h = Some m ->
  wp admissible contract (fetchMachineInfo fuel m client) h (fun h' r =>
    extends h h' /\ forall info, r = Ret (inr info) -> measured info h').
Proof.
  intros Hgot. unfold fetchMachineInfo, container.MachineStatCfg. apply wp_bind.
  apply wp_ask_extends; [done|done|]. intros [err|scr] Hext; [by split|].
  cbn [wp mret prog_ret_inst]. apply wp_bind. eapply wp_mono; [apply JustExec_spec|].
  { by rewrite (proj2 (proj2 Hext)). }
  intros h2 [[err|stdout]|e] [Hext2 Hp]; [cbn [wp mret prog_ret_inst]; split; [by etrans|done]|
    |cbn [wp mret prog_ret_inst]; split; [by etrans|done]].
  apply wp_ask_extends; [done|done|]. intros [x raw] Hext3. apply wp_lift.
  split; [by do 2 (etrans; [eassumption|])|]. intros info Hinfo. exists stdout, raw.
  split; [eapply printed_later; [apply Hext3|by apply Hp]|]. split; [by apply happened_here|done].
Qed.

Lemma createUploadDaemon_spec fuel client h :
  wp admissible contract (createUploadDaemon fuel m client) h (fun h' r =>
    extends h h' /\ forall port, r = Ret (inr port) ->
      port <> 0 /\ found container.UploadDaemon (upload_port port) h').
Proof.
  unfold createUploadDaemon. apply wp_bind. eapply wp_mono; [apply Run_spec|].
  intros h1 [[err|stat]|e] [Hext Hr]; [by split| |by split]. specialize (Hr stat eq_refl).
  cbn zeta. destruct (first_port _ _) as [hp|] eqn:Hhp.
  - destruct (strconv.Atoi hp) as [p ok] eqn:Hp. destruct ok; [|by split]. cbn [negb].
    destruct (Z.eqb_spec p 0); (split; [done|]); [done|]. intros port [= <-]. split; [done|].
    eapply found_impl; [|exact Hr]. intros s ->. by exists hp.
  - destruct (negb _ || negb _); by split.
Qed.

(** The body runs between the opening of a client and its deferred close. *)
Lemma with_client body h Q :
  (forall h1 err, extends h h1 -> Q h1 (Ret (noRequeue, Some err))) ->
  (forall h1 client, extends h h1 ->
     wp admissible contract (body client) h1 (fun h2 res => Q (Event (DockerClose client) tt :: h2) res)) ->
  wp admissible contract
    (let? client := MakeClient m orelse err => mret (noRequeue, Some err) in
     deferring (ask (DockerClose client)) (body client)) h Q.
Proof.
  intros Herr Hbody. apply wp_bind. unfold MakeClient, Machine.DockerClient.
  destruct (MachineSpec_DockerTLS _); [by apply Herr|]. cbn [wp ask]. split; [done|].
  intros [err|client] _; [by apply Herr, extends_event|].
  apply wp_deferring. eapply wp_mono; [by apply Hbody, extends_event|].
  intros h2 res HQ. cbn [wp ask]. split; [done|]. intros [] _. done.
Qed.

Lemma machine_status_update {B} f h Q (k : option error -> io B) :
  contract h (StatusUpdate KMachine (with_status f m)) ->
  (forall x e, wp admissible contract (k e) (Event (StatusUpdate KMachine (with_status f m)) x :: h) Q) ->
  wp admissible contract (status_update KMachine (with_status f m) ≫= k) h Q.
Proof.
  intros Hc Hk. unfold status_update. cbn [wp mbind prog_bind_inst prog_bind ask mret prog_ret_inst].
  split; [done|]. intros x _. apply Hk.
Qed.

Lemma reconcileStarting_contract fuel h :
  last_got KMachine h = Some m -> MachineStatus_State (Machine_Status m) = MachineStarting ->
  wp admissible contract (reconcileStarting fuel m) h (fun _ _ => True).
Proof.
  intros Hgot Hst. apply with_client; [done|]. intros h1 client Hext. unfold starting_with.
  assert (Hgot1 : last_got KMachine h1 = Some m) by by rewrite (proj2 (proj2 Hext)).
  apply wp_bind. eapply wp_mono; [apply tryLock_spec|].
  intros h2 [[err|port]|e] [Hext2 Hl]; [by unfold record_event; apply wp_ask_extends| |done].
  specialize (Hl port eq_refl).
  assert (Hgot2 : last_got KMachine h2 = Some m) by by rewrite (proj2 (proj2 Hext2)).
  apply wp_bind. eapply wp_mono; [by apply fetchMachineInfo_spec|].
  intros h3 [[err|info]|e] [Hext3 Hm]; [by unfold record_event; apply wp_ask_extends| |done].
  apply machine_status_update; [|done]. split; [done|]. split; [|done].
  exists m. split; [by rewrite (proj2 (proj2 Hext3))|]. split; [done|]. split; [done|].
  unfold follows. simpl. rewrite Hst. exists port, info. split; [apply (proj1 (proj2 Hext3)), Hl|].
  split; [by apply Hm|done].
Qed.

Lemma reconcileRunning_contract fuel h :
  last_got KMachine h = Some m -> MachineStatus_State (Machine_Status m) = MachineReady ->
  wp admissible contract (reconcileRunning fuel m) h (fun _ _ => True).
Proof.
  intros Hgot Hst. unfold reconcileRunning. destruct (Z.eqb_spec (MachineStatus_UploadPort (Machine_Status m)) 0) as [Hp|Hp].
  - apply with_client; [done|]. intros h1 client Hext. unfold upload_with.
    assert (Hgot1 : last_got KMachine h1 = Some m) by by rewrite (proj2 (proj2 Hext)).
    apply wp_bind. eapply wp_mono; [apply createUploadDaemon_spec|].
    intros h2 [[err|port]|e] [Hext2 Hport]; [by unfold record_event; apply wp_ask_extends| |done].
    apply machine_status_update; [|by intros x []]. split; [done|]. split; [|done].
    exists m. split; [by rewrite (proj2 (proj2 Hext2))|]. split; [done|]. split; [done|].
    unfold follows. simpl. rewrite Hst. split; [done|]. exists port. by destruct (Hport port eq_refl).
  - apply wp_bind, wp_getRelationship; [done|]. intros x. cbn zeta.
    set (h1 := Event (Get KRelationship relationshipName) x :: h).
    assert (Hgo : forall rel, last_relationship h1 = Relationship_Status rel ->
      wp admissible contract
        match go_lookup (MachineToResources (Relationship_Status rel)) (machine_key m) with
        | Some _ => mret (noRequeue, None)
        | None =>
            mtr ← lift (go_assign (MachineToResources (Relationship_Status rel)) (machine_key m) []);
            err ← status_update KRelationship
                    (rel <| Relationship_Status := (Relationship_Status rel) <| MachineToResources := mtr |> |>);
            mret (noRequeue, err)
        end h1 (fun _ _ => True)).
    { intros rel Hrel. destruct (go_lookup _ _) eqn:Hl; [done|].
      apply wp_bind, wp_lift. destruct (MachineToResources (Relationship_Status rel)) as [mtr|] eqn:Hm; [|done].
      cbn [go_assign]. unfold status_update. wp_run. split; [|done]. split; [|done].
      unfold relationship_guard, ledger_guard. rewrite Hrel. split; [|done].
      apply rtc_once. by apply Ledger.step_add_machine. }
    destruct x as [err|rel]; [destruct (IsNotFound err) eqn:Hnf|]; [|done|by apply Hgo].
    by apply (Hgo zeroRelationship), last_relationship_absent.
Qed.

Lemma Unlock_spec client h :
  last_got KMachine h = Some m ->
  wp admissible contract (Unlock m client) h (fun h' _ => extends h h').
Proof.
  intros Hgot. unfold Unlock. apply wp_ask_extends; [done|done|]. intros [err|info] Hext.
  { by destruct (negb _). }
  destruct (ContainerJSON_Config info) as [config|] eqn:Hc; [|done].
  destruct (bool_decide_reflect (is_Some (Config_Labels config))) as [Hs|Hs]; cbn [negb orb]; [|done].
  destruct (String.eqb_spec (default "" (go_lookup (Config_Labels config) container.LockerLabel)) (machine_uid m))
    as [Heq|]; cbn [negb]; [|done].
  cbn [wp ask]. split.
  - do 3 (split; [done|]). exists m. split; [done|].
    left. split; [done|]. apply happened_here. split; [done|]. exists info. split; [done|].
    by exists config.
  - intros x _. etrans; [exact Hext|]. by apply extends_event.
Qed.

Lemma deleteUploadDaemon_spec client h :
  last_got KMachine h = Some m ->
  wp admissible contract (deleteUploadDaemon m client) h (fun h' _ => extends h h').
Proof.
  intros Hgot. unfold deleteUploadDaemon. apply wp_ask_extends; [done|done|].
  intros [err|info] Hext; [by destruct (negb _)|]. destruct (negb _ || negb _); [done|].
  cbn [wp ask]. split.
  - do 3 (split; [done|]). exists m. split; [done|]. right. by left.
  - intros x _. etrans; [exact Hext|]. by apply extends_event.
Qed.

Lemma shutdown_with_contract rel client h :
  last_got KMachine h = Some m -> MachineStatus_State (Machine_Status m) = MachineShutdown ->
  last_relationship h = Relationship_Status rel ->
  Ledger.entries (Relationship_Status rel) (machine_key m) = [] ->
  wp admissible contract (shutdown_with m rel client) h (fun _ _ => True).
Proof.
  intros Hgot Hst Hrel Hnil. unfold shutdown_with.
  apply wp_bind. eapply wp_mono; [by apply Unlock_spec|].
  intros h1 [[err|]|e] Hext1; [done| |done].
  apply wp_bind. eapply wp_mono; [apply deleteUploadDaemon_spec; by rewrite (proj2 (proj2 Hext1))|].
  intros h2 [[err|]|e] Hext2; [done| |done].
  assert (Hext : extends h h2) by by etrans.
  unfold status_update. cbn [wp mbind prog_bind_inst prog_bind ask mret prog_ret_inst]. split.
  { split; [|done]. unfold relationship_guard, ledger_guard. rewrite (proj1 Hext), Hrel. split; [|done].
    apply rtc_once. by apply (Ledger.step_drop_machine (Relationship_Status rel)). }
  intros [err|rel'] _; [done|]. cbn [err_of prog_bind].
  match goal with |- context [Event ?c ?x :: h2] => set (h3 := Event c x :: h2) end.
  destruct (Slice.StringsRemove _ _) as [fs|e]; [|done].
  unfold update. cbn [lift wp mbind prog_bind_inst prog_bind ask mret prog_ret_inst]. split; [|done].
  do 2 (split; [done|]). split; [|done]. exists m. split; [exact (eq_trans (proj2 (proj2 Hext) KMachine) Hgot)|].
  right. split; [done|]. split.
  - change (last_relationship h3) with (last_relationship h2). by rewrite (proj1 Hext), Hrel.
  - apply happened_here. split; [by eexists|]. unfold go_lookup, go_delete, go_map. simpl.
    destruct (MachineToResources _) as [mtr|]; simpl; [by rewrite lookup_delete_eq|done].
Qed.

Lemma reconcileShutdown_contract h :
  last_got KMachine h = Some m -> MachineStatus_State (Machine_Status m) = MachineShutdown ->
  wp admissible contract (reconcileShutdown m) h (fun _ _ => True).
Proof.
  intros Hgot Hst. unfold reconcileShutdown. apply wp_bind, wp_getRelationship; [done|]. intros x. cbn zeta.
  set (h1 := Event (Get KRelationship relationshipName) x :: h).
  assert (Hgot1 : last_got KMachine h1 = Some m) by by destruct x.
  assert (Hgo : forall rel, last_relationship h1 = Relationship_Status rel ->
    wp admissible contract
      (if negb (len (Ledger.entries (Relationship_Status rel) (machine_key m)) =? 0)
       then mret (mkResult true (10 * time.Second), None)
       else
         let? dockerClient := MakeClient m orelse err => mret (noRequeue, Some err) in
         deferring (ask (DockerClose dockerClient)) (shutdown_with m rel dockerClient)) h1 (fun _ _ => True)).
  { intros rel Hrel. destruct (Z.eqb_spec (len (Ledger.entries (Relationship_Status rel) (machine_key m))) 0)
      as [Hz|]; cbn [negb]; [|done]. apply len_zero in Hz.
    apply with_client; [done|]. intros h2 client Hext.
    eapply wp_mono; [apply (shutdown_with_contract rel)|done]; [by rewrite (proj2 (proj2 Hext))|done| |done].
    by rewrite (proj1 Hext). }
  destruct x as [err|rel]; [destruct (IsNotFound err) eqn:Hnf|]; [|done|by apply Hgo].
    by apply (Hgo zeroRelationship), last_relationship_absent.
Qed.
End contract.

Section Reconcile.
Context {U : Units}.

Lemma state_contract (m : Machine) h f :
  last_got KMachine h = Some m -> follows m h (f (Machine_Status m)) ->
  contract h (StatusUpdate KMachine (with_status f m)).
Proof. intros Hgot H. split; [done|]. split; [|done]. exists m. by do 3 (split; [done|]). Qed.

Lemma machine_contract fuel req : safe contract (Reconcile fuel req) (fun _ _ => True).
Proof.
  unfold safe, Reconcile. apply wp_bind, wp_getRelationship; [done|]. intros x. cbn zeta.
  set (h1 := [Event (Get KRelationship relationshipName) x]).
  assert (Hgo : forall m : Machine,
    wp admissible contract (reconcile_machine fuel m) (Event (Get KMachine req) (inr m) :: h1) (fun _ _ => True)).
  { intros m. set (h2 := Event _ _ :: h1). assert (Hgot : last_got KMachine h2 = Some m) by done.
    unfold reconcile_machine. cbn zeta. destruct (DeletionTimestamp_IsZero _) eqn:Hdel; cbn [negb andb];
      destruct (Slice.StringsContains _ _) eqn:Hfin; cbn [negb andb].
    2:{ unfold update. wp_run. split; [|done]. do 2 (split; [done|]). split; [|done].
        exists m. split; [done|]. left. simpl. set_solver. }
    2:{ apply Slice.StringsContains_spec in Hfin.
        destruct (bool_decide_reflect (MachineStatus_State (Machine_Status m) = MachineShutdown)) as [Hs|Hs];
          cbn [negb]; [rewrite Hs; by apply reconcileShutdown_contract|].
        apply machine_status_update; [|done]. apply state_contract; [done|]. unfold follows. simpl.
        by destruct (MachineStatus_State (Machine_Status m)). }
    all: destruct (MachineStatus_State (Machine_Status m)) eqn:Hst;
      [|by apply reconcileShutdown_contract|by apply reconcileStarting_contract
       |by apply reconcileRunning_contract|].
    all: apply machine_status_update; [|done]; apply state_contract; [done|]; unfold follows; simpl; by rewrite Hst. }
  assert (Hget : wp admissible contract
      (let? machine := get KMachine req orelse err => mret (noRequeue, IgnoreNotFound err) in
       reconcile_machine fuel machine) h1 (fun _ _ => True)).
  { unfold get. cbn [wp mbind prog_bind_inst prog_bind ask]. split; [done|]. intros [err|m] _; [done|]. apply Hgo. }
  destruct x as [err|rel]; [destruct (IsNotFound err)|]; [|done|]; by destruct (negb _).
Qed.

Lemma machine_ledger fuel req : safe ledger_guard (Reconcile fuel req) (fun _ _ => True).
Proof. eapply wp_guard; [apply machine_contract|]. by intros h c ([? _] & _). Qed.

(** C16. A machine becomes ready only under the lock: the locker container was found with this
    machine's UID on it, and the machine was measured by a container that ended well; what is
    stored then is the locker's port and the measurement. While it is ready only its upload port
    changes, from none to that of the upload daemon. It is shut down only when it is being
    deleted. In every case nothing else of its status, its spec or its metadata changes. *)
Theorem machine_state_machine fuel req : safe state_guard (Reconcile fuel req) (fun _ _ => True).
Proof. eapply wp_guard; [apply machine_contract|]. by intros h c (_ & ? & _). Qed.

(** C30. A machine's finalizer goes only after its shutdown, when no resource was bound to it
    and the relationship was stored without it. *)
Theorem machine_finalizer fuel req : safe finalizer_guard (Reconcile fuel req) (fun _ _ => True).
Proof. eapply wp_guard; [apply machine_contract|]. by intros h c (_ & _ & ? & _). Qed.

(** The machine reconciler removes no container of somebody else's: the locker only when
    it carries this machine's UID, and besides it only the upload daemon and the measuring
    container. *)
Lemma machine_removes fuel req : safe remove_guard (Reconcile fuel req) (fun _ _ => True).
Proof. eapply wp_guard; [apply machine_contract|]. by intros h c (_ & _ & _ & ?). Qed.
End Reconcile.
