(* ===== verification/ChaosCtl.v ===== *)
(** * Process chaos: killing processes of a test

    controllers/procchaos_controller.go and api/v1/procchaos_webhook.go, with the duration and
    time strings of pkg/util. The local time zone a [time.Time] is printed in is the
    environment's, so printing an instant is a parameter. *)

From S2P Require Import Prelude GoStd Util ApiTypes Prog World Machine Resource Relationship Docker.

(** ** pkg/util: durations, times and chance *)

(** [time.Time.Format(time.RFC3339)] in the local zone. *)
Class LocalTime := Format_RFC3339 : Z -> string.

Module Duration.
Definition Parse (r : string) : option Z := time.ParseDuration r.
Definition Unwrap (r : string) : go Z :=
  match Parse r with
  | Some d => Ret d
  | None => Panic ("Duration(" +:+ r +:+ ") is invalid")
  end.
End Duration.

Module Time.
Definition Parse (r : string) : option Z := time.Parse_RFC3339 r.
Definition Unwrap (r : string) : go Z :=
  match Parse r with
  | Some t => Ret t
  | None => Panic ("Time(" +:+ r +:+ ") is invalid")
  end.
Definition NewTime `{LocalTime} (t : Z) : string := Format_RFC3339 t.
End Time.

(** [rand.Intn] panics for a bound that is not positive. *)
Definition Rand (n : Z) : io Z :=
  if n <=? 0 then Crash "invalid argument to Intn" else ask (RandIntn n).

Definition RandOne (strSlice : list string) : io string :=
  i ← Rand (len strSlice); lift (go_index strSlice i).

(** [time.Duration] differences saturate in [Since]. *)
Definition Since (now t : Z) : Z := Z.max (- 2 ^ 63) (Z.min (2 ^ 63 - 1) (now - t)).

Module ChaosCtl.
Section ChaosCtl.
Context {L : LocalTime}.

Definition findProcScript : string := "find-proc.sh".

(** ** killProc *)

(** The loop over the request's items: the resource of the picked node, fetched once for each
    item of that name; [None] when there is none. *)
Fixpoint find_node (request : TestResourceRequest) (items : list ResourceRequestItem) (node : string)
    (found : option TestResource) : io (error + option TestResource) :=
  match items with
  | [] => mret (inr found)
  | item :: l =>
      if String.eqb node (ResourceRequestItem_Name item) then
        let? resource := get KTestResource
            (mkNamespacedName (ObjectMeta_Namespace (TestResourceRequest_ObjectMeta request)) node)
          orelse err => mret (inl err) in
        find_node request l node (Some resource)
      else find_node request l node found
  end.

(** The commands run in the container, with an open client. *)
Definition kill_with (task : ProcChaosTask) (resource : TestResource) (dockerClient : DockerClient)
    : io (option error) :=
  let container := TestResource.ContainerName resource in
  let? findProc := ask (ScriptFind findProcScript) orelse err => mret (Some err) in
  '(stdout, _, err) ← Exec dockerClient container
    (mkExecConfig true false ["PROC=" +:+ ProcChaosTask_Pattern task] ["sh"; "-c"; findProc]);
  match (err : option error) with
  | Some err => mret (Some err)
  | None =>
  '(err, procs) ← ask (UnmarshalStrings stdout);
  match err with
  | Some err => mret (Some err)
  | None =>
      if len procs =? 0 then mret None
      else
        procs ← (if ProcChaosTask_KillAll task then mret procs
                 else proc ← RandOne procs; mret [proc]);
        let procList := strs.Join procs " " in
        '(_, _, err) ← Exec dockerClient container
          (mkExecConfig true true [] ["sh"; "-c"; "kill -9 " +:+ procList]);
        mret err
  end
  end.

(** The node picked, and the error. *)
Definition killProc (task : ProcChaosTask) (request : TestResourceRequest) : io (string * option error) :=
  node ← RandOne (ProcChaosTask_Nodes task);
  let? found := find_node request (TestResourceRequest_Items request) node None
    orelse err => mret (node, Some err) in
  match found with
  | None => mret (node, Some (Errorf ("node(" +:+ node +:+ ") is not exist")))
  | Some resource =>
  if negb (bool_decide (TestResource_State resource = ResourceReady)) then
    mret (node, Some (Errorf ("Resource(" +:+ node +:+ ") not ready")))
  else
  let? relation := get KRelationship relationshipName orelse err => mret (node, Some err) in
  match go_lookup (ResourceToMachine (Relationship_Status relation))
          (Key (CreateRef (TestResource_ObjectMeta resource))) with
  | None => mret (node, Some (Errorf ("Resource(" +:+ node +:+ ") is not bound with any machine")))
  | Some machineRef =>
  let? machine := get KMachine (Namespaced (MachineRef_Ref machineRef)) orelse err => mret (node, Some err) in
  let? dockerClient := MakeClient machine orelse err => mret (node, Some err) in
  err ← deferring (ask (DockerClose dockerClient)) (kill_with task resource dockerClient);
  mret (node, err)
  end
  end.

(** The closure [kill] of [Reconcile]: the state it leaves, or the error. *)
Definition kill (request : TestResourceRequest) (task : ProcChaosTask) (state : ProcChaosState)
    : io (error + ProcChaosState) :=
  '(node, err) ← killProc task request;
  match err with
  | Some err => mret (inl err)
  | None =>
      now ← (ask TimeNow : io Z);
      mret (inr (state <| ProcChaosState_KilledNode := node |>
                       <| ProcChaosState_KilledTime := Time.NewTime now |>))
  end.

(** ** Reconcile *)

(** The loop over the periodic tasks: the durations still to wait, or the return of the first
    task that is due. *)
Fixpoint check_periods (procChaos : ProcChaos) (request : TestResourceRequest)
    (tasks : list (nat * ProcChaosTask)) (durations : list Z) : io (list Z + (Result * option error)) :=
  match tasks with
  | [] => mret (inl durations)
  | (index, task) :: l =>
      if String.eqb (ProcChaosTask_Period task) "" then check_periods procChaos request l durations
      else
        state ← lift (go_index (ProcChaos_States procChaos) (Z.of_nat index));
        period ← lift (Duration.Unwrap (ProcChaosTask_Period task));
        killed ← lift (Time.Unwrap (ProcChaosState_KilledTime state));
        now ← (ask TimeNow : io Z);
        let duration := wrap64 (period - Since now killed) in
        if duration <=? 0 then
          r ← kill request task state;
          match r with
          | inl err => mret (inr (noRequeue, Some err))
          | inr state =>
              err ← status_update KProcChaos
                (procChaos <| ProcChaos_States ::= fun states => <[index := state]> states |>);
              mret (inr (noRequeue, err))
          end
        else check_periods procChaos request l (durations ++ [duration])
  end.

Definition zeroState : ProcChaosState := mkProcChaosState "" "".

Definition Reconcile (req : NamespacedName) : io (Result * option error) :=
  let? procChaos := get KProcChaos req orelse err => mret (noRequeue, IgnoreNotFound err) in
  let? request := get KTestResourceRequest
      (mkNamespacedName (NamespacedName_Namespace req) (ProcChaos_Request procChaos))
    orelse err => mret (noRequeue, IgnoreNotFound err) in
  if negb (bool_decide (TestResourceRequest_State request = TestResourceRequestReady)) then
    mret (mkResult true time.Second, None)
  else if len (ProcChaos_States procChaos) <? len (ProcChaos_Tasks procChaos) then
    task ← lift (go_index (ProcChaos_Tasks procChaos) (len (ProcChaos_States procChaos)));
    r ← (if negb (String.eqb (ProcChaosTask_Period task) "") then
           now ← (ask TimeNow : io Z);
           mret (inr (zeroState <| ProcChaosState_KilledTime := Time.NewTime now |>))
         else kill request task zeroState);
    match r with
    | inl err => mret (noRequeue, Some err)
    | inr state =>
        err ← status_update KProcChaos
          (procChaos <| ProcChaos_States ::= fun states => states ++ [state] |>);
        mret (noRequeue, err)
    end
  else
    let tasks := ProcChaos_Tasks procChaos in
    r ← check_periods procChaos request (zip (seq 0 (length tasks)) tasks) [];
    match r with
    | inr result => mret result
    | inl durations => mret (mkResult true (Math.MinDuration durations), None)
    end.

(** ** procchaos_webhook.go *)

(** The text of the duration parser's error is not modelled. *)
Fixpoint validate_periods (tasks : list ProcChaosTask) : option error :=
  match tasks with
  | [] => None
  | task :: l =>
      if negb (String.eqb (ProcChaosTask_Period task) "")
         && negb (bool_decide (is_Some (Duration.Parse (ProcChaosTask_Period task))))
      then Some (Errorf "time: invalid duration")
      else validate_periods l
  end.

Definition ValidateCreate (r : ProcChaos) : option error :=
  if len (ProcChaos_Tasks r) =? 0 then Some (Errorf "tasks cannot be empty")
  else validate_periods (ProcChaos_Tasks r).

(** [reflect.DeepEqual] of the task lists; the schema admits no null node list. *)
Definition ValidateUpdate (r old : ProcChaos) : option error :=
  if negb (bool_decide (ProcChaos_Tasks r = ProcChaos_Tasks old))
  then Some (Errorf "cannot update tasks") else None.

End ChaosCtl.
End ChaosCtl.
