(* ===== verification/ChaosTheorems.v ===== *)
(** * Process chaos: its contract *)

From S2P Require Import Prelude GoStd Util ApiTypes Prog World Machine Resource Relationship Docker ChaosCtl.
Import ChaosCtl.

(** ** What a run has learned

    The facts below are about calls made and their answers, so a run only gains them. *)

Definition grows (h h' : history) : Prop := forall P, happened P h -> happened P h'.

#[export] Instance grows_preorder : PreOrder grows.
Proof. split; [by intros h P|]. intros h1 h2 h3 H1 H2 P HP. by apply H2, H1. Qed.
Lemma grows_event h e : grows h (e :: h).
Proof. intros P. apply happened_later. Qed.
Lemma grows_step h h' e : grows h h' -> grows h (e :: h').
Proof. intros H. etrans; [exact H|]. apply grows_event. Qed.
#[export] Hint Resolve grows_event grows_step : naglfar.

(** The call was made and got this answer. *)
Definition replied (c : call) (x : answer c) : history -> Prop :=
  happened (fun c' x' => Event c' x' = Event (answer := answer) c x).

Lemma replied_here c x h : replied c x (Event c x :: h).
Proof. by apply happened_here. Qed.
Lemma replied_grows c x h h' : grows h h' -> replied c x h -> replied c x h'.
Proof. intros H. apply H. Qed.
#[export] Hint Resolve replied_here replied_grows : naglfar.

Section contract.
Context {L : LocalTime} (req : NamespacedName).

(** ** When a task is due

    The task at [index] of a chaos is to be carried out now: it is the first without a state, to be
    done once; or every task has a state, and the period of this one is over since its own. *)
Definition due (p : ProcChaos) (task : ProcChaosTask) (index : nat) (h : history) : Prop :=
  ProcChaos_Tasks p !! index = Some task /\
  ((index = length (ProcChaos_States p) /\ ProcChaosTask_Period task = "") \/
   (len (ProcChaos_Tasks p) <= len (ProcChaos_States p) /\ ProcChaosTask_Period task <> "" /\
    exists state period killed now, ProcChaos_States p !! index = Some state /\
      Duration.Unwrap (ProcChaosTask_Period task) = Ret period /\
      Time.Unwrap (ProcChaosState_KilledTime state) = Ret killed /\
      replied TimeNow now h /\ wrap64 (period - Since now killed) <= 0)).

(** ** Where a process may be killed

    The chaos and its request, which is ready, were read; the node is one of the task's and names an
    item of the request; its resource was read and is ready; and the client is one to the daemon of
    the machine the relationship binds that resource to. *)
Record target (p : ProcChaos) (request : TestResourceRequest) (task : ProcChaosTask) (node : string)
    (r : TestResource) (client : DockerClient) (h : history) : Prop := {
  target_chaos : replied (Get KProcChaos req) (inr p) h;
  target_request : replied (Get KTestResourceRequest
      (mkNamespacedName (NamespacedName_Namespace req) (ProcChaos_Request p))) (inr request) h;
  target_request_ready : TestResourceRequest_State request = TestResourceRequestReady;
  target_node : node ∈ ProcChaosTask_Nodes task;
  target_item : exists item, item ∈ TestResourceRequest_Items request /\ ResourceRequestItem_Name item = node;
  target_resource : replied (Get KTestResource
      (mkNamespacedName (ObjectMeta_Namespace (TestResourceRequest_ObjectMeta request)) node)) (inr r) h;
  target_ready : TestResource_State r = ResourceReady;
  target_client : exists rel mref m,
    replied (Get KRelationship relationshipName) (inr rel) h /\
    go_lookup (ResourceToMachine (Relationship_Status rel)) (Key (CreateRef (TestResource_ObjectMeta r))) = Some mref /\
    replied (Get KMachine (Namespaced (MachineRef_Ref mref))) (inr m) h /\
    replied (DockerNewClient (Machine.DockerURL m) (MachineSpec_DockerVersion (Machine_Spec m))) (inr client) h;
}.

(** ** What is run there

    The packed script looks for the processes of the task's pattern; [kill -9] gets those it printed,
    or one of them. *)
Definition searching (task : ProcChaosTask) (script : string) : ExecConfig :=
  mkExecConfig true false ["PROC=" +:+ ProcChaosTask_Pattern task] ["sh"; "-c"; script].
Definition killing (procs : list string) : ExecConfig :=
  mkExecConfig true true [] ["sh"; "-c"; "kill -9 " +:+ strs.Join procs " "].

Definition chosen (task : ProcChaosTask) (procs l : list string) : Prop :=
  procs <> [] /\ if ProcChaosTask_KillAll task then l = procs else exists proc, proc ∈ procs /\ l = [proc].

(** The command was created in the container and started. *)
Definition ran (client : DockerClient) (name : string) (config : ExecConfig) (h : history) : Prop :=
  exists id, replied (ContainerExecCreate client name config) (inr id) h /\
    replied (ContainerExecAttach client id config) None h.

Definition found (task : ProcChaosTask) (client : DockerClient) (name : string) (procs : list string) (h : history) : Prop :=
  exists script stdout stderr, replied (ScriptFind findProcScript) (inr script) h /\
    ran client name (searching task script) h /\ replied (StdCopy client) (stdout, stderr, None) h /\
    replied (UnmarshalStrings stdout) (None, procs) h.

Definition command (task : ProcChaosTask) (client : DockerClient) (name : string) (config : ExecConfig) (h : history) : Prop :=
  (exists script, replied (ScriptFind findProcScript) (inr script) h /\ config = searching task script) \/
  (exists procs l, found task client name procs h /\ chosen task procs l /\ config = killing l).

(** The task was carried out: no process was found, or the kill was run. *)
Definition carried_out (task : ProcChaosTask) (client : DockerClient) (name : string) (h : history) : Prop :=
  exists procs, found task client name procs h /\
    (procs = [] \/ exists l, chosen task procs l /\ ran client name (killing l) h).

(** ** What is recorded

    The chaos as it was read with the state of one task added or replaced: the time of now, and the
    node in which the task, being due, was carried out; or none for a periodic task seen first. *)
Definition recorded (o : ProcChaos) (h : history) : Prop :=
  exists p task index state now, replied (Get KProcChaos req) (inr p) h /\
    ProcChaos_Tasks p !! index = Some task /\
    ((index = length (ProcChaos_States p) /\ o = p <| ProcChaos_States := ProcChaos_States p ++ [state] |>) \/
     ((index < length (ProcChaos_States p))%nat /\ len (ProcChaos_Tasks p) <= len (ProcChaos_States p) /\
      o = p <| ProcChaos_States := <[index := state]> (ProcChaos_States p) |>)) /\
    replied TimeNow now h /\ ProcChaosState_KilledTime state = Time.NewTime now /\
    ((index = length (ProcChaos_States p) /\ ProcChaosTask_Period task <> "" /\ ProcChaosState_KilledNode state = "") \/
     (due p task index h /\ exists request r client,
        target p request task (ProcChaosState_KilledNode state) r client h /\
        carried_out task client (TestResource.ContainerName r) h)).

Definition contract (h : history) (c : call) : Prop :=
  match c with
  | ContainerExecCreate client name config =>
      exists p request task index node r, target p request task node r client h /\ due p task index h /\
        name = TestResource.ContainerName r /\ command task client name config h
  | ContainerExecAttach client id config =>
      exists name, replied (ContainerExecCreate client name config) (inr id) h
  | StatusUpdate KProcChaos o => recorded o h
  | StatusUpdate _ _ | Update _ _ | Create _ _ | Delete _ _ => False
  | ContainerCreate _ _ _ _ | ContainerStart _ _ | ContainerRemove _ _ _ | NetworkConnect _ _ _ => False
  | _ => True
  end.

Lemma due_grows p task index h h' : grows h h' -> due p task index h -> due p task index h'.
Proof.
  intros Hg [Ht [Hone|(Hall & Hp & st & d & k & now & ? & ? & ? & ? & ?)]]; (split; [exact Ht|]); [by left|right].
  split; [done|]. split; [done|]. exists st, d, k, now. split_and!; eauto with naglfar.
Qed.
Lemma target_grows p request task node r client h h' :
  grows h h' -> target p request task node r client h -> target p request task node r client h'.
Proof.
  intros Hg [? ? ? ? ? ? ? (rel & mref & m & ? & ? & ? & ?)]. split; eauto 8 with naglfar.
  exists rel, mref, m. split_and!; eauto with naglfar.
Qed.
Lemma ran_grows client name config h h' : grows h h' -> ran client name config h -> ran client name config h'.
Proof. intros Hg (id & ? & ?). exists id. eauto with naglfar. Qed.
Lemma found_grows task client name procs h h' :
  grows h h' -> found task client name procs h -> found task client name procs h'.
Proof.
  intros Hg (scr & out & err & ? & ? & ? & ?). exists scr, out, err. split_and!; eauto using ran_grows with naglfar.
Qed.

(** ** The calls, from the inside out *)

Abbreviation runs p h Q := (wp admissible contract p h Q).

Lemma RandOne_spec l h :
  runs (RandOne l) h (fun h' res => grows h h' /\ forall x, res = Ret x -> x ∈ l).
Proof.
  unfold RandOne, Rand. destruct (Z.leb_spec (len l) 0); [by split|].
  cbn [wp mbind prog_bind_inst prog_bind ask]. split; [done|]. intros i Hi.
  apply wp_lift. split; [apply grows_event|]. intros x. unfold go_index.
  destruct (i <? 0); [done|]. destruct (l !! Z.to_nat i) as [y|] eqn:Hy; [|done].
  intros [= <-]. by eapply list_elem_of_lookup_2.
Qed.

(** A command whose creation is allowed is started, and what it printed is read. *)
Lemma Exec_spec client name config h : contract h (ContainerExecCreate client name config) ->
  runs (Exec client name config) h (fun h' res => grows h h' /\ forall out err, res = Ret (out, err, None) ->
    ran client name config h' /\ replied (StdCopy client) (out, err, None) h').
Proof.
  intros Hc. unfold Exec. cbn [wp mbind prog_bind_inst prog_bind ask]. split; [exact Hc|].
  intros [err|id] _; [split; [auto with naglfar|done]|].
  cbn [wp prog_bind ask]. split; [exists name; auto with naglfar|].
  intros [err|] _; [split; [auto with naglfar|done]|].
  cbn [wp prog_bind deferring ask]. split; [done|]. intros [[out serr] e] _.
  cbn [wp prog_bind closing ask mbind prog_bind_inst]. split; [done|]. intros y _. cbn.
  split; [auto 6 with naglfar|]. intros out' err' [= -> -> ->]. split; [exists id|]; eauto 8 with naglfar.
Qed.

Lemma kill_with_spec p request task index node r client h :
  target p request task node r client h -> due p task index h ->
  runs (kill_with task r client) h (fun h' res =>
    grows h h' /\ (res = Ret None -> carried_out task client (TestResource.ContainerName r) h')).
Proof.
  intros Htgt Hdue.
  assert (Hexec : forall h' config, grows h h' -> command task client (TestResource.ContainerName r) config h' ->
    contract h' (ContainerExecCreate client (TestResource.ContainerName r) config)).
  { intros h' config Hg Hcmd. exists p, request, task, index, node, r. split_and!; eauto using target_grows, due_grows. }
  unfold kill_with. cbn [wp mbind prog_bind_inst prog_bind ask]. split; [done|].
  intros [err|scr] _; [split; [auto with naglfar|done]|].
  set (h1 := Event (ScriptFind _) _ :: h). assert (H1 : grows h h1) by apply grows_event.
  apply wp_bind. eapply wp_mono; [apply (Exec_spec client _ (searching task scr) h1), Hexec; [exact H1|]|].
  { left. exists scr. split; [apply replied_here|done]. }
  intros h2 [[[out serr] [err|]]|e] [H2 Hout]; [by split; [etrans|]| |by split; [etrans|]].
  destruct (Hout out serr eq_refl) as [Hran Hcopy].
  cbn [wp mbind prog_bind_inst prog_bind ask]. split; [done|].
  intros [[err|] procs] _; [split; [apply grows_step; by etrans|done]|].
  set (h3 := Event _ _ :: h2). assert (H3 : grows h h3) by (apply grows_step; by etrans).
  assert (Hfound : found task client (TestResource.ContainerName r) procs h3).
  { exists scr, out, serr. split; [apply (replied_grows _ _ h1); [by apply grows_step|apply replied_here]|].
    split; [by eapply ran_grows, Hran; apply grows_event|]. split; [by eapply replied_grows, Hcopy; apply grows_event|].
    apply replied_here. }
  destruct (Z.eqb_spec (len procs) 0) as [H0|Hne].
  { split; [exact H3|]. intros _. exists procs. split; [exact Hfound|left]. destruct procs; [done|].
    unfold len in H0. simpl in H0. lia. }
  assert (Hnil : procs <> []) by by intros ->.
  apply wp_bind. eapply (wp_mono _ _ _ _ (fun h' res => grows h3 h' /\ forall l, res = Ret l -> chosen task procs l)).
  - unfold chosen. destruct (ProcChaosTask_KillAll task); [split; [done|by intros l [= <-]]|].
    apply wp_bind. eapply wp_mono; [apply RandOne_spec|].
    intros h4 [x|e] [Hg Hx]; (split; [done|]); [|done]. intros l [= <-]. split; [done|]. exists x. split; [by apply Hx|done].
  - intros h4 [l|e] [H4 Hl]; [|split; [by etrans|done]]. specialize (Hl l eq_refl).
    assert (H04 : grows h h4) by by etrans.
    apply wp_bind. eapply wp_mono; [apply (Exec_spec client _ (killing l)), Hexec; [exact H04|]|].
    { right. exists procs, l. split; [by apply (found_grows _ _ _ _ h3)|done]. }
    intros h5 [[[out' serr'] [err|]]|e] [H5 Hk]; (split; [by etrans|]); [done| |done].
    intros _. exists procs. split; [apply (found_grows _ _ _ _ h3); [by etrans|done]|]. right. exists l.
    split; [done|]. by eapply Hk.
Qed.

(** The resource found is that of the node, read for an item of its name. *)
Definition found_node (request : TestResourceRequest) (node : string) (h : history) (r : TestResource) : Prop :=
  (exists item, item ∈ TestResourceRequest_Items request /\ ResourceRequestItem_Name item = node) /\
  replied (Get KTestResource
    (mkNamespacedName (ObjectMeta_Namespace (TestResourceRequest_ObjectMeta request)) node)) (inr r) h.

Lemma find_node_spec request items node fnd h :
  items ⊆ TestResourceRequest_Items request -> (forall r, fnd = Some r -> found_node request node h r) ->
  runs (find_node request items node fnd) h (fun h' res =>
    grows h h' /\ forall r, res = Ret (inr (Some r)) -> found_node request node h' r).
Proof.
  revert fnd h; induction items as [|item l IH]; intros fnd h Hsub Hf; cbn [find_node].
  { split; [done|]. intros r [= ->]. by apply Hf. }
  assert (Hl : l ⊆ TestResourceRequest_Items request) by set_solver.
  destruct (String.eqb_spec node (ResourceRequestItem_Name item)) as [Hn|]; [|by apply IH].
  unfold get. cbn [wp mbind prog_bind_inst prog_bind ask]. split; [done|]. intros [err|r] _.
  { split; [apply grows_event|done]. }
  eapply wp_mono; [apply IH; [done|]|].
  - intros r' [= <-]. split; [exists item; split; [set_solver|done]|apply replied_here].
  - intros h' res [Hg Hr]. split; [etrans; [|exact Hg]; apply grows_event|done].
Qed.

Lemma killProc_spec p request task index h :
  replied (Get KProcChaos req) (inr p) h ->
  replied (Get KTestResourceRequest
    (mkNamespacedName (NamespacedName_Namespace req) (ProcChaos_Request p))) (inr request) h ->
  TestResourceRequest_State request = TestResourceRequestReady -> due p task index h ->
  runs (killProc task request) h (fun h' res => grows h h' /\ forall node, res = Ret (node, None) ->
    exists r client, target p request task node r client h' /\
      carried_out task client (TestResource.ContainerName r) h').
Proof.
  intros Hp Hreq Hready Hdue. unfold killProc. apply wp_bind. eapply wp_mono; [apply RandOne_spec|].
  intros h1 [node|e] [H1 Hnode]; [|by split]. specialize (Hnode node eq_refl).
  apply wp_bind. eapply wp_mono; [by apply (find_node_spec request _ node None)|].
  intros h2 [[err|[r|]]|e] [H2' Hr]; pose proof (transitivity H1 H2') as H2; [by split| |by split..].
  destruct (Hr r eq_refl) as [Hitem Hres].
  destruct (bool_decide_reflect (TestResource_State r = ResourceReady)) as [Hst|]; cbn [negb]; [|by split].
  unfold get. cbn [wp mbind prog_bind_inst prog_bind ask]. split; [done|]. intros [err|rel] _; [split; [auto with naglfar|done]|].
  cbn [wp mbind prog_bind_inst prog_bind].
  destruct (@go_lookup MachineRef _ _) as [mref|] eqn:Hm; [|split; [auto with naglfar|done]].
  cbn [wp prog_bind]. split; [done|]. intros [err|m] _; [split; [auto with naglfar|done]|].
  unfold MakeClient, Machine.DockerClient. destruct (MachineSpec_DockerTLS _); [split; [auto with naglfar|done]|].
  cbn [wp prog_bind ask]. split; [done|]. intros [err|client] _; [split; [auto with naglfar|done]|].
  set (h5 := Event (DockerNewClient _ _) _ :: _). assert (H5 : grows h2 h5) by (unfold h5; auto with naglfar).
  assert (Htgt : target p request task node r client h5).
  { pose proof (transitivity H2 H5) as H05. split; try done; eauto using replied_grows. exists rel, mref, m. unfold h5. split_and!; eauto 8 with naglfar. }
  change (runs (deferring (ask (DockerClose client)) (kill_with task r client) ≫= fun err => mret (node, err)) h5
    (fun h' res => grows h h' /\ forall node, res = Ret (node, None) -> exists r client,
       target p request task node r client h' /\ carried_out task client (TestResource.ContainerName r) h')).
  apply wp_bind, wp_deferring. eapply wp_mono; [eapply kill_with_spec; [exact Htgt|]|].
  - eapply due_grows; [|exact Hdue]. by etrans.
  - intros h6 res [H6 Hdone]. cbn [wp ask]. split; [done|]. intros [] _.
    assert (H06 : grows h6 (Event (DockerClose client) () :: h6)) by apply grows_event.
    assert (H0 : grows h (Event (DockerClose client) () :: h6)) by exact (transitivity H2 (transitivity H5 (transitivity H6 H06))).
    destruct res as [[err|]|e]; (split; [exact H0|]); [done| |done].
    intros node' [= <-]. exists r, client. split; [exact (target_grows _ _ _ _ _ _ _ _ (transitivity H6 H06) Htgt)|].
    destruct (Hdone eq_refl) as (procs & Hf & Hk). exists procs. split; [exact (found_grows _ _ _ _ _ _ H06 Hf)|].
    destruct Hk as [->|(l & Hl & Hran)]; [by left|]. right. exists l. split; [done|]. exact (ran_grows _ _ _ _ _ H06 Hran).
Qed.

Lemma kill_spec p request task index state h :
  replied (Get KProcChaos req) (inr p) h ->
  replied (Get KTestResourceRequest
    (mkNamespacedName (NamespacedName_Namespace req) (ProcChaos_Request p))) (inr request) h ->
  TestResourceRequest_State request = TestResourceRequestReady -> due p task index h ->
  runs (kill request task state) h (fun h' res => grows h h' /\ forall state', res = Ret (inr state') ->
    exists now r client, replied TimeNow now h' /\ ProcChaosState_KilledTime state' = Time.NewTime now /\
      target p request task (ProcChaosState_KilledNode state') r client h' /\
      carried_out task client (TestResource.ContainerName r) h').
Proof.
  intros Hp Hreq Hready Hdue. unfold kill. apply wp_bind. eapply wp_mono; [by eapply killProc_spec|].
  intros h1 [[node [err|]]|e] [H1 Hk]; [by split| |by split].
  destruct (Hk node eq_refl) as (r & client & Htgt & procs & Hf & Hdone).
  cbn [wp mbind prog_bind_inst prog_bind ask]. split; [done|]. intros now _.
  pose proof (grows_event h1 (Event TimeNow now)) as H2. split; [by etrans|]. intros state' [= <-].
  exists now, r, client. split; [apply replied_here|]. split; [done|].
  split; [exact (target_grows _ _ _ _ _ _ _ _ H2 Htgt)|]. exists procs. split; [exact (found_grows _ _ _ _ _ _ H2 Hf)|].
  destruct Hdone as [->|(l & Hl & Hran)]; [by left|]. right. exists l. split; [done|]. exact (ran_grows _ _ _ _ _ H2 Hran).
Qed.

(** A due task is carried out at once; otherwise every remaining duration is positive. *)
Lemma check_periods_spec p request done tasks durations h :
  replied (Get KProcChaos req) (inr p) h ->
  replied (Get KTestResourceRequest
    (mkNamespacedName (NamespacedName_Namespace req) (ProcChaos_Request p))) (inr request) h ->
  TestResourceRequest_State request = TestResourceRequestReady ->
  len (ProcChaos_Tasks p) <= len (ProcChaos_States p) ->
  ProcChaos_Tasks p = done ++ tasks ->
  (forall d, d ∈ durations -> 0 < d) ->
  runs (check_periods p request (zip (seq (length done) (length tasks)) tasks) durations) h (fun _ res =>
    match res with
    | Ret (inl ds) => forall d, d ∈ ds -> 0 < d
    | Ret (inr x) => fst x = noRequeue
    | Panic _ => True
    end).
Proof.
  intros Hp Hreq Hready Hall. revert done durations h Hp Hreq.
  induction tasks as [|task l IH]; intros done durations h Hp Hreq Htasks Hd; [exact Hd|].
  assert (Hnext : forall durations h,
    replied (Get KProcChaos req) (inr p) h ->
    replied (Get KTestResourceRequest
      (mkNamespacedName (NamespacedName_Namespace req) (ProcChaos_Request p))) (inr request) h ->
    (forall d, d ∈ durations -> 0 < d) ->
    runs (check_periods p request (zip (seq (S (length done)) (length l)) l) durations) h (fun _ res =>
      match res with Ret (inl ds) => forall d, d ∈ ds -> 0 < d | Ret (inr x) => fst x = noRequeue | Panic _ => True end)).
  { intros ds h' Hp' Hr' Hds. specialize (IH (done ++ [task]) ds h' Hp' Hr').
    rewrite length_app, Nat.add_1_r in IH. apply IH; [by rewrite <-app_assoc|done]. }
  clear IH. cbn [length seq zip zip_with check_periods].
  destruct (String.eqb_spec (ProcChaosTask_Period task) "") as [|Hperiod]; [by apply Hnext|].
  apply wp_bind, wp_lift. destruct (go_index _ _) as [state|e] eqn:Hst; [|done].
  apply wp_bind, wp_lift. destruct (Duration.Unwrap _) as [period|e] eqn:Hdur; [|done].
  apply wp_bind, wp_lift. destruct (Time.Unwrap _) as [killed|e] eqn:Hkilled; [|done].
  cbn [wp mbind prog_bind_inst prog_bind ask]. split; [done|]. intros now _. cbn zeta.
  set (h1 := Event TimeNow now :: h). assert (H1 : grows h h1) by apply grows_event.
  destruct (Z.leb_spec (wrap64 (period - Since now killed)) 0) as [Hle|Hlt].
  - assert (Hat : ProcChaos_Tasks p !! length done = Some task) by (rewrite Htasks; by apply list_lookup_middle).
    assert (Hstate : ProcChaos_States p !! length done = Some state).
    { unfold go_index in Hst. destruct (_ <? 0); [done|]. rewrite Nat2Z.id in Hst. by destruct (_ !! _); simplify_eq. }
    assert (Hdue : due p task (length done) h1).
    { split; [done|]. right. split; [done|]. split; [done|]. exists state, period, killed, now. split_and!; try done. apply replied_here. }
    apply wp_bind. eapply wp_mono; [eapply (kill_spec p request); eauto using replied_grows|].
    intros h2 [[err|st]|e] [H2 Hk]; [done| |done].
    destruct (Hk st eq_refl) as (now' & r & client & Hnow & Htime & Htgt & Hdone).
    unfold status_update. cbn [wp mbind prog_bind_inst prog_bind ask mret prog_ret_inst]. split; [|done].
    exists p, task, (length done), st, now'. assert (H02 : grows h h2) by exact (transitivity H1 H2).
    split; [exact (replied_grows _ _ _ _ H02 Hp)|]. split; [done|]. split.
    { right. split; [by eapply lookup_lt_Some|]. split; [done|]. reflexivity. }
    split; [done|]. split; [done|]. right. split; [exact (due_grows _ _ _ _ _ H2 Hdue)|]. by exists request, r, client.
  - apply Hnext; [exact (replied_grows _ _ _ _ H1 Hp)|exact (replied_grows _ _ _ _ H1 Hreq)|].
    intros d [Hin| ->%list_elem_of_singleton]%elem_of_app; [by apply Hd|done].
Qed.

Lemma first_task_spec p request task h :
  replied (Get KProcChaos req) (inr p) h ->
  replied (Get KTestResourceRequest
    (mkNamespacedName (NamespacedName_Namespace req) (ProcChaos_Request p))) (inr request) h ->
  TestResourceRequest_State request = TestResourceRequestReady ->
  ProcChaos_Tasks p !! length (ProcChaos_States p) = Some task ->
  runs (if negb (String.eqb (ProcChaosTask_Period task) "") then
          now ← (ask TimeNow : io Z); mret (inr (zeroState <| ProcChaosState_KilledTime := Time.NewTime now |>))
        else kill request task zeroState) h (fun h' res => forall state, res = Ret (inr state) ->
    recorded (p <| ProcChaos_States ::= fun states => states ++ [state] |>) h').
Proof.
  intros Hp Hreq Hready Hat. destruct (String.eqb_spec (ProcChaosTask_Period task) "") as [Hone|Hper]; cbn [negb].
  - assert (Hdue : due p task (length (ProcChaos_States p)) h) by (split; [done|by left]).
    eapply wp_mono; [by eapply (kill_spec p request)|]. intros h1 res [H1 Hk] state Hres.
    destruct (Hk state Hres) as (now & r & client & Hnow & Htime & Htgt & Hdone).
    exists p, task, (length (ProcChaos_States p)), state, now. split; [exact (replied_grows _ _ _ _ H1 Hp)|].
    split; [done|]. split; [by left|]. split; [done|]. split; [done|]. right. split; [exact (due_grows _ _ _ _ _ H1 Hdue)|].
    by exists request, r, client.
  - cbn [wp mbind prog_bind_inst prog_bind ask]. split; [done|]. intros now _ state [= <-].
    exists p, task, (length (ProcChaos_States p)), (mkProcChaosState (Time.NewTime now) ""), now.
    split; [exact (replied_grows _ _ _ _ (grows_event h _) Hp)|]. split; [done|]. split; [left; split; [done|reflexivity]|].
    split; [apply replied_here|]. split; [done|]. by left.
Qed.

Lemma chaos_calls :
  safe contract (Reconcile req) (fun _ res => forall d, res = Ret (mkResult true d, None) -> 0 < d).
Proof.
  unfold safe, Reconcile, get. cbn [wp mbind prog_bind_inst prog_bind ask]. split; [done|].
  intros [err|p] _; [by intros d [=]|]. cbn [prog_bind wp]. split; [done|].
  intros [err|request] _; [by intros d [=]|].
  match goal with |- wp _ _ _ ?hh _ => set (h := hh) end.
  assert (Hp : replied (Get KProcChaos req) (inr p) h) by (unfold h; eauto with naglfar).
  destruct (bool_decide_reflect (TestResourceRequest_State request = TestResourceRequestReady)) as [Hready|];
    cbn [negb]; [|by intros d [= <-]].
  destruct (Z.ltb_spec (len (ProcChaos_States p)) (len (ProcChaos_Tasks p))) as [Hlt|Hge].
  - apply wp_bind, wp_lift. destruct (go_index _ _) as [task|e] eqn:Htask; [|done].
    assert (Hat : ProcChaos_Tasks p !! length (ProcChaos_States p) = Some task).
    { unfold go_index in Htask. destruct (_ <? 0); [done|]. unfold len in Htask. rewrite Nat2Z.id in Htask.
      by destruct (_ !! _); simplify_eq. }
    apply wp_bind. eapply wp_mono; [eapply (first_task_spec p request); eauto using replied_here|].
    intros h1 [[err|st]|e] Hst; [by intros d [=]| |done].
    unfold status_update. cbn [wp mbind prog_bind_inst prog_bind ask mret prog_ret_inst].
    split; [by apply Hst|by intros x _ d [=]].
  - apply wp_bind. eapply wp_mono; [apply (check_periods_spec p request []); [done|apply replied_here|done..|set_solver]|].
    intros h1 [[ds|[res err]]|e] Hds; [|by intros d [= -> _]|done].
    intros d [= <-]. unfold Math.MinDuration.
    destruct (Math.fold_min_spec ds maxInt) as (_ & _ & [-> | Hin]); [done|by apply Hds].
Qed.

(** C38. Process chaos runs commands only for a task that is due, in the container of the resource of
    one of the task's nodes that is an item of the ready request, the resource being ready, and
    through a client of the machine the relationship binds it to; the commands are the search for
    the task's pattern, and the kill of what it found, of all of it or of one. The only object written
    is its own status, unchanged but for the state of one task, which is added to those of the tasks
    before or replaced: the time of now and the node in which the task was carried out, or no node
    for a periodic task seen first. And when it asks to be called again, it is after a positive time. *)
Theorem chaos_contract :
  safe contract (Reconcile req) (fun _ res => forall d, res = Ret (mkResult true d, None) -> 0 < d).
Proof. apply chaos_calls. Qed.
End contract.
