(* ===== verification/Topology.v ===== *)
(** * Cluster topologies: validation

    api/v1/testclustertopology_webhook.go. Reflection over the named fields of a cluster is
    written out field by field; [reflect.DeepEqual] is the decidable equality of the records,
    whose component slices keep nil apart from empty. *)

From S2P Require Import Prelude GoStd Util ApiTypes TopologyTypes World.

(** github.com/r3labs/diff is not code of the repository: the number of changes it lists
    between two component specs, or its error. *)
Class Differ := {
  Diff_TiDB : TiDBSpec -> TiDBSpec -> error + nat;
  Diff_PD : PDSpec -> PDSpec -> error + nat;
  Diff_TiKV : TiKVSpec -> TiKVSpec -> error + nat;
}.

(** Documented behaviour: equal values have no change, and without a change values are equal. *)
Class DifferLaws (D : Differ) : Prop := {
  diff_tidb a b : Diff_TiDB a b = inr 0%nat <-> a = b;
  diff_pd a b : Diff_PD a b = inr 0%nat <-> a = b;
  diff_tikv a b : Diff_TiKV a b = inr 0%nat <-> a = b;
}.

Module Topology.
Section Topology.
Context {D : Differ}.

Definition lens (c : TiDBCluster) : Z * Z * Z :=
  (len (elems (TiDBCluster_TiDB c)), len (elems (TiDBCluster_PD c)), len (elems (TiDBCluster_TiKV c))).

Definition IsServerConfigModified (pre cur : ServerConfigs) : bool := negb (bool_decide (pre = cur)).

Definition IsScale (pre cur : TiDBCluster) : bool :=
  let '(t, p, k) := lens pre in let '(t', p', k') := lens cur in
  negb (t =? t') || negb (p =? p') || negb (k =? k').

Definition IsScaleIn (pre cur : TiDBCluster) : bool :=
  let '(t, p, k) := lens pre in let '(t', p', k') := lens cur in
  (t' <? t) || (p' <? p) || (k' <? k).

Definition IsScaleOut (pre cur : TiDBCluster) : bool :=
  let '(t, p, k) := lens pre in let '(t', p', k') := lens cur in
  (t <? t') || (p <? p') || (k <? k').

Definition IsUpgrade (pre cur : TiDBCluster) : bool :=
  negb (String.eqb (Version_Version (TiDBCluster_Version pre)) (Version_Version (TiDBCluster_Version cur))).

(** One component of the loop: whether the check goes on. Two nil slices are skipped, and some
    host must be common. *)
Definition common_host {A} (host : A -> string) (pre cur : goslice A) : bool :=
  match pre, cur with
  | None, None => true
  | _, _ => existsb (fun a => existsb (fun b => String.eqb (host a) (host b)) (elems cur)) (elems pre)
  end.

Definition scale_error : error := Errorf "cluster can't scale-in/out at the same time".

Definition checkSimultaneousScaleOutAndScaleIn (pre cur : TiDBCluster) : option error :=
  let scaleIn := IsScaleIn pre cur in
  let scaleOut := IsScaleOut pre cur in
  if scaleIn && scaleOut then Some scale_error
  else if negb scaleIn && negb scaleOut then
    if negb (common_host TiDBSpec_Host (TiDBCluster_TiDB pre) (TiDBCluster_TiDB cur)) then Some scale_error
    else if negb (common_host PDSpec_Host (TiDBCluster_PD pre) (TiDBCluster_PD cur)) then Some scale_error
    else if negb (common_host TiKVSpec_Host (TiDBCluster_TiKV pre) (TiDBCluster_TiKV cur)) then Some scale_error
    else None
  else None.

(** One component: the tips of its elements, each field in turn. The components are ranged over
    in a map's order in the code: only the order of the tips in a message depends on it. *)
Fixpoint empty_fields {A} (name : string) (fields : list (string * (A -> string))) (i : Z) (l : list A)
    : list string :=
  match l with
  | [] => []
  | a :: l' =>
      omap (fun '(field, get) =>
              if String.eqb (get a) ""
              then Some ("spec.tidbCluster." +:+ strs.ToLower name +:+ "[" +:+ strconv.Itoa i +:+ "]." +:+ field)
              else None) fields
      ++ empty_fields name fields (i + 1) l'
  end.

Definition getEmptyRequiredFields (cur : TiDBCluster) : list string :=
  match TiDBCluster_Global cur with
  | Some _ => []
  | None =>
      empty_fields "TiDB" [("DeployDir", TiDBSpec_DeployDir)] 0 (elems (TiDBCluster_TiDB cur))
      ++ empty_fields "PD" [("DeployDir", PDSpec_DeployDir); ("DataDir", PDSpec_DataDir)] 0
           (elems (TiDBCluster_PD cur))
      ++ empty_fields "TiKV" [("DeployDir", TiKVSpec_DeployDir); ("DataDir", TiKVSpec_DataDir)] 0
           (elems (TiDBCluster_TiKV cur))
  end.

Definition checkUnsupportedComponentsChanged (pre cur : TiDBCluster) : option error :=
  if bool_decide (TiDBCluster_Global pre = TiDBCluster_Global cur)
     && bool_decide (TiDBCluster_Drainer pre = TiDBCluster_Drainer cur)
     && bool_decide (TiDBCluster_Pump pre = TiDBCluster_Pump cur)
     && bool_decide (TiDBCluster_Monitor pre = TiDBCluster_Monitor cur)
     && bool_decide (TiDBCluster_Control pre = TiDBCluster_Control cur)
     && bool_decide (TiDBCluster_Grafana pre = TiDBCluster_Grafana cur)
  then None else Some (Errorf "update unsupport components").

Definition checkIn (lists : list string) (str : string) : bool :=
  existsb (fun s => String.eqb s str) lists.

Definition countClusterNum (tct : TestClusterTopology) : Z :=
  let spec := Topology_Spec tct in
  (match Topology_FlinkCluster spec with Some _ => 1 | None => 0 end)
  + (match Topology_TiDBCluster spec with Some _ => 1 | None => 0 end)
  + (match Topology_DMCluster spec with Some _ => 1 | None => 0 end).

Definition checkVersionDownloadURLModified (pre cur : TiDBCluster) : option error :=
  let p := TiDBCluster_Version pre in let c := TiDBCluster_Version cur in
  if negb (String.eqb (Version_PDDownloadURL p) (Version_PDDownloadURL c))
     || negb (String.eqb (Version_TiDBDownloadURL p) (Version_TiDBDownloadURL c))
     || negb (String.eqb (Version_TiKVDownloadURL p) (Version_TiKVDownloadURL c))
  then Some (Errorf "don't support update downLoadURL") else None.

(** The two inner loops for one component. The changes listed in the message are not modelled. *)
Fixpoint check_entry {A} (field : string) (id : A -> string) (diff : A -> A -> error + nat) (a : A)
    (cur : list A) : option error :=
  match cur with
  | [] => None
  | b :: l =>
      if String.eqb (id a) (id b) then
        match diff a b with
        | inl err => Some err
        | inr O => check_entry field id diff a l
        | inr (S _) => Some (Errorf ("immutable field " +:+ field +:+ " is changed"))
        end
      else check_entry field id diff a l
  end.

Fixpoint check_entries {A} (field : string) (id : A -> string) (diff : A -> A -> error + nat)
    (pre cur : list A) : option error :=
  match pre with
  | [] => None
  | a :: l =>
      match check_entry field id diff a cur with
      | Some err => Some err
      | None => check_entries field id diff l cur
      end
  end.

Definition checkImmutableFieldChanged (pre cur : TiDBCluster) : option error :=
  match check_entries "TiDB" TiDBSpec_EntryID Diff_TiDB
          (elems (TiDBCluster_TiDB pre)) (elems (TiDBCluster_TiDB cur)) with
  | Some err => Some err
  | None =>
      match check_entries "PD" PDSpec_EntryID Diff_PD
              (elems (TiDBCluster_PD pre)) (elems (TiDBCluster_PD cur)) with
      | Some err => Some err
      | None =>
          check_entries "TiKV" TiKVSpec_EntryID Diff_TiKV
            (elems (TiDBCluster_TiKV pre)) (elems (TiDBCluster_TiKV cur))
      end
  end.

(** Elements on the same host with another config. *)
Definition config_modified {A} (host config : A -> string) (pre cur : list A) : bool :=
  existsb (fun a => existsb (fun b =>
    String.eqb (host a) (host b) && negb (String.eqb (config a) (config b))) cur) pre.

Definition IsComponentsConfigModified (pre cur : TiDBCluster) : bool :=
  config_modified TiDBSpec_Host TiDBSpec_Config (elems (TiDBCluster_TiDB pre)) (elems (TiDBCluster_TiDB cur))
  || config_modified PDSpec_Host PDSpec_Config (elems (TiDBCluster_PD pre)) (elems (TiDBCluster_PD cur))
  || config_modified TiKVSpec_Host TiKVSpec_Config (elems (TiDBCluster_TiKV pre)) (elems (TiDBCluster_TiKV cur)).

Definition b2z (b : bool) : Z := if b then 1 else 0.

Definition checkAtMostOneKindUpdation (pre cur : TiDBCluster) : option error :=
  let updatedModules :=
    b2z (IsScale pre cur)
    + b2z (IsServerConfigModified (TiDBCluster_ServerConfigs pre) (TiDBCluster_ServerConfigs cur))
    + b2z (IsUpgrade pre cur) in
  if 1 <? updatedModules then
    Some (Errorf "only one of [upgrade, modify serverConfigs, scale-in/out] can be executed at a time")
  else None.

Definition checkUpgradePolicy (cur : TiDBCluster) : option error :=
  let p := TiDBCluster_UpgradePolicy cur in
  if negb (String.eqb p "force" || String.eqb p "")
  then Some (Errorf "upgradePolicy must be `force` or empty") else None.

Definition must_fill (cur : TiDBCluster) : option error :=
  match getEmptyRequiredFields cur with
  | [] => None
  | result => Some (Errorf ("you must fill [" +:+ strs.Join result " " +:+ "]"))
  end.

Definition ValidateCreate (r : TestClusterTopology) : option error :=
  if 1 <? countClusterNum r then Some (Errorf "only one cluster can be created at a time")
  else match Topology_TiDBCluster (Topology_Spec r) with
       | Some cluster => must_fill cluster
       | None => None
       end.

(** The first error of a list of checks. *)
Fixpoint first_error (l : list (option error)) : option error :=
  match l with
  | [] => None
  | Some err :: _ => Some err
  | None :: l => first_error l
  end.

(** Shrinking is refused while stores are still leaving from an earlier shrink. *)
Definition checkOffline (pre cur : TiDBCluster) (info : TiDBClusterInfo) : option error :=
  let pending := TiDBClusterInfo_PendingOfflineList info in
  let offline := TiDBClusterInfo_OfflineList info in
  if IsScaleIn pre cur && (negb (len pending =? 0) || negb (len offline =? 0))
  then Some (Errorf ("you must wait scale-in tikvs [" +:+ strs.Join pending " " +:+ "],["
          +:+ strs.Join offline " " +:+ "] complete the region migration"))
  else None.

(** [r] is the new object: the lists of offline stores are those of its own status. *)
Definition validateTiDBUpdate (r tct : TestClusterTopology) : option error :=
  match Topology_TiDBCluster (Topology_Spec r), TopologyStatus_PreTiDBCluster (Topology_Status tct) with
  | Some cur, Some pre =>
      first_error
        [checkUnsupportedComponentsChanged pre cur;
         checkAtMostOneKindUpdation pre cur;
         checkUpgradePolicy cur;
         checkImmutableFieldChanged pre cur;
         checkVersionDownloadURLModified pre cur;
         checkSimultaneousScaleOutAndScaleIn pre cur;
         must_fill cur;
         checkOffline pre cur (TopologyStatus_TiDBClusterInfo (Topology_Status r))]
  | _, _ => None
  end.

Definition ValidateUpdate (r tct : TestClusterTopology) : option error :=
  match Topology_TiDBCluster (Topology_Spec r) with
  | Some _ => validateTiDBUpdate r tct
  | None => None
  end.

(** ** Lemmas *)

Lemma first_error_None l : first_error l = None <-> forall x, x ∈ l -> x = None.
Proof.
  induction l as [|[e|] l IH]; simpl.
  - split; [intros _ x Hx; set_solver|done].
  - split; [done|]. intros H. specialize (H (Some e) ltac:(by left)). done.
  - rewrite IH. split; [intros H x [->|Hx]%elem_of_cons; auto|intros H x Hx; apply H; by right].
Qed.

Lemma check_entries_None {A} field (id : A -> string) (diff : A -> A -> error + nat) pre cur :
  check_entries field id diff pre cur = None <->
  forall a b, a ∈ pre -> b ∈ cur -> id a = id b -> diff a b = inr 0%nat.
Proof.
  assert (Hentry : forall a, check_entry field id diff a cur = None <->
            forall b, b ∈ cur -> id a = id b -> diff a b = inr 0%nat).
  { intros a. induction cur as [|b cur IH]; simpl; [set_solver|].
    destruct (String.eqb_spec (id a) (id b)) as [Hid|Hid].
    - destruct (diff a b) as [e|[|n]] eqn:Hd.
      + split; [done|]. intros H. specialize (H b ltac:(by left) Hid). congruence.
      + rewrite IH. split; [intros H b' [->|Hb]%elem_of_cons; auto|intros H b' Hb; apply H; by right].
      + split; [done|]. intros H. specialize (H b ltac:(by left) Hid). congruence.
    - rewrite IH. split; [intros H b' [->|Hb]%elem_of_cons; [done|auto]|intros H b' Hb; apply H; by right]. }
  induction pre as [|a pre IH]; simpl; [set_solver|].
  destruct (check_entry field id diff a cur) as [e|] eqn:He.
  - split; [done|]. intros H. exfalso.
    assert (check_entry field id diff a cur = None) by (apply Hentry; intros b; apply H; by left). congruence.
  - rewrite IH. rewrite Hentry in He.
    split; [intros H a' b [->|Ha]%elem_of_cons; auto|intros H a' b Ha; apply H; by right].
Qed.

Lemma empty_fields_nil {A} name (fields : list (string * (A -> string))) i l :
  empty_fields name fields i l = [] <->
  forall a f, a ∈ l -> f ∈ fields -> f.2 a <> "".
Proof.
  revert i; induction l as [|a l IH]; intros i; simpl; [set_solver|].
  assert (Hone : forall g, omap (fun '(field, get) => if String.eqb (get a) "" then Some (g field) else None : option string) fields = []
     <-> forall f, f ∈ fields -> f.2 a <> "").
  { intros g. clear IH. induction fields as [|[n f] fields IH]; [set_solver|]. csimpl.
    destruct (String.eqb_spec (f a) "") as [He|He].
    - split; [done|]. intros H. by destruct (H (n, f) ltac:(by left)).
    - rewrite IH. split; [intros H p [->|Hp]%elem_of_cons; auto|intros H p Hp; apply H; by right]. }
  specialize (Hone (fun field => "spec.tidbCluster." +:+ strs.ToLower name +:+ "[" +:+ strconv.Itoa i +:+ "]." +:+ field)).
  simpl in Hone.
  split.
  - intros [H1 H2]%app_eq_nil. rewrite Hone in H1. rewrite IH in H2.
    intros a' f [->|Ha]%elem_of_cons Hf; auto.
  - intros H.
    match goal with |- ?x ++ ?y = [] => assert (x = []) as ->; [apply Hone; intros f Hf; apply H; [by left|done]|] end.
    apply IH. intros a' f Ha Hf. apply H; [by right|done].
Qed.

End Topology.
End Topology.
