(* ===== verification/TopologyTheorems.v ===== *)
(** * Cluster topologies: what the webhook accepts *)

From S2P Require Import Prelude GoStd Util ApiTypes TopologyTypes World Topology.
Import Topology.

Section accepts.
Context {D : Differ} {DL : DifferLaws D}.

Definition cluster_scaled (pre cur : TiDBCluster) : Prop := lens pre <> lens cur.
Definition configs_changed (pre cur : TiDBCluster) : Prop :=
  TiDBCluster_ServerConfigs pre <> TiDBCluster_ServerConfigs cur.
Definition version_changed (pre cur : TiDBCluster) : Prop :=
  Version_Version (TiDBCluster_Version pre) <> Version_Version (TiDBCluster_Version cur).

(** Some component got shorter, or longer. *)
Definition shrinks (pre cur : TiDBCluster) : Prop :=
  let '(t, p, k) := lens pre in let '(t', p', k') := lens cur in t' < t \/ p' < p \/ k' < k.
Definition grows (pre cur : TiDBCluster) : Prop := shrinks cur pre.

Definition shares_host {A} (host : A -> string) (pre cur : goslice A) : Prop :=
  (pre = None /\ cur = None) \/
  exists a b, a ∈ elems pre /\ b ∈ elems cur /\ host a = host b.

(** Components of the same address differ in nothing but their configuration. *)
Definition same_but_config {A} (id : A -> string) (set_config : string -> A -> A) (pre cur : goslice A) : Prop :=
  forall a b, a ∈ elems pre -> b ∈ elems cur -> id a = id b -> exists config, set_config config a = b.
Definition tidb_config (config : string) (t : TiDBSpec) : TiDBSpec := t <| TiDBSpec_Config := config |>.
Definition pd_config (config : string) (t : PDSpec) : PDSpec := t <| PDSpec_Config := config |>.
Definition tikv_config (config : string) (t : TiKVSpec) : TiKVSpec := t <| TiKVSpec_Config := config |>.

Definition filled {A} (fields : list (A -> string)) (l : list A) : Prop :=
  forall a f, a ∈ l -> f ∈ fields -> f a <> "".

(** The specification of an update of a TiDB cluster that is permitted. *)
Record permitted (pre cur : TiDBCluster) (info : TiDBClusterInfo) : Prop := {
  acc_fixed : TiDBCluster_Global pre = TiDBCluster_Global cur /\
    TiDBCluster_Drainer pre = TiDBCluster_Drainer cur /\ TiDBCluster_Pump pre = TiDBCluster_Pump cur /\
    TiDBCluster_Monitor pre = TiDBCluster_Monitor cur /\ TiDBCluster_Control pre = TiDBCluster_Control cur /\
    TiDBCluster_Grafana pre = TiDBCluster_Grafana cur;
  acc_one_kind : ~ (cluster_scaled pre cur /\ configs_changed pre cur) /\
    ~ (cluster_scaled pre cur /\ version_changed pre cur) /\
    ~ (configs_changed pre cur /\ version_changed pre cur);
  acc_policy : TiDBCluster_UpgradePolicy cur = "force" \/ TiDBCluster_UpgradePolicy cur = "";
  acc_immutable :
    same_but_config TiDBSpec_EntryID tidb_config (TiDBCluster_TiDB pre) (TiDBCluster_TiDB cur) /\
    same_but_config PDSpec_EntryID pd_config (TiDBCluster_PD pre) (TiDBCluster_PD cur) /\
    same_but_config TiKVSpec_EntryID tikv_config (TiDBCluster_TiKV pre) (TiDBCluster_TiKV cur);
  acc_urls :
    Version_PDDownloadURL (TiDBCluster_Version pre) = Version_PDDownloadURL (TiDBCluster_Version cur) /\
    Version_TiDBDownloadURL (TiDBCluster_Version pre) = Version_TiDBDownloadURL (TiDBCluster_Version cur) /\
    Version_TiKVDownloadURL (TiDBCluster_Version pre) = Version_TiKVDownloadURL (TiDBCluster_Version cur);
  acc_one_way : ~ (shrinks pre cur /\ grows pre cur);
  acc_hosts : ~ shrinks pre cur -> ~ grows pre cur ->
    shares_host TiDBSpec_Host (TiDBCluster_TiDB pre) (TiDBCluster_TiDB cur) /\
    shares_host PDSpec_Host (TiDBCluster_PD pre) (TiDBCluster_PD cur) /\
    shares_host TiKVSpec_Host (TiDBCluster_TiKV pre) (TiDBCluster_TiKV cur);
  acc_filled : TiDBCluster_Global cur = None ->
    filled [TiDBSpec_DeployDir] (elems (TiDBCluster_TiDB cur)) /\
    filled [PDSpec_DeployDir; PDSpec_DataDir] (elems (TiDBCluster_PD cur)) /\
    filled [TiKVSpec_DeployDir; TiKVSpec_DataDir] (elems (TiDBCluster_TiKV cur));
  acc_offline : shrinks pre cur ->
    TiDBClusterInfo_PendingOfflineList info = [] /\ TiDBClusterInfo_OfflineList info = [];
}.

(** What the code accepts: it must not change the configurations either. *)
Definition unchanged (pre cur : TiDBCluster) : Prop :=
  (forall a b, a ∈ elems (TiDBCluster_TiDB pre) -> b ∈ elems (TiDBCluster_TiDB cur) ->
     TiDBSpec_EntryID a = TiDBSpec_EntryID b -> a = b) /\
  (forall a b, a ∈ elems (TiDBCluster_PD pre) -> b ∈ elems (TiDBCluster_PD cur) ->
     PDSpec_EntryID a = PDSpec_EntryID b -> a = b) /\
  (forall a b, a ∈ elems (TiDBCluster_TiKV pre) -> b ∈ elems (TiDBCluster_TiKV cur) ->
     TiKVSpec_EntryID a = TiKVSpec_EntryID b -> a = b).
Definition acceptable (pre cur : TiDBCluster) (info : TiDBClusterInfo) : Prop :=
  permitted pre cur info /\ unchanged pre cur.

(** The changes about which the comments of the code and the code do not agree, left out: another
    configuration of a component ("config is allowed to be updated", which the loop refuses), and
    another host in a component that neither grows nor shrinks ("like tikv(n1,n2,n3)--->tikv(n1,n2,n4)",
    which is refused only when no host is kept). *)
Definition same_config {A} (id config : A -> string) (pre cur : goslice A) : Prop :=
  forall a b, a ∈ elems pre -> b ∈ elems cur -> id a = id b -> config a = config b.
Definition same_hosts {A} (host : A -> string) (pre cur : goslice A) : Prop :=
  forall h, h ∈ host <$> elems pre <-> h ∈ host <$> elems cur.

Record undisputed (pre cur : TiDBCluster) : Prop := {
  und_config :
    same_config TiDBSpec_EntryID TiDBSpec_Config (TiDBCluster_TiDB pre) (TiDBCluster_TiDB cur) /\
    same_config PDSpec_EntryID PDSpec_Config (TiDBCluster_PD pre) (TiDBCluster_PD cur) /\
    same_config TiKVSpec_EntryID TiKVSpec_Config (TiDBCluster_TiKV pre) (TiDBCluster_TiKV cur);
  und_hosts : ~ shrinks pre cur -> ~ grows pre cur ->
    same_hosts TiDBSpec_Host (TiDBCluster_TiDB pre) (TiDBCluster_TiDB cur) /\
    same_hosts PDSpec_Host (TiDBCluster_PD pre) (TiDBCluster_PD cur) /\
    same_hosts TiKVSpec_Host (TiDBCluster_TiKV pre) (TiDBCluster_TiKV cur);
}.

(** ** Each check against its part of the specification *)

Lemma unsupported_None pre cur :
  checkUnsupportedComponentsChanged pre cur = None <->
  TiDBCluster_Global pre = TiDBCluster_Global cur /\
  TiDBCluster_Drainer pre = TiDBCluster_Drainer cur /\ TiDBCluster_Pump pre = TiDBCluster_Pump cur /\
  TiDBCluster_Monitor pre = TiDBCluster_Monitor cur /\ TiDBCluster_Control pre = TiDBCluster_Control cur /\
  TiDBCluster_Grafana pre = TiDBCluster_Grafana cur.
Proof.
  unfold checkUnsupportedComponentsChanged.
  repeat (case_bool_decide; cbn [negb]; [|split; [discriminate|tauto]]). tauto.
Qed.

Lemma IsScaleIn_spec pre cur : IsScaleIn pre cur = true <-> shrinks pre cur.
Proof.
  unfold IsScaleIn, shrinks. destruct (lens pre) as [[t p] k], (lens cur) as [[t' p'] k'].
  rewrite !orb_true_iff, !Z.ltb_lt. tauto.
Qed.
Lemma IsScaleOut_spec pre cur : IsScaleOut pre cur = true <-> grows pre cur.
Proof.
  unfold IsScaleOut, grows, shrinks. destruct (lens pre) as [[t p] k], (lens cur) as [[t' p'] k'].
  rewrite !orb_true_iff, !Z.ltb_lt. tauto.
Qed.
Lemma IsScale_spec pre cur : IsScale pre cur = true <-> cluster_scaled pre cur.
Proof.
  unfold IsScale, cluster_scaled. destruct (lens pre) as [[t p] k], (lens cur) as [[t' p'] k'].
  rewrite !orb_true_iff, !negb_true_iff, !Z.eqb_neq. split; [intros H [= -> -> ->]; tauto|].
  intros H. destruct (decide (t = t')), (decide (p = p')), (decide (k = k')); subst; tauto.
Qed.

Lemma one_kind_None pre cur :
  checkAtMostOneKindUpdation pre cur = None <->
  ~ (cluster_scaled pre cur /\ configs_changed pre cur) /\
  ~ (cluster_scaled pre cur /\ version_changed pre cur) /\
  ~ (configs_changed pre cur /\ version_changed pre cur).
Proof.
  unfold checkAtMostOneKindUpdation.
  assert (Hc : IsServerConfigModified (TiDBCluster_ServerConfigs pre) (TiDBCluster_ServerConfigs cur) = true
               <-> configs_changed pre cur).
  { unfold IsServerConfigModified, configs_changed. by rewrite negb_true_iff, bool_decide_eq_false. }
  assert (Hu : IsUpgrade pre cur = true <-> version_changed pre cur).
  { unfold IsUpgrade, version_changed. by rewrite negb_true_iff, String.eqb_neq. }
  rewrite <-IsScale_spec, <-Hc, <-Hu.
  destruct (IsScale pre cur), (IsServerConfigModified _ _), (IsUpgrade pre cur); simpl; naive_solver.
Qed.

Lemma policy_None cur :
  checkUpgradePolicy cur = None <-> TiDBCluster_UpgradePolicy cur = "force" \/ TiDBCluster_UpgradePolicy cur = "".
Proof.
  unfold checkUpgradePolicy.
  destruct (String.eqb_spec (TiDBCluster_UpgradePolicy cur) "force"),
    (String.eqb_spec (TiDBCluster_UpgradePolicy cur) ""); simpl; tauto || naive_solver.
Qed.

Lemma immutable_None pre cur :
  checkImmutableFieldChanged pre cur = None <->
  (forall a b, a ∈ elems (TiDBCluster_TiDB pre) -> b ∈ elems (TiDBCluster_TiDB cur) ->
     TiDBSpec_EntryID a = TiDBSpec_EntryID b -> a = b) /\
  (forall a b, a ∈ elems (TiDBCluster_PD pre) -> b ∈ elems (TiDBCluster_PD cur) ->
     PDSpec_EntryID a = PDSpec_EntryID b -> a = b) /\
  (forall a b, a ∈ elems (TiDBCluster_TiKV pre) -> b ∈ elems (TiDBCluster_TiKV cur) ->
     TiKVSpec_EntryID a = TiKVSpec_EntryID b -> a = b).
Proof.
  unfold checkImmutableFieldChanged. setoid_rewrite <-diff_tidb. setoid_rewrite <-diff_pd.
  setoid_rewrite <-diff_tikv. rewrite <-!(check_entries_None "TiDB" TiDBSpec_EntryID).
  rewrite <-!(check_entries_None "PD" PDSpec_EntryID), <-!(check_entries_None "TiKV" TiKVSpec_EntryID).
  destruct (check_entries "TiDB" _ _ _ _); [naive_solver|].
  destruct (check_entries "PD" _ _ _ _); naive_solver.
Qed.

Lemma urls_None pre cur :
  checkVersionDownloadURLModified pre cur = None <->
  Version_PDDownloadURL (TiDBCluster_Version pre) = Version_PDDownloadURL (TiDBCluster_Version cur) /\
  Version_TiDBDownloadURL (TiDBCluster_Version pre) = Version_TiDBDownloadURL (TiDBCluster_Version cur) /\
  Version_TiKVDownloadURL (TiDBCluster_Version pre) = Version_TiKVDownloadURL (TiDBCluster_Version cur).
Proof.
  unfold checkVersionDownloadURLModified.
  repeat match goal with |- context [String.eqb ?a ?b] => destruct (String.eqb_spec a b) end; simpl; naive_solver.
Qed.

Lemma common_host_spec {A} (host : A -> string) pre cur :
  common_host host pre cur = true <-> shares_host host pre cur.
Proof.
  assert (Hex : existsb (fun a => existsb (fun b => String.eqb (host a) (host b)) (elems cur)) (elems pre) = true
    <-> exists a b, a ∈ elems pre /\ b ∈ elems cur /\ host a = host b).
  { rewrite existsb_exists. setoid_rewrite existsb_exists. setoid_rewrite String.eqb_eq.
    setoid_rewrite <-list_elem_of_In. naive_solver. }
  unfold common_host, shares_host. destruct pre as [p|], cur as [c|]; rewrite ?Hex; try naive_solver.
Qed.

Lemma scale_None pre cur :
  checkSimultaneousScaleOutAndScaleIn pre cur = None <->
  ~ (shrinks pre cur /\ grows pre cur) /\
  (~ shrinks pre cur -> ~ grows pre cur ->
   shares_host TiDBSpec_Host (TiDBCluster_TiDB pre) (TiDBCluster_TiDB cur) /\
   shares_host PDSpec_Host (TiDBCluster_PD pre) (TiDBCluster_PD cur) /\
   shares_host TiKVSpec_Host (TiDBCluster_TiKV pre) (TiDBCluster_TiKV cur)).
Proof.
  unfold checkSimultaneousScaleOutAndScaleIn.
  rewrite <-IsScaleIn_spec, <-IsScaleOut_spec, <-!common_host_spec.
  destruct (IsScaleIn pre cur), (IsScaleOut pre cur); simpl; try naive_solver.
  destruct (common_host TiDBSpec_Host _ _); simpl; [|naive_solver].
  destruct (common_host PDSpec_Host _ _); simpl; [|naive_solver].
  destruct (common_host TiKVSpec_Host _ _); simpl; naive_solver.
Qed.

Lemma must_fill_None cur :
  must_fill cur = None <->
  (TiDBCluster_Global cur = None ->
   filled [TiDBSpec_DeployDir] (elems (TiDBCluster_TiDB cur)) /\
   filled [PDSpec_DeployDir; PDSpec_DataDir] (elems (TiDBCluster_PD cur)) /\
   filled [TiKVSpec_DeployDir; TiKVSpec_DataDir] (elems (TiDBCluster_TiKV cur))).
Proof.
  assert (Hf : forall A (name : string) (fields : list (string * (A -> string))) (l : list A),
    empty_fields name fields 0 l = [] <-> filled fields.*2 l).
  { intros A name fields l. rewrite empty_fields_nil. unfold filled. setoid_rewrite list_elem_of_fmap.
    split; [intros H a f Ha ([n g] & -> & Hin); by apply (H a (n, g))|intros H a f Ha Hin; by apply H; eauto]. }
  assert (Hnil : must_fill cur = None <-> getEmptyRequiredFields cur = [])
    by (unfold must_fill; destruct (getEmptyRequiredFields cur); done).
  rewrite Hnil. clear Hnil. unfold getEmptyRequiredFields.
  destruct (TiDBCluster_Global cur); [naive_solver|].
  pose proof (Hf _ "TiDB" [("DeployDir", TiDBSpec_DeployDir)] (elems (TiDBCluster_TiDB cur))) as H1.
  pose proof (Hf _ "PD" [("DeployDir", PDSpec_DeployDir); ("DataDir", PDSpec_DataDir)] (elems (TiDBCluster_PD cur))) as H2.
  pose proof (Hf _ "TiKV" [("DeployDir", TiKVSpec_DeployDir); ("DataDir", TiKVSpec_DataDir)] (elems (TiDBCluster_TiKV cur))) as H3.
  simpl in H1, H2, H3. rewrite <-H1, <-H2, <-H3. split.
  - intros [? [? ?]%app_eq_nil]%app_eq_nil _. done.
  - intros (-> & -> & ->); done.
Qed.

Lemma offline_None pre cur info :
  checkOffline pre cur info = None <->
  (shrinks pre cur -> TiDBClusterInfo_PendingOfflineList info = [] /\ TiDBClusterInfo_OfflineList info = []).
Proof.
  unfold checkOffline. rewrite <-IsScaleIn_spec. destruct (IsScaleIn pre cur); simpl; [|naive_solver].
  rewrite <-!len_zero.
  destruct (Z.eqb_spec (len (TiDBClusterInfo_PendingOfflineList info)) 0),
    (Z.eqb_spec (len (TiDBClusterInfo_OfflineList info)) 0); simpl; naive_solver.
Qed.

Lemma validateTiDBUpdate_spec r tct cur pre :
  Topology_TiDBCluster (Topology_Spec r) = Some cur ->
  TopologyStatus_PreTiDBCluster (Topology_Status tct) = Some pre ->
  validateTiDBUpdate r tct = None <->
  acceptable pre cur (TopologyStatus_TiDBClusterInfo (Topology_Status r)).
Proof.
  intros Hcur Hpre. unfold validateTiDBUpdate. rewrite Hcur, Hpre, first_error_None. split.
  - intros H.
    assert (Hs : checkSimultaneousScaleOutAndScaleIn pre cur = None) by (apply H; set_solver).
    apply scale_None in Hs as [Hs1 Hs2].
    assert (Hu : unchanged pre cur) by (apply immutable_None, H; set_solver).
    split; [|done]. split; [apply unsupported_None|apply one_kind_None|apply policy_None|
           |apply urls_None|exact Hs1|exact Hs2|apply must_fill_None|apply offline_None];
      try (apply H; set_solver).
    destruct Hu as (H1 & H2 & H3). split; [|split]; intros a b Ha Hb Hid.
    + exists (TiDBSpec_Config a). rewrite <-(H1 a b Ha Hb Hid). by destruct a.
    + exists (PDSpec_Config a). rewrite <-(H2 a b Ha Hb Hid). by destruct a.
    + exists (TiKVSpec_Config a). rewrite <-(H3 a b Ha Hb Hid). by destruct a.
  - intros [[A1 A2 A3 A4 A5 A6 A7 A8 A9] Hu] x Hx.
    repeat (apply elem_of_cons in Hx as [->|Hx]); [by apply unsupported_None|by apply one_kind_None
      |by apply policy_None|by apply immutable_None|by apply urls_None|by apply scale_None
      |by apply must_fill_None|by apply offline_None|set_solver].
Qed.

Lemma permitted_unchanged pre cur info : undisputed pre cur -> permitted pre cur info -> unchanged pre cur.
Proof.
  intros [(C1 & C2 & C3) _] [_ _ _ (I1 & I2 & I3) _ _ _ _ _]. split; [|split]; intros a b Ha Hb Hid.
  - destruct (I1 a b Ha Hb Hid) as [c <-]. specialize (C1 _ _ Ha Hb Hid). simpl in C1. subst c. by destruct a.
  - destruct (I2 a b Ha Hb Hid) as [c <-]. specialize (C2 _ _ Ha Hb Hid). simpl in C2. subst c. by destruct a.
  - destruct (I3 a b Ha Hb Hid) as [c <-]. specialize (C3 _ _ Ha Hb Hid). simpl in C3. subst c. by destruct a.
Qed.
End accepts.

(** C19. The webhook accepts only permitted updates of a TiDB cluster: the fixed components are
    unchanged, at most one kind of change is made, nothing but the configuration of a component of
    the same address is changed, the cluster does not grow and shrink at once, a change of hosts
    leaves a host in each component, the required directories are filled, and no store is still
    leaving. And of the updates that change no component's configuration, and no host of a cluster
    that keeps its size, it accepts every one that is permitted. *)
Theorem update_accepted {D : Differ} {DL : DifferLaws D} r tct cur pre :
  Topology_TiDBCluster (Topology_Spec r) = Some cur ->
  TopologyStatus_PreTiDBCluster (Topology_Status tct) = Some pre ->
  (ValidateUpdate r tct = None -> permitted pre cur (TopologyStatus_TiDBClusterInfo (Topology_Status r))) /\
  (undisputed pre cur ->
   permitted pre cur (TopologyStatus_TiDBClusterInfo (Topology_Status r)) -> ValidateUpdate r tct = None).
Proof.
  intros Hcur Hpre. unfold ValidateUpdate. rewrite Hcur.
  pose proof (validateTiDBUpdate_spec r tct cur pre Hcur Hpre) as H. split; [intros Hv; by apply H|].
  intros Hund Hacc. apply H. split; [done|]. by eapply permitted_unchanged.
Qed.

(** A differ for the examples: one change between different values. *)
#[local] Instance one_change : Differ := {|
  Diff_TiDB a b := inr (if decide (a = b) then 0 else 1)%nat;
  Diff_PD a b := inr (if decide (a = b) then 0 else 1)%nat;
  Diff_TiKV a b := inr (if decide (a = b) then 0 else 1)%nat;
|}.
#[local] Instance one_change_laws : DifferLaws one_change.
Proof. split; intros a b; simpl; destruct (decide (a = b)); naive_solver. Qed.

(** A cluster on the given hosts, one store on each, and the topology it is in. *)
Definition configured_cluster (config : string) (stores : list string) : TiDBCluster :=
  mkTiDBCluster "" "" (mkTiDBClusterVersion "v5" "" "" "" "") None (mkServerConfigs "" "" "") "n0" None
    (Some [mkTiDBSpec "n0" 4000 "" 10080 "/deploy" ""])
    (Some ((fun n => mkTiKVSpec n 20160 20180 config "/deploy" "/data" "") <$> stores))
    (Some [mkPDSpec "n0" 2379 2380 "" "/deploy" "/data" ""]) None None None None None None None.
Definition example_cluster : list string -> TiDBCluster := configured_cluster "".
Definition updated_topology (pre cur : TiDBCluster) : TestClusterTopology :=
  mkTestClusterTopology zeroMeta (mkTestClusterTopologySpec "req" (Some cur) None None)
    (mkTestClusterTopologyStatus (Some pre) (mkTiDBClusterInfo false [] []) ClusterTopologyStateReady).
Definition example_topology (pre cur : list string) : TestClusterTopology :=
  updated_topology (example_cluster pre) (example_cluster cur).

Lemma update_accepted_witness :
  permitted (example_cluster ["n1"; "n2"]) (example_cluster ["n1"; "n2"; "n3"]) (mkTiDBClusterInfo false [] []).
Proof.
  set (t := example_topology ["n1"; "n2"] ["n1"; "n2"; "n3"]).
  refine (proj1 (update_accepted t t _ _ _ _) _); [reflexivity|reflexivity|vm_compute; reflexivity].
Defined.

(** The replacement of a store that a comment of the code gives as the change to refuse,
    tikv(n1,n2,n3) to tikv(n1,n2,n4), is accepted: the check is satisfied by any one host the
    component keeps. *)
Lemma replaced_store_accepted :
  let t := example_topology ["n1"; "n2"; "n3"] ["n1"; "n2"; "n4"] in
  ValidateUpdate t t = None.
Proof. vm_compute. reflexivity. Qed.

(** Another configuration of a component is refused: a comment of the loop says that it is allowed,
    one of [IsComponentsConfigModified] that it is forbidden at present. *)
Lemma changed_config_refused :
  let t := updated_topology (example_cluster ["n1"]) (configured_cluster "log-level: debug" ["n1"]) in
  ValidateUpdate t t <> None.
Proof. vm_compute. done. Qed.
