(* ===== verification/TiupSpec.v ===== *)
(** * Specifications of clusters to deploy

    The construction of the tiup specification of a TiDB cluster (pkg/tiup/cluster/deploy.go)
    and of a DM cluster (pkg/tiup/dm/deploy.go), of a Flink cluster (pkg/flink/deploy.go), and
    the HAProxy configuration (pkg/haproxy/deploy.go), from a topology and its resources.

    The structs of github.com/pingcap/tiup are not code of the repository: [tiupSpec] and
    [dmSpec] have the fields the program sets or reads, the others keep their zero values. YAML,
    the filling in of default values and URL parsing are class parameters. *)

From S2P Require Import Prelude GoStd Util ApiTypes TopologyTypes Prog World Machine Resource Docker.

(** A Go computation that may panic, and returns a value or an error. *)
Abbreviation goerr A := (go (error + A)).

(** [for _, item := range l { b, err := f(item); if err != nil { return err }; append(b) }]. *)
Fixpoint go_mapM {A B} (f : A -> goerr B) (l : list A) : goerr (list B) :=
  match l with
  | [] => Ret (inr [])
  | a :: l =>
      let? b := f a orelse err => Ret (inl err) in
      let? bs := go_mapM f l orelse err => Ret (inl err) in
      Ret (inr (b :: bs))
  end.

(** gopkg.in/yaml.v2, for maps from strings to any value. *)
Class Yaml := {
  yaml_value : Type;
  yaml_Unmarshal : string -> error + gmap string yaml_value;
  yaml_as_string : yaml_value -> option string;  (* the type assertion x.(string) *)
  yaml_of_string : string -> yaml_value;
}.

Abbreviation config := (gmap string yaml_value).

Module tiupSpec.
Section tiupSpec.
Context {Y : Yaml}.

Record GlobalOptions := mkGlobalOptions {
  GlobalOptions_User : string;
  GlobalOptions_SSHPort : Z;
  GlobalOptions_DeployDir : string;
  GlobalOptions_DataDir : string;
}.
Record ServerConfigs := mkServerConfigs {
  ServerConfigs_TiDB : config;
  ServerConfigs_TiKV : config;
  ServerConfigs_PD : config;
}.
Record TiDBSpec := mkTiDBSpec {
  TiDBSpec_Host : string;
  TiDBSpec_SSHPort : Z;
  TiDBSpec_Port : Z;
  TiDBSpec_StatusPort : Z;
  TiDBSpec_DeployDir : string;
  TiDBSpec_LogDir : string;
  TiDBSpec_Config : config;
}.
Record TiKVSpec := mkTiKVSpec {
  TiKVSpec_Host : string;
  TiKVSpec_SSHPort : Z;
  TiKVSpec_Port : Z;
  TiKVSpec_StatusPort : Z;
  TiKVSpec_DeployDir : string;
  TiKVSpec_DataDir : string;
  TiKVSpec_LogDir : string;
  TiKVSpec_Config : config;
}.
Record PDSpec := mkPDSpec {
  PDSpec_Host : string;
  PDSpec_SSHPort : Z;
  PDSpec_ClientPort : Z;
  PDSpec_PeerPort : Z;
  PDSpec_DeployDir : string;
  PDSpec_DataDir : string;
  PDSpec_LogDir : string;
  PDSpec_Config : config;
}.
Record PumpSpec := mkPumpSpec {
  PumpSpec_Host : string;
  PumpSpec_SSHPort : Z;
  PumpSpec_Port : Z;
  PumpSpec_DeployDir : string;
  PumpSpec_DataDir : string;
  PumpSpec_Config : config;
}.
Record DrainerSpec := mkDrainerSpec {
  DrainerSpec_Host : string;
  DrainerSpec_SSHPort : Z;
  DrainerSpec_Port : Z;
  DrainerSpec_CommitTS : Z;
  DrainerSpec_DeployDir : string;
  DrainerSpec_DataDir : string;
  DrainerSpec_Config : config;
}.
Record PrometheusSpec := mkPrometheusSpec {
  PrometheusSpec_Host : string;
  PrometheusSpec_SSHPort : Z;
  PrometheusSpec_Port : Z;
  PrometheusSpec_DeployDir : string;
  PrometheusSpec_DataDir : string;
  PrometheusSpec_LogDir : string;
}.
Record GrafanaSpec := mkGrafanaSpec {
  GrafanaSpec_Host : string;
  GrafanaSpec_SSHPort : Z;
  GrafanaSpec_Port : Z;
  GrafanaSpec_DeployDir : string;
}.
Record AlertmanagerSpec := mkAlertmanagerSpec {
  AlertmanagerSpec_Host : string;
  AlertmanagerSpec_SSHPort : Z;
  AlertmanagerSpec_WebPort : Z;
  AlertmanagerSpec_ClusterPort : Z;
  AlertmanagerSpec_DeployDir : string;
  AlertmanagerSpec_DataDir : string;
  AlertmanagerSpec_LogDir : string;
}.
Record CDCSpec := mkCDCSpec {
  CDCSpec_Host : string;
  CDCSpec_SSHPort : Z;
  CDCSpec_Port : Z;
  CDCSpec_DeployDir : string;
  CDCSpec_LogDir : string;
}.
Record TiFlashSpec := mkTiFlashSpec {
  TiFlashSpec_Host : string;
  TiFlashSpec_SSHPort : Z;
  TiFlashSpec_TCPPort : Z;
  TiFlashSpec_HTTPPort : Z;
  TiFlashSpec_FlashServicePort : Z;
  TiFlashSpec_FlashProxyPort : Z;
  TiFlashSpec_FlashProxyStatusPort : Z;
  TiFlashSpec_StatusPort : Z;
  TiFlashSpec_DeployDir : string;
  TiFlashSpec_DataDir : string;
  TiFlashSpec_LogDir : string;
  TiFlashSpec_Config : config;
  TiFlashSpec_LearnerConfig : config;
}.
Record Specification := mkSpecification {
  Spec_GlobalOptions : GlobalOptions;
  Spec_ServerConfigs : ServerConfigs;
  Spec_TiDBServers : list TiDBSpec;
  Spec_TiKVServers : list TiKVSpec;
  Spec_PDServers : list PDSpec;
  Spec_PumpServers : list PumpSpec;
  Spec_Drainers : list DrainerSpec;
  Spec_Monitors : list PrometheusSpec;
  Spec_Grafanas : list GrafanaSpec;
  Spec_Alertmanagers : list AlertmanagerSpec;
  Spec_CDCServers : list CDCSpec;
  Spec_TiFlashServers : list TiFlashSpec;
}.
End tiupSpec.
End tiupSpec.

(** The DM components' specification; its monitors, dashboards and alert managers are those of
    [tiupSpec]. *)
Module dmSpec.
Section dmSpec.
Context {Y : Yaml}.

Record DMServerConfigs := mkDMServerConfigs {
  DMServerConfigs_Master : config;
  DMServerConfigs_Worker : config;
}.
Record MasterSpec := mkMasterSpec {
  MasterSpec_Host : string;
  MasterSpec_SSHPort : Z;
  MasterSpec_PeerPort : Z;
  MasterSpec_Port : Z;
  MasterSpec_DeployDir : string;
  MasterSpec_DataDir : string;
  MasterSpec_LogDir : string;
  MasterSpec_Config : config;
}.
Record WorkerSpec := mkWorkerSpec {
  WorkerSpec_Host : string;
  WorkerSpec_SSHPort : Z;
  WorkerSpec_Port : Z;
  WorkerSpec_DeployDir : string;
  WorkerSpec_LogDir : string;
  WorkerSpec_Config : config;
}.
Record Specification := mkSpecification {
  Spec_GlobalOptions : tiupSpec.GlobalOptions;
  Spec_ServerConfigs : DMServerConfigs;
  Spec_Masters : list MasterSpec;
  Spec_Workers : list WorkerSpec;
  Spec_Monitors : list tiupSpec.PrometheusSpec;
  Spec_Grafanas : list tiupSpec.GrafanaSpec;
  Spec_Alertmanagers : list tiupSpec.AlertmanagerSpec;
}.
End dmSpec.
End dmSpec.

(** github.com/creasty/defaults: [defaults.Set] on the three kinds of specification. Only the
    error of the first is looked at by the program. *)
Class Defaults (Y : Yaml) := {
  defaults_Set_cluster : tiupSpec.Specification -> error + tiupSpec.Specification;
  defaults_Set_dm : dmSpec.Specification -> dmSpec.Specification;
  defaults_Set_flink : FlinkCluster -> FlinkCluster;
}.

(** Instances for the examples: a configuration kept as it is written, and no default value. *)
Definition plain_yaml : Yaml :=
  {| yaml_value := string; yaml_Unmarshal := fun s => inr (if String.eqb s "" then ∅ else {["text" := s]});
     yaml_as_string := Some; yaml_of_string := fun s => s |}.
Definition no_defaults : Defaults plain_yaml :=
  @Build_Defaults plain_yaml inr (fun s => s) (fun s => s).

(** ** What the three constructions share *)

(** If [dryRun] is true, the host of a component is its resource's name. *)
Definition hostName (dryRun : bool) (resourceName clusterIP : string) : string :=
  if dryRun then resourceName else clusterIP.

(** [resourceMaps]: of two resources of one name, the last. *)
Definition resourceMaps (trs : list TestResource) : gmap string TestResourceStatus :=
  fold_left (fun m r => <[TestResource_Name r := TestResource_Status r]> m) trs ∅.

Definition ClusterIP (node : TestResourceStatus) : string :=
  ContainerSpec_ClusterIP (TestResourceStatus_Container node).

(** The node an item is placed on, or the error naming what is missing. *)
Definition find_host (resources : gmap string TestResourceStatus) (what host : string)
    : error + TestResourceStatus :=
  match resources !! host with
  | Some node => inr node
  | None => inl (Errorf (what +:+ " node not found: `" +:+ host +:+ "`"))
  end.

(** [err = fmt.Errorf("... failed: %v", err)]. *)
Definition failed (what : string) (err : error) : error :=
  Errorf (what +:+ " failed: " +:+ Error err).

(** ** pkg/tiup/cluster: the specification of a TiDB cluster *)

Module cluster.
Section cluster.
Context {Y : Yaml} {D : Defaults Y}.

Definition generateConfig (configStr : string) : error + config := yaml_Unmarshal configStr.

(** The configuration of one drainer: the cluster the data goes to is given by its resource's
    name, and replaced by the resource's IP address. *)
Definition setDrainerConfig (drainerConfig : string) (clusterIPMaps : list (gmap string string))
    : goerr config :=
  match yaml_Unmarshal drainerConfig with
  | inl err => Ret (inl err)
  | inr config =>
      match clusterIPMaps with
      | [] => Ret (inr config)
      | ips :: _ =>
          value ← deref (config !! "syncer.to.host");
          host ← deref (yaml_as_string value);
          name ← go_index (strs.Split host "://") 1;
          let clusterIP := default "" (ips !! name) in
          if String.eqb clusterIP "" then Ret (inl (Errorf "syncer.to.host is not existed"))
          else Ret (inr (<["syncer.to.host" := yaml_of_string clusterIP]> config))
      end
  end.

Definition setServerConfigs (serverConfigs : ServerConfigs) : error + tiupSpec.ServerConfigs :=
  match yaml_Unmarshal (ServerConfigs_TiDB serverConfigs) with
  | inl err => inl err
  | inr tidb =>
      match yaml_Unmarshal (ServerConfigs_TiKV serverConfigs) with
      | inl err => inl err
      | inr tikv =>
          match yaml_Unmarshal (ServerConfigs_PD serverConfigs) with
          | inl err => inl err
          | inr pd => inr (tiupSpec.mkServerConfigs tidb tikv pd)
          end
      end
  end.

Section components.
Context (resources : gmap string TestResourceStatus) (dryRun : bool) (clusterIPMaps : list (gmap string string)).

Definition tidb_server (item : TiDBSpec) : goerr tiupSpec.TiDBSpec :=
  let? node := Ret (find_host resources "tidb" (TiDBSpec_Host item)) orelse err => Ret (inl err) in
  let? config := Ret (generateConfig (TiDBSpec_Config item))
    orelse err => Ret (inl (failed "set TiDbConfigs" err)) in
  Ret (inr (tiupSpec.mkTiDBSpec (hostName dryRun (TiDBSpec_Host item) (ClusterIP node)) 22
    (TiDBSpec_Port item) (TiDBSpec_StatusPort item) (TiDBSpec_DeployDir item) (TiDBSpec_LogDir item)
    config)).

Definition tikv_server (item : TiKVSpec) : goerr tiupSpec.TiKVSpec :=
  let? node := Ret (find_host resources "tikv" (TiKVSpec_Host item)) orelse err => Ret (inl err) in
  let? config := Ret (generateConfig (TiKVSpec_Config item))
    orelse err => Ret (inl (failed "set TiKVConfigs" err)) in
  Ret (inr (tiupSpec.mkTiKVSpec (hostName dryRun (TiKVSpec_Host item) (ClusterIP node)) 22
    (TiKVSpec_Port item) (TiKVSpec_StatusPort item) (TiKVSpec_DeployDir item) (TiKVSpec_DataDir item)
    (TiKVSpec_LogDir item) config)).

Definition pd_server (item : PDSpec) : goerr tiupSpec.PDSpec :=
  let? node := Ret (find_host resources "pd" (PDSpec_Host item)) orelse err => Ret (inl err) in
  let? config := Ret (generateConfig (PDSpec_Config item))
    orelse err => Ret (inl (failed "set PDConfigs" err)) in
  Ret (inr (tiupSpec.mkPDSpec (hostName dryRun (PDSpec_Host item) (ClusterIP node)) 22
    (PDSpec_ClientPort item) (PDSpec_PeerPort item) (PDSpec_DeployDir item) (PDSpec_DataDir item)
    (PDSpec_LogDir item) config)).

Definition pump_server (item : PumpSpec) : goerr tiupSpec.PumpSpec :=
  let? node := Ret (find_host resources "pump" (PumpSpec_Host item)) orelse err => Ret (inl err) in
  let? config := Ret (generateConfig (PumpSpec_Config item))
    orelse err => Ret (inl (failed "set PumpConfigs" err)) in
  Ret (inr (tiupSpec.mkPumpSpec (hostName dryRun (PumpSpec_Host item) (ClusterIP node))
    (PumpSpec_SSHPort item) (PumpSpec_Port item) (PumpSpec_DeployDir item) (PumpSpec_DataDir item)
    config)).

Definition drainer (item : DrainerSpec) : goerr tiupSpec.DrainerSpec :=
  let? node := Ret (find_host resources "drainer" (DrainerSpec_Host item)) orelse err => Ret (inl err) in
  let? config := setDrainerConfig (DrainerSpec_Config item) clusterIPMaps
    orelse err => Ret (inl (failed "set DrainerConfigs" err)) in
  Ret (inr (tiupSpec.mkDrainerSpec (hostName dryRun (DrainerSpec_Host item) (ClusterIP node))
    (DrainerSpec_SSHPort item) (DrainerSpec_Port item) (DrainerSpec_CommitTS item)
    (DrainerSpec_DeployDir item) (DrainerSpec_DataDir item) config)).

Definition monitor (item : PrometheusSpec) : goerr tiupSpec.PrometheusSpec :=
  let? node := Ret (find_host resources "monitor" (PrometheusSpec_Host item)) orelse err => Ret (inl err) in
  Ret (inr (tiupSpec.mkPrometheusSpec (hostName dryRun (PrometheusSpec_Host item) (ClusterIP node)) 22
    (PrometheusSpec_Port item) (PrometheusSpec_DeployDir item) (PrometheusSpec_DataDir item)
    (PrometheusSpec_LogDir item))).

Definition grafana (item : GrafanaSpec) : goerr tiupSpec.GrafanaSpec :=
  let? node := Ret (find_host resources "grafana" (GrafanaSpec_Host item)) orelse err => Ret (inl err) in
  Ret (inr (tiupSpec.mkGrafanaSpec (hostName dryRun (GrafanaSpec_Host item) (ClusterIP node)) 22
    (GrafanaSpec_Port item) (GrafanaSpec_DeployDir item))).

Definition alertmanager (item : AlertManagerSpec) : goerr tiupSpec.AlertmanagerSpec :=
  let? node := Ret (find_host resources "alert_manager" (AlertManagerSpec_Host item))
    orelse err => Ret (inl err) in
  Ret (inr (tiupSpec.mkAlertmanagerSpec (hostName dryRun (AlertManagerSpec_Host item) (ClusterIP node)) 22
    (AlertManagerSpec_WebPort item) (AlertManagerSpec_ClusterPort item) (AlertManagerSpec_DeployDir item)
    "" "")).

Definition cdc_server (item : CDCSpec) : goerr tiupSpec.CDCSpec :=
  let? node := Ret (find_host resources "cdc" (CDCSpec_Host item)) orelse err => Ret (inl err) in
  Ret (inr (tiupSpec.mkCDCSpec (hostName dryRun (CDCSpec_Host item) (ClusterIP node)) 22
    (CDCSpec_Port item) (CDCSpec_DeployDir item) (CDCSpec_LogDir item))).

Definition tiflash_server (item : TiFlashSpec) : goerr tiupSpec.TiFlashSpec :=
  let? node := Ret (find_host resources "tiflash" (TiFlashSpec_Host item)) orelse err => Ret (inl err) in
  let? config := Ret (generateConfig (TiFlashSpec_Config item))
    orelse err => Ret (inl (failed "set TiFlashConfigs" err)) in
  let? learnerConfig := Ret (generateConfig (TiFlashSpec_LearnerConfig item))
    orelse err => Ret (inl (failed "set TiFlashLearnerConfigs" err)) in
  Ret (inr (tiupSpec.mkTiFlashSpec (hostName dryRun (TiFlashSpec_Host item) (ClusterIP node)) 22
    (TiFlashSpec_TCPPort item) (TiFlashSpec_HTTPPort item) (TiFlashSpec_ServicePort item)
    (TiFlashSpec_ProxyPort item) (TiFlashSpec_ProxyStatusPort item) (TiFlashSpec_MetricsPort item)
    (TiFlashSpec_DeployDir item) (TiFlashSpec_DataDir item) (TiFlashSpec_LogDir item)
    config learnerConfig)).

End components.

(** The global options, the directories taken from the topology when it gives any. *)
Definition globalOptions (global : option Global) : tiupSpec.GlobalOptions :=
  match global with
  | Some g => tiupSpec.mkGlobalOptions "root" 22 (Global_DeployDir g) (Global_DataDir g)
  | None => tiupSpec.mkGlobalOptions "root" 22 "" ""
  end.

(** The specification before default values, and the node the cluster is controlled from. *)
Definition build (c : TiDBCluster) (trs : list TestResource) (dryRun : bool)
    (clusterIPMaps : list (gmap string string)) : goerr (tiupSpec.Specification * TestResourceStatus) :=
  let? serverConfigs := Ret (setServerConfigs (TiDBCluster_ServerConfigs c))
    orelse err => Ret (inl (failed "set serverConfigs" err)) in
  let rs := resourceMaps trs in
  let? control := Ret (find_host rs "control" (TiDBCluster_Control c)) orelse err => Ret (inl err) in
  let? tidb := go_mapM (tidb_server rs dryRun) (elems (TiDBCluster_TiDB c)) orelse err => Ret (inl err) in
  let? tikv := go_mapM (tikv_server rs dryRun) (elems (TiDBCluster_TiKV c)) orelse err => Ret (inl err) in
  let? pd := go_mapM (pd_server rs dryRun) (elems (TiDBCluster_PD c)) orelse err => Ret (inl err) in
  let? pump := go_mapM (pump_server rs dryRun) (elems (TiDBCluster_Pump c)) orelse err => Ret (inl err) in
  let? drainers := go_mapM (drainer rs dryRun clusterIPMaps) (elems (TiDBCluster_Drainer c))
    orelse err => Ret (inl err) in
  let? monitors := go_mapM (monitor rs dryRun) (elems (TiDBCluster_Monitor c)) orelse err => Ret (inl err) in
  let? grafanas := go_mapM (grafana rs dryRun) (elems (TiDBCluster_Grafana c)) orelse err => Ret (inl err) in
  let? alerts := go_mapM (alertmanager rs dryRun) (elems (TiDBCluster_AlertManager c))
    orelse err => Ret (inl err) in
  let? cdc := go_mapM (cdc_server rs dryRun) (elems (TiDBCluster_CDC c)) orelse err => Ret (inl err) in
  let? tiflash := go_mapM (tiflash_server rs dryRun) (elems (TiDBCluster_TiFlash c))
    orelse err => Ret (inl err) in
  Ret (inr (tiupSpec.mkSpecification (globalOptions (TiDBCluster_Global c)) serverConfigs
    tidb tikv pd pump drainers monitors grafanas alerts cdc tiflash, control)).

Definition BuildSpecification (ctf : TestClusterTopologySpec) (trs : list TestResource) (dryRun : bool)
    (clusterIPMaps : list (gmap string string)) : goerr (tiupSpec.Specification * TestResourceStatus) :=
  c ← deref (Topology_TiDBCluster ctf);
  let? (spec, control) := build c trs dryRun clusterIPMaps orelse err => Ret (inl err) in
  match defaults_Set_cluster spec with
  | inl err => Panic (Error err)
  | inr spec => Ret (inr (spec, control))
  end.

End cluster.
End cluster.

(** ** pkg/tiup/dm: the specification of a DM cluster *)

Module dm.
Section dm.
Context {Y : Yaml} {D : Defaults Y}.

Definition setServerConfigs (serverConfigs : DMServerConfigs) : error + dmSpec.DMServerConfigs :=
  match yaml_Unmarshal (DMServerConfigs_Master serverConfigs) with
  | inl err => inl err
  | inr master =>
      match yaml_Unmarshal (DMServerConfigs_Worker serverConfigs) with
      | inl err => inl err
      | inr worker => inr (dmSpec.mkDMServerConfigs master worker)
      end
  end.

Definition setMasterConfig (masterConfig : string) : error + config := yaml_Unmarshal masterConfig.
Definition setWorkerConfig (workerConfig : string) : error + config := yaml_Unmarshal workerConfig.

Section components.
Context (resources : gmap string TestResourceStatus) (dryRun : bool).

Definition master (item : MasterSpec) : goerr dmSpec.MasterSpec :=
  let? node := Ret (find_host resources "master" (MasterSpec_Host item)) orelse err => Ret (inl err) in
  let? config := Ret (setMasterConfig (MasterSpec_Config item))
    orelse err => Ret (inl (failed "set MasterConfigs" err)) in
  Ret (inr (dmSpec.mkMasterSpec (hostName dryRun (MasterSpec_Host item) (ClusterIP node)) 22
    (MasterSpec_PeerPort item) (MasterSpec_Port item) (MasterSpec_DeployDir item) (MasterSpec_DataDir item)
    (MasterSpec_LogDir item) config)).

Definition worker (item : WorkerSpec) : goerr dmSpec.WorkerSpec :=
  let? node := Ret (find_host resources "worker" (WorkerSpec_Host item)) orelse err => Ret (inl err) in
  let? config := Ret (setWorkerConfig (WorkerSpec_Config item))
    orelse err => Ret (inl (failed "set WorkerConfigs" err)) in
  Ret (inr (dmSpec.mkWorkerSpec (hostName dryRun (WorkerSpec_Host item) (ClusterIP node)) 22
    (WorkerSpec_Port item) (WorkerSpec_DeployDir item) (WorkerSpec_LogDir item) config)).

Definition monitor (item : PrometheusSpec) : goerr tiupSpec.PrometheusSpec :=
  let? node := Ret (find_host resources "monitor" (PrometheusSpec_Host item)) orelse err => Ret (inl err) in
  Ret (inr (tiupSpec.mkPrometheusSpec (hostName dryRun (PrometheusSpec_Host item) (ClusterIP node)) 22
    (PrometheusSpec_Port item) (PrometheusSpec_DeployDir item) (PrometheusSpec_DataDir item)
    (PrometheusSpec_LogDir item))).

Definition grafana (item : GrafanaSpec) : goerr tiupSpec.GrafanaSpec :=
  let? node := Ret (find_host resources "grafana" (GrafanaSpec_Host item)) orelse err => Ret (inl err) in
  Ret (inr (tiupSpec.mkGrafanaSpec (hostName dryRun (GrafanaSpec_Host item) (ClusterIP node)) 22
    (GrafanaSpec_Port item) (GrafanaSpec_DeployDir item))).

Definition alertmanager (item : AlertManagerSpec) : goerr tiupSpec.AlertmanagerSpec :=
  let? node := Ret (find_host resources "alertManager" (AlertManagerSpec_Host item))
    orelse err => Ret (inl err) in
  Ret (inr (tiupSpec.mkAlertmanagerSpec (hostName dryRun (AlertManagerSpec_Host item) (ClusterIP node)) 22
    (AlertManagerSpec_WebPort item) (AlertManagerSpec_ClusterPort item) (AlertManagerSpec_DeployDir item)
    (AlertManagerSpec_DataDir item) (AlertManagerSpec_LogDir item))).

End components.

Definition build (c : DMCluster) (trs : list TestResource) (dryRun : bool)
    : goerr (dmSpec.Specification * TestResourceStatus) :=
  let? serverConfigs := Ret (setServerConfigs (DMCluster_ServerConfigs c))
    orelse err => Ret (inl (failed "set serverConfigs" err)) in
  let rs := resourceMaps trs in
  let? control := Ret (find_host rs "control" (DMCluster_Control c)) orelse err => Ret (inl err) in
  let? masters := go_mapM (master rs dryRun) (DMCluster_Master c) orelse err => Ret (inl err) in
  let? workers := go_mapM (worker rs dryRun) (DMCluster_Worker c) orelse err => Ret (inl err) in
  let? monitors := go_mapM (monitor rs dryRun) (DMCluster_Monitor c) orelse err => Ret (inl err) in
  let? grafanas := go_mapM (grafana rs dryRun) (DMCluster_Grafana c) orelse err => Ret (inl err) in
  let? alerts := go_mapM (alertmanager rs dryRun) (DMCluster_AlertManager c) orelse err => Ret (inl err) in
  Ret (inr (dmSpec.mkSpecification (cluster.globalOptions (DMCluster_Global c)) serverConfigs
    masters workers monitors grafanas alerts, control)).

(** The maps of IP addresses the callers pass are not used; nor is the error of the defaults. *)
Definition BuildSpecification (ctf : TestClusterTopologySpec) (trs : list TestResource) (dryRun : bool)
    : goerr (dmSpec.Specification * TestResourceStatus) :=
  c ← deref (Topology_DMCluster ctf);
  let? (spec, control) := build c trs dryRun orelse err => Ret (inl err) in
  Ret (inr (defaults_Set_dm spec, control)).

End dm.
End dm.

(** ** pkg/flink *)

Module flink.
Section flink.
Context {Y : Yaml} {D : Defaults Y}.

Definition BaseImageName : string := "docker.io/library/flink:".

(** [%v] of the job manager's struct. *)
Definition show_jobManager (j : JobManagerSpec) : string :=
  "{" +:+ JobManagerSpec_Host j +:+ " " +:+ strconv.Itoa (JobManagerSpec_WebPort j) +:+ " "
    +:+ JobManagerSpec_Config j +:+ "}".

Definition taskManager (resources : gmap string TestResourceStatus) (dryRun : bool) (item : TaskManagerSpec)
    : goerr TaskManagerSpec :=
  let? node := Ret (find_host resources "taskManager" (TaskManagerSpec_Host item))
    orelse err => Ret (inl err) in
  Ret (inr (mkTaskManagerSpec (hostName dryRun (TaskManagerSpec_Host item) (ClusterIP node))
    (TaskManagerSpec_Config item))).

Definition BuildSpecification (ctf : TestClusterTopologySpec) (trs : list TestResource) (dryRun : bool)
    : goerr FlinkCluster :=
  c ← deref (Topology_FlinkCluster ctf);
  let rs := resourceMaps trs in
  let j := FlinkCluster_JobManager c in
  match rs !! JobManagerSpec_Host j with
  | None => Ret (inl (Errorf ("jobManager node not found: `" +:+ show_jobManager j +:+ "`")))
  | Some node =>
      let? tasks := go_mapM (taskManager rs dryRun) (FlinkCluster_TaskManager c)
        orelse err => Ret (inl err) in
      Ret (inr (defaults_Set_flink (mkFlinkCluster ""
        (mkJobManagerSpec (hostName dryRun (JobManagerSpec_Host j) (ClusterIP node))
           (JobManagerSpec_WebPort j) (JobManagerSpec_Config j)) tasks)))
  end.

End flink.
End flink.

(** ** pkg/haproxy *)

Definition newline : string := String (Ascii.ascii_of_nat 10) EmptyString.
Definition tab : string := String (Ascii.ascii_of_nat 9) EmptyString.

Module haproxy.

Definition BaseImageName : string := "hub.pingcap.net/qa/haproxy:".
Definition SourceDir : string := "/var/naglfar/lib/".
Definition TargetDir : string := "/usr/local/etc/haproxy/".
Definition FileName : string := "haproxy.cfg".

Definition generateFrontend (port : Z) : string :=
  newline +:+ "frontend haproxy" +:+ newline
  +:+ tab +:+ "bind *:" +:+ strconv.Itoa port +:+ newline
  +:+ tab +:+ "default_backend tidbs" +:+ newline.

Fixpoint backend_lines (i : Z) (tidbs : list string) (backend : string) : string :=
  match tidbs with
  | [] => backend
  | tidb :: l =>
      backend_lines (i + 1) l
        (backend +:+ tab +:+ "server tidb" +:+ strconv.Itoa i +:+ " " +:+ tidb +:+ " maxconn 1000" +:+ newline)
  end.
Definition generateBackend (tidbs : list string) : string :=
  backend_lines 0 tidbs (newline +:+ "backend tidbs" +:+ newline).

(** The addresses of the TiDB servers, or [None] when one is not known yet. *)
Fixpoint backend_hosts (tidb : list TiDBSpec) (clusterIPMaps : gmap string string) (tidbs : list string)
    : option (list string) :=
  match tidb with
  | [] => Some tidbs
  | t :: l =>
      let port := if TiDBSpec_Port t =? 0 then 4000 else TiDBSpec_Port t in
      let ip := default "" (clusterIPMaps !! TiDBSpec_Host t) in
      if String.eqb ip "" then None
      else backend_hosts l clusterIPMaps (tidbs ++ [ip +:+ ":" +:+ strconv.Itoa port])
  end.

(** Whether to requeue, and the configuration. *)
Definition GenerateHAProxyConfig (tct : TiDBCluster) (clusterIPMaps : gmap string string) : go (bool * string) :=
  proxy ← deref (TiDBCluster_HAProxy tct);
  let config := HAProxy_Config proxy +:+ newline in
  let config := config +:+ generateFrontend (HAProxy_Port proxy) in
  match backend_hosts (elems (TiDBCluster_TiDB tct)) clusterIPMaps [] with
  | None => Ret (true, "")
  | Some tidbs => Ret (false, config +:+ generateBackend tidbs)
  end.

(** The upload daemon's address; making a request and sending it is one call. *)
Definition url (machine path : string) : string :=
  "http://" +:+ machine +:+ ":" +:+ strconv.Itoa container.UploadDaemonExternalPort +:+ path.

Definition WriteConfigToMachine (machine name config : string) : io (option error) :=
  ask (HTTPPost (url machine "/upload") name config).
Definition DeleteConfigFromMachine (machine name : string) : io (option error) :=
  ask (HTTPPost (url machine "/delete") name "").

Definition GenerateFilePrefix (ct : TestClusterTopology) : string :=
  ObjectMeta_Namespace (Topology_ObjectMeta ct) +:+ "_"
    +:+ Topology_ResourceRequest (Topology_Spec ct) +:+ "_".

End haproxy.
