(* ===== verification/TiupCtl.v ===== *)
(** * Running tiup on the control node

    The [ClusterManager]s of pkg/tiup/cluster/deploy.go and pkg/tiup/dm/deploy.go: the
    commands run over SSH and the files copied over SCP, and what is compared to decide on
    them. Marshalling to YAML and URL parsing are class parameters; a pair of a text and an
    error is Go's two results. *)

From S2P Require Import Prelude GoStd Util ApiTypes TopologyTypes Prog World SSH TiupSpec.

Module tiup.
Definition InsecureKeyPath : string := "/root/insecure_key".
Definition ContainerImage : string := "docker.io/pingcapqe/base-image:latest".
End tiup.

(** The anonymous structs the program marshals. *)
Record Meta {Y : Yaml} := mkMeta {
  Meta_User : string;
  Meta_TiDBVersion : string;
  Meta_Topology : tiupSpec.Specification;
}.
Record ScaleOut := mkScaleOut {
  ScaleOut_TiDB : list TiDBSpec;
  ScaleOut_TiKV : list TiKVSpec;
  ScaleOut_PD : list PDSpec;
}.

Class Marshal (Y : Yaml) := {
  Marshal_spec : tiupSpec.Specification -> string * option error;
  Marshal_meta : Meta -> string * option error;
  Marshal_scaleOut : ScaleOut -> string * option error;
  Marshal_dm : dmSpec.Specification -> string * option error;
}.

(** [url.Parse], and the path of what it parsed. *)
Class URLs := { url_Parse : string -> error + string }.

(** ** Remote commands and files *)

(** [client, err := NewSSHClient("root", ...)], [defer client.Close()], then [body] with the
    client. Logging a failed command is not modelled. *)
Definition with_ssh {A} (control : TestResourceStatus) (on_error : error -> A) (body : sshUtil.Client -> io A) : io A :=
  let? client := sshUtil.NewSSHClient "root" tiup.InsecureKeyPath (TestResourceStatus_HostIP control)
                   (TestResourceStatus_SSHPort control)
    orelse err => mret (on_error err) in
  deferring (sshUtil.Close client) (body client).

(** One command over one connection: the error that [fail] makes of a failure. *)
Definition ssh_command (control : TestResourceStatus) (cmd : string)
    (fail : error -> string -> string -> error) : io (option error) :=
  with_ssh control Some (fun client =>
    '(stdStr, errStr, err) ← sshUtil.RunCommand client cmd;
    match (err : option error) with
    | Some err => mret (Some (fail err stdStr errStr))
    | None => mret None
    end).

(** The file is copied over a connection that is not closed. *)
Definition scp_write (control : TestResourceStatus) (out path : string) : io (option error) :=
  let host := TestResourceStatus_HostIP control in
  let port := TestResourceStatus_SSHPort control in
  check ask (SCPConnect host port)
    orelse err => mret (Some (Errorf ("couldn't establish a connection to the remote server: " +:+ Error err))) in
  check ask (SCPCopy host port out path "0655")
    orelse err => mret (Some (Errorf ("error while copying file: " +:+ Error err))) in
  mret None.

Definition quote : string := String (Ascii.ascii_of_nat 34) EmptyString.
Definition flock (cmd : string) : string :=
  "flock -n /tmp/naglfar.tiup.lock -c " +:+ quote +:+ cmd +:+ quote.

(** ** pkg/tiup/cluster: comparing clusters *)

Module compare.

Definition IsUpgraded (pre cur : TiDBCluster) : bool :=
  negb (String.eqb (Version_Version (TiDBCluster_Version pre)) (Version_Version (TiDBCluster_Version cur))).

(** Entries of one host whose configurations differ. *)
Definition config_changed {A} (host config : A -> string) (pre cur : list A) : bool :=
  existsb (fun a => existsb (fun b =>
    String.eqb (host a) (host b) && negb (String.eqb (config a) (config b))) cur) pre.

Definition IsConfigModified (pre cur : TiDBCluster) : bool :=
  negb (bool_decide (TiDBCluster_ServerConfigs pre = TiDBCluster_ServerConfigs cur))
  || config_changed TiDBSpec_Host TiDBSpec_Config (elems (TiDBCluster_TiDB pre)) (elems (TiDBCluster_TiDB cur))
  || config_changed PDSpec_Host PDSpec_Config (elems (TiDBCluster_PD pre)) (elems (TiDBCluster_PD cur))
  || config_changed TiKVSpec_Host TiKVSpec_Config (elems (TiDBCluster_TiKV pre)) (elems (TiDBCluster_TiKV cur)).

Definition IsClusterConfigModified (pre cur : TiDBCluster) : bool := negb (bool_decide (pre = cur)).

Definition IsScaleIn (pre cur : TiDBCluster) : bool :=
  (len (elems (TiDBCluster_TiDB cur)) <? len (elems (TiDBCluster_TiDB pre)))
  || (len (elems (TiDBCluster_PD cur)) <? len (elems (TiDBCluster_PD pre)))
  || (len (elems (TiDBCluster_TiKV cur)) <? len (elems (TiDBCluster_TiKV pre))).

Definition IsScaleOut (pre cur : TiDBCluster) : bool :=
  (len (elems (TiDBCluster_TiDB pre)) <? len (elems (TiDBCluster_TiDB cur)))
  || (len (elems (TiDBCluster_PD pre)) <? len (elems (TiDBCluster_PD cur)))
  || (len (elems (TiDBCluster_TiKV pre)) <? len (elems (TiDBCluster_TiKV cur))).

Definition diffTiDBClusterConfig (pre cur : TiDBCluster) : list string :=
  let p := TiDBCluster_ServerConfigs pre in let c := TiDBCluster_ServerConfigs cur in
  (if negb (String.eqb (ServerConfigs_TiDB p) (ServerConfigs_TiDB c))
      || negb (bool_decide (TiDBCluster_TiDB pre = TiDBCluster_TiDB cur)) then ["tidb"] else [])
  ++ (if negb (String.eqb (ServerConfigs_PD p) (ServerConfigs_PD c))
         || negb (bool_decide (TiDBCluster_PD pre = TiDBCluster_PD cur)) then ["pd"] else [])
  ++ (if negb (String.eqb (ServerConfigs_TiKV p) (ServerConfigs_TiKV c))
         || negb (bool_decide (TiDBCluster_TiKV pre = TiDBCluster_TiKV cur)) then ["tikv"] else []).

(** ** Scaling *)

Section scale.
Context (clusterIPMaps : gmap string string).

Definition address (host : string) (port : Z) : string :=
  default "" (clusterIPMaps !! host) +:+ ":" +:+ strconv.Itoa port.

(** The loop over one component of the old cluster: a port of zero is replaced by the default
    one in the old cluster itself, whose list the caller shares; the nodes that leave. *)
Definition gone {A} `{EqDecision A} (with_port : A -> A) (node : A -> string) (pre cur : list A)
    : list A * list string :=
  let leaves a := negb (existsb (fun b => bool_decide (a = b)) cur) in
  ((fun a => if leaves a then with_port a else a) <$> pre,
   (fun a => node (with_port a)) <$> filterb leaves pre).

Definition tidb_port (t : TiDBSpec) : TiDBSpec :=
  if TiDBSpec_Port t =? 0 then t <| TiDBSpec_Port := 4000 |> else t.
Definition pd_port (t : PDSpec) : PDSpec :=
  if PDSpec_ClientPort t =? 0 then t <| PDSpec_ClientPort := 2379 |> else t.
Definition tikv_port (t : TiKVSpec) : TiKVSpec :=
  if TiKVSpec_Port t =? 0 then t <| TiKVSpec_Port := 20160 |> else t.

(** The old cluster as the function leaves it, and the nodes to remove. *)
Definition getScaleInNode (pre cur : TiDBCluster) : TiDBCluster * list string :=
  let '(tidb, n1) := gone tidb_port (fun t => address (TiDBSpec_Host t) (TiDBSpec_Port t))
                       (elems (TiDBCluster_TiDB pre)) (elems (TiDBCluster_TiDB cur)) in
  let '(pd, n2) := gone pd_port (fun t => address (PDSpec_Host t) (PDSpec_ClientPort t))
                     (elems (TiDBCluster_PD pre)) (elems (TiDBCluster_PD cur)) in
  let '(tikv, n3) := gone tikv_port (fun t => address (TiKVSpec_Host t) (TiKVSpec_Port t))
                       (elems (TiDBCluster_TiKV pre)) (elems (TiDBCluster_TiKV cur)) in
  (pre <| TiDBCluster_TiDB ::= fmap (fun _ => tidb) |> <| TiDBCluster_PD ::= fmap (fun _ => pd) |>
       <| TiDBCluster_TiKV ::= fmap (fun _ => tikv) |>,
   n1 ++ n2 ++ n3).

(** The loop over one component of the new cluster: the entries that join. *)
Definition joining {A} `{EqDecision A} (prepare : A -> A) (pre cur : list A) : list A :=
  prepare <$> filterb (fun a => negb (existsb (fun b => bool_decide (a = b)) pre)) cur.

Definition ip_of (host : string) : string := default "" (clusterIPMaps !! host).

Definition new_tidb (t : TiDBSpec) : TiDBSpec :=
  let t := tidb_port (t <| TiDBSpec_Host ::= ip_of |>) in
  if TiDBSpec_StatusPort t =? 0 then t <| TiDBSpec_StatusPort := 10080 |> else t.
Definition new_pd (t : PDSpec) : PDSpec :=
  let t := pd_port (t <| PDSpec_Host ::= ip_of |>) in
  if PDSpec_PeerPort t =? 0 then t <| PDSpec_PeerPort := 2380 |> else t.
Definition new_tikv (t : TiKVSpec) : TiKVSpec :=
  let t := tikv_port (t <| TiKVSpec_Host ::= ip_of |>) in
  if TiKVSpec_StatusPort t =? 0 then t <| TiKVSpec_StatusPort := 20180 |> else t.

Definition getScaleOutRoles (pre cur : TiDBCluster) : list TiDBSpec * list PDSpec * list TiKVSpec :=
  (joining new_tidb (elems (TiDBCluster_TiDB pre)) (elems (TiDBCluster_TiDB cur)),
   joining new_pd (elems (TiDBCluster_PD pre)) (elems (TiDBCluster_PD cur)),
   joining new_tikv (elems (TiDBCluster_TiKV pre)) (elems (TiDBCluster_TiKV cur))).

End scale.

(** ** Patching *)

Definition shouldPatch (v : TiDBClusterVersion) : bool :=
  negb (String.eqb (Version_TiDBDownloadURL v) "") || negb (String.eqb (Version_PDDownloadURL v) "")
  || negb (String.eqb (Version_TiKVDownloadURL v) "").

Definition GenUnzipCommand (filePath destDir : string) : string :=
  if strs.HasSuffix filePath ".zip" then "unzip -d " +:+ destDir +:+ " " +:+ filePath
  else if strs.HasSuffix filePath ".tar.gz" then "tar -zxf " +:+ filePath +:+ " -C " +:+ destDir
  else "tar -xf " +:+ filePath +:+ " -C " +:+ destDir.

(** The components that are to be replaced, with where they are downloaded from. *)
Definition patchComponents (v : TiDBClusterVersion) : list (string * string) :=
  filterb (fun '(_, downloadURL) => negb (String.eqb downloadURL ""))
    [("tidb-server", Version_TiDBDownloadURL v); ("tikv-server", Version_TiKVDownloadURL v);
     ("pd-server", Version_PDDownloadURL v)].

Definition component_commands {U : URLs} (component : string * string) : error + list string :=
  let '(name, downloadURL) := component in
  match url_Parse downloadURL with
  | inl err => inl err
  | inr upath => inr
      ["curl -O " +:+ downloadURL; GenUnzipCommand (path.Base upath) "components";
       "rm -rf components/" +:+ name; "mv components/bin/" +:+ name +:+ " components/" +:+ name]
  end.

Fixpoint download_commands {U : URLs} (components : list (string * string)) (commands : list string)
    : error + list string :=
  match components with
  | [] => inr commands
  | c :: l =>
      match component_commands c with
      | inl err => inl err
      | inr cs => download_commands l (commands ++ cs)
      end
  end.

(** [strings.Split(component, "-server")[0]]. *)
Definition role (component : string) : string :=
  match strs.Split component "-server" with r :: _ => r | [] => "" end.

End compare.

(** ** pkg/tiup/cluster: the manager *)

Module ClusterManager.
Section ClusterManager.
Context {Y : Yaml} {D : Defaults Y} {M : Marshal Y} {U : URLs}.

(** A deep copy of the control node's status. *)
Record t := mk {
  spec : tiupSpec.Specification;
  control : TestResourceStatus;
}.

Definition MakeClusterManager (ctf : TestClusterTopologySpec) (trs : list TestResource)
    (clusterIPMaps : list (gmap string string)) : goerr t :=
  let? (spec, control) := cluster.BuildSpecification ctf trs false clusterIPMaps
    orelse err => Ret (inl err) in
  Ret (inr (mk spec control)).

Definition tiup_cluster : string := "/root/.tiup/bin/tiup cluster ".

(** An unreadable key is ignored here: the connection fails by itself. *)
Definition writeTopologyFileOnControl (c : t) (out : string) : io (option error) :=
  _ ← ask (SCPPrivateKey "root" tiup.InsecureKeyPath);
  scp_write (control c) out "/root/topology.yaml".

Definition writeTemporaryTopologyMetaOnControl (c : t) (out : string) : io (option error) :=
  _ ← ask (SCPPrivateKey "root" tiup.InsecureKeyPath);
  scp_write (control c) out "/tmp/meta.yaml".

Definition writeScaleOutFileOnControl (c : t) (out : string) : io (option error) :=
  check ask (SCPPrivateKey "root" tiup.InsecureKeyPath)
    orelse err => mret (Some (Errorf ("generate client privatekey failed: " +:+ Error err))) in
  scp_write (control c) out "/root/scale-out.yaml".

Definition setTiUPMirror (c : t) (tiupMirror : string) : io (option error) :=
  ssh_command (control c) ("/root/.tiup/bin/tiup mirror set " +:+ tiupMirror)
    (fun err stdStr errStr => Errorf ("deploy cluster failed(" +:+ Error err +:+ "): " +:+ stdStr
                                        +:+ newline +:+ newline +:+ errStr)).

Definition deploy_cmd (clusterName version : string) : string :=
  tiup_cluster +:+ "deploy -y " +:+ clusterName +:+ " " +:+ version +:+ " /root/topology.yaml -i "
    +:+ tiup.InsecureKeyPath.

Definition deployCluster (c : t) (clusterName version : string) : io (option error) :=
  ssh_command (control c) (deploy_cmd clusterName version)
    (fun err stdStr errStr =>
       if strs.Contains errStr "specify another cluster name" then ErrClusterDuplicated clusterName
       else Errorf ("deploy cluster failed(" +:+ Error err +:+ "): " +:+ stdStr
                      +:+ newline +:+ newline +:+ errStr)).

Definition start_cmd (clusterName : string) : string := tiup_cluster +:+ "start " +:+ clusterName.

Definition startCluster (c : t) (clusterName : string) : io (option error) :=
  ssh_command (control c) (start_cmd clusterName)
    (fun err _ _ => Errorf ("start cluster failed: " +:+ Error err)).

Definition patch_failed (err : error) (stdStr errStr : string) : error :=
  Errorf ("patch cluster failed(" +:+ Error err +:+ "): " +:+ errStr).

Definition patch_commands (clusterName : string) (components : list (string * string)) (downloads : list string)
    : list string :=
  downloads
  ++ ["cd components && tar zcf patch.tar.gz " +:+ strs.Join components.*1 " "]
  ++ ((fun '(name, _) => tiup_cluster +:+ "patch " +:+ clusterName +:+ " patch.tar.gz -R " +:+ compare.role name)
        <$> components).

Definition first_commands : list string := ["set -ex"; "rm -rf components && mkdir components"].

Definition patch (c : t) (clusterName : string) (version : TiDBClusterVersion) : io (option error) :=
  with_ssh (control c) Some (fun client =>
    let components := compare.patchComponents version in
    match compare.download_commands components first_commands with
    | inl err => mret (Some err)
    | inr downloads =>
        '(stdStr, errStr, err) ← sshUtil.RunCommand client
          (flock (strs.Join (patch_commands clusterName components downloads) newline));
        match (err : option error) with
        | Some err => mret (Some (patch_failed err stdStr errStr))
        | None => mret None
        end
    end).

Definition scp_cmd (component host deployDir : string) (bin : bool) (trailer : string) : string :=
  "scp -o StrictHostKeyChecking=no -o UserKnownHostsFile=/dev/null -i " +:+ tiup.InsecureKeyPath
  +:+ " components/" +:+ component +:+ "-server root@" +:+ host +:+ ":" +:+ deployDir
  +:+ (if bin then "/bin/" else "/") +:+ component +:+ "-server" +:+ trailer.

(** The binaries of TiDB go to the directory bin, those of the others beside it. *)
Definition copy_cmds (c : t) (component : string) : list string :=
  if String.eqb component "tidb" then
    (fun s => scp_cmd component (tiupSpec.TiDBSpec_Host s) (tiupSpec.TiDBSpec_DeployDir s) true "")
      <$> tiupSpec.Spec_TiDBServers (spec c)
  else if String.eqb component "tikv" then
    (fun s => scp_cmd component (tiupSpec.TiKVSpec_Host s) (tiupSpec.TiKVSpec_DeployDir s) false " ")
      <$> tiupSpec.Spec_TiKVServers (spec c)
  else if String.eqb component "pd" then
    (fun s => scp_cmd component (tiupSpec.PDSpec_Host s) (tiupSpec.PDSpec_DeployDir s) false "")
      <$> tiupSpec.Spec_PDServers (spec c)
  else [].

(** Commands run one after the other over one connection, up to the first failure. *)
Fixpoint run_all (client : sshUtil.Client) (cmds : list string) : io (option error) :=
  match cmds with
  | [] => mret None
  | cmd :: l =>
      '(stdStr, errStr, err) ← sshUtil.RunCommand client cmd;
      match (err : option error) with
      | Some err => mret (Some (patch_failed err stdStr errStr))
      | None => run_all client l
      end
  end.

Definition replace (c : t) (clusterName : string) (version : TiDBClusterVersion) : io (option error) :=
  with_ssh (control c) Some (fun client =>
    let components := compare.patchComponents version in
    match compare.download_commands components first_commands with
    | inl err => mret (Some err)
    | inr downloads =>
        run_all client (flock (strs.Join downloads newline)
                   :: (components ≫= fun '(name, _) => copy_cmds c (compare.role name)))
    end).

(** The policy is looked at before and after the start: what is replaced is replaced before. *)
Definition InstallCluster (c : t) (clusterName : string) (version : TiDBClusterVersion) (tiupMirror : string)
    : io (option error) :=
  let '(outfile, err) := Marshal_spec (spec c) in
  match err with
  | Some err => mret (Some err)
  | None =>
  check writeTopologyFileOnControl c outfile orelse err => mret (Some err) in
  check (if negb (String.eqb (strs.TrimSpace tiupMirror) "") then setTiUPMirror c tiupMirror else mret None)
    orelse err => mret (Some err) in
  err ← deployCluster c clusterName (Version_Version version);
  match IgnoreClusterDuplicated err with
  | Some _ => mret err
  | None =>
  check (if compare.shouldPatch version && String.eqb (Version_PatchPolicy version) PatchPolicyReplace
         then replace c clusterName version else mret None)
    orelse err => mret (Some err) in
  check startCluster c clusterName orelse err => mret (Some err) in
  if compare.shouldPatch version
     && (String.eqb (Version_PatchPolicy version) PatchPolicyPatch || String.eqb (Version_PatchPolicy version) "")
  then patch c clusterName version else mret None
  end
  end.

Definition reload_cmd (clusterName : string) (roles : list string) : string :=
  flock ("mv /tmp/meta.yaml /root/.tiup/storage/cluster/clusters/" +:+ clusterName +:+ "/meta.yaml" +:+ ";"
    +:+ tiup_cluster +:+ "reload -y " +:+ clusterName +:+ " "
    +:+ foldl (fun s r => s +:+ " -R " +:+ r) "" roles +:+ " --ignore-config-check").

Definition reloadCluster (c : t) (clusterName : string) (nodes roles : list string) : io (option error) :=
  let cmd := reload_cmd clusterName roles in
  ssh_command (control c) cmd
    (fun err _ _ => Errorf ("cannot run remote command `" +:+ cmd +:+ "`: " +:+ Error err)).

(** [ct.Status.PreTiDBCluster] and [ct.Spec.TiDBCluster], dereferenced. *)
Definition clusters (ct : TestClusterTopology) : go (TiDBCluster * TiDBCluster) :=
  pre ← deref (TopologyStatus_PreTiDBCluster (Topology_Status ct));
  cur ← deref (Topology_TiDBCluster (Topology_Spec ct));
  Ret (pre, cur).

Definition UpdateCluster (c : t) (clusterName : string) (ct : TestClusterTopology) : io (option error) :=
  '(pre, cur) ← lift (clusters ct);
  let roles := compare.diffTiDBClusterConfig pre cur in
  if len roles =? 0 then mret None
  else
    let '(outfile, err) := Marshal_meta
      (mkMeta Y "root" (Version_Version (TiDBCluster_Version cur)) (spec c)) in
    match err with
    | Some err => mret (Some err)
    | None =>
        check writeTemporaryTopologyMetaOnControl c outfile orelse err => mret (Some err) in
        reloadCluster c clusterName [] roles
    end.

Definition GetClusterVersion (c : t) (clusterName : string) : io (error + string) :=
  with_ssh (control c) inl (fun client =>
    '(stdStr, errStr, err) ← sshUtil.RunCommand client
      (tiup_cluster +:+ "display " +:+ clusterName
         +:+ " | grep 'Cluster version' | awk -F ':' '{print $2}'");
    match (err : option error) with
    | Some err => mret (inl (Errorf ("get cluster version failed(" +:+ Error err +:+ "): " +:+ errStr)))
    | None => mret (inr (strs.TrimSpace stdStr))
    end).

Definition upgrade_cmd (clusterName : string) (cur : TiDBCluster) : string :=
  tiup_cluster +:+ "upgrade " +:+ clusterName +:+ " " +:+ Version_Version (TiDBCluster_Version cur) +:+ " "
    +:+ (if String.eqb (TiDBCluster_UpgradePolicy cur) "force" then "--force" else "") +:+ " -y".

Definition UpgradeCluster (c : t) (clusterName : string) (ct : TestClusterTopology) : io (option error) :=
  let? currentVersion := GetClusterVersion c clusterName orelse err => mret (Some err) in
  cur ← lift (deref (Topology_TiDBCluster (Topology_Spec ct)));
  if String.eqb currentVersion (Version_Version (TiDBCluster_Version cur)) then mret None
  else with_ssh (control c) Some (fun client =>
    pre ← lift (deref (TopologyStatus_PreTiDBCluster (Topology_Status ct))); (* for the log *)
    '(stdStr, errStr, err) ← sshUtil.RunCommand client (upgrade_cmd clusterName cur);
    match (err : option error) with
    | Some err => mret (Some (Errorf ("upgrade cluster failed(" +:+ Error err +:+ "): " +:+ errStr)))
    | None => mret None
    end).

Definition scaleIn_cmd (clusterName : string) (nodes : list string) : string :=
  tiup_cluster +:+ "scale-in " +:+ clusterName +:+ " "
    +:+ foldl (fun s n => s +:+ " --node " +:+ n) "" nodes +:+ " -y".

(** The error, and the topology with the default ports filled into its previous cluster. *)
Definition ScaleInCluster (c : t) (clusterName : string) (ct : TestClusterTopology)
    (clusterIPMaps : gmap string string) : io (option error * TestClusterTopology) :=
  '(pre, cur) ← lift (clusters ct);
  let '(pre, nodes) := compare.getScaleInNode clusterIPMaps pre cur in
  let ct := ct <| Topology_Status ::= fun s => s <| TopologyStatus_PreTiDBCluster := Some pre |> |> in
  err ← ssh_command (control c) (scaleIn_cmd clusterName nodes)
    (fun err _ errStr => Errorf ("scale-in cluster failed(" +:+ Error err +:+ "): " +:+ errStr));
  mret (err, ct).

Definition PruneCluster (c : t) (clusterName : string) : io (option error) :=
  ssh_command (control c) (tiup_cluster +:+ "prune " +:+ clusterName +:+ " -y")
    (fun err _ errStr => Errorf ("prune cluster failed(" +:+ Error err +:+ "): " +:+ errStr)).

(** The first words of the lines that carry the status. *)
Definition nodes_of (text status : string) : list string :=
  (fun line => match strs.Split line " " with w :: _ => w | [] => "" end)
    <$> filterb (fun line => strs.Contains line status) (strs.Split text newline).

Definition GetNodeStatusList (c : t) (clusterName status : string) : io (error + list string) :=
  with_ssh (control c) inl (fun client =>
    '(stdStr, errStr, err) ← sshUtil.RunCommand client (tiup_cluster +:+ "display " +:+ clusterName);
    match (err : option error) with
    | Some err => mret (inl (Errorf ("scale-in cluster failed(" +:+ Error err +:+ "): " +:+ errStr)))
    | None => mret (inr (nodes_of stdStr status))
    end).

Definition scaleOut_cmd (clusterName : string) : string :=
  tiup_cluster +:+ "scale-out " +:+ clusterName +:+ " /root/scale-out.yaml -i "
    +:+ tiup.InsecureKeyPath +:+ " -y".

(** The marshalling error is looked at after the file is written. *)
Definition ScaleOutCluster (c : t) (clusterName : string) (ct : TestClusterTopology)
    (clusterIPMaps : gmap string string) : io (option error) :=
  '(pre, cur) ← lift (clusters ct);
  let '(tidbs, pds, tikvs) := compare.getScaleOutRoles clusterIPMaps pre cur in
  let '(outfile, merr) := Marshal_scaleOut (mkScaleOut tidbs tikvs pds) in
  check writeScaleOutFileOnControl c outfile orelse err => mret (Some err) in
  match merr with
  | Some err => mret (Some err)
  | None =>
      ssh_command (control c) (scaleOut_cmd clusterName)
        (fun err _ errStr => Errorf ("scale-out cluster failed(" +:+ Error err +:+ "): " +:+ errStr))
  end.

Definition destroy_cmd (clusterName : string) : string := tiup_cluster +:+ "destroy -y " +:+ clusterName.

Definition UninstallCluster (c : t) (clusterName : string) : io (option error) :=
  let cmd := destroy_cmd clusterName in
  ssh_command (control c) cmd
    (fun err _ errStr =>
       if strs.Contains errStr "not exists" then ErrClusterNotExist clusterName
       else Errorf ("cannot run remote command `" +:+ cmd +:+ "`: " +:+ Error err)).

End ClusterManager.
End ClusterManager.

(** ** pkg/tiup/dm: the manager *)

Module DMManager.
Section DMManager.
Context {Y : Yaml} {D : Defaults Y} {M : Marshal Y}.

Record t := mk {
  spec : dmSpec.Specification;
  control : TestResourceStatus;
}.

Definition MakeClusterManager (ctf : TestClusterTopologySpec) (trs : list TestResource) : goerr t :=
  let? (spec, control) := dm.BuildSpecification ctf trs false orelse err => Ret (inl err) in
  Ret (inr (mk spec control)).

Definition tiup_dm : string := "/root/.tiup/bin/tiup dm ".

Definition writeTopologyFileOnControl (c : t) (out : string) : io (option error) :=
  _ ← ask (SCPPrivateKey "root" tiup.InsecureKeyPath);
  scp_write (control c) out "/root/topology.yaml".

Definition deploy_cmd (clusterName version : string) : string :=
  tiup_dm +:+ "deploy -y " +:+ clusterName +:+ " " +:+ version +:+ " /root/topology.yaml -i "
    +:+ tiup.InsecureKeyPath.

Definition deployCluster (c : t) (clusterName version : string) : io (option error) :=
  ssh_command (control c) (deploy_cmd clusterName version)
    (fun err _ errStr =>
       if strs.Contains errStr "specify another cluster name" then ErrClusterDuplicated clusterName
       else Errorf ("deploy cluster failed(" +:+ Error err +:+ "): " +:+ errStr)).

Definition start_cmd (clusterName : string) : string := tiup_dm +:+ "start " +:+ clusterName.

Definition startCluster (c : t) (clusterName : string) : io (option error) :=
  ssh_command (control c) (start_cmd clusterName)
    (fun err _ _ => Errorf ("start cluster failed: " +:+ Error err)).

Definition InstallCluster (c : t) (clusterName version : string) : io (option error) :=
  let '(outfile, err) := Marshal_dm (spec c) in
  match err with
  | Some err => mret (Some err)
  | None =>
  check writeTopologyFileOnControl c outfile orelse err => mret (Some err) in
  err ← deployCluster c clusterName version;
  match IgnoreClusterDuplicated err with
  | Some _ => mret err
  | None =>
  check startCluster c clusterName orelse err => mret (Some err) in
  mret None
  end
  end.

Definition destroy_cmd (clusterName : string) : string := tiup_dm +:+ "destroy -y " +:+ clusterName.

Definition UninstallCluster (c : t) (clusterName : string) : io (option error) :=
  let cmd := destroy_cmd clusterName in
  ssh_command (control c) cmd
    (fun err _ errStr =>
       if strs.Contains errStr "not exists" then ErrClusterNotExist clusterName
       else Errorf ("cannot run remote command `" +:+ cmd +:+ "`: " +:+ Error err)).

End DMManager.
End DMManager.
