(* ===== verification/TopologyCtl.v ===== *)
(** * The topology reconciler: installing and changing clusters

    controllers/testclustertopology_controller.go. A topology waits for its resources, prepares
    their containers, installs a TiDB, DM or Flink cluster on them, and follows changes of a
    TiDB cluster: upgrades, configuration changes, scaling and the pruning that follows it.

    The reconciler holds pointers into the list of resources it read, and [r.Status().Update]
    replaces what they point to by the server's copy: the list is threaded through the
    functions that update it and a pointer is an index into it. *)

From S2P Require Import Prelude GoStd Util ApiTypes TopologyTypes Prog World Machine Resource Relationship Docker.
From S2P Require Import TiupSpec TiupCtl.

Module TopologyEnvs.
Section TopologyEnvs.
Context {Y : Yaml} {D : Defaults Y}.

(** [strSet.add]. *)
Definition add (s : list string) (elem : string) : list string :=
  if Slice.StringsContains s elem then s else s ++ [elem].

Definition tcp (port : Z) : string := strconv.Itoa port +:+ "/tcp".

(** [indexes[host] = indexes[host].add(port)]. *)
Definition expose (indexes : gmap string (list string)) (p : string * string) : gmap string (list string) :=
  let '(host, port) := p in <[host := add (default [] (indexes !! host)) port]> indexes.

(** The ports of a TiDB cluster's components, in the order they are indexed. *)
Definition tidb_ports (spec : tiupSpec.Specification) : list (string * string) :=
  ((fun s => (tiupSpec.TiDBSpec_Host s, tcp (tiupSpec.TiDBSpec_Port s))) <$> tiupSpec.Spec_TiDBServers spec)
  ++ ((fun s => (tiupSpec.PDSpec_Host s, tcp (tiupSpec.PDSpec_ClientPort s))) <$> tiupSpec.Spec_PDServers spec)
  ++ ((fun s => (tiupSpec.GrafanaSpec_Host s, tcp (tiupSpec.GrafanaSpec_Port s))) <$> tiupSpec.Spec_Grafanas spec)
  ++ ((fun s => (tiupSpec.PrometheusSpec_Host s, tcp (tiupSpec.PrometheusSpec_Port s))) <$> tiupSpec.Spec_Monitors spec)
  ++ ((fun s => (tiupSpec.CDCSpec_Host s, tcp (tiupSpec.CDCSpec_Port s))) <$> tiupSpec.Spec_CDCServers spec)
  ++ (tiupSpec.Spec_TiFlashServers spec ≫= fun s =>
        (fun port => (tiupSpec.TiFlashSpec_Host s, tcp port)) <$>
          [tiupSpec.TiFlashSpec_TCPPort s; tiupSpec.TiFlashSpec_HTTPPort s; tiupSpec.TiFlashSpec_StatusPort s;
           tiupSpec.TiFlashSpec_FlashServicePort s; tiupSpec.TiFlashSpec_FlashProxyPort s;
           tiupSpec.TiFlashSpec_FlashProxyStatusPort s]).

Definition dm_ports (spec : dmSpec.Specification) : list (string * string) :=
  ((fun s => (dmSpec.MasterSpec_Host s, tcp (dmSpec.MasterSpec_Port s))) <$> dmSpec.Spec_Masters spec)
  ++ ((fun s => (dmSpec.WorkerSpec_Host s, tcp (dmSpec.WorkerSpec_Port s))) <$> dmSpec.Spec_Workers spec)
  ++ ((fun s => (tiupSpec.GrafanaSpec_Host s, tcp (tiupSpec.GrafanaSpec_Port s))) <$> dmSpec.Spec_Grafanas spec)
  ++ ((fun s => (tiupSpec.AlertmanagerSpec_Host s, tcp (tiupSpec.AlertmanagerSpec_WebPort s)))
        <$> dmSpec.Spec_Alertmanagers spec)
  ++ ((fun s => (tiupSpec.PrometheusSpec_Host s, tcp (tiupSpec.PrometheusSpec_Port s))) <$> dmSpec.Spec_Monitors spec).

(** Every resource, the ports of the components on it, and the SSH port last. *)
Definition index_ports (trs : list TestResource) (ports : list (string * string)) : gmap string (list string) :=
  let indexes := fold_left (fun m r => <[TestResource_Name r := []]> m) trs ∅ in
  let indexes := fold_left expose ports indexes in
  (fun l => add l TestResource.SSHPort) <$> indexes.

Definition indexResourceExposedPorts (ctf : TestClusterTopologySpec) (trs : list TestResource)
    : goerr (gmap string (list string)) :=
  match Topology_TiDBCluster ctf, Topology_FlinkCluster ctf, Topology_DMCluster ctf with
  | Some _, _, _ =>
      let? (spec, _) := cluster.BuildSpecification ctf trs true [] orelse err => Ret (inl err) in
      Ret (inr (index_ports trs (tidb_ports spec)))
  | None, Some _, _ =>
      let? spec := flink.BuildSpecification ctf trs true orelse err => Ret (inl err) in
      let j := FlinkCluster_JobManager spec in
      Ret (inr (expose ∅ (JobManagerSpec_Host j, tcp (JobManagerSpec_WebPort j))))
  | None, None, Some _ =>
      let? (spec, _) := dm.BuildSpecification ctf trs true orelse err => Ret (inl err) in
      Ret (inr (index_ports trs (dm_ports spec)))
  | None, None, None => Ret (inr ∅)
  end.

(** One environment variable per component of a kind, numbered from 0. *)
Definition numbered (what : string) (l : list (string * Z)) : list string :=
  imap (fun idx '(host, port) =>
    what +:+ strconv.Itoa (Z.of_nat idx) +:+ "=" +:+ host +:+ ":" +:+ strconv.Itoa port) l.

Definition haproxy_envs (proxy : option HAProxy) (resources : list TestResource) : list string :=
  match proxy with
  | None => []
  | Some proxy =>
      (fun item => "tidb=" +:+ ClusterIP (TestResource_Status item) +:+ ":" +:+ strconv.Itoa (HAProxy_Port proxy))
        <$> filterb (fun item => String.eqb (TestResource_Name item) (HAProxy_Host proxy)) resources
  end.

Definition buildTiDBClusterInjectEnvs (t : TestClusterTopology) (resources : list TestResource)
    : goerr (list string) :=
  let? (spec, _) := cluster.BuildSpecification (Topology_Spec t) resources false [] orelse err => Ret (inl err) in
  c ← deref (Topology_TiDBCluster (Topology_Spec t));
  Ret (inr
    (numbered "tidb" ((fun s => (tiupSpec.TiDBSpec_Host s, tiupSpec.TiDBSpec_Port s))
                        <$> tiupSpec.Spec_TiDBServers spec)
     ++ numbered "pd" ((fun s => (tiupSpec.PDSpec_Host s, tiupSpec.PDSpec_ClientPort s))
                         <$> tiupSpec.Spec_PDServers spec)
     ++ numbered "prometheus" ((fun s => (tiupSpec.PrometheusSpec_Host s, tiupSpec.PrometheusSpec_Port s))
                                 <$> tiupSpec.Spec_Monitors spec)
     ++ haproxy_envs (TiDBCluster_HAProxy c) resources)).

Definition BuildInjectEnvs (t : TestClusterTopology) (resources : list TestResource) : goerr (list string) :=
  match Topology_TiDBCluster (Topology_Spec t) with
  | Some _ => buildTiDBClusterInjectEnvs t resources
  | None => Ret (inr [])
  end.

Definition hostname2ClusterIP (items : list TestResource) : gmap string string :=
  fold_left (fun m item => <[TestResource_Name item := ClusterIP (TestResource_Status item)]> m) items ∅.

End TopologyEnvs.
End TopologyEnvs.
Import TopologyEnvs.

Module TopologyCtl.
Section TopologyCtl.
Context {Y : Yaml} {D : Defaults Y} {M : Marshal Y} {U : URLs}.

(** ** The resources of a cluster *)

(** What the pointers [ps] into the list of resources point to. *)
Definition load (items : list TestResource) (ps : list nat) : list TestResource := omap (fun p => items !! p) ps.

Definition allHosts (spec : TestClusterTopologySpec) : gset string :=
  match Topology_TiDBCluster spec, Topology_FlinkCluster spec, Topology_DMCluster spec with
  | Some c, _, _ => TiDBCluster_AllHosts c
  | None, Some c, _ => FlinkCluster_AllHosts c
  | None, None, Some c => DMCluster_AllHosts c
  | None, None, None => ∅
  end.

Definition filterClusterResources (ct : TestClusterTopology) (items : list TestResource) : list nat :=
  (filterb (fun '(_, item) => bool_decide (TestResource_Name item ∈ allHosts (Topology_Spec ct)))
     (zip (seq 0 (length items)) items)).*1.

(** The resources a request owns. *)
Definition list_owned (rr : TestResourceRequest) : io (option error * list TestResource) :=
  let meta := TestResourceRequest_ObjectMeta rr in
  list_objs KTestResource (Some (ObjectMeta_Namespace meta)) (Some (ObjectMeta_Name meta)).

(** A relationship that cannot be read is taken for an empty one, and a machine that cannot be
    read, unless it is not found, for an empty machine. *)
Definition getResourceMachine (resource : TestResource) : io (error + Machine) :=
  r ← get KRelationship relationshipName;
  let relation := match r with inl _ => zeroRelationship | inr relation => relation end in
  let machineRef := default zeroMachineRef
    (go_lookup (ResourceToMachine (Relationship_Status relation)) (Key (CreateRef (TestResource_ObjectMeta resource)))) in
  r ← get KMachine (Namespaced (MachineRef_Ref machineRef));
  match r with
  | inl err => mret (if IsNotFound err then inl err else inr zeroMachine)
  | inr machine => mret (inr machine)
  end.

(** ** Preparing the containers *)

(** Whether to requeue and the error, with the resources as they are in memory afterwards. *)
Abbreviation init_result := (bool * option error * list TestResource)%type.

(** One round of the loops that prepare resources for [image]: a resource with no image yet gets
    the container [prepare] makes for it, and any that is not ready makes the caller requeue.
    The last error names the state finish whichever state it is about. *)
Definition init_node (image expected : string) (prepare : TestResource -> TestResourceStatus -> TestResourceStatus)
    (st : list TestResource * bool) (p : nat) : io (list TestResource * bool + init_result) :=
  let '(items, requeue) := st in
  match items !! p with
  | None => mret (inl st)
  | Some resource =>
      match TestResource_State resource with
      | ResourceUninitialized =>
          if String.eqb (TestResource_Image resource) "" then
            let resource := resource <| TestResource_Status ::= fun s =>
              prepare resource (s <| TestResourceStatus_Container ::= fun c => c <| ContainerSpec_Image := image |> |>) |> in
            r ← ask (StatusUpdate KTestResource resource);
            match r with
            | inl err => mret (inr (false, Some err, <[p := resource]> items))
            | inr stored => mret (inl (<[p := stored]> items, true))
            end
          else mret (inl (items, true))
      | ResourceReady =>
          if negb (String.eqb (TestResource_Image resource) expected) then
            mret (inr (false, Some (Errorf ("resource node " +:+ TestResource_Name resource
              +:+ " uses an incorrect image: " +:+ TestResource_Image resource)), items))
          else mret (inl st)
      | ResourcePending | ResourceFinish | ResourceDestroy =>
          mret (inr (false, Some (Errorf ("resource node " +:+ TestResource_Name resource
            +:+ " is in the `finish` state")), items))
      | ResourceStateNone | ResourceStateOther _ => mret (inl st)
      end
  end.

Definition on_container (f : ResourceContainerSpec -> ResourceContainerSpec) (s : TestResourceStatus)
    : TestResourceStatus := s <| TestResourceStatus_Container ::= f |>.

(** The container of a tiup node, with the ports its components listen on. *)
Definition tiup_container (capAdd : list string) (ports : gmap string (list string)) (r : TestResource)
    : TestResourceStatus -> TestResourceStatus :=
  on_container (fun c =>
    c <| ContainerSpec_CapAdd := capAdd |>
      <| ContainerSpec_Binds ::= fun b => b ++ ["/sys/fs/cgroup:/sys/fs/cgroup:ro"] |>
      <| ContainerSpec_ExposedPorts := default [] (ports !! TestResource_Name r) |>).

(** [indexResourceExposedPorts] failing. *)
Definition index_failed (err : error) : option error :=
  Some (Errorf ("index exposed ports failed: " +:+ Error err)).

Definition initDMResources (ct : TestClusterTopology) (items : list TestResource) (resources : list nat)
    : io init_result :=
  let? ports := lift (indexResourceExposedPorts (Topology_Spec ct) (load items resources))
    orelse err => mret (false, index_failed err, items) in
  r ← for_each (init_node tiup.ContainerImage tiup.ContainerImage (tiup_container ["SYS_ADMIN"] ports))
        resources (items, false);
  match r with
  | inr result => mret result
  | inl (items, requeue) => mret (requeue, None, items)
  end.

(** The Flink properties of the job manager and of a task manager. *)
Definition flink_container (c : FlinkCluster) (ports : gmap string (list string)) (r : TestResource)
    (s : TestResourceStatus) : TestResourceStatus :=
  let j := FlinkCluster_JobManager c in
  let rpc := "jobmanager.rpc.address: jobmanager" +:+ newline in
  let s :=
    if String.eqb (TestResource_Name r) (JobManagerSpec_Host j) then
      let config := JobManagerSpec_Config j +:+
        (if JobManagerSpec_WebPort j =? 0 then ""
         else newline +:+ "jobmanager.web.port: " +:+ strconv.Itoa (JobManagerSpec_WebPort j)) in
      on_container (fun c => c <| ContainerSpec_Command := ["jobmanager"] |>
                               <| ContainerSpec_Envs := ["FLINK_PROPERTIES=" +:+ rpc +:+ config] |>)
        (s <| TestResourceStatus_HostName := "jobmanager" |>)
    else
      let s := on_container (fun c => c <| ContainerSpec_Command := ["taskmanager"] |>) s in
      match filterb (fun t => String.eqb (TestResource_Name r) (TaskManagerSpec_Host t)) (FlinkCluster_TaskManager c) with
      | [] => s
      | t :: _ => on_container (fun c => c <| ContainerSpec_Envs :=
          ["FLINK_PROPERTIES=" +:+ rpc +:+ TaskManagerSpec_Config t] |>) s
      end in
  on_container (fun c => c <| ContainerSpec_ExposedPorts := default [] (ports !! TestResource_Name r) |>) s.

Definition initFlinkResources (ct : TestClusterTopology) (items : list TestResource) (resources : list nat)
    : io init_result :=
  let? ports := lift (indexResourceExposedPorts (Topology_Spec ct) (load items resources))
    orelse err => mret (false, index_failed err, items) in
  c ← lift (deref (Topology_FlinkCluster (Topology_Spec ct)));
  let image := flink.BaseImageName +:+ FlinkCluster_Version c in
  r ← for_each (init_node image image (flink_container c ports)) resources (items, false);
  match r with
  | inr result => mret result
  | inl (items, requeue) => mret (requeue, None, items)
  end.

(** ** HAProxy *)

(** The addresses of the tiup nodes, or [None] when one of them is not ready. *)
Fixpoint cluster_ips (nodes : list TestResource) (ips : gmap string string) : option (gmap string string) :=
  match nodes with
  | [] => Some ips
  | r :: l =>
      if negb (bool_decide (TestResource_State r = ResourceReady)) then None
      else cluster_ips l (<[TestResource_Name r := ClusterIP (TestResource_Status r)]> ips)
  end.

(** The container of the proxy's node. *)
Definition haproxy_container (proxy : HAProxy) (fileName : string) (_ : TestResource)
    : TestResourceStatus -> TestResourceStatus :=
  on_container (fun c =>
    c <| ContainerSpec_ExposedPorts := [strconv.Itoa (HAProxy_Port proxy) +:+ "/tcp"] |>
      <| ContainerSpec_Binds := [haproxy.SourceDir +:+ fileName +:+ ":" +:+ haproxy.TargetDir +:+ fileName] |>
      <| ContainerSpec_Mounts := [] |>
      <| ContainerSpec_Command := ["haproxy"; "-W"; "-db"; "-f"; "/usr/local/etc/haproxy/" +:+ fileName] |>).

(** [requeue] is the tiup nodes'; that the proxy's node is not ready does not change it, since
    the loop sets a variable of its own. A ready proxy's image is compared with the name of the
    image without its version. The loop's own test of the name never fails. *)
Definition init_haproxy (ct : TestClusterTopology) (c : TiDBCluster) (proxy : HAProxy)
    (haProxyResources tiupResources : list nat) (items : list TestResource) (requeue : bool) : io init_result :=
  first ← lift (p ← go_index haProxyResources 0; deref (items !! p));
  r ← getResourceMachine first;
  match r with
  | inl _ => mret (true, None, items)
  | inr machine =>
      match cluster_ips (load items tiupResources) ∅ with
      | None => mret (true, None, items)
      | Some clusterIPMaps =>
          '(again, config) ← lift (haproxy.GenerateHAProxyConfig c clusterIPMaps);
          if again : bool then mret (true, None, items)
          else
            let fileName := haproxy.GenerateFilePrefix ct +:+ haproxy.FileName in
            check haproxy.WriteConfigToMachine (MachineSpec_Host (Machine_Spec machine)) fileName config
              orelse err => mret (true, Some err, items) in
            r ← for_each (init_node (haproxy.BaseImageName +:+ HAProxy_Version proxy) haproxy.BaseImageName
                            (haproxy_container proxy fileName)) haProxyResources (items, false);
            match r with
            | inr result => mret result
            | inl (items, _) => mret (requeue, None, items)
            end
      end
  end.

(** Whether the resource a pointer points to is the proxy's. *)
Definition on_proxy (items : list TestResource) (proxy : HAProxy) (p : nat) : bool :=
  match items !! p with
  | Some r => String.eqb (TestResource_Name r) (HAProxy_Host proxy)
  | None => false
  end.

Definition initTiDBResources (ct : TestClusterTopology) (items : list TestResource) (resources : list nat)
    : io init_result :=
  c ← lift (deref (Topology_TiDBCluster (Topology_Spec ct)));
  let '(haProxyResources, tiupResources) :=
    match TiDBCluster_HAProxy c with
    | Some proxy => (filterb (on_proxy items proxy) resources,
                     filterb (fun p => negb (on_proxy items proxy p)) resources)
    | None => ([], resources)
    end in
  let? ports := lift (indexResourceExposedPorts (Topology_Spec ct) (load items resources))
    orelse err => mret (false, index_failed err, items) in
  r ← for_each (init_node tiup.ContainerImage tiup.ContainerImage
                  (tiup_container ["SYS_ADMIN"; "SYS_PTRACE"; "NET_ADMIN"] ports))
        tiupResources (items, false);
  match r with
  | inr result => mret result
  | inl (items, requeue) =>
      match TiDBCluster_HAProxy c with
      | None => mret (requeue, None, items)
      | Some proxy => init_haproxy ct c proxy haProxyResources tiupResources items requeue
      end
  end.

Definition initResource (ct : TestClusterTopology) (items : list TestResource) (resources : list nat)
    : io init_result :=
  let spec := Topology_Spec ct in
  match Topology_TiDBCluster spec, Topology_DMCluster spec, Topology_FlinkCluster spec with
  | Some _, _, _ => initTiDBResources ct items resources
  | None, Some _, _ => initDMResources ct items resources
  | None, None, Some _ => initFlinkResources ct items resources
  | None, None, None => mret (false, None, items)
  end.

(** ** Installing *)

(** [requeue, err = r.initResource(...); if requeue { return true, err }]: an error without a
    requeue is dropped. The error of the listing is logged only. *)
Definition installTiDBCluster (ct : TestClusterTopology) (rr : TestResourceRequest) : io (bool * option error) :=
  '(_, items) ← list_owned rr;
  let resources := filterClusterResources ct items in
  '(requeue, err, items) ← initResource ct items resources;
  if requeue : bool then mret (true, err)
  else
    let? tiupCtl := lift (ClusterManager.MakeClusterManager (Topology_Spec ct) (load items resources)
                            [hostname2ClusterIP items])
      orelse err => mret (false, Some err) in
    c ← lift (deref (Topology_TiDBCluster (Topology_Spec ct)));
    err ← ClusterManager.InstallCluster tiupCtl (Topology_Name ct) (TiDBCluster_Version c) (TiDBCluster_TiUPMirror c);
    mret (false, err).

Definition installFlinkCluster (ct : TestClusterTopology) (rr : TestResourceRequest) : io (bool * option error) :=
  '(_, items) ← list_owned rr;
  '(requeue, err, items) ← initResource ct items (filterClusterResources ct items);
  if requeue : bool then mret (true, err) else mret (false, None).

Definition installDMCluster (ct : TestClusterTopology) (rr : TestResourceRequest) : io (bool * option error) :=
  '(_, items) ← list_owned rr;
  let resources := filterClusterResources ct items in
  '(requeue, err, items) ← initResource ct items resources;
  if requeue : bool then mret (true, err)
  else
    let? tiupCtl := lift (DMManager.MakeClusterManager (Topology_Spec ct) (load items resources))
      orelse err => mret (false, Some err) in
    c ← lift (deref (Topology_DMCluster (Topology_Spec ct)));
    err ← DMManager.InstallCluster tiupCtl (Topology_Name ct) (DMCluster_Version c);
    mret (false, err).

(** ** Updating *)

(** The resources of the cluster, and all those of the request. *)
Definition cluster_resources (ct : TestClusterTopology) (rr : TestResourceRequest)
    : io (option error * list TestResource * list TestResource) :=
  '(err, items) ← list_owned rr;
  mret (err, load items (filterClusterResources ct items), items).

Definition upgradeTiDBCluster (ct : TestClusterTopology) (rr : TestResourceRequest) : io (bool * option error) :=
  '(err, resources, items) ← cluster_resources ct rr;
  match (err : option error) with
  | Some err => mret (false, Some err)
  | None =>
      let? tiupCtl := lift (ClusterManager.MakeClusterManager (Topology_Spec ct) resources [])
        orelse err => mret (false, Some err) in
      err ← ClusterManager.UpgradeCluster tiupCtl (Topology_Name ct) ct;
      mret (false, err)
  end.

Definition updateClusterConfig (ct : TestClusterTopology) (rr : TestResourceRequest) : io (bool * option error) :=
  '(_, resources, _) ← cluster_resources ct rr;
  let? tiupCtl := lift (ClusterManager.MakeClusterManager (Topology_Spec ct) resources [])
    orelse err => mret (false, Some err) in
  err ← ClusterManager.UpdateCluster tiupCtl (Topology_Name ct) ct;
  mret (false, err).

(** With the topology as it is in memory afterwards. *)
Definition scaleInTiDBCluster (ct : TestClusterTopology) (rr : TestResourceRequest)
    : io (bool * option error * TestClusterTopology) :=
  '(_, resources, items) ← cluster_resources ct rr;
  let? tiupCtl := lift (ClusterManager.MakeClusterManager (Topology_Spec ct) resources [])
    orelse err => mret (false, Some err, ct) in
  '(err, ct) ← ClusterManager.ScaleInCluster tiupCtl (Topology_Name ct) ct (hostname2ClusterIP items);
  mret (false, err, ct).

Definition scaleOutTiDBCluster (ct : TestClusterTopology) (rr : TestResourceRequest) : io (bool * option error) :=
  '(_, items) ← list_owned rr;
  let resources := filterClusterResources ct items in
  '(requeue, err, items) ← initResource ct items resources;
  if requeue : bool then mret (true, err)
  else
    let? tiupCtl := lift (ClusterManager.MakeClusterManager (Topology_Spec ct) (load items resources)
                            [hostname2ClusterIP items])
      orelse err => mret (false, Some err) in
    err ← ClusterManager.ScaleOutCluster tiupCtl (Topology_Name ct) ct (hostname2ClusterIP items);
    mret (false, err).

(** One step of an update: its error is recorded and returned, a requeue ends the round. *)
Definition update_step (reason : string) (step : bool * option error) (k : io (bool * (Result * option error)))
    : io (bool * (Result * option error)) :=
  match step with
  | (_, Some err) => record_event "Warning" reason (Error err);; mret (false, (noRequeue, Some err))
  | (true, None) => mret (false, (after (10 * time.Second), None))
  | (false, None) => k
  end.

(** Whether all is done, the result, and the topology as it is in memory. Each step is decided
    on the topology the previous one left. *)
Definition updateTiDBCluster (ct : TestClusterTopology) (rr : TestResourceRequest)
    : io (bool * (Result * option error)) :=
  '(pre, cur) ← lift (ClusterManager.clusters ct);
  upgrade ← (if compare.IsUpgraded pre cur then upgradeTiDBCluster ct rr else mret (false, None));
  update_step "Upgrade" upgrade (
  config ← (if compare.IsConfigModified pre cur then updateClusterConfig ct rr else mret (false, None));
  update_step "Update cluster" config (
  '(requeue, err, ct) ← (if compare.IsScaleIn pre cur then scaleInTiDBCluster ct rr
                          else mret (false, None, ct));
  update_step "Update scale-in" (requeue, err) (
  '(pre, cur) ← lift (ClusterManager.clusters ct);
  out ← (if compare.IsScaleOut pre cur then scaleOutTiDBCluster ct rr else mret (false, None));
  update_step "Update scale-out" out (mret (true, (noRequeue, None)))))).

(** Whether no store is left to move away, with the topology carrying the lists found. *)
Definition checkTiKVFinishedScaleIn (ct : TestClusterTopology) (rr : TestResourceRequest)
    : io (error + (bool * TestClusterTopology)) :=
  '(_, resources, _) ← cluster_resources ct rr;
  let? tiupCtl := lift (ClusterManager.MakeClusterManager (Topology_Spec ct) resources [])
    orelse err => mret (inl err) in
  let? pendingOfflineList := ClusterManager.GetNodeStatusList tiupCtl (Topology_Name ct) "Pending"
    orelse err => mret (inl err) in
  let? tmp := ClusterManager.GetNodeStatusList tiupCtl (Topology_Name ct) "Offline"
    orelse err => mret (inl err) in
  let offlineList := filterb (fun node => negb (Slice.StringsContains pendingOfflineList node)) tmp in
  let ct := ct <| Topology_Status ::= fun s => s <| TopologyStatus_TiDBClusterInfo ::= fun i =>
    i <| TiDBClusterInfo_PendingOfflineList := pendingOfflineList |>
      <| TiDBClusterInfo_OfflineList := offlineList |> |> |> in
  mret (inr ((len pendingOfflineList =? 0) && (len offlineList =? 0), ct)).

Definition pruneTiDBCluster (ct : TestClusterTopology) (rr : TestResourceRequest) : io (option error) :=
  '(_, resources, _) ← cluster_resources ct rr;
  let? tiupCtl := lift (ClusterManager.MakeClusterManager (Topology_Spec ct) resources [])
    orelse err => mret (Some err) in
  ClusterManager.PruneCluster tiupCtl (Topology_Name ct).

(** ** Deleting *)

(** The configuration files of the proxy, on the machines of the resources of its name. *)
Fixpoint delete_configs (ct : TestClusterTopology) (proxy : HAProxy) (resources : list TestResource)
    : io (option error) :=
  match resources with
  | [] => mret None
  | r :: l =>
      if String.eqb (TestResource_Name r) (HAProxy_Host proxy) then
        let? machine := getResourceMachine r orelse err => mret (Some err) in
        check haproxy.DeleteConfigFromMachine (MachineSpec_Host (Machine_Spec machine))
                (haproxy.GenerateFilePrefix ct +:+ haproxy.FileName)
          orelse err => mret (Some err) in
        delete_configs ct proxy l
      else delete_configs ct proxy l
  end.

Definition uninstall (ct : TestClusterTopology) (resources : list TestResource) : io (option error) :=
  let spec := Topology_Spec ct in
  match Topology_TiDBCluster spec, Topology_FlinkCluster spec, Topology_DMCluster spec with
  | Some c, _, _ =>
      check (match TiDBCluster_HAProxy c with
             | Some proxy => delete_configs ct proxy resources
             | None => mret None
             end) orelse err => mret (Some err) in
      let? tiupCtl := lift (ClusterManager.MakeClusterManager spec resources [])
        orelse err => mret (Some err) in
      err ← ClusterManager.UninstallCluster tiupCtl (Topology_Name ct);
      mret (IgnoreClusterNotExist err)
  | None, Some _, _ => mret None
  | None, None, Some _ =>
      let? tiupCtl := lift (DMManager.MakeClusterManager spec resources) orelse err => mret (Some err) in
      err ← DMManager.UninstallCluster tiupCtl (Topology_Name ct);
      mret (IgnoreClusterNotExist err)
  | None, None, None => mret None
  end.

Definition deleteTopology (ct : TestClusterTopology) : io (option error) :=
  let rrName := Topology_ResourceRequest (Topology_Spec ct) in
  if String.eqb rrName "" then mret None
  else
    let? rr := get KTestResourceRequest
        (mkNamespacedName (ObjectMeta_Namespace (Topology_ObjectMeta ct)) rrName)
      orelse err => mret (IgnoreNotFound err) in
    if negb (bool_decide (TestResourceRequest_State rr = TestResourceRequestReady)) then mret None
    else
      '(_, items) ← list_owned rr;
      uninstall ct items.

(** ** Reconcile *)

Definition with_status (f : TestClusterTopologyStatus -> TestClusterTopologyStatus) (ct : TestClusterTopology)
    : TestClusterTopology := ct <| Topology_Status ::= f |>.
Definition set_state (state : ClusterTopologyState) : TestClusterTopology -> TestClusterTopology :=
  with_status (fun s => s <| TopologyStatus_State := state |>).

(** The request the topology is deployed on, which must be in the namespace of the key. *)
Definition get_request (req : NamespacedName) (ct : TestClusterTopology) : io (error + TestResourceRequest) :=
  get KTestResourceRequest
    (mkNamespacedName (NamespacedName_Namespace req) (Topology_ResourceRequest (Topology_Spec ct))).

(** The switch over the kinds of cluster: the result of the installation and what is said of it. *)
Definition install (ct : TestClusterTopology) (rr : TestResourceRequest) : io (option (string * (bool * option error))) :=
  let spec := Topology_Spec ct in
  match Topology_TiDBCluster spec, Topology_FlinkCluster spec, Topology_DMCluster spec with
  | Some _, _, _ => r ← installTiDBCluster ct rr; mret (Some ("tidb", r))
  | None, Some _, _ => r ← installFlinkCluster ct rr; mret (Some ("flink", r))
  | None, None, Some _ => r ← installDMCluster ct rr; mret (Some ("dm", r))
  | None, None, None => mret None
  end.

Definition become_ready (ct : TestClusterTopology) : io (Result * option error) :=
  err ← status_update KTestClusterTopology (set_state ClusterTopologyStateReady ct);
  mret (noRequeue, err).

Definition reconcilePending (req : NamespacedName) (ct : TestClusterTopology) : io (Result * option error) :=
  if String.eqb (Topology_ResourceRequest (Topology_Spec ct)) "" then mret (noRequeue, None)
  else
    r ← get_request req ct;
    match r with
    | inl err => record_event "Warning" "Install" (Error err);; mret (noRequeue, Some err)
    | inr rr =>
        if negb (bool_decide (TestResourceRequest_State rr = TestResourceRequestReady))
        then mret (after (5 * time.Second), None)
        else
          installed ← install ct rr;
          match installed with
          | None => become_ready ct
          | Some (what, (requeue, err)) =>
              match (err : option error) with
              | Some err => record_event "Warning" "Install" (Error err);; mret (noRequeue, Some err)
              | None =>
                  if requeue : bool then mret (after (10 * time.Second), None)
                  else
                    record_event "Normal" "Install" (what +:+ " cluster " +:+ Topology_Name ct +:+ " is installed");;
                    become_ready ct
              end
          end
    end.

(** A cluster that was scaled in: its stores are followed until they are gone, and pruned. The
    status update replaces the object in memory. *)
Definition follow_scaling (req : NamespacedName) (ct : TestClusterTopology) : io (Result * option error) :=
  let? rr := get_request req ct orelse err => mret (noRequeue, Some err) in
  let? (isFinish, ct) := checkTiKVFinishedScaleIn ct rr orelse err => mret (noRequeue, Some err) in
  let? ct := (ask (StatusUpdate KTestClusterTopology ct) : io (error + TestClusterTopology))
    orelse err => mret (noRequeue, Some err) in
  if isFinish : bool then
    err ← pruneTiDBCluster ct rr;
    match err with
    | Some err => record_event "Warning" "Prune TiKVs" (Error err);; mret (noRequeue, Some err)
    | None =>
        err ← status_update KTestClusterTopology (with_status (fun s =>
          s <| TopologyStatus_TiDBClusterInfo ::= fun i => i <| TiDBClusterInfo_IsScaling := false |> |>) ct);
        mret (noRequeue, err)
    end
  else mret (after (10 * time.Second), None).

Definition reconcileReady (req : NamespacedName) (ct : TestClusterTopology) : io (Result * option error) :=
  match Topology_TiDBCluster (Topology_Spec ct) with
  | None => mret (noRequeue, None)
  | Some cur =>
      match TopologyStatus_PreTiDBCluster (Topology_Status ct) with
      | None =>
          err ← status_update KTestClusterTopology
            (with_status (fun s => s <| TopologyStatus_PreTiDBCluster := Some cur |>) ct);
          mret (noRequeue, err)
      | Some pre =>
          if negb (compare.IsClusterConfigModified pre cur) then
            if TiDBClusterInfo_IsScaling (TopologyStatus_TiDBClusterInfo (Topology_Status ct))
            then follow_scaling req ct else mret (noRequeue, None)
          else
            err ← status_update KTestClusterTopology (set_state ClusterTopologyStateUpdating ct);
            mret (noRequeue, err)
      end
  end.

(** What [updateTiDBCluster] changes of the topology in memory is the previous cluster, which is
    replaced here. *)
Definition reconcileUpdating (req : NamespacedName) (ct : TestClusterTopology) : io (Result * option error) :=
  let? rr := get_request req ct orelse err => mret (noRequeue, Some err) in
  '(pre, cur) ← lift (ClusterManager.clusters ct);
  let ct := if compare.IsScaleIn pre cur
            then with_status (fun s => s <| TopologyStatus_TiDBClusterInfo ::= fun i =>
                   i <| TiDBClusterInfo_IsScaling := true |> |>) ct
            else ct in
  '(isOK, result) ← updateTiDBCluster ct rr;
  if negb (isOK : bool) then mret result
  else
    err ← status_update KTestClusterTopology (with_status (fun s =>
      s <| TopologyStatus_PreTiDBCluster := Some cur |>
        <| TopologyStatus_State := ClusterTopologyStateReady |>) ct);
    mret (noRequeue, err).

(** A live topology: its finalizer is added, which replaces the object in memory, and its state
    decides. *)
Definition reconcile_state (req : NamespacedName) (ct : TestClusterTopology) : io (Result * option error) :=
  match TopologyStatus_State (Topology_Status ct) with
  | ClusterTopologyStateNone =>
      err ← status_update KTestClusterTopology (set_state ClusterTopologyStatePending ct);
      mret (noRequeue, err)
  | ClusterTopologyStatePending => reconcilePending req ct
  | ClusterTopologyStateReady => reconcileReady req ct
  | ClusterTopologyStateUpdating => reconcileUpdating req ct
  | ClusterTopologyStateOther _ => mret (noRequeue, None)
  end.

(** A deleted topology: the cluster goes, then the finalizer, which is the object's name. *)
Definition reconcileDeletion (finalizerName : string) (ct : TestClusterTopology) : io (Result * option error) :=
  let finalizers := ObjectMeta_Finalizers (Topology_ObjectMeta ct) in
  check (if Slice.StringsContains finalizers finalizerName then deleteTopology ct else mret None)
    orelse err => mret (noRequeue, Some err) in
  finalizers ← lift (Slice.StringsRemove finalizers finalizerName);
  err ← update KTestClusterTopology
    (ct <| Topology_ObjectMeta ::= fun m => m <| ObjectMeta_Finalizers := finalizers |> |>);
  mret (noRequeue, err).

Definition Reconcile (req : NamespacedName) : io (Result * option error) :=
  let? ct := get KTestClusterTopology req orelse err => mret (noRequeue, IgnoreNotFound err) in
  let finalizerName := NamespacedName_Name req in
  let meta := Topology_ObjectMeta ct in
  if DeletionTimestamp_IsZero meta then
    if negb (Slice.StringsContains (ObjectMeta_Finalizers meta) finalizerName) then
      let? ct := (ask (Update KTestClusterTopology
          (ct <| Topology_ObjectMeta ::= fun m =>
             m <| ObjectMeta_Finalizers := ObjectMeta_Finalizers m ++ [finalizerName] |> |>)) : io (error + TestClusterTopology))
        orelse err => mret (noRequeue, Some err) in
      reconcile_state req ct
    else reconcile_state req ct
  else reconcileDeletion finalizerName ct.

End TopologyCtl.
End TopologyCtl.
