(* ===== verification/WorkloadCtl.v ===== *)
(** * The workload reconciler: running workloads on claimed resources

    controllers/testworkload_controller.go and api/v1/testworkload_webhook.go. A workload waits
    for its clusters, claims the resources its items run on and gives them their containers,
    follows their phases, and on deletion has them destroyed. *)

From S2P Require Import Prelude GoStd Util ApiTypes TopologyTypes Prog World Machine Resource Docker.
From S2P Require Import TiupSpec TiupCtl TopologyCtl.
Import TopologyEnvs.

(** github.com/docker/distribution's [reference.Parse] is not code of the repository: the
    error it answers, if any. *)
Class ImageReferences := { reference_Parse : string -> option error }.

Module WorkloadCtl.
Section WorkloadCtl.
Context {Y : Yaml} {D : Defaults Y}.

Definition testWorkloadFinalizer : string := "testworkload.naglfar.pingcap.com".
Definition NaglfarClusterNs : string := "NAGLFAR_CLUSTER_NS".
Definition NaglfarTestResourceRequestName : string := "NAGLFAR_TEST_RESOURCE_REQUEST_NAME".
Definition NaglfarTestWorkloadName : string := "NAGLFAR_TESTWORKLOAD_NAME".
Definition NaglfarTestWorkloadItem : string := "NAGLFAR_TESTWORKLOAD_WORKLOAD_ITEM".

Definition self_ref (w : TestWorkload) : Ref := CreateRef (TestWorkload_ObjectMeta w).
Definition namespace_of (w : TestWorkload) : string := ObjectMeta_Namespace (TestWorkload_ObjectMeta w).
Definition items_of (w : TestWorkload) : list TestWorkloadItemSpec :=
  TestWorkloadSpec_Workloads (TestWorkload_Spec w).

Definition requeue5 : Result * option error := (after (5 * time.Second), None).

(** ** Preparing *)

(** The topologies named, in the order the set of their names is ranged over; [inr] with false
    when one of them is not ready. *)
Fixpoint checkTopologies (ns : string) (names : list string) (topologies : list TestClusterTopology)
    : io (error + (list TestClusterTopology * bool)) :=
  match names with
  | [] => mret (inr (topologies, true))
  | name :: l =>
      let? topology := get KTestClusterTopology (mkNamespacedName ns name) orelse err => mret (inl err) in
      if negb (bool_decide (TopologyStatus_State (Topology_Status topology) = ClusterTopologyStateReady))
      then mret (inr ([], false))
      else checkTopologies ns l (topologies ++ [topology])
  end.

(** The set of keys is a map of names, all in the workload's namespace. *)
Definition checkTopologiesReady (ns : string) (clusterTopologies : gmap string unit)
    : io (error + (list TestClusterTopology * bool)) :=
  names ← range_keys clusterTopologies;
  checkTopologies ns names [].

Definition topology_set (w : TestWorkload) : gmap string unit :=
  fold_left (fun m r => <[ClusterTopologyRef_Name r := tt]> m)
    (TestWorkloadSpec_ClusterTopologiesRefs (TestWorkload_Spec w)) ∅.

(** The node of an item, once its request is found; a node that is not found is an empty one,
    beside the error. *)
Definition getWorkloadRequestNode (ns : string) (workloadSpec : option ContainerSpec)
    : io (option TestResource * option error) :=
  c ← lift (deref workloadSpec);
  let? _ := get KTestResourceRequest (mkNamespacedName ns (ResourceRequestRef_Name (Workload_ResourceRequest c)))
    orelse err => mret (None, Some err) in
  r ← get KTestResource (mkNamespacedName ns (ResourceRequestRef_Node (Workload_ResourceRequest c)));
  match r with
  | inl err => mret (Some zeroTestResource, Some err)
  | inr node => mret (Some node, None)
  end.

Definition env (name value : string) : string := name +:+ "=" +:+ value.

(** The container of an item, on the status of its node. *)
Definition setContainerSpec (testWorkload : TestWorkload) (item : TestWorkloadItemSpec) (c : ContainerSpec)
    : ResourceContainerSpec -> ResourceContainerSpec := fun s =>
  let envs :=
    [env NaglfarClusterNs (namespace_of testWorkload);
     env NaglfarTestResourceRequestName (ResourceRequestRef_Name (Workload_ResourceRequest c));
     env NaglfarTestWorkloadName (ObjectMeta_Name (TestWorkload_ObjectMeta testWorkload));
     env NaglfarTestWorkloadItem (TestWorkloadItemSpec_Name item)]
    ++ ((fun r => env (ClusterTopologyRef_AliasName r) (ClusterTopologyRef_Name r))
          <$> TestWorkloadSpec_ClusterTopologiesRefs (TestWorkload_Spec testWorkload)) in
  s <| ContainerSpec_Image := Workload_Image c |>
    <| ContainerSpec_ImagePullPolicy := Workload_ImagePullPolicy c |>
    <| ContainerSpec_Command := Workload_Command c |>
    <| ContainerSpec_Envs := envs |>.

(** The first topology of a reference's name. *)
Definition topology_named (topologies : list TestClusterTopology) (name : string) : option TestClusterTopology :=
  head (filterb (fun t => String.eqb (Topology_Name t) name) topologies).

Fixpoint buildTopologyEnvs (refs : list ClusterTopologyRef) (topologies : list TestClusterTopology)
    (resources : list TestResource) (envs : list string) : goerr (list string) :=
  match refs with
  | [] => Ret (inr envs)
  | topoRef :: l =>
      match topology_named topologies (ClusterTopologyRef_Name topoRef) with
      | None => buildTopologyEnvs l topologies resources envs
      | Some topo =>
          let prefix := if String.eqb (ClusterTopologyRef_AliasName topoRef) ""
                        then ClusterTopologyRef_Name topoRef else ClusterTopologyRef_AliasName topoRef in
          let? es := BuildInjectEnvs topo resources orelse err => Ret (inl err) in
          buildTopologyEnvs l topologies resources (envs ++ ((fun e => prefix +:+ "_" +:+ e) <$> es))
      end
  end.

Definition warn (reason : string) (err : error) : io (Result * option error) :=
  record_event "Warning" reason (Error err);; mret (noRequeue, Some err).

Definition ResourceState_text (s : ResourceState) : string :=
  match s with
  | ResourceStateNone => "" | ResourcePending => "pending" | ResourceUninitialized => "uninitialized"
  | ResourceReady => "ready" | ResourceFinish => "finish" | ResourceDestroy => "destroy"
  | ResourceStateOther s => s
  end.

(** The claim on a free node: its container, and the claim itself. *)
Definition claim (workload : TestWorkload) (item : TestWorkloadItemSpec) (c : ContainerSpec)
    (envs : list string) (node : TestResource) : TestResource :=
  node <| TestResource_Status ::= fun s =>
    s <| TestResourceStatus_ClaimRef := Some (self_ref workload) |>
      <| TestResourceStatus_Container ::= fun k =>
           setContainerSpec workload item c k <| ContainerSpec_Envs ::= fun e => e ++ envs |> |> |>.

(** One item of a pending workload, its node read: the count of the installed ones, or the
    return. *)
Definition install_item (workload : TestWorkload) (topologies : list TestClusterTopology)
    (resources : list TestResource) (installedCount : Z) (item : TestWorkloadItemSpec) (c : ContainerSpec)
    (workloadNode : TestResource) : io (Z + (Result * option error)) :=
  let self := self_ref workload in
  let ret (r : io (Result * option error)) : io (Z + (Result * option error)) := x ← r; mret (inr x) in
  match TestResource_State workloadNode with
  | ResourceDestroy => mret (inr (after time.Second, None))
  | ResourcePending => Crash "there's a bug, it shouldn't see the `pending` state"
  | ResourceUninitialized =>
      if String.eqb (TestResource_Image workloadNode) "" then
        let? envs := lift (buildTopologyEnvs (TestWorkloadSpec_ClusterTopologiesRefs (TestWorkload_Spec workload))
                             topologies resources [])
          orelse err => ret (warn "Precondition" err) in
        check status_update KTestResource (claim workload item c envs workloadNode)
          orelse err => mret (inr (noRequeue, Some err)) in
        record_event "Normal" "Install" ("preparing the workload: " +:+ TestWorkloadItemSpec_Name item);;
        mret (inl installedCount)
      else if negb (String.eqb (TestResource_Image workloadNode) (Workload_Image c)) then
        ret (warn "Precondition" (Errorf ("resource " +:+ TestResource_Name workloadNode
                                            +:+ " has installed a conflict image")))
      else mret (inl installedCount)
  | ResourceReady | ResourceFinish =>
      if negb (bool_decide (TestResourceStatus_ClaimRef (TestResource_Status workloadNode) = Some self)) then
        ret (warn "Precondition" (Errorf ("resource " +:+ TestResource_Name workloadNode
                                            +:+ " is used by others now, wait")))
      else mret (inl (installedCount + 1))
  | ResourceStateNone | ResourceStateOther _ =>
      Crash ("there's a bug, forget to process the `"
               +:+ ResourceState_text (TestResource_State workloadNode) +:+ "` state")
  end.

(** The loop of [reconcilePending]. That a node is nil without an error does not happen. *)
Definition pending_item (workload : TestWorkload) (topologies : list TestClusterTopology)
    (resources : list TestResource) (installedCount : Z) (item : TestWorkloadItemSpec)
    : io (Z + (Result * option error)) :=
  '(node, err) ← getWorkloadRequestNode (namespace_of workload) (TestWorkloadItemSpec_DockerContainer item);
  match (err : option error) with
  | Some err => mret (inr (noRequeue, Some err))
  | None =>
  c ← lift (deref (TestWorkloadItemSpec_DockerContainer item));
  match (node : option TestResource) with
  | None => r ← warn "Precondition" (Errorf ("cannot find the resource "
              +:+ ResourceRequestRef_Name (Workload_ResourceRequest c))); mret (inr r)
  | Some workloadNode =>
      match TestResourceStatus_ClaimRef (TestResource_Status workloadNode) with
      | Some owner =>
          if negb (bool_decide (owner = self_ref workload)) then
            record_event "Warning" "Precondition" ("node " +:+ Key (CreateRef (TestResource_ObjectMeta workloadNode))
              +:+ " is occupied by " +:+ Key owner);;
            mret (inr requeue5)
          else install_item workload topologies resources installedCount item c workloadNode
      | None => install_item workload topologies resources installedCount item c workloadNode
      end
  end
  end.

Definition with_status (f : TestWorkloadStatus -> TestWorkloadStatus) (w : TestWorkload) : TestWorkload :=
  w <| TestWorkload_Status ::= f |>.
Definition set_state (state : TestWorkloadState) : TestWorkload -> TestWorkload :=
  with_status (fun s => s <| TestWorkloadStatus_State := state |>).

Definition reconcilePending (workload : TestWorkload) : io (Result * option error) :=
  let? (topologies, allReady) := checkTopologiesReady (namespace_of workload) (topology_set workload)
    orelse err => mret (noRequeue, Some err) in
  if negb (allReady : bool) then
    record_event "Warning" "Precondition" "not all clusters are ready";; mret requeue5
  else
    '(err, resources) ← list_objs KTestResource (Some (namespace_of workload)) None;
    match (err : option error) with
    | Some err => mret (noRequeue, Some err)
    | None =>
        r ← for_each (pending_item workload topologies resources) (items_of workload) 0;
        match r with
        | inr result => mret result
        | inl installedCount =>
            if installedCount =? len (items_of workload) then
              check status_update KTestWorkload (set_state TestWorkloadStateRunning workload)
                orelse err => mret (noRequeue, Some err) in
              record_event "Normal" "Install" "all workload has been installed";;
              mret (noRequeue, None)
            else mret requeue5
        end
    end.

(** ** Running *)

(** The loop's state: the recorded phases, and the counts of the changed, succeeded and failed. *)
Record progress := mkProgress {
  recorded : gomap WorkloadStatus;
  changed : Z;
  succeeded : Z;
  failures : Z;
}.

(** What is recorded of an item whose node has the phase: a first sight counts as a change, and
    so does another phase than the one recorded. *)
Definition record_phase (name : string) (phase : ResourcePhase) (p : progress) : go progress :=
  let status := Some (go_map (recorded p)) in (* made when nil *)
  first ← (if bool_decide (is_Some (go_lookup status name)) then Ret (status, changed p)
           else status ← go_assign status name (mkWorkloadStatus ResourcePhasePending); Ret (status, changed p + 1));
  let '(status, changed) := first in
  let old := default ResourcePhaseNone (WorkloadStatus_Phase <$> go_lookup status name) in
  second ← (if bool_decide (old = phase) then Ret (status, changed)
            else status ← go_assign status name (mkWorkloadStatus phase); Ret (status, changed + 1));
  let '(status, changed) := second in
  Ret (mkProgress status changed
    (if bool_decide (phase = ResourcePhaseSucceeded) then succeeded p + 1 else succeeded p)
    (if bool_decide (phase = ResourcePhaseFailed) then failures p + 1 else failures p)).

Definition running_item (workload : TestWorkload) (p : progress) (item : TestWorkloadItemSpec)
    : io (progress + (Result * option error)) :=
  '(node, err) ← getWorkloadRequestNode (namespace_of workload) (TestWorkloadItemSpec_DockerContainer item);
  match (err : option error) with
  | Some err => mret (inr (noRequeue, Some err))
  | None =>
  c ← lift (deref (TestWorkloadItemSpec_DockerContainer item));
  match (node : option TestResource) with
  | None => r ← warn "Inspect" (Errorf ("cannot find the resource "
              +:+ ResourceRequestRef_Name (Workload_ResourceRequest c))); mret (inr r)
  | Some workloadNode =>
      match TestResource_State workloadNode with
      | ResourcePending | ResourceDestroy =>
          Crash ("there's a bug, it shouldn't see the `"
                   +:+ ResourceState_text (TestResource_State workloadNode) +:+ "` state")
      | ResourceUninitialized | ResourceReady | ResourceFinish =>
          let name := TestWorkloadItemSpec_Name item in
          let phase := TestResourceStatus_Phase (TestResource_Status workloadNode) in
          p ← lift (record_phase name phase p);
          (if bool_decide (phase = ResourcePhaseSucceeded)
           then record_event "Normal" "Workload" ("workload " +:+ name +:+ " succeeded")
           else if bool_decide (phase = ResourcePhaseFailed)
           then record_event "Warning" "Workload" ("workload " +:+ name +:+ " failed")
           else mret tt);;
          mret (inl p)
      | ResourceStateNone | ResourceStateOther _ =>
          Crash ("it's a bug, we forget to process the `"
                   +:+ ResourceState_text (TestResource_State workloadNode) +:+ "` state")
      end
  end
  end.

(** The state the counts give. *)
Definition outcome (total : Z) (p : progress) (state : TestWorkloadState) : TestWorkloadState :=
  if succeeded p =? total then TestWorkloadStateSucceeded
  else if succeeded p + failures p =? total then TestWorkloadStateFailed
  else state.

Definition reconcileRunning (workload : TestWorkload) : io (Result * option error) :=
  let status := TestWorkload_Status workload in
  r ← for_each (running_item workload) (items_of workload)
        (mkProgress (TestWorkloadStatus_WorkloadStatus status) 0 0 0);
  match r with
  | inr result => mret result
  | inl p =>
      if negb (changed p =? 0) then
        let total := len (items_of workload) in
        (if (succeeded p =? total) || (succeeded p + failures p =? total)
         then record_event "Normal" "Finish" "all workloads finished" else mret tt);;
        err ← status_update KTestWorkload (with_status (fun s =>
          s <| TestWorkloadStatus_WorkloadStatus := recorded p |>
            <| TestWorkloadStatus_State ::= outcome total p |>) workload);
        mret (after (5 * time.Second), err)
      else mret requeue5
  end.

Definition reconcileFinish (workload : TestWorkload) : io (Result * option error) := mret (noRequeue, None).

(** ** Deleting *)

(** One item: the error tested after the update is the one of the reads, which is nil or a
    not-found error, not the update's. *)
Definition uninstall_item (workload : TestWorkload) (st : unit) (item : TestWorkloadItemSpec)
    : io (unit + option error) :=
  '(node, err) ← getWorkloadRequestNode (namespace_of workload) (TestWorkloadItemSpec_DockerContainer item);
  match (err : option error) ≫= IgnoreNotFound with
  | Some _ => mret (inr err)
  | None =>
      match (node : option TestResource) with
      | None => mret (inl tt)
      | Some workloadNode =>
          if CouldUninstall (TestResource_State workloadNode) then
            _ ← status_update KTestResource (workloadNode <| TestResource_Status ::= fun s =>
              s <| TestResourceStatus_State := ResourceDestroy |> <| TestResourceStatus_ClaimRef := None |> |>);
            match err with
            | Some err => mret (inr (Some err))
            | None => mret (inl tt)
            end
          else mret (inl tt)
      end
  end.

Definition uninstallWorkload (workload : TestWorkload) : io (option error) :=
  r ← for_each (uninstall_item workload) (items_of workload) tt;
  match r with
  | inl _ => mret None
  | inr err => mret err
  end.

Definition reconcileDeletion (workload : TestWorkload) : io (Result * option error) :=
  let finalizers := ObjectMeta_Finalizers (TestWorkload_ObjectMeta workload) in
  check (if Slice.StringsContains finalizers testWorkloadFinalizer then uninstallWorkload workload else mret None)
    orelse err => mret (noRequeue, Some err) in
  finalizers ← lift (Slice.StringsRemove finalizers testWorkloadFinalizer);
  err ← update KTestWorkload
    (workload <| TestWorkload_ObjectMeta ::= fun m => m <| ObjectMeta_Finalizers := finalizers |> |>);
  mret (noRequeue, err).

(** ** Reconcile *)

Definition reconcile_state (workload : TestWorkload) : io (Result * option error) :=
  match TestWorkloadStatus_State (TestWorkload_Status workload) with
  | TestWorkloadStateNone =>
      err ← status_update KTestWorkload (with_status (fun s =>
        s <| TestWorkloadStatus_State := TestWorkloadStatePending |>
          <| TestWorkloadStatus_WorkloadStatus := Some ∅ |>) workload);
      mret (noRequeue, err)
  | TestWorkloadStatePending => reconcilePending workload
  | TestWorkloadStateRunning => reconcileRunning workload
  | TestWorkloadStateSucceeded | TestWorkloadStateFailed => reconcileFinish workload
  | TestWorkloadStateOther _ => mret (noRequeue, None)
  end.

Definition Reconcile (req : NamespacedName) : io (Result * option error) :=
  let? workload := get KTestWorkload req orelse err => mret (noRequeue, IgnoreNotFound err) in
  let meta := TestWorkload_ObjectMeta workload in
  if DeletionTimestamp_IsZero meta then
    if negb (Slice.StringsContains (ObjectMeta_Finalizers meta) testWorkloadFinalizer) then
      let? workload := (ask (Update KTestWorkload
          (workload <| TestWorkload_ObjectMeta ::= fun m =>
             m <| ObjectMeta_Finalizers := ObjectMeta_Finalizers m ++ [testWorkloadFinalizer] |> |>))
          : io (error + TestWorkload))
        orelse err => mret (noRequeue, Some err) in
      reconcile_state workload
    else reconcile_state workload
  else reconcileDeletion workload.

End WorkloadCtl.

(** ** testworkload_webhook.go *)

Section webhook.
Context {I : ImageReferences}.

Definition validateImage (image : string) : option error := reference_Parse image.

Fixpoint validate_items (items : list TestWorkloadItemSpec) : go (option error) :=
  match items with
  | [] => Ret None
  | workload :: l =>
      c ← deref (TestWorkloadItemSpec_DockerContainer workload);
      match validateImage (Workload_Image c) with
      | Some err => Ret (Some (Errorf ("validate image " +:+ Workload_Image c +:+ " error: " +:+ Error err)))
      | None => validate_items l
      end
  end.
Definition validateWorkload (r : TestWorkload) : go (option error) := validate_items (items_of r).

Definition ValidateCreate (r : TestWorkload) : go (option error) :=
  err ← validateWorkload r;
  match err with
  | Some err => Ret (Some (Errorf ("validate workload error: " +:+ Error err)))
  | None => Ret None
  end.

Definition ValidateUpdate (r old : TestWorkload) : option error := None.

End webhook.
End WorkloadCtl.
