(* ===== verification/Client.v ===== *)
(** * The client library and the kubectl plugin

    src/client: what a test workload calls from inside its container, with the names it finds in
    its environment. src/pkg/kubeutil and src/pkg/cmd: the command that shows a workload's logs.
    A command line's parsing is cobra's; what the commands do once parsed is here. *)

From S2P Require Import Prelude GoStd Util ApiTypes TopologyTypes Prog World Machine Resource Docker.
From S2P Require Import TiupSpec WorkloadCtl.

(** ** pkg/kubeutil *)

Module kubeutil.

Definition AllNamespace : string := "".

(** The flags are pointers to what the command line set. *)
Definition GetNamespaceFromKubernetesFlags (Namespace : option string) (AllNamespaces : option bool) : string :=
  let namespace :=
    match Namespace with
    | Some ns => if negb (String.eqb ns "") then ns else "default"
    | None => "default"
    end in
  match AllNamespaces with
  | Some true => AllNamespace
  | _ => namespace
  end.

(** [f] runs on the variables it captures and leaves them changed, beside its error. The loop
    counts from [i]; [fuel] is what is left of it, and never runs out ([Retry_unfold]). *)
Section Retry.
Context {S : Type} (attempts sleep : Z) (f : S -> io (S * option error)).

Definition retry_failed (err : error) : error :=
  Errorf ("after " +:+ strconv.Itoa attempts +:+ " attempts, last error: " +:+ Error err).

Fixpoint Retry_loop (fuel : nat) (i : Z) (s : S) : io (S * option error) :=
  '(s, err) ← f s;
  match (err : option error) with
  | None => mret (s, None)
  | Some err =>
      if attempts - 1 <=? i then mret (s, Some (retry_failed err))
      else
        match fuel with
        | O => Crash out_of_fuel
        | Datatypes.S fuel => ask (Sleep sleep);; Retry_loop fuel (i + 1) s
        end
  end.

Definition Retry (s : S) : io (S * option error) := Retry_loop (Z.to_nat (attempts - 1)) 0 s.
End Retry.

(** A read that is retried: the object is left alone by a read that fails. *)
Definition retried_get (k : kind) (key : NamespacedName) (o : obj k) : io (obj k * option error) :=
  Retry 3 time.Second (fun o : obj k =>
    r ← get k key;
    mret (match r with inl err => (o, Some err) | inr o' => (o', None) end)) o.
End kubeutil.

(** ** src/client *)

Module client.
Section client.
Context {Y : Yaml} {D : Defaults Y}.

(** The package's variables, set when it is initialised. *)
Record Names := mkNames {
  namespace : string;
  requestName : string;
  testWorkloadName : string;
  workloadItemName : string;
}.

Definition init : io Names :=
  namespace ← ask (Getenv WorkloadCtl.NaglfarClusterNs);
  requestName ← ask (Getenv WorkloadCtl.NaglfarTestResourceRequestName);
  testWorkloadName ← ask (Getenv WorkloadCtl.NaglfarTestWorkloadName);
  workloadItemName ← ask (Getenv WorkloadCtl.NaglfarTestWorkloadItem);
  mret (mkNames namespace requestName testWorkloadName workloadItemName).

(** Whether a client was made, and the error: that the second step fails is not an error. *)
Definition NewClient (kubeconfig : string) : io (bool * option error) :=
  check ask (BuildConfigFromFlags "" kubeconfig) orelse err => mret (false, Some err) in
  check ask ClientNew orelse err => mret (false, None) in
  mret (true, None).

Section methods.
Context (n : Names).

Definition named (name : string) : ObjectMeta :=
  zeroMeta <| ObjectMeta_Namespace := namespace n |> <| ObjectMeta_Name := name |>.
Definition key_of (m : ObjectMeta) : NamespacedName :=
  mkNamespacedName (ObjectMeta_Namespace m) (ObjectMeta_Name m).

Definition getTestResources : io (list TestResource * option error) :=
  '(resourceList, err) ← kubeutil.Retry 3 time.Second (fun l : list TestResource =>
      '(err, l') ← list_objs KTestResource (Some (namespace n)) None;
      mret (match (err : option error) with Some err => (l, Some err) | None => (l', None) end)) [];
  mret (match (err : option error) with Some err => ([], Some err) | None => (resourceList, None) end).

Definition getClusterTopology (clusterName : string) (ct : TestClusterTopology)
    : io (TestClusterTopology * option error) :=
  let ct := ct <| Topology_ObjectMeta := named clusterName |> in
  kubeutil.retried_get KTestClusterTopology (key_of (Topology_ObjectMeta ct)) ct.

(** An environment variable of the cluster's alias names the cluster itself. The specification
    returned beside the error of its construction is not modelled. *)
Definition GetTiDBClusterTopology (clusterName : string) (zero : TestClusterTopology)
    : io (option tiupSpec.Specification * option error) :=
  originCluster ← (ask (Getenv clusterName) : io string);
  let originCluster := if String.eqb originCluster "" then clusterName else originCluster in
  '(topology, err) ← getClusterTopology originCluster zero;
  match err with
  | Some err => mret (None, Some err)
  | None =>
  match Topology_TiDBCluster (Topology_Spec topology) with
  | None => Crash ("incorrect cluster topology used, please check the cluster: " +:+ clusterName
                     +:+ ", " +:+ originCluster)
  | Some _ =>
  '(resources, err) ← getTestResources;
  match (err : option error) with
  | Some err => mret (None, Some err)
  | None =>
      r ← lift (cluster.BuildSpecification (Topology_Spec topology) resources false []);
      mret (match r with inl err => (None, Some err) | inr (spec, _) => (Some spec, None) end)
  end
  end
  end.

Definition getTestWorkload (workload : TestWorkload) : io (TestWorkload * option error) :=
  let workload := workload <| TestWorkload_ObjectMeta := named (testWorkloadName n) |> in
  kubeutil.retried_get KTestWorkload (key_of (TestWorkload_ObjectMeta workload)) workload.

(** A created object is replaced by the server's. *)
Definition CreateProcChaos (chaosName : string) (tasks : list ProcChaosTask) : io (option error) :=
  '(_, err) ← kubeutil.Retry 3 time.Second (fun procChaos : ProcChaos =>
      r ← ask (Create KProcChaos procChaos);
      mret (match r with inl err => (procChaos, Some err) | inr o => (o, None) end))
    (mkProcChaos (named chaosName) (requestName n) tasks []);
  mret err.

Definition DeleteProcChaos (chaosName : string) : io (option error) :=
  '(_, err) ← kubeutil.Retry 3 time.Second (fun procChaos : ProcChaos =>
      err ← ask (Delete KProcChaos procChaos); mret (procChaos, err))
    (mkProcChaos (named chaosName) "" [] []);
  mret err.

(** The result of an item, set in a map that is made when there is none. *)
Definition with_result (text : string) (w : TestWorkload) : TestWorkload :=
  w <| TestWorkload_Status ::= fun s =>
    s <| TestWorkloadStatus_Results ::= fun r => Some (<[workloadItemName n := text]> (go_map r)) |> |>.

(** The workload is read once, before the attempts to store its status. *)
Definition SetTestWorkloadResult (text : string) : io (option error) :=
  let? testWorkload := get KTestWorkload (mkNamespacedName (namespace n) (testWorkloadName n))
    orelse err => mret (Some err) in
  '(_, err) ← kubeutil.Retry 3 (1 * time.Second) (fun testWorkload : TestWorkload =>
      let testWorkload := with_result text testWorkload in
      r ← ask (StatusUpdate KTestWorkload testWorkload);
      mret (match r with inl err => (testWorkload, Some err) | inr o => (o, None) end))
    testWorkload;
  mret err.
End methods.
End client.
End client.

(** ** pkg/cmd *)

Module cmd.

(** What a [NaglfarClient] reads. *)
Definition GetResource (ns name : string) : io (TestResource * option error) :=
  kubeutil.retried_get KTestResource (mkNamespacedName ns name)
    (zeroTestResource <| TestResource_ObjectMeta := zeroMeta <| ObjectMeta_Namespace := ns |>
                                                             <| ObjectMeta_Name := name |> |>).

Definition GetMachine (name : string) : io (Machine * option error) :=
  kubeutil.retried_get KMachine (mkNamespacedName "default" name)
    (zeroMachine <| Machine_ObjectMeta := zeroMeta <| ObjectMeta_Namespace := "default" |>
                                                   <| ObjectMeta_Name := name |> |>).

Definition GetMachineByHostIP (hostIP : string) : io (error + Machine) :=
  '(err, items) ← list_objs KMachine (Some "default") None;
  match (err : option error) with
  | Some err => mret (inl err)
  | None =>
      match filterb (fun item => String.eqb (MachineSpec_Host (Machine_Spec item)) hostIP) items with
      | item :: _ => mret (inr item)
      | [] => mret (inl (Errorf ("machine host ip not found: " +:+ hostIP)))
      end
  end.

(** [for _, item := range items { if item.Name == name { targetItem = &item } }]: Go declares
    the loop's variable once, so the pointer is to the one variable, whose last value is the last
    item. The state is that variable and whether [targetItem] points to it. *)
Definition find_target (items : list TestWorkloadItemSpec) (name : string) : option TestWorkloadItemSpec :=
  let '(item, target) :=
    fold_left (fun '(item, target) i => (Some i, target || String.eqb (TestWorkloadItemSpec_Name i) name))
      items (None, false) in
  if target : bool then item else None.

(** The name given, or the name of the only item. *)
Definition item_name (tw : TestWorkload) (workloadItemName : string) : string :=
  match TestWorkloadSpec_Workloads (TestWorkload_Spec tw) with
  | [item] => if String.eqb workloadItemName "" then TestWorkloadItemSpec_Name item else workloadItemName
  | _ => workloadItemName
  end.

Definition nil_dereference : string := "runtime error: invalid memory address or nil pointer dereference".

(** The error of [docker.NewClient] is overwritten before it is looked at, and the client used
    although it is nil; what is read of the logs is written to the command's streams. *)
Definition logTestWorkload (workloadItemName : string) (follow : bool) (tw : TestWorkload) : io (option error) :=
  let meta := TestWorkload_ObjectMeta tw in
  if bool_decide (TestWorkloadStatus_State (TestWorkload_Status tw) = TestWorkloadStatePending) then
    mret (Some (Errorf ("workload " +:+ ObjectMeta_Namespace meta +:+ "/" +:+ ObjectMeta_Name meta
                          +:+ " is pending, please wait it to run")))
  else
    let workloadItemName := item_name tw workloadItemName in
    match find_target (TestWorkloadSpec_Workloads (TestWorkload_Spec tw)) workloadItemName with
    | None => mret (Some (Errorf ("there exist no item named " +:+ workloadItemName)))
    | Some targetItem =>
        c ← lift (deref (TestWorkloadItemSpec_DockerContainer targetItem));
        '(node, err) ← GetResource (ObjectMeta_Namespace meta) (ResourceRequestRef_Node (Workload_ResourceRequest c));
        match (err : option error) with
        | Some err => mret (Some err)
        | None =>
        let? machine := GetMachineByHostIP (TestResourceStatus_HostIP (TestResource_Status node))
          orelse err => mret (Some err) in
        r ← ask (DockerNewClient (Machine.DockerURL machine) (MachineSpec_DockerVersion (Machine_Spec machine)));
        match (r : error + DockerClient) with
        | inl err => Crash nil_dereference
        | inr dockerClient =>
            check ask (ContainerLogs dockerClient (ObjectMeta_Namespace meta +:+ "." +:+ TestResource_Name node)
                         (mkLogsOptions true true follow))
              orelse err => mret (Some err) in
            '(_, _, err) ← (ask (StdCopy dockerClient) : io (string * string * option error));
            mret err
        end
        end
    end.

(** The command: the clients it makes first, and what it runs. *)
Definition PersistentPreRunE : io (option error) :=
  check ask ToRESTConfig orelse err => mret (Some err) in
  check ask NewForConfig orelse err => mret (Some err) in
  check ask ClientNew orelse err => mret (Some err) in
  mret None.

Definition RunE (namespace workloadItemName : string) (follow : bool) (args : list string) (zero : TestWorkload)
    : io (option error) :=
  match args with
  | [] => mret (Some (Errorf "should set the test workload name"))
  | twName :: _ =>
      let tw := zero <| TestWorkload_ObjectMeta := zeroMeta <| ObjectMeta_Namespace := namespace |>
                                                            <| ObjectMeta_Name := twName |> |> in
      '(tw, err) ← kubeutil.retried_get KTestWorkload (mkNamespacedName namespace twName) tw;
      match (err : option error) with
      | Some err => mret (Some err)
      | None => logTestWorkload workloadItemName follow tw
      end
  end.
End cmd.
