(* ===== verification/ClientTheorems.v ===== *)
(** * The client library and the kubectl plugin: what they do

    The executions of a retried request, exactly, and what the two commands built on it send and
    read. *)

From S2P Require Import Prelude GoStd Util ApiTypes TopologyTypes Prog World Machine Resource Docker.
From S2P Require Import Client.

(** ** Retrying *)

Section retry.
Context {S : Type} (attempts sleep : Z) (c : call) (g : S -> answer c -> S * option error).

(** The calls of a retried request, the latest first: a pause before each but the first. *)
Fixpoint tries (xs : list (answer c)) : history :=
  match xs with
  | [] => []
  | [x] => [Event c x]
  | x :: l => Event c x :: Event (Sleep sleep) tt :: tries l
  end.

(** The variables after the answers [xs], the latest first, and the error of the latest. *)
Fixpoint after_tries (s : S) (xs : list (answer c)) : S * option error :=
  match xs with
  | [] => (s, None)
  | x :: l => g (fst (after_tries s l)) x
  end.

(** Every answer but the latest was a failure. *)
Fixpoint all_failed (s : S) (xs : list (answer c)) : Prop :=
  match xs with
  | [] => True
  | x :: l => all_failed s l /\ (l <> [] -> snd (after_tries s l) <> None)
  end.

(** Every try but the latest failed; the latest succeeded, or was the last there is. *)
Definition tried (s : S) (xs : list (answer c)) (r : go (S * option error)) : Prop :=
  xs <> [] /\ all_failed s xs /\ Forall (admissible c) xs /\ len xs <= Z.max 1 attempts /\
  match after_tries s xs with
  | (s', None) => r = Ret (s', None)
  | (s', Some err) => len xs = Z.max 1 attempts /\ r = Ret (s', Some (kubeutil.retry_failed attempts err))
  end.

Abbreviation f := (fun s : S => x ← ask c; mret (g s x)).

(** What has happened before a try. *)
Definition before (xs : list (answer c)) : history :=
  match xs with [] => [] | _ => Event (Sleep sleep) tt :: tries xs end.

Lemma tries_next x xs : tries (x :: xs) = Event c x :: before xs.
Proof. by destruct xs. Qed.

Definition failing (s : S) (xs : list (answer c)) : Prop :=
  all_failed s xs /\ (xs <> [] -> snd (after_tries s xs) <> None) /\ Forall (admissible c) xs.

Lemma all_failed_suffix s ys xs : all_failed s (ys ++ xs) -> all_failed s xs.
Proof. induction ys as [|y ys IH]; [done|]. intros [H _]. by apply IH. Qed.

Lemma failed_inside s ys xs :
  all_failed s (ys ++ xs) -> ys <> [] -> xs <> [] -> snd (after_tries s xs) <> None.
Proof.
  induction ys as [|y ys IH]; intros Hall Hys Hxs; [done|]. destruct ys as [|y' ys]; [by apply Hall|].
  apply IH; [apply Hall|done|done].
Qed.

(** The tries that [xs] is followed by. *)
Definition rest_tried (s : S) (xs : list (answer c)) (h : history) (r : go (S * option error)) : Prop :=
  exists new, new <> [] /\ h = tries (new ++ xs) /\ tried s (new ++ xs) r.

(** One round of the loop. *)
Lemma Retry_loop_round fuel i s H h r :
  exec admissible (kubeutil.Retry_loop attempts sleep f fuel i s) H h r <->
  exists x, admissible c x /\
    match g s x with
    | (s', None) => h = Event c x :: H /\ r = Ret (s', None)
    | (s', Some err) =>
        if attempts - 1 <=? i then
          h = Event c x :: H /\ r = Ret (s', Some (kubeutil.retry_failed attempts err))
        else
          match fuel with
          | O => h = Event c x :: H /\ r = Panic out_of_fuel
          | Datatypes.S n => exec admissible (kubeutil.Retry_loop attempts sleep f n (i + 1) s')
                               (Event (Sleep sleep) tt :: Event c x :: H) h r
          end
    end.
Proof.
  destruct fuel as [|n]; cbn [kubeutil.Retry_loop mbind prog_bind_inst prog_bind ask mret prog_ret_inst exec];
    (split; intros (x & Hx & He); exists x; (split; [done|]); revert He); destruct (g s x) as [s' [err|]];
    try done; destruct (attempts - 1 <=? i); try done; cbn [prog_bind exec ask mbind prog_bind_inst].
  - by intros ([] & _ & He).
  - intros He. by exists tt.
Qed.

Lemma Retry_loop_tried s fuel xs h r :
  fuel = Z.to_nat (attempts - 1 - len xs) -> len xs < Z.max 1 attempts -> failing s xs ->
  exec admissible (kubeutil.Retry_loop attempts sleep f fuel (len xs) (fst (after_tries s xs))) (before xs) h r ->
  rest_tried s xs h r.
Proof.
  revert xs. induction fuel as [|fuel IH]; intros xs Hfuel Hlt (Hall & Hlast & Hadm);
    rewrite Retry_loop_round; intros (x & Hx & He); pose proof (len_nonneg xs) as Hnn.
  all: assert (Hstep : forall res, match g (fst (after_tries s xs)) x with
      | (s', None) => res = Ret (s', None)
      | (s', Some err) => len (x :: xs) = Z.max 1 attempts /\ res = Ret (s', Some (kubeutil.retry_failed attempts err))
      end -> rest_tried s xs (Event c x :: before xs) res).
  1,3: intros res Hres; exists [x]; split; [done|]; split; [by rewrite <-tries_next|];
    split; [done|]; split; [by split|]; split; [by constructor|]; split; [cbn [app]; rewrite len_cons; lia|exact Hres].
  all: destruct (g (fst (after_tries s xs)) x) as [s' [err|]] eqn:Hg; [|destruct He as [-> ->]; by apply Hstep].
  all: destruct (Z.leb_spec (attempts - 1) (len xs)).
  1,3: destruct He as [-> ->]; apply Hstep; split; [rewrite len_cons; lia|done].
  - exfalso. lia.
  - assert (Hs : s' = fst (after_tries s (x :: xs))) by (simpl; by rewrite Hg). rewrite Hs in He.
    replace (len xs + 1) with (len (x :: xs)) in He by (rewrite len_cons; lia).
    replace (Event (Sleep sleep) tt :: Event c x :: before xs) with (before (x :: xs)) in He.
    2:{ unfold before at 1. by rewrite tries_next. }
    apply IH in He as (new & Hnew & -> & Ht).
    + exists (new ++ [x]). rewrite <-app_assoc. split; [by destruct new|done].
    + rewrite len_cons. lia.
    + rewrite len_cons. lia.
    + split; [by split|]. split; [|by constructor]. intros _. simpl. by rewrite Hg.
Qed.

Lemma tried_Retry_loop s fuel xs h r :
  fuel = Z.to_nat (attempts - 1 - len xs) -> len xs < Z.max 1 attempts ->
  rest_tried s xs h r ->
  exec admissible (kubeutil.Retry_loop attempts sleep f fuel (len xs) (fst (after_tries s xs))) (before xs) h r.
Proof.
  revert xs. induction fuel as [|fuel IH]; intros xs Hfuel Hlt (new & Hnew & -> & Ht); rewrite Retry_loop_round;
    destruct (exists_last Hnew) as (new' & x & ->); rewrite <-app_assoc in *; cbn [app] in *; exists x.
  all: pose proof Ht as (Hne & Hall & Hadm & Hlen & Hres); pose proof (len_nonneg xs) as Hnn.
  all: (split; [apply Forall_app in Hadm as [_ Hadm]; by apply Forall_inv in Hadm|]).
  all: destruct (g (fst (after_tries s xs)) x) as [s' err] eqn:Hg.
  all: assert (Hlast : snd (after_tries s (x :: xs)) = err /\ fst (after_tries s (x :: xs)) = s') by (simpl; by rewrite Hg).
  all: destruct (decide (new' = [])) as [->|Hne'].
  1,3: cbn [app] in *; rewrite tries_next; cbn [after_tries] in Hres; rewrite Hg in Hres;
    destruct err as [err|]; [|by subst r].
  1,2: destruct Hres as [Hl ->]; rewrite len_cons in Hl; destruct (Z.leb_spec (attempts - 1) (len xs)); [done|lia].
  all: assert (Hfail : err <> None) by
    (destruct Hlast as [<- _]; eapply (failed_inside s new'); [exact Hall|done|done]).
  all: destruct err as [err|]; [|done].
  all: assert (Hmore : 1 + len (x :: xs) <= Z.max 1 attempts) by
    (rewrite <-Hlen; unfold len; rewrite length_app; destruct new'; [done|]; simpl; lia).
  all: rewrite len_cons in Hmore; destruct (Z.leb_spec (attempts - 1) (len xs)); [lia|].
  - exfalso. lia.
  - replace (Event (Sleep sleep) tt :: Event c x :: before xs) with (before (x :: xs)).
    2:{ unfold before at 1. by rewrite tries_next. }
    replace (len xs + 1) with (len (x :: xs)) by (rewrite len_cons; lia).
    destruct Hlast as [_ <-]. apply IH; [rewrite len_cons; lia|rewrite len_cons; lia|].
    exists new'. done.
Qed.

Lemma Retry_tries s h r :
  exec admissible (kubeutil.Retry attempts sleep f s) [] h r <->
  exists xs, h = tries xs /\ tried s xs r.
Proof.
  assert (Hiff : exec admissible (kubeutil.Retry attempts sleep f s) [] h r <-> rest_tried s [] h r).
  { unfold kubeutil.Retry. split.
    - intros He. apply (Retry_loop_tried s (Z.to_nat (attempts - 1)) []); [f_equal; unfold len; simpl; lia|unfold len; simpl; lia|done|done].
    - intros He. apply (tried_Retry_loop s (Z.to_nat (attempts - 1)) []); [f_equal; unfold len; simpl; lia|unfold len; simpl; lia|done]. }
  rewrite Hiff. split.
  - intros (new & _ & Hh & Ht). rewrite app_nil_r in *. by exists new.
  - intros (xs & Hh & Ht). exists xs. rewrite app_nil_r. split; [apply Ht|done].
Qed.

(** C34. [Retry] of a request: it makes the request at least once and, pausing in between, until
    it succeeds or has failed as often as it is allowed to; it returns nil after a success, and
    the latest error, wrapped, after as many failures. It never runs out of its rounds. *)
Theorem Retry_spec s h r :
  exec admissible (kubeutil.Retry attempts sleep f s) [] h r <->
  exists xs, h = tries xs /\ tried s xs r.
Proof. apply Retry_tries. Qed.
End retry.

(** The loop rule: an invariant of the history and the variables before every try. *)
Lemma wp_Retry {S} (G : history -> call -> Prop) (attempts sleep : Z) (f : S -> io (S * option error))
    (I : history -> S -> Prop) (Q : history -> go (S * option error) -> Prop) h s :
  (forall h, G h (Sleep sleep)) -> I h s ->
  (forall h s, I h s -> wp admissible G (f s) h (fun h' r =>
     match r with
     | Ret (s', None) => Q h' (Ret (s', None))
     | Ret (s', Some err) => Q h' (Ret (s', Some (kubeutil.retry_failed attempts err))) /\
                             I (Event (Sleep sleep) tt :: h') s'
     | Panic e => Q h' (Panic e)
     end)) ->
  wp admissible G (kubeutil.Retry attempts sleep f s) h Q.
Proof.
  intros HG HI Hf. unfold kubeutil.Retry.
  assert (Hloop : forall fuel i h s, fuel = Z.to_nat (attempts - 1 - i) -> I h s ->
    wp admissible G (kubeutil.Retry_loop attempts sleep f fuel i s) h Q).
  { clear HI s h. induction fuel as [|fuel IH]; intros i h s Hfuel HI; cbn [kubeutil.Retry_loop]; apply wp_bind.
    all: eapply wp_mono; [by apply Hf|]; intros h' [[s' [err|]]|e] Hr; [|exact Hr|exact Hr].
    all: destruct Hr as [HQ HI']; destruct (Z.leb_spec (attempts - 1) i); [exact HQ|].
    - exfalso. lia.
    - wp_run. split; [apply HG|]. intros [] _. apply IH; [lia|exact HI']. }
  apply Hloop; [f_equal; lia|exact HI].
Qed.

(** ** What the client library and the command do *)

Lemma with_result_twice n text w :
  client.with_result n text (client.with_result n text w) = client.with_result n text w.
Proof.
  destruct w as [m sp [st ws r]]. unfold client.with_result. simpl. by rewrite insert_insert_eq.
Qed.

(** [SetTestWorkloadResult] reads the workload once, and each of its attempts sends that one
    object, its version included, with the item's result set: what was refused because somebody
    else had changed the workload is sent again as it was. *)
Lemma result_attempts n text :
  safe (fun h c => match c with
      | Get KTestWorkload key =>
          key = mkNamespacedName (client.namespace n) (client.testWorkloadName n) /\ h = []
      | StatusUpdate KTestWorkload o => exists w,
          last_got KTestWorkload h = Some w /\ o = client.with_result n text w
      | Sleep _ => True
      | _ => False
      end) (client.SetTestWorkloadResult n text) (fun _ _ => True).
Proof.
  unfold safe, client.SetTestWorkloadResult, get. wp_run. split; [done|]. intros [err|w] _; [done|].
  apply wp_bind.
  apply (wp_Retry _ _ _ _ (fun h o => last_got KTestWorkload h = Some w /\
    client.with_result n text o = client.with_result n text w)); [done|done|].
  intros h o [Hgot Ho]. wp_run. split; [exists w; by rewrite Ho|]. intros [err|o'] _; [|done].
    split; [done|]. split; [done|]. by rewrite with_result_twice.
Qed.

Lemma find_target_fold items name cell found :
  fold_left (fun '(item, target) i => (Some i, target || String.eqb (TestWorkloadItemSpec_Name i) name))
    items (cell, found) =
  (match list.last items with Some i => Some i | None => cell end,
   found || existsb (fun i => String.eqb (TestWorkloadItemSpec_Name i) name) items).
Proof.
  revert cell found. induction items as [|i l IH]; intros cell found; [by rewrite orb_false_r|].
  cbn [fold_left]. rewrite IH. cbn [existsb]. rewrite orb_assoc. f_equal. destruct l as [|t l]; [done|].
  change (list.last (i :: t :: l)) with (list.last (t :: l)).
  destruct (list.last (t :: l)) eqn:E; [done|]. by apply last_None in E.
Qed.

(** What the loop of the logs command points to: the last item, when any item has the name. *)
Lemma find_target_last items name :
  cmd.find_target items name =
  if existsb (fun i => String.eqb (TestWorkloadItemSpec_Name i) name) items then list.last items else None.
Proof.
  unfold cmd.find_target. rewrite find_target_fold. simpl. destruct (existsb _ _); [|done].
  by destruct (list.last items).
Qed.

(** The logs command reads the logs of a container of the workload's last item, on the
    machine of the host that item's node is on, whichever of the items it was asked for; it
    fails when there is no item of that name. *)
Lemma logs_of_last_item name follow tw :
  let ns := ObjectMeta_Namespace (TestWorkload_ObjectMeta tw) in
  let items := TestWorkloadSpec_Workloads (TestWorkload_Spec tw) in
  safe (fun h c => match c with
      | ContainerLogs d container _ =>
          (exists i, i ∈ items /\ TestWorkloadItemSpec_Name i = cmd.item_name tw name) /\
          exists item c node m, list.last items = Some item /\
            TestWorkloadItemSpec_DockerContainer item = Some c /\
            happened (fun c' => match c' return answer c' -> Prop with
              | Get KTestResource key => fun x => x = inr node /\
                  key = mkNamespacedName ns (ResourceRequestRef_Node (Workload_ResourceRequest c))
              | _ => fun _ => False end) h /\
            container = ns +:+ "." +:+ TestResource_Name node /\
            MachineSpec_Host (Machine_Spec m) = TestResourceStatus_HostIP (TestResource_Status node) /\
            happened (fun c' => match c' return answer c' -> Prop with
              | DockerNewClient url _ => fun x => x = inr d /\ url = Machine.DockerURL m
              | _ => fun _ => False end) h
      | StatusUpdate _ _ | Update _ _ | Create _ _ | Delete _ _ => False
      | _ => True
      end) (cmd.logTestWorkload name follow tw) (fun _ r =>
        r = Ret None -> exists i, i ∈ items /\ TestWorkloadItemSpec_Name i = cmd.item_name tw name).
Proof.
  intros ns items. unfold safe, cmd.logTestWorkload. case_bool_decide; [done|]. cbv zeta.
  rewrite find_target_last. destruct (existsb _ _) eqn:Hex; [|done].
  assert (Hnamed : exists i, i ∈ items /\ TestWorkloadItemSpec_Name i = cmd.item_name tw name).
  { apply existsb_exists in Hex as (i & Hi & Hn). exists i. split; [by apply list_elem_of_In|]. by apply String.eqb_eq. }
  fold items. destruct (list.last items) as [item|] eqn:Hlast; [|done].
  apply wp_bind, wp_lift. destruct (TestWorkloadItemSpec_DockerContainer item) as [c|] eqn:Hc; [|done].
  cbn [deref]. unfold cmd.GetResource. apply wp_bind.
  apply (wp_Retry _ _ _ _ (fun _ _ => True)); [done|done|]. intros h o _. unfold get. wp_run. split; [done|].
  intros [err|node] _; [done|]. unfold cmd.GetMachineByHostIP, list_objs. wp_run. split; [done|].
  intros [[err|] machines] _; [done|]. wp_run.
  match goal with |- context [filterb ?f machines] => destruct (filterb f machines) as [|m l] eqn:Hm end; [done|].
  assert (Hhost : MachineSpec_Host (Machine_Spec m) = TestResourceStatus_HostIP (TestResource_Status node)).
  { apply String.eqb_eq. assert (Hin : m ∈ m :: l) by by left. rewrite <-Hm in Hin.
    by apply elem_of_filterb in Hin as [_ Hin]. }
  wp_run. split; [done|]. intros [err|d] _; [done|]. wp_run. split.
  - split; [exact Hnamed|]. exists item, c, node, m. split; [done|]. split; [done|].
    split; [by do 2 apply happened_later; apply happened_here|]. split; [done|]. split; [exact Hhost|].
    by apply happened_here.
  - intros [err|] _; [done|]. wp_run. split; [done|]. intros [[out serr] err] _ _. exact Hnamed.
Qed.

(** A client that could not be made is returned as nil without an error. *)
Lemma NewClient_nil kubeconfig :
  exists h, exec admissible (client.NewClient kubeconfig) [] h (Ret (false, None)).
Proof.
  eexists. exists None. split; [done|]. exists (Some unavailable). split; [done|]. split; reflexivity.
Qed.
