(* ===== verification/Kubectl.v ===== *)
(** * The kubectl plugin's command line

    src/cmd/kubectl-naglfar/main.go and the constructors of the commands in src/pkg/cmd
    (NewNaglfarCmd, NewLogsCmd). What a command does once it runs is in Client.v; parsing the
    command line and choosing the command are cobra's and pflag's, and so are the flags of
    k8s.io/cli-runtime, which the root command takes over. *)

From S2P Require Import Prelude GoStd Util ApiTypes TopologyTypes Prog World Client.

Module kubectl.

Inductive value := VString (s : string) | VBool (b : bool).
Abbreviation values := (gmap string value).

Record Flag := mkFlag {
  Flag_Name : string;
  Shorthand : string;
  DefValue : value;
}.

(** A cobra command with what the program sets of it. *)
Record Command := mkCommand {
  Use : string;
  Short : string;
  Flags : list Flag;
  PersistentPreRunE : values -> list string -> io (option error);
  RunE : values -> list string -> io (option error);
}.

Record Root := mkRoot {
  root_Use : string;
  root_Short : string;
  PersistentFlags : list Flag;
  Commands : list Command;
}.

Definition string_of (vs : values) (name : string) : string :=
  match vs !! name with Some (VString s) => s | _ => "" end.
Definition bool_of (vs : values) (name : string) : bool :=
  match vs !! name with Some (VBool b) => b | _ => false end.

Section kubectl.
(** The flags of cli-runtime's ConfigFlags, and of its ResourceBuilderFlags with a label selector
    and all-namespaces; [zero] is a workload with nothing set. *)
Context (config_flags builder_flags : list Flag) (zero : TestWorkload).

Definition NewLogsCmd : Command := {|
  Use := "logs";
  Short := "tail logs of a test workload";
  Flags := [mkFlag "workload" "w" (VString ""); mkFlag "follow" "" (VBool false)];
  PersistentPreRunE vs args := cmd.PersistentPreRunE;
  RunE vs args :=
    cmd.RunE (kubeutil.GetNamespaceFromKubernetesFlags (Some (string_of vs "namespace"))
                (Some (bool_of vs "all-namespaces")))
      (string_of vs "workload") (bool_of vs "follow") args zero |}.

Definition NewNaglfarCmd : Root := {|
  root_Use := "kubectl-naglfar";
  root_Short := "It is a kubectl plugin that you can use to manager Naglfar";
  PersistentFlags := config_flags ++ builder_flags;
  Commands := [NewLogsCmd] |}.

(** cobra: what executing a root command with arguments does, and how pflag reads arguments. *)
Class Cobra := {
  Execute : Root -> list string -> io (option error);
  pflag_Parse : list Flag -> list string -> error + (values * list string);
}.

(** Documented behaviour: a command named first whose flags parse is run, its PersistentPreRunE
    before its RunE and the latter only if there was no error (its PersistentPreRun, which is
    set as well, then is not called); and whatever the arguments are, either one command is run
    so, or nothing of the program is but the root's help. *)
Class CobraLaws (C : Cobra) : Prop := {
  execute_command root c vs args rest :
    c ∈ Commands root -> pflag_Parse (Flags c ++ PersistentFlags root) args = inr (vs, rest) ->
    Execute root (Use c :: args) =
      check PersistentPreRunE c vs rest orelse err => mret (Some err) in RunE c vs rest;
  execute_one root args :
    (exists err, Execute root args = Done err) \/
    exists c vs rest, c ∈ Commands root /\
      Execute root args = check PersistentPreRunE c vs rest orelse err => mret (Some err) in RunE c vs rest;
}.

Context {C : Cobra}.

(** main: the exit code. *)
Definition main (args : list string) : io Z :=
  err ← Execute NewNaglfarCmd args;
  mret (match err with Some _ => 1 | None => 0 end).

(** ** The cluster is only talked to through clients that were made *)

Definition made (h : history) : Prop :=
  Event (call := call) ToRESTConfig None ∈ h /\ Event (call := call) NewForConfig None ∈ h /\
  Event (call := call) ClientNew None ∈ h.

Definition clients_first (h : history) (c : call) : Prop :=
  match c with
  | ToRESTConfig => True
  | NewForConfig => Event (call := call) ToRESTConfig None ∈ h
  | ClientNew => Event (call := call) NewForConfig None ∈ h
  | _ => made h
  end.

Lemma made_guard {A} (p : io A) h Q :
  (forall h' r, Q h' r) -> made h -> wp admissible clients_first p h Q.
Proof using.
  intros HQ. revert h. induction p as [a|s|c k IH]; intros h Hm; simpl; [apply HQ..|].
  split; [destruct Hm as (? & ? & ?); by destruct c|]. intros x _. apply IH.
  destruct Hm as (? & ? & ?). split_and!; by right.
Qed.


(** Every call of the plugin to the cluster or a Docker daemon comes after the three clients were
    made without an error, whatever the arguments; without a configuration nothing is done. *)
Lemma kubectl_clients_first `{L : !CobraLaws C} args : safe clients_first (main args) (fun _ _ => True).
Proof using.
  unfold safe, main. apply wp_bind.
  destruct (execute_one NewNaglfarCmd args) as [[err ->]|(c & vs & rest & Hc & ->)]; [by destruct err|].
  apply list_elem_of_singleton in Hc as ->. unfold PersistentPreRunE, NewLogsCmd, cmd.PersistentPreRunE. wp_run.
  split; [done|]. intros [err|] _; wp_run; [done|]. split; [by left|].
  intros [err|] _; wp_run; [done|]. split; [by left|].
  intros [err|] _; wp_run; [done|]. apply made_guard; [by intros h' [?|?]|]. split_and!; set_solver.
Qed.

(** [kubectl naglfar logs NAME]: the exit code is that of the two steps of the command. *)
Lemma kubectl_logs `{L : !CobraLaws C} args vs rest :
  pflag_Parse (Flags NewLogsCmd ++ PersistentFlags NewNaglfarCmd) args = inr (vs, rest) ->
  main ("logs" :: args) =
    err ← (check cmd.PersistentPreRunE orelse err => mret (Some err) in
           cmd.RunE (kubeutil.GetNamespaceFromKubernetesFlags (Some (string_of vs "namespace"))
                       (Some (bool_of vs "all-namespaces")))
             (string_of vs "workload") (bool_of vs "follow") rest zero);
    mret (match err with Some _ => 1 | None => 0 end).
Proof using.
  intros Hp. unfold main. change "logs" with (Use NewLogsCmd).
  by rewrite (execute_command _ _ vs args rest); [|by left|].
Qed.
End kubectl.
End kubectl.
