(* ===== verification/UploadDaemon.v ===== *)
(** * The upload daemon of a machine

    src/cmd/daemon/deploy.go: the HTTP server in the upload container of a machine, which keeps
    the configuration files that HAProxy's containers mount. The file system is the operating
    system's: files by path, with what it may refuse. *)

From S2P Require Import Prelude GoStd ApiTypes TopologyTypes Prog World TiupSpec.

Module UploadDaemon.

Definition BaseDir : string := "/var/naglfar/lib/".

(** Files by the path that reaches them, and what the operating system lets the daemon do at a
    path: remove the file, open it for writing when it is there, create it when it is not. *)
Record fs := mkFs {
  files : gmap string string;
  removable : string -> bool;
  writable : string -> bool;
  creatable : string -> bool;
}.
#[export] Instance fs_eta : Eta fs := fun s =>
  {| files := files s; removable := removable s; writable := writable s; creatable := creatable s |}.

(** [os.Remove], with whether it succeeded. *)
Definition Remove (path : string) (s : fs) : fs * bool :=
  if bool_decide (is_Some (files s !! path)) && removable s path
  then (s <| files ::= delete path |>, true) else (s, false).

(** [os.OpenFile(path, O_WRONLY|O_CREATE, ...)], with whether it succeeded: without O_TRUNC, a file
    that is there keeps its content. *)
Definition OpenFile (path : string) (s : fs) : fs * bool :=
  match files s !! path with
  | Some _ => (s, writable s path)
  | None => if creatable s path then (s <| files ::= <[path := ""]> |>, true) else (s, false)
  end.

(** The first [n] bytes of a body. *)
Definition first (n : nat) (body : string) : string := String.substring 0 n body.

(** Writing [body] at the start of a file that held [old]: what is longer of it stays. *)
Definition overwrite (body old : string) : string :=
  body +:+ String.substring (String.length body) (String.length old - String.length body) old.

(** [io.Copy(f, r.Body)], with whether it returned without an error. It reads the body and writes
    it until the body ends, the connection breaks or the disk is full: [n] is how many bytes it gets
    written at most. To a nil file, the result of a failed OpenFile, it writes nothing. *)
Definition Copy (opened : bool) (path body : string) (n : nat) (s : fs) : fs * bool :=
  if opened
  then (s <| files ::= fun m => <[path := overwrite (first n body) (default "" (m !! path))]> m |>,
        (String.length body <=? n)%nat)
  else (s, false).

(** The handlers; the errors of removing and of opening are logged only, the one of the copy is not
    even looked at, and the answer is the same. *)
Definition upload (fileName body : string) (n : nat) (s : fs) : fs :=
  let path := BaseDir +:+ fileName in
  let '(s, _) := Remove path s in
  let '(s, opened) := OpenFile path s in
  let '(s, _) := Copy opened path body n s in
  s.

Definition delete (fileName : string) (s : fs) : fs := fst (Remove (BaseDir +:+ fileName) s).

(** The server: which handler a request's path selects, and the status of the answer. *)
Definition handle (urlPath fileName body : string) (n : nat) (s : fs) : fs * Z :=
  if String.eqb urlPath "/upload" then (upload fileName body n s, 200)
  else if String.eqb urlPath "/delete" then (delete fileName s, 200)
  else (s, 404).

(** ** The server

    net/http runs each handler in a goroutine of its own, so the system calls of two uploads may
    interleave. A running upload is the name and the body of its request, how much of the body it
    will get written, and how far it got. *)

Inductive phase := AtRemove | AtOpen | AtCopy (opened : bool) | Answered.

Record handler := mkHandler {
  request_path : string;
  request_body : string;
  request_room : nat;
  at_phase : phase;
}.

(** The next system call of an upload. *)
Definition step (t : handler) (s : fs) : handler * fs :=
  let '(mkHandler path body n ph) := t in
  match ph with
  | AtRemove => (mkHandler path body n AtOpen, fst (Remove path s))
  | AtOpen => let '(s, opened) := OpenFile path s in (mkHandler path body n (AtCopy opened), s)
  | AtCopy opened => (mkHandler path body n Answered, fst (Copy opened path body n s))
  | Answered => (t, s)
  end.

(** The uploads in progress, and whose turn it is each time. *)
Fixpoint interleave (turns : list nat) (ts : list handler) (s : fs) : list handler * fs :=
  match turns with
  | [] => (ts, s)
  | i :: turns =>
      match ts !! i with
      | Some t => let '(t, s) := step t s in interleave turns (<[i := t]> ts) s
      | None => interleave turns ts s
      end
  end.

Definition started (fileName body : string) (n : nat) : handler :=
  mkHandler (BaseDir +:+ fileName) body n AtRemove.

(** main: that the base directory could not be made is only logged; then the server runs, with
    [handle] as its routes, and ListenAndServe returns only with an error, which log.Fatal
    reports with code 1. Here for requests that come one after the other. *)
Fixpoint serve (requests : list (string * string * string * nat)) (s : fs) : fs * list Z :=
  match requests with
  | [] => (s, [])
  | (urlPath, fileName, body, n) :: l =>
      let '(s, status) := handle urlPath fileName body n s in
      let '(s, answers) := serve l s in (s, status :: answers)
  end.

Definition main (requests : list (string * string * string * nat)) (s : fs) : fs * list Z * Z :=
  (serve requests s, 1).

(** ** The daemon of a machine

    A request to the address of the machine's upload daemon reaches the handlers above: what is left
    of its URL after that address is the path the server selects by. *)

Fixpoint strip (prefix s : string) : option string :=
  match prefix, s with
  | EmptyString, _ => Some s
  | String a prefix, String b s => if Ascii.eqb a b then strip prefix s else None
  | _, EmptyString => None
  end.

Definition served (machine : string) (n : nat) (c : call) (s : fs) : option (fs * Z) :=
  match c with
  | HTTPPost url fileName body =>
      path ← strip (haproxy.url machine "") url; Some (handle path fileName body n s)
  | _ => None
  end.

(** ** Laws *)

Lemma substring_nil n m : String.substring n m "" = "".
Proof. by destruct n, m. Qed.
Lemma app_empty s : s +:+ "" = s.
Proof. induction s as [|c s IH]; [done|]. change (String c (s +:+ "") = String c s). by rewrite IH. Qed.
Lemma overwrite_nil body : overwrite body "" = body.
Proof. unfold overwrite. by rewrite substring_nil, app_empty. Qed.

Lemma substring_0 n body : (String.length body <= n)%nat -> String.substring 0 n body = body.
Proof.
  revert n. induction body as [|c body IH]; intros [|n] Hn; simpl in *; try done; [lia|]. rewrite IH by lia. done.
Qed.
Lemma first_all n body : (String.length body <= n)%nat -> first n body = body.
Proof. apply substring_0. Qed.

Lemma strip_app p s : strip p (p +:+ s) = Some s.
Proof. induction p as [|c p IH]; [done|]. simpl. by rewrite Ascii.eqb_refl. Qed.
Lemma app_assoc_s a b c : (a +:+ b) +:+ c = a +:+ (b +:+ c).
Proof. induction a as [|x a IH]; [done|]. change (String x ((a +:+ b) +:+ c) = String x (a +:+ (b +:+ c))). by rewrite IH. Qed.
Lemma url_path machine path : strip (haproxy.url machine "") (haproxy.url machine path) = Some path.
Proof.
  unfold haproxy.url. set (port := strconv.Itoa _).
  replace ("http://" +:+ machine +:+ ":" +:+ port +:+ path)
    with (("http://" +:+ machine +:+ ":" +:+ port +:+ "") +:+ path); [apply strip_app|].
  by rewrite !app_assoc_s.
Qed.

(** Whether the daemon finds no file in its way, there being none or the old one being removed; and
    what the file of a path holds after an upload. *)
Definition cleared (path : string) (s : fs) : bool :=
  match files s !! path with Some _ => removable s path | None => true end.

Definition uploaded (path body : string) (n : nat) (s : fs) : option string :=
  if cleared path s
  then if creatable s path then Some (first n body) else None
  else old ← files s !! path; if writable s path then Some (overwrite (first n body) old) else Some old.

Lemma upload_at fileName body n s :
  let path := BaseDir +:+ fileName in
  files (upload fileName body n s) =
  partial_alter (fun _ => uploaded path body n s) path (files s).
Proof.
  intros path. apply map_eq. intros q. destruct (decide (q = path)) as [->|Hq].
  - rewrite lookup_partial_alter_eq. unfold upload, Remove, OpenFile, Copy, uploaded, cleared. fold path.
    destruct (files s !! path) as [old|] eqn:Ho; simpl.
    + destruct (removable s path); simpl.
      * rewrite lookup_delete_eq. destruct (creatable s path); simpl; [|by rewrite lookup_delete_eq].
        by rewrite !lookup_insert_eq, overwrite_nil.
      * rewrite Ho. destruct (writable s path); simpl; [|done]. by rewrite lookup_insert_eq, Ho.
    + rewrite Ho. destruct (creatable s path); simpl; [|done]. by rewrite !lookup_insert_eq, overwrite_nil.
  - rewrite lookup_partial_alter_ne by done. unfold upload, Remove, OpenFile, Copy. fold path.
    repeat (case_match || case_bool_decide); simplify_eq; simpl;
      rewrite ?lookup_insert_ne, ?lookup_delete_ne by done; done.
Qed.

(** C40. A configuration sent to a machine for a proxy is what the proxy's container mounts: the one
    request of [haproxy.WriteConfigToMachine] reaches the upload handler of the machine's daemon,
    which answers with success and changes no file but the one the container's bind names. That one
    holds exactly the configuration when nothing is in its way, it may be created and the whole body
    is copied; when the body is copied in part, as the daemon does not notice, it holds the first
    part of it; when the old file could not be removed and is written over, a longer one leaves its
    end behind; and when the file may not be opened, it is gone or is what it was. *)
Theorem upload_roundtrip machine fileName config n s :
  let path := haproxy.SourceDir +:+ fileName in
  exists url name body s', haproxy.WriteConfigToMachine machine fileName config = ask (HTTPPost url name body) /\
    served machine n (HTTPPost url name body) s = Some (s', 200) /\
    (forall other, other <> path -> files s' !! other = files s !! other) /\
    (cleared path s = true -> creatable s path = true ->
       files s' !! path = Some (first n config) /\
       ((String.length config <= n)%nat -> files s' !! path = Some config)) /\
    (cleared path s = true -> creatable s path = false -> files s' !! path = None) /\
    (forall old, cleared path s = false -> files s !! path = Some old ->
       files s' !! path = Some (if writable s path then overwrite (first n config) old else old)).
Proof.
  cbv zeta. change haproxy.SourceDir with BaseDir. set (path := BaseDir +:+ fileName).
  exists (haproxy.url machine "/upload"), fileName, config, (upload fileName config n s).
  split; [done|]. split; [unfold served; by rewrite url_path|].
  rewrite upload_at. fold path. split; [intros other Hne; by rewrite lookup_partial_alter_ne by done|].
  rewrite lookup_partial_alter_eq. unfold uploaded. split; [|split].
  - intros -> ->. split; [done|]. intros Hn. by rewrite first_all.
  - by intros -> ->.
  - intros old -> ->. simpl. by destruct (writable s path).
Qed.

(** ** Interleaved uploads *)

(** What a step does to the file of its path, as a function of that file alone. *)
Definition step_at (s : fs) (path body : string) (n : nat) (ph : phase) (file : option string)
    : phase * option string :=
  match ph, file with
  | AtRemove, _ => (AtOpen, if removable s path then None else file)
  | AtOpen, Some _ => (AtCopy (writable s path), file)
  | AtOpen, None => (AtCopy (creatable s path), if creatable s path then Some "" else None)
  | AtCopy opened, _ => (Answered, if opened then Some (overwrite (first n body) (default "" file)) else file)
  | Answered, _ => (Answered, file)
  end.

Definition same_permissions (s s' : fs) : Prop :=
  removable s' = removable s /\ writable s' = writable s /\ creatable s' = creatable s.

Lemma step_at_permissions s s' path body n ph file :
  same_permissions s s' -> step_at s' path body n ph file = step_at s path body n ph file.
Proof. unfold step_at. by intros (-> & -> & ->). Qed.

Lemma step_other t s p : p <> request_path t -> files (snd (step t s)) !! p = files s !! p.
Proof.
  destruct t as [path body n [| |[]|]]; simpl; intros Hne; unfold Remove, OpenFile; try done.
  - destruct (bool_decide _ && _); simpl; [by rewrite lookup_delete_ne|done].
  - destruct (files s !! path); [done|]. destruct (creatable s path); simpl; [|done]. by rewrite lookup_insert_ne.
  - by rewrite lookup_insert_ne.
Qed.

Lemma step_permissions t s :
  same_permissions s (snd (step t s)) /\ request_path (fst (step t s)) = request_path t /\
  request_body (fst (step t s)) = request_body t /\ request_room (fst (step t s)) = request_room t.
Proof.
  destruct t as [path body n [| |[]|]]; simpl; unfold Remove, OpenFile; try done.
  - by destruct (bool_decide _ && _).
  - destruct (files s !! path); [done|]. by destruct (creatable s path).
Qed.

Lemma step_self t s :
  (at_phase (fst (step t s)), files (snd (step t s)) !! request_path t) =
  step_at s (request_path t) (request_body t) (request_room t) (at_phase t) (files s !! request_path t).
Proof.
  destruct t as [path body n [| |[]|]]; simpl; unfold Remove, OpenFile; try done.
  - case_bool_decide as Hin; simpl; [|apply eq_None_not_Some in Hin as ->; by destruct (removable s path)].
    destruct (removable s path); simpl; [by rewrite lookup_delete_eq|done].
  - destruct (files s !! path) eqn:Hf; simpl; [by rewrite Hf|].
    destruct (creatable s path); simpl; [|by rewrite Hf]. by rewrite lookup_insert_eq.
  - by rewrite lookup_insert_eq.
Qed.

Lemma iter_permissions k s s' path body n st : same_permissions s s' ->
  Nat.iter k (fun '(ph, file) => step_at s' path body n ph file) st =
  Nat.iter k (fun '(ph, file) => step_at s path body n ph file) st.
Proof.
  intros Hs. induction k as [|k IH]; [done|]. simpl. rewrite IH. clear IH. destruct (Nat.iter k _ st).
  by apply step_at_permissions.
Qed.

(** The turns of one upload among the others' leave at its path what they would leave alone. *)
Lemma interleave_self turns : forall ts s i t, NoDup (request_path <$> ts) -> ts !! i = Some t ->
  let '(ts', s') := interleave turns ts s in
  exists t', ts' !! i = Some t' /\
    (at_phase t', files s' !! request_path t) =
      Nat.iter (length (filterb (Nat.eqb i) turns))
        (fun '(ph, file) => step_at s (request_path t) (request_body t) (request_room t) ph file)
        (at_phase t, files s !! request_path t).
Proof.
  induction turns as [|j turns IH]; intros ts s i t Hnd Ht; simpl; [by exists t|].
  destruct (ts !! j) as [u|] eqn:Hu.
  - destruct (step u s) as [u' s1] eqn:Hstep. pose proof (step_permissions u s) as (Hs & Hp & Hb & Hn).
    rewrite Hstep in *. simpl in Hs, Hp, Hb, Hn.
    assert (Hnd' : NoDup (request_path <$> <[j := u']> ts)).
    { rewrite list_fmap_insert, Hp, list_insert_id; [done|]. by rewrite list_lookup_fmap, Hu. }
    destruct (decide (i = j)) as [->|Hne].
    + assert (u = t) as -> by congruence. specialize (IH (<[j := u']> ts) s1 j u' Hnd').
      rewrite list_lookup_insert_eq in IH by (by eapply lookup_lt_Some). specialize (IH eq_refl).
      destruct (interleave turns _ s1) as [ts' s']. destruct IH as (t' & Ht' & Heq). exists t'. split; [done|].
      unfold filterb in *. cbn [List.filter]. rewrite Nat.eqb_refl. cbn [length]. rewrite Nat.iter_succ_r.
      pose proof (step_self t s) as Hself. rewrite Hstep in Hself. simpl in Hself. rewrite Hp in Heq.
      rewrite Heq, <-Hself, Hb, Hn. by apply iter_permissions.
    + specialize (IH (<[j := u']> ts) s1 i t Hnd'). rewrite list_lookup_insert_ne in IH by done. specialize (IH Ht).
      destruct (interleave turns _ s1) as [ts' s']. destruct IH as (t' & Ht' & Heq). exists t'. split; [done|].
      unfold filterb in *. simpl. apply Nat.eqb_neq in Hne. rewrite Hne, Heq, (iter_permissions _ s) by done.
      pose proof (step_other u s (request_path t)) as Ho. rewrite Hstep in Ho. simpl in Ho. rewrite Ho; [done|].
      intros Hsame. apply Nat.eqb_neq in Hne. apply Hne. eapply (NoDup_lookup (request_path <$> ts)); [done| |].
      * by rewrite list_lookup_fmap, Ht.
      * by rewrite list_lookup_fmap, Hu, Hsame.
  - specialize (IH ts s i t Hnd Ht). destruct (interleave turns ts s) as [ts' s'].
    destruct IH as (t' & Ht' & Heq). exists t'. split; [done|]. unfold filterb in *. simpl.
    assert (i <> j) as Hne%Nat.eqb_neq by congruence. by rewrite Hne.
Qed.
Lemma iter_answered k s path body n file :
  Nat.iter k (fun '(ph, file) => step_at s path body n ph file) (Answered, file) = (Answered, file).
Proof. induction k as [|k IH]; [done|]. simpl. by rewrite IH. Qed.

(** Uploads of different files do not disturb each other: however their system calls
    interleave, once an upload has answered its file is what it would be had it run alone. *)
Lemma uploads_interleaved turns uploads s i fileName body n :
  NoDup uploads.*1.*1 -> uploads !! i = Some (fileName, body, n) -> (3 <= length (filterb (Nat.eqb i) turns))%nat ->
  files (snd (interleave turns ((fun u => started u.1.1 u.1.2 u.2) <$> uploads) s)) !! (BaseDir +:+ fileName) =
  files (upload fileName body n s) !! (BaseDir +:+ fileName).
Proof.
  intros Hnd Hi Hlen. set (ts := (fun u => started u.1.1 u.1.2 u.2) <$> uploads).
  assert (Hts : ts !! i = Some (started fileName body n)) by (unfold ts; by rewrite list_lookup_fmap, Hi).
  assert (Hpaths : NoDup (request_path <$> ts)).
  { unfold ts. rewrite <-list_fmap_compose.
    replace (_ <$> uploads) with (String.append BaseDir <$> uploads.*1.*1) by (by rewrite <-!list_fmap_compose).
    apply NoDup_fmap_2; [apply _|done]. }
  pose proof (interleave_self turns ts s i _ Hpaths Hts) as H.
  pose proof (interleave_self [0; 0; 0]%nat [started fileName body n] s 0 _ ltac:(apply NoDup_singleton) eq_refl) as H1.
  destruct (interleave turns ts s) as [ts' s']. destruct H as (t' & _ & H). simpl snd.
  assert (Hone : snd (interleave [0; 0; 0]%nat [started fileName body n] s) = upload fileName body n s).
  { unfold upload. simpl. destruct (Remove _ s) as [s1 r1]. simpl. destruct (OpenFile _ s1) as [s2 o]. simpl.
    by destruct (Copy _ _ _ _ s2). }
  destruct (interleave [0; 0; 0]%nat [started fileName body n] s) as [ts1 s1]. destruct H1 as (t1 & _ & H1).
  simpl snd in Hone. subst s1. apply (f_equal snd) in H, H1.
  cbn [snd request_path request_body request_room at_phase started] in H, H1.
  rewrite H, H1. destruct (length _) as [|[|[|k]]]; [lia..|].
  change (S (S (S k))) with (3 + k)%nat. rewrite Nat.add_comm, Nat.iter_add. change (length _) with 3%nat.
  destruct (Nat.iter 3 _ (AtRemove, _)) as [ph file] eqn:H3. assert (ph = Answered) as ->.
  { revert H3. simpl. destruct (if removable s _ then _ else _); by intros [= <- _]. }
  by rewrite iter_answered.
Qed.

(** A longer file that could not be removed keeps its end. *)
Example stale_end :
  files (upload "f" "ab" 2 (mkFs {[ "/var/naglfar/lib/f" := "12345" ]} (fun _ => false) (fun _ => true) (fun _ => true)))
    !! "/var/naglfar/lib/f" = Some "ab345".
Proof. reflexivity. Qed.

(** A full disk is not noticed: the answer is a success and the file a part of the configuration. *)
Example short_copy :
  let '(s, status) := handle "/upload" "f" "abcd" 2 (mkFs ∅ (fun _ => true) (fun _ => true) (fun _ => true)) in
  status = 200 /\ files s !! "/var/naglfar/lib/f" = Some "ab".
Proof. split; reflexivity. Qed.
End UploadDaemon.
