(* ===== verification/WorkloadTheorems.v ===== *)
(** * The workload reconciler: its contract *)

From S2P Require Import Prelude GoStd Util ApiTypes TopologyTypes Prog World Machine Resource Docker.
From S2P Require Import TiupSpec TiupCtl TopologyCtl WorkloadCtl.
Import WorkloadCtl.

(** A history grown by events that are spelled out. *)
Ltac still := split; [done|intros ? ?; repeat apply happened_later; done].

Section contract.
Context {Y : Yaml} {D : Defaults Y}.

(** ** What the history tells *)

Definition resource_key (w : TestWorkload) (c : ContainerSpec) : NamespacedName :=
  mkNamespacedName (namespace_of w) (ResourceRequestRef_Node (Workload_ResourceRequest c)).
Definition request_key (w : TestWorkload) (c : ContainerSpec) : NamespacedName :=
  mkNamespacedName (namespace_of w) (ResourceRequestRef_Name (Workload_ResourceRequest c)).

(** The resource of a key was read, and [P] holds of what was read. *)
Definition read_resource (key : NamespacedName) (P : TestResource -> Prop) (c : call) : answer c -> Prop :=
  match c return answer c -> Prop with
  | Get KTestResource key' => fun r => match r with inr o => key' = key /\ P o | inl _ => False end
  | _ => fun _ => False
  end.
(** The node of an item was read, and [P] holds of it. *)
Definition node_read (w : TestWorkload) (P : TestResource -> Prop) (h : history) (item : TestWorkloadItemSpec) : Prop :=
  exists c, TestWorkloadItemSpec_DockerContainer item = Some c /\
    happened (read_resource (resource_key w c) P) h.

(** An object of a kind was looked for and not found. *)
Definition missing (k : kind) (key : NamespacedName) (c : call) : answer c -> Prop :=
  match c return answer c -> Prop with
  | Get k' key' => fun r => k' = k /\ match r with inl e => IsNotFound e = true /\ key' = key | inr _ => False end
  | _ => fun _ => False
  end.

(** The API server was asked to store the status of a resource. *)
Definition asked_to_store (o : TestResource) (c : call) : answer c -> Prop :=
  fun _ => match c with StatusUpdate KTestResource o' => o' = o | _ => False end.

Definition self_claimed (w : TestWorkload) (r : TestResource) : Prop :=
  TestResourceStatus_ClaimRef (TestResource_Status r) = Some (self_ref w).

(** A node that runs, or ran, for the workload. *)
Definition installed (w : TestWorkload) (r : TestResource) : Prop :=
  (TestResource_State r = ResourceReady \/ TestResource_State r = ResourceFinish) /\ self_claimed w r.

Definition phase_of (r : TestResource) : ResourcePhase := TestResourceStatus_Phase (TestResource_Status r).
Definition ended (r : TestResource) : Prop :=
  phase_of r = ResourcePhaseSucceeded \/ phase_of r = ResourcePhaseFailed.

(** What a deletion makes of a node. *)
Definition destroyed (r : TestResource) : TestResource :=
  r <| TestResource_Status ::= fun s =>
    s <| TestResourceStatus_State := ResourceDestroy |> <| TestResourceStatus_ClaimRef := None |> |>.

(** An item is off its node: the request or the node is gone, or the node is being destroyed or
    never had anything to destroy. *)
Definition released (w : TestWorkload) (h : history) (item : TestWorkloadItemSpec) : Prop :=
  exists c, TestWorkloadItemSpec_DockerContainer item = Some c /\
    (happened (missing KTestResourceRequest (request_key w c)) h \/
     happened (missing KTestResource (resource_key w c)) h \/
     exists r, happened (read_resource (resource_key w c) (eq r)) h /\
       (CouldUninstall (TestResource_State r) = false \/ happened (asked_to_store (destroyed r)) h)).

(** ** The contract *)

(** Whether the workload was alive when it was read. *)
Definition begun (alive : bool) (h : history) : Prop := exists w0,
  last_got KTestWorkload h = Some w0 /\ DeletionTimestamp_IsZero (TestWorkload_ObjectMeta w0) = alive.
Definition state_of (w : TestWorkload) : TestWorkloadState := TestWorkloadStatus_State (TestWorkload_Status w).

(** A write to a resource: a claim on a free node, or the destruction that ends a workload. *)
Definition resource_write (h : history) (w : TestWorkload) (r o : TestResource) : Prop :=
  (begun true h /\ state_of w = TestWorkloadStatePending /\
   TestResource_State r = ResourceUninitialized /\ TestResource_Image r = "" /\
   (TestResourceStatus_ClaimRef (TestResource_Status r) = None \/ self_claimed w r) /\
   exists item c envs, item ∈ items_of w /\ TestWorkloadItemSpec_DockerContainer item = Some c /\
     happened (read_resource (resource_key w c) (eq r)) h /\ o = claim w item c envs r) \/
  (begun false h /\ CouldUninstall (TestResource_State r) = true /\ o = destroyed r).

Definition status_step (h : history) (w o : TestWorkload) : Prop :=
  match state_of w with
  | TestWorkloadStateNone =>
      o = with_status (fun s => s <| TestWorkloadStatus_State := TestWorkloadStatePending |>
                                  <| TestWorkloadStatus_WorkloadStatus := Some ∅ |>) w
  | TestWorkloadStatePending =>
      o = set_state TestWorkloadStateRunning w /\
      forall item, item ∈ items_of w -> node_read w (installed w) h item
  | TestWorkloadStateRunning =>
      TestWorkload_ObjectMeta o = TestWorkload_ObjectMeta w /\ TestWorkload_Spec o = TestWorkload_Spec w /\
      TestWorkloadStatus_Results (TestWorkload_Status o) = TestWorkloadStatus_Results (TestWorkload_Status w) /\
      (state_of o = TestWorkloadStateRunning \/
       (state_of o = TestWorkloadStateSucceeded /\
        forall item, item ∈ items_of w -> node_read w (fun r => phase_of r = ResourcePhaseSucceeded) h item) \/
       (state_of o = TestWorkloadStateFailed /\
        (forall item, item ∈ items_of w -> node_read w ended h item) /\
        exists item, item ∈ items_of w /\ node_read w (fun r => phase_of r = ResourcePhaseFailed) h item))
  | _ => False
  end.

Definition object_write (h : history) (w o : TestWorkload) : Prop :=
  (begun true h /\ o = w <| TestWorkload_ObjectMeta ::= fun m =>
     m <| ObjectMeta_Finalizers := ObjectMeta_Finalizers m ++ [testWorkloadFinalizer] |> |>) \/
  (begun false h /\
   (testWorkloadFinalizer ∈ ObjectMeta_Finalizers (TestWorkload_ObjectMeta w) ->
    forall item, item ∈ items_of w -> released w h item) /\
   exists fs, Slice.StringsRemove (ObjectMeta_Finalizers (TestWorkload_ObjectMeta w)) testWorkloadFinalizer = Ret fs /\
     o = w <| TestWorkload_ObjectMeta ::= fun m => m <| ObjectMeta_Finalizers := fs |> |>).

Definition contract (h : history) (c : call) : Prop :=
  match c with
  | StatusUpdate KTestResource o => exists w r,
      last_shown KTestWorkload h = Some w /\ last_shown KTestResource h = Some r /\ resource_write h w r o
  | StatusUpdate KTestWorkload o => exists w, last_shown KTestWorkload h = Some w /\ status_step h w o
  | Update KTestWorkload o => exists w, last_shown KTestWorkload h = Some w /\ object_write h w o
  | StatusUpdate _ _ | Update _ _ | Create _ _ | Delete _ _ => False
  | _ => True
  end.

Abbreviation triple := (hoare admissible contract (holds_still KTestWorkload)).

Context (w : TestWorkload) (alive : bool).

(** The handler works on [w], and began with a workload that was alive or not. *)
Definition at_w (h : history) : Prop := last_shown KTestWorkload h = Some w /\ begun alive h.

Lemma at_w_stable : stable (holds_still KTestWorkload) at_w.
Proof. intros h h' ((E & E') & _) H. unfold at_w, begun. by rewrite E, E'. Qed.

Lemma workload_happened_stable P : stable (holds_still KTestWorkload) (happened P).
Proof. intros h h' (_ & H). apply H. Qed.

Lemma node_read_stable P item : stable (holds_still KTestWorkload) (fun h => node_read w P h item).
Proof. intros h h' (_ & H) (c & Hc & Hh). exists c. auto. Qed.

Lemma released_stable item : stable (holds_still KTestWorkload) (fun h => released w h item).
Proof.
  intros h h' (_ & H) (c & Hc & Hh). exists c. split; [done|].
  destruct Hh as [Hh|[Hh|(r & Hr & [Hu|Hs])]]; eauto 10.
Qed.

(** Calls that show no workload and are always allowed. *)
Lemma workload_triple_ask (c : call) (Pre : history -> Prop) (Post : history -> answer c -> Prop) :
  (forall h, contract h c) -> (forall x, shown KTestWorkload c x = None /\ got KTestWorkload c x = None) ->
  (forall h x, Pre h -> admissible c x -> Post (Event c x :: h) x) ->
  triple Pre (ask c) Post.
Proof.
  intros Hc Hs HP. apply hoare_ask. intros h Hh. split; [done|]. intros x Hx. split; [|by apply HP].
  split; [|intros P; apply happened_later]. simpl. destruct (Hs x) as [E1 E2]. by rewrite E1, E2.
Qed.

Lemma triple_event (Pre : history -> Prop) a b c : triple Pre (record_event a b c) (fun _ _ => True).
Proof. by apply workload_triple_ask. Qed.

(** ** Reading the node of an item *)

Definition node_answer (item : TestWorkloadItemSpec) (h : history) (r : option TestResource * option error) : Prop :=
  exists c, TestWorkloadItemSpec_DockerContainer item = Some c /\
  match r.2 with
  | None => exists node, r.1 = Some node /\ last_shown KTestResource h = Some node /\
      happened (read_resource (resource_key w c) (eq node)) h
  | Some err =>
      (r.1 = None /\ (IsNotFound err = true -> happened (missing KTestResourceRequest (request_key w c)) h)) \/
      (r.1 = Some zeroTestResource /\
       (IsNotFound err = true -> happened (missing KTestResource (resource_key w c)) h))
  end.

Lemma getWorkloadRequestNode_spec item Pre :
  triple Pre (getWorkloadRequestNode (namespace_of w) (TestWorkloadItemSpec_DockerContainer item))
    (node_answer item).
Proof.
  intros h _. unfold getWorkloadRequestNode, get.
  destruct (TestWorkloadItemSpec_DockerContainer item) as [c|] eqn:Hc; [|by split].
  unfold deref. wp_run. split; [done|]. intros [err|rr] _; wp_run.
  - split; [split; [done|intros P; apply happened_later]|]. exists c. split; [done|]. left.
    split; [done|]. intros He. by apply happened_here.
  - split; [done|]. intros [err|node] _; wp_run.
    + split; [split; [done|intros P HP; by do 2 apply happened_later]|]. exists c. split; [done|]. right.
      split; [done|]. intros He. by apply happened_here.
    + split; [split; [done|intros P HP; by do 2 apply happened_later]|]. exists c. split; [done|].
      exists node. split; [done|]. split; [done|]. by apply happened_here.
Qed.

(** ** Pending *)

(** What the loop knows: it counted no more than it saw, and when it counted all that it saw,
    all of it is installed. *)
Definition counted (h : history) (seen : list TestWorkloadItemSpec) (n : Z) : Prop :=
  at_w h /\ 0 <= n <= len seen /\
  (n = len seen -> forall item, item ∈ seen -> node_read w (installed w) h item).

Lemma len_snoc {A} (l : list A) a : len (l ++ [a]) = len l + 1.
Proof. unfold len. rewrite length_app. simpl. lia. Qed.

Lemma counted_same h h' seen n item :
  counted h seen n -> holds_still KTestWorkload h h' -> counted h' (seen ++ [item]) n.
Proof.
  intros (Hw & Hn & Hall) Hext. unfold counted. rewrite len_snoc.
  split; [by eapply at_w_stable|]. split; [lia|]. intros ->. lia.
Qed.

Lemma counted_next h h' seen n item :
  counted h seen n -> holds_still KTestWorkload h h' -> node_read w (installed w) h' item ->
  counted h' (seen ++ [item]) (n + 1).
Proof.
  intros (Hw & Hn & Hall) Hext Hi. unfold counted. rewrite len_snoc.
  split; [by eapply at_w_stable|]. split; [lia|]. intros Hall' i [Hin|Heq]%elem_of_app.
  - eapply node_read_stable; [done|]. apply Hall; [lia|done].
  - apply list_elem_of_singleton in Heq as ->. done.
Qed.

Lemma warn_wp reason err h Q :
  (forall h', holds_still KTestWorkload h h' -> Q h' (Ret (noRequeue, Some err))) ->
  wp admissible contract (warn reason err) h Q.
Proof.
  intros HQ. unfold warn, record_event. wp_run. split; [done|]. intros [] _. apply HQ.
  split; [done|]. intros P. apply happened_later.
Qed.

Section live.
Context (Hlive : alive = true).

Section pending.
Context (Hpending : state_of w = TestWorkloadStatePending).

(** The loop's rounds end in a count or in a result. *)
Definition round (seen : list TestWorkloadItemSpec) (h : history) (r : Z + (Result * option error)) : Prop :=
  match r with inl n => counted h seen n | inr _ => True end.

Lemma install_item_spec topologies resources seen n item c node :
  item ∈ items_of w -> TestWorkloadItemSpec_DockerContainer item = Some c ->
  (TestResourceStatus_ClaimRef (TestResource_Status node) = None \/ self_claimed w node) ->
  triple (fun h => counted h seen n /\ last_shown KTestResource h = Some node /\
                   happened (read_resource (resource_key w c) (eq node)) h)
    (install_item w topologies resources n item c node) (round (seen ++ [item])).
Proof.
  intros Hin Hc Hfree h (Hcount & Hnode & Hread). unfold install_item.
  assert (Hstay : forall h', holds_still KTestWorkload h h' -> counted h' (seen ++ [item]) n).
  { intros h'. by eapply counted_same. }
  assert (Hinstalled : TestResource_State node = ResourceReady \/ TestResource_State node = ResourceFinish ->
    TestResourceStatus_ClaimRef (TestResource_Status node) = Some (self_ref w) ->
    counted h (seen ++ [item]) (n + 1)).
  { intros Hst Hclaim. eapply counted_next; [done|done|]. exists c. split; [done|].
    eapply happened_impl; [|exact Hread]. intros [] x Hx; try done. destruct k; try done.
    destruct x as [?|o]; [done|]. simpl in *. destruct Hx as (-> & <-). done. }
  destruct (TestResource_State node) eqn:Hst; try (by split).
  - destruct (String.eqb_spec (TestResource_Image node) "") as [Him|Him].
    + apply wp_bind. apply wp_lift. destruct (buildTopologyEnvs _ _ _ _) as [[err|envs]|e]; [| |by split].
      * apply wp_bind. apply warn_wp. intros h' Hext. by split.
      * unfold status_update. wp_run. split.
        { destruct Hcount as ((Hw & Hb) & _). rewrite Hlive in Hb. exists w, node.
          split; [done|]. split; [done|]. left. do 5 (split; [done|]). by exists item, c, envs. }
        intros [err|stored] _; cbn [err_of]; wp_run.
        -- split; [still|done].
        -- split; [done|]. intros [] _. wp_run.
           assert (Hext : holds_still KTestWorkload h
             (Event (RecordEvent "Normal" "Install" ("preparing the workload: " +:+ TestWorkloadItemSpec_Name item)) tt
              :: Event (StatusUpdate KTestResource (claim w item c envs node)) (inr stored) :: h)).
           { still. }
           split; [done|]. by apply Hstay.
    + destruct (negb _).
      * apply wp_bind. apply warn_wp. intros h' Hext. by split.
      * wp_run. split; [done|]. by apply Hstay.
  - case_bool_decide as Hcl; cbn [negb]; wp_run.
    + split; [done|]. apply Hinstalled; [by left|done].
    + apply wp_bind. apply warn_wp. intros h' Hext. by split.
  - case_bool_decide as Hcl; cbn [negb]; wp_run.
    + split; [done|]. apply Hinstalled; [by right|done].
    + apply wp_bind. apply warn_wp. intros h' Hext. by split.
Qed.

Lemma pending_item_spec topologies resources seen n item :
  item ∈ items_of w ->
  triple (fun h => counted h seen n) (pending_item w topologies resources n item) (round (seen ++ [item])).
Proof.
  intros Hin h Hcount. unfold pending_item. apply wp_bind.
  eapply wp_mono; [by apply (getWorkloadRequestNode_spec item (fun _ => True))|].
  intros h' [[node [err|]]|e] [Hext Hr]; wp_run; [done| |done].
  destruct Hr as (c & Hc & node' & Hn & Hlast & Hread). simpl in Hn. subst node.
  rewrite Hc. unfold deref. wp_run.
  assert (Hcount' : counted h' seen n).
  { destruct Hcount as (Hw & Hb & Hall). split; [by eapply at_w_stable|]. split; [done|].
    intros Hn i Hi. eapply node_read_stable; [done|]. by apply Hall. }
  assert (Hgo : TestResourceStatus_ClaimRef (TestResource_Status node') = None \/ self_claimed w node' ->
    wp admissible contract (install_item w topologies resources n item c node') h' (fun h'' r =>
      holds_still KTestWorkload h h'' /\ match r with Ret a => round (seen ++ [item]) h'' a | Panic _ => True end)).
  { intros Hfree. eapply wp_mono; [by eapply install_item_spec|].
    intros h'' r [Hext' Hr]. split; [by etrans|done]. }
  destruct (TestResourceStatus_ClaimRef (TestResource_Status node')) as [owner|] eqn:Hcl.
  - case_bool_decide as Ho; simpl; [apply Hgo; right; unfold self_claimed; by subst|].
    unfold record_event. wp_run. split; [done|]. intros [] _. wp_run. split; [|done].
    etrans; [exact Hext|]. split; [done|]. intros P. apply happened_later.
  - apply Hgo. by left.
Qed.

Lemma checkTopologies_quiet ns names ts :
  triple (fun _ => True) (checkTopologies ns names ts) (fun _ _ => True).
Proof.
  revert ts. induction names as [|name l IH]; intros ts h _; simpl; [by split|].
  unfold get. split; [done|]. intros [err|topology] _; simpl; [split; [still|done]|].
  destruct (negb _); simpl; [split; [still|done]|].
  eapply wp_mono; [by apply IH|]. intros h' r [Hext _]. split; [|by destruct r].
  etrans; [|exact Hext]. still.
Qed.

Lemma workload_pending_contract h :
  at_w h -> wp admissible contract (reconcilePending w) h (fun _ _ => True).
Proof.
  intros Hw. unfold reconcilePending, checkTopologiesReady. apply wp_bind. apply wp_bind.
  unfold range_keys. wp_run. split; [done|]. intros names _.
  eapply wp_mono; [by apply checkTopologies_quiet|].
  intros h1 [[err|[topologies ready]]|e] [Hext _]; wp_run; [done| |done].
  destruct ready; cbn [negb]; [|by unfold record_event; wp_run].
  unfold list_objs. wp_run. split; [done|]. intros [err resources] _.
  destruct err as [err|]; [done|]. apply wp_bind.
  assert (Hw1 : at_w (Event (List KTestResource (Some (namespace_of w)) None) (None, resources) :: h1)).
  { eapply at_w_stable; [|eapply at_w_stable; [exact Hext|exact Hw]]. still. }
  eapply wp_mono.
  { apply (hoare_for_each admissible contract (holds_still KTestWorkload)
      (fun h seen n => counted h seen n) (fun _ _ => True)).
    - intros seen a rest s Hl. eapply hoare_mono; [apply (pending_item_spec topologies resources seen s a)|by intros h'|by intros h' [n|r]].
      rewrite Hl. set_solver.
    - split; [done|]. split; [unfold len; simpl; lia|]. intros _ item Hi. by apply not_elem_of_nil in Hi. }
  intros h2 [[n|r]|e] [Hext2 Hr]; wp_run; [|done|done].
  destruct (Z.eqb_spec n (len (items_of w))) as [->|Hne]; [|done].
  destruct Hr as (Hw2 & _ & Hall). unfold status_update. wp_run. split.
  - exists w. split; [apply Hw2|]. unfold status_step. rewrite Hpending. split; [done|]. by apply Hall.
  - intros [err|stored] _; cbn [err_of]; wp_run; [done|]. by unfold record_event; wp_run.
Qed.

End pending.
(** ** Running *)

Lemma record_phase_counts name phase p p' :
  record_phase name phase p = Ret p' ->
  succeeded p' = succeeded p + (if bool_decide (phase = ResourcePhaseSucceeded) then 1 else 0) /\
  failures p' = failures p + (if bool_decide (phase = ResourcePhaseFailed) then 1 else 0).
Proof.
  unfold record_phase. intros H. apply go_bind_Ret_inv in H as ([status n] & _ & H).
  apply go_bind_Ret_inv in H as ([status' n'] & _ & H). injection H as <-. simpl.
  repeat case_bool_decide; lia.
Qed.

Section running.
Context (Hrunning : state_of w = TestWorkloadStateRunning).

(** The counts against what was read of the items seen. *)
Record observed (h : history) (seen : list TestWorkloadItemSpec) (p : progress) : Prop := {
  obs_at : at_w h;
  obs_bounds : 0 <= succeeded p /\ 0 <= failures p /\ succeeded p + failures p <= len seen;
  obs_succeeded : succeeded p = len seen ->
    forall item, item ∈ seen -> node_read w (fun r => phase_of r = ResourcePhaseSucceeded) h item;
  obs_ended : succeeded p + failures p = len seen ->
    forall item, item ∈ seen -> node_read w ended h item;
  obs_failed : 0 < failures p ->
    exists item, item ∈ seen /\ node_read w (fun r => phase_of r = ResourcePhaseFailed) h item;
}.

Lemma observed_next h h' seen p p' item node :
  observed h seen p -> holds_still KTestWorkload h h' ->
  (forall P : TestResource -> Prop, P node -> node_read w P h' item) ->
  succeeded p' = succeeded p + (if bool_decide (phase_of node = ResourcePhaseSucceeded) then 1 else 0) ->
  failures p' = failures p + (if bool_decide (phase_of node = ResourcePhaseFailed) then 1 else 0) ->
  observed h' (seen ++ [item]) p'.
Proof.
  intros [Hw Hb Hs He Hf] Hext Hread Es Ef.
  assert (Hall : forall P : TestResource -> Prop, (forall i, i ∈ seen -> node_read w P h i) -> P node ->
    forall i, i ∈ seen ++ [item] -> node_read w P h' i).
  { intros P Hseen HP i [Hi|Hi]%elem_of_app; [by eapply node_read_stable, Hseen|].
    apply list_elem_of_singleton in Hi as ->. by apply Hread. }
  repeat case_bool_decide; try congruence; (split; [by eapply at_w_stable|rewrite ?len_snoc..]); try lia.
  all: intros E; try lia.
  all: try (apply Hall; [first [apply Hs|apply He]; lia|first [done|by left|by right]]).
  all: first [exists item; split; [set_solver|]; by apply Hread
             |destruct Hf as (i & Hi & Hr); [lia|]; exists i; split; [set_solver|]; by eapply node_read_stable].
Qed.

Lemma running_item_spec seen p item :
  triple (fun h => observed h seen p) (running_item w p item)
    (fun h r => match r with inl p' => observed h (seen ++ [item]) p' | inr _ => True end).
Proof.
  intros h Hobs. unfold running_item. apply wp_bind.
  eapply wp_mono; [by apply (getWorkloadRequestNode_spec item (fun _ => True))|].
  intros h' [[node [err|]]|e] [Hext Hr]; wp_run; [done| |done].
  destruct Hr as (c & Hc & node' & Hn & Hlast & Hread). simpl in Hn. subst node.
  rewrite Hc. unfold deref. wp_run.
  assert (Hnode : forall P : TestResource -> Prop, P node' -> node_read w P h' item).
  { intros P HP. exists c. split; [done|]. eapply happened_impl; [|exact Hread].
    intros [] x Hx; try done. destruct k; try done. destruct x as [?|o]; [done|]. simpl in *. by destruct Hx as (-> & <-). }
  destruct (TestResource_State node'); try (by split).
  all: apply wp_bind, wp_lift; destruct (record_phase _ _ p) as [p'|e] eqn:Hp; [|by split].
  all: apply record_phase_counts in Hp as [Es Ef].
  all: assert (Hobs' : forall h'', holds_still KTestWorkload h' h'' -> observed h'' (seen ++ [item]) p').
  1,3,5: intros h'' Hext'; eapply (observed_next h h'' _ _ _ _ node'); [done|by etrans| |done|done];
    intros P HP; eapply node_read_stable; [done|by apply Hnode].
  all: unfold record_event; repeat case_bool_decide; wp_run;
    first [split; [done|]; intros [] _; wp_run; (split; [etrans; [exact Hext|still]|apply Hobs'; still])
          |split; [done|by apply Hobs']].
Qed.

Lemma workload_running_contract h :
  at_w h -> wp admissible contract (reconcileRunning w) h (fun _ _ => True).
Proof.
  intros Hw. unfold reconcileRunning. apply wp_bind. eapply wp_mono.
  { apply (hoare_for_each admissible contract (holds_still KTestWorkload) observed (fun _ _ => True)).
    - intros seen a rest s Hl. apply running_item_spec.
    - split; unfold len; simpl; [done|lia|..].
      + intros _ item Hi. by apply not_elem_of_nil in Hi.
      + intros _ item Hi. by apply not_elem_of_nil in Hi.
      + lia. }
  intros h' [[p|r]|e] [Hext Hr]; wp_run; [|done|done]. destruct (negb _); [|done].
  destruct Hr as [Hw' Hb Hs He Hf].
  assert (Hgo : forall h'', holds_still KTestWorkload h' h'' -> contract h'' (StatusUpdate KTestWorkload
    (with_status (fun s => s <| TestWorkloadStatus_WorkloadStatus := recorded p |>
       <| TestWorkloadStatus_State ::= outcome (len (items_of w)) p |>) w))).
  { intros h'' Hext'. exists w. split; [by eapply at_w_stable|]. unfold status_step. rewrite Hrunning.
    split; [done|]. split; [done|]. split; [done|]. unfold state_of. simpl. unfold outcome.
    destruct (Z.eqb_spec (succeeded p) (len (items_of w))) as [E|E].
    - right. left. split; [done|]. intros i Hi. by eapply node_read_stable, Hs.
    - destruct (Z.eqb_spec (succeeded p + failures p) (len (items_of w))) as [E'|E']; [|by left].
      right. right. split; [done|]. split.
      + intros i Hi. by eapply node_read_stable, He.
      + destruct Hf as (i & Hi & Hr); [lia|]. exists i. split; [done|]. by eapply node_read_stable. }
  unfold record_event, status_update. destruct (_ || _); wp_run.
  - split; [done|]. intros [] _. wp_run. split; [|done]. apply Hgo. still.
  - split; [by apply Hgo|done].
Qed.
End running.
End live.

(** ** Deleting *)

Section dead.
Context (Hdead : alive = false).

Definition all_released (h : history) (seen : list TestWorkloadItemSpec) (_ : unit) : Prop :=
  at_w h /\ forall item, item ∈ seen -> released w h item.

Lemma all_released_next h h' seen item u :
  all_released h seen u -> holds_still KTestWorkload h h' -> released w h' item ->
  all_released h' (seen ++ [item]) u.
Proof.
  intros [Hw Hall] Hext Hi. split; [by eapply at_w_stable|].
  intros i [Hin|Hin]%elem_of_app; [by eapply released_stable, Hall|].
  by apply list_elem_of_singleton in Hin as ->.
Qed.

Lemma IgnoreNotFound_None err : IgnoreNotFound err = None <-> IsNotFound err = true.
Proof. unfold IgnoreNotFound. by destruct (IsNotFound err). Qed.

Lemma uninstall_item_spec seen u item :
  triple (fun h => all_released h seen u) (uninstall_item w u item)
    (fun h r => match r with inl u' => all_released h (seen ++ [item]) u' | inr err => err <> None end).
Proof.
  intros h Hall. unfold uninstall_item. apply wp_bind.
  eapply wp_mono; [by apply (getWorkloadRequestNode_spec item (fun _ => True))|].
  intros h' [[node err]|e] [Hext Hr]; [|by split]. destruct Hr as (c & Hc & Hr). cbn [fst snd] in Hr. destruct u.
  destruct err as [err|]; cbn [mbind option_bind].
  - destruct (IgnoreNotFound err) eqn:Hig; [by split|]. apply IgnoreNotFound_None in Hig.
    destruct Hr as [[-> Hm]|[-> Hm]]; (split; [done|]); (eapply all_released_next; [done|done|]);
      exists c; (split; [done|]); auto.
  - destruct Hr as (r & -> & Hlast & Hread). destruct (CouldUninstall (TestResource_State r)) eqn:Hcould.
    + unfold status_update. wp_run. split.
      { pose proof (at_w_stable h h' Hext (proj1 Hall)) as [Hw Hb]. rewrite Hdead in Hb.
        exists w, r. split; [done|]. split; [done|]. by right. }
      intros x _. wp_run.
      assert (Hext' : holds_still KTestWorkload h' (Event (StatusUpdate KTestResource (destroyed r)) x :: h')).
      { split; [by destruct x|]. intros P. apply happened_later. }
      split; [by etrans|]. eapply all_released_next; [done|by etrans|]. exists c. split; [done|]. right. right.
      exists r. split; [by apply happened_later|]. right. by apply happened_here.
    + split; [done|]. eapply all_released_next; [done|done|]. exists c. split; [done|]. right. right.
      exists r. auto.
Qed.

Lemma workload_deletion_contract h :
  at_w h -> wp admissible contract (reconcileDeletion w) h (fun _ _ => True).
Proof.
  intros Hw. unfold reconcileDeletion. apply wp_bind.
  eapply (wp_mono _ _ _ _ (fun h' r => at_w h' /\ match r with
    | Ret None => testWorkloadFinalizer ∈ ObjectMeta_Finalizers (TestWorkload_ObjectMeta w) ->
        forall item, item ∈ items_of w -> released w h' item
    | _ => True end)).
  - destruct (Slice.StringsContains _ _) eqn:Hf.
    + unfold uninstallWorkload. apply wp_bind. eapply wp_mono.
      { apply (hoare_for_each admissible contract (holds_still KTestWorkload) all_released (fun _ err => err <> None)).
        - intros seen a rest s _. apply uninstall_item_spec.
        - split; [done|]. intros i Hi. by apply not_elem_of_nil in Hi. }
      intros h' [[u|err]|e] [Hext Hr]; simpl; (split; [by eapply at_w_stable|]); [by intros _; apply Hr| |done].
      by destruct err.
    + split; [done|]. intros Hin. apply Slice.StringsContains_spec in Hin. congruence.
  - intros h' [[err|]|e] [Hw' Hr]; [done| |done]. apply wp_bind, wp_lift.
    destruct (Slice.StringsRemove _ _) as [fs|e] eqn:Hfs; [|done].
    unfold update. wp_run. split; [|by intros]. destruct Hw' as [Hw' Hb]. rewrite Hdead in Hb.
    exists w. split; [done|]. right. split; [done|]. split; [done|]. by exists fs.
Qed.
End dead.
End contract.

Section reconcile.
Context {Y : Yaml} {D : Defaults Y}.

Lemma workload_state_contract w h :
  at_w w true h -> wp admissible contract (reconcile_state w) h (fun _ _ => True).
Proof.
  intros Hw. unfold reconcile_state.
  destruct (TestWorkloadStatus_State (TestWorkload_Status w)) eqn:Hst; [| | |done..].
  - unfold status_update. wp_run. split; [|by intros]. exists w. split; [apply Hw|].
    unfold status_step, state_of. by rewrite Hst.
  - by eapply workload_pending_contract.
  - by eapply workload_running_contract.
Qed.

Lemma workload_contract req : safe contract (Reconcile req) (fun _ _ => True).
Proof.
  unfold safe, Reconcile, get. wp_run. split; [done|]. intros [err|w] _; [done|].
  destruct (DeletionTimestamp_IsZero (TestWorkload_ObjectMeta w)) eqn:Hlive.
  - destruct (negb _).
    + wp_run. split.
      { exists w. split; [done|]. left. split; [by exists w|done]. }
      intros [err|w'] _; [done|]. apply workload_state_contract. split; [done|by exists w].
    + apply workload_state_contract. split; [done|by exists w].
  - eapply workload_deletion_contract; [done|]. split; [done|by exists w].
Qed.


(** C18. A workload moves from no state to pending, from pending to running only when every one of
    its nodes was read as running or ended under its own claim, and from running to succeeded
    only when every node was read as succeeded, to failed only when every node was read as ended
    and one as failed. Nothing else of it is changed but the recorded phases. *)
Theorem workload_state_machine req :
  safe (fun h c => match c with
      | StatusUpdate KTestWorkload o => exists w, last_shown KTestWorkload h = Some w /\ status_step h w o
      | _ => True
      end) (Reconcile req) (fun _ _ => True).
Proof. eapply wp_guard; [apply workload_contract|]. intros h [] Hc; try done; by destruct k. Qed.

(** C26. The finalizer of a workload is removed only when the workload was deleted, and then only
    when every item was let go of: its request or node was not found, or its node was read and had
    nothing to destroy, or the API server was asked to destroy it. *)
Theorem workload_finalizer req :
  safe (fun h c => match c with
      | Update KTestWorkload o => exists w, last_shown KTestWorkload h = Some w /\ object_write h w o
      | Create KTestWorkload _ | Delete KTestWorkload _ => False
      | _ => True
      end) (Reconcile req) (fun _ _ => True).
Proof. eapply wp_guard; [apply workload_contract|]. intros h [] Hc; try done; by destruct k. Qed.

(** Deleting a workload destroys the node of an item whoever has claimed it: whatever the
    claim on the node, once request and node are read, the destruction is asked for, and its
    failure is not noticed. *)
Lemma uninstall_ignores_claim w item c rr node stored h :
  TestWorkloadItemSpec_DockerContainer item = Some c ->
  CouldUninstall (TestResource_State node) = true ->
  exec admissible (uninstall_item w tt item) h
    (Event (StatusUpdate KTestResource (destroyed node)) stored
     :: Event (Get KTestResource (resource_key w c)) (inr node)
     :: Event (Get KTestResourceRequest (request_key w c)) (inr rr) :: h)
    (Ret (inl tt)).
Proof.
  intros Hc Hcould. unfold uninstall_item, getWorkloadRequestNode, get, status_update. rewrite Hc.
  unfold deref. cbn -[CouldUninstall]. exists (inr rr). split; [done|].
  exists (inr node). split; [done|]. cbn -[CouldUninstall]. rewrite Hcould. cbn. by exists stored.
Qed.

End reconcile.

(** A node that another workload has claimed. *)
Definition others_node : TestResource :=
  zeroTestResource <| TestResource_Status ::= fun s =>
    s <| TestResourceStatus_State := ResourceReady |>
      <| TestResourceStatus_ClaimRef := Some (mkRef "ns" "other" "u2") |> |>.

Lemma uninstall_ignores_claim_witness :
  let c := mkContainerSpec (mkResourceRequestRef "req" "n1") "image" "Always" [] in
  let item := mkTestWorkloadItemSpec "item" (Some c) in
  let w := mkTestWorkload (zeroMeta <| ObjectMeta_Name := "mine" |>) (mkTestWorkloadSpec [] [item] [])
             (mkTestWorkloadStatus TestWorkloadStateRunning None None) in
  TestResourceStatus_ClaimRef (TestResource_Status others_node) <> Some (self_ref w) /\
  exec admissible (uninstall_item w tt item) []
    [Event (StatusUpdate KTestResource (destroyed others_node)) (inl (Errorf "conflict"));
     Event (Get KTestResource (resource_key w c)) (inr others_node);
     Event (Get KTestResourceRequest (request_key w c)) (inr zeroTestResourceRequest)]
    (Ret (inl tt)).
Proof.
  intros c item w. split; [discriminate|].
  apply (uninstall_ignores_claim w item c zeroTestResourceRequest others_node (inl (Errorf "conflict")) []); reflexivity.
Defined.
