(* ===== verification/TopologyCtlProofs.v ===== *)
(** * The topology reconciler: what its steps do

    What each operation on a cluster leaves behind it: the commands that succeeded, the files
    and statuses written, for the contract of the reconciler. *)

From S2P Require Import Prelude GoStd Util ApiTypes TopologyTypes Prog World SSH Machine Resource Relationship Docker.
From S2P Require Import TiupSpec TiupCtl TopologyCtl.
Import TopologyCtl.

(** ** What the history tells *)

Section history.

(** A command was run on a host, with this outcome. *)
Definition command (cmd : string) (P : string * string * option error -> Prop) (c : call) : answer c -> Prop :=
  match c return answer c -> Prop with
  | SSHRun _ _ cmd' => fun r => cmd' = cmd /\ P r
  | _ => fun _ => False
  end.
Definition ran (cmd : string) : forall c, answer c -> Prop := command cmd (fun r => r.2 = None).

(** The cluster was destroyed, or there was none. *)
Definition gone (cmd : string) : forall c, answer c -> Prop :=
  command cmd (fun r => r.2 = None \/ strs.Contains r.1.2 "not exists" = true).

(** A resource as it was listed, or as an update of its status answered it. *)
Definition known (r : TestResource) (c : call) : answer c -> Prop :=
  match c return answer c -> Prop with
  | List KTestResource _ _ => fun x => r ∈ x.2
  | StatusUpdate k _ => fun x => match x with inr o => obj_as KTestResource k o = Some r | inl _ => False end
  | _ => fun _ => False
  end.

Definition not_found_at (k : kind) (key : NamespacedName) (c : call) : answer c -> Prop :=
  match c return answer c -> Prop with
  | Get k' key' => fun r => k' = k /\ key' = key /\
      match r with inl e => IsNotFound e = true | inr _ => False end
  | _ => fun _ => False
  end.

(** The resources a request owns were listed, and these are they: what a failed listing answers is
    taken for the list all the same. *)
Definition listed (rr : TestResourceRequest) (items : list TestResource) (c : call) : answer c -> Prop :=
  match c return answer c -> Prop with
  | List KTestResource ns owner => fun x => x.2 = items /\
      ns = Some (ObjectMeta_Namespace (TestResourceRequest_ObjectMeta rr)) /\
      owner = Some (ObjectMeta_Name (TestResourceRequest_ObjectMeta rr))
  | _ => fun _ => False
  end.

(** A resource as an update of its status answered it. *)
Definition rewritten (r : TestResource) (c : call) : answer c -> Prop :=
  match c return answer c -> Prop with
  | StatusUpdate k _ => fun x => match x with inr o => obj_as KTestResource k o = Some r | inl _ => False end
  | _ => fun _ => False
  end.

(** The write of a resource was refused. *)
Definition refused_resource (c : call) : answer c -> Prop :=
  match c return answer c -> Prop with
  | StatusUpdate k _ => fun x => k = KTestResource /\ match x with inl _ => True | inr _ => False end
  | _ => fun _ => False
  end.

(** This request was read. *)
Definition request_is (key : NamespacedName) (rr : TestResourceRequest) (c : call) : answer c -> Prop :=
  match c return answer c -> Prop with
  | Get KTestResourceRequest key' => fun r => key' = key /\ r = inr rr
  | _ => fun _ => False
  end.

(** A request was read, and its state satisfies [P]. *)
Definition request_read (key : NamespacedName) (P : TestResourceRequestState -> Prop) (c : call) : answer c -> Prop :=
  match c return answer c -> Prop with
  | Get KTestResourceRequest key' => fun r =>
      match r with inr rr => key' = key /\ P (TestResourceRequest_State rr) | inl _ => False end
  | _ => fun _ => False
  end.

(** The status of a topology was sent to the API server. *)
Definition stored_topology (P : TestClusterTopology -> Prop) (c : call) : answer c -> Prop :=
  fun _ => match c with StatusUpdate KTestClusterTopology o => P o | _ => False end.

(** Whether the topology was alive when it was read. *)
Definition begun (alive : bool) (h : history) : Prop := exists ct0,
  last_got KTestClusterTopology h = Some ct0 /\ DeletionTimestamp_IsZero (Topology_ObjectMeta ct0) = alive.

(** Commands that destroy a cluster. *)
Definition destroys (cmd : string) : bool :=
  strs.HasPrefix cmd "/root/.tiup/bin/tiup cluster destroy" || strs.HasPrefix cmd "/root/.tiup/bin/tiup dm destroy".

End history.

(** ** The contract *)

Section contract.
Context {Y : Yaml} {D : Defaults Y} {M : Marshal Y} {U : URLs}.

Definition name_of (ct : TestClusterTopology) : string := Topology_Name ct.
Definition state_of (ct : TestClusterTopology) : ClusterTopologyState := TopologyStatus_State (Topology_Status ct).
Definition pre_of (ct : TestClusterTopology) : option TiDBCluster := TopologyStatus_PreTiDBCluster (Topology_Status ct).
Definition tidb_of (ct : TestClusterTopology) : option TiDBCluster := Topology_TiDBCluster (Topology_Spec ct).
Definition info_of (ct : TestClusterTopology) : TiDBClusterInfo := TopologyStatus_TiDBClusterInfo (Topology_Status ct).

(** The request of a topology, in a namespace. *)
Definition request_of (ns : string) (ct : TestClusterTopology) : NamespacedName :=
  mkNamespacedName ns (Topology_ResourceRequest (Topology_Spec ct)).
Definition requested (req : NamespacedName) (h : history) (ct : TestClusterTopology) (rr : TestResourceRequest) : Prop :=
  happened (request_is (request_of (NamespacedName_Namespace req) ct) rr) h.

(** A Flink cluster is its containers. A listed resource of it is looked at once: it is ready and
    runs the image, or it has no state that says otherwise. *)
Definition settled (image : string) (r : TestResource) : Prop :=
  match TestResource_State r with
  | ResourceReady => TestResource_Image r = image
  | ResourceStateNone | ResourceStateOther _ => True
  | _ => False
  end.

(** What makes the preparation of the resources end without asking for another round: one of them,
    as it was listed or written, is in a state of no use or runs another image, or could not be
    written. *)
Definition unprepared (image : string) (resources : list TestResource) (h : history) : Prop :=
  (exists r, (r ∈ resources \/ happened (rewritten r) h) /\
     match TestResource_State r with
     | ResourceReady => TestResource_Image r <> image
     | ResourcePending | ResourceFinish | ResourceDestroy => True
     | _ => False
     end) \/
  happened refused_resource h.

(** The image of the resources of a Flink cluster: if the topology has a DM cluster, too, they are
    prepared for that. *)
Definition flink_image (spec : TestClusterTopologySpec) (c : FlinkCluster) : string :=
  match Topology_DMCluster spec with
  | Some _ => tiup.ContainerImage
  | None => flink.BaseImageName +:+ FlinkCluster_Version c
  end.

(** All the listed resources of the cluster are settled; or their preparation failed, an error that
    is dropped. *)
Definition flink_deployed (rr : TestResourceRequest) (h : history) (ct : TestClusterTopology) (c : FlinkCluster) : Prop :=
  let spec := Topology_Spec ct in
  exists items, happened (listed rr items) h /\
    let resources := load items (filterClusterResources ct items) in
    (Forall (settled (flink_image spec c)) resources \/
     unprepared (flink_image spec c) resources h \/
     exists err, TopologyEnvs.indexResourceExposedPorts spec resources = Ret (inl err)).

(** The cluster of a topology runs on the resources of a request; without a cluster there is nothing
    to run. *)
Definition deployed (rr : TestResourceRequest) (h : history) (ct : TestClusterTopology) : Prop :=
  let spec := Topology_Spec ct in
  match Topology_TiDBCluster spec, Topology_FlinkCluster spec, Topology_DMCluster spec with
  | Some _, _, _ => happened (ran (ClusterManager.start_cmd (name_of ct))) h
  | None, Some c, _ => flink_deployed rr h ct c
  | None, None, Some _ => happened (ran (DMManager.start_cmd (name_of ct))) h
  | None, None, None => True
  end.

Definition display_cmd (name : string) : string := ClusterManager.tiup_cluster +:+ "display " +:+ name.
Definition version_cmd (name : string) : string :=
  display_cmd name +:+ " | grep 'Cluster version' | awk -F ':' '{print $2}'".
Definition prune_cmd (name : string) : string := ClusterManager.tiup_cluster +:+ "prune " +:+ name +:+ " -y".

(** Each kind of change there is between the clusters was carried out. *)
Definition upgraded (h : history) (ct : TestClusterTopology) (cur : TiDBCluster) : Prop :=
  happened (ran (ClusterManager.upgrade_cmd (name_of ct) cur)) h \/
  happened (command (version_cmd (name_of ct)) (fun r => r.2 = None /\
    strs.TrimSpace r.1.1 = Version_Version (TiDBCluster_Version cur))) h.
Definition reconfigured (h : history) (ct : TestClusterTopology) (pre cur : TiDBCluster) : Prop :=
  compare.diffTiDBClusterConfig pre cur = [] \/
  happened (ran (ClusterManager.reload_cmd (name_of ct) (compare.diffTiDBClusterConfig pre cur))) h.
(** The nodes to remove are those of [scale_in_nodes], at the addresses of the resources listed. *)
Definition scaled_in (rr : TestResourceRequest) (h : history) (ct : TestClusterTopology) (pre cur : TiDBCluster) : Prop :=
  exists items, happened (listed rr items) h /\
    let ips := TopologyEnvs.hostname2ClusterIP items in
    happened (ran (ClusterManager.scaleIn_cmd (name_of ct) (compare.getScaleInNode ips pre cur).2)) h.
Definition scaled_out (h : history) (ct : TestClusterTopology) : Prop :=
  happened (ran (ClusterManager.scaleOut_cmd (name_of ct))) h.

Definition updated (rr : TestResourceRequest) (h : history) (ct : TestClusterTopology) (pre cur : TiDBCluster) : Prop :=
  (compare.IsUpgraded pre cur = true -> upgraded h ct cur) /\
  (compare.IsConfigModified pre cur = true -> reconfigured h ct pre cur) /\
  (compare.IsScaleIn pre cur = true -> scaled_in rr h ct pre cur) /\
  (compare.IsScaleOut pre cur = true -> scaled_out h ct).

Definition set_info (f : TiDBClusterInfo -> TiDBClusterInfo) : TestClusterTopology -> TestClusterTopology :=
  with_status (fun s => s <| TopologyStatus_TiDBClusterInfo ::= f |>).
Definition set_pre (cur : TiDBCluster) : TestClusterTopology -> TestClusterTopology :=
  with_status (fun s => s <| TopologyStatus_PreTiDBCluster := Some cur |>).
Definition set_lists (pending offline : list string) : TestClusterTopology -> TestClusterTopology :=
  set_info (fun i => i <| TiDBClusterInfo_PendingOfflineList := pending |>
                       <| TiDBClusterInfo_OfflineList := offline |>).
Definition no_longer_scaling : TestClusterTopology -> TestClusterTopology :=
  set_info (fun i => i <| TiDBClusterInfo_IsScaling := false |>).

(** The lists of stores that leave are those the cluster displays. *)
Definition displayed (h : history) (ct : TestClusterTopology) (pending offline : list string) : Prop :=
  exists text1 text2,
    happened (command (display_cmd (name_of ct)) (fun r => r.2 = None /\ r.1.1 = text1)) h /\
    happened (command (display_cmd (name_of ct)) (fun r => r.2 = None /\ r.1.1 = text2)) h /\
    pending = ClusterManager.nodes_of text1 "Pending" /\
    offline = filterb (fun n => negb (Slice.StringsContains pending n)) (ClusterManager.nodes_of text2 "Offline").

(** The steps of a topology's status. *)
Inductive status_step (req : NamespacedName) (h : history) (ct : TestClusterTopology) : TestClusterTopology -> Prop :=
| step_start :
    state_of ct = ClusterTopologyStateNone ->
    status_step req h ct (set_state ClusterTopologyStatePending ct)
| step_install rr :
    state_of ct = ClusterTopologyStatePending ->
    requested req h ct rr -> TestResourceRequest_State rr = TestResourceRequestReady -> deployed rr h ct ->
    status_step req h ct (set_state ClusterTopologyStateReady ct)
| step_first cur :
    state_of ct = ClusterTopologyStateReady -> tidb_of ct = Some cur -> pre_of ct = None ->
    status_step req h ct (set_pre cur ct)
| step_change pre cur :
    state_of ct = ClusterTopologyStateReady -> tidb_of ct = Some cur -> pre_of ct = Some pre -> pre <> cur ->
    status_step req h ct (set_state ClusterTopologyStateUpdating ct)
| step_update rr pre cur (scaling : bool) :
    state_of ct = ClusterTopologyStateUpdating -> tidb_of ct = Some cur -> pre_of ct = Some pre ->
    requested req h ct rr -> updated rr h ct pre cur -> scaling = compare.IsScaleIn pre cur || TiDBClusterInfo_IsScaling (info_of ct) ->
    status_step req h ct (set_state ClusterTopologyStateReady
      (set_pre cur (set_info (fun i => i <| TiDBClusterInfo_IsScaling := scaling |>) ct)))
| step_follow pending offline :
    state_of ct = ClusterTopologyStateReady -> TiDBClusterInfo_IsScaling (info_of ct) = true ->
    displayed h ct pending offline ->
    status_step req h ct (set_lists pending offline ct)
| step_prune :
    happened (stored_topology (fun o => TiDBClusterInfo_PendingOfflineList (info_of o) = [] /\
                                        TiDBClusterInfo_OfflineList (info_of o) = [])) h ->
    happened (ran (prune_cmd (name_of ct))) h ->
    status_step req h ct (no_longer_scaling ct).

(** What is written of a resource: the container it is to run, and its host name. *)
Definition prepared (r o : TestResource) : Prop :=
  TestResource_State r = ResourceUninitialized /\ TestResource_Image r = "" /\
  exists container hostName,
    o = r <| TestResource_Status ::= fun s =>
          s <| TestResourceStatus_Container := container |> <| TestResourceStatus_HostName := hostName |> |>.

(** The command that destroys the cluster of a topology: there is one for what tiup deploys. *)
Definition destroys_own (ct : TestClusterTopology) (cmd : string) : Prop :=
  let spec := Topology_Spec ct in
  match Topology_TiDBCluster spec, Topology_FlinkCluster spec, Topology_DMCluster spec with
  | Some _, _, _ => cmd = ClusterManager.destroy_cmd (name_of ct)
  | None, None, Some _ => cmd = DMManager.destroy_cmd (name_of ct)
  | _, _, _ => False
  end.

(** What is known of the cluster of a deleted topology when it is let go: it was never put on a
    request, or its request is gone or not ready; it was destroyed, or did not exist; or it is none
    that tiup deploys, and its request was ready: then nothing is done about it, and the containers
    of a Flink cluster are left to the resources they run in. *)
Definition uninstalled (h : history) (ct : TestClusterTopology) : Prop :=
  let request := request_of (ObjectMeta_Namespace (Topology_ObjectMeta ct)) ct in
  Topology_ResourceRequest (Topology_Spec ct) = "" \/
  happened (not_found_at KTestResourceRequest request) h \/
  happened (request_read request (fun s => s <> TestResourceRequestReady)) h \/
  (exists cmd, destroys_own ct cmd /\ happened (gone cmd) h) \/
  ((forall cmd, ~ destroys_own ct cmd) /\ happened (request_read request (eq TestResourceRequestReady)) h).

Definition object_write (req : NamespacedName) (h : history) (ct o : TestClusterTopology) : Prop :=
  let finalizerName := NamespacedName_Name req in
  (begun true h /\ o = ct <| Topology_ObjectMeta ::= fun m =>
     m <| ObjectMeta_Finalizers := ObjectMeta_Finalizers m ++ [finalizerName] |> |>) \/
  (begun false h /\
   (finalizerName ∈ ObjectMeta_Finalizers (Topology_ObjectMeta ct) -> uninstalled h ct) /\
   exists fs, Slice.StringsRemove (ObjectMeta_Finalizers (Topology_ObjectMeta ct)) finalizerName = Ret fs /\
     o = ct <| Topology_ObjectMeta ::= fun m => m <| ObjectMeta_Finalizers := fs |> |>).

Definition contract (req : NamespacedName) (h : history) (c : call) : Prop :=
  match c with
  | StatusUpdate KTestClusterTopology o => begun true h /\ exists ct,
      last_shown KTestClusterTopology h = Some ct /\ status_step req h ct o
  | Update KTestClusterTopology o => exists ct,
      last_shown KTestClusterTopology h = Some ct /\ object_write req h ct o
  | StatusUpdate KTestResource o => begun true h /\ exists r, happened (known r) h /\ prepared r o
  | StatusUpdate _ _ | Update _ _ | Create _ _ | Delete _ _ => False
  | SSHRun _ _ cmd => destroys cmd = true -> begun false h /\ exists ct,
      last_shown KTestClusterTopology h = Some ct /\ destroys_own ct cmd
  | _ => True
  end.

End contract.

(** A history grown by events that are spelled out. *)
Ltac still := split; [done|intros ? ?; repeat apply happened_later; done].

Section proofs.
Context {Y : Yaml} {D : Defaults Y} {M : Marshal Y} {U : URLs}.
Context (req : NamespacedName) (ct : TestClusterTopology) (alive : bool).

Abbreviation K := KTestClusterTopology.
Abbreviation triple := (hoare admissible (contract req) (holds_still K)).

(** The handler works on [ct], and began with a topology that was alive or not. *)
Definition at_ct (h : history) : Prop := last_shown K h = Some ct /\ begun alive h.

Lemma at_ct_stable : stable (holds_still K) at_ct.
Proof. intros h h' ((E & E') & _) H. unfold at_ct, begun. by rewrite E, E'. Qed.
Lemma happened_stable P : stable (holds_still K) (happened P).
Proof. intros h h' (_ & H). apply H. Qed.
Lemma begun_stable b : stable (holds_still K) (begun b).
Proof. intros h h' ((_ & E) & _) H. unfold begun. by rewrite E. Qed.

(** Calls that show no topology. *)
Lemma triple_ask (c : call) (Pre : history -> Prop) (Post : history -> answer c -> Prop) :
  (forall h, Pre h -> contract req h c) ->
  (forall x, shown K c x = None /\ got K c x = None) ->
  (forall h x, Pre h -> admissible c x -> Post (Event c x :: h) x) ->
  triple Pre (ask c) Post.
Proof.
  intros Hc Hs HP. apply hoare_ask. intros h Hh. split; [by apply Hc|]. intros x Hx. split; [|by apply HP].
  split; [|intros P; apply happened_later]. simpl. destruct (Hs x) as [E1 E2]. by rewrite E1, E2.
Qed.

(** ** Sequencing *)

Abbreviation quiet p := (triple (fun _ => True) p (fun _ _ => True)).

(** A step, of which [Mid] is kept, and a fact of the start that stays. *)
Lemma seq_keep {A B} (F : history -> Prop) (Pre : history -> Prop) (Mid : history -> A -> Prop)
    (Post : history -> B -> Prop) (p : io A) (f : A -> io B) :
  stable (holds_still K) F -> (forall h, Pre h -> F h) -> triple Pre p Mid ->
  (forall a, triple (fun h => F h /\ Mid h a) (f a) Post) -> triple Pre (p ≫= f) Post.
Proof. intros HF HPre Hp Hf. by eapply (hoare_bind _ _ _ F). Qed.

Lemma seq {A B} (Pre : history -> Prop) (Mid : history -> A -> Prop) (Post : history -> B -> Prop)
    (p : io A) (f : A -> io B) :
  triple (fun _ => True) p Mid -> (forall a, triple (fun h => Mid h a) (f a) Post) -> triple Pre (p ≫= f) Post.
Proof.
  intros Hp Hf. eapply (seq_keep (fun _ => True)); [done|done|by eapply hoare_mono|].
  intros a. eapply hoare_mono; [apply Hf|by intros h [_ H]|done].
Qed.

Lemma ret {A} (Pre : history -> Prop) (Post : history -> A -> Prop) (a : A) :
  (forall h, Pre h -> Post h a) -> triple Pre (mret a) Post.
Proof. apply hoare_ret. apply _. Qed.

Lemma seq_lift {A B} (Pre : history -> Prop) (Post : history -> B -> Prop) (m : go A) (f : A -> io B) :
  (forall a, m = Ret a -> triple Pre (f a) Post) -> triple Pre (lift m ≫= f) Post.
Proof.
  intros H h Hh. apply wp_bind, wp_lift. destruct m as [a|e]; [by apply H|by split].
Qed.

(** A fact of the start that a quiet stretch keeps. *)
Lemma keep {A} (F : history -> Prop) (Pre : history -> Prop) (Post : history -> A -> Prop) (p : io A) :
  stable (holds_still K) F -> (forall h, Pre h -> F h) -> quiet p -> (forall h a, F h -> Post h a) -> triple Pre p Post.
Proof.
  intros HF HPre Hp HPost h Hh. eapply wp_mono; [by apply Hp|].
  intros h' [a|e] [Hext _]; (split; [done|]); [|done]. by eapply HPost, HF, HPre.
Qed.

(** ** Commands over SSH *)

(** A command the reconciler may run at this point. *)
Definition allowed (cmd : string) (Pre : history -> Prop) : Prop :=
  forall h, Pre h -> contract req h (SSHRun "" 0 cmd).

Lemma allowed_harmless cmd Pre : destroys cmd = false -> allowed cmd Pre.
Proof. intros H h _ Hd. congruence. Qed.

(** At a deleted topology. *)
Definition dead (t : TestClusterTopology) (h : history) : Prop := last_shown K h = Some t /\ begun false h.
Lemma dead_stable t : stable (holds_still K) (dead t).
Proof. intros h h' ((E & E') & _) H. unfold dead, begun. by rewrite E, E'. Qed.
Lemma allowed_own t cmd : destroys_own t cmd -> allowed cmd (dead t).
Proof. intros Hown h [Ht Hb] _. split; [done|]. by exists t. Qed.

Lemma NewSSHClient_spec user keyPath host port :
  triple (fun _ => True) (sshUtil.NewSSHClient user keyPath host port) (fun h r => match r with
    | inl err => external (Some err)
    | inr _ => True
    end).
Proof.
  intros h _. unfold sshUtil.NewSSHClient. wp_run. split; [done|]. intros [err|key] _; wp_run; [split; [still|done]|].
  split; [done|]. intros [err|] _; wp_run; [split; [still|done]|].
  split; [done|]. intros [err|] Hx; wp_run; (split; [still|done]).
Qed.

Lemma with_ssh_spec {A} control (on_error : error -> A) (body : sshUtil.Client -> io A) Pre (Post : history -> A -> Prop) :
  stable (holds_still K) Pre -> (forall client, triple Pre (body client) Post) ->
  (forall a, stable (holds_still K) (fun h => Post h a)) ->
  (forall h err, external (Some err) -> Post h (on_error err)) ->
  triple Pre (with_ssh control on_error body) Post.
Proof.
  intros HPre Hbody Hstable Herr. unfold with_ssh.
  eapply (seq_keep Pre); [done|done|by eapply hoare_mono; [apply NewSSHClient_spec|..]|].
  intros [err|client]; [apply ret; intros h [_ Hr]; by apply Herr|].
  eapply (hoare_mono _ _ _ Pre); [|by intros h [? _]|done].
  apply hoare_deferring; [apply _|done|by apply triple_ask|done].
Qed.

(** No session was opened, or the command ran and this is what it answered. *)
Definition answered (cmd : string) (h : history) (r : string * string * option error) : Prop :=
  (exists err, r = ("", "", Some err)) \/ happened (command cmd (eq r)) h.

Lemma RunCommand_spec client cmd Pre :
  stable (holds_still K) Pre -> allowed cmd Pre -> triple Pre (sshUtil.RunCommand client cmd) (answered cmd).
Proof.
  intros HPre Hallowed. unfold sshUtil.RunCommand.
  eapply (seq_keep Pre _ (fun _ _ => True)); [done|done|by apply triple_ask|].
  intros [err|]; [apply ret; intros h _; left; eauto|].
  eapply (hoare_mono _ _ _ Pre); [|by intros h [? _]|done].
  apply hoare_deferring; [apply _| |by apply triple_ask|].
  - apply triple_ask; [exact Hallowed|done|]. intros h x _ _. right. by apply happened_here.
  - intros a h h' [_ Hext] [H|H]; [by left|right; by apply Hext].
Qed.

(** A harmless command, from any point. *)
Lemma RunCommand_harmless client cmd :
  destroys cmd = false -> triple (fun _ => True) (sshUtil.RunCommand client cmd) (answered cmd).
Proof. intros H. apply RunCommand_spec; [done|by apply allowed_harmless]. Qed.

Lemma answered_ok cmd (P : string * string * option error -> Prop) h out errout :
  answered cmd h (out, errout, None) -> P (out, errout, None) -> happened (command cmd P) h.
Proof.
  intros [[err ?]|H] HP; [done|]. eapply happened_impl; [|exact H].
  intros [] x Hx; try done. simpl in *. destruct Hx as [-> <-]. done.
Qed.

Lemma command_impl cmd (P Q : string * string * option error -> Prop) h :
  (forall r, P r -> Q r) -> happened (command cmd P) h -> happened (command cmd Q) h.
Proof. intros HPQ. apply happened_impl. intros [] x Hx; try done. simpl in *. naive_solver. Qed.

(** One command: it ran, or its failure is what is told of it. *)
Definition outcome (cmd : string) (fail : error -> string -> string -> error) (h : history)
    (r : option error) : Prop :=
  match r with
  | None => happened (ran cmd) h
  | Some e => external (Some e) \/
      exists err stdStr errStr, e = fail err stdStr errStr /\
        answered cmd h (stdStr, errStr, Some err)
  end.

Lemma outcome_stable cmd fail r : stable (holds_still K) (fun h => outcome cmd fail h r).
Proof.
  intros h h' [_ Hext]. destruct r as [e|]; simpl; [|apply Hext].
  intros [He|(err & s & s' & -> & Hh)]; [by left|]. right. exists err, s, s'. split; [done|].
  destruct Hh as [Hh|Hh]; [by left|right; by apply Hext].
Qed.

Lemma ssh_command_spec control cmd fail Pre :
  stable (holds_still K) Pre -> allowed cmd Pre ->
  triple Pre (ssh_command control cmd fail) (outcome cmd fail).
Proof.
  intros HPre Hallowed. apply with_ssh_spec; [done| |by apply outcome_stable|by left].
  intros client. eapply (seq_keep (fun _ => True)); [done|done|by apply RunCommand_spec|].
  intros [[out errout] [err|]]; apply ret; intros h [_ Hr]; simpl.
  - right. exists err, out, errout. split; [done|exact Hr].
  - by eapply answered_ok.
Qed.

Lemma scp_write_quiet control out path : triple (fun _ => True) (scp_write control out path) (fun _ _ => True).
Proof.
  intros h _. unfold scp_write. wp_run. split; [done|]. intros [err|] _; wp_run; [split; [still|done]|].
  split; [done|]. intros [err|] _; wp_run; (split; [still|done]).
Qed.

(** A command whose failure does not matter here. *)
Lemma ssh_command_quiet control cmd fail :
  destroys cmd = false -> triple (fun _ => True) (ssh_command control cmd fail)
    (fun h r => r = None -> happened (ran cmd) h).
Proof.
  intros Hd. eapply hoare_mono; [by apply (ssh_command_spec control cmd fail (fun _ => True)), allowed_harmless|done|].
  by intros h [e|] Hr; [|intros _].
Qed.

Lemma privateKey_quiet user path : quiet (ask (SCPPrivateKey user path)).
Proof. by apply triple_ask. Qed.

(** ** The TiDB cluster manager *)

Import ClusterManager.

Lemma run_all_quiet client cmds :
  Forall (fun cmd => destroys cmd = false) cmds -> quiet (run_all client cmds).
Proof.
  induction 1 as [|cmd l Hcmd _ IH]; [by apply ret|]. cbn [run_all].
  eapply seq; [by apply RunCommand_harmless|]. intros [[out errout] [err|]]; [by apply ret|].
  by eapply hoare_mono; [exact IH|..].
Qed.

Lemma copy_cmds_harmless c component : Forall (fun cmd => destroys cmd = false) (copy_cmds c component).
Proof.
  unfold copy_cmds. repeat case_match; try apply Forall_nil_2; apply Forall_fmap, Forall_true; done.
Qed.

Lemma patch_quiet c name version : quiet (patch c name version).
Proof.
  apply with_ssh_spec; [done| |done|done]. intros client. cbv zeta.
  destruct (compare.download_commands (compare.patchComponents version) first_commands) as [e|downloads]; [by apply ret|].
  eapply seq; [by apply RunCommand_harmless|]. by intros [[out errout] [err|]]; apply ret.
Qed.

Lemma replace_quiet c name version : quiet (replace c name version).
Proof.
  apply with_ssh_spec; [done| |done|done]. intros client. cbv zeta.
  destruct (compare.download_commands (compare.patchComponents version) first_commands) as [e|downloads]; [by apply ret|].
  apply run_all_quiet. constructor; [done|].
  induction (compare.patchComponents version) as [|[n u] l IH]; [constructor|]. simpl.
  apply Forall_app. split; [apply copy_cmds_harmless|done].
Qed.

Lemma write_quiet c out : quiet (writeTopologyFileOnControl c out).
Proof. eapply seq; [apply privateKey_quiet|]. intros r. apply scp_write_quiet. Qed.

Lemma InstallCluster_spec c name version mirror :
  triple (fun _ => True) (InstallCluster c name version mirror)
    (fun h r => r = None -> happened (ran (start_cmd name)) h).
Proof.
  unfold InstallCluster. destruct (Marshal_spec _) as [outfile [err|]]; [by apply ret|].
  eapply seq; [apply write_quiet|]. intros [err|]; [by apply ret|].
  eapply (seq _ (fun _ _ => True)).
  { destruct (negb _); [|by apply ret]. by eapply hoare_mono; [apply ssh_command_quiet|..]. }
  intros [err|]; [by apply ret|].
  eapply (seq _ (fun _ _ => True)); [by eapply hoare_mono; [apply ssh_command_quiet|..]|].
  intros err. destruct (IgnoreClusterDuplicated err) eqn:Hig.
  { apply ret. intros h _ ->. done. }
  eapply (seq _ (fun _ _ => True)); [destruct (_ && _); [apply replace_quiet|by apply ret]|].
  intros [err'|]; [by apply ret|].
  eapply seq; [by apply ssh_command_quiet|]. intros [err'|]; [by apply ret|].
  destruct (_ && _); [|apply ret; auto].
  eapply (keep (fun h => happened (ran (start_cmd name)) h)); [apply happened_stable|auto|apply patch_quiet|auto].
Qed.

Lemma clusters_Ret t pre cur : clusters t = Ret (pre, cur) -> pre_of t = Some pre /\ tidb_of t = Some cur.
Proof.
  unfold clusters, pre_of, tidb_of. destruct (TopologyStatus_PreTiDBCluster _); [|done].
  destruct (Topology_TiDBCluster _); [|done]. by intros [= -> ->].
Qed.

Lemma UpdateCluster_spec c t :
  triple (fun _ => True) (UpdateCluster c (name_of t) t)
    (fun h r => r = None -> forall pre cur, pre_of t = Some pre -> tidb_of t = Some cur -> reconfigured h t pre cur).
Proof.
  unfold UpdateCluster. apply seq_lift. intros [pre cur] Hc. apply clusters_Ret in Hc as [Hpre Hcur].
  rewrite Hpre, Hcur. cbv zeta. destruct (Z.eqb_spec (len (compare.diffTiDBClusterConfig pre cur)) 0) as [Hz|Hz].
  { apply ret. intros h _ _ ?? [= <-] [= <-]. left. by apply len_zero. }
  destruct (Marshal_meta _) as [outfile [err|]]; [by apply ret|].
  eapply (seq _ (fun _ _ => True)).
  { eapply seq; [apply privateKey_quiet|]. intros r. apply scp_write_quiet. }
  intros [err|]; [by apply ret|]. eapply hoare_mono; [by apply ssh_command_quiet|done|].
  intros h r Hr -> ?? [= <-] [= <-]. right. by apply Hr.
Qed.

Lemma GetClusterVersion_spec c name :
  triple (fun _ => True) (GetClusterVersion c name) (fun h r => match r with
    | inl _ => True
    | inr v => happened (command (version_cmd name) (fun x => x.2 = None /\ strs.TrimSpace x.1.1 = v)) h
    end).
Proof.
  apply with_ssh_spec; [done| |intros [e|v]; [done|apply happened_stable]|done].
  intros client. eapply seq; [by apply RunCommand_harmless|]. intros [[out errout] [err|]]; [by apply ret|].
  apply ret. intros h Hr. by eapply answered_ok.
Qed.

Lemma UpgradeCluster_spec c t cur :
  tidb_of t = Some cur ->
  triple (fun _ => True) (UpgradeCluster c (name_of t) t) (fun h r => r = None -> upgraded h t cur).
Proof.
  intros Hcur. unfold UpgradeCluster. eapply seq; [apply GetClusterVersion_spec|].
  intros [err|v]; [by apply ret|]. unfold tidb_of in Hcur. rewrite Hcur. unfold deref.
  apply seq_lift. intros cur' [= <-]. destruct (String.eqb_spec v (Version_Version (TiDBCluster_Version cur))) as [->|Hv].
  { apply ret. intros h Hh _. by right. }
  eapply hoare_mono; [apply (with_ssh_spec _ _ _ (fun _ => True) (fun h r => r = None -> upgraded h t cur))|done|done].
  - done.
  - intros client. apply seq_lift. intros pre _. eapply seq; [by apply RunCommand_harmless|].
    intros [[out errout] [err|]]; [by apply ret|]. apply ret. intros h Hr _. left.
    by eapply answered_ok.
  - intros a h h' [_ Hext] H Ha. destruct (H Ha) as [Hu|Hu]; [left|right]; by apply Hext.
  - done.
Qed.

(** Filling in the default ports does not change what is still to be decided. *)
Definition ports_filled (ips : gmap string string) (t t' : TestClusterTopology) (pre cur : TiDBCluster) : Prop :=
  t' = t <| Topology_Status ::= fun s =>
    s <| TopologyStatus_PreTiDBCluster := Some (compare.getScaleInNode ips pre cur).1 |> |>.

Lemma ScaleInCluster_spec c t ips :
  triple (fun _ => True) (ScaleInCluster c (name_of t) t ips) (fun h r =>
    exists pre cur, pre_of t = Some pre /\ tidb_of t = Some cur /\ ports_filled ips t r.2 pre cur /\
      (r.1 = None -> happened (ran (scaleIn_cmd (name_of t) (compare.getScaleInNode ips pre cur).2)) h)).
Proof.
  unfold ScaleInCluster. apply seq_lift. intros [pre cur] Hc. apply clusters_Ret in Hc as [Hpre Hcur].
  destruct (compare.getScaleInNode ips pre cur) as [pre' nodes] eqn:Hnodes.
  eapply seq; [by apply (ssh_command_quiet _ (scaleIn_cmd (name_of t) nodes))|]. intros err. apply ret.
  intros h Hr. exists pre, cur. unfold ports_filled. by rewrite Hnodes.
Qed.

Lemma ScaleOutCluster_spec c t ips :
  triple (fun _ => True) (ScaleOutCluster c (name_of t) t ips) (fun h r => r = None -> scaled_out h t).
Proof.
  unfold ScaleOutCluster. apply seq_lift. intros [pre cur] _.
  destruct (compare.getScaleOutRoles ips pre cur) as [[tidbs pds] tikvs].
  destruct (Marshal_scaleOut _) as [outfile merr]. eapply (seq _ (fun _ _ => True)).
  { eapply seq; [apply privateKey_quiet|]. intros [err|]; [by apply ret|apply scp_write_quiet]. }
  intros [err|]; [by apply ret|]. destruct merr as [err|]; [by apply ret|].
  by eapply hoare_mono; [apply ssh_command_quiet|..].
Qed.

Lemma PruneCluster_spec c name :
  triple (fun _ => True) (PruneCluster c name) (fun h r => r = None -> happened (ran (prune_cmd name)) h).
Proof. by apply ssh_command_quiet. Qed.

Lemma GetNodeStatusList_spec c name status :
  triple (fun _ => True) (GetNodeStatusList c name status) (fun h r => match r with
    | inl _ => True
    | inr l => exists text, l = nodes_of text status /\
        happened (command (display_cmd name) (fun x => x.2 = None /\ x.1.1 = text)) h
    end).
Proof.
  apply with_ssh_spec; [done| | |done].
  - intros client. eapply seq; [by apply RunCommand_harmless|]. intros [[out errout] [err|]]; [by apply ret|].
    apply ret. intros h Hr. exists out. split; [done|]. by eapply answered_ok.
  - intros [e|l] h h' [_ Hext]; [done|]. intros (text & -> & Hh). exists text. auto.
Qed.

(** An uninstallation that ends well, or finds nothing. *)
Lemma destroy_spec t control cmd name : destroys_own t cmd ->
  triple (dead t) (ssh_command control cmd (fun err _ errStr =>
      if strs.Contains errStr "not exists" then ErrClusterNotExist name
      else Errorf ("cannot run remote command `" +:+ cmd +:+ "`: " +:+ Error err)))
    (fun h r => IgnoreClusterNotExist r = None -> happened (gone cmd) h).
Proof.
  intros Hown. eapply hoare_mono; [apply (ssh_command_spec _ _ _ (dead t)); [apply dead_stable|by apply allowed_own]|done|].
  intros h [e|] Hr; simpl in Hr.
  - destruct Hr as [Hext|(err & out & errout & -> & Hh)]; [by destruct e|].
    destruct (strs.Contains errout "not exists") eqn:Hne; [|done]. intros _.
    destruct Hh as [[err' [= -> -> ->]]|Hh]; [done|]. eapply command_impl; [|exact Hh]. intros x <-. by right.
  - intros _. eapply command_impl; [|exact Hr]. intros x Hx. by left.
Qed.

(** ** The DM cluster manager *)

Lemma DM_InstallCluster_spec c name version :
  triple (fun _ => True) (DMManager.InstallCluster c name version)
    (fun h r => r = None -> happened (ran (DMManager.start_cmd name)) h).
Proof.
  unfold DMManager.InstallCluster. destruct (Marshal_dm _) as [outfile [err|]]; [by apply ret|].
  eapply (seq _ (fun _ _ => True)).
  { eapply seq; [apply privateKey_quiet|]. intros r. apply scp_write_quiet. }
  intros [err|]; [by apply ret|].
  eapply (seq _ (fun _ _ => True)); [by eapply hoare_mono; [apply ssh_command_quiet|..]|].
  intros err. destruct (IgnoreClusterDuplicated err) eqn:Hig.
  { apply ret. intros h _ ->. done. }
  eapply seq; [by apply ssh_command_quiet|]. intros [err'|]; apply ret; auto.
Qed.

(** ** Preparing the resources *)

(** Everything in memory was listed or stored. *)
Definition all_known (items : list TestResource) (h : history) : Prop :=
  forall r, r ∈ items -> happened (known r) h.
Definition preparing (h : history) (items : list TestResource) : Prop := begun true h /\ all_known items h.

Lemma preparing_stable items : stable (holds_still K) (fun h => preparing h items).
Proof.
  intros h h' Hext [Hb Hk]. split; [by eapply begun_stable|]. intros r Hr. by apply Hext, Hk.
Qed.

Lemma preparing_insert h items p r :
  preparing h items -> happened (known r) h -> preparing h (<[p := r]> items).
Proof.
  intros [Hb Hk] Hr. split; [done|]. intros x Hx. apply list_elem_of_lookup in Hx as [i Hi].
  apply list_lookup_insert_Some in Hi as [(_ & <- & _)|[_ Hi]]; [done|]. apply Hk. by eapply list_elem_of_lookup_2.
Qed.

(** A preparation touches the container and the host name only. *)
Definition only_container (prepare : TestResource -> TestResourceStatus -> TestResourceStatus) : Prop :=
  forall r s, exists container hostName,
    prepare r s = s <| TestResourceStatus_Container := container |> <| TestResourceStatus_HostName := hostName |>.

Lemma tiup_container_only capAdd ports : only_container (tiup_container capAdd ports).
Proof. intros r s. eexists (TestResourceStatus_Container (tiup_container capAdd ports r s)), _. by destruct s. Qed.
Lemma haproxy_container_only proxy name : only_container (haproxy_container proxy name).
Proof. intros r s. eexists (TestResourceStatus_Container (haproxy_container proxy name r s)), _. by destruct s. Qed.
Lemma flink_container_only c ports : only_container (flink_container c ports).
Proof.
  intros r s. exists (TestResourceStatus_Container (flink_container c ports r s)),
    (TestResourceStatus_HostName (flink_container c ports r s)).
  unfold flink_container. cbv zeta. destruct s. by repeat case_match.
Qed.

(** In memory is what was listed, or answered by an update. *)
Definition in_memory (items its : list TestResource) (h : history) : Prop :=
  forall q r, its !! q = Some r -> items !! q = Some r \/ happened (rewritten r) h.

(** As long as no other round was asked for, nothing was written and what was seen is settled. *)
Definition quietly (image : string) (items : list TestResource) (requeue : bool) (seen : list nat)
    (st : list TestResource * bool) : Prop :=
  st.2 = false -> requeue = false /\ st.1 = items /\ Forall (settled image) (load items seen).

Definition ends_unprepared (image : string) (resources : list TestResource) (h : history)
    (r : bool * option error * list TestResource) : Prop :=
  exists err items, r = (false, Some err, items) /\ unprepared image resources h.

Lemma load_app items ps qs : load items (ps ++ qs) = load items ps ++ load items qs.
Proof. apply omap_app. Qed.

Definition at_node (image : string) (items : list TestResource) (requeue : bool) (h : history) (seen : list nat)
    (st : list TestResource * bool) : Prop :=
  preparing h st.1 /\ quietly image items requeue seen st /\ in_memory items st.1 h.

Lemma init_node_spec image expected prepare items ps requeue seen st p :
  only_container prepare -> p ∈ ps ->
  triple (fun h => at_node expected items requeue h seen st) (init_node image expected prepare st p)
    (fun h r => match r with
      | inl st' => at_node expected items requeue h (seen ++ [p]) st'
      | inr r => ends_unprepared expected (load items ps) h r
      end).
Proof.
  intros Hprep Hps. destruct st as [its b]. unfold at_node. simpl. intros h (Hpre & Hq & Hmem). unfold init_node.
  assert (Hsame : match its !! p with Some r => settled expected r | None => True end ->
    quietly expected items requeue (seen ++ [p]) (its, b)).
  { intros Hset Hb. destruct (Hq Hb) as (-> & Hits & Hall). simpl in Hits. subst its. split; [done|]. split; [done|].
    rewrite load_app. apply Forall_app. split; [done|]. unfold load. simpl. destruct (items !! p); by repeat constructor. }
  assert (Hagain : forall its', quietly expected items requeue (seen ++ [p]) (its', true)) by by intros its' [=].
  destruct (its !! p) as [r|] eqn:Hp; [|split; [done|]; split; [done|]; split; [by apply Hsame|done]].
  assert (Hr : happened (known r) h) by (apply Hpre; by eapply list_elem_of_lookup_2).
  assert (Hbad : forall err, match TestResource_State r with
      | ResourceReady => TestResource_Image r <> expected
      | ResourcePending | ResourceFinish | ResourceDestroy => True | _ => False end ->
    ends_unprepared expected (load items ps) h (false, Some err, its)).
  { intros err Hst. exists err, its. split; [done|]. left. exists r. split; [|done].
    destruct (Hmem p r Hp) as [Hi|?]; [left|by right]. apply list_elem_of_omap. by exists p. }
  unfold settled in Hsame.
  destruct (TestResource_State r) eqn:Hst;
    try (wp_run; split; [done|]; first [by apply Hbad|by split; [|split; [apply Hsame|]]]).
  - destruct (String.eqb_spec (TestResource_Image r) "") as [Him|Him]; [|by split; [|split; [|split; [apply Hagain|]]]].
    wp_run. split.
    { split; [apply Hpre|]. exists r. split; [done|]. split; [done|]. split; [done|].
      edestruct Hprep as (k & hn & E). exists k, hn. simpl. unfold eta, TestResource_eta. rewrite E. by destruct r as [? ? []]. }
    intros [err|stored] _; wp_run.
    + split; [still|]. exists err. eexists. split; [done|]. right. by apply happened_here.
    + split; [still|]. simpl. split; [|split; [apply Hagain|]].
      * apply preparing_insert; [eapply preparing_stable; [|exact Hpre]; still|]. by apply happened_here.
      * intros q x Hx. apply list_lookup_insert_Some in Hx as [(_ & <- & _)|[_ Hx]].
        -- right. by apply happened_here.
        -- destruct (Hmem q x Hx); [by left|right; by apply happened_later].
  - destruct (String.eqb_spec (TestResource_Image r) expected) as [Him|Him]; wp_run; (split; [done|]).
    + split; [done|]. by split; [apply Hsame|].
    + by apply Hbad.
Qed.

(** The loops over the nodes. *)
Lemma init_nodes_spec image expected prepare ps items :
  only_container prepare ->
  triple (fun h => preparing h items) (for_each (init_node image expected prepare) ps (items, false))
    (fun h r => match r with
      | inl st => preparing h st.1 /\ (st.2 = false -> st.1 = items /\ Forall (settled expected) (load items ps))
      | inr r => ends_unprepared expected (load items ps) h r
      end).
Proof.
  intros Hprep. eapply hoare_mono; [apply (hoare_for_each _ _ _ (at_node expected items false)
    (ends_unprepared expected (load items ps)) _ ps (items, false))|..].
  - intros seen a rest st ->. apply init_node_spec; [done|]. rewrite elem_of_app, elem_of_cons. auto.
  - intros h Hh. split; [done|]. split; [|by left]. intros _. split; [done|]. split; [done|constructor].
  - intros h [st|r] H; [|done]. destruct H as (Hp & Hq & _). split; [done|]. intros Hst. by apply Hq in Hst as (_ & ? & ?).
Qed.

Lemma getResourceMachine_quiet r : quiet (getResourceMachine r).
Proof.
  intros h _. unfold getResourceMachine, get. wp_run. split; [done|]. intros [e|rel] _; wp_run; (split; [done|]);
    intros [err|m] _; wp_run; (split; [still|done]).
Qed.

(** A step that makes no call of its own keeps what is being prepared. *)
Lemma seq_preparing {A B} items (p : io A) (f : A -> io B) (Post : history -> B -> Prop) :
  quiet p -> (forall a, triple (fun h => preparing h items) (f a) Post) ->
  triple (fun h => preparing h items) (p ≫= f) Post.
Proof.
  intros Hp Hf. eapply (seq_keep (fun h => preparing h items)); [apply preparing_stable|done|by eapply hoare_mono|].
  intros a. eapply hoare_mono; [apply Hf|by intros h [H _]|done].
Qed.

Lemma init_haproxy_spec t c proxy hs ts items requeue :
  triple (fun h => preparing h items) (init_haproxy t c proxy hs ts items requeue) (fun _ _ => True).
Proof.
  unfold init_haproxy. apply seq_lift. intros first _.
  apply seq_preparing; [apply getResourceMachine_quiet|]. intros [err|machine]; [by apply ret|].
  destruct (cluster_ips _ _) as [ips|]; [|by apply ret].
  apply seq_lift. intros [again config] _. destruct again; [by apply ret|].
  apply seq_preparing; [by apply triple_ask|]. intros [err|]; [by apply ret|].
  eapply (seq_keep (fun _ => True)); [done|done|apply init_nodes_spec, haproxy_container_only|].
  intros [[items' b]|r]; by apply ret.
Qed.

(** What the preparation of a Flink cluster's resources that asks for no other round tells of them. *)
Definition flink_prepared (t : TestClusterTopology) (items : list TestResource) (ps : list nat) (h : history)
    (r : bool * option error * list TestResource) : Prop :=
  forall c, Topology_TiDBCluster (Topology_Spec t) = None -> Topology_FlinkCluster (Topology_Spec t) = Some c ->
    r.1.1 = false ->
    let image := flink_image (Topology_Spec t) c in
    Forall (settled image) (load items ps) \/ unprepared image (load items ps) h \/
    exists err, TopologyEnvs.indexResourceExposedPorts (Topology_Spec t) (load items ps) = Ret (inl err).

(** The loop that ends such a preparation. *)
Lemma prepared_by_loop t items ps image prepare :
  only_container prepare ->
  (forall c, Topology_FlinkCluster (Topology_Spec t) = Some c -> flink_image (Topology_Spec t) c = image) ->
  triple (fun h => preparing h items)
    (r ← for_each (init_node image image prepare) ps (items, false);
     match r with inr result => mret result | inl (items, requeue) => mret (requeue, None, items) end)
    (flink_prepared t items ps).
Proof.
  intros Hprep Himage. eapply (seq_keep (fun _ => True)); [done|done|by apply init_nodes_spec|].
  intros [[items' b]|r]; apply ret; intros h [_ Hr] c Htidb Hflink Hb; cbv zeta; rewrite (Himage c Hflink).
  - left. by apply Hr.
  - right. left. by destruct Hr as (err & its & -> & Hun).
Qed.

Lemma initResource_spec t items ps :
  triple (fun h => preparing h items) (initResource t items ps) (flink_prepared t items ps).
Proof.
  unfold initResource. destruct (Topology_TiDBCluster _) as [c|] eqn:Hc.
  - eapply (hoare_mono _ _ _ (fun h => preparing h items) _ (fun _ _ => True)); [|done|intros h r _ f Hf; congruence].
    unfold initTiDBResources. rewrite Hc. apply seq_lift. intros c' [= <-].
    destruct (match TiDBCluster_HAProxy c with Some _ => _ | None => _ end) as [hs ts].
    apply seq_lift. intros [err|ports] _; [by apply ret|].
    eapply (seq_keep (fun _ => True)); [done|done|apply init_nodes_spec, tiup_container_only|].
    intros [[items' b]|r]; [|by apply ret]. destruct (TiDBCluster_HAProxy c); [|by apply ret].
    eapply hoare_mono; [apply init_haproxy_spec|by intros ? [_ [H _]]|done].
  - destruct (Topology_DMCluster _) as [d|] eqn:Hd; [|destruct (Topology_FlinkCluster _) as [f|] eqn:Hf].
    + unfold initDMResources. apply seq_lift. intros [err|ports] Hports; [apply ret; intros h _ ? ? ? _; eauto|].
      apply prepared_by_loop; [apply tiup_container_only|]. intros c' _. unfold flink_image. by rewrite Hd.
    + unfold initFlinkResources. apply seq_lift. intros [err|ports] Hports; [apply ret; intros h _ ? ? ? _; eauto|].
      rewrite Hf. apply seq_lift. intros c [= <-]. apply prepared_by_loop; [apply flink_container_only|].
      intros c' Hc'. unfold flink_image. rewrite Hd. congruence.
    + apply ret. intros h _ f _ Hf'. congruence.
Qed.

Lemma list_owned_spec rr :
  triple (fun _ => True) (list_owned rr) (fun h r => all_known r.2 h /\ happened (listed rr r.2) h).
Proof.
  apply triple_ask; [done|done|]. intros h x _ _. split; [intros r Hr|]; by apply happened_here.
Qed.

(** Listing and preparing, for the installations. *)
Lemma prepared_resources {A} t rr (f : bool * option error * list TestResource -> list TestResource -> io A)
    (Post : history -> A -> Prop) (ps : list TestResource -> list nat) :
  (forall r items, triple (fun h => happened (listed rr items) h /\ flink_prepared t items (ps items) h r) (f r items) Post) ->
  triple (begun true)
    ('(_, items) ← list_owned rr; r ← initResource t items (ps items); f r items) Post.
Proof.
  intros Hf. eapply (seq_keep (begun true)); [apply begun_stable|done|by eapply hoare_mono; [apply list_owned_spec|..]|].
  intros [e items]. eapply (seq_keep (happened (listed rr items))); [apply happened_stable|by intros h (_ & _ & H)| |].
  - eapply hoare_mono; [apply initResource_spec| |done]. intros h (Hb & Hk & _). by split.
  - intros r. by eapply hoare_mono.
Qed.

(** An installation of whose preparation nothing is needed. *)
Lemma prepared_anyhow {A} t rr (f : bool * option error * list TestResource -> list TestResource -> io A)
    (Post : history -> A -> Prop) (ps : list TestResource -> list nat) :
  (forall r items, triple (fun _ => True) (f r items) Post) ->
  triple (begun true)
    ('(_, items) ← list_owned rr; r ← initResource t items (ps items); f r items) Post.
Proof. intros Hf. apply prepared_resources. intros r items. by eapply hoare_mono. Qed.

Lemma installTiDBCluster_spec t rr :
  triple (begun true) (installTiDBCluster t rr)
    (fun h r => r = (false, None) -> happened (ran (start_cmd (name_of t))) h).
Proof.
  apply (prepared_anyhow t rr (fun r _ => let '(requeue, err, items) := r in _)).
  intros [[requeue err] items'] items. destruct requeue; [by apply ret|].
  apply seq_lift. intros [e|c] _; [by apply ret|]. apply seq_lift. intros cl _.
  eapply seq; [apply InstallCluster_spec|]. intros e. apply ret. intros h Hr [= ->]. by apply Hr.
Qed.

Lemma installDMCluster_spec t rr :
  triple (begun true) (installDMCluster t rr)
    (fun h r => r = (false, None) -> happened (ran (DMManager.start_cmd (name_of t))) h).
Proof.
  apply (prepared_anyhow t rr (fun r _ => let '(requeue, err, items) := r in _)).
  intros [[requeue err] items'] items. destruct requeue; [by apply ret|].
  apply seq_lift. intros [e|c] _; [by apply ret|]. apply seq_lift. intros cl _.
  eapply seq; [apply DM_InstallCluster_spec|]. intros e. apply ret. intros h Hr [= ->]. by apply Hr.
Qed.

Lemma installFlinkCluster_spec t rr c :
  Topology_TiDBCluster (Topology_Spec t) = None -> Topology_FlinkCluster (Topology_Spec t) = Some c ->
  triple (begun true) (installFlinkCluster t rr) (fun h r => r = (false, None) -> flink_deployed rr h t c).
Proof.
  intros Htidb Hc. apply (prepared_resources t rr (fun r _ => let '(requeue, err, items) := r in _)).
  intros [[requeue err] items'] items. destruct requeue; apply ret; [by intros h _|].
  intros h [Hlist Hprep] _. exists items. split; [done|]. by apply Hprep.
Qed.

Lemma install_spec t rr :
  triple (begun true) (install t rr) (fun h r => match r with
    | Some (_, (false, None)) => deployed rr h t
    | None => deployed rr h t
    | _ => True
    end).
Proof.
  unfold install, deployed. repeat case_match.
  all: try by apply ret.
  all: eapply (seq_keep (fun _ => True)); [done|done|
    first [apply installTiDBCluster_spec|by apply installFlinkCluster_spec|apply installDMCluster_spec]|].
  all: intros [[] [e|]]; apply ret; try done; intros h [_ Hr]; by apply Hr.
Qed.

Lemma stable_and (F F' : history -> Prop) :
  stable (holds_still K) F -> stable (holds_still K) F' -> stable (holds_still K) (fun h => F h /\ F' h).
Proof. intros H H' h h' Hext [HF HF']. split; [by eapply H|by eapply H']. Qed.
Lemma stable_if (b : bool) (F : history -> Prop) (P Q : Prop) :
  (P -> stable (holds_still K) F) ->
  stable (holds_still K) (fun h => if b then P -> F h else Q).
Proof. intros H h h' Hext. destruct b; [|done]. intros Hh HP. by eapply H, Hh. Qed.

(** ** The steps of an update *)

Lemma cluster_resources_spec t rr :
  triple (fun _ => True) (cluster_resources t rr) (fun h r => happened (listed rr r.2) h).
Proof.
  eapply seq; [apply list_owned_spec|]. intros [e items]. apply ret. by intros h [_ H].
Qed.

(** The manager of a cluster, made from the resources listed. *)
Lemma with_listed_manager {A} t rr ips (f : ClusterManager.t -> list TestResource -> io A) (fail : error -> A)
    (Post : history -> A -> Prop) :
  (forall c items, triple (happened (listed rr items)) (f c items) Post) -> (forall h e, Post h (fail e)) ->
  triple (fun _ => True)
    ('(_, resources, items) ← cluster_resources t rr;
     let? tiupCtl := lift (MakeClusterManager (Topology_Spec t) resources ips) orelse err => mret (fail err) in
     f tiupCtl items) Post.
Proof.
  intros Hf Hfail. eapply seq; [apply cluster_resources_spec|].
  intros [[e resources] items]. apply seq_lift. intros [err|c] _; [by apply ret|apply Hf].
Qed.

Lemma with_manager {A} t rr ips (f : ClusterManager.t -> list TestResource -> io A) (fail : error -> A)
    (Post : history -> A -> Prop) :
  (forall c items, triple (fun _ => True) (f c items) Post) -> (forall h e, Post h (fail e)) ->
  triple (fun _ => True)
    ('(_, resources, items) ← cluster_resources t rr;
     let? tiupCtl := lift (MakeClusterManager (Topology_Spec t) resources ips) orelse err => mret (fail err) in
     f tiupCtl items) Post.
Proof. intros Hf. apply with_listed_manager. intros c items. by eapply hoare_mono. Qed.

Lemma upgradeTiDBCluster_spec t rr cur :
  tidb_of t = Some cur ->
  triple (fun _ => True) (upgradeTiDBCluster t rr) (fun h r => r.2 = None -> upgraded h t cur).
Proof.
  intros Hcur. eapply (seq _ (fun _ _ => True)); [by eapply hoare_mono; [apply cluster_resources_spec|..]|].
  intros [[[e|] resources] items]; [by apply ret|].
  apply seq_lift. intros [err|c] _; [by apply ret|].
  eapply seq; [by apply UpgradeCluster_spec|]. intros err. by apply ret.
Qed.

Lemma updateClusterConfig_spec t rr pre cur :
  pre_of t = Some pre -> tidb_of t = Some cur ->
  triple (fun _ => True) (updateClusterConfig t rr) (fun h r => r.2 = None -> reconfigured h t pre cur).
Proof.
  intros Hpre Hcur. apply (with_manager t rr [] (fun c _ => _) (fun e => (false, Some e))); [|done].
  intros c items. eapply seq; [apply UpdateCluster_spec|]. intros err. apply ret. intros h H Herr. by apply H.
Qed.

Lemma scaleInTiDBCluster_spec t rr pre cur :
  pre_of t = Some pre -> tidb_of t = Some cur ->
  triple (fun _ => True) (scaleInTiDBCluster t rr) (fun h r =>
    r.1.2 = None -> exists ips, ports_filled ips t r.2 pre cur /\ scaled_in rr h t pre cur).
Proof.
  intros Hpre Hcur. apply (with_listed_manager t rr [] (fun c items => _) (fun e => (false, Some e, t))); [|done].
  intros c items. eapply (seq_keep (happened (listed rr items))); [apply happened_stable|done|
    by eapply hoare_mono; [apply ScaleInCluster_spec|..]|]. intros [err t'].
  apply ret. intros h (Hlist & pre' & cur' & Hpre' & Hcur' & Hfill & Hrun) Herr. simpl in *. subst err.
  rewrite Hpre in Hpre'. rewrite Hcur in Hcur'. injection Hpre' as <-. injection Hcur' as <-.
  exists (TopologyEnvs.hostname2ClusterIP items). split; [done|]. exists items. split; [done|]. by apply Hrun.
Qed.

Lemma scaleOutTiDBCluster_spec t rr :
  triple (begun true) (scaleOutTiDBCluster t rr) (fun h r => r = (false, None) -> scaled_out h t).
Proof.
  apply (prepared_anyhow t rr (fun r _ => let '(requeue, err, items) := r in _)).
  intros [[requeue err] items'] items. destruct requeue; [by apply ret|].
  apply seq_lift. intros [e|c] _; [by apply ret|].
  eapply seq; [apply ScaleOutCluster_spec|]. intros e. apply ret. intros h Hr [= ->]. by apply Hr.
Qed.

Lemma checkTiKVFinishedScaleIn_spec t rr :
  triple (fun _ => True) (checkTiKVFinishedScaleIn t rr) (fun h r => match r with
    | inl _ => True
    | inr (finished, t') => exists pending offline, t' = set_lists pending offline t /\
        displayed h t pending offline /\ (finished = true -> pending = [] /\ offline = [])
    end).
Proof.
  apply (with_manager t rr [] (fun c _ => _) (fun e => inl e)); [|done].
  intros c items. eapply seq; [apply GetNodeStatusList_spec|]. intros [e|pending]; [by apply ret|].
  eapply (seq_keep (fun h => exists text, pending = nodes_of text "Pending" /\
    happened (command (display_cmd (name_of t)) (fun x => x.2 = None /\ x.1.1 = text)) h)).
  - intros h h' [_ Hext] (text & -> & Hh). exists text. auto.
  - done.
  - eapply hoare_mono; [apply GetNodeStatusList_spec|done|done].
  - intros [e|offline]; [by apply ret|]. apply ret.
    intros h [(text1 & -> & H1) (text2 & -> & H2)]. eexists _, _. split; [done|].
    split; [by exists text1, text2|].
    rewrite andb_true_iff, !Z.eqb_eq, !len_zero. done.
Qed.

Lemma pruneTiDBCluster_spec t rr :
  triple (fun _ => True) (pruneTiDBCluster t rr)
    (fun h r => r = None -> happened (ran (prune_cmd (name_of t))) h).
Proof.
  apply (with_manager t rr [] (fun c _ => _) Some); [|done]. intros c items. apply PruneCluster_spec.
Qed.

(** ** Uninstalling *)

Lemma delete_configs_quiet t proxy l : quiet (delete_configs t proxy l).
Proof.
  induction l as [|r l IH]; [by apply ret|]. cbn [delete_configs]. destruct (String.eqb _ _); [|done].
  eapply (seq _ (fun _ _ => True)); [apply getResourceMachine_quiet|]. intros [e|machine]; [by apply ret|].
  eapply (seq _ (fun _ _ => True)); [by apply triple_ask|]. intros [e|]; [by apply ret|done].
Qed.

Lemma seq_dead {A B} t (p : io A) (f : A -> io B) (Post : history -> B -> Prop) :
  quiet p -> (forall a, triple (dead t) (f a) Post) -> triple (dead t) (p ≫= f) Post.
Proof.
  intros Hp Hf. eapply (seq_keep (dead t)); [apply dead_stable|done|by eapply hoare_mono|].
  intros a. eapply hoare_mono; [apply Hf|by intros h [H _]|done].
Qed.

(** Reading the request of a topology. *)
Lemma get_request_spec ns t :
  triple (fun _ => True) (get KTestResourceRequest (request_of ns t)) (fun h r => match r with
    | inl e => IsNotFound e = true -> happened (not_found_at KTestResourceRequest (request_of ns t)) h
    | inr rr => forall P : TestResourceRequestState -> Prop, P (TestResourceRequest_State rr) ->
        happened (request_read (request_of ns t) P) h
    end) /\
  triple (fun _ => True) (get KTestResourceRequest (request_of ns t)) (fun h r =>
    forall rr, r = inr rr -> happened (request_is (request_of ns t) rr) h).
Proof.
  split; (apply triple_ask; [done|by intros [e|rr]|]).
  - intros h [e|rr] _ _; [intros Hx|intros P Hx]; by apply happened_here.
  - intros h x _ _ rr ->. by apply happened_here.
Qed.

Lemma uninstall_spec t items :
  triple (dead t) (uninstall t items) (fun h r => r = None ->
    (exists cmd, destroys_own t cmd /\ happened (gone cmd) h) \/ forall cmd, ~ destroys_own t cmd).
Proof.
  assert (Hdestroy : forall cmd control (name : string), destroys_own t cmd ->
    triple (dead t) (err ← ssh_command control cmd (fun err _ errStr =>
        if strs.Contains errStr "not exists" then ErrClusterNotExist name
        else Errorf ("cannot run remote command `" +:+ cmd +:+ "`: " +:+ Error err)); mret (IgnoreClusterNotExist err))
      (fun h r => r = None ->
        (exists cmd, destroys_own t cmd /\ happened (gone cmd) h) \/ forall cmd, ~ destroys_own t cmd)).
  { intros cmd control name Hown. eapply (seq_keep (fun _ => True)); [done|done|by apply destroy_spec|].
    intros err. apply ret. intros h [_ Hd] Hnone. left. exists cmd. split; [done|]. by apply Hd. }
  unfold uninstall. unfold destroys_own in *.
  destruct (Topology_TiDBCluster _) as [c|].
  - apply seq_dead; [destruct (TiDBCluster_HAProxy c); [apply delete_configs_quiet|by apply ret]|].
    intros [err|]; [by apply ret|]. apply seq_lift. intros [err|m] _; [by apply ret|]. by apply Hdestroy.
  - destruct (Topology_FlinkCluster _); [apply ret; intros h _ _; right; by intros cmd H|].
    destruct (Topology_DMCluster _); [|apply ret; intros h _ _; right; by intros cmd H].
    apply seq_lift. intros [err|m] _; [by apply ret|]. by apply Hdestroy.
Qed.

Lemma deleteTopology_spec t :
  triple (dead t) (deleteTopology t) (fun h r => r = None -> uninstalled h t).
Proof.
  unfold deleteTopology, uninstalled.
  destruct (String.eqb_spec (Topology_ResourceRequest (Topology_Spec t)) "") as [Hrr|Hrr]; [apply ret; auto|].
  eapply (seq_keep (dead t)); [apply dead_stable|done|
    eapply hoare_mono; [apply (proj1 (get_request_spec (ObjectMeta_Namespace (Topology_ObjectMeta t)) t))|done|done]|].
  intros [err|rr].
  { apply ret. intros h [_ Hnf]. unfold IgnoreNotFound. destruct (IsNotFound err); [|done]. auto. }
  case_bool_decide as Hready; cbn [negb]; [|apply ret; intros h [_ Hst] _; auto 10].
  set (read := happened (request_read (request_of (ObjectMeta_Namespace (Topology_ObjectMeta t)) t) (eq TestResourceRequestReady))).
  eapply (hoare_mono _ _ _ (fun h => dead t h /\ read h)); [|intros h [H Hst]; split; [done|by apply Hst]|intros h a H; exact H].
  eapply (seq_keep (fun h => dead t h /\ read h) _ (fun _ _ => True)).
  - apply stable_and; [apply dead_stable|apply happened_stable].
  - done.
  - by eapply hoare_mono; [apply list_owned_spec|..].
  - intros [e items] h [[Hdead Hread] _]. eapply wp_mono; [by apply uninstall_spec|].
    intros h' [r|s] [Hext Hr]; (split; [done|]); [|done]. intros Hnone.
    assert (Hread' : read h') by (by eapply happened_stable). destruct (Hr Hnone); auto 10.
Qed.

(** ** A whole update *)

Lemma len_filled {A} (s : goslice A) (l : list A) :
  length l = length (elems s) -> len (elems ((fun _ => l) <$> s)) = len (elems s).
Proof. unfold len. destruct s; simpl; [by intros ->|done]. Qed.

Lemma scaleOut_filled ips pre cur :
  compare.IsScaleOut (compare.getScaleInNode ips pre cur).1 cur = compare.IsScaleOut pre cur.
Proof.
  unfold compare.IsScaleOut. simpl. rewrite !len_filled by (by rewrite ?length_fmap). done.
Qed.

Lemma update_step_spec reason step k (Pre Q : history -> Prop) :
  (step = (false, None) -> triple Pre k (fun h r => r.1 = true -> Q h)) ->
  triple Pre (update_step reason step k) (fun h r => r.1 = true -> Q h).
Proof.
  intros Hk. destruct step as [[] [e|]]; cbn [update_step]; [| by apply ret| |by apply Hk].
  all: eapply (seq _ (fun _ _ => True)); [by apply triple_ask|]; intros a; by apply ret.
Qed.

Lemma upgraded_stable t cur : stable (holds_still K) (fun h => upgraded h t cur).
Proof. intros h h' [_ Hext] [H|H]; [left|right]; by apply Hext. Qed.
Lemma reconfigured_stable t pre cur : stable (holds_still K) (fun h => reconfigured h t pre cur).
Proof. intros h h' [_ Hext] [H|H]; [by left|right]; by apply Hext. Qed.
Lemma scaled_in_stable rr t pre cur : stable (holds_still K) (fun h => scaled_in rr h t pre cur).
Proof. intros h h' [_ Hext] (items & Hl & Hr). exists items. split; by apply Hext. Qed.

(** One optional step, with what is known of its result when it is needed. *)
Lemma optional_step {R A} (needed : bool) (p : io R) (skip : R) (P : history -> R -> Prop)
    (F : history -> Prop) (f : R -> io A) (Post : history -> A -> Prop) :
  stable (holds_still K) F -> (forall h, F h -> begun true h) -> triple (begun true) p P ->
  (forall r, triple (fun h => F h /\ if needed then P h r else r = skip) (f r) Post) ->
  triple F (r ← (if needed then p else mret skip); f r) Post.
Proof.
  intros HF Hb Hp Hf. eapply (seq_keep F); [done|done| |intros r; apply (Hf r)].
  destruct needed; [by eapply hoare_mono|by apply ret].
Qed.

Lemma updateTiDBCluster_spec t rr pre cur :
  pre_of t = Some pre -> tidb_of t = Some cur ->
  triple (begun true) (updateTiDBCluster t rr) (fun h r => r.1 = true -> updated rr h t pre cur).
Proof.
  intros Hpre Hcur. unfold updateTiDBCluster.
  apply seq_lift. intros [p c] Hc. apply clusters_Ret in Hc as [Hp Hc].
  rewrite Hpre in Hp. rewrite Hcur in Hc. injection Hp as <-. injection Hc as <-.
  apply (optional_step _ _ _ (fun h r => r.2 = None -> upgraded h t cur)); [apply begun_stable|done| |].
  { by eapply hoare_mono; [by apply (upgradeTiDBCluster_spec t rr cur)|..]. }
  intros up. apply update_step_spec. intros ->.
  apply (optional_step _ _ _ (fun h r => r.2 = None -> reconfigured h t pre cur)
    (fun h => begun true h /\ if compare.IsUpgraded pre cur then _ else _)); [|by intros h [H _]| |].
  { apply stable_and; [apply begun_stable|]. apply stable_if. intros _. apply upgraded_stable. }
  { by eapply hoare_mono; [by apply (updateClusterConfig_spec t rr pre cur)|..]. }
  intros conf. apply update_step_spec. intros ->.
  apply (optional_step _ _ _ (fun h r => r.1.2 = None -> exists ips,
      ports_filled ips t r.2 pre cur /\ scaled_in rr h t pre cur)
    (fun h => (begun true h /\ if compare.IsUpgraded pre cur then _ else _) /\
              if compare.IsConfigModified pre cur then _ else _)); [|by intros h [[H _] _]| |].
  { apply stable_and; [apply stable_and; [apply begun_stable|]|]; apply stable_if; intros _;
      [apply upgraded_stable|apply reconfigured_stable]. }
  { by eapply hoare_mono; [by apply (scaleInTiDBCluster_spec t rr pre cur)|..]. }
  intros [[requeue err] t']. apply update_step_spec. intros [= -> ->].
  apply seq_lift. intros [p c] Hc. apply clusters_Ret in Hc as [Hp Hc].
  intros h Hh. assert (Hsame : c = cur /\ compare.IsScaleOut p c = compare.IsScaleOut pre cur /\ name_of t' = name_of t).
  { destruct Hh as [_ Hin]. destruct (compare.IsScaleIn pre cur); [destruct Hin as (ips & Hf & _); [done|]|].
    - unfold ports_filled in Hf. cbn [snd] in Hf. subst t'.
      change (Some (compare.getScaleInNode ips pre cur).1 = Some p) in Hp.
      assert (p = (compare.getScaleInNode ips pre cur).1) as -> by congruence.
      change (tidb_of t = Some c) in Hc. rewrite Hcur in Hc. injection Hc as <-. by rewrite scaleOut_filled.
    - injection Hin as ->. rewrite Hpre in Hp. rewrite Hcur in Hc. injection Hp as <-. by injection Hc as <-. }
  destruct Hsame as (-> & Hout & Hname). rewrite Hout. revert h Hh.
  apply (optional_step _ _ _ (fun h r => r = (false, None) -> scaled_out h t)); [|by intros h [[[H _] _] _]| |].
  { repeat apply stable_and; [apply begun_stable|apply stable_if; intros _..].
    - apply upgraded_stable.
    - apply reconfigured_stable.
    - intros h h' Hext (ips & Hf & Hs). exists ips. split; [done|]. by eapply scaled_in_stable. }
  { eapply hoare_mono; [apply scaleOutTiDBCluster_spec|done|]. intros h r Hr Hok. unfold scaled_out.
    rewrite <-Hname. by apply Hr. }
  intros out. apply update_step_spec. intros ->. apply ret.
  intros h ((((_ & Hup) & Hconf) & Hin) & Hout') _.
  split; [intros E; rewrite E in Hup; by apply Hup|].
  split; [intros E; rewrite E in Hconf; by apply Hconf|].
  split; [intros E; rewrite E in Hin; by destruct Hin as (ips & _ & Hs)|].
  intros E. rewrite E in Hout'. by apply Hout'.
Qed.

End proofs.
