(* ===== verification/TopologyCtlTheorems.v ===== *)
(** * The topology reconciler: its contract *)

From S2P Require Import Prelude GoStd Util ApiTypes TopologyTypes Prog World Machine Resource Relationship Docker.
From S2P Require Import TiupSpec TiupCtl TopologyCtl TopologyCtlProofs.
Import TopologyCtl.

Section contract.
Context {Y : Yaml} {D : Defaults Y} {M : Marshal Y} {U : URLs}.
Context (req : NamespacedName).

(** A stretch proved as a triple, in the middle of a handler. *)
Lemma wp_stretch {A B} (Pre : history -> Prop) (Post : history -> A -> Prop) (p : io A) (f : A -> io B) h Q :
  hoare admissible (contract req) (holds_still KTestClusterTopology) Pre p Post -> Pre h ->
  (forall h' a, holds_still KTestClusterTopology h h' -> Post h' a -> wp admissible (contract req) (f a) h' Q) ->
  (forall h' s, Q h' (Panic s)) ->
  wp admissible (contract req) (p ≫= f) h Q.
Proof.
  intros Hp Hh Hf HQ. apply wp_bind. eapply wp_mono; [by apply Hp|].
  intros h' [a|s] [Hext Ha]; [by apply Hf|apply HQ].
Qed.

(** What is known of a deployed cluster stays known. *)
Lemma deployed_grows rr ct h h' :
  (forall P, happened P h -> happened P h') -> deployed rr h ct -> deployed rr h' ct.
Proof.
  intros Hext. unfold deployed. repeat case_match; auto.
  intros (items & Hl & Hp). exists items. split; [by apply Hext|].
  destruct Hp as [?|[[(r & Hr & ?)|Hrefused]|?]]; [by left| | |by right; right].
  - right. left. left. exists r. split; [|done]. naive_solver.
  - right. left. right. by apply Hext.
Qed.

Section live.
Context (ct : TestClusterTopology).

Abbreviation at_live := (at_ct ct true).

(** An update of the status that ends the handler. *)
Lemma last_update h o (k : option error -> Result * option error) :
  at_live h -> status_step req h ct o ->
  wp admissible (contract req) (err ← status_update KTestClusterTopology o; mret (k err)) h (fun _ _ => True).
Proof.
  intros [Hct Hb] Hstep. unfold status_update. wp_run. split; [|done]. split; [done|]. by exists ct.
Qed.

Lemma topology_pending_contract h :
  at_live h -> state_of ct = ClusterTopologyStatePending ->
  wp admissible (contract req) (reconcilePending req ct) h (fun _ _ => True).
Proof.
  intros Hct Hst. unfold reconcilePending. destruct (String.eqb _ _); [done|].
  eapply wp_stretch; [apply (proj2 (get_request_spec _ _ _))|done| |done].
  intros h1 [err|rr] Hext1 Hr1; [by unfold record_event; wp_run|]. specialize (Hr1 rr eq_refl).
  case_bool_decide as Hready; [|done]. cbn [negb].
  assert (Hct1 : at_live h1) by (by eapply at_ct_stable).
  eapply wp_stretch; [apply install_spec|apply Hct1| |done].
  intros h2 r Hext2 Hr2. assert (Hct2 : at_live h2) by (by eapply at_ct_stable).
  assert (Hstep : forall h3, holds_still KTestClusterTopology h2 h3 -> deployed rr h2 ct ->
    status_step req h3 ct (set_state ClusterTopologyStateReady ct)).
  { intros h3 [_ Hext3] Hd. apply (step_install _ _ _ rr); [done| |done|].
    - by apply Hext3, Hext2.
    - by eapply deployed_grows. }
  destruct r as [[what [requeue err]]|]; [|apply last_update; [done|by apply Hstep]].
  destruct err as [err|]; [by unfold record_event; wp_run|]. destruct requeue; [done|].
  unfold record_event. wp_run. split; [done|]. intros [] _. cbn beta.
  assert (Hext3 : forall m, holds_still KTestClusterTopology h2 (Event (RecordEvent "Normal" "Install" m) tt :: h2))
    by (intros m; still).
  apply last_update; [by eapply at_ct_stable|by apply Hstep].
Qed.

(** Updating only the lists, then pruning on the copy the server answered. *)
Lemma follow_scaling_contract h :
  at_live h -> state_of ct = ClusterTopologyStateReady -> TiDBClusterInfo_IsScaling (info_of ct) = true ->
  wp admissible (contract req) (follow_scaling req ct) h (fun _ _ => True).
Proof.
  intros Hct Hst Hscaling. unfold follow_scaling.
  eapply wp_stretch; [apply (proj1 (get_request_spec _ _ _))|done| |done].
  intros h1 [err|rr] Hext1 _; [done|].
  eapply wp_stretch; [apply checkTiKVFinishedScaleIn_spec|done| |done].
  intros h2 [err|[finished ct']] Hext2 Hr2; [done|].
  destruct Hr2 as (pending & offline & -> & Hdisplay & Hfinished).
  assert (Hct2 : at_live h2) by (eapply at_ct_stable; [done|by eapply at_ct_stable]).
  wp_run. split.
  { split; [apply Hct2|]. exists ct. split; [apply Hct2|]. by apply step_follow. }
  intros [err|stored] _; [done|]. cbn beta iota. destruct finished; [|done].
  destruct (Hfinished eq_refl) as [-> ->].
  set (h3 := Event (StatusUpdate KTestClusterTopology (set_lists [] [] ct)) (inr stored) :: h2).
  assert (Hstored : happened (stored_topology (fun o => TiDBClusterInfo_PendingOfflineList (info_of o) = [] /\
      TiDBClusterInfo_OfflineList (info_of o) = [])) h3) by (by apply happened_here).
  eapply (wp_stretch (fun _ => True)); [apply pruneTiDBCluster_spec|done| |done].
  intros h4 [err|] Hext4 Hr4; [by unfold record_event; wp_run|].
  unfold status_update. wp_run. split; [|done]. split.
  { eapply begun_stable; [exact Hext4|apply Hct2]. }
  exists stored. split; [by rewrite (proj1 (proj1 Hext4))|]. apply step_prune; [by apply Hext4|by apply Hr4].
Qed.

Lemma reconcileReady_contract h :
  at_live h -> state_of ct = ClusterTopologyStateReady ->
  wp admissible (contract req) (reconcileReady req ct) h (fun _ _ => True).
Proof.
  intros Hct Hst. unfold reconcileReady. destruct (Topology_TiDBCluster _) as [cur|] eqn:Hcur; [|done].
  destruct (TopologyStatus_PreTiDBCluster _) as [pre|] eqn:Hpre.
  - unfold compare.IsClusterConfigModified. case_bool_decide as Heq; cbn [negb].
    + destruct (TiDBClusterInfo_IsScaling _) eqn:Hsc; [by apply follow_scaling_contract|done].
    + apply last_update; [done|]. by eapply step_change.
  - apply last_update; [done|]. by eapply step_first.
Qed.

Lemma reconcileUpdating_contract h :
  at_live h -> state_of ct = ClusterTopologyStateUpdating ->
  wp admissible (contract req) (reconcileUpdating req ct) h (fun _ _ => True).
Proof.
  intros Hct Hst. unfold reconcileUpdating.
  eapply wp_stretch; [apply (proj2 (get_request_spec _ _ _))|done| |done].
  intros h1 [err|rr] Hext1 Hr1; [done|]. specialize (Hr1 rr eq_refl). assert (Hct1 : at_live h1) by (by eapply at_ct_stable).
  apply wp_bind, wp_lift. destruct (ClusterManager.clusters ct) as [[pre cur]|e] eqn:Hc; [|done].
  apply clusters_Ret in Hc as [Hpre Hcur]. cbv zeta.
  set (ct1 := if compare.IsScaleIn pre cur then _ else ct).
  assert (Hsame : name_of ct1 = name_of ct /\ pre_of ct1 = Some pre /\ tidb_of ct1 = Some cur).
  { unfold ct1. by destruct (compare.IsScaleIn pre cur). }
  destruct Hsame as (Hname & Hpre1 & Hcur1).
  eapply wp_stretch; [by apply updateTiDBCluster_spec|apply Hct1| |done].
  intros h2 [isOK result] Hext2 Hr2. destruct isOK; [|done]. cbn [negb].
  specialize (Hr2 eq_refl).
  assert (Hupd : updated rr h2 ct pre cur).
  { revert Hr2. unfold updated, upgraded, reconfigured, scaled_in, scaled_out. by rewrite Hname. }
  assert (Heq : with_status (fun s => s <| TopologyStatus_PreTiDBCluster := Some cur |>
        <| TopologyStatus_State := ClusterTopologyStateReady |>) ct1 =
    set_state ClusterTopologyStateReady (set_pre cur (set_info (fun i => i <| TiDBClusterInfo_IsScaling :=
      compare.IsScaleIn pre cur || TiDBClusterInfo_IsScaling (info_of ct) |>) ct))).
  { unfold ct1, info_of. destruct ct as [meta spec [p [] s]]. by destruct (compare.IsScaleIn pre cur). }
  rewrite Heq. apply last_update; [by eapply at_ct_stable|]. eapply step_update; try done. by apply Hext2.
Qed.

Lemma topology_state_contract h :
  at_live h -> wp admissible (contract req) (reconcile_state req ct) h (fun _ _ => True).
Proof.
  intros Hct. unfold reconcile_state. destruct (TopologyStatus_State _) eqn:Hst; [| | | |done].
  - apply last_update; [done|]. by apply step_start.
  - by apply topology_pending_contract.
  - by apply reconcileReady_contract.
  - by apply reconcileUpdating_contract.
Qed.
End live.

Lemma topology_deletion_contract ct h :
  at_ct ct false h ->
  wp admissible (contract req) (reconcileDeletion (NamespacedName_Name req) ct) h (fun _ _ => True).
Proof.
  intros Hct. unfold reconcileDeletion. cbv zeta.
  eapply (wp_stretch (dead ct) (fun h r => r = None ->
    NamespacedName_Name req ∈ ObjectMeta_Finalizers (Topology_ObjectMeta ct) -> uninstalled h ct));
    [|apply Hct| |done].
  - destruct (Slice.StringsContains _ _) eqn:Hf.
    + eapply hoare_mono; [apply deleteTopology_spec|done|]. intros h' r Hr Hnone _. by apply Hr.
    + apply ret. intros h' _ _ Hin. apply Slice.StringsContains_spec in Hin. congruence.
  - intros h1 [err|] Hext1 Hr1; [done|]. assert (Hct1 : at_ct ct false h1) by (by eapply at_ct_stable).
    apply wp_bind, wp_lift. destruct (Slice.StringsRemove _ _) as [fs|e] eqn:Hfs; [|done].
    unfold update. wp_run. split; [|done]. exists ct. split; [apply Hct1|]. right.
    split; [apply Hct1|]. split; [by apply Hr1|]. by exists fs.
Qed.

Lemma topology_contract : safe (contract req) (Reconcile req) (fun _ _ => True).
Proof.
  unfold safe, Reconcile, get. wp_run. split; [done|]. intros [err|ct] _; [done|].
  destruct (DeletionTimestamp_IsZero (Topology_ObjectMeta ct)) eqn:Hlive.
  - destruct (negb _).
    + wp_run. split.
      { exists ct. split; [done|]. left. split; [by exists ct|done]. }
      intros [err|ct'] _; [done|]. apply topology_state_contract. split; [done|by exists ct].
    + apply topology_state_contract. split; [done|by exists ct].
  - apply topology_deletion_contract. split; [done|by exists ct].
Qed.

End contract.

(** ** The properties *)

Section properties.
Context {Y : Yaml} {D : Defaults Y} {M : Marshal Y} {U : URLs}.


(** C25. Of all other objects the topology reconciler writes only test resources, and of a test
    resource only the container and the host name: of one it has listed, or stored before, that
    is uninitialized and has no image yet. *)
Theorem topology_resources req :
  safe (fun h c => match c with
      | StatusUpdate KTestResource o => begun true h /\ exists r, happened (known r) h /\ prepared r o
      | StatusUpdate KTestClusterTopology _ | Update KTestClusterTopology _ => True
      | StatusUpdate _ _ | Update _ _ | Create _ _ | Delete _ _ => False
      | _ => True
      end) (Reconcile req) (fun _ _ => True).
Proof. eapply wp_guard; [apply topology_contract|]. intros h [] Hc; try done; by destruct k. Qed.

(** C20. The finalizer of a topology is removed only when the topology was deleted, and then only
    when it was on no request or its request is gone or not ready; when its cluster was destroyed or
    did not exist any more; or when it has no cluster that tiup deploys. The only command that
    destroys a cluster is that for the TiDB or DM cluster of the deleted topology itself: of a Flink
    cluster nothing is destroyed. *)
Theorem topology_finalizer req :
  safe (fun h c => match c with
      | Update KTestClusterTopology o => exists ct,
          last_shown KTestClusterTopology h = Some ct /\ object_write req h ct o
      | SSHRun _ _ cmd => destroys cmd = true -> begun false h /\ exists ct,
          last_shown KTestClusterTopology h = Some ct /\ destroys_own ct cmd
      | Create KTestClusterTopology _ | Delete KTestClusterTopology _ => False
      | _ => True
      end) (Reconcile req) (fun _ _ => True).
Proof. eapply wp_guard; [apply topology_contract|]. intros h [] Hc; try done; by destruct k. Qed.

End properties.
