(* ===== verification/TiupTheorems.v ===== *)
(** * Specifications of clusters: where their components go

    Where [BuildSpecification] places the components of a cluster and when it cannot, which
    ports the containers expose, and which nodes a scale-in removes. *)

From S2P Require Import Prelude GoStd Util ApiTypes TopologyTypes Prog World Machine Resource Docker.
From S2P Require Import Topology TopologyTheorems TiupSpec TiupCtl TopologyCtl.

(** ** Loops that may fail *)

Lemma go_mapM_inr {A B} (f : A -> goerr B) l bs :
  go_mapM f l = Ret (inr bs) -> Forall2 (fun a b => f a = Ret (inr b)) l bs.
Proof.
  revert bs; induction l as [|a l IH]; intros bs; simpl; [intros [= <-]; constructor|].
  intros H. apply go_bind_Ret_inv in H as ([err|b] & Hb & H); [done|].
  apply go_bind_Ret_inv in H as ([err|bs'] & Hbs & H); [done|]. injection H as <-. eauto.
Qed.

(** Every resource by its name, the last one of a name. *)
Lemma resourceMaps_lookup trs name :
  resourceMaps trs !! name =
  TestResource_Status <$> list.last (filterb (fun r => String.eqb (TestResource_Name r) name) trs).
Proof.
  unfold resourceMaps.
  apply (fold_left_seen (fun seen (m : gmap string TestResourceStatus) => m !! name =
    TestResource_Status <$> list.last (filterb (fun r => String.eqb (TestResource_Name r) name) seen))); [done|].
  intros seen r m Hm. rewrite filterb_app, last_app. simpl.
  destruct (String.eqb_spec (TestResource_Name r) name) as [->|Hne].
  - by rewrite lookup_insert_eq.
  - by rewrite lookup_insert_ne, Hm.
Qed.

Lemma resourceMaps_None trs name :
  resourceMaps trs !! name = None <-> forall r, r ∈ trs -> TestResource_Name r <> name.
Proof.
  rewrite resourceMaps_lookup, fmap_None, last_None. split.
  - intros H r Hr Hn. apply (not_elem_of_nil r). rewrite <-H. apply elem_of_filterb. by rewrite Hn, String.eqb_refl.
  - intros H. destruct (filterb _ trs) as [|r l] eqn:E; [done|]. exfalso.
    assert (Hr : r ∈ filterb (fun r => String.eqb (TestResource_Name r) name) trs) by (rewrite E; by left).
    apply elem_of_filterb in Hr as [Hr Hn]. apply String.eqb_eq in Hn. by eapply H.
Qed.

Lemma find_host_inr resources what host node :
  find_host resources what host = inr node -> resources !! host = Some node.
Proof. unfold find_host. destruct (resources !! host); [|done]. by intros [= ->]. Qed.

(** The first bind of a loop's body: the node of the item. *)
Ltac found_host H :=
  let n := fresh "node" in let Hn := fresh "Hnode" in
  apply go_bind_Ret_inv in H; destruct H as ([?err|n] & Hn & H); [done|];
  injection Hn as Hn; apply find_host_inr in Hn.
Ltac next_bind H :=
  let v := fresh "v" in let Hv := fresh "Hv" in
  apply go_bind_Ret_inv in H; destruct H as ([?err|v] & Hv & H); [done|]; try (injection Hv as Hv).

(** ** Where the components go *)

Section build.
Context {Y : Yaml} {D : Defaults Y}.

(** The host of a component on a resource that is there. *)
Definition placed (rs : gmap string TestResourceStatus) (dryRun : bool) (name host : string) : Prop :=
  exists node, rs !! name = Some node /\ host = hostName dryRun name (ClusterIP node).

(** The configuration of a drainer: what is written, and when the addresses of the cluster are known,
    the downstream host named after "://" in it replaced by its address. *)
Definition drainer_configured (ips : list (gmap string string)) (text : string) (conf : config) : Prop :=
  exists raw, yaml_Unmarshal text = inr raw /\
    match ips with
    | [] => conf = raw
    | addresses :: _ => exists value host name ip,
        raw !! "syncer.to.host" = Some value /\ yaml_as_string value = Some host /\
        strs.Split host "://" !! 1%nat = Some name /\ addresses !! name = Some ip /\ ip <> "" /\
        conf = <["syncer.to.host" := yaml_of_string ip]> raw
    end.

(** The specification that is built: the control node's status, the global options and the servers'
    configurations, and for each configured component, in order, one server on its resource with
    what is configured for it. What an AlertManager has for its data and its logs is left open. *)
Record built (c : TiDBCluster) (rs : gmap string TestResourceStatus) (dryRun : bool) (ips : list (gmap string string))
    (spec : tiupSpec.Specification) (control : TestResourceStatus) : Prop := {
  built_control : rs !! TiDBCluster_Control c = Some control;
  built_global : let g := tiupSpec.Spec_GlobalOptions spec in
    tiupSpec.GlobalOptions_User g = "root" /\ tiupSpec.GlobalOptions_SSHPort g = 22 /\
    tiupSpec.GlobalOptions_DeployDir g = default "" (Global_DeployDir <$> TiDBCluster_Global c) /\
    tiupSpec.GlobalOptions_DataDir g = default "" (Global_DataDir <$> TiDBCluster_Global c);
  built_configs : let s := tiupSpec.Spec_ServerConfigs spec in let i := TiDBCluster_ServerConfigs c in
    yaml_Unmarshal (ServerConfigs_TiDB i) = inr (tiupSpec.ServerConfigs_TiDB s) /\
    yaml_Unmarshal (ServerConfigs_TiKV i) = inr (tiupSpec.ServerConfigs_TiKV s) /\
    yaml_Unmarshal (ServerConfigs_PD i) = inr (tiupSpec.ServerConfigs_PD s);
  built_tidb : Forall2 (fun i s =>
      placed rs dryRun (TiDBSpec_Host i) (tiupSpec.TiDBSpec_Host s) /\
      tiupSpec.TiDBSpec_SSHPort s = 22 /\ tiupSpec.TiDBSpec_Port s = TiDBSpec_Port i /\
      tiupSpec.TiDBSpec_StatusPort s = TiDBSpec_StatusPort i /\
      tiupSpec.TiDBSpec_DeployDir s = TiDBSpec_DeployDir i /\
      tiupSpec.TiDBSpec_LogDir s = TiDBSpec_LogDir i /\
      cluster.generateConfig (TiDBSpec_Config i) = inr (tiupSpec.TiDBSpec_Config s))
    (elems (TiDBCluster_TiDB c)) (tiupSpec.Spec_TiDBServers spec);
  built_tikv : Forall2 (fun i s =>
      placed rs dryRun (TiKVSpec_Host i) (tiupSpec.TiKVSpec_Host s) /\
      tiupSpec.TiKVSpec_SSHPort s = 22 /\ tiupSpec.TiKVSpec_Port s = TiKVSpec_Port i /\
      tiupSpec.TiKVSpec_StatusPort s = TiKVSpec_StatusPort i /\
      tiupSpec.TiKVSpec_DeployDir s = TiKVSpec_DeployDir i /\
      tiupSpec.TiKVSpec_DataDir s = TiKVSpec_DataDir i /\
      tiupSpec.TiKVSpec_LogDir s = TiKVSpec_LogDir i /\
      cluster.generateConfig (TiKVSpec_Config i) = inr (tiupSpec.TiKVSpec_Config s))
    (elems (TiDBCluster_TiKV c)) (tiupSpec.Spec_TiKVServers spec);
  built_pd : Forall2 (fun i s =>
      placed rs dryRun (PDSpec_Host i) (tiupSpec.PDSpec_Host s) /\ tiupSpec.PDSpec_SSHPort s = 22 /\
      tiupSpec.PDSpec_ClientPort s = PDSpec_ClientPort i /\
      tiupSpec.PDSpec_PeerPort s = PDSpec_PeerPort i /\
      tiupSpec.PDSpec_DeployDir s = PDSpec_DeployDir i /\
      tiupSpec.PDSpec_DataDir s = PDSpec_DataDir i /\ tiupSpec.PDSpec_LogDir s = PDSpec_LogDir i /\
      cluster.generateConfig (PDSpec_Config i) = inr (tiupSpec.PDSpec_Config s))
    (elems (TiDBCluster_PD c)) (tiupSpec.Spec_PDServers spec);
  built_pump : Forall2 (fun i s =>
      placed rs dryRun (PumpSpec_Host i) (tiupSpec.PumpSpec_Host s) /\
      tiupSpec.PumpSpec_SSHPort s = PumpSpec_SSHPort i /\ tiupSpec.PumpSpec_Port s = PumpSpec_Port i /\
      tiupSpec.PumpSpec_DeployDir s = PumpSpec_DeployDir i /\
      tiupSpec.PumpSpec_DataDir s = PumpSpec_DataDir i /\
      cluster.generateConfig (PumpSpec_Config i) = inr (tiupSpec.PumpSpec_Config s))
    (elems (TiDBCluster_Pump c)) (tiupSpec.Spec_PumpServers spec);
  built_drainer : Forall2 (fun i s =>
      placed rs dryRun (DrainerSpec_Host i) (tiupSpec.DrainerSpec_Host s) /\
      tiupSpec.DrainerSpec_SSHPort s = DrainerSpec_SSHPort i /\
      tiupSpec.DrainerSpec_Port s = DrainerSpec_Port i /\
      tiupSpec.DrainerSpec_CommitTS s = DrainerSpec_CommitTS i /\
      tiupSpec.DrainerSpec_DeployDir s = DrainerSpec_DeployDir i /\
      tiupSpec.DrainerSpec_DataDir s = DrainerSpec_DataDir i /\
      drainer_configured ips (DrainerSpec_Config i) (tiupSpec.DrainerSpec_Config s))
    (elems (TiDBCluster_Drainer c)) (tiupSpec.Spec_Drainers spec);
  built_monitor : Forall2 (fun i s =>
      placed rs dryRun (PrometheusSpec_Host i) (tiupSpec.PrometheusSpec_Host s) /\
      tiupSpec.PrometheusSpec_SSHPort s = 22 /\
      tiupSpec.PrometheusSpec_Port s = PrometheusSpec_Port i /\
      tiupSpec.PrometheusSpec_DeployDir s = PrometheusSpec_DeployDir i /\
      tiupSpec.PrometheusSpec_DataDir s = PrometheusSpec_DataDir i /\
      tiupSpec.PrometheusSpec_LogDir s = PrometheusSpec_LogDir i)
    (elems (TiDBCluster_Monitor c)) (tiupSpec.Spec_Monitors spec);
  built_grafana : Forall2 (fun i s =>
      placed rs dryRun (GrafanaSpec_Host i) (tiupSpec.GrafanaSpec_Host s) /\
      tiupSpec.GrafanaSpec_SSHPort s = 22 /\ tiupSpec.GrafanaSpec_Port s = GrafanaSpec_Port i /\
      tiupSpec.GrafanaSpec_DeployDir s = GrafanaSpec_DeployDir i)
    (elems (TiDBCluster_Grafana c)) (tiupSpec.Spec_Grafanas spec);
  built_alert : Forall2 (fun i s =>
      placed rs dryRun (AlertManagerSpec_Host i) (tiupSpec.AlertmanagerSpec_Host s) /\
      tiupSpec.AlertmanagerSpec_SSHPort s = 22 /\
      tiupSpec.AlertmanagerSpec_WebPort s = AlertManagerSpec_WebPort i /\
      tiupSpec.AlertmanagerSpec_ClusterPort s = AlertManagerSpec_ClusterPort i /\
      tiupSpec.AlertmanagerSpec_DeployDir s = AlertManagerSpec_DeployDir i)
    (elems (TiDBCluster_AlertManager c)) (tiupSpec.Spec_Alertmanagers spec);
  built_cdc : Forall2 (fun i s =>
      placed rs dryRun (CDCSpec_Host i) (tiupSpec.CDCSpec_Host s) /\ tiupSpec.CDCSpec_SSHPort s = 22 /\
      tiupSpec.CDCSpec_Port s = CDCSpec_Port i /\ tiupSpec.CDCSpec_DeployDir s = CDCSpec_DeployDir i /\
      tiupSpec.CDCSpec_LogDir s = CDCSpec_LogDir i)
    (elems (TiDBCluster_CDC c)) (tiupSpec.Spec_CDCServers spec);
  built_tiflash : Forall2 (fun i s =>
      placed rs dryRun (TiFlashSpec_Host i) (tiupSpec.TiFlashSpec_Host s) /\
      tiupSpec.TiFlashSpec_SSHPort s = 22 /\ tiupSpec.TiFlashSpec_TCPPort s = TiFlashSpec_TCPPort i /\
      tiupSpec.TiFlashSpec_HTTPPort s = TiFlashSpec_HTTPPort i /\
      tiupSpec.TiFlashSpec_FlashServicePort s = TiFlashSpec_ServicePort i /\
      tiupSpec.TiFlashSpec_FlashProxyPort s = TiFlashSpec_ProxyPort i /\
      tiupSpec.TiFlashSpec_FlashProxyStatusPort s = TiFlashSpec_ProxyStatusPort i /\
      tiupSpec.TiFlashSpec_StatusPort s = TiFlashSpec_MetricsPort i /\
      tiupSpec.TiFlashSpec_DeployDir s = TiFlashSpec_DeployDir i /\
      tiupSpec.TiFlashSpec_DataDir s = TiFlashSpec_DataDir i /\
      tiupSpec.TiFlashSpec_LogDir s = TiFlashSpec_LogDir i /\
      cluster.generateConfig (TiFlashSpec_Config i) = inr (tiupSpec.TiFlashSpec_Config s) /\
      cluster.generateConfig (TiFlashSpec_LearnerConfig i) = inr (tiupSpec.TiFlashSpec_LearnerConfig s))
    (elems (TiDBCluster_TiFlash c)) (tiupSpec.Spec_TiFlashServers spec);
}.

Lemma setDrainerConfig_inr text ips conf :
  cluster.setDrainerConfig text ips = Ret (inr conf) -> drainer_configured ips text conf.
Proof.
  unfold cluster.setDrainerConfig, drainer_configured. destruct (yaml_Unmarshal text) as [err|raw]; [done|].
  intros H. exists raw. split; [done|]. destruct ips as [|addresses l]; [by injection H|].
  apply go_bind_Ret_inv in H as (value & Hv & H). apply go_bind_Ret_inv in H as (host & Hh & H).
  apply go_bind_Ret_inv in H as (name & Hn & H).
  destruct (raw !! "syncer.to.host") as [value'|] eqn:Ev; [|done]. injection Hv as ->.
  destruct (yaml_as_string value) as [host'|] eqn:Eh; [|done]. injection Hh as ->.
  change (go_index (strs.Split host "://") 1) with (match strs.Split host "://" !! 1%nat with Some a => Ret a | None => Panic "runtime error: index out of range" end) in Hn.
  destruct (strs.Split host "://" !! 1%nat) as [name'|] eqn:En; [|done].
  injection Hn as ->. destruct (String.eqb_spec (default "" (addresses !! name)) "") as [|Hip]; [done|].
  injection H as <-. destruct (addresses !! name) as [ip|] eqn:Ei; [|done]. exists value, host, name, ip. done.
Qed.

Lemma setServerConfigs_inr i s : cluster.setServerConfigs i = inr s ->
  yaml_Unmarshal (ServerConfigs_TiDB i) = inr (tiupSpec.ServerConfigs_TiDB s) /\
  yaml_Unmarshal (ServerConfigs_TiKV i) = inr (tiupSpec.ServerConfigs_TiKV s) /\
  yaml_Unmarshal (ServerConfigs_PD i) = inr (tiupSpec.ServerConfigs_PD s).
Proof.
  unfold cluster.setServerConfigs. destruct (yaml_Unmarshal (ServerConfigs_TiDB i)); [done|].
  destruct (yaml_Unmarshal (ServerConfigs_TiKV i)); [done|]. destruct (yaml_Unmarshal (ServerConfigs_PD i)); [done|].
  by intros [= <-].
Qed.

(** A loop of [build], each server by what its body makes of the item. *)
Lemma loop_spec {A B} (f : A -> goerr B) (P : A -> B -> Prop) l bs :
  go_mapM f l = Ret (inr bs) -> (forall a b, f a = Ret (inr b) -> P a b) -> Forall2 P l bs.
Proof. intros H HP. apply go_mapM_inr in H. eapply Forall2_impl; [|exact H]. intros a b Hab. by apply HP. Qed.

Ltac one_server H :=
  unfold cluster.tidb_server, cluster.tikv_server, cluster.pd_server, cluster.pump_server, cluster.drainer,
    cluster.monitor, cluster.grafana, cluster.alertmanager, cluster.cdc_server, cluster.tiflash_server in H;
  found_host H; repeat next_bind H; injection H as <-; simpl; (split; [by eexists|split_and?; auto using setDrainerConfig_inr]).

Lemma build_built c trs dryRun ips spec control :
  cluster.build c trs dryRun ips = Ret (inr (spec, control)) -> built c (resourceMaps trs) dryRun ips spec control.
Proof.
  unfold cluster.build. intros H. next_bind H. found_host H. repeat next_bind H. injection H as <- <-.
  split; simpl; [done|by destruct (TiDBCluster_Global c)|by apply setServerConfigs_inr|..]; (eapply loop_spec; [eassumption|]); intros i s Hi; one_server Hi.
Qed.

End build.


(** C22. The specification of a TiDB cluster places each configured component, in order, on the
    resource of its host's name with its own ports, directories and configuration, before default
    values are filled in (an AlertManager's directories for data and logs excepted), and the control node is the resource the cluster names: a specification is never
    built with a component left out or on a resource that is missing. *)
Theorem build_hosts {Y : Yaml} {D : Defaults Y} ctf c trs dryRun ips spec control :
  Topology_TiDBCluster ctf = Some c ->
  cluster.BuildSpecification ctf trs dryRun ips = Ret (inr (spec, control)) ->
  exists plain, defaults_Set_cluster plain = inr spec /\ built c (resourceMaps trs) dryRun ips plain control.
Proof.
  unfold cluster.BuildSpecification. intros ->. cbn. intros H. next_bind H. destruct v as [plain control'].
  apply build_built in Hv. destruct (defaults_Set_cluster plain) as [|spec'] eqn:E; [done|].
  injection H as -> ->. eauto.
Qed.

(** A ready resource of the given name at an address of its own, and a topology on a cluster. *)
Definition example_node (name : string) : TestResource :=
  zeroTestResource <| TestResource_ObjectMeta := zeroMeta <| ObjectMeta_Name := name |> |>
    <| TestResource_Status ::= fun s => s <| TestResourceStatus_Container ::= fun c =>
         c <| ContainerSpec_ClusterIP := "10.0.0." +:+ name |> |> |>.
Definition example_spec (c : TiDBCluster) : TestClusterTopologySpec :=
  mkTestClusterTopologySpec "req" (Some c) None None.

Definition example_specification (dryRun : bool) :=
  cluster.BuildSpecification (Y := plain_yaml) (D := no_defaults) (example_spec (example_cluster ["n1"; "n2"]))
    (example_node <$> ["n0"; "n1"; "n2"]) dryRun [].

Lemma example_builds dryRun : exists spec control, example_specification dryRun = Ret (inr (spec, control)).
Proof.
  assert (H : match example_specification dryRun with Ret (inr _) => true | _ => false end = true)
    by (destruct dryRun; vm_compute; reflexivity).
  destruct (example_specification dryRun) as [[|[spec control]]|]; [done|eauto|done].
Qed.

Lemma build_hosts_witness :
  exists spec control, built (Y := plain_yaml) (example_cluster ["n1"; "n2"])
    (resourceMaps (example_node <$> ["n0"; "n1"; "n2"])) false [] spec control.
Proof.
  destruct (example_builds false) as (spec & control & E).
  destruct (build_hosts (Y := plain_yaml) (D := no_defaults) (example_spec (example_cluster ["n1"; "n2"]))
    (example_cluster ["n1"; "n2"]) _ _ _ _ _ eq_refl E) as (plain & _ & Hb).
  by exists plain, control.
Defined.

(** ** The resources of a cluster *)

Lemma elem_of_zip_seq {A} (l : list A) i n a : (n, a) ∈ zip (seq i (length l)) l -> exists k, n = (i + k)%nat /\ l !! k = Some a.
Proof.
  revert i; induction l as [|b l IH]; intros i; simpl; [by intros ?%not_elem_of_nil|].
  intros [[= -> ->]|H]%elem_of_cons; [exists 0%nat; split; [lia|done]|].
  apply IH in H as (k & -> & Hk). exists (S k). split; [lia|done].
Qed.

(** Only resources of the hosts the cluster counts are given to what installs it. *)
Lemma cluster_resource_counted {Y : Yaml} ct items r :
  r ∈ TopologyCtl.load items (TopologyCtl.filterClusterResources ct items) ->
  TestResource_Name r ∈ TopologyCtl.allHosts (Topology_Spec ct).
Proof.
  unfold TopologyCtl.load, TopologyCtl.filterClusterResources. intros (p & Hp & Hr)%list_elem_of_omap.
  apply list_elem_of_fmap in Hp as ([n item] & -> & Hn). apply elem_of_filterb in Hn as [Hn Hin].
  apply elem_of_zip_seq in Hn as (k & -> & Hk). simpl in Hr. rewrite Hk in Hr. injection Hr as ->.
  by apply bool_decide_eq_true in Hin.
Qed.

(** The hosts of the components that are not counted among the cluster's hosts. *)
Definition uncounted_hosts (c : TiDBCluster) : list string :=
  (PumpSpec_Host <$> elems (TiDBCluster_Pump c)) ++ (DrainerSpec_Host <$> elems (TiDBCluster_Drainer c))
  ++ (AlertManagerSpec_Host <$> elems (TiDBCluster_AlertManager c)).

Lemma built_uncounted {Y : Yaml} c rs dryRun ips spec control host :
  built c rs dryRun ips spec control -> host ∈ uncounted_hosts c -> is_Some (rs !! host).
Proof.
  intros B. unfold uncounted_hosts.
  assert (Hloop : forall A S (f : A -> string) (g : A -> S -> Prop) l ss, Forall2 g l ss ->
    (forall i s, g i s -> is_Some (rs !! f i)) -> host ∈ f <$> l -> is_Some (rs !! host)).
  { intros A S f g l ss HF Hg (i & -> & Hi)%list_elem_of_fmap.
    induction HF as [|i' s l ss Hi' HF IH]; [set_solver|].
    apply elem_of_cons in Hi as [->|Hi]; [by eapply Hg|auto]. }
  rewrite !elem_of_app. intros [H|[H|H]]; (eapply Hloop; [| |exact H]);
    [apply (built_pump _ _ _ _ _ _ B)| |apply (built_drainer _ _ _ _ _ _ B)| |apply (built_alert _ _ _ _ _ _ B)|];
    simpl; intros i s ((node & -> & _) & _); eauto.
Qed.

(** A TiDB cluster with a Pump, a Drainer or an AlertManager on a host that carries none of
    the other components can never be installed or changed, whatever its request's resources
    are: the resources are reduced to the hosts the cluster counts, which leave those components
    out, and the specification is not built from what remains. *)
Lemma uncounted_node_lost {Y : Yaml} {D : Defaults Y} ct c items dryRun ips host :
  Topology_TiDBCluster (Topology_Spec ct) = Some c ->
  host ∈ uncounted_hosts c -> host ∉ TiDBCluster_AllHosts c ->
  ~ exists r, cluster.BuildSpecification (Topology_Spec ct)
    (TopologyCtl.load items (TopologyCtl.filterClusterResources ct items)) dryRun ips = Ret (inr r).
Proof.
  intros Hc Hhost Hout [r H]. unfold cluster.BuildSpecification in H. rewrite Hc in H. cbn in H. next_bind H.
  destruct v as [plain control]. apply build_built in Hv.
  destruct (built_uncounted _ _ _ _ _ _ _ Hv Hhost) as [node Hnode].
  assert (Hn : resourceMaps (TopologyCtl.load items (TopologyCtl.filterClusterResources ct items)) !! host <> None)
    by congruence.
  apply Hn, resourceMaps_None. intros x Hx Hname. apply Hout. rewrite <-Hname.
  apply cluster_resource_counted in Hx. unfold TopologyCtl.allHosts in Hx. by rewrite Hc in Hx.
Qed.

Lemma uncounted_node_lost_witness :
  let c := (example_cluster ["n1"]) <| TiDBCluster_Pump := Some [mkPumpSpec "n2" 22 8250 "/deploy" "/data" ""] |> in
  let ct := mkTestClusterTopology zeroMeta (example_spec c)
              (mkTestClusterTopologyStatus None (mkTiDBClusterInfo false [] []) ClusterTopologyStatePending) in
  let items := example_node <$> ["n0"; "n1"; "n2"] in
  ~ exists r, cluster.BuildSpecification (Y := plain_yaml) (D := no_defaults) (Topology_Spec ct)
    (TopologyCtl.load items (TopologyCtl.filterClusterResources ct items)) false [] = Ret (inr r).
Proof.
  intros c ct items. apply (uncounted_node_lost (D := no_defaults) ct c items false [] "n2"); [reflexivity| |].
  - apply (bool_decide_unpack _). vm_compute. exact I.
  - apply (bool_decide_unpack _). vm_compute. exact I.
Defined.

(** ** The ports of the containers *)

(** What a resource exposes: no port twice, and exactly the SSH port and the ports of the
    components on it; every resource and every host of a component is there. *)
Definition exposes (trs : list TestResource) (ports : list (string * string))
    (m : gmap string (list string)) (name : string) : Prop :=
  match m !! name with
  | Some l => (name ∈ (TestResource_Name <$> trs) \/ name ∈ (ports.*1)) /\ NoDup l /\
      forall p, p ∈ l <-> p = TestResource.SSHPort \/ (name, p) ∈ ports
  | None => ~ name ∈ (TestResource_Name <$> trs) /\ ~ name ∈ (ports.*1)
  end.

Lemma elem_of_add s e p : p ∈ TopologyEnvs.add s e <-> p = e \/ p ∈ s.
Proof.
  unfold TopologyEnvs.add. destruct (Slice.StringsContains s e) eqn:E; [|set_solver].
  apply Slice.StringsContains_spec in E. naive_solver.
Qed.
Lemma NoDup_add s e : NoDup s -> NoDup (TopologyEnvs.add s e).
Proof.
  unfold TopologyEnvs.add. intros Hs. destruct (Slice.StringsContains s e) eqn:E; [done|].
  apply list.NoDup_app. split; [done|]. split; [|apply NoDup_singleton].
  intros x Hx ->%list_elem_of_singleton. apply Slice.StringsContains_spec in Hx. congruence.
Qed.

(** The entry of a resource before the SSH port is added. *)
Definition indexed (names : list string) (ports : list (string * string)) (m : gmap string (list string))
    (name : string) : Prop :=
  match m !! name with
  | Some l => (name ∈ names \/ name ∈ (ports.*1)) /\ NoDup l /\ forall p, p ∈ l <-> (name, p) ∈ ports
  | None => ~ name ∈ names /\ ~ name ∈ (ports.*1)
  end.

Lemma indexed_start trs name :
  indexed (TestResource_Name <$> trs) [] (fold_left (fun m r => <[TestResource_Name r := []]> m) trs ∅) name.
Proof.
  apply (fold_left_seen (fun seen m => indexed (TestResource_Name <$> seen) [] m name)).
  - unfold indexed. rewrite lookup_empty. set_solver.
  - intros seen r m. unfold indexed. rewrite fmap_app. simpl.
    destruct (decide (TestResource_Name r = name)) as [->|Hne].
    + rewrite lookup_insert_eq. intros _. split; [set_solver|split; [constructor|set_solver]].
    + rewrite lookup_insert_ne by done. destruct (m !! name); set_solver.
Qed.

Lemma indexed_expose names seen m host port name :
  indexed names seen m name -> indexed names (seen ++ [(host, port)]) (TopologyEnvs.expose m (host, port)) name.
Proof.
  unfold indexed. simpl. rewrite fmap_app. simpl. destruct (decide (host = name)) as [->|Hne].
  - rewrite lookup_insert_eq. intros H. split; [set_solver|].
    assert (Hl : NoDup (default [] (m !! name)) /\ forall p, p ∈ default [] (m !! name) <-> (name, p) ∈ seen).
    { destruct (m !! name) as [l|]; [tauto|]. split; [constructor|]. intros p.
      split; [by intros ?%not_elem_of_nil|]. intros Hp. exfalso. apply H, list_elem_of_fmap. by exists (name, p). }
    destruct Hl as [Hl Hp]. split; [by apply NoDup_add|]. intros p. rewrite elem_of_add, Hp. set_solver.
  - rewrite lookup_insert_ne by done. destruct (m !! name); set_solver.
Qed.

Lemma index_ports_spec trs ports name : exposes trs ports (TopologyEnvs.index_ports trs ports) name.
Proof.
  assert (H : indexed (TestResource_Name <$> trs) ports
    (fold_left TopologyEnvs.expose ports (fold_left (fun m r => <[TestResource_Name r := []]> m) trs ∅)) name).
  { apply (fold_left_seen (fun seen m => indexed (TestResource_Name <$> trs) seen m name)); [apply indexed_start|].
    intros seen [host port] m. apply indexed_expose. }
  revert H. unfold exposes, indexed, TopologyEnvs.index_ports. rewrite lookup_fmap.
  destruct (fold_left _ ports _ !! name) as [l|]; simpl; [|done]. intros (H & Hl & Hp).
  split; [done|]. split; [by apply NoDup_add|]. intros p. by rewrite elem_of_add, Hp.
Qed.

(** The containers of a TiDB cluster's resources expose exactly the SSH port and the ports
    of the servers placed on them, none twice; a resource with no server exposes the SSH port
    alone. The index is computed whenever the specification can be built. *)
Theorem exposed_ports {Y : Yaml} {D : Defaults Y} ctf c trs spec control :
  Topology_TiDBCluster ctf = Some c ->
  cluster.BuildSpecification ctf trs true [] = Ret (inr (spec, control)) ->
  exists m, TopologyEnvs.indexResourceExposedPorts ctf trs = Ret (inr m) /\
    forall name, exposes trs (TopologyEnvs.tidb_ports spec) m name.
Proof.
  unfold TopologyEnvs.indexResourceExposedPorts. intros -> Hs. rewrite Hs. cbn.
  eexists. split; [reflexivity|]. intros name. apply index_ports_spec.
Qed.

Lemma exposed_ports_witness :
  exists m, TopologyEnvs.indexResourceExposedPorts (Y := plain_yaml) (D := no_defaults)
      (example_spec (example_cluster ["n1"; "n2"])) (example_node <$> ["n0"; "n1"; "n2"]) = Ret (inr m).
Proof.
  destruct (example_builds true) as (spec & control & E).
  destruct (exposed_ports (Y := plain_yaml) (D := no_defaults) (example_spec (example_cluster ["n1"; "n2"]))
    (example_cluster ["n1"; "n2"]) _ _ _ eq_refl E) as (m & Hm & _).
  by exists m.
Defined.

(** ** Scaling in *)

(** The entries of the old component whose address is none of the new ones'. *)
Definition dropped {A} (id : A -> string) (pre cur : goslice A) (a : A) : Prop :=
  a ∈ elems pre /\ forall b, b ∈ elems cur -> id b <> id a.

(** The addresses, with default ports, of the entries of the old cluster that are dropped. *)
Definition to_remove (ips : gmap string string) (pre cur : TiDBCluster) (node : string) : Prop :=
  (exists t, dropped TiDBSpec_EntryID (TiDBCluster_TiDB pre) (TiDBCluster_TiDB cur) t /\
     node = compare.address ips (TiDBSpec_Host t) (if TiDBSpec_Port t =? 0 then 4000 else TiDBSpec_Port t)) \/
  (exists t, dropped PDSpec_EntryID (TiDBCluster_PD pre) (TiDBCluster_PD cur) t /\
     node = compare.address ips (PDSpec_Host t) (if PDSpec_ClientPort t =? 0 then 2379 else PDSpec_ClientPort t)) \/
  (exists t, dropped TiKVSpec_EntryID (TiDBCluster_TiKV pre) (TiDBCluster_TiKV cur) t /\
     node = compare.address ips (TiKVSpec_Host t) (if TiKVSpec_Port t =? 0 then 20160 else TiKVSpec_Port t)).

Lemma gone_spec {A} `{EqDecision A} (with_port : A -> A) (show : A -> string) (id : A -> string) pre cur node :
  (forall a b, a ∈ elems pre -> b ∈ elems cur -> id a = id b -> a = b) ->
  node ∈ (compare.gone with_port show (elems pre) (elems cur)).2 <->
  exists a, dropped id pre cur a /\ node = show (with_port a).
Proof.
  intros Himm. simpl. rewrite list_elem_of_fmap. setoid_rewrite elem_of_filterb.
  assert (Hl : forall a, negb (existsb (fun b => bool_decide (a = b)) (elems cur)) = true <-> ~ a ∈ elems cur).
  { intros a. rewrite negb_true_iff, <-not_true_iff_false, existsb_exists. setoid_rewrite bool_decide_eq_true.
    setoid_rewrite <-list_elem_of_In. naive_solver. }
  setoid_rewrite Hl. unfold dropped. split.
  - intros (a & -> & Ha & Hout). exists a. split; [|done]. split; [done|]. intros b Hb Hid.
    apply Hout. by rewrite (Himm a b).
  - intros (a & [Ha Hout] & ->). exists a. split; [done|]. split; [done|]. intros Hin. by apply (Hout a).
Qed.

(** C21. When an update the webhook accepts shrinks a cluster, the nodes to remove are exactly
    the entries of the old cluster whose address no entry of the new one has, at the addresses of
    their resources with default ports filled in. *)
Theorem scale_in_nodes pre cur info ips node :
  acceptable pre cur info ->
  node ∈ (compare.getScaleInNode ips pre cur).2 <-> to_remove ips pre cur node.
Proof.
  intros [_ (H1 & H2 & H3)]. unfold compare.getScaleInNode, to_remove.
  pose proof (gone_spec compare.tidb_port (fun t => compare.address ips (TiDBSpec_Host t) (TiDBSpec_Port t)) _ _ _ node H1) as G1.
  pose proof (gone_spec compare.pd_port (fun t => compare.address ips (PDSpec_Host t) (PDSpec_ClientPort t)) _ _ _ node H2) as G2.
  pose proof (gone_spec compare.tikv_port (fun t => compare.address ips (TiKVSpec_Host t) (TiKVSpec_Port t)) _ _ _ node H3) as G3.
  simpl in *. rewrite !elem_of_app, G1, G2, G3. clear.
  assert (Hx : forall A (P Q : A -> Prop), (forall a, P a <-> Q a) -> (exists a, P a) <-> exists a, Q a) by firstorder.
  f_equiv; [|f_equiv]; apply Hx; intros a; unfold compare.tidb_port, compare.pd_port, compare.tikv_port; case_match; done.
Qed.

Lemma scale_in_nodes_witness :
  let ips := {["n1" := "10.0.0.1"; "n2" := "10.0.0.2"]} in
  "10.0.0.2:20160" ∈ (compare.getScaleInNode ips (example_cluster ["n1"; "n2"]) (example_cluster ["n1"])).2 /\
  to_remove ips (example_cluster ["n1"; "n2"]) (example_cluster ["n1"]) "10.0.0.2:20160".
Proof.
  intros ips.
  assert (A : acceptable (example_cluster ["n1"; "n2"]) (example_cluster ["n1"]) (mkTiDBClusterInfo false [] [])).
  { refine (proj1 (validateTiDBUpdate_spec (D := one_change) (DL := one_change_laws) (example_topology ["n1"; "n2"] ["n1"])
      (example_topology ["n1"; "n2"] ["n1"]) _ _ eq_refl eq_refl) _). vm_compute. reflexivity. }
  assert (Hin : "10.0.0.2:20160" ∈ (compare.getScaleInNode ips (example_cluster ["n1"; "n2"]) (example_cluster ["n1"])).2)
    by (apply (bool_decide_unpack _); vm_compute; exact I).
  split; [exact Hin|]. by apply (scale_in_nodes _ _ _ ips _ A).
Defined.

#[local] Existing Instance one_change.

(** A cluster whose TiDB servers are given by their hosts and ports. *)
Definition with_servers (servers : list (string * Z)) : TiDBCluster :=
  (example_cluster ["n1"]) <| TiDBCluster_TiDB :=
    Some ((fun '(host, port) => mkTiDBSpec host port "" 10080 "/deploy" "") <$> servers) |>.
Definition server_topology (pre cur : list (string * Z)) : TestClusterTopology :=
  mkTestClusterTopology zeroMeta (example_spec (with_servers cur))
    (mkTestClusterTopologyStatus (Some (with_servers pre)) (mkTiDBClusterInfo false [] []) ClusterTopologyStateReady).

(** Dropping one of two TiDB servers and writing out the default port of the other is an
    update the webhook accepts, and the scale-in it causes removes both servers: the addresses
    are compared before the default ports are filled in. *)
Lemma scale_in_takes_kept_node :
  let pre := [("n1", 0); ("n2", 0)] in let cur := [("n1", 4000)] in
  let ips := {["n1" := "10.0.0.1"; "n2" := "10.0.0.2"]} in
  Topology.ValidateUpdate (server_topology pre cur) (server_topology pre cur) = None /\
  compare.IsScaleIn (with_servers pre) (with_servers cur) = true /\
  (compare.getScaleInNode ips (with_servers pre) (with_servers cur)).2 = ["10.0.0.1:4000"; "10.0.0.2:4000"].
Proof. vm_compute. done. Qed.
