(* ===== verification/Lifecycle.v ===== *)
(** * The life of a test resource

    What may happen to the status of a resource, one step at a time, without saying who does it
    or when: [Lifecycle.step]. The resource reconciler moves the state, workloads claim and
    destroy, topologies prepare a container. System.v shows that the stored resource moves only
    along these steps, so that what is proved of them here holds of the store. *)

From S2P Require Import Prelude GoStd Util ApiTypes Resource.

Module Lifecycle.

Definition image (s : TestResourceStatus) : string := ContainerSpec_Image (TestResourceStatus_Container s).

(** The container asked for; its address is the daemon's. *)
Definition job (s : TestResourceStatus) : ResourceContainerSpec :=
  (TestResourceStatus_Container s) <| ContainerSpec_ClusterIP := "" |>.

(** The moves the resource reconciler makes between two states. *)
Definition edge (a b : ResourceState) : bool :=
  match a, b with
  | ResourceStateNone, ResourcePending
  | ResourcePending, ResourceUninitialized
  | ResourceUninitialized, (ResourceUninitialized | ResourceReady | ResourceFinish)
  | ResourceReady, (ResourceUninitialized | ResourceFinish)
  | ResourceDestroy, ResourceUninitialized => true
  | _, _ => false
  end.

Definition exit_phase (s : TestResourceStatus) : ResourcePhase :=
  if TestResourceStatus_ExitCode s =? 0 then ResourcePhaseSucceeded else ResourcePhaseFailed.

Inductive step (s : TestResourceStatus) : TestResourceStatus -> Prop :=
| step_move s' :
    edge (TestResourceStatus_State s) (TestResourceStatus_State s') = true ->
    TestResourceStatus_ClaimRef s' = TestResourceStatus_ClaimRef s ->
    (if bool_decide (TestResourceStatus_State s = ResourceDestroy)
     then TestResourceStatus_Container s' = zeroContainerSpec else job s' = job s) ->
    (TestResourceStatus_State s = ResourceUninitialized ->
     TestResourceStatus_State s' <> ResourceUninitialized -> image s <> "") ->
    (TestResourceStatus_State s' = ResourceFinish -> TestResourceStatus_Phase s' = exit_phase s') ->
    step s s'
| step_claim owner container :
    TestResourceStatus_State s = ResourceUninitialized -> image s = "" ->
    (TestResourceStatus_ClaimRef s = None \/ TestResourceStatus_ClaimRef s = Some owner) ->
    step s (s <| TestResourceStatus_ClaimRef := Some owner |> <| TestResourceStatus_Container := container |>)
| step_destroy :
    CouldUninstall (TestResourceStatus_State s) = true ->
    step s (s <| TestResourceStatus_State := ResourceDestroy |> <| TestResourceStatus_ClaimRef := None |>)
| step_prepare container hostName :
    TestResourceStatus_State s = ResourceUninitialized -> image s = "" ->
    step s (s <| TestResourceStatus_Container := container |> <| TestResourceStatus_HostName := hostName |>).

(** What a status means: nobody has a resource that is not yet bound, one that runs or ran has
    something to run, a finished one tells how, and one being destroyed is claimed by nobody. *)
Definition wf (s : TestResourceStatus) : Prop :=
  match TestResourceStatus_State s with
  | ResourceStateNone | ResourcePending => image s = "" /\ TestResourceStatus_ClaimRef s = None
  | ResourceUninitialized => True
  | ResourceReady => image s <> ""
  | ResourceFinish => image s <> "" /\ TestResourceStatus_Phase s = exit_phase s
  | ResourceDestroy => TestResourceStatus_ClaimRef s = None
  | ResourceStateOther _ => False
  end.

Lemma job_image s s' : job s' = job s -> image s' = image s.
Proof. unfold job, image. intros H. by apply (f_equal ContainerSpec_Image) in H. Qed.

Lemma step_wf s s' : step s s' -> wf s -> wf s'.
Proof.
  intros Hstep Hwf. destruct Hstep as [s' He Hc Hj Hi Hf|owner c Hst Him Hc|Hst|c hn Hst Him].
  - unfold wf in *. revert Hi Hf. case_bool_decide as Hd; [|apply job_image in Hj];
      destruct (TestResourceStatus_State s); try done;
      destruct (TestResourceStatus_State s'); try done; intros Hi Hf; simpl in *;
      rewrite ?Hc, ?Hj; try done; intuition auto; try congruence; by apply Hi.
  - unfold wf. simpl. by rewrite Hst.
  - done.
  - unfold wf. simpl. by rewrite Hst.
Qed.

Lemma wf_zero : wf zeroResourceStatus.
Proof. done. Qed.

(** Steps that do not enter the destroyed state. *)
Definition serves (s s' : TestResourceStatus) : Prop :=
  step s s' /\ TestResourceStatus_State s' <> ResourceDestroy.

(** Who has a claim keeps it, and a container once asked for stays the one asked for. *)
Lemma serves_keeps s s' :
  serves s s' -> TestResourceStatus_State s <> ResourceDestroy ->
  (forall owner, TestResourceStatus_ClaimRef s = Some owner -> TestResourceStatus_ClaimRef s' = Some owner) /\
  (image s <> "" -> job s' = job s /\ TestResourceStatus_ClaimRef s' = TestResourceStatus_ClaimRef s).
Proof.
  intros [Hstep Hd'] Hd. destruct Hstep as [s' He Hc Hj Hi Hf|owner c Hst Him Hc|Hst|c hn Hst Him].
  - rewrite bool_decide_eq_false_2 in Hj by done. rewrite Hc. by split.
  - split; [|done]. intros o Ho. simpl. destruct Hc; congruence.
  - by destruct Hd'.
  - split; [|done]. by intros.
Qed.

Lemma serving_keeps s s' :
  rtc serves s s' -> TestResourceStatus_State s <> ResourceDestroy ->
  (forall owner, TestResourceStatus_ClaimRef s = Some owner -> TestResourceStatus_ClaimRef s' = Some owner) /\
  (image s <> "" -> job s' = job s /\ TestResourceStatus_ClaimRef s' = TestResourceStatus_ClaimRef s).
Proof.
  induction 1 as [s|s1 s2 s3 H12 _ IH]; intros Hd; [done|].
  destruct (serves_keeps _ _ H12 Hd) as [Hc1 Hj1]. destruct (IH (proj2 H12)) as [Hc2 Hj2].
  split; [auto|]. intros Him. destruct (Hj1 Him) as [Ej Ec].
  rewrite <-Ej, <-Ec. apply Hj2. by rewrite (job_image _ _ Ej).
Qed.

End Lifecycle.
