(* ===== verification/Progress.v ===== *)
(** * No lost wakeups

    controller-runtime calls a reconciler again when it asks to be (an error, a requeue) or when
    an object it watches changes; nothing else wakes it. So a run that neither asks to be called
    again nor changes its own object leaves that object where it is until somebody else acts:
    it must be a run with nothing left to do. This file proves it of every reconciler, and
    states the cases where it is not so. *)

From S2P Require Import Prelude GoStd Util ApiTypes TopologyTypes Prog World Machine Resource Relationship Docker.
From S2P Require Import Scheduler ResourceCtl MachineCtl ChaosCtl SSH TiupSpec TiupCtl TopologyCtl WorkloadCtl.

(** ** What wakes a reconciler *)

(** The result asks for another call: controller-runtime retries errors, and requeues. *)
Definition asks_again (r : Result * option error) : Prop :=
  r.2 <> None \/ Requeue r.1 = true \/ 0 < RequeueAfter r.1.

(** The object an accepted write stores. *)
Definition accepted (k : kind) (c : call) : answer c -> option (obj k) :=
  match c return answer c -> option (obj k) with
  | StatusUpdate k' o | Update k' o => fun x =>
      match x with inr _ => obj_as k k' o | inl _ => None end
  | _ => fun _ => None
  end.

(** The object of a kind was stored otherwise than it was read: its watchers are told. *)
Fixpoint moved (k : kind) (h : history) : Prop :=
  match h with
  | [] => False
  | e :: h' =>
      (exists o, accepted k (ev_call e) (ev_answer e) = Some o /\ last_got k h' <> Some o) \/ moved k h'
  end.

(** How a run that returns may end. A run that panics is let through: the panic ends the process of
    the manager, which is started again and lists every object. *)
Definition goes_on (k : kind) (rests : history -> Prop) (h : history) (res : go (Result * option error)) : Prop :=
  match res with
  | Ret r => asks_again r \/ moved k h \/ rests h
  | Panic _ => True
  end.

(** A status was sent to be stored, and refused or not. *)
Definition stored_status (k : kind) (P : obj k -> bool -> Prop) (c : call) : answer c -> Prop :=
  match c return answer c -> Prop with
  | StatusUpdate k' o => fun x =>
      match obj_as k k' o with
      | Some o => P o (match x with inl _ => true | inr _ => false end)
      | None => False
      end
  | _ => fun _ => False
  end.

(** No guard: what is called is not at issue here. *)
Definition free (_ : history) (_ : call) : Prop := True.
Definition woken (k : kind) (rests : history -> Prop) (p : io (Result * option error)) : Prop :=
  safe free p (goes_on k rests).

Lemma asks_error w e : asks_again (w, Some e).
Proof. by left. Qed.
Lemma asks_requeue d err : asks_again (mkResult true d, err).
Proof. right. by left. Qed.
Lemma asks_after d err : 0 < d -> asks_again (mkResult false d, err).
Proof. right. by right. Qed.
#[export] Hint Resolve asks_error asks_requeue asks_after : naglfar.

(** ** Stretches that do not read the object

    [quiet k P p]: [p] reads no object of kind [k], and returns only what satisfies [P],
    whatever it is answered. *)

Definition reads_not (k : kind) (c : call) : Prop := match c with Get k' _ => k' <> k | _ => True end.

Fixpoint quiet {A} (k : kind) (P : A -> Prop) (p : io A) : Prop :=
  match p with
  | Done a => P a
  | Crash _ => True
  | Call c f => reads_not k c /\ forall x, quiet k P (f x)
  end.

Section quiet.
Context (k : kind).

Lemma quiet_mono {A} (P Q : A -> Prop) p : quiet k P p -> (forall a, P a -> Q a) -> quiet k Q p.
Proof.
  intros Hp HPQ. induction p as [a|s|c f IH]; simpl in *; [auto..|].
  destruct Hp as [Hc Hf]. split; [done|]. intros x. by apply IH.
Qed.

Lemma quiet_bind {A B} (P : A -> Prop) (Q : B -> Prop) (p : io A) (f : A -> io B) :
  quiet k P p -> (forall a, P a -> quiet k Q (f a)) -> quiet k Q (p ≫= f).
Proof.
  intros Hp Hf. change (p ≫= f) with (prog_bind f p).
  induction p as [a|s|c g IH]; simpl in *; [auto..|].
  destruct Hp as [Hc Hg]. split; [done|]. intros x. by apply IH.
Qed.

Lemma quiet_lift {A} (P : A -> Prop) (m : go A) : (forall a, m = Ret a -> P a) -> quiet k P (lift m).
Proof. destruct m; simpl; auto. Qed.

Lemma quiet_for_each {A S R} (P : R -> Prop) (f : S -> A -> io (S + R)) l s :
  (forall s a, quiet k (fun r => match r with inl _ => True | inr x => P x end) (f s a)) ->
  quiet k (fun r => match r with inl _ => True | inr x => P x end) (for_each f l s).
Proof.
  intros Hf. revert s. induction l as [|a l IH]; intros s; [done|].
  cbn [for_each]. apply (quiet_bind (fun r => match r with inl _ => True | inr x => P x end)); [apply Hf|].
  intros [s'|x] Hx; [apply IH|done].
Qed.

Lemma quiet_deferring {A} (P : A -> Prop) (d : io unit) (p : io A) :
  quiet k (fun _ => True) d -> quiet k P p -> quiet k P (deferring d p).
Proof.
  intros Hd. induction p as [a|s|c f IH]; simpl; intros Hp.
  - by eapply quiet_bind.
  - by eapply (quiet_bind (fun _ => True)).
  - destruct Hp as [Hc Hf]. split; [done|]. intros x. by apply IH.
Qed.

(** A quiet stretch keeps the object read, and what happened before it. *)
Definition carries (h h' : history) : Prop :=
  last_got k h' = last_got k h /\ (moved k h -> moved k h') /\ forall P, happened P h -> happened P h'.

#[global] Instance carries_preorder : PreOrder carries.
Proof.
  split; [by intros h|]. intros h1 h2 h3 (E1 & M1 & F1) (E2 & M2 & F2).
  split; [congruence|]. split; auto.
Qed.

Lemma carries_event h c x : reads_not k c -> carries h (Event c x :: h).
Proof.
  intros Hc. split; [|split].
  - cbn [last_got ev_call ev_answer]. destruct c; try done. simpl. destruct x as [?|o]; [done|].
    simpl in Hc. by destruct k0, k.
  - by right.
  - intros P. apply happened_later.
Qed.

Lemma quiet_wp {A} (P : A -> Prop) (p : io A) h :
  quiet k P p -> wp admissible free p h (fun h' r =>
    carries h h' /\ match r with Ret a => P a | Panic _ => True end).
Proof.
  revert h. induction p as [a|s|c f IH]; intros h Hp; simpl in *; [by split..|].
  destruct Hp as [Hc Hf]. split; [done|]. intros x _. eapply wp_mono; [by apply IH|].
  intros h' r [Hext Hr]. split; [|done]. etrans; [by apply carries_event|done].
Qed.

(** A quiet stretch in the middle of a handler. *)
Lemma wp_quiet {A B} (P : A -> Prop) (p : io A) (f : A -> io B) h Q :
  quiet k P p ->
  (forall h' a, carries h h' -> P a -> wp admissible free (f a) h' Q) ->
  (forall h' s, Q h' (Panic s)) ->
  wp admissible free (p ≫= f) h Q.
Proof.
  intros Hp Hf HQ. apply wp_bind. eapply wp_mono; [by apply quiet_wp|].
  intros h' [a|s] [Hext Ha]; [by apply Hf|apply HQ].
Qed.

(** A handler whose every result asks again. *)
Lemma quiet_goes_on p rests h :
  quiet k asks_again p -> wp admissible free p h (goes_on k rests).
Proof.
  intros Hp. eapply wp_mono; [by apply quiet_wp|]. intros h' [r|s] [_ Hr]; [by left|done].
Qed.


(** Once it moved, whatever follows. *)
Lemma moved_goes_on rests p h : moved k h -> wp admissible free p h (goes_on k rests).
Proof.
  revert h. induction p as [r|s|c f IH]; intros h Hm; simpl; [by right; left|done|].
  split; [done|]. intros x _. apply IH. by right.
Qed.

Lemma status_update_goes_on rests (o : obj k) h w :
  last_got k h <> Some o ->
  wp admissible free (err ← status_update k o; mret (w, err)) h (goes_on k rests).
Proof.
  intros Hne. unfold status_update. wp_run. split; [done|]. intros [err|o'] _.
  - left. apply asks_error.
  - right. left. left. exists o. split; [|done]. simpl. by destruct k.
Qed.

Lemma object_update_goes_on rests (o : obj k) h w :
  last_got k h <> Some o ->
  wp admissible free (err ← update k o; mret (w, err)) h (goes_on k rests).
Proof.
  intros Hne. unfold update. wp_run. split; [done|]. intros [err|o'] _.
  - left. apply asks_error.
  - right. left. left. exists o. split; [|done]. simpl. by destruct k.
Qed.
End quiet.

(** Walking a program that reads no object of the kind: the branches are taken one by one, and
    what is left to prove are the results. *)
Ltac quiet_step :=
  cbn beta iota zeta;
  match goal with
  | |- quiet _ (fun _ => True) (Done _) => exact I
  | |- quiet _ _ (Done _) => cbn [quiet]
  | |- quiet _ _ (mret _) => cbn [quiet mret prog_ret_inst]
  | |- quiet _ _ (Crash _) => exact I
  | |- quiet _ _ (lift _) => apply quiet_lift; intros ? ?
  | |- quiet _ _ (ask _) => split; [done|intros ?]
  | |- quiet _ _ (Call _ _) => split; [done|intros ?]; cbn [prog_bind]
  | |- quiet _ _ (mbind _ (lift _)) =>
      apply (quiet_bind _ (fun _ => True)); [by apply quiet_lift|intros ? _]
  | |- quiet _ _ (mbind _ _) => apply (quiet_bind _ (fun _ => True)); [|intros ? _]
  | |- quiet _ (fun _ => True) (for_each _ _ _) =>
      eapply quiet_mono; [apply (quiet_for_each _ (fun _ => True)); intros ? ?|done]
  | |- quiet _ _ (deferring _ _) => apply quiet_deferring; [by split|]
  | |- quiet _ _ (match ?x with _ => _ end) => destruct x
  end.
Ltac quiet_walk := repeat quiet_step; auto with naglfar.

(** The services that several handlers use. *)
Lemma quiet_getRelationship k : k <> KRelationship -> quiet k (fun _ => True) getRelationship.
Proof.
  intros Hk. unfold getRelationship, get.
  apply (quiet_bind _ (fun _ => True)); [split; [simpl; congruence|done]|]. intros [err|rel] _; quiet_walk.
Qed.
Lemma quiet_get k k' key : k' <> k -> quiet k (fun _ => True) (get k' key).
Proof. intros Hk. split; [done|]. done. Qed.
Lemma quiet_event k P e r m : P tt -> quiet k P (record_event e r m).
Proof. intros HP. split; [done|]. by intros []. Qed.
Lemma quiet_status_update k k' (o : obj k') : quiet k (fun _ => True) (status_update k' o).
Proof. by split. Qed.
#[export] Hint Extern 1 (_ <> _ :> kind) => discriminate : naglfar.
#[export] Hint Resolve quiet_getRelationship quiet_event : naglfar.
#[export] Hint Extern 1 (quiet _ _ (get _ _)) => apply quiet_get : naglfar.
#[export] Hint Extern 1 (quiet _ _ (status_update _ _)) => apply quiet_status_update : naglfar.

(** ** The resource reconciler *)

Section resource.
Context {U : Units}.
Import ResourceCtl.

Lemma quiet_getHostMachine ref : quiet KTestResource (fun _ => True) (getHostMachine ref).
Proof.
  unfold getHostMachine. quiet_walk.
Qed.

Lemma quiet_MakeClient m : quiet KTestResource (fun _ => True) (MakeClient m).
Proof. unfold MakeClient, Machine.DockerClient. quiet_walk. Qed.

Lemma quiet_create (r : TestResource) (b : io (Config * HostConfig)) client name reason :
  quiet KTestResource (fun _ => True) b ->
  quiet KTestResource (fun _ : option error => True)
    ('(config, hostConfig) ← b; pull_and_create r client config hostConfig name reason).
Proof. intros Hb. unfold pull_and_create, PullImageByPolicy. quiet_walk. Qed.

Lemma quiet_getResourceBinding ref : quiet KTestResource (fun _ => True) (getResourceBinding ref).
Proof. unfold getResourceBinding. quiet_walk. Qed.

Lemma quiet_createContainer r client : quiet KTestResource (fun _ => True) (createContainer r client).
Proof.
  unfold createContainer. apply (quiet_bind _ (fun _ => True)); [apply quiet_getResourceBinding|].
  intros [err|b] _; [done|]. apply quiet_create.
  unfold TestResource.ContainerConfig, range_keys. quiet_walk.
Qed.

Lemma quiet_createCleaner r client : quiet KTestResource (fun _ => True) (createCleaner r client).
Proof.
  unfold createCleaner. apply (quiet_bind _ (fun _ => True)); [apply quiet_getResourceBinding|].
  intros [err|b] _; [done|]. apply quiet_create.
  unfold TestResource.ContainerCleanerConfig, range_keys. quiet_walk.
Qed.

Lemma quiet_finalize r m : quiet KTestResource (fun _ => True) (finalize r m).
Proof.
  unfold finalize, finalize_with, removeContainer. apply (quiet_bind _ (fun _ => True)); [apply quiet_MakeClient|].
  intros [err|client] _; [done|]. quiet_walk. apply quiet_createCleaner.
Qed.

(** Nothing to do: there is no resource, it is finished, it has nothing to run, or its container
    was started and neither runs nor ended. *)
Definition resource_rests (h : history) : Prop :=
  match last_got KTestResource h with
  | None => True
  | Some r =>
      match TestResource_State r with
      | ResourceFinish | ResourceStateOther _ => True
      | ResourceUninitialized =>
          TestResource_Image r = "" \/
          happened (fun c => match c return answer c -> Prop with
            | ContainerInspect _ name => fun x => name = TestResource.ContainerName r /\
                exists stats, x = inr stats /\ ContainerState_Running (ContainerJSON_State stats) = false /\
                  ContainerState_Restarting (ContainerJSON_State stats) = false /\ finished stats = false
            | _ => fun _ => False
            end) h
      | _ => False
      end
  end.

Abbreviation resource_goes_on := (goes_on KTestResource resource_rests).

Context (r : TestResource).

(** A status update that ends the handler moves the resource, if it changes it. *)
Lemma resource_moves f h w :
  last_got KTestResource h = Some r -> f (TestResource_Status r) <> TestResource_Status r ->
  wp admissible free (err ← status_update KTestResource (with_status f r); mret (w, err)) h resource_goes_on.
Proof.
  intros Hgot Hf. apply status_update_goes_on. rewrite Hgot. intros [= E]. apply Hf. exact (eq_sym (f_equal TestResource_Status E)).
Qed.

(** A change of the state is a change. *)
Lemma state_changes (s : TestResourceStatus) :
  TestResourceStatus_State s <> TestResource_State r -> s <> TestResource_Status r.
Proof. intros Hs E. by rewrite E in Hs. Qed.

(** Closing the client wakes nobody and takes nothing back. *)
Lemma resource_close client h res :
  resource_goes_on h res ->
  wp admissible free (ask (DockerClose client)) h (fun h' r' => match r' with
    | Ret _ => resource_goes_on h' res | Panic s => resource_goes_on h' (Panic s) end).
Proof.
  intros Hres. wp_run. split; [done|]. intros [] _. destruct res as [res|]; [|done].
  destruct Hres as [Ha|[Hm|Hr]]; [by left|right; left; by right|right; right].
  revert Hr. unfold resource_rests. simpl. destruct (last_got KTestResource h) as [r'|]; [|done].
  destruct (TestResource_State r'); try done. intros [Hi|Hh]; [by left|right]. by apply happened_later.
Qed.

(** A body between the opening of a client and its deferred close. *)
Lemma with_client_goes_on (m : Machine) (body : DockerClient -> io (Result * option error)) h :
  (forall h' client, carries KTestResource h h' -> wp admissible free (body client) h' resource_goes_on) ->
  wp admissible free
    (let? client := MakeClient m orelse err => mret (noRequeue, Some err) in
     deferring (ask (DockerClose client)) (body client)) h resource_goes_on.
Proof.
  intros Hbody. apply (wp_quiet KTestResource (fun _ => True)); [apply quiet_MakeClient| |done].
  intros h' [err|client] Hext _; [left; apply asks_error|].
  apply wp_deferring. eapply wp_mono; [by apply Hbody|]. intros h2 res. apply resource_close.
Qed.

Lemma follow_started_goes_on client stats h :
  last_got KTestResource h = Some r -> TestResource_State r = ResourceUninitialized ->
  let h' := Event (ContainerInspect client (TestResource.ContainerName r)) (inr stats) :: h in
  wp admissible free (follow_started r stats) h' resource_goes_on.
Proof.
  intros Hgot Hst h'. unfold follow_started. destruct (ContainerState_Restarting _) eqn:Hre.
  { left. apply asks_requeue. }
  destruct (ContainerState_Running _) eqn:Hrun.
  - case_bool_decide as Hph; cbn [negb].
    + destruct (_ !! clusterNetwork) as [ip|]; [|left; apply asks_error].
      apply (wp_quiet KTestResource (fun _ => True)); [by split| |done]. intros h1 keys Hext _.
      apply (wp_quiet KTestResource (fun _ => True)); [by apply quiet_lift| |done]. intros h2 bindings Hext2 _.
      apply resource_moves; [by rewrite (proj1 Hext2), (proj1 Hext)|]. apply state_changes.
      rewrite Hst. by destruct (finished stats).
    + apply resource_moves; [done|]. intros E. apply (f_equal TestResourceStatus_Phase) in E. by destruct Hph.
  - destruct (finished stats) eqn:Hf.
    + apply resource_moves; [done|]. apply state_changes. by rewrite Hst.
    + unfold status_update. wp_run. split; [done|]. intros [err|o] _; [left; apply asks_error|].
      right. right. unfold resource_rests. simpl. rewrite Hgot, Hst. right. apply happened_later, happened_here.
      split; [done|]. by exists stats.
Qed.

Lemma uninitialized_goes_on h :
  last_got KTestResource h = Some r -> TestResource_State r = ResourceUninitialized ->
  wp admissible free (reconcileStateUninitialized r) h resource_goes_on.
Proof.
  intros Hgot Hst. unfold reconcileStateUninitialized. case_bool_decide as Hph.
  { apply resource_moves; [done|]. intros E. apply (f_equal TestResourceStatus_Phase) in E. simpl in E; congruence. }
  destruct (String.eqb_spec (TestResource_Image r) "") as [Him|Him].
  { right. right. unfold resource_rests. rewrite Hgot, Hst. by left. }
  apply (wp_quiet KTestResource (fun _ => True)); [apply quiet_getHostMachine| |done].
  intros h1 [err|m] Hext _; [left; apply asks_error|].
  apply with_client_goes_on. intros h2 client Hext2.
  assert (Hgot2 : last_got KTestResource h2 = Some r) by by rewrite (proj1 Hext2), (proj1 Hext).
  unfold uninitialized_with. wp_run. split; [done|]. intros [err|stats] _.
  - destruct (negb _).
    + unfold record_event. wp_run. split; [done|]. intros [] _. left. apply asks_error.
    + apply quiet_goes_on. apply (quiet_bind _ (fun _ => True)); [apply quiet_createContainer|].
      intros [err'|] _; [apply asks_error|apply asks_requeue].
  - destruct (timeIsZero _); [|by apply follow_started_goes_on].
    destruct (_ !! clusterNetwork); wp_run; (split; [done|]); intros [err|] _; wp_run.
    + split; [done|]. intros [] _. left. apply asks_error.
    + left. apply asks_requeue.
    + left. apply asks_error.
    + left. apply asks_requeue.
Qed.

Lemma ready_goes_on h :
  last_got KTestResource h = Some r -> TestResource_State r = ResourceReady ->
  wp admissible free (reconcileStateReady r) h resource_goes_on.
Proof.
  intros Hgot Hst. unfold reconcileStateReady.
  apply (wp_quiet KTestResource (fun _ => True)); [apply quiet_getHostMachine| |done].
  intros h1 [err|m] Hext _; [left; apply asks_error|].
  apply with_client_goes_on. intros h2 client Hext2.
  assert (Hgot2 : last_got KTestResource h2 = Some r) by by rewrite (proj1 Hext2), (proj1 Hext).
  unfold ready_with. wp_run. split; [done|]. intros [err|stats] _.
  - destruct (negb _); [left; apply asks_error|]. apply resource_moves; [done|]. apply state_changes. by rewrite Hst.
  - cbv zeta. case_bool_decide as Hs; cbn [negb]; [left; apply asks_requeue|].
    apply resource_moves; [done|]. apply state_changes. rewrite Hst. exact Hs.
Qed.

Lemma destroy_goes_on h :
  last_got KTestResource h = Some r -> TestResource_State r = ResourceDestroy ->
  wp admissible free (reconcileStateDestroy r) h resource_goes_on.
Proof.
  intros Hgot Hst. unfold reconcileStateDestroy.
  apply (wp_quiet KTestResource (fun _ => True)); [apply quiet_getHostMachine| |done].
  intros h1 [err|m] Hext _; [left; apply asks_error|].
  apply (wp_quiet KTestResource (fun _ => True)); [apply quiet_finalize| |done].
  intros h2 [requeue [err|]] Hext2 _; [left; apply asks_error|]. destruct requeue; [left; by apply asks_after|].
  apply (wp_quiet KTestResource (fun _ => True)); [by split| |done]. intros h3 [] Hext3 _.
  apply resource_moves; [by rewrite (proj1 Hext3), (proj1 Hext2), (proj1 Hext)|]. apply state_changes. by rewrite Hst.
Qed.

Lemma quiet_requestResource : quiet KTestResource (fun _ => True) (requestResource r).
Proof. unfold requestResource. quiet_walk. Qed.

Lemma resource_pending_goes_on h :
  last_got KTestResource h = Some r -> TestResource_State r = ResourcePending ->
  wp admissible free (reconcileStatePending r) h resource_goes_on.
Proof.
  intros Hgot Hst. unfold reconcileStatePending.
  apply (wp_quiet KTestResource (fun _ => True)); [apply quiet_requestResource| |done].
  intros h1 [err|ip] Hext _; [left; apply asks_error|].
  destruct (negb _); [|left; by apply asks_after].
  apply resource_moves; [by rewrite (proj1 Hext)|]. apply state_changes. by rewrite Hst.
Qed.

Lemma drop_finalizer_goes_on h :
  last_got KTestResource h = Some r -> resourceFinalizer ∈ ObjectMeta_Finalizers (TestResource_ObjectMeta r) ->
  wp admissible free (drop_finalizer r) h resource_goes_on.
Proof.
  intros Hgot Hin. unfold drop_finalizer. apply wp_bind, wp_lift.
  destruct (Slice.StringsRemove _ _) as [fs|e] eqn:Hfs; [|done]. apply object_update_goes_on.
  rewrite Hgot. intros [= E]. apply (f_equal (fun r => ObjectMeta_Finalizers (TestResource_ObjectMeta r))) in E.
  simpl in E. apply Slice.StringsRemove_not_contains in Hfs. congruence.
Qed.

Lemma resource_deletion_goes_on h :
  last_got KTestResource h = Some r -> resourceFinalizer ∈ ObjectMeta_Finalizers (TestResource_ObjectMeta r) ->
  wp admissible free (reconcileDeletion r) h resource_goes_on.
Proof.
  intros Hgot Hin. unfold reconcileDeletion.
  apply (wp_quiet KTestResource (fun _ => True)); [by apply quiet_getRelationship| |done].
  intros h1 [err|rel] Hext _; [left; apply asks_error|].
  assert (Hgot1 : last_got KTestResource h1 = Some r) by by rewrite (proj1 Hext).
  destruct (go_lookup _ _); [|by apply drop_finalizer_goes_on].
  apply (wp_quiet KTestResource (fun _ => True)); [by apply quiet_get| |done].
  intros h2 [err|machine] Hext2 _; [left; apply asks_error|].
  apply (wp_quiet KTestResource (fun _ => True)); [apply quiet_finalize| |done].
  intros h3 [requeue [err|]] Hext3 _; [left; apply asks_error|]. destruct requeue; [left; by apply asks_after|].
  apply (wp_quiet KTestResource (fun _ => True)); [by apply quiet_lift| |done]. intros h4 rel' Hext4 _.
  apply (wp_quiet KTestResource (fun _ => True)); [apply quiet_status_update| |done].
  intros h5 [err|] Hext5 _; [left; apply asks_error|]. apply drop_finalizer_goes_on; [|done].
  by rewrite (proj1 Hext5), (proj1 Hext4), (proj1 Hext3), (proj1 Hext2).
Qed.

End resource.

Lemma resource_woken {U : Units} req : woken KTestResource resource_rests (ResourceCtl.Reconcile req).
Proof.
  unfold woken, safe, ResourceCtl.Reconcile, get. wp_run. split; [done|]. intros [err|r] _.
  { unfold IgnoreNotFound. destruct (IsNotFound err); [right; by right|left; apply asks_error]. }
  set (h := [Event (Get KTestResource req) (inr r)]).
  assert (Hgot : last_got KTestResource h = Some r) by done.
  destruct (Slice.StringsContains _ _) eqn:Hf; destruct (DeletionTimestamp_IsZero _); cbn [andb negb].
  2:{ apply resource_deletion_goes_on; [done|]. by apply Slice.StringsContains_spec. }
  2:{ apply object_update_goes_on. rewrite Hgot. intros [= E].
      apply (f_equal (fun r => ObjectMeta_Finalizers (TestResource_ObjectMeta r))) in E. simpl in E.
      apply (f_equal length) in E. rewrite length_app in E. simpl in E. lia. }
  all: destruct (TestResource_State r) eqn:Hst;
    [|by apply resource_pending_goes_on|by apply uninitialized_goes_on|by apply ready_goes_on
     |right; right; unfold resource_rests; by rewrite Hgot, Hst|by apply destroy_goes_on
     |right; right; unfold resource_rests; by rewrite Hgot, Hst].
  all: apply resource_moves; [done|]; apply state_changes; by rewrite Hst.
Qed.

(** ** The request reconciler *)

Section request.
Context {U : Units}.
Import Scheduler.

(** Nothing to do: there is no request, it is ready, or its resources were bound, which wakes it
    when they move. And one case that is not so: the update that makes it ready was refused, and
    the error dropped. *)
Definition request_rests (h : history) : Prop :=
  match last_got KTestResourceRequest h with
  | None => True
  | Some request =>
      match TestResourceRequest_State request with
      | TestResourceRequestReady | TestResourceRequestStateOther _ => True
      | TestResourceRequestPending =>
          happened (stored_status KRelationship (fun _ refused => refused = false)) h \/
          happened (stored_status KTestResourceRequest (fun o refused =>
            o = request <| TestResourceRequest_State := TestResourceRequestReady |> /\ refused = true)) h
      | TestResourceRequestStateNone => False
      end
  end.

Abbreviation request_goes_on := (goes_on KTestResourceRequest request_rests).

Lemma asks_requeue10 : asks_again requeue10.
Proof. by apply asks_after. Qed.
#[local] Hint Resolve asks_requeue10 : naglfar.

Lemma quiet_removeAll l : quiet KTestResourceRequest (fun _ => True) (removeAllResources l).
Proof. induction l as [|r l IH]; [done|]. cbn [removeAllResources]. quiet_walk. Qed.

Lemma quiet_bindDisks specs names rest bound :
  quiet KTestResourceRequest (fun _ => True) (bindDisks specs names rest bound).
Proof.
  revert rest bound. induction names as [|name l IH]; intros rest bound; [done|].
  cbn [bindDisks]. unfold range_keys. quiet_walk.
Qed.

Lemma quiet_tryBindResource rel l group : quiet KTestResourceRequest (fun _ => True) (tryBindResource rel l group).
Proof.
  induction l as [|m l IH]; [done|]. cbn [tryBindResource]. quiet_walk.
  unfold fit_item, resourceOverflow, range_keys. quiet_walk. apply quiet_bindDisks.
Qed.

(** Binding a group either goes on or asks to be called again. *)
Lemma quiet_bind_group requests candidates machines st group :
  quiet KTestResourceRequest (fun r => match r with inl _ => True | inr res => asks_again res end)
    (bind_group requests candidates machines st group).
Proof.
  unfold bind_group. destruct st as [rel locks]. quiet_walk. apply quiet_tryBindResource.
Qed.

Context (request : TestResourceRequest).

Lemma tryRequest_goes_on rel resources h :
  last_got KTestResourceRequest h = Some request -> TestResourceRequest_State request = TestResourceRequestPending ->
  wp admissible free (tryRequest rel request resources) h request_goes_on.
Proof.
  intros Hgot Hst. unfold tryRequest.
  apply (wp_quiet KTestResourceRequest (fun _ => True)); [unfold getMachines, list_objs; quiet_walk| |done].
  intros h1 [err|machines] Hext1 _; [left; apply asks_error|].
  destruct (requested_machines _ _) as [err|[requests explicit]]; [left; apply asks_error|].
  apply (wp_quiet KTestResourceRequest (fun _ => True)); [unfold groupCoLocatedItems, range_keys; quiet_walk| |done].
  intros h2 groups Hext2 _.
  apply (wp_quiet KTestResourceRequest (fun _ => True)); [unfold sortMachines, range_keys; quiet_walk| |done].
  intros h3 sorted Hext3 _.
  eapply (wp_quiet KTestResourceRequest); [apply quiet_for_each; intros; apply quiet_bind_group| |done].
  intros h4 [[rel' locks]|res] Hext4 Hr; [|by left].
  apply (wp_quiet KTestResourceRequest (fun _ => True)); [by apply quiet_lift| |done].
  intros h5 locks' Hext5 _. unfold status_update. wp_run. split; [done|].
  intros [err|rel''] _; [left; apply asks_error|]. right. right. unfold request_rests. simpl.
  rewrite (proj1 Hext5), (proj1 Hext4), (proj1 Hext3), (proj1 Hext2), (proj1 Hext1), Hgot, Hst.
  left. by apply happened_here.
Qed.

Lemma quiet_note_resource st r :
  quiet KTestResourceRequest (fun r => match r with inl _ => True | inr res => asks_again res end)
    (note_resource request st r).
Proof. unfold note_resource. destruct st. quiet_walk. Qed.

Lemma quiet_create_missing resources idx item :
  quiet KTestResourceRequest (fun r => match r with inl _ => True | inr res => asks_again res end)
    (create_missing request resources idx item).
Proof. unfold create_missing. quiet_walk. Qed.

Lemma request_pending_goes_on h :
  last_got KTestResourceRequest h = Some request -> TestResourceRequest_State request = TestResourceRequestPending ->
  wp admissible free (reconcilePending request) h request_goes_on.
Proof.
  intros Hgot Hst. unfold reconcilePending, listResources, listOwnedResources, list_objs.
  apply (wp_quiet KTestResourceRequest (fun _ => True)); [by split| |done].
  intros h1 [[err|] resources] Hext1 _; [left; apply asks_error|].
  eapply (wp_quiet KTestResourceRequest); [apply quiet_for_each; intros; apply quiet_note_resource| |done].
  intros h2 [[found required]|res] Hext2 Hr; [|by left].
  apply (wp_quiet KTestResourceRequest (fun _ => True)); [by split| |done].
  intros h3 [[err|] owned] Hext3 _; [left; apply asks_error|]. cbv zeta.
  assert (Hgot3 : last_got KTestResourceRequest h3 = Some request).
  { by rewrite (proj1 Hext3), (proj1 Hext2), (proj1 Hext1). }
  destruct (negb _).
  { apply quiet_goes_on. eapply quiet_bind; [apply quiet_for_each; intros; apply quiet_create_missing|].
    intros [n|res] Hres; [by apply asks_after|exact Hres]. }
  destruct (_ =? _).
  { unfold status_update. wp_run. split; [done|]. intros [err|o] _; right.
    - right. unfold request_rests. simpl. rewrite Hgot3, Hst. right. by apply happened_here.
    - left. left. eexists. split; [done|]. cbn [last_got ev_call ev_answer got]. rewrite Hgot3. intros [= E].
      apply (f_equal TestResourceRequest_State) in E. simpl in E. congruence. }
  apply (wp_quiet KTestResourceRequest (fun _ => True)); [by apply quiet_getRelationship| |done].
  intros h4 [err|rel] Hext4 _; [left; apply asks_error|].
  destruct (negb _); [|left; by apply asks_after]. apply tryRequest_goes_on; [|done]. by rewrite (proj1 Hext4).
Qed.

Lemma request_deletion_goes_on h :
  last_got KTestResourceRequest h = Some request ->
  requestFinalizer ∈ ObjectMeta_Finalizers (TestResourceRequest_ObjectMeta request) ->
  wp admissible free (Scheduler.reconcileDeletion request) h request_goes_on.
Proof.
  intros Hgot Hin. unfold Scheduler.reconcileDeletion, listOwnedResources, list_objs.
  apply (wp_quiet KTestResourceRequest (fun _ => True)); [by split| |done].
  intros h1 [[err|] resources] Hext1 _; [left; apply asks_error|].
  apply (wp_quiet KTestResourceRequest (fun _ => True)); [apply quiet_removeAll| |done].
  intros h2 [err|] Hext2 _; [left; apply asks_error|].
  destruct (negb _); [left; by apply asks_after|].
  apply (wp_quiet KTestResourceRequest (fun _ => True)); [by apply quiet_getRelationship| |done].
  intros h3 [err|rel] Hext3 _; [left; apply asks_error|]. cbv zeta.
  apply (wp_quiet KTestResourceRequest (fun _ => True)); [apply quiet_status_update| |done].
  intros h4 [err|] Hext4 _; [left; apply asks_error|].
  apply wp_bind, wp_lift. destruct (Slice.StringsRemove _ _) as [fs|e] eqn:Hfs; [|done].
  apply object_update_goes_on.
  rewrite (proj1 Hext4), (proj1 Hext3), (proj1 Hext2), (proj1 Hext1), Hgot. intros [= E].
  apply (f_equal (fun r => ObjectMeta_Finalizers (TestResourceRequest_ObjectMeta r))) in E.
  simpl in E. apply Slice.StringsRemove_not_contains in Hfs. congruence.
Qed.
End request.

Lemma request_woken {U : Units} req : woken KTestResourceRequest request_rests (Scheduler.Reconcile req).
Proof.
  unfold woken, safe, Scheduler.Reconcile, get. wp_run. split; [done|]. intros [err|r] _.
  { unfold IgnoreNotFound. destruct (IsNotFound err); [right; by right|left; apply asks_error]. }
  set (h := [Event (Get KTestResourceRequest req) (inr r)]).
  assert (Hgot : last_got KTestResourceRequest h = Some r) by done.
  destruct (Slice.StringsContains _ _) eqn:Hf; destruct (DeletionTimestamp_IsZero _); cbn [andb negb].
  2:{ apply request_deletion_goes_on; [done|]. by apply Slice.StringsContains_spec. }
  2:{ apply object_update_goes_on. rewrite Hgot. intros [= E].
      apply (f_equal (fun r => ObjectMeta_Finalizers (TestResourceRequest_ObjectMeta r))) in E. simpl in E.
      apply (f_equal length) in E. rewrite length_app in E. simpl in E. lia. }
  all: destruct (TestResourceRequest_State r) eqn:Hst; [|by apply request_pending_goes_on
    |right; right; unfold request_rests; by rewrite Hgot, Hst
    |right; right; unfold request_rests; by rewrite Hgot, Hst].
  all: unfold status_update; wp_run; split; [done|]; intros [err|o] _; left; [apply asks_error|apply asks_requeue].
Qed.

(** ** The machine reconciler *)

Section machine.
Context {U : Units} (fuel : nat).
Import MachineCtl.

(** Nothing to do: there is no machine, it is ready with its upload daemon, or it was shut down
    and let go. *)
Definition machine_rests (h : history) : Prop :=
  match last_got KMachine h with
  | None => True
  | Some m =>
      match MachineStatus_State (Machine_Status m) with
      | MachineReady => MachineStatus_UploadPort (Machine_Status m) <> 0
      | MachineShutdown => machineFinalizer ∉ ObjectMeta_Finalizers (Machine_ObjectMeta m)
      | _ => False
      end
  end.

Abbreviation machine_goes_on := (goes_on KMachine machine_rests).

Lemma quiet_Run client name image options : quiet KMachine (fun _ => True) (Run fuel client name image options).
Proof.
  unfold Run, PullImageByPolicy. quiet_walk.
  generalize fuel as n. induction n as [|n IH]; [done|]. cbn [Run_loop]. quiet_walk.
Qed.

Lemma quiet_tryLock m client : quiet KMachine (fun _ => True) (tryLock fuel m client).
Proof. unfold tryLock. destruct (container.ChaosDaemonCfg _). quiet_walk. apply quiet_Run. Qed.

Lemma quiet_fetchMachineInfo m client : quiet KMachine (fun _ => True) (fetchMachineInfo fuel m client).
Proof. unfold fetchMachineInfo, container.MachineStatCfg, JustExec, Logs. quiet_walk. apply quiet_Run. Qed.

Lemma quiet_createUploadDaemon m client : quiet KMachine (fun _ => True) (createUploadDaemon fuel m client).
Proof. unfold createUploadDaemon. destruct (container.UploadDaemonCfg _). quiet_walk. apply quiet_Run. Qed.

Context (m : Machine).

Lemma machine_moves f h w :
  last_got KMachine h = Some m -> MachineStatus_State (f (Machine_Status m)) <> MachineStatus_State (Machine_Status m) ->
  wp admissible free (err ← status_update KMachine (with_status f m); mret (w, err)) h machine_goes_on.
Proof.
  intros Hgot Hf. apply status_update_goes_on. rewrite Hgot. intros [= E]. apply Hf.
  exact (eq_sym (f_equal (fun m => MachineStatus_State (Machine_Status m)) E)).
Qed.

Lemma machine_client_goes_on (body : DockerClient -> io (Result * option error)) h :
  (forall h' client, carries KMachine h h' -> wp admissible free (body client) h' machine_goes_on) ->
  wp admissible free
    (let? client := Machine.DockerClient m orelse err => mret (noRequeue, Some err) in
     deferring (ask (DockerClose client)) (body client)) h machine_goes_on.
Proof.
  intros Hbody. apply (wp_quiet KMachine (fun _ => True)); [unfold Machine.DockerClient; quiet_walk| |done].
  intros h' [err|client] Hext _; [left; apply asks_error|].
  apply wp_deferring. eapply wp_mono; [by apply Hbody|]. intros h2 res Hres.
  wp_run. split; [done|]. intros [] _. destruct res as [res|]; [|done].
  destruct Hres as [Ha|[Hm|Hr]]; [by left|right; left; by right|right; right; exact Hr].
Qed.

Lemma starting_goes_on h :
  last_got KMachine h = Some m -> MachineStatus_State (Machine_Status m) = MachineStarting ->
  wp admissible free (reconcileStarting fuel m) h machine_goes_on.
Proof.
  intros Hgot Hst. apply machine_client_goes_on. intros h1 client Hext1. unfold starting_with.
  apply (wp_quiet KMachine (fun _ => True)); [apply quiet_tryLock| |done].
  intros h2 [err|port] Hext2 _; [unfold record_event; wp_run; split; [done|]; intros [] _; left; apply asks_error|].
  apply (wp_quiet KMachine (fun _ => True)); [apply quiet_fetchMachineInfo| |done].
  intros h3 [err|info] Hext3 _; [unfold record_event; wp_run; split; [done|]; intros [] _; left; apply asks_error|].
  apply machine_moves; [by rewrite (proj1 Hext3), (proj1 Hext2), (proj1 Hext1)|]. by rewrite Hst.
Qed.

Lemma running_goes_on h :
  last_got KMachine h = Some m -> MachineStatus_State (Machine_Status m) = MachineReady ->
  wp admissible free (reconcileRunning fuel m) h machine_goes_on.
Proof.
  intros Hgot Hst. unfold reconcileRunning. destruct (Z.eqb_spec (MachineStatus_UploadPort (Machine_Status m)) 0) as [Hp|Hp].
  { apply machine_client_goes_on. intros h1 client Hext1. unfold upload_with.
    apply quiet_goes_on. quiet_walk. apply quiet_createUploadDaemon. }
  assert (Hrest : forall h', carries KMachine h h' -> machine_rests h').
  { intros h' Hext. unfold machine_rests. by rewrite (proj1 Hext), Hgot, Hst. }
  apply (wp_quiet KMachine (fun _ => True)); [by apply quiet_getRelationship| |done].
  intros h1 [err|rel] Hext1 _; [left; apply asks_error|]. cbv zeta.
  destruct (go_lookup _ _); [right; right; by apply Hrest|].
  apply (wp_quiet KMachine (fun _ => True)); [by apply quiet_lift| |done]. intros h2 mtr Hext2 _.
  apply (wp_quiet KMachine (fun _ => True)); [apply quiet_status_update| |done].
  intros h3 [err|] Hext3 _; [left; apply asks_error|]. right. right. apply Hrest.
  etrans; [exact Hext1|]. by etrans.
Qed.

Lemma shutdown_goes_on h :
  last_got KMachine h = Some m -> MachineStatus_State (Machine_Status m) = MachineShutdown ->
  wp admissible free (reconcileShutdown m) h machine_goes_on.
Proof.
  intros Hgot Hst. unfold reconcileShutdown.
  apply (wp_quiet KMachine (fun _ => True)); [by apply quiet_getRelationship| |done].
  intros h1 [err|rel] Hext1 _; [left; apply asks_error|]. cbv zeta.
  destruct (negb _); [left; apply asks_requeue|].
  apply machine_client_goes_on. intros h2 client Hext2. unfold shutdown_with.
  apply (wp_quiet KMachine (fun _ => True)); [unfold Unlock; quiet_walk| |done].
  intros h3 [err|] Hext3 _; [left; apply asks_error|].
  apply (wp_quiet KMachine (fun _ => True)); [unfold deleteUploadDaemon; quiet_walk| |done].
  intros h4 [err|] Hext4 _; [left; apply asks_error|].
  apply (wp_quiet KMachine (fun _ => True)); [apply quiet_status_update| |done].
  intros h5 [err|] Hext5 _; [left; apply asks_error|].
  assert (Hgot5 : last_got KMachine h5 = Some m).
  { by rewrite (proj1 Hext5), (proj1 Hext4), (proj1 Hext3), (proj1 Hext2), (proj1 Hext1). }
  apply wp_bind, wp_lift. destruct (Slice.StringsRemove _ _) as [fs|e] eqn:Hfs; [|done].
  destruct (decide (machineFinalizer ∈ ObjectMeta_Finalizers (Machine_ObjectMeta m))) as [Hin|Hnin].
  - apply object_update_goes_on. rewrite Hgot5. intros [= E].
    apply (f_equal (fun r => ObjectMeta_Finalizers (Machine_ObjectMeta r))) in E.
    simpl in E. apply Slice.StringsRemove_not_contains in Hfs. congruence.
  - unfold update. wp_run. split; [done|]. intros [err|o] _; [left; apply asks_error|].
    right. right. unfold machine_rests. cbn [last_got ev_call ev_answer got]. by rewrite Hgot5, Hst.
Qed.
End machine.

Lemma machine_woken {U : Units} fuel req : woken KMachine machine_rests (MachineCtl.Reconcile fuel req).
Proof.
  unfold woken, safe, MachineCtl.Reconcile.
  apply (wp_quiet KMachine (fun _ => True)); [by apply quiet_getRelationship| |done].
  intros h0 [err|rel] Hext0 _; [left; apply asks_error|].
  destruct (negb _); [left; apply asks_requeue|]. unfold get. wp_run. split; [done|]. intros [err|m] _.
  { unfold IgnoreNotFound. destruct (IsNotFound err); [right; right|left; apply asks_error].
    unfold machine_rests. cbn [last_got ev_call ev_answer got]. by rewrite (proj1 Hext0). }
  set (h := Event (Get KMachine req) (inr m) :: h0).
  assert (Hgot : last_got KMachine h = Some m) by done. unfold MachineCtl.reconcile_machine.
  destruct (Slice.StringsContains _ _) eqn:Hf; destruct (DeletionTimestamp_IsZero _); cbn [andb negb].
  2:{ case_bool_decide as Hst; cbn [negb].
      - rewrite Hst. by apply shutdown_goes_on.
      - apply machine_moves; [done|]. intros E. by apply Hst. }
  2:{ apply object_update_goes_on. rewrite Hgot. intros [= E].
      apply (f_equal (fun r => ObjectMeta_Finalizers (Machine_ObjectMeta r))) in E. simpl in E.
      apply (f_equal length) in E. rewrite length_app in E. simpl in E. lia. }
  all: destruct (MachineStatus_State (Machine_Status m)) eqn:Hst;
    [|by apply shutdown_goes_on|by apply starting_goes_on|by apply running_goes_on|].
  all: apply machine_moves; [done|by rewrite Hst].
Qed.

(** ** The workload reconciler *)

Section workload.
Context {Y : Yaml} {D : Defaults Y}.
Import WorkloadCtl.

(** Nothing to do: there is no workload, it ended, or it was deleted and let go. *)
Definition workload_rests (h : history) : Prop :=
  match last_got KTestWorkload h with
  | None => True
  | Some w =>
      match TestWorkloadStatus_State (TestWorkload_Status w) with
      | TestWorkloadStateSucceeded | TestWorkloadStateFailed | TestWorkloadStateOther _ => True
      | _ => DeletionTimestamp_IsZero (TestWorkload_ObjectMeta w) = false /\
             testWorkloadFinalizer ∉ ObjectMeta_Finalizers (TestWorkload_ObjectMeta w)
      end
  end.

Abbreviation workload_goes_on := (goes_on KTestWorkload workload_rests).

Lemma workload_asks_requeue5 : asks_again requeue5.
Proof. by apply asks_after. Qed.
#[local] Hint Resolve workload_asks_requeue5 : naglfar.

Lemma quiet_getWorkloadRequestNode ns c : quiet KTestWorkload (fun _ => True) (getWorkloadRequestNode ns c).
Proof. unfold getWorkloadRequestNode. quiet_walk. Qed.

Lemma quiet_checkTopologies ns names ts : quiet KTestWorkload (fun _ => True) (checkTopologies ns names ts).
Proof. revert ts. induction names as [|name l IH]; intros ts; [done|]. cbn [checkTopologies]. quiet_walk. Qed.

Lemma quiet_warn reason err : quiet KTestWorkload asks_again (warn reason err).
Proof. unfold warn. quiet_walk. Qed.

(** A round of either loop goes on, or asks to be called again. *)
Abbreviation round_asks := (fun r => match r with inl _ => True | inr res => asks_again res end).

Lemma quiet_round_warn {S} reason err :
  quiet KTestWorkload (round_asks : S + _ -> Prop) (x ← warn reason err; mret (inr x)).
Proof. eapply quiet_bind; [apply quiet_warn|]. by intros x Hx. Qed.

Context (w : TestWorkload).

Lemma quiet_install_item topologies resources n item c node :
  quiet KTestWorkload round_asks (install_item w topologies resources n item c node).
Proof.
  unfold install_item. cbv zeta.
  destruct (TestResource_State node); try done; try (destruct (negb _); [apply quiet_round_warn|done]).
  - destruct (String.eqb _ _); [|destruct (negb _); [apply quiet_round_warn|done]].
    apply (quiet_bind _ (fun _ => True)); [by apply quiet_lift|]. intros [err|envs] _; [apply quiet_round_warn|].
    quiet_walk.
  - simpl. by apply asks_after.
Qed.

Lemma quiet_pending_item topologies resources n item :
  quiet KTestWorkload round_asks (pending_item w topologies resources n item).
Proof.
  unfold pending_item. apply (quiet_bind _ (fun _ => True)); [apply quiet_getWorkloadRequestNode|].
  intros [node [err|]] _; [apply asks_error|].
  apply (quiet_bind _ (fun _ => True)); [by apply quiet_lift|]. intros c _.
  destruct node as [node|]; [|apply quiet_round_warn].
  destruct (TestResourceStatus_ClaimRef _); [|apply quiet_install_item].
  destruct (negb _); [|apply quiet_install_item]. quiet_walk.
Qed.

Lemma quiet_running_item p item : quiet KTestWorkload round_asks (running_item w p item).
Proof.
  unfold running_item. apply (quiet_bind _ (fun _ => True)); [apply quiet_getWorkloadRequestNode|].
  intros [node [err|]] _; [apply asks_error|].
  apply (quiet_bind _ (fun _ => True)); [by apply quiet_lift|]. intros c _.
  destruct node as [node|]; [|apply quiet_round_warn].
  destruct (TestResource_State node); try done; quiet_walk.
Qed.

Lemma workload_state_changes f h :
  last_got KTestWorkload h = Some w ->
  TestWorkloadStatus_State (f (TestWorkload_Status w)) <> TestWorkloadStatus_State (TestWorkload_Status w) ->
  last_got KTestWorkload h <> Some (with_status f w).
Proof.
  intros Hgot Hf. rewrite Hgot. intros [= E]. apply Hf.
  exact (eq_sym (f_equal (fun w => TestWorkloadStatus_State (TestWorkload_Status w)) E)).
Qed.

Lemma workload_pending_goes_on h :
  last_got KTestWorkload h = Some w -> TestWorkloadStatus_State (TestWorkload_Status w) = TestWorkloadStatePending ->
  wp admissible free (reconcilePending w) h workload_goes_on.
Proof.
  intros Hgot Hst. unfold reconcilePending.
  apply (wp_quiet KTestWorkload (fun _ => True)).
  { unfold checkTopologiesReady, range_keys. quiet_walk. apply quiet_checkTopologies. }
  2:{ done. }
  intros h1 [err|[topologies ready]] Hext1 _; [left; apply asks_error|].
  destruct (negb _); [apply quiet_goes_on; unfold record_event; quiet_walk|].
  unfold list_objs. apply (wp_quiet KTestWorkload (fun _ => True)); [by split| |done].
  intros h2 [[err|] resources] Hext2 _; [left; apply asks_error|].
  eapply (wp_quiet KTestWorkload); [apply quiet_for_each; intros; apply quiet_pending_item| |done].
  intros h3 [n|res] Hext3 Hr; [|by left].
  destruct (_ =? _); [|left; apply workload_asks_requeue5].
  unfold status_update. wp_run. split; [done|]. intros [err|o] _; [left; apply asks_error|].
  unfold record_event. wp_run. split; [done|]. intros [] _. right. left. right. left.
  eexists. split; [done|]. apply workload_state_changes; [|by rewrite Hst].
  by rewrite (proj1 Hext3), (proj1 Hext2), (proj1 Hext1).
Qed.

Lemma workload_running_goes_on h : wp admissible free (reconcileRunning w) h workload_goes_on.
Proof.
  apply quiet_goes_on. unfold reconcileRunning. cbv zeta.
  eapply quiet_bind; [apply quiet_for_each; intros; apply quiet_running_item|].
  intros [p|res] Hr; [|exact Hr]. destruct (negb _); [|apply workload_asks_requeue5].
  apply (quiet_bind _ (fun _ => True)); [by destruct (_ || _)|]. intros [] _.
  apply (quiet_bind _ (fun _ => True)); [apply quiet_status_update|]. intros err _. by apply asks_after.
Qed.

Lemma quiet_uninstall_item u item :
  quiet KTestWorkload (fun r => match r with inl _ => True | inr err => err <> None end) (uninstall_item w u item).
Proof.
  unfold uninstall_item. apply (quiet_bind _ (fun _ => True)); [apply quiet_getWorkloadRequestNode|].
  intros [node [err|]] _; cbn [mbind option_bind].
  - destruct (IgnoreNotFound err); [done|]. quiet_walk.
  - quiet_walk.
Qed.

Lemma workload_deletion_goes_on h :
  last_got KTestWorkload h = Some w -> DeletionTimestamp_IsZero (TestWorkload_ObjectMeta w) = false ->
  wp admissible free (reconcileDeletion w) h workload_goes_on.
Proof.
  intros Hgot Hdel. unfold reconcileDeletion. cbv zeta.
  apply (wp_quiet KTestWorkload (fun _ => True)).
  { destruct (Slice.StringsContains _ _); [|done]. unfold uninstallWorkload.
    eapply quiet_bind; [apply quiet_for_each; intros; apply quiet_uninstall_item|]. by intros [[]|err] Herr. }
  2:{ done. }
  intros h1 [err|] Hext1 _; [left; apply asks_error|].
  assert (Hgot1 : last_got KTestWorkload h1 = Some w) by by rewrite (proj1 Hext1).
  apply wp_bind, wp_lift. destruct (Slice.StringsRemove _ _) as [fs|e] eqn:Hfs; [|done].
  destruct (decide (testWorkloadFinalizer ∈ ObjectMeta_Finalizers (TestWorkload_ObjectMeta w))) as [Hin|Hnin].
  - apply object_update_goes_on. rewrite Hgot1. intros [= E].
    apply (f_equal (fun r => ObjectMeta_Finalizers (TestWorkload_ObjectMeta r))) in E.
    simpl in E. apply Slice.StringsRemove_not_contains in Hfs. congruence.
  - unfold update. wp_run. split; [done|]. intros [err|o] _; [left; apply asks_error|].
    right. right. unfold workload_rests. cbn [last_got ev_call ev_answer got]. rewrite Hgot1. by case_match.
Qed.
End workload.

Lemma workload_state_goes_on {Y : Yaml} {D : Defaults Y} w h :
  last_got KTestWorkload h = Some w -> wp admissible free (WorkloadCtl.reconcile_state w) h (goes_on KTestWorkload workload_rests).
Proof.
  intros Hgot. unfold WorkloadCtl.reconcile_state. destruct (TestWorkloadStatus_State _) eqn:Hst.
  2:{ by apply workload_pending_goes_on. }
  2:{ apply workload_running_goes_on. }
  2-4: right; right; unfold workload_rests; by rewrite Hgot, Hst.
  apply status_update_goes_on, workload_state_changes; [done|by rewrite Hst].
Qed.

Lemma workload_woken {Y : Yaml} {D : Defaults Y} req :
  woken KTestWorkload workload_rests (WorkloadCtl.Reconcile req).
Proof.
  unfold woken, safe, WorkloadCtl.Reconcile, get. wp_run. split; [done|]. intros [err|w] _.
  { unfold IgnoreNotFound. destruct (IsNotFound err); [right; by right|left; apply asks_error]. }
  destruct (DeletionTimestamp_IsZero _) eqn:Hdel; [|by apply workload_deletion_goes_on].
  destruct (negb _); [|by apply workload_state_goes_on].
  wp_run. split; [done|]. intros [err|w'] _; [left; apply asks_error|].
  apply moved_goes_on. left. eexists. split; [done|]. intros [= E].
  apply (f_equal (fun r => length (ObjectMeta_Finalizers (TestWorkload_ObjectMeta r)))) in E.
  simpl in E. rewrite length_app in E. simpl in E. lia.
Qed.

(** ** Process chaos *)

Section chaos.
Context {L : LocalTime}.
Import ChaosCtl.

(** Nothing to do: there is no chaos. And two cases that are not so: its request does not exist
    yet, and the state it recorded is the one recorded before. *)
Definition chaos_rests (h : history) : Prop :=
  match last_got KProcChaos h with
  | None => True
  | Some p =>
      happened (fun c => match c return answer c -> Prop with
        | Get KTestResourceRequest _ => fun x => exists err, x = inl err /\ IsNotFound err = true
        | _ => fun _ => False
        end) h \/
      happened (stored_status KProcChaos (fun o refused => o = p /\ refused = false)) h
  end.

Abbreviation chaos_goes_on := (goes_on KProcChaos chaos_rests).

Lemma quiet_RandOne l : quiet KProcChaos (fun _ => True) (RandOne l).
Proof. unfold RandOne, Rand. quiet_walk. Qed.

Lemma quiet_find_node request items node found :
  quiet KProcChaos (fun _ => True) (find_node request items node found).
Proof. revert found. induction items as [|item l IH]; intros found; [done|]. cbn [find_node]. quiet_walk. Qed.

Lemma quiet_kill request task state : quiet KProcChaos (fun _ => True) (kill request task state).
Proof.
  unfold kill, killProc, kill_with, Exec, MakeClient, Machine.DockerClient. quiet_walk.
  all: first [apply quiet_RandOne|apply quiet_find_node].
Qed.

Context (p : ProcChaos).

(** A status update of the chaos ends in an error, a change, or the same states again. *)
Lemma chaos_stored o h :
  last_got KProcChaos h = Some p ->
  wp admissible free (err ← status_update KProcChaos o; mret (noRequeue, err)) h chaos_goes_on.
Proof.
  intros Hgot. unfold status_update. wp_run. split; [done|]. intros [err|o'] _; [left; apply asks_error|]. right.
  destruct (decide ((o : ProcChaos) = p)) as [->|Hne].
  - right. unfold chaos_rests. cbn [last_got ev_call ev_answer got]. rewrite Hgot. right. by apply happened_here.
  - left. left. exists o. split; [done|]. rewrite Hgot. congruence.
Qed.

Lemma chaos_periods_goes_on request tasks ds h :
  last_got KProcChaos h = Some p ->
  wp admissible free
    (r ← check_periods p request tasks ds;
     match r with inr result => mret result | inl ds => mret (mkResult true (Math.MinDuration ds), None) end)
    h chaos_goes_on.
Proof.
  revert ds h. induction tasks as [|[index task] l IH]; intros ds h Hgot; [left; apply asks_requeue|].
  cbn [check_periods]. destruct (String.eqb _ _); [by apply IH|].
  assert (Hlift : forall {A} (m : go A) (f : A -> io (list Z + (Result * option error))) h,
    last_got KProcChaos h = Some p ->
    (forall a, wp admissible free (r ← f a;
       match r with inr result => mret result | inl ds => mret (mkResult true (Math.MinDuration ds), None) end) h chaos_goes_on) ->
    wp admissible free (r ← (a ← lift m; f a);
       match r with inr result => mret result | inl ds => mret (mkResult true (Math.MinDuration ds), None) end) h chaos_goes_on).
  { intros A [a|e] f h' Hh' Hf; [apply Hf|done]. }
  apply Hlift; [done|]. intros state. apply Hlift; [done|]. intros period. apply Hlift; [done|]. intros killed.
  wp_run. split; [done|]. intros now _. set (h1 := Event TimeNow now :: h).
  assert (Hgot1 : last_got KProcChaos h1 = Some p) by done. cbv zeta.
  destruct (_ <=? 0).
  2:{ exact (IH (ds ++ [_]) h1 Hgot1). }
  change (wp admissible free (r ← (r ← kill request task state;
     match r with
     | inl err => mret (inr (noRequeue, Some err))
     | inr state => err ← status_update KProcChaos
                      (p <| ProcChaos_States ::= fun states => <[index := state]> states |>);
                    mret (inr (noRequeue, err))
     end);
     match r with inr result => mret result | inl ds => mret (mkResult true (Math.MinDuration ds), None) end) h1 chaos_goes_on).
  apply wp_bind. apply (wp_quiet KProcChaos (fun _ => True)); [apply quiet_kill| |done].
  intros h2 [err|state'] Hext2 _; [left; apply asks_error|].
  assert (Hgot2 : last_got KProcChaos h2 = Some p) by by rewrite (proj1 Hext2).
  exact (chaos_stored _ h2 Hgot2).
Qed.
End chaos.

Lemma chaos_woken {L : LocalTime} req : woken KProcChaos chaos_rests (ChaosCtl.Reconcile req).
Proof.
  unfold woken, safe, ChaosCtl.Reconcile, get. wp_run. split; [done|]. intros [err|p] _.
  { unfold IgnoreNotFound. destruct (IsNotFound err); [right; by right|left; apply asks_error]. }
  wp_run. split; [done|]. intros [err|request] _.
  { unfold IgnoreNotFound. destruct (IsNotFound err) eqn:Hnf; [right; right|left; apply asks_error].
    left. apply happened_here. by exists err. }
  match goal with |- wp _ _ _ ?h0 _ => set (h := h0) end.
  assert (Hgot : last_got KProcChaos h = Some p) by done.
  destruct (negb _); [left; apply asks_requeue|]. destruct (_ <? _).
  - apply (wp_quiet KProcChaos (fun _ => True)); [by apply quiet_lift| |done]. intros h1 task Hext1 _.
    apply (wp_quiet KProcChaos (fun _ => True)); [quiet_walk; apply quiet_kill| |done].
    intros h2 [err|state] Hext2 _; [left; apply asks_error|].
    apply (chaos_stored p). by rewrite (proj1 Hext2), (proj1 Hext1).
  - by apply (chaos_periods_goes_on p request).
Qed.
