(* ===== verification/Total.v ===== *)
(** * Runs that end, one after the other

    Liveness is stated against services that answer: [ends] is total correctness of a program
    against given services, and [rounds] is a number of runs of a reconciler in a row, none of
    which fails and each of which calls for the next. A reconciler gets where it should when every
    run on the way is nearer by a measure ([rounds_way]). Convergence.v uses this for the resource
    reconciler, MachineConvergence.v for the machine reconciler. *)

From S2P Require Import Prelude GoStd Util ApiTypes Prog World Progress.

(** ** Total correctness against given services *)

Section total.
Context {St : Type} (serve : forall c : call, St -> answer c * St).

(** [p], started in [s], returns, and its result and the state then satisfy [Q]. *)
Fixpoint ends {A} (p : io A) (s : St) (Q : A -> St -> Prop) : Prop :=
  match p with
  | Done a => Q a s
  | Crash _ => False
  | Call c k => ends (k (serve c s).1) (serve c s).2 Q
  end.

Lemma ends_run {A} (p : io A) s (Q : A -> St -> Prop) :
  ends p s Q <-> exists a s' l, run serve p s = (Ret a, s', l) /\ Q a s'.
Proof.
  revert s; induction p as [a|e|c k IH]; intros s; simpl.
  - split; [by eauto|]. by intros (? & ? & ? & [= -> -> _] & H).
  - split; [done|]. by intros (? & ? & ? & H & _).
  - rewrite IH. destruct (serve c s) as [x s1]. simpl.
    destruct (run serve (k x) s1) as [[r s2] l].
    split; intros (a & s' & l' & [= -> -> <-] & H); eauto 6.
Qed.

Lemma ends_bind {A B} (m : io A) (f : A -> io B) s Q :
  ends m s (fun a s' => ends (f a) s' Q) -> ends (m ≫= f) s Q.
Proof. revert s; induction m as [a|e|c k IH]; intros s; simpl; [done..|]. apply IH. Qed.

Lemma ends_mono {A} (p : io A) s (Q Q' : A -> St -> Prop) :
  ends p s Q -> (forall a s', Q a s' -> Q' a s') -> ends p s Q'.
Proof. intros H HQ; revert s H; induction p as [a|e|c k IH]; intros s; simpl; auto. Qed.

Lemma ends_deferring {A} (d : io unit) (p : io A) s Q :
  ends p s (fun a s' => ends d s' (fun _ s'' => Q a s'')) -> ends (deferring d p) s Q.
Proof.
  revert s; induction p as [a|e|c k IH]; intros s; simpl; [|done|apply IH].
  intros H. apply ends_bind. eapply ends_mono; [exact H|]. done.
Qed.

Lemma ends_ret {A} (a : A) s (Q : A -> St -> Prop) : Q a s -> ends (mret a) s Q.
Proof. done. Qed.

Lemma ends_lift {A} (m : go A) a s (Q : A -> St -> Prop) : m = Ret a -> Q a s -> ends (lift m) s Q.
Proof. by intros ->. Qed.
End total.
Arguments ends {St} serve {A} p s Q : simpl never.

(** The server keeps everything of an object but its version. *)
Definition same_but_version (m m' : ObjectMeta) : Prop :=
  exists version, m' = m <| ObjectMeta_ResourceVersion := version |>.

Lemma same_name m m' : same_but_version m m' ->
  ObjectMeta_Name m' = ObjectMeta_Name m /\ ObjectMeta_Namespace m' = ObjectMeta_Namespace m /\
  DeletionTimestamp_IsZero m' = DeletionTimestamp_IsZero m.
Proof. by intros [version ->]. Qed.

(** ** Run after run

    Services in [St], of which a view [V] matters; [drift] is how the view changes by itself, and
    [object] the object the reconciler is about. *)

Section rounds.
Context {St V Ob : Type} (serve : forall c : call, St -> answer c * St).
Context (reconcile : io (Result * option error)).
Context (look : St -> V) (object : V -> option Ob) (drift : V -> V -> Prop).

(** [n] runs in a row: none fails, each but the last calls for the next one, by asking for it or
    by a change of the stored object, and the last leaves the services in [Q]. *)
Fixpoint rounds (n : nat) (s : St) (Q : St -> Prop) : Prop :=
  match n with
  | O => Q s
  | S n => ends serve reconcile s (fun res s' =>
      res.2 = None /\ (n <> O -> asks_again res \/ object (look s') <> object (look s)) /\
      rounds n s' Q)
  end.

Lemma rounds_mono n s (Q Q' : St -> Prop) : rounds n s Q -> (forall s', Q s' -> Q' s') -> rounds n s Q'.
Proof.
  revert s. induction n as [|n IH]; intros s H HQ; [by apply HQ|]. eapply ends_mono; [exact H|].
  intros res s' (Hok & Hcall & Hn). split; [done|]. split; [done|by apply IH].
Qed.

(** One run on the way: it is over, or nearer, and calls for another. *)
Definition nearer (over on_the_way : V -> Ob -> Prop) (measure : V -> Ob -> nat) (v : V) (r : Ob)
    (res : Result * option error) (v' : V) (r' : Ob) : Prop :=
  res.2 = None /\
  (over v' r' \/ (on_the_way v' r' /\ (measure v' r' < measure v r)%nat /\ (asks_again res \/ r' <> r))).

Definition way (over on_the_way : V -> Ob -> Prop) (measure : V -> Ob -> nat)
    (v : V) (r : Ob) (res : Result * option error) (s : St) : Prop :=
  exists v' r', drift v' (look s) /\ nearer over on_the_way measure v r res v' r'.

Lemma rounds_way (over on_the_way : V -> Ob -> Prop) (measure : V -> Ob -> nat) :
  (forall v v', drift v v' -> object v' = object v) ->
  (forall v r s, on_the_way v r -> drift v (look s) -> ends serve reconcile s (way over on_the_way measure v r)) ->
  (forall v r, on_the_way v r -> object v = Some r) ->
  (forall v v' r, drift v v' -> over v r -> over v' r) ->
  forall v r s, on_the_way v r -> drift v (look s) ->
  exists n, (n <= S (measure v r))%nat /\ rounds n s (fun s' => exists r', over (look s') r').
Proof.
  intros Hobject Hstep Hshow Hdrift v r. remember (measure v r) as m eqn:Hm. revert v r Hm.
  induction m as [m IH] using lt_wf_ind. intros v r -> s Hw Hs.
  pose proof (Hstep v r s Hw Hs) as (res & s' & l & Hrun & v' & r' & Hs' & Hok & Hnear)%ends_run.
  destruct Hnear as [Hover|(Hw' & Hlt & Hcall)].
  - exists 1%nat. split; [lia|]. apply ends_run. exists res, s', l. split; [done|]. split_and!; [done|done|].
    exists r'. by apply (Hdrift v').
  - destruct (IH _ Hlt v' r' eq_refl s' Hw' Hs') as (n & Hn & Hrest). exists (S n). split; [lia|].
    apply ends_run. exists res, s', l. split; [done|]. split_and!; [done| |done]. intros _.
    destruct Hcall as [?|Hne]; [by left|right].
    rewrite (Hobject _ _ Hs), (Hobject _ _ Hs'), (Hshow _ _ Hw), (Hshow _ _ Hw'). congruence.
Qed.
End rounds.
