(* ===== verification/Services.v ===== *)
(** * What a reconciler sees of the services

    The view of the services that matters to the runs of one reconciler: its own object, the
    relationship, and the containers on one Docker daemon. The view may drift: a container ends by
    itself, or restarts, in the ways its kind of box allows ([Ageing]). [Services] is the
    documented behaviour of the calls that every reconciler makes, over any kind of object and of
    box; Convergence.v and MachineConvergence.v add their own. *)

From S2P Require Import Prelude GoStd Util ApiTypes Prog World Relationship Docker Total.

(** What a container may become by itself. *)
Class Ageing (Box : Type) := {
  ages : string -> Box -> Box -> Prop;
  ages_preorder name :: PreOrder (ages name);
}.

Record view (Ob Box : Type) := mkView {
  view_object : option Ob;
  view_relation : Relationship;
  view_boxes : gmap string Box;
}.
Arguments mkView {Ob Box}.
Arguments view_object {Ob Box}.
Arguments view_relation {Ob Box}.
Arguments view_boxes {Ob Box}.
#[export] Instance view_eta {Ob Box} : Eta (view Ob Box) := fun v => {|
  view_object := view_object v; view_relation := view_relation v; view_boxes := view_boxes v |}.

Section view.
Context {Ob Box : Type} {Age : Ageing Box}.
Implicit Types v : view Ob Box.

Definition put (name : string) (b : Box) v := v <| view_boxes ::= <[name := b]> |>.
Definition drop_box (name : string) v := v <| view_boxes ::= delete name |>.
Definition put_object (o : option Ob) v := v <| view_object := o |>.
Definition put_relation (o : Relationship) v := v <| view_relation := o |>.

Definition aged (name : string) (b b' : option Box) : Prop :=
  match b, b' with
  | None, None => True
  | Some b, Some b' => ages name b b'
  | _, _ => False
  end.

Definition drift v v' : Prop :=
  view_object v' = view_object v /\ view_relation v' = view_relation v /\
  forall name, aged name (view_boxes v !! name) (view_boxes v' !! name).

#[export] Instance aged_preorder name : PreOrder (aged name).
Proof.
  split; [by intros [b|]; simpl|]. intros [b1|] [b2|] [b3|]; simpl; try done. intros H1 H2. by etrans.
Qed.
#[export] Instance drift_preorder : PreOrder drift.
Proof.
  split; [by intros v; split_and!|].
  intros v1 v2 v3 (E1 & F1 & H1) (E2 & F2 & H2). split_and!; [congruence..|].
  intros name. etrans; [apply H1|apply H2].
Qed.

Lemma drift_put v v' name b : drift v v' -> drift (put name b v) (put name b v').
Proof.
  intros (E & F & H). split_and!; [done..|]. intros n. simpl.
  destruct (decide (name = n)) as [->|Hn]; [by rewrite !lookup_insert_eq|by rewrite !lookup_insert_ne].
Qed.
Lemma drift_drop v v' name : drift v v' -> drift (drop_box name v) (drop_box name v').
Proof.
  intros (E & F & H). split_and!; [done..|]. intros n. simpl.
  destruct (decide (name = n)) as [->|Hn]; [by rewrite !lookup_delete_eq|by rewrite !lookup_delete_ne].
Qed.
Lemma drift_set_object v v' o : drift v v' -> drift (put_object o v) (put_object o v').
Proof. by intros (E & F & H). Qed.
Lemma drift_relation v v' o : drift v v' -> drift (put_relation o v) (put_relation o v').
Proof. by intros (E & F & H). Qed.
Lemma drift_object v v' : drift v v' -> view_object v' = view_object v.
Proof. by intros (E & _). Qed.

Lemma aged_Some name b b' x : aged name b b' -> b = Some x -> exists x', b' = Some x' /\ ages name x x'.
Proof. intros H ->. destruct b' as [x'|]; [by eauto|done]. Qed.
Lemma aged_None name b b' : aged name b b' -> b = None -> b' = None.
Proof. intros H ->. by destruct b'. Qed.

Lemma put_put name b b' v : put name b (put name b' v) = put name b v.
Proof. unfold put. destruct v. cbn. f_equal. apply insert_insert_eq. Qed.
Lemma drop_put name b v : drop_box name (put name b v) = drop_box name v.
Proof. unfold put, drop_box. destruct v. cbn. f_equal. apply delete_insert_eq. Qed.
Lemma drop_absent name v : view_boxes v !! name = None -> drop_box name v = v.
Proof. intros H. unfold drop_box. destruct v. cbn in *. f_equal. by apply delete_id. Qed.
Lemma lookup_put name b v : view_boxes (put name b v) !! name = Some b.
Proof. apply lookup_insert_eq. Qed.
Lemma lookup_put_ne name name' b v : name <> name' -> view_boxes (put name b v) !! name' = view_boxes v !! name'.
Proof. apply lookup_insert_ne. Qed.
Lemma lookup_drop name name' b v :
  view_boxes (drop_box name v) !! name' = Some b <-> name <> name' /\ view_boxes v !! name' = Some b.
Proof. apply lookup_delete_Some. Qed.

(** The documented behaviour of the calls all make: from a view [v], the call is answered [x] and
    leaves [v']. [absent] is how a missing container is told, [shows] what an inspection shows of
    one. Nothing is said here of the other calls. *)
Definition common (client : DockerClient) (absent : error -> bool) (shows : string -> Box -> ContainerJSON -> Prop)
    (c : call) v : answer c -> view Ob Box -> Prop :=
  match c return answer c -> view Ob Box -> Prop with
  | Get KRelationship k => fun x v' => k = relationshipName -> drift v v' /\ x = inr (view_relation v)
  | StatusUpdate KRelationship o => fun x v' =>
      Relationship_ObjectMeta o = Relationship_ObjectMeta (view_relation v) ->
      exists o', x = inr o' /\ drift (put_relation o' v) v' /\ Relationship_Status o' = Relationship_Status o
  | RecordEvent _ _ _ | DockerClose _ => fun _ v' => drift v v'
  | ImageInspect c _ => fun x v' => c = client ->
      drift v v' /\ match x with Some e => IsErrImageNotFound e = true | None => True end
  | ImagePull c _ | StreamCopy c => fun x v' => c = client -> drift v v' /\ x = None
  | StreamClose c => fun _ v' => c = client -> drift v v'
  | ContainerInspect c name => fun x v' => c = client -> drift v v' /\
      match view_boxes v' !! name with
      | None => exists e, x = inl e /\ absent e = true
      | Some b => exists stat, x = inr stat /\ shows name b stat
      end
  | _ => fun _ _ => True
  end.
End view.
Arguments aged {Box Age} name !b !b'.

Class Services {Ob Box : Type} {Age : Ageing Box} (St : Type) (serve : forall c : call, St -> answer c * St)
    (client : DockerClient) (absent : error -> bool) (shows : string -> Box -> ContainerJSON -> Prop) := {
  look : St -> view Ob Box;
  serve_common c s : common client absent shows c (look s) (serve c s).1 (look (serve c s).2);
}.

(** ** The calls, one by one

    What is known of the services after each, from what was known before. *)

Section rules.
Context {Ob Box : Type} {Age : Ageing Box} {St : Type} {serve : forall c : call, St -> answer c * St}.
Context {client : DockerClient} {absent : error -> bool} {shows : string -> Box -> ContainerJSON -> Prop}.
Context {Srv : Services (Ob := Ob) St serve client absent shows}.

Abbreviation ends := (ends serve).
Definition world (v : view Ob Box) (s : St) : Prop := drift v (look s).

Lemma world_drift v s s' : world v s -> drift (look s) (look s') -> world v s'.
Proof. intros H H'. red. by etrans. Qed.

Lemma ends_common {A} (c : call) (k : answer c -> io A) s Q :
  (forall x s', common client absent shows c (look s) x (look s') -> ends (k x) s' Q) ->
  ends (Call c k) s Q.
Proof. intros H. apply H, serve_common. Qed.

Lemma ends_getRelationship v s (Q : error + Relationship -> St -> Prop) :
  world v s -> (forall s', world v s' -> Q (inr (view_relation v)) s') -> ends getRelationship s Q.
Proof.
  intros Hw H. apply ends_common. intros x s' [Hd ->]; [done|]. simpl. rewrite (proj1 (proj2 Hw)).
  apply H. by eapply world_drift.
Qed.

Lemma ends_record v s t why msg (Q : unit -> St -> Prop) :
  world v s -> (forall s', world v s' -> Q tt s') -> ends (record_event t why msg) s Q.
Proof. intros Hw H. apply ends_common. intros [] s' Hd. apply H. by eapply world_drift. Qed.

Lemma ends_close v s c (Q : unit -> St -> Prop) :
  world v s -> (forall s', world v s' -> Q tt s') -> ends (ask (DockerClose c)) s Q.
Proof. intros Hw H. apply ends_common. intros [] s' Hd. apply H. by eapply world_drift. Qed.

Lemma ends_pull v s image policy (Q : option error -> St -> Prop) :
  world v s -> (forall s', world v s' -> Q None s') -> ends (PullImageByPolicy client image policy) s Q.
Proof.
  intros Hw H. unfold PullImageByPolicy. apply ends_common. intros x s1 [Hd Hx]; [done|].
  assert (Hw1 : world v s1) by by eapply world_drift.
  assert (Hpull : ends (check ask (ImagePull client image) orelse err => mret (Some err) in
                        deferring (closing client) (ask (StreamCopy client))) s1 Q).
  { apply ends_common. intros y s2 [Hd2 ->]; [done|].
    apply ends_common. intros y s3 [Hd3 ->]; [done|].
    apply ends_common. intros y4 s4 Hd4. apply H.
    eapply world_drift; [|by apply Hd4]. by do 2 (eapply world_drift; [|eassumption]). }
  destruct x as [e|]; [rewrite Hx; exact Hpull|].
  destruct (String.eqb policy PullPolicyAlways); [exact Hpull|by apply H].
Qed.

Lemma ends_inspect v s name (Q : error + ContainerJSON -> St -> Prop) :
  world v s ->
  (forall e s', view_boxes v !! name = None -> absent e = true -> world v s' -> Q (inl e) s') ->
  (forall b b' stat s', view_boxes v !! name = Some b -> ages name b b' ->
     shows name b' stat -> world (put name b' v) s' -> Q (inr stat) s') ->
  ends (ask (ContainerInspect client name)) s Q.
Proof.
  intros Hw Hnone Hsome. apply ends_common. intros x s' [Hd Hx]; [done|].
  assert (Hw' : world v s') by by eapply world_drift. destruct Hw' as (E & F & Hb).
  specialize (Hb name) as Hn. destruct (view_boxes (look s') !! name) as [b'|] eqn:Hb'.
  - destruct Hx as (stat & -> & Hshow). destruct (view_boxes v !! name) as [b|] eqn:Hv; [|done].
    eapply Hsome; [done|done|done|]. split_and!; [done..|]. intros n. simpl.
    destruct (decide (name = n)) as [<-|Hne]; [by rewrite lookup_insert_eq, Hb'|by rewrite lookup_insert_ne].
  - destruct Hx as (e & -> & He). apply Hnone; [|done|by split_and!].
    by destruct (view_boxes v !! name).
Qed.

Lemma ends_relation v s o (Q : option error -> St -> Prop) :
  world v s -> Relationship_ObjectMeta o = Relationship_ObjectMeta (view_relation v) ->
  (forall o' s', world (put_relation o' v) s' -> Relationship_Status o' = Relationship_Status o -> Q None s') ->
  ends (status_update KRelationship o) s Q.
Proof.
  intros Hw Ho H. apply ends_common. intros x s' Hx.
  destruct Hx as (o' & -> & Hd & Hst); [by rewrite (proj1 (proj2 Hw))|].
  apply (H o'); [|done]. red. etrans; [|exact Hd]. by apply drift_relation.
Qed.
End rules.
