(* ===== verification/Convergence.v ===== *)
(** * A resource converges

    Lifecycle.v and Progress.v say where a test resource can move and that no run of its
    reconciler is the last one too early. This file says where it arrives: against a store and a
    Docker daemon that answer, and behave as documented, a bounded number of runs brings a claimed
    resource to its started container, a destroyed one back to where it is free, and a deleted
    one out of the store, of its machine and of the relationship.

    The documented behaviour is the interface [Cluster]: what a call does to the view of the
    cluster that matters here, and what it answers, beyond what Services.v says of the calls that
    every reconciler makes. Containers may end by themselves at any time. *)

From S2P Require Import Prelude GoStd Util ApiTypes Prog World Machine Resource Relationship Docker.
From S2P Require Import Scheduler ResourceCtl ResourceTheorems Progress Total Services.

(** ** The view of a cluster

    One test resource, the relationship, and the containers on the machine of the resource. *)

Inductive life := Created | Running | Exited.
#[export] Instance life_eq_dec : EqDecision life.
Proof. solve_decision. Defined.

(** A container, and whether it is on the overlay network. *)
Record box := mkBox { box_life : life; box_connected : bool }.

(** A container ends by itself. *)
Definition ends_alone (b b' : box) : Prop :=
  box_connected b' = box_connected b /\
  (box_life b' = box_life b \/ (box_life b = Running /\ box_life b' = Exited)).
#[export] Instance ends_alone_preorder : PreOrder ends_alone.
Proof.
  split; [by intros b; split; [|left]|]. intros b1 b2 b3 [E1 H1] [E2 H2]. split; [congruence|].
  destruct H1 as [H1|[H1 H1']], H2 as [H2|[H2 H2']]; try (left; congruence); right; split; congruence.
Qed.
#[export] Instance box_ageing : Ageing box := {| ages _ := ends_alone |}.

Abbreviation view := (view TestResource box).

(** What an inspection of a container shows. Without a restart policy the daemon restarts none;
    the ports it lists are the published ones, each with the port of the host. *)
Definition shows (network name : string) (b : box) (stat : ContainerJSON) : Prop :=
  let state := ContainerJSON_State stat in
  timeIsZero (ContainerState_StartedAt state) = bool_decide (box_life b = Created) /\
  ContainerState_Restarting state = false /\
  ContainerState_Running state = bool_decide (box_life b = Running) /\
  (box_life b = Exited -> timeIsZero (ContainerState_FinishedAt state) = false) /\
  (is_Some (ContainerJSON_Networks stat !! network) <-> box_connected b = true) /\
  (forall port l, ContainerJSON_Ports stat !! port = Some l -> l <> []).

Section cluster.
Context (key : NamespacedName) (machine : Machine) (network : string) (client : DockerClient).

(** The documented behaviour of the services: from a cluster seen as [v], the call is answered
    [x] and leaves the cluster seen as [v']. The calls that all make are in Services.v. *)
Definition obeys (c : call) (v : view) : answer c -> view -> Prop :=
  match c return answer c -> view -> Prop with
  | Get KTestResource k => fun x v' => k = key -> drift v v' /\
      match view_object v with
      | Some o => x = inr o
      | None => exists e, x = inl e /\ IsNotFound e = true
      end
  | Get KMachine k => fun x v' =>
      k = Namespaced (CreateRef (Machine_ObjectMeta machine)) -> drift v v' /\ x = inr machine
  | StatusUpdate KTestResource o => fun x v' => forall r, view_object v = Some r ->
      TestResource_ObjectMeta o = TestResource_ObjectMeta r ->
      exists o', x = inr o' /\ drift (put_object (Some o') v) v' /\
        same_but_version (TestResource_ObjectMeta r) (TestResource_ObjectMeta o') /\
        TestResource_Spec o' = TestResource_Spec r /\ TestResource_Status o' = TestResource_Status o
  | Update KTestResource o => fun x v' => forall r, view_object v = Some r ->
      (exists l, TestResource_ObjectMeta o = (TestResource_ObjectMeta r) <| ObjectMeta_Finalizers := l |>) ->
      exists o', x = inr o' /\
        drift (put_object (if bool_decide (ObjectMeta_Finalizers (TestResource_ObjectMeta o) = [])
                                && negb (DeletionTimestamp_IsZero (TestResource_ObjectMeta r))
                             then None else Some o') v) v' /\
        same_but_version (TestResource_ObjectMeta o) (TestResource_ObjectMeta o') /\
        TestResource_Status o' = TestResource_Status r
  | RangeKeys ks => fun x v' => drift v v' /\ x ≡ₚ ks
  | DockerNewClient url version => fun x v' => drift v v' /\
      (url = Machine.DockerURL machine -> version = MachineSpec_DockerVersion (Machine_Spec machine) -> x = inr client)
  | ContainerCreate c _ _ name => fun x v' => c = client -> view_boxes v !! name = None ->
      exists warnings connected, x = inr warnings /\ drift (put name (mkBox Created connected) v) v'
  | NetworkConnect c net name => fun x v' => forall b, c = client -> net = network ->
      view_boxes v !! name = Some b -> x = None /\ drift (put name (mkBox (box_life b) true) v) v'
  | ContainerStart c name => fun x v' => forall b, c = client ->
      view_boxes v !! name = Some b -> x = None /\ drift (put name (mkBox Running (box_connected b)) v) v'
  | ContainerWait c name => fun x v' => forall b, c = client ->
      view_boxes v !! name = Some b -> box_life b <> Created ->
      exists code, x = inr code /\ drift (put name (mkBox Exited (box_connected b)) v) v'
  | ContainerRemove c name force => fun x v' => forall b, c = client ->
      view_boxes v !! name = Some b -> force = true \/ box_life b <> Running ->
      x = None /\ drift (drop_box name v) v'
  | _ => fun _ _ => True
  end.
End cluster.

Class Cluster (St : Type) (serve : forall c : call, St -> answer c * St)
    (key : NamespacedName) (machine : Machine) (network : string) (client : DockerClient) := {
  cluster_services :: Services St serve client IsErrContainerNotFound (shows network);
  serve_obeys c s : obeys key machine network client c (look s) (serve c s).1 (look (serve c s).2);
}.

Lemma ages_started x x' : ends_alone x x' -> box_life x <> Created -> box_life x' <> Created.
Proof. by intros [_ [->|[_ ->]]]. Qed.

(** ** The calls, one by one

    What is known of the cluster after each, from what was known before. *)

Section rules.
Context {U : Units} {St : Type} (serve : forall c : call, St -> answer c * St).
Context (key : NamespacedName) (machine : Machine) (client : DockerClient).
Context {C : Cluster St serve key machine ResourceCtl.clusterNetwork client}.

Abbreviation ends := (ends serve).
Abbreviation world := (world (serve := serve) (Ob := TestResource)).

Lemma ends_call {A} (c : call) (k : answer c -> io A) s Q :
  (forall x s', obeys key machine ResourceCtl.clusterNetwork client c (look s) x (look s') -> ends (k x) s' Q) ->
  ends (Call c k) s Q.
Proof. intros H. apply H, serve_obeys. Qed.

(** Calls that leave the view alone. *)
Lemma ends_get_resource v s r (Q : error + TestResource -> St -> Prop) :
  world v s -> view_object v = Some r ->
  (forall s', world v s' -> Q (inr r) s') -> ends (get KTestResource key) s Q.
Proof.
  intros Hw Hr H. apply ends_call. intros x s' [Hd Hx]; [done|]. destruct Hw as (E & Hw).
  rewrite E, Hr in Hx. subst x. apply H. red. etrans; [|exact Hd]. by split.
Qed.

Lemma ends_range_keys {V} (m : gmap string V) v s (Q : list string -> St -> Prop) :
  world v s -> (forall ks s', world v s' -> (forall k, k ∈ ks -> is_Some (m !! k)) -> Q ks s') ->
  ends (range_keys m) s Q.
Proof.
  intros Hw H. apply ends_call. intros ks s' [Hd Hks]. apply H; [red; by etrans|].
  intros k Hk. rewrite Hks in Hk. by apply fst_elem_of_map_to_list in Hk.
Qed.

(** Calls on a container. *)
Lemma ends_create v s cfg host name (Q : error + list string -> St -> Prop) :
  world v s -> view_boxes v !! name = None ->
  (forall warnings connected s', world (put name (mkBox Created connected) v) s' -> Q (inr warnings) s') ->
  ends (ask (ContainerCreate client cfg host name)) s Q.
Proof.
  intros Hw Hn H. apply ends_call. intros x s' Hx. destruct Hw as (E & F & Hb).
  destruct Hx as (w & con & -> & Hd); [done|by eapply aged_None, Hn|].
  eapply H. red. etrans; [|exact Hd]. apply drift_put. by split_and!.
Qed.

Lemma ends_connect v s name b (Q : option error -> St -> Prop) :
  world v s -> view_boxes v !! name = Some b -> box_life b = Created ->
  (forall s', world (put name (mkBox Created true) v) s' -> Q None s') ->
  ends (ask (NetworkConnect client ResourceCtl.clusterNetwork name)) s Q.
Proof.
  intros Hw Hn Hl H. apply ends_call. intros x s' Hx. pose proof Hw as (_ & _ & Hb).
  destruct (aged_Some _ _ _ _ (Hb name) Hn) as (b' & Hb' & Hage).
  destruct (Hx b') as [-> Hd]; [done..|]. apply H. red. etrans; [|exact Hd].
  destruct Hage as [_ [->|[? _]]]; [rewrite Hl; by apply drift_put|congruence].
Qed.

Lemma ends_start v s name b (Q : option error -> St -> Prop) :
  world v s -> view_boxes v !! name = Some b ->
  (forall s', world (put name (mkBox Running (box_connected b)) v) s' -> Q None s') ->
  ends (ask (ContainerStart client name)) s Q.
Proof.
  intros Hw Hn H. apply ends_call. intros x s' Hx. pose proof Hw as (_ & _ & Hb).
  destruct (aged_Some _ _ _ _ (Hb name) Hn) as (b' & Hb' & [Hc _]).
  destruct (Hx b') as [-> Hd]; [done..|]. apply H. red. etrans; [|exact Hd]. rewrite Hc. by apply drift_put.
Qed.

Lemma ends_wait v s name b (Q : error + Z -> St -> Prop) :
  world v s -> view_boxes v !! name = Some b -> box_life b <> Created ->
  (forall code s', world (put name (mkBox Exited (box_connected b)) v) s' -> Q (inr code) s') ->
  ends (ask (ContainerWait client name)) s Q.
Proof.
  intros Hw Hn Hl H. apply ends_call. intros x s' Hx. pose proof Hw as (_ & _ & Hb).
  destruct (aged_Some _ _ _ _ (Hb name) Hn) as (b' & Hb' & Hage).
  destruct (Hx b') as (code & -> & Hd); [done|done|by eapply ages_started|].
  apply H. red. etrans; [|exact Hd]. destruct Hage as [-> _]. by apply drift_put.
Qed.

Lemma ends_remove v s name b force (Q : option error -> St -> Prop) :
  world v s -> view_boxes v !! name = Some b -> force = true \/ box_life b = Exited ->
  (forall s', world (drop_box name v) s' -> Q None s') ->
  ends (ask (ContainerRemove client name force)) s Q.
Proof.
  intros Hw Hn Hf H. apply ends_call. intros x s' Hx. pose proof Hw as (_ & _ & Hb).
  destruct (aged_Some _ _ _ _ (Hb name) Hn) as (b' & Hb' & [_ Hage]).
  destruct (Hx b') as [-> Hd]; [done|done| |].
  { destruct Hf as [?|Hf]; [by left|right]. rewrite Hf in Hage. by destruct Hage as [->|[? _]]. }
  apply H. red. etrans; [|exact Hd]. by apply drift_drop.
Qed.

(** Writes. *)
Lemma ends_status v s r st (Q : option error -> St -> Prop) :
  world v s -> view_object v = Some r ->
  (forall o' s', world (put_object (Some o') v) s' ->
     same_but_version (TestResource_ObjectMeta r) (TestResource_ObjectMeta o') ->
     TestResource_Status o' = st (TestResource_Status r) -> Q None s') ->
  ends (status_update KTestResource (ResourceCtl.with_status st r)) s Q.
Proof.
  intros Hw Hr H. apply ends_call. intros x s' Hx. pose proof Hw as (E & _).
  destruct (Hx r) as (o' & -> & Hd & Hm & _ & Hst); [by rewrite E|done|].
  eapply H; [|done|done]. red. etrans; [|exact Hd]. by apply drift_set_object.
Qed.

Lemma ends_update v s r l (Q : option error -> St -> Prop) :
  world v s -> view_object v = Some r -> DeletionTimestamp_IsZero (TestResource_ObjectMeta r) = false ->
  (forall o s', world (put_object o v) s' ->
     (forall o', o = Some o' -> ObjectMeta_Finalizers (TestResource_ObjectMeta o') = l) -> Q None s') ->
  ends (update KTestResource
    (r <| TestResource_ObjectMeta ::= fun m => m <| ObjectMeta_Finalizers := l |> |>)) s Q.
Proof.
  intros Hw Hr Hdel H. apply ends_call. intros x s' Hx. pose proof Hw as (E & _).
  destruct (Hx r) as (o' & -> & Hd & [ver Hm] & _); [by rewrite E|by eexists|].
  eapply H; [red; etrans; [|exact Hd]; by apply drift_set_object|].
  intros o. case_match; [done|]. intros [= <-]. by rewrite Hm.
Qed.

End rules.

(** ** The functions *)

Section functions.
Context {U : Units} {St : Type} (serve : forall c : call, St -> answer c * St).
Context (key : NamespacedName) (machine : Machine) (client : DockerClient).
Context {C : Cluster St serve key machine ResourceCtl.clusterNetwork client}.

Abbreviation ends := (ends serve).
Abbreviation world := (world (serve := serve) (Ob := TestResource)).

(** The resource is bound to the machine in the relationship, with a memory that parses, and
    carries the finalizer; a container of it that was started is on the overlay network. *)
Record wired (v : view) (r : TestResource) := {
  wired_resource : view_object v = Some r;
  wired_finalizer : ResourceCtl.resourceFinalizer ∈ ObjectMeta_Finalizers (TestResource_ObjectMeta r);
  wired_binding : exists m,
    go_lookup (ResourceToMachine (Relationship_Status (view_relation v))) (ResourceCtl.resource_key r) = Some m /\
    MachineRef_Ref m = CreateRef (Machine_ObjectMeta machine) /\
    is_Some (BytesSize.ToSize (ResourceBinding_Memory (MachineRef_Binding m)));
  wired_machine :
    go_lookup (MachineToResources (Relationship_Status (view_relation v)))
      (Key (CreateRef (Machine_ObjectMeta machine))) <> Some [] /\
    is_Some (go_lookup (MachineToResources (Relationship_Status (view_relation v)))
      (Key (CreateRef (Machine_ObjectMeta machine))));
  wired_plain : MachineSpec_DockerTLS (Machine_Spec machine) = false;
  wired_connected : forall b, view_boxes v !! TestResource.ContainerName r = Some b ->
    box_life b <> Created -> box_connected b = true;
}.

Lemma ends_getHostMachine v s r (Q : error + Machine -> St -> Prop) :
  wired v r -> world v s -> (forall s', world v s' -> Q (inr machine) s') ->
  ends (ResourceCtl.getHostMachine (CreateRef (TestResource_ObjectMeta r))) s Q.
Proof.
  intros Hv Hw H. unfold ResourceCtl.getHostMachine. apply ends_bind.
  eapply ends_getRelationship; [exact Hw|]. intros s1 Hw1. simpl.
  destruct (wired_binding _ _ Hv) as (m & Hm & Href & _). unfold ResourceCtl.resource_key in Hm.
  rewrite Hm. simpl. rewrite Href. eapply (ends_call serve key machine client). intros x s2 [Hd ->]; [done|].
  apply H. red. by etrans.
Qed.

Lemma ends_client v s r (Q : error + DockerClient -> St -> Prop) :
  wired v r -> world v s -> (forall s', world v s' -> Q (inr client) s') -> ends (MakeClient machine) s Q.
Proof.
  intros Hv Hw H. unfold MakeClient, Machine.DockerClient. rewrite (wired_plain _ _ Hv).
  eapply (ends_call serve key machine client). intros x s1 [Hd Hx]. rewrite Hx by done. apply H. red. by etrans.
Qed.

Lemma ends_getResourceBinding v s r (Q : error + ResourceBinding -> St -> Prop) :
  wired v r -> world v s ->
  (forall b s', is_Some (BytesSize.ToSize (ResourceBinding_Memory b)) -> world v s' -> Q (inr b) s') ->
  ends (ResourceCtl.getResourceBinding (CreateRef (TestResource_ObjectMeta r))) s Q.
Proof.
  intros Hv Hw H. unfold ResourceCtl.getResourceBinding. apply ends_bind.
  eapply ends_getRelationship; [exact Hw|]. intros s1 Hw1. simpl.
  destruct (wired_binding _ _ Hv) as (m & Hm & _ & Hsize). unfold ResourceCtl.resource_key in Hm.
  rewrite Hm. simpl. by apply H.
Qed.

Lemma ends_pull_and_create v s r cfg host name reason (Q : option error -> St -> Prop) :
  world v s -> view_boxes v !! name = None ->
  (forall connected s', world (put name (mkBox Created connected) v) s' -> Q None s') ->
  ends (ResourceCtl.pull_and_create r client cfg host name reason) s Q.
Proof.
  intros Hw Hn H. unfold ResourceCtl.pull_and_create. apply ends_bind.
  eapply ends_pull; [exact Hw|]. intros s1 Hw1. apply ends_bind.
  eapply ends_create; [exact Hw1|exact Hn|]. intros warnings con s2 Hw2. apply ends_bind.
  cut (ends (for_each (R := unit) (fun _ warning => record_event "Warning" reason warning;; mret (inl tt))
         warnings tt) s2 (fun _ s3 => world (put name (mkBox Created con) v) s3)).
  { intros Hl. eapply ends_mono; [exact Hl|]. intros a s3 Hw3. eapply ends_ret. eapply H. exact Hw3. }
  clear H Hw Hw1. revert s2 Hw2. induction warnings as [|w l IH]; intros s2 Hw2; [done|].
  cbn [for_each prog_bind record_event ask mbind prog_bind_inst mret prog_ret_inst].
  eapply ends_common. intros [] s3 Hd. apply IH. red. by etrans.
Qed.

Lemma ends_createContainer v s r (Q : option error -> St -> Prop) :
  wired v r -> world v s -> view_boxes v !! TestResource.ContainerName r = None ->
  (forall connected s', world (put (TestResource.ContainerName r) (mkBox Created connected) v) s' -> Q None s') ->
  ends (ResourceCtl.createContainer r client) s Q.
Proof.
  intros Hv Hw Hn H. unfold ResourceCtl.createContainer. apply ends_bind.
  eapply ends_getResourceBinding; [exact Hv|exact Hw|]. intros b s1 [size Hsize] Hw1.
  apply ends_bind. unfold TestResource.ContainerConfig. apply ends_bind.
  eapply ends_range_keys; [exact Hw1|]. intros ks s2 Hw2 _. apply ends_bind.
  eapply ends_lift; [by apply BytesSize.Unwrap_Ret|]. by eapply ends_pull_and_create.
Qed.

Lemma ends_createCleaner v s r (Q : option error -> St -> Prop) :
  wired v r -> world v s -> view_boxes v !! TestResource.ContainerCleanerName r = None ->
  (forall connected s', world (put (TestResource.ContainerCleanerName r) (mkBox Created connected) v) s' -> Q None s') ->
  ends (ResourceCtl.createCleaner r client) s Q.
Proof.
  intros Hv Hw Hn H. unfold ResourceCtl.createCleaner. apply ends_bind.
  eapply ends_getResourceBinding; [exact Hv|exact Hw|]. intros b s1 _ Hw1.
  apply ends_bind. unfold TestResource.ContainerCleanerConfig. apply ends_bind.
  eapply ends_range_keys; [exact Hw1|]. intros ks s2 Hw2 _. by eapply ends_pull_and_create.
Qed.

(** The container goes, whatever it was doing. *)
Lemma ends_removeContainer v s r (Q : option error -> St -> Prop) :
  world v s -> (forall s', world (drop_box (TestResource.ContainerName r) v) s' -> Q None s') ->
  ends (ResourceCtl.removeContainer r client) s Q.
Proof.
  intros Hw H. unfold ResourceCtl.removeContainer. apply ends_bind. eapply ends_inspect; [exact Hw| |].
  - intros e s1 Hn He Hw1. simpl. rewrite He. apply H.
    by rewrite drop_absent.
  - intros b b' stat s1 Hb Hage _ Hw1. eapply ends_remove; [exact Hw1|apply lookup_put|by left|].
    intros s2 Hw2. rewrite drop_put in Hw2. by apply H.
Qed.

(** ** What stays as it is *)

Lemma wired_put v r o : wired v r -> same_but_version (TestResource_ObjectMeta r) (TestResource_ObjectMeta o) ->
  wired (put_object (Some o) v) o.
Proof.
  intros [_ H1 H2 H3 H4 H5] [version Hm].
  split; [done| | |done|done|]; unfold ResourceCtl.resource_key, TestResource.ContainerName, TestResource_Name in *;
    by rewrite Hm.
Qed.

Lemma wired_box v r name b : wired v r ->
  (name = TestResource.ContainerName r -> box_life b <> Created -> box_connected b = true) ->
  wired (put name b v) r.
Proof.
  intros [H0 H1 H2 H3 H4 H5] H. split; [done..|]. intros b'. simpl.
  destruct (decide (name = TestResource.ContainerName r)) as [E|E].
  - rewrite E, lookup_insert_eq. intros [= <-]. auto.
  - by rewrite lookup_insert_ne; [apply H5|].
Qed.

Lemma wired_drop v r name : wired v r -> wired (drop_box name v) r.
Proof.
  intros [H0 H1 H2 H3 H4 H5]. split; [done..|]. intros b'. simpl.
  rewrite lookup_delete_Some. intros [_ ?]. by apply H5.
Qed.

(** An inspection shows a container as it was, or ended. *)
Lemma wired_seen v r name b b' : wired v r -> view_boxes v !! name = Some b -> ends_alone b b' ->
  wired (put name b' v) r.
Proof.
  intros Hv Hb [Hc Hl]. apply wired_box; [done|]. intros -> Hl'. rewrite Hc.
  apply (wired_connected _ _ Hv _ Hb). by destruct Hl as [<-|[-> _]].
Qed.

(** ** The way to the started container *)

Definition phase_rank (p : ResourcePhase) : nat :=
  match p with ResourcePhaseNone => 2 | ResourcePhaseRunning => 0 | _ => 1 end.
Definition box_rank (b : option box) : nat :=
  match b with
  | None => 3
  | Some (mkBox Created connected) => if connected then 1 else 2
  | Some _ => 0
  end.
Definition rank (v : view) (r : TestResource) : nat :=
  phase_rank (TestResourceStatus_Phase (TestResource_Status r)) +
  box_rank (view_boxes v !! TestResource.ContainerName r).

(** A claimed resource whose container is to be started. *)
Record waiting (v : view) (r : TestResource) := {
  waiting_wired : wired v r;
  waiting_live : DeletionTimestamp_IsZero (TestResource_ObjectMeta r) = true;
  waiting_state : TestResource_State r = ResourceUninitialized;
  waiting_image : TestResource_Image r <> "";
}.

(** Its container was started, on the overlay network, and that is recorded. *)
Definition served (v : view) (r : TestResource) : Prop :=
  view_object v = Some r /\
  (TestResource_State r = ResourceReady \/ TestResource_State r = ResourceFinish) /\
  exists b, view_boxes v !! TestResource.ContainerName r = Some b /\ box_life b <> Created /\ box_connected b = true.

Lemma port_bindings_Ret ports keys acc :
  (forall port l, ports !! port = Some l -> l <> []) -> (forall k, k ∈ keys -> is_Some (ports !! k)) ->
  exists s, ResourceCtl.port_bindings ports keys acc = Ret s.
Proof.
  intros Hne. revert acc. induction keys as [|k l IH]; intros acc Hin; [by eexists|].
  cbn [ResourceCtl.port_bindings]. destruct (Hin k) as [x Hx]; [by left|]. rewrite Hx. cbn [default].
  specialize (Hne k x Hx) as Hx0. destruct x as [|b x]; [done|].
  apply IH. intros k' Hk'. apply Hin. by right.
Qed.

Lemma same_container r o : same_but_version (TestResource_ObjectMeta r) (TestResource_ObjectMeta o) ->
  TestResource.ContainerName o = TestResource.ContainerName r /\
  TestResource.ContainerCleanerName o = TestResource.ContainerCleanerName r.
Proof.
  intros (H1 & H2 & _)%same_name. unfold TestResource.ContainerName, TestResource.ContainerCleanerName, TestResource_Name.
  by rewrite H1, H2.
Qed.

Abbreviation way := (way (look (serve := serve)) drift).
Abbreviation way_up := (way served waiting rank).

(** A status is stored that leaves the resource waiting. *)
Lemma waiting_put v r o f : waiting v r ->
  same_but_version (TestResource_ObjectMeta r) (TestResource_ObjectMeta o) ->
  TestResource_Status o = f (TestResource_Status r) ->
  TestResourceStatus_State (f (TestResource_Status r)) = ResourceUninitialized ->
  TestResourceStatus_Container (f (TestResource_Status r)) = TestResourceStatus_Container (TestResource_Status r) ->
  waiting (put_object (Some o) v) o.
Proof.
  intros [Hv Hl _ Hi] Hm Hs Hst Hc. pose proof (same_name _ _ Hm) as (_ & _ & Hd). split.
  - by apply (wired_put _ r).
  - by rewrite Hd.
  - unfold TestResource_State. by rewrite Hs.
  - unfold TestResource_Image. by rewrite Hs, Hc.
Qed.

Lemma phase_step v r s p :
  waiting v r -> world v s ->
  (phase_rank p < phase_rank (TestResourceStatus_Phase (TestResource_Status r)))%nat ->
  ends (err ← status_update KTestResource
          (ResourceCtl.with_status (fun s => s <| TestResourceStatus_Phase := p |>) r);
        mret (noRequeue, err)) s (way_up v r).
Proof.
  intros Hw Hs Hp. apply ends_bind.
  eapply ends_status; [exact Hs|apply Hw|]. intros o s1 Hs1 Hm Ho. apply ends_ret.
  eexists _, o. split; [exact Hs1|]. split; [done|]. right. split_and!.
  - apply (waiting_put _ r o (fun s => s <| TestResourceStatus_Phase := p |>) Hw Hm Ho); [apply Hw|done].
  - unfold rank. simpl. rewrite Ho, (proj1 (same_container _ _ Hm)). simpl. lia.
  - right. intros ->. rewrite Ho in Hp. simpl in Hp. lia.
Qed.

(** The box of the resource's container moves on. *)
Lemma box_step v r b s d :
  waiting v r -> world (put (TestResource.ContainerName r) b v) s ->
  (box_life b <> Created -> box_connected b = true) ->
  (box_rank (Some b) < box_rank (view_boxes v !! TestResource.ContainerName r))%nat ->
  way_up v r (mkResult true d, None) s.
Proof.
  intros Hw Hs Hb Hr. eexists _, r. split; [exact Hs|]. split; [done|]. right. split_and!.
  - destruct Hw as [Hv Hl Hst Hi]. split; [by apply wired_box|done..].
  - unfold rank. simpl. rewrite lookup_insert_eq. simpl in *. lia.
  - left. right. by left.
Qed.

(** The outcome of the container is recorded. *)
Lemma served_step v r b s f :
  wired v r -> world v s -> view_boxes v !! TestResource.ContainerName r = Some b ->
  box_life b <> Created -> box_connected b = true ->
  (TestResourceStatus_State (f (TestResource_Status r)) = ResourceReady \/
   TestResourceStatus_State (f (TestResource_Status r)) = ResourceFinish) ->
  forall v0 r0,
  ends (err ← status_update KTestResource (ResourceCtl.with_status f r); mret (noRequeue, err)) s (way_up v0 r0).
Proof.
  intros Hv Hs Hb Hl Hc Hf v0 r0. apply ends_bind.
  eapply ends_status; [exact Hs|apply Hv|]. intros o s1 Hs1 Hm Ho. apply ends_ret.
  eexists _, o. split; [exact Hs1|]. split; [done|]. left. split; [done|]. split.
  - unfold TestResource_State. by rewrite Ho.
  - exists b. by rewrite (proj1 (same_container _ _ Hm)).
Qed.

Lemma follow_started_way v r b b' stat s :
  waiting v r -> TestResourceStatus_Phase (TestResource_Status r) <> ResourcePhaseNone ->
  view_boxes v !! TestResource.ContainerName r = Some b -> ends_alone b b' ->
  box_life b' <> Created -> shows ResourceCtl.clusterNetwork (TestResource.ContainerName r) b' stat ->
  world (put (TestResource.ContainerName r) b' v) s ->
  ends (ResourceCtl.follow_started r stat) s (way_up v r).
Proof.
  intros Hw Hp Hb Hage Hl (_ & Hrestart & Hrun & Hfin & Hnet & Hports) Hs.
  pose proof (wired_seen _ _ _ _ _ (waiting_wired _ _ Hw) Hb Hage) as Hv'.
  assert (Hc : box_connected b' = true) by (apply (wired_connected _ _ Hv'); [apply lookup_insert_eq|done]).
  assert (Hin : view_boxes (put (TestResource.ContainerName r) b' v) !! TestResource.ContainerName r = Some b')
    by apply lookup_insert_eq.
  unfold ResourceCtl.follow_started. rewrite Hrestart, Hrun. unfold ResourceCtl.finished.
  case_bool_decide as Hlife; cbn beta iota zeta.
  - case_bool_decide as Hphase; cbn [negb].
    + destruct (proj2 Hnet Hc) as [ip ->]. apply ends_bind.
      eapply ends_range_keys; [exact Hs|]. intros ks s1 Hs1 Hks.
      destruct (port_bindings_Ret (ContainerJSON_Ports stat) ks
                  (TestResourceStatus_PortBindings (TestResource_Status r)) Hports Hks) as [text Ht].
      apply ends_bind. eapply ends_lift; [exact Ht|].
      eapply served_step; [exact Hv'|exact Hs1|exact Hin|done|done|].
      cbv beta zeta. destruct (negb _); [by right|by left].
    + assert (Hw' : waiting (put (TestResource.ContainerName r) b' v) r) by (destruct Hw; by split).
      eapply ends_mono.
      { eapply (phase_step _ r s ResourcePhaseRunning Hw' Hs).
        destruct (TestResourceStatus_Phase _); simpl; (done || lia). }
      intros res s1 (v1 & r1 & Hs1 & Hok & Hnear). exists v1, r1. split; [done|]. split; [done|].
      destruct Hnear as [?|(Hw1 & Hr1 & Ha)]; [by left|right]. split_and!; [done| |done].
      unfold rank in *. rewrite Hb. rewrite Hin in Hr1.
      assert (box_rank (Some b') = box_rank (Some b)) as E; [|lia].
      destruct Hage as [Hcc Hll], b as [[] ?], b' as [[] ?]; simpl in *; try done; by destruct Hll as [|[]].
  - assert (He : box_life b' = Exited) by (by destruct (box_life b')).
    rewrite (Hfin He). eapply served_step; [exact Hv'|exact Hs|exact Hin|done|done|]. by right.
Qed.

Lemma uninitialized_with_way v r s :
  waiting v r -> TestResourceStatus_Phase (TestResource_Status r) <> ResourcePhaseNone -> world v s ->
  ends (ResourceCtl.uninitialized_with r client) s (way_up v r).
Proof.
  intros Hw Hp Hs. pose proof (waiting_wired _ _ Hw) as Hv. unfold ResourceCtl.uninitialized_with.
  apply ends_bind. eapply ends_inspect; [exact Hs| |].
  - intros e s1 Hn He Hs1. rewrite He. cbn [negb]. apply ends_bind.
    eapply ends_createContainer; [exact Hv|exact Hs1|exact Hn|]. intros con s2 Hs2. apply ends_ret.
    eapply box_step; [exact Hw|exact Hs2|done|]. rewrite Hn. destruct con; simpl; lia.
  - intros b b' stat s1 Hb Hage Hshow Hs1. pose proof Hshow as (Hstart & _ & _ & _ & Hnet & _). rewrite Hstart.
    case_bool_decide as Hl; [|by eapply follow_started_way].
    assert (Hbb : b = b').
    { destruct Hage as [Hc Hll], b, b'; simpl in *. subst. by destruct Hll as [<-|[_ ?]]. }
    subst b'. assert (Hin : view_boxes (put (TestResource.ContainerName r) b v) !! TestResource.ContainerName r = Some b)
      by apply lookup_insert_eq.
    destruct b as [l con]. simpl in Hl. subst l. destruct (ContainerJSON_Networks stat !! _) as [ip|].
    + assert (con = true) as -> by (by apply Hnet). apply ends_bind. eapply ends_start; [exact Hs1|exact Hin|].
      intros s2 Hs2. apply ends_ret. eapply (box_step v r (mkBox Running true)); [exact Hw| |done|rewrite Hb; simpl; lia].
      unfold put in *. simpl in *. by rewrite insert_insert_eq in Hs2.
    + assert (con = false) as -> by (destruct con; [by destruct (proj2 Hnet eq_refl)|done]).
      apply ends_bind. eapply ends_connect; [exact Hs1|exact Hin|done|].
      intros s2 Hs2. apply ends_ret. eapply (box_step v r (mkBox Created true)); [exact Hw| |done|rewrite Hb; simpl; lia].
      unfold put in *. simpl in *. by rewrite insert_insert_eq in Hs2.
Qed.

(** A run on a resource with the finalizer gets to its state, or to its deletion. *)
Lemma ends_reconcile v r s Q :
  wired v r -> world v s ->
  (forall s', world v s' ->
    ends (if DeletionTimestamp_IsZero (TestResource_ObjectMeta r) then
            match TestResource_State r with
            | ResourceUninitialized => ResourceCtl.reconcileStateUninitialized r
            | ResourceDestroy => ResourceCtl.reconcileStateDestroy r
            | _ => ResourceCtl.Reconcile key
            end
          else ResourceCtl.reconcileDeletion r) s' Q) ->
  (DeletionTimestamp_IsZero (TestResource_ObjectMeta r) = true ->
   TestResource_State r = ResourceUninitialized \/ TestResource_State r = ResourceDestroy) ->
  ends (ResourceCtl.Reconcile key) s Q.
Proof.
  intros Hv Hs H Hst. unfold ResourceCtl.Reconcile at 1. apply ends_bind.
  eapply ends_get_resource; [exact Hs|apply Hv|]. intros s1 Hs1.
  rewrite (proj2 (Slice.StringsContains_spec _ _) (wired_finalizer _ _ Hv)). specialize (H s1 Hs1).
  destruct (DeletionTimestamp_IsZero _); cbn [andb negb]; [|done].
  by destruct Hst as [E|E]; [done|..]; rewrite E in H |- *.
Qed.

Lemma waiting_reconcile v r s : waiting v r -> world v s -> ends (ResourceCtl.Reconcile key) s (way_up v r).
Proof.
  intros Hw Hs. pose proof (waiting_wired _ _ Hw) as Hv.
  eapply ends_reconcile; [exact Hv|exact Hs| |left; apply Hw]. intros s1 Hs1.
  rewrite (waiting_live _ _ Hw), (waiting_state _ _ Hw). unfold ResourceCtl.reconcileStateUninitialized.
  case_bool_decide as Hp; [apply phase_step; [done..|by rewrite Hp; simpl; lia]|].
  destruct (String.eqb_spec (TestResource_Image r) "") as [E|_]; [by destruct (waiting_image _ _ Hw)|].
  apply ends_bind. eapply ends_getHostMachine; [exact Hv|exact Hs1|]. intros s2 Hs2.
  apply ends_bind. eapply ends_client; [exact Hv|exact Hs2|]. intros s3 Hs3.
  apply ends_deferring. eapply ends_mono; [by apply (uninitialized_with_way v r s3)|].
  intros res s4 (v' & r' & Hs4 & Hn). eapply ends_close; [exact Hs4|]. intros s5 Hs5. by exists v', r'.
Qed.

(** ** The way down *)

Definition cleaner_rank (b : option box) : nat :=
  match b with None => 2 | Some b => if bool_decide (box_life b = Created) then 1 else 0 end.
Definition cleaning (v : view) (r : TestResource) : nat :=
  cleaner_rank (view_boxes v !! TestResource.ContainerCleanerName r).
Definition no_boxes (v : view) (r : TestResource) : Prop :=
  view_boxes v !! TestResource.ContainerName r = None /\
  view_boxes v !! TestResource.ContainerCleanerName r = None.

(** [finalize] removes the container and moves the cleaner on, or removes it and is done. *)
Lemma finalize_with_way v r s (Q : bool * option error -> St -> Prop) :
  wired v r -> world v s ->
  (forall v' s', view_object v' = view_object v -> view_relation v' = view_relation v ->
     wired v' r -> world v' s' -> (cleaning v' r < cleaning v r)%nat -> Q (true, None) s') ->
  (forall v' s', view_object v' = view_object v -> view_relation v' = view_relation v ->
     wired v' r -> world v' s' -> no_boxes v' r -> Q (false, None) s') ->
  ends (ResourceCtl.finalize_with r client) s Q.
Proof.
  intros Hv Hs Hmore Hdone. unfold ResourceCtl.finalize_with. apply ends_bind.
  eapply ends_removeContainer; [exact Hs|]. intros s1 Hs1. pose proof (cleaner_name r) as Hne.
  assert (Hv1 : wired (drop_box (TestResource.ContainerName r) v) r) by by apply wired_drop.
  assert (Hc1 : cleaning (drop_box (TestResource.ContainerName r) v) r = cleaning v r).
  { unfold cleaning. simpl. by rewrite lookup_delete_ne. }
  revert Hs1 Hv1 Hc1. set (v1 := drop_box _ v). intros Hs1 Hv1 Hc1. apply ends_bind.
  eapply ends_inspect; [exact Hs1| |].
  - intros e s2 Hn He Hs2. rewrite He. cbn [negb]. apply ends_bind.
    eapply ends_createCleaner; [exact Hv1|exact Hs2|exact Hn|]. intros con s3 Hs3. apply ends_ret.
    eapply Hmore; [| | |exact Hs3|]; [done|done|by apply wired_box|].
    rewrite <-Hc1. unfold cleaning. rewrite Hn. simpl. rewrite lookup_insert_eq. simpl. lia.
  - intros b b' stat s2 Hb Hage (Hstart & _) Hs2. rewrite Hstart.
    pose proof (wired_seen _ _ _ _ _ Hv1 Hb Hage) as Hv2.
    assert (Hin : view_boxes (put (TestResource.ContainerCleanerName r) b' v1) !! TestResource.ContainerCleanerName r
                  = Some b') by apply lookup_insert_eq.
    case_bool_decide as Hl; apply ends_bind.
    + eapply ends_start; [exact Hs2|exact Hin|]. intros s3 Hs3. apply ends_ret.
      eapply Hmore; [| | |exact Hs3|]; [done|done|by apply wired_box|].
      rewrite <-Hc1. unfold cleaning at 1. simpl. rewrite lookup_insert_eq. simpl.
      unfold cleaning. rewrite Hb. simpl. rewrite bool_decide_true; [lia|].
      destruct Hage as [_ [<-|[_ ?]]]; congruence.
    + eapply ends_wait; [exact Hs2|exact Hin|exact Hl|]. intros code s3 Hs3. apply ends_bind.
      assert (Hrest : forall s4, world (put (TestResource.ContainerCleanerName r) (mkBox Exited (box_connected b'))
                (put (TestResource.ContainerCleanerName r) b' v1)) s4 ->
              ends (err ← ask (ContainerRemove client (TestResource.ContainerCleanerName r) false);
                    mret (false, err : option error)) s4 Q).
      { intros s4 Hs4. apply ends_bind.
        eapply ends_remove; [exact Hs4|simpl; apply lookup_insert_eq|by right|]. intros s5 Hs5. apply ends_ret.
        eapply Hdone; [| | |exact Hs5|]; [done|done|by apply wired_drop, wired_box|].
        split; simpl; [|apply lookup_delete_eq]. rewrite lookup_delete_ne by done.
        rewrite !lookup_insert_ne by done. apply lookup_delete_eq. }
      destruct (code =? 0); cbn [negb]; [by apply Hrest|].
      eapply ends_record; [exact Hs3|]. exact Hrest.
Qed.

Lemma finalize_way v r s (Q : bool * option error -> St -> Prop) :
  wired v r -> world v s ->
  (forall v' s', view_object v' = view_object v -> view_relation v' = view_relation v ->
     wired v' r -> world v' s' -> (cleaning v' r < cleaning v r)%nat -> Q (true, None) s') ->
  (forall v' s', view_object v' = view_object v -> view_relation v' = view_relation v ->
     wired v' r -> world v' s' -> no_boxes v' r -> Q (false, None) s') ->
  ends (ResourceCtl.finalize r machine) s Q.
Proof.
  intros Hv Hs Hmore Hdone. unfold ResourceCtl.finalize. apply ends_bind.
  eapply ends_client; [exact Hv|exact Hs|]. intros s1 Hs1. apply ends_deferring.
  eapply finalize_with_way; [exact Hv|exact Hs1| |]; intros v' s2 E F Hv' Hs2 H;
    (eapply ends_close; [exact Hs2|]); intros s3 Hs3; eauto.
Qed.

(** A resource that is to be freed, and one that is free again. *)
Definition destroyed (v : view) (r : TestResource) : Prop :=
  wired v r /\ DeletionTimestamp_IsZero (TestResource_ObjectMeta r) = true /\ TestResource_State r = ResourceDestroy.
Definition freed (v : view) (r : TestResource) : Prop :=
  view_object v = Some r /\ TestResource_State r = ResourceUninitialized /\
  TestResourceStatus_Container (TestResource_Status r) = zeroContainerSpec /\ no_boxes v r.

Lemma destroyed_reconcile v r s : destroyed v r -> world v s ->
  ends (ResourceCtl.Reconcile key) s (way freed destroyed cleaning v r).
Proof.
  intros (Hv & Hl & Hst) Hs. eapply ends_reconcile; [exact Hv|exact Hs| |by right]. intros s1 Hs1.
  rewrite Hl, Hst. unfold ResourceCtl.reconcileStateDestroy. apply ends_bind.
  eapply ends_getHostMachine; [exact Hv|exact Hs1|]. intros s2 Hs2. apply ends_bind.
  eapply finalize_way; [exact Hv|exact Hs2| |].
  - intros v' s3 _ _ Hv' Hs3 Hlt. apply ends_ret. exists v', r. split; [done|]. split; [done|]. right.
    split; [by split|]. split; [done|]. left. right. right. simpl. done.
  - intros v' s3 _ _ Hv' Hs3 Hnone. apply ends_bind. eapply ends_record; [exact Hs3|]. intros s4 Hs4.
    apply ends_bind. eapply ends_status; [exact Hs4|apply Hv'|]. intros o s5 Hs5 Hm Ho. apply ends_ret.
    exists (put_object (Some o) v'), o. split; [exact Hs5|]. split; [done|]. left.
    unfold freed, TestResource_State, no_boxes. rewrite Ho.
    destruct (same_container _ _ Hm) as [-> ->]. done.
Qed.

(** A resource that is to be deleted, and one that is: its object has no finalizer left or is
    gone, the relationship binds it no more, and its containers are gone. *)
Definition deleted (r0 : TestResource) (v : view) (r : TestResource) : Prop :=
  r = r0 /\ wired v r /\ DeletionTimestamp_IsZero (TestResource_ObjectMeta r) = false.
Definition gone (r0 : TestResource) (v : view) (r : TestResource) : Prop :=
  r = r0 /\ (forall o, view_object v = Some o ->
     ResourceCtl.resourceFinalizer ∉ ObjectMeta_Finalizers (TestResource_ObjectMeta o)) /\
  go_lookup (ResourceToMachine (Relationship_Status (view_relation v))) (ResourceCtl.resource_key r) = None /\
  no_boxes v r.

Lemma unbind_returns v r : wired v r -> exists status,
  ResourceCtl.unbind r machine (view_relation v) =
    Ret ((view_relation v) <| Relationship_Status ::= fun _ => status |>) /\
  go_lookup (ResourceToMachine status) (ResourceCtl.resource_key r) = None.
Proof.
  intros Hv. destruct (wired_machine _ _ Hv) as [Hne [l Hl]]. unfold ResourceCtl.unbind. rewrite Hl in Hne |- *.
  simpl. pose proof (refsRemove_spec l (CreateRef (TestResource_ObjectMeta r))) as Hrm.
  destruct (refsRemove l _) as [refs|e]; [|by rewrite Hrm in Hne]. simpl.
  unfold go_lookup, go_map in Hl. destruct (MachineToResources _) as [mtr|]; [|done]. simpl.
  eexists. split; [reflexivity|]. simpl. unfold go_delete, go_lookup, go_map.
  destruct (ResourceToMachine _); simpl; [apply lookup_delete_eq|apply lookup_empty].
Qed.

Lemma deleted_reconcile r0 v r s : deleted r0 v r -> world v s ->
  ends (ResourceCtl.Reconcile key) s (way (gone r0) (deleted r0) cleaning v r).
Proof.
  intros (-> & Hv & Hl) Hs. eapply ends_reconcile; [exact Hv|exact Hs| |by rewrite Hl]. intros s1 Hs1.
  rewrite Hl. unfold ResourceCtl.reconcileDeletion. apply ends_bind.
  eapply ends_getRelationship; [exact Hs1|]. intros s2 Hs2.
  destruct (wired_binding _ _ Hv) as (m & Hm & Href & _). rewrite Hm, Href. apply ends_bind.
  eapply (ends_call serve key machine client). intros x s3 [Hd ->]; [done|].
  assert (Hs3 : world v s3) by (red; by etrans). apply ends_bind.
  eapply finalize_way; [exact Hv|exact Hs3| |].
  - intros v' s4 _ _ Hv' Hs4 Hlt. apply ends_ret. exists v', r0. split; [done|]. split; [done|]. right.
    split; [by split|]. split; [done|]. left. right. right. simpl. done.
  - intros v' s4 _ F Hv' Hs4 Hnone. rewrite <-F. apply ends_bind.
    destruct (unbind_returns v' r0 Hv') as (status & Hu & Hfree). eapply ends_lift; [exact Hu|].
    apply ends_bind. eapply ends_relation; [exact Hs4|done|].
    intros o s5 Hs5 Ho. unfold ResourceCtl.drop_finalizer. apply ends_bind.
    pose proof (wired_finalizer _ _ Hv') as Hfin. eapply ends_lift.
    { apply Slice.StringsRemove_Ret. intros E. by rewrite E in Hfin; apply not_elem_of_nil in Hfin. }
    apply ends_bind. eapply ends_update; [exact Hs5|apply Hv'|done|]. intros o' s6 Hs6 Hfl. apply ends_ret.
    exists (put_object o' (put_relation o v')), r0. split; [exact Hs6|]. split; [done|]. left. split_and!; [done|..].
    + intros o'' E. simpl in E. rewrite (Hfl o'' E). intros [_ H]%elem_of_filterb. by rewrite String.eqb_refl in H.
    + simpl. by rewrite Ho.
    + exact Hnone.
Qed.

(** ** Run after run *)

Abbreviation rounds := (rounds serve (ResourceCtl.Reconcile key) (look (serve := serve)) view_object).

Lemma no_boxes_drift v v' r : drift v v' -> no_boxes v r -> no_boxes v' r.
Proof. intros (_ & _ & H) [H1 H2]. split; (eapply aged_None; [apply H|done]). Qed.
Lemma served_drift v v' r : drift v v' -> served v r -> served v' r.
Proof.
  intros (E & _ & H) (Hr & Hst & b & Hb & Hl & Hc). split; [by rewrite E|]. split; [done|].
  destruct (aged_Some _ _ _ _ (H _) Hb) as (b' & Hb' & Hage). exists b'. split; [done|].
  split; [by eapply ages_started|]. by destruct Hage as [-> _].
Qed.
Lemma freed_drift v v' r : drift v v' -> freed v r -> freed v' r.
Proof. intros Hd (Hr & Hst & Hc & Hn). pose proof Hd as (E & _). split_and!; [by rewrite E|done..|by apply (no_boxes_drift v)]. Qed.
Lemma gone_drift r0 v v' r : drift v v' -> gone r0 v r -> gone r0 v' r.
Proof.
  intros Hd (-> & Hf & Hb & Hn). pose proof Hd as (E & F & _). split; [done|]. rewrite E, F.
  split_and!; [done|done|by apply (no_boxes_drift v)].
Qed.

Lemma rank_bound v r : (rank v r <= 5)%nat.
Proof.
  unfold rank, phase_rank, box_rank. destruct (TestResourceStatus_Phase _), (view_boxes v !! _) as [[[] []]|]; lia.
Qed.
Lemma cleaning_bound v r : (cleaning v r <= 2)%nat.
Proof. unfold cleaning, cleaner_rank. destruct (view_boxes v !! _); [case_bool_decide|]; lia. Qed.

(** C11. Liveness of a resource: against a store and a daemon that answer and behave as documented,
    a claimed resource is ready or finished, its container started on the overlay network, after
    at most six runs, whatever its container was; a destroyed one is free, its containers gone,
    after at most three; and a deleted one has lost its finalizer, its binding and its containers
    after at most three. No run fails, and each calls for the next. *)
Theorem resource_converges s r : wired (look s) r ->
  let meta := TestResource_ObjectMeta r in
  (DeletionTimestamp_IsZero meta = true -> TestResource_State r = ResourceUninitialized -> TestResource_Image r <> "" ->
   exists n, (n <= 6)%nat /\ rounds n s (fun s' => exists r', served (look s') r')) /\
  (DeletionTimestamp_IsZero meta = true -> TestResource_State r = ResourceDestroy ->
   exists n, (n <= 3)%nat /\ rounds n s (fun s' => exists r', freed (look s') r')) /\
  (DeletionTimestamp_IsZero meta = false ->
   exists n, (n <= 3)%nat /\ rounds n s (fun s' => exists r', gone r (look s') r')).
Proof.
  intros Hv meta. assert (Hs : world (look s) s) by by red. pose proof (rank_bound (look s) r).
  pose proof (cleaning_bound (look s) r). split_and!.
  - intros Hl Hst Hi. destruct (rounds_way serve (ResourceCtl.Reconcile key) look view_object drift
      served waiting rank drift_object waiting_reconcile
      (fun v r H => wired_resource _ _ (waiting_wired _ _ H)) served_drift (look s) r s) as (n & Hn & Hr); [by split|done|].
    exists n. split; [lia|done].
  - intros Hl Hst. destruct (rounds_way serve (ResourceCtl.Reconcile key) look view_object drift
      freed destroyed cleaning drift_object destroyed_reconcile
      (fun v r H => wired_resource _ _ (proj1 H)) freed_drift (look s) r s) as (n & Hn & Hr); [by split|done|].
    exists n. split; [lia|done].
  - intros Hl. destruct (rounds_way serve (ResourceCtl.Reconcile key) look view_object drift
      (gone r) (deleted r) cleaning drift_object (deleted_reconcile r)
      (fun v r H => wired_resource _ _ (proj1 (proj2 H))) (gone_drift r) (look s) r s) as (n & Hn & Hr); [by split|done|].
    exists n. split; [lia|done].
Qed.

End functions.

(** ** An example *)

Module ConvergenceExample.

Definition machine : Machine :=
  zeroMachine <| Machine_ObjectMeta := zeroMeta <| ObjectMeta_Name := "m" |> |>
              <| Machine_Spec ::= fun s => s <| MachineSpec_Host := "h" |> <| MachineSpec_DockerPort := 2375 |> |>.
Definition client : DockerClient := mkDockerClient (Machine.DockerURL machine) "".
Definition key : NamespacedName := mkNamespacedName "" "r".

Definition stat (b : box) : ContainerJSON :=
  let zero := "0001-01-01T00:00:00Z" in
  let day := "2020-01-01T00:00:00Z" in
  mkContainerJSON "id" "" (mkContainerState (bool_decide (box_life b = Running)) false 0
      (if bool_decide (box_life b = Created) then zero else day)
      (if bool_decide (box_life b = Exited) then day else zero)) None None
    (if box_connected b then {[ResourceCtl.clusterNetwork := "10.0.0.2"]} else ∅)
    {["22/tcp" := [mkPortBinding "" "32768"]]}.

(** On a container that is there, else an error. *)
Definition on_box {A} (name : string) (missing : A) (f : box -> A * view) (v : view) : A * view :=
  match view_boxes v !! name with Some b => f b | None => (missing, v) end.

Definition serve (c : call) : view -> answer c * view :=
  match c return view -> answer c * view with
  | Get KTestResource _ => fun v =>
      (match view_object v with Some r => inr r | None => inl not_found end, v)
  | Get KRelationship _ => fun v => (inr (view_relation v), v)
  | Get KMachine _ => fun v => (inr machine, v)
  | StatusUpdate KTestResource o => fun v =>
      match view_object v with
      | None => (inl not_found, v)
      | Some r =>
          let o' := r <| TestResource_ObjectMeta ::= fun m => m <| ObjectMeta_ResourceVersion := "2" |> |>
                      <| TestResource_Status := TestResource_Status o |> in
          (inr o', put_object (Some o') v)
      end
  | Update KTestResource o => fun v =>
      match view_object v with
      | None => (inl not_found, v)
      | Some r =>
          let o' := o <| TestResource_ObjectMeta ::= fun m => m <| ObjectMeta_ResourceVersion := "2" |> |>
                      <| TestResource_Status := TestResource_Status r |> in
          (inr o', put_object (if bool_decide (ObjectMeta_Finalizers (TestResource_ObjectMeta o) = [])
                                    && negb (DeletionTimestamp_IsZero (TestResource_ObjectMeta r))
                                 then None else Some o') v)
      end
  | StatusUpdate KRelationship o => fun v => (inr o, put_relation o v)
  | RecordEvent _ _ _ | DockerClose _ => fun v => (tt, v)
  | RangeKeys ks => fun v => (ks, v)
  | DockerNewClient url version => fun v => (inr (mkDockerClient url version), v)
  | ImageInspect _ _ | ImagePull _ _ | StreamCopy _ | StreamClose _ => fun v => (None, v)
  | ContainerInspect _ name => fun v => on_box name (inl not_found) (fun b => (inr (stat b), v)) v
  | ContainerCreate _ _ _ name => fun v => (inr [], put name (mkBox Created false) v)
  | NetworkConnect _ _ name => fun v =>
      on_box name (Some not_found) (fun b => (None, put name (mkBox (box_life b) true) v)) v
  | ContainerStart _ name => fun v =>
      on_box name (Some not_found) (fun b => (None, put name (mkBox Running (box_connected b)) v)) v
  | ContainerWait _ name => fun v =>
      on_box name (inl not_found) (fun b => (inr 0, put name (mkBox Exited (box_connected b)) v)) v
  | ContainerRemove _ name _ => fun v => on_box name (Some not_found) (fun b => (None, drop_box name v)) v
  | c => fun v => (refuse c, v)
  end.

Lemma stat_shows name b : shows ResourceCtl.clusterNetwork name b (stat b).
Proof.
  destruct b as [l con]. split; [by destruct l|]. split; [done|]. split; [done|].
  split; [intros E; simpl in E; by subst|]. split.
  - destruct con; simpl; [by rewrite lookup_singleton|]. rewrite lookup_empty. split; [by intros []|done].
  - intros port l' H. simpl in H. apply lookup_singleton_Some in H as [_ <-]. done.
Qed.

#[export] Instance services :
  Services (Ob := TestResource) view serve client IsErrContainerNotFound (shows ResourceCtl.clusterNetwork).
Proof.
  refine {| look := fun v => v |}. intros c v. pose proof (reflexivity v : drift v v) as Hd.
  destruct c; try match goal with k : kind |- _ => destruct k end; try done;
    cbn [common serve fst snd]; unfold on_box.
  - intros _. by exists o.
  - intros _. destruct (view_boxes v !! name) as [b|] eqn:Hb; cbn [fst snd]; (split; [done|]); rewrite Hb.
    + exists (stat b). split; [done|apply stat_shows].
    + by exists not_found.
Defined.

#[export] Instance cluster : Cluster view serve key machine ResourceCtl.clusterNetwork client.
Proof.
  refine {| cluster_services := services |}. intros c v. pose proof (reflexivity v : drift v v) as Hd.
  change (obeys key machine ResourceCtl.clusterNetwork client c v (serve c v).1 (serve c v).2).
  destruct c; try match goal with k : kind |- _ => destruct k end; try done;
    cbn [obeys serve fst snd]; unfold on_box.
  - intros _. split; [done|]. destruct (view_object v); [done|by exists not_found].
  - intros r -> [l Hl]. eexists. split; [done|]. split; [done|]. split; [by eexists|done].
  - intros r -> Hm. eexists. split; [done|]. split; [done|]. split; [by eexists|done].
  - split; [done|]. by intros -> ->.
  - intros _ _. by exists [], false.
  - by intros b _ ->.
  - intros b _ -> _. by exists 0.
  - by intros b _ -> _.
  - by intros b _ _ ->.
Defined.

(** A resource a workload has just claimed, on a machine whose daemon knows nothing of it. *)
Definition resource : TestResource :=
  zeroTestResource
    <| TestResource_ObjectMeta := zeroMeta <| ObjectMeta_Name := "r" |>
         <| ObjectMeta_Finalizers := [ResourceCtl.resourceFinalizer] |> |>
    <| TestResource_Status ::= fun s => s <| TestResourceStatus_State := ResourceUninitialized |>
         <| TestResourceStatus_Container ::= fun c => c <| ContainerSpec_Image := "app" |> |> |>.
Definition start : view :=
  let machineRef := CreateRef (Machine_ObjectMeta machine) in
  let resourceRef := CreateRef (TestResource_ObjectMeta resource) in
  let binding := mkResourceBinding "1" [1] ∅ in
  mkView (Some resource)
    (zeroRelationship <| Relationship_Status ::= fun s =>
       s <| MachineToResources := Some {[Key machineRef := [mkResourceRef resourceRef binding]]} |>
         <| ResourceToMachine := Some {[Key resourceRef := mkMachineRef machineRef binding]} |> |>) ∅.

Lemma start_wired : wired (U := BinarySizes.units) machine start resource.
Proof.
  split; [done|by left| | |done|done].
  - eexists. split; [vm_compute; reflexivity|]. split; [done|]. vm_compute. by eexists.
  - split; [vm_compute; congruence|]. vm_compute. by eexists.
Qed.

Lemma resource_converges_witness : exists n, (n <= 6)%nat /\
  rounds serve (ResourceCtl.Reconcile (U := BinarySizes.units) key) look view_object n start
    (fun s' => exists r', served (look s') r').
Proof.
  refine (proj1 (resource_converges (U := BinarySizes.units) serve key machine client start resource start_wired) _ _ _);
    vm_compute; congruence.
Defined.
End ConvergenceExample.
