(* ===== verification/MachineConvergence.v ===== *)
(** * A machine is taken in, and let go

    Where the machine reconciler arrives: against a store and a Docker daemon that answer and
    behave as documented, a bounded number of runs locks a new machine, measures it, starts its
    upload daemon and enters it in the relationship; and a deleted machine with nothing bound to
    it is unlocked and leaves. The documented behaviour is the interface [MachineHost]. Containers
    may end by themselves at any time, but for those the daemon restarts always; the script that
    measures a machine succeeds when it runs to its end.

    Last, what happens when that script fails once: its container stays, and every run fails. *)

From S2P Require Import Prelude GoStd Util ApiTypes Prog World Machine Relationship Docker MachineCtl Progress Total Services.

(** ** The view of a machine *)

Inductive life := Created | Running | Exited (code : Z).
#[export] Instance life_eq_dec : EqDecision life.
Proof. solve_decision. Defined.

Record box := mkBox { box_life : life; box_config : Config; box_host : HostConfig }.
#[export] Instance box_eta : Eta box := fun b => {|
  box_life := box_life b; box_config := box_config b; box_host := box_host b |}.

(** A container ends by itself, if the daemon would not restart it. *)
Definition ends_alone (name : string) (b b' : box) : Prop :=
  box_config b' = box_config b /\ box_host b' = box_host b /\
  (box_life b' = box_life b \/
   (box_life b = Running /\ HostConfig_RestartPolicy (box_host b) <> "always" /\
    exists code, box_life b' = Exited code /\ (name = container.MachineStat -> code = 0))).
#[export] Instance ends_alone_preorder name : PreOrder (ends_alone name).
Proof.
  split; [by intros b; split_and!; auto|]. intros b1 b2 b3 (Ec & Eh & H1) (Ec' & Eh' & H2).
  split_and!; [congruence..|]. rewrite Eh in H2.
  destruct H1 as [H1|(H1 & Hp & code & H1' & Hc)], H2 as [H2|(H2 & Hp2 & code2 & H2' & Hc2)].
  - left. congruence.
  - right. rewrite <-H1. eauto.
  - right. rewrite H2. eauto.
  - congruence.
Qed.
#[export] Instance box_ageing : Ageing box := {| ages := ends_alone |}.

Abbreviation view := (view Machine box).

Section host.
Context (key : NamespacedName) (client : DockerClient).
(** The container an ID, or a name as an inspection shows it, stands for; what the measuring
    script prints, and what that decodes to. *)
Context (named : string -> string) (report : string) (raw : MachineInfo).

Definition called (ref name : string) : Prop := ref = name \/ named ref = name.

(** What an inspection shows. A running container has the host ports it was created with. *)
Definition shows (name : string) (b : box) (stat : ContainerJSON) : Prop :=
  TimeIsZero (ContainerState_StartedAt (ContainerJSON_State stat)) = bool_decide (box_life b = Created) /\
  ContainerJSON_Config stat = Some (box_config b) /\
  ContainerJSON_HostConfig stat = Some (box_host b) /\
  called (ContainerJSON_ID stat) name /\ called (ContainerJSON_Name stat) name /\
  (box_life b = Running -> forall port p l, HostConfig_PortBindings (box_host b) !! port = Some (p :: l) ->
     PortBinding_HostPort p <> "" ->
     exists p' l', ContainerJSON_Ports stat !! port = Some (p' :: l') /\
       PortBinding_HostPort p' = PortBinding_HostPort p).

(** From a host seen as [v], the call is answered [x] and leaves it seen as [v']. The calls
    that all make are in Services.v. *)
Definition obeys (c : call) (v : view) : answer c -> view -> Prop :=
  match c return answer c -> view -> Prop with
  | Get KMachine k => fun x v' => k = key -> drift v v' /\
      match view_object v with
      | Some o => x = inr o
      | None => exists e, x = inl e /\ IsNotFound e = true
      end
  | StatusUpdate KMachine o => fun x v' => forall m, view_object v = Some m ->
      Machine_ObjectMeta o = Machine_ObjectMeta m ->
      exists o', x = inr o' /\ drift (put_object (Some o') v) v' /\
        same_but_version (Machine_ObjectMeta m) (Machine_ObjectMeta o') /\
        Machine_Spec o' = Machine_Spec m /\ Machine_Status o' = Machine_Status o
  | Update KMachine o => fun x v' => forall m l, view_object v = Some m ->
      Machine_ObjectMeta o = (Machine_ObjectMeta m) <| ObjectMeta_Finalizers := l |> ->
      Machine_Spec o = Machine_Spec m ->
      exists o', x = inr o' /\
        drift (put_object (if bool_decide (l = []) && negb (DeletionTimestamp_IsZero (Machine_ObjectMeta m))
                            then None else Some o') v) v' /\
        same_but_version (Machine_ObjectMeta o) (Machine_ObjectMeta o') /\
        Machine_Spec o' = Machine_Spec m /\ Machine_Status o' = Machine_Status m
  | ScriptFind _ => fun x v' => drift v v' /\ exists text, x = inr text
  | UnmarshalMachineInfo text => fun x v' => drift v v' /\ (text = report -> x.2 = Some raw)
  | DockerNewClient url version => fun x v' => drift v v' /\ forall m, view_object v = Some m ->
      url = Machine.DockerURL m -> version = MachineSpec_DockerVersion (Machine_Spec m) -> x = inr client
  | ContainerLogs c _ _ => fun x v' => c = client -> drift v v' /\ x = None
  | StreamClose c => fun x v' => c = client -> drift v v' /\ x = None
  | StdCopy c => fun x v' => c = client -> drift v v' /\ x.1.1 = report /\ x.2 = None
  | ContainerCreate c cfg host name => fun x v' => c = client -> view_boxes v !! name = None ->
      exists warnings, x = inr warnings /\ drift (put name (mkBox Created cfg host) v) v'
  | ContainerStart c name => fun x v' => forall b, c = client -> view_boxes v !! name = Some b ->
      x = None /\ drift (put name (b <| box_life := Running |>) v) v'
  | ContainerWait c ref => fun x v' => forall name b, c = client -> called ref name ->
      view_boxes v !! name = Some b -> box_life b <> Created ->
      exists code, x = inr code /\ drift (put name (b <| box_life := Exited code |>) v) v' /\
        (box_life b = Running -> name = container.MachineStat -> code = 0) /\
        (forall ended, box_life b = Exited ended -> code = ended)
  | ContainerRemove c ref force => fun x v' => forall name b, c = client -> called ref name ->
      view_boxes v !! name = Some b -> force = true \/ box_life b <> Running ->
      x = None /\ drift (drop_box name v) v'
  | _ => fun _ _ => True
  end.
End host.

Class MachineHost (St : Type) (serve : forall c : call, St -> answer c * St) (key : NamespacedName)
    (client : DockerClient) (report : string) (raw : MachineInfo) := {
  named : string -> string;
  host_services :: Services St serve client IsErrNotFound (shows named);
  serve_obeys c s : obeys key client named report raw c (look s) (serve c s).1 (look (serve c s).2);
}.

Lemma begun_stays name x x' : ends_alone name x x' -> box_life x <> Created -> box_life x' <> Created.
Proof. by intros (_ & _ & [->|(_ & _ & code & -> & _)]). Qed.

(** ** The calls, one by one *)

Section rules.
Context {U : Units} {St : Type} (serve : forall c : call, St -> answer c * St).
Context (key : NamespacedName) (client : DockerClient) (report : string) (raw : MachineInfo).
Context {C : MachineHost St serve key client report raw}.

Abbreviation ends := (ends serve).
Abbreviation shows := (shows named).
Abbreviation called := (called named).
Abbreviation world := (world (serve := serve) (Ob := Machine)).

Lemma ends_served {A} (c : call) (k : answer c -> io A) s Q :
  (forall x s', obeys key client named report raw c (look s) x (look s') -> ends (k x) s' Q) ->
  ends (Call c k) s Q.
Proof. intros H. apply H, serve_obeys. Qed.

(** Calls that leave the view alone. *)
Lemma ends_get_machine v s m (Q : error + Machine -> St -> Prop) :
  world v s -> view_object v = Some m -> (forall s', world v s' -> Q (inr m) s') -> ends (get KMachine key) s Q.
Proof.
  intros Hw Hm H. apply ends_served. intros x s' [Hd Hx]; [done|]. rewrite (proj1 Hw), Hm in Hx. subst x.
  apply H. by eapply world_drift.
Qed.

Lemma ends_machine_client v s m (Q : error + DockerClient -> St -> Prop) :
  world v s -> view_object v = Some m -> MachineSpec_DockerTLS (Machine_Spec m) = false ->
  (forall s', world v s' -> Q (inr client) s') -> ends (MakeClient m) s Q.
Proof.
  intros Hw Hm Htls H. unfold MakeClient, Machine.DockerClient. rewrite Htls. apply ends_served.
  intros x s1 [Hd Hx]. rewrite (Hx m) by (by rewrite ?(proj1 Hw)). apply H. by eapply world_drift.
Qed.

(** With a client: it is closed after whatever is done with it. *)
Lemma ends_with_client v s m (f : DockerClient -> io (Result * option error)) (Q : Result * option error -> St -> Prop) :
  world v s -> view_object v = Some m -> MachineSpec_DockerTLS (Machine_Spec m) = false ->
  (forall s', world v s' -> ends (f client) s' (fun res s'' => exists v', world v' s'' /\
     forall s3, world v' s3 -> Q res s3)) ->
  ends (let? dockerClient := MakeClient m orelse err => mret (noRequeue, Some err) in
        deferring (ask (DockerClose dockerClient)) (f dockerClient)) s Q.
Proof.
  intros Hw Hm Htls H. apply ends_bind. eapply ends_machine_client; [exact Hw|exact Hm|exact Htls|]. intros s1 Hw1.
  apply ends_deferring. eapply ends_mono; [by apply H|]. intros res s2 (v' & Hw2 & HQ).
  eapply ends_close; [exact Hw2|]. exact HQ.
Qed.

(** Calls on a container. *)
Lemma ends_make v s cfg host name (Q : error + list string -> St -> Prop) :
  world v s -> view_boxes v !! name = None ->
  (forall warnings s', world (put name (mkBox Created cfg host) v) s' -> Q (inr warnings) s') ->
  ends (ask (ContainerCreate client cfg host name)) s Q.
Proof.
  intros Hw Hn H. apply ends_served. intros x s' Hx. pose proof Hw as (_ & _ & Hb).
  destruct Hx as (w & -> & Hd); [done|by eapply aged_None, Hn|].
  apply H. red. etrans; [|exact Hd]. by apply drift_put.
Qed.

Lemma ends_launch v s name b (Q : option error -> St -> Prop) :
  world v s -> view_boxes v !! name = Some b ->
  (forall s', world (put name (b <| box_life := Running |>) v) s' -> Q None s') ->
  ends (ask (ContainerStart client name)) s Q.
Proof.
  intros Hw Hn H. apply ends_served. intros x s' Hx. pose proof Hw as (_ & _ & Hb).
  destruct (aged_Some _ _ _ _ (Hb name) Hn) as (b' & Hb' & Hc & Hh & _).
  destruct (Hx b') as [-> Hd]; [done..|]. apply H. red. etrans; [|exact Hd].
  destruct b, b'. simpl in *. subst. by apply drift_put.
Qed.

(** Waiting for the measuring script, which succeeds unless it has failed already. *)
Lemma ends_await v s ref b ended (Q : error + Z -> St -> Prop) :
  world v s -> called ref container.MachineStat -> view_boxes v !! container.MachineStat = Some b ->
  box_life b = Exited ended \/ (box_life b = Running /\ ended = 0) ->
  (forall s', world (put container.MachineStat (b <| box_life := Exited ended |>) v) s' -> Q (inr ended) s') ->
  ends (ask (ContainerWait client ref)) s Q.
Proof.
  intros Hw Hc Hn Hl H. apply ends_served. intros x s' Hx. pose proof Hw as (_ & _ & Hb).
  destruct (aged_Some _ _ _ _ (Hb _) Hn) as (b' & Hb' & Ec & Eh & Hage).
  assert (Hl' : box_life b' = Exited ended \/ (box_life b' = Running /\ ended = 0)).
  { destruct Hl as [Hl|[Hl ->]], Hage as [Hage|(Hr & _ & code & -> & H0)]; rewrite ?Hl in *; auto; [done|].
    left. by rewrite H0. }
  destruct (Hx container.MachineStat b') as (code & -> & Hd & H0 & He); [done..|by destruct Hl' as [->|[-> _]]|].
  assert (code = ended) as -> by (destruct Hl' as [Hl'|[Hl' ->]]; auto).
  apply H. red. etrans; [|exact Hd]. destruct b, b'. simpl in *. subst. by apply drift_put.
Qed.

Lemma ends_discard v s ref name b (Q : option error -> St -> Prop) :
  world v s -> called ref name -> view_boxes v !! name = Some b ->
  (forall s', world (drop_box name v) s' -> Q None s') ->
  ends (ask (ContainerRemove client ref true)) s Q.
Proof.
  intros Hw Hc Hn H. apply ends_served. intros x s' Hx. pose proof Hw as (_ & _ & Hb).
  destruct (aged_Some _ _ _ _ (Hb name) Hn) as (b' & Hb' & _).
  destruct (Hx name b') as [-> Hd]; [done|done|done|by left|].
  apply H. red. etrans; [|exact Hd]. by apply drift_drop.
Qed.

(** Writes. *)
Lemma ends_machine_status v s m f (Q : option error -> St -> Prop) :
  world v s -> view_object v = Some m ->
  (forall o' s', world (put_object (Some o') v) s' ->
     same_but_version (Machine_ObjectMeta m) (Machine_ObjectMeta o') -> Machine_Spec o' = Machine_Spec m ->
     Machine_Status o' = f (Machine_Status m) -> Q None s') ->
  ends (status_update KMachine (MachineCtl.with_status f m)) s Q.
Proof.
  intros Hw Hm H. apply ends_served. intros x s' Hx.
  destruct (Hx m) as (o' & -> & Hd & Hmeta & Hs & Hst); [by rewrite (proj1 Hw)|done|].
  apply (H o'); [|done..]. red. etrans; [|exact Hd]. by apply drift_set_object.
Qed.

Lemma ends_finalizers v s m l (Q : option error -> St -> Prop) :
  world v s -> view_object v = Some m ->
  (forall o' s', world (put_object (if bool_decide (l = []) && negb (DeletionTimestamp_IsZero (Machine_ObjectMeta m))
                                     then None else Some o') v) s' ->
     same_but_version ((Machine_ObjectMeta m) <| ObjectMeta_Finalizers := l |>) (Machine_ObjectMeta o') ->
     Machine_Spec o' = Machine_Spec m -> Machine_Status o' = Machine_Status m -> Q None s') ->
  ends (update KMachine (m <| Machine_ObjectMeta ::= fun meta => meta <| ObjectMeta_Finalizers := l |> |>)) s Q.
Proof.
  intros Hw Hm H. apply ends_served. intros x s' Hx.
  destruct (Hx m l) as (o' & -> & Hd & Hmeta & Hs & Hst); [by rewrite (proj1 Hw)|done|done|].
  apply (H o'); [|done..]. red. etrans; [|exact Hd]. by apply drift_set_object.
Qed.

(** ** Run *)

Definition begun (b : box) : box := match box_life b with Created => b <| box_life := Running |> | _ => b end.

Lemma aged_begun name b b' : ends_alone name b b' -> box_life b' <> Created -> ends_alone name (begun b) b'.
Proof. intros H Hl. unfold begun. destruct (box_life b) eqn:E; [|done..]. destruct H as (_ & _ & [?|[? _]]); congruence. Qed.
Lemma begun_started b : box_life (begun b) <> Created.
Proof. unfold begun. destruct b as [[] ? ?]; simpl; congruence. Qed.

Lemma ends_Run_loop_started f v s name options b (Q : error + ContainerJSON -> St -> Prop) :
  world v s -> view_boxes v !! name = Some b -> box_life b <> Created ->
  (forall b' stat s', ends_alone name b b' -> shows name b' stat -> world (put name b' v) s' -> Q (inr stat) s') ->
  ends (Run_loop (S f) client name options) s Q.
Proof.
  intros Hw Hb Hl H. cbn [Run_loop]. apply ends_bind. eapply ends_inspect; [exact Hw|congruence|].
  intros b0 b' stat s1 Hb0 Hage Hshow Hw1. rewrite Hb in Hb0. injection Hb0 as <-.
  destruct Hshow as (Hz & Hrest). rewrite Hz, bool_decide_false by by eapply begun_stays.
  apply ends_ret. eapply H; [exact Hage| |exact Hw1]. split; [|done].
  by rewrite Hz, bool_decide_false by by eapply begun_stays.
Qed.

Lemma ends_Run_loop_present f v s name options b (Q : error + ContainerJSON -> St -> Prop) :
  world v s -> view_boxes v !! name = Some b ->
  (forall b' stat s', ends_alone name (begun b) b' -> shows name b' stat -> world (put name b' v) s' -> Q (inr stat) s') ->
  ends (Run_loop (S (S f)) client name options) s Q.
Proof.
  intros Hw Hb H. remember (S f) as n. cbn [Run_loop]. apply ends_bind. eapply ends_inspect; [exact Hw|congruence|].
  intros b0 b' stat s1 Hb0 Hage Hshow Hw1. rewrite Hb in Hb0. injection Hb0 as <-.
  rewrite (proj1 Hshow). case_bool_decide as Hl.
  - apply ends_bind. eapply ends_launch; [exact Hw1|apply lookup_put|]. intros s2 Hw2. rewrite put_put in Hw2.
    subst n. eapply ends_Run_loop_started; [exact Hw2|apply lookup_put|done|].
    intros b2 stat2 s3 Hage2 Hshow2 Hw3. rewrite put_put in Hw3. eapply H; [|exact Hshow2|exact Hw3].
    destruct Hage as (Ec & Eh & Hlife). assert (Hc : box_life b = Created) by (destruct Hlife as [?|(_ & _ & ? & ? & _)]; congruence).
    unfold begun. rewrite Hc. destruct b, b'. simpl in *. subst. done.
  - apply ends_ret. eapply H; [by apply aged_begun|exact Hshow|exact Hw1].
Qed.

(** The container runs or has run: the one that was there, or one made from the options. *)
Lemma ends_Run f v s name image options (Q : error + ContainerJSON -> St -> Prop) :
  world v s ->
  (forall b' stat s',
     ends_alone name (begun (default (mkBox Created (RunOptions_Config options) (RunOptions_HostConfig options))
                               (view_boxes v !! name))) b' ->
     shows name b' stat -> world (put name b' v) s' -> Q (inr stat) s') ->
  ends (Run (3 + f) client name image options) s Q.
Proof.
  intros Hw H. unfold Run. apply ends_bind. eapply ends_pull; [exact Hw|]. intros s1 Hw1.
  change (3 + f)%nat with (S (S (S f))).
  destruct (view_boxes v !! name) as [b|] eqn:Hb; [by eapply ends_Run_loop_present|].
  remember (S (S f)) as n. cbn [Run_loop]. apply ends_bind. eapply ends_inspect; [exact Hw1| |congruence].
  intros e s2 _ He Hw2. rewrite He. cbn [negb]. apply ends_bind.
  eapply ends_make; [exact Hw2|done|]. intros warnings s3 Hw3. subst n.
  eapply ends_Run_loop_present; [exact Hw3|apply lookup_put|]. intros b' stat s4 Hage Hshow Hw4.
  rewrite put_put in Hw4. by eapply H.
Qed.

End rules.

(** ** Measuring, the lock and the upload daemon *)

Section functions.
Context {U : Units} {St : Type} (serve : forall c : call, St -> answer c * St).
Context (key : NamespacedName) (client : DockerClient) (report : string) (raw : MachineInfo).
Context {C : MachineHost St serve key client report raw} (f : nat).
Abbreviation fuel := (3 + f)%nat.

Abbreviation ends := (ends serve).
Abbreviation world := (world (serve := serve) (Ob := Machine)).

(** The measuring container, when one is left of an earlier run, has not failed. *)
Definition unfailed (v : view) : Prop :=
  forall b ended, view_boxes v !! container.MachineStat = Some b -> box_life b = Exited ended -> ended = 0.

Lemma measured_ends b b' : (forall ended, box_life b = Exited ended -> ended = 0) ->
  ends_alone container.MachineStat (begun b) b' -> box_life b' = Exited 0 \/ (box_life b' = Running /\ 0 = 0).
Proof.
  intros H (_ & _ & [Hl|(_ & _ & code & -> & H0)]); [|left; by rewrite H0].
  rewrite Hl. unfold begun. destruct (box_life b) as [| |code] eqn:E; [by right|by right; rewrite E|].
  left. by rewrite E, (H code).
Qed.

Lemma ends_fetch v s m (Q : error + MachineInfo -> St -> Prop) :
  world v s -> unfailed v ->
  (forall r s', MachineCtl.makeMachineInfo (Some raw) = Ret r -> world (drop_box container.MachineStat v) s' -> Q r s') ->
  ends (MachineCtl.fetchMachineInfo fuel m client) s Q.
Proof.
  intros Hw Hun H. unfold MachineCtl.fetchMachineInfo, container.MachineStatCfg. apply ends_bind, ends_bind.
  apply (ends_served serve key client report raw). intros x s1 [Hd (text & ->)]. apply ends_ret.
  assert (Hw1 : world v s1) by by eapply world_drift. apply ends_bind. unfold JustExec. apply ends_bind.
  eapply ends_Run; [exact Hw1|]. intros b stat s2 Hage Hshow Hw2. apply ends_bind.
  destruct Hshow as (_ & _ & _ & Hid & _).
  eapply (ends_await serve key client report raw _ _ _ b 0); [exact Hw2|exact Hid|apply lookup_put| |].
  { eapply measured_ends; [|exact Hage]. intros ended.
    destruct (view_boxes v !! container.MachineStat) as [b0|] eqn:Hb0; [by apply Hun|done]. }
  intros s3 Hw3. rewrite put_put in Hw3. cbn [Z.eqb negb]. apply ends_bind. unfold Logs.
  apply (ends_served serve key client report raw). intros x s4 [Hd4 ->]; [done|].
  apply ends_bind, (ends_served serve key client report raw). intros [[out serr] err] s5 (Hd5 & Hout & Herr); [done|].
  simpl in Hout, Herr. subst out err. apply ends_ret.
  apply ends_bind, (ends_served serve key client report raw). intros x s6 [Hd6 ->]; [done|]. apply ends_ret, ends_ret.
  cbv beta iota. apply ends_bind.
  eapply ends_discard; [|exact Hid|apply lookup_put|]; [repeat (eapply world_drift; [|eassumption]); done|].
  intros s7 Hw7. rewrite drop_put in Hw7. apply ends_ret.
  apply ends_bind, (ends_served serve key client report raw). intros [e info] s8 [Hd8 Hraw]. simpl in Hraw.
  rewrite Hraw by done. apply ends_ret. eapply ends_lift; [reflexivity|]. eapply H; [done|]. by eapply world_drift.
Qed.

(** The locker is there, was started, and carries the label of the machine. *)
Definition label_of (b : box) : option string := go_lookup (Config_Labels (box_config b)) container.LockerLabel.
Definition locked (v : view) (m : Machine) : Prop :=
  exists b, view_boxes v !! container.ChaosDaemon = Some b /\ box_life b <> Created /\
    label_of b = Some (MachineCtl.machine_uid m).
(** A locker that is there is this machine's. *)
Definition lockable (v : view) (m : Machine) : Prop :=
  forall b, view_boxes v !! container.ChaosDaemon = Some b -> label_of b = Some (MachineCtl.machine_uid m).

Lemma begun_config b : box_config (begun b) = box_config b /\ box_host (begun b) = box_host b.
Proof. unfold begun. by destruct (box_life b). Qed.

Lemma ends_tryLock v s m (Q : error + Z -> St -> Prop) :
  world v s -> lockable v m ->
  (forall b port s', world (put container.ChaosDaemon b v) s' -> locked (put container.ChaosDaemon b v) m ->
     Q (inr port) s') ->
  ends (MachineCtl.tryLock fuel m client) s Q.
Proof.
  intros Hw Hl H. unfold MachineCtl.tryLock. cbv zeta beta iota. apply ends_bind.
  eapply ends_Run; [exact Hw|]. intros b stat s1 Hage Hshow Hw1. destruct Hshow as (_ & Hcfg & _).
  set (base := default _ _) in Hage. assert (Hlabel : label_of b = Some (MachineCtl.machine_uid m)).
  { unfold label_of. destruct Hage as (-> & _). rewrite (proj1 (begun_config base)). unfold base.
    destruct (view_boxes v !! container.ChaosDaemon) as [b0|] eqn:Hb0; [by apply Hl|]. apply lookup_singleton_eq. }
  rewrite Hcfg. apply ends_bind. eapply ends_lift; [reflexivity|].
  unfold label_of in Hlabel. rewrite Hlabel, String.eqb_refl. apply ends_ret. eapply H; [exact Hw1|].
  exists b. split; [apply lookup_put|]. split; [|done]. eapply begun_stays; [exact Hage|apply begun_started].
Qed.

(** An upload daemon that is there is one of these, and runs, or will. *)
Definition uploader (b : box) : Prop :=
  box_host b = snd (container.UploadDaemonCfg "") /\ (box_life b = Created \/ box_life b = Running).
Definition servable (v : view) : Prop :=
  forall b, view_boxes v !! container.UploadDaemon = Some b -> uploader b.

Lemma uploader_runs b b' : uploader b -> ends_alone container.UploadDaemon (begun b) b' ->
  box_life b' = Running /\ box_host b' = snd (container.UploadDaemonCfg "").
Proof.
  intros [Hh Hl] (_ & Eh & Hage). destruct (begun_config b) as [_ Eh']. rewrite Eh', Hh in *. split; [|done].
  destruct Hage as [->|(_ & Hp & _)]; [|by destruct Hp]. unfold begun. destruct Hl as [E|E]; rewrite E; [done|exact E].
Qed.

Lemma ends_createUploadDaemon v s m (Q : error + Z -> St -> Prop) :
  world v s -> servable v ->
  (forall b s', uploader b -> world (put container.UploadDaemon b v) s' ->
     Q (inr container.UploadDaemonExternalPort) s') ->
  ends (MachineCtl.createUploadDaemon fuel m client) s Q.
Proof.
  intros Hw Hl H. unfold MachineCtl.createUploadDaemon. cbv zeta beta iota. apply ends_bind.
  eapply ends_Run; [exact Hw|]. intros b stat s1 Hage (_ & Hcfg & Hhost & _ & _ & Hports) Hw1.
  set (base := default _ _) in Hage. assert (Hbase : uploader base).
  { unfold base. destruct (view_boxes v !! container.UploadDaemon) as [b0|] eqn:Hb0; [by apply Hl|].
    split; [done|by left]. }
  destruct (uploader_runs _ _ Hbase Hage) as [Hrun Hh]. specialize (Hports Hrun). rewrite Hh in Hports.
  destruct (Hports (strconv.Itoa container.UploadDaemonInternalPort +:+ "/tcp")
              (mkPortBinding "0.0.0.0" (strconv.Itoa container.UploadDaemonExternalPort)) [])
    as (p & l & Hp & Hport); [by vm_compute|by vm_compute|].
  unfold MachineCtl.first_port. rewrite Hp, Hport. apply ends_ret. apply (H b); [|exact Hw1].
  split; [done|by right].
Qed.

End functions.

(** ** Taking a machine in *)

Section convergence.
Context {U : Units} {St : Type} (serve : forall c : call, St -> answer c * St).
Context (key : NamespacedName) (client : DockerClient) (report : string) (raw : MachineInfo).
Context {C : MachineHost St serve key client report raw} (f : nat).
Abbreviation fuel := (3 + f)%nat.

Abbreviation ends := (ends serve).
Abbreviation world := (world (serve := serve) (Ob := Machine)).
Abbreviation way := (way (look (serve := serve)) drift).
Abbreviation rounds := (rounds serve (MachineCtl.Reconcile fuel key) (look (serve := serve)) view_object).

Definition entry (v : view) (m : Machine) : option ResourceRefList :=
  go_lookup (MachineToResources (Relationship_Status (view_relation v))) (MachineCtl.machine_key m).

(** A machine, whatever its state, whose daemon can be reached, which is not another's, and which
    is not on its way out. *)
Record joining (v : view) (m : Machine) := {
  joining_machine : view_object v = Some m;
  joining_plain : MachineSpec_DockerTLS (Machine_Spec m) = false;
  joining_live : DeletionTimestamp_IsZero (Machine_ObjectMeta m) = true;
  joining_state : MachineStatus_State (Machine_Status m) <> MachineShutdown;
  joining_relation : is_Some (MachineToResources (Relationship_Status (view_relation v)));
  joining_locker : lockable v m;
  joining_uploader : servable v;
  joining_measure : unfailed v;
  joining_ready : MachineStatus_State (Machine_Status m) = MachineReady ->
    is_Some (MachineStatus_Info (Machine_Status m)) /\ locked v m;
}.

(** It is locked and measured, its upload daemon has a port, and the scheduler may bind to it. *)
Record joined (v : view) (m : Machine) : Prop := {
  joined_machine : view_object v = Some m;
  joined_state : MachineStatus_State (Machine_Status m) = MachineReady;
  joined_info : is_Some (MachineStatus_Info (Machine_Status m));
  joined_locked : locked v m;
  joined_upload : MachineStatus_UploadPort (Machine_Status m) <> 0;
  joined_entry : is_Some (entry v m);
}.

Definition finalized (m : Machine) : bool :=
  Slice.StringsContains (ObjectMeta_Finalizers (Machine_ObjectMeta m)) MachineCtl.machineFinalizer.

Definition state_rank (s : MachineState) : nat :=
  match s with MachineReady => 0 | MachineStarting => 1 | _ => 2 end.
Definition status_rank (s : MachineStatus) : nat :=
  state_rank (MachineStatus_State s) + (if (MachineStatus_UploadPort s =? 0)%Z then 1 else 0).
Definition rank (v : view) (m : Machine) : nat :=
  (if finalized m then 0 else 1) + status_rank (Machine_Status m).

Abbreviation way_in := (way joined joining rank).

(** ** What stays as it is *)

Lemma locked_drift v v' m : drift v v' -> locked v m -> locked v' m.
Proof.
  intros (_ & _ & H) (b & Hb & Hl & Hlab). destruct (aged_Some _ _ _ _ (H _) Hb) as (b' & Hb' & Hage).
  exists b'. split; [done|]. split; [by eapply begun_stays|]. unfold label_of. by rewrite (proj1 Hage).
Qed.

Lemma locked_lockable v m : locked v m -> lockable v m.
Proof. intros (b & Hb & _ & Hl) b' Hb'. rewrite Hb in Hb'. by injection Hb' as <-. Qed.

Definition same_id (m m' : Machine) : Prop :=
  MachineCtl.machine_uid m' = MachineCtl.machine_uid m /\ MachineCtl.machine_key m' = MachineCtl.machine_key m /\
  DeletionTimestamp_IsZero (Machine_ObjectMeta m') = DeletionTimestamp_IsZero (Machine_ObjectMeta m).

Lemma same_id_finalizers m m' l :
  same_but_version ((Machine_ObjectMeta m) <| ObjectMeta_Finalizers := l |>) (Machine_ObjectMeta m') -> same_id m m'.
Proof. intros [version E]. unfold same_id, MachineCtl.machine_uid, MachineCtl.machine_key. by rewrite E. Qed.

Lemma same_id_version m m' :
  same_but_version (Machine_ObjectMeta m) (Machine_ObjectMeta m') -> same_id m m' /\ finalized m' = finalized m.
Proof. intros [version E]. unfold same_id, finalized, MachineCtl.machine_uid, MachineCtl.machine_key. by rewrite E. Qed.

Lemma locked_id v v' m m' : same_id m m' -> view_boxes v' = view_boxes v -> locked v m -> locked v' m'.
Proof. intros (E & _) Eb (b & Hb & Hl & Hlab). exists b. by rewrite Eb, E. Qed.

(** The stored machine is another version of itself, in a state it may have. *)
Lemma joining_put v m o : joining v m -> same_id m o ->
  Machine_Spec o = Machine_Spec m -> MachineStatus_State (Machine_Status o) <> MachineShutdown ->
  (MachineStatus_State (Machine_Status o) = MachineReady ->
   is_Some (MachineStatus_Info (Machine_Status o)) /\ locked v o) ->
  joining (put_object (Some o) v) o.
Proof.
  intros [H1 H2 H3 H4 H5 H6 H7 H8 H9] (E1 & E2 & E3) Hs Hst Hr.
  split; [done|by rewrite Hs|by rewrite E3|done|done| |done|done|exact Hr].
  intros b Hb. rewrite E1. by apply H6.
Qed.

Lemma joining_box v m name b : joining v m -> name <> container.MachineStat ->
  (name = container.ChaosDaemon -> box_life b <> Created /\ label_of b = Some (MachineCtl.machine_uid m)) ->
  (name = container.UploadDaemon -> uploader b) -> joining (put name b v) m.
Proof.
  intros [H1 H2 H3 H4 H5 H6 H7 H8 H9] Hn Hc Hu. split; [done..| | | |].
  - intros b'. destruct (decide (name = container.ChaosDaemon)) as [->|E];
      [rewrite lookup_put; intros [= <-]; by apply Hc|rewrite lookup_put_ne by done; apply H6].
  - intros b'. destruct (decide (name = container.UploadDaemon)) as [->|E];
      [rewrite lookup_put; intros [= <-]; by apply Hu|rewrite lookup_put_ne by done; apply H7].
  - intros b' ended. rewrite lookup_put_ne by done. apply H8.
  - intros Hst. destruct (H9 Hst) as [Hi (b' & Hb' & Hl')]. split; [done|].
    destruct (decide (name = container.ChaosDaemon)) as [->|E].
    + exists b. split; [apply lookup_put|]. by apply Hc.
    + exists b'. rewrite lookup_put_ne by done. done.
Qed.

Lemma joining_unmeasured v m : joining v m -> joining (drop_box container.MachineStat v) m.
Proof.
  intros [H1 H2 H3 H4 H5 H6 H7 H8 H9]. split; [done..| | | |].
  - intros b Hb. apply H6. by apply lookup_drop in Hb as [_ Hb].
  - intros b Hb. apply H7. by apply lookup_drop in Hb as [_ Hb].
  - intros b ended Hb. by apply lookup_drop in Hb as [? _].
  - intros Hst. destruct (H9 Hst) as [Hi (b' & Hb' & Hl')]. split; [done|]. exists b'. split; [|done].
    by apply lookup_drop.
Qed.

(** ** The runs *)

(** A status is stored with which the machine is nearer. *)
Lemma status_step v m v0 s (g : MachineStatus -> MachineStatus) res :
  joining v m -> world v s -> res = noRequeue \/ Requeue res = true ->
  MachineStatus_State (g (Machine_Status m)) <> MachineShutdown ->
  (MachineStatus_State (g (Machine_Status m)) = MachineReady ->
   is_Some (MachineStatus_Info (g (Machine_Status m))) /\ locked v m) ->
  (status_rank (g (Machine_Status m)) < status_rank (Machine_Status m))%nat ->
  ends (status_update KMachine (MachineCtl.with_status g m)) s (fun err s' =>
    err = None /\ exists v', world v' s' /\ forall s3, world v' s3 -> way_in v0 m (res, None) s3).
Proof.
  intros Hj Hw Hres Hst Hrd Hlt. eapply ends_machine_status; [exact Hw|apply Hj|].
  intros o s1 Hw1 Hmeta Hspec Hstat. split; [done|]. destruct (same_id_version _ _ Hmeta) as [Hid Hfin].
  exists (put_object (Some o) v). split; [done|]. intros s3 Hs3. exists (put_object (Some o) v), o.
  split; [done|]. split; [done|]. right. split; [|split].
  - apply (joining_put v m o Hj Hid Hspec); rewrite Hstat; [done|]. intros Hready. destruct (Hrd Hready) as [? Hl].
    split; [done|]. by eapply locked_id.
  - unfold rank. rewrite Hfin, Hstat. lia.
  - right. intros ->. rewrite <-Hstat in Hlt. lia.
Qed.

Context (measurable : exists info, MachineCtl.makeMachineInfo (Some raw) = Ret (inr info)).

Lemma begin_way v m s : joining v m -> state_rank (MachineStatus_State (Machine_Status m)) = 2%nat -> world v s ->
  ends (err ← status_update KMachine
          (MachineCtl.with_status (fun s => s <| MachineStatus_State := MachineStarting |>) m);
        mret (noRequeue, err)) s (way_in v m).
Proof.
  intros Hj Hst Hw. apply ends_bind.
  eapply ends_mono; [eapply (status_step v m v); [done|done|by left|done|done|]|].
  - unfold status_rank. rewrite Hst. simpl. destruct (_ =? 0); lia.
  - intros err s4 (-> & v' & Hw4 & HQ). apply ends_ret. by apply HQ.
Qed.

Lemma starting_way v m s :
  joining v m -> MachineStatus_State (Machine_Status m) = MachineStarting -> world v s ->
  ends (MachineCtl.reconcileStarting fuel m) s (way_in v m).
Proof.
  intros Hj Hst Hw. unfold MachineCtl.reconcileStarting.
  eapply ends_with_client; [exact Hw|apply Hj|apply Hj|]. intros s1 Hw1.
  unfold MachineCtl.starting_with. apply ends_bind. eapply ends_tryLock; [exact Hw1|apply Hj|].
  intros b port s2 Hw2 Hl. apply ends_bind.
  assert (Hj1 : joining (put container.ChaosDaemon b v) m).
  { apply joining_box; [done|done| |done]. intros _. destruct Hl as (b' & Hb' & Hl). rewrite lookup_put in Hb'.
    by injection Hb' as <-. }
  eapply ends_fetch; [exact Hw2|apply Hj1|]. intros r s3 Hr Hw3. pose proof (joining_unmeasured _ _ Hj1) as Hj2.
  destruct measurable as [info Hinfo]. assert (r = inr info) as -> by congruence. apply ends_bind.
  eapply ends_mono; [eapply (status_step _ m v); [exact Hj2|exact Hw3|by left|done| |]|].
  - intros _. split; [by eexists|]. destruct Hl as (b' & Hb' & Hl). exists b'. split; [|done]. by apply lookup_drop.
  - unfold status_rank. rewrite Hst. simpl. destruct (_ =? 0); lia.
  - intros err s4 (-> & v' & Hw4 & HQ). apply ends_ret. by exists v'.
Qed.

Lemma upload_way v m s :
  joining v m -> MachineStatus_State (Machine_Status m) = MachineReady ->
  MachineStatus_UploadPort (Machine_Status m) = 0 -> world v s ->
  ends (MachineCtl.reconcileRunning fuel m) s (way_in v m).
Proof.
  intros Hj Hst Hp Hw. unfold MachineCtl.reconcileRunning. rewrite Hp. cbn [Z.eqb].
  eapply ends_with_client; [exact Hw|apply Hj|apply Hj|]. intros s1 Hw1.
  unfold MachineCtl.upload_with. apply ends_bind. eapply ends_createUploadDaemon; [exact Hw1|apply Hj|].
  intros b s2 Hb Hw2. assert (Hj1 : joining (put container.UploadDaemon b v) m) by by apply joining_box.
  apply ends_bind.
  eapply ends_mono; [eapply (status_step _ m v _ _ (mkResult true 0)); [exact Hj1|exact Hw2|by right| | |]|].
  - simpl. by rewrite Hst.
  - intros _. by apply Hj1.
  - unfold status_rank. rewrite Hp. simpl. lia.
  - intros err s4 (-> & v' & Hw4 & HQ). apply ends_ret. by exists v'.
Qed.

Lemma entry_way v m s :
  joining v m -> MachineStatus_State (Machine_Status m) = MachineReady ->
  MachineStatus_UploadPort (Machine_Status m) <> 0 -> world v s ->
  ends (MachineCtl.reconcileRunning fuel m) s (way_in v m).
Proof.
  intros Hj Hst Hp%Z.eqb_neq Hw. destruct (joining_ready _ _ Hj Hst) as [Hi Hl].
  unfold MachineCtl.reconcileRunning. rewrite Hp. apply Z.eqb_neq in Hp. apply ends_bind.
  eapply ends_getRelationship; [exact Hw|]. intros s1 Hw1. cbv zeta. fold (entry v m).
  destruct (entry v m) as [l|] eqn:He.
  - apply ends_ret. exists v, m. split; [done|]. split; [done|]. left. split; [apply Hj|done..|by rewrite He].
  - destruct (joining_relation _ _ Hj) as [mtr Hmtr]. rewrite Hmtr. apply ends_bind. eapply ends_lift; [reflexivity|].
    apply ends_bind. eapply ends_relation; [exact Hw1|done|]. intros o s2 Hw2 Ho. apply ends_ret.
    exists (put_relation o v), m. split; [done|]. split; [done|]. left. split; [apply Hj|done..|].
    unfold entry. simpl. rewrite Ho. simpl. unfold go_lookup. simpl. rewrite lookup_insert_eq. by eexists.
Qed.

Lemma joining_reconcile v m s : joining v m -> world v s -> ends (MachineCtl.Reconcile fuel key) s (way_in v m).
Proof.
  intros Hj Hw. unfold MachineCtl.Reconcile. apply ends_bind. eapply ends_getRelationship; [exact Hw|]. intros s1 Hw1.
  rewrite bool_decide_true by apply Hj. cbn [negb]. apply ends_bind.
  eapply ends_get_machine; [exact Hw1|apply Hj|]. intros s2 Hw2.
  unfold MachineCtl.reconcile_machine. cbv zeta. rewrite (joining_live _ _ Hj). fold (finalized m). cbn [negb andb].
  destruct (finalized m) eqn:Hfin; cbn [negb andb].
  - destruct (MachineStatus_State (Machine_Status m)) eqn:Hst.
    + eapply begin_way; [done|by rewrite Hst|done].
    + by destruct (joining_state _ _ Hj).
    + by apply starting_way.
    + destruct (decide (MachineStatus_UploadPort (Machine_Status m) = 0)); [by apply upload_way|by apply entry_way].
    + eapply begin_way; [done|by rewrite Hst|done].
  - apply ends_bind. eapply ends_finalizers; [exact Hw2|apply Hj|]. intros o s3 Hw3 Hmeta Hspec Hstat. apply ends_ret.
    rewrite (joining_live _ _ Hj), andb_false_r in Hw3. exists (put_object (Some o) v), o.
    split; [done|]. split; [done|]. right.
    assert (Ho : finalized o = true).
    { unfold finalized. destruct Hmeta as [version ->]. apply Slice.StringsContains_spec. simpl. set_solver. }
    split; [|split].
    + apply (joining_put v m o Hj (same_id_finalizers _ _ _ Hmeta) Hspec); rewrite Hstat; [apply Hj|].
      intros Hr. destruct (joining_ready _ _ Hj Hr). split; [done|].
      eapply locked_id; [by eapply same_id_finalizers|done|done].
    + unfold rank. rewrite Ho, Hfin, Hstat. lia.
    + right. intros ->. congruence.
Qed.

(** ** Letting a machine go *)

(** A deleted machine to which nothing is bound. *)
Record leaving (m0 : Machine) (v : view) (m : Machine) := {
  leaving_machine : view_object v = Some m;
  leaving_id : same_id m0 m;
  leaving_plain : MachineSpec_DockerTLS (Machine_Spec m) = false;
  leaving_deleted : DeletionTimestamp_IsZero (Machine_ObjectMeta m) = false;
  leaving_finalized : finalized m = true;
  leaving_relation : is_Some (MachineToResources (Relationship_Status (view_relation v)));
  leaving_empty : default [] (entry v m) = [];
}.

Definition unlocked (v : view) (m : Machine) : Prop :=
  forall b, view_boxes v !! container.ChaosDaemon = Some b -> label_of b <> Some (MachineCtl.machine_uid m).

(** Its finalizer, its lock, its upload daemon and its entry in the relationship are gone. *)
Record departed (m0 : Machine) (v : view) : Prop := {
  departed_machine o : view_object v = Some o -> finalized o = false;
  departed_unlocked : unlocked v m0;
  departed_upload : view_boxes v !! container.UploadDaemon = None;
  departed_entry : entry v m0 = None;
}.

Definition exit_rank (v : view) (m : Machine) : nat :=
  if bool_decide (MachineStatus_State (Machine_Status m) = MachineShutdown) then 0 else 1.

(** Two views that differ at most in one container. *)
Definition same_but (name : string) (v v' : view) : Prop :=
  view_object v' = view_object v /\ view_relation v' = view_relation v /\
  forall n, n <> name -> view_boxes v' !! n = view_boxes v !! n.

Lemma same_but_put name b v : same_but name v (put name b v).
Proof. split_and!; [done..|]. intros n Hn. by apply lookup_put_ne. Qed.
Lemma same_but_drop_put name b v : same_but name v (drop_box name (put name b v)).
Proof. rewrite drop_put. split_and!; [done..|]. intros n Hn. by apply lookup_delete_ne. Qed.

Lemma ends_Unlock v s m (Q : option error -> St -> Prop) :
  world v s ->
  (forall v' s', world v' s' -> same_but container.ChaosDaemon v v' -> unlocked v' m -> Q None s') ->
  ends (MachineCtl.Unlock m client) s Q.
Proof.
  intros Hw H. unfold MachineCtl.Unlock. apply ends_bind. eapply ends_inspect; [exact Hw| |].
  - intros e s1 Hn He Hw1. rewrite He. apply ends_ret. apply (H v); [done|done|]. intros b Hb. congruence.
  - intros b b' stat s1 Hb Hage (_ & Hcfg & _) Hw1. rewrite Hcfg. fold (label_of b').
    destruct (_ || _) eqn:Hkeep.
    + apply ends_ret. eapply H; [exact Hw1|apply same_but_put|]. intros b2 Hb2. rewrite lookup_put in Hb2.
      injection Hb2 as <-. intros E. rewrite E in Hkeep. simpl in Hkeep. rewrite String.eqb_refl in Hkeep.
      unfold label_of, go_lookup, go_map in E. destruct (Config_Labels (box_config b')); [done|].
      simpl in E. by rewrite lookup_empty in E.
    + eapply ends_discard; [exact Hw1|by left|apply lookup_put|]. intros s2 Hw2.
      eapply H; [exact Hw2|apply same_but_drop_put|]. intros b2 Hb2. by apply lookup_drop in Hb2 as [? _].
Qed.

Lemma ends_deleteUploadDaemon v s m (Q : option error -> St -> Prop) :
  world v s ->
  (forall v' s', world v' s' -> same_but container.UploadDaemon v v' ->
     view_boxes v' !! container.UploadDaemon = None -> Q None s') ->
  ends (MachineCtl.deleteUploadDaemon m client) s Q.
Proof.
  intros Hw H. unfold MachineCtl.deleteUploadDaemon. apply ends_bind. eapply ends_inspect; [exact Hw| |].
  - intros e s1 Hn He Hw1. rewrite He. apply ends_ret. by apply (H v).
  - intros b b' stat s1 Hb Hage (_ & Hcfg & Hhost & _) Hw1. rewrite Hcfg, Hhost.
    eapply ends_discard; [exact Hw1|by left|apply lookup_put|]. intros s2 Hw2.
    eapply H; [exact Hw2|apply same_but_drop_put|]. apply lookup_delete_eq.
Qed.

Lemma shutdown_way m0 v m s : leaving m0 v m -> world v s ->
  ends (MachineCtl.shutdown_with m (view_relation v) client) s (fun res s' => exists v', world v' s' /\
    forall s3, world v' s3 -> way (fun v _ => departed m0 v) (leaving m0) exit_rank v m res s3).
Proof.
  intros Hl Hw. destruct (leaving_id _ _ _ Hl) as (Huid & Hkey & _). unfold MachineCtl.shutdown_with. apply ends_bind.
  eapply ends_Unlock; [exact Hw|]. intros v1 s1 Hw1 (E1 & F1 & G1) Hun. apply ends_bind.
  eapply ends_deleteUploadDaemon; [exact Hw1|]. intros v2 s2 Hw2 (E2 & F2 & G2) Hup. apply ends_bind.
  eapply ends_relation; [exact Hw2|by rewrite F2, F1|]. intros o s3 Hw3 Ho. apply ends_bind.
  pose proof (leaving_finalized _ _ _ Hl) as Hfin. apply Slice.StringsContains_spec in Hfin. eapply ends_lift.
  { apply Slice.StringsRemove_Ret. intros E. by rewrite E in Hfin; apply not_elem_of_nil in Hfin. }
  apply ends_bind. eapply ends_finalizers; [exact Hw3|simpl; rewrite E2, E1; apply Hl|].
  intros o' s4 Hw4 [version Hmeta] _ _. apply ends_ret. set (v3 := put_object _ _) in Hw4.
  exists v3. split; [exact Hw4|]. intros s5 Hw5. exists v3, m.
  split; [exact Hw5|]. split; [done|]. left. split.
  - intros o2 Ho2. simpl in Ho2. case_match; [done|]. injection Ho2 as <-.
    apply not_true_iff_false. unfold finalized. rewrite Slice.StringsContains_spec, Hmeta. simpl.
    intros [_ Hne]%elem_of_filterb. by vm_compute in Hne.
  - intros b Hb. simpl in Hb. rewrite G2 in Hb by done. rewrite <-Huid. by apply Hun.
  - exact Hup.
  - unfold entry. simpl. rewrite Ho, <-Hkey. simpl. unfold go_delete, go_lookup, go_map.
    destruct (MachineToResources _); simpl; [apply lookup_delete_eq|apply lookup_empty].
Qed.

Lemma leaving_reconcile m0 v m s : leaving m0 v m -> world v s ->
  ends (MachineCtl.Reconcile fuel key) s (way (fun v _ => departed m0 v) (leaving m0) exit_rank v m).
Proof.
  intros Hl Hw. unfold MachineCtl.Reconcile. apply ends_bind. eapply ends_getRelationship; [exact Hw|]. intros s1 Hw1.
  rewrite bool_decide_true by apply Hl. cbn [negb]. apply ends_bind.
  eapply ends_get_machine; [exact Hw1|apply Hl|]. intros s2 Hw2.
  unfold MachineCtl.reconcile_machine. cbv zeta. rewrite (leaving_deleted _ _ _ Hl). fold (finalized m).
  rewrite (leaving_finalized _ _ _ Hl). cbn [negb andb]. case_bool_decide as Hst; cbn [negb andb].
  - rewrite Hst. unfold MachineCtl.reconcileShutdown. apply ends_bind.
    eapply ends_getRelationship; [exact Hw2|]. intros s3 Hw3. fold (entry v m). cbv zeta.
    rewrite (leaving_empty _ _ _ Hl). cbn [len length Z.of_nat Z.eqb negb].
    eapply ends_with_client; [exact Hw3|apply Hl|apply Hl|]. intros s4 Hw4. by apply shutdown_way.
  - apply ends_bind. eapply ends_machine_status; [exact Hw2|apply Hl|]. intros o s3 Hw3 Hmeta Hspec Hstat. apply ends_ret.
    destruct (same_id_version _ _ Hmeta) as [(E1 & E2 & E3) Hfin].
    exists (put_object (Some o) v), o. split; [done|]. split; [done|]. right. split; [|split].
    + destruct Hl as [L1 (M1 & M2 & M3) L3 L4 L5 L6 L7]. split; [done| |by rewrite Hspec|by rewrite E3|by rewrite Hfin|done|].
      * unfold same_id. split_and!; congruence.
      * unfold entry in *. by rewrite E2.
    + unfold exit_rank. rewrite Hstat. simpl. rewrite bool_decide_false by done. lia.
    + right. intros ->. by rewrite Hstat in Hst.
Qed.

(** ** Run after run *)

Lemma joined_drift v v' m : drift v v' -> joined v m -> joined v' m.
Proof.
  intros Hd [H1 H2 H3 H4 H5 H6]. pose proof Hd as (E & F & _).
  split; [by rewrite E|done|done|by eapply locked_drift|done|]. unfold entry in *. by rewrite F.
Qed.

Lemma departed_drift m0 v v' : drift v v' -> departed m0 v -> departed m0 v'.
Proof.
  intros (E & F & H) [H1 H2 H3 H4]. split.
  - by rewrite E.
  - intros b' Hb'. specialize (H container.ChaosDaemon). rewrite Hb' in H.
    destruct (view_boxes v !! container.ChaosDaemon) as [b|] eqn:Hb; [|done].
    unfold label_of. rewrite (proj1 H). by apply H2.
  - eapply aged_None, H3. apply H.
  - unfold entry in *. by rewrite F.
Qed.

Lemma way_in_bound v m : (rank v m <= 4)%nat.
Proof. unfold rank, status_rank, state_rank. destruct (finalized m), (MachineStatus_State _), (_ =? 0); lia. Qed.
Lemma exit_rank_bound v m : (exit_rank v m <= 1)%nat.
Proof. unfold exit_rank. case_bool_decide; lia. Qed.

(** C12. Liveness of a machine: against a store and a daemon that answer and behave as documented, a
    machine that is not another system's is locked, measured, given its upload daemon and entered
    in the relationship after at most five runs, whatever its state; and a deleted machine with
    nothing bound to it has lost its finalizer, its lock, its upload daemon and its entry after at
    most two. No run fails, and each calls for the next. *)
Theorem machine_converges s m :
  (joining (look s) m -> exists n, (n <= 5)%nat /\ rounds n s (fun s' => exists m', joined (look s') m')) /\
  (leaving m (look s) m -> exists n, (n <= 2)%nat /\ rounds n s (fun s' => departed m (look s'))).
Proof.
  assert (Hs : world (look s) s) by by red. split; intros H.
  - pose proof (way_in_bound (look s) m).
    destruct (rounds_way serve (MachineCtl.Reconcile fuel key) look view_object drift joined joining rank drift_object
      joining_reconcile joining_machine joined_drift (look s) m s) as (n & Hn & Hr); [done|done|].
    exists n. split; [lia|done].
  - pose proof (exit_rank_bound (look s) m).
    destruct (rounds_way serve (MachineCtl.Reconcile fuel key) look view_object drift (fun v _ => departed m v) (leaving m)
      exit_rank drift_object (leaving_reconcile m) (leaving_machine m) (fun v v' _ => departed_drift m v v') (look s) m s)
      as (n & Hn & Hr); [done|done|].
    exists n. split; [lia|]. eapply rounds_mono; [exact Hr|]. by intros s' [_ H'].
Qed.

(** ** A measurement that failed

    [JustExec] removes the container after a success only. One that has failed is found again by
    every later run, which waits for it, gets the same code, and fails: nothing measures the
    machine anew. *)

Record stuck (v : view) (m : Machine) : Prop := {
  stuck_machine : view_object v = Some m;
  stuck_plain : MachineSpec_DockerTLS (Machine_Spec m) = false;
  stuck_live : DeletionTimestamp_IsZero (Machine_ObjectMeta m) = true;
  stuck_finalized : finalized m = true;
  stuck_state : MachineStatus_State (Machine_Status m) = MachineStarting;
  stuck_relation : is_Some (MachineToResources (Relationship_Status (view_relation v)));
  stuck_locker : lockable v m;
  stuck_failed : exists b code, view_boxes v !! container.MachineStat = Some b /\ box_life b = Exited code /\ code <> 0;
}.

Lemma ends_fetch_failed v s m b code (Q : error + MachineInfo -> St -> Prop) :
  world v s -> view_boxes v !! container.MachineStat = Some b -> box_life b = Exited code -> code <> 0 ->
  (forall e s', world v s' -> Q (inl e) s') ->
  ends (MachineCtl.fetchMachineInfo fuel m client) s Q.
Proof.
  intros Hw Hb Hl Hc H. unfold MachineCtl.fetchMachineInfo, container.MachineStatCfg. apply ends_bind, ends_bind.
  apply (ends_served serve key client report raw). intros x s1 [Hd (text & ->)]. apply ends_ret.
  assert (Hw1 : world v s1) by by eapply world_drift. apply ends_bind. unfold JustExec. apply ends_bind.
  eapply ends_Run; [exact Hw1|]. intros b' stat s2 Hage Hshow Hw2. apply ends_bind.
  destruct Hshow as (_ & _ & _ & Hid & _). rewrite Hb in Hage. simpl in Hage. unfold begun in Hage. rewrite Hl in Hage.
  assert (Hsame : b' = b).
  { destruct Hage as (E1 & E2 & [E3|(E3 & _)]); [|congruence]. destruct b, b'. simpl in *. congruence. }
  subst b'. eapply (ends_await serve key client report raw _ _ _ b code); [exact Hw2|exact Hid|apply lookup_put|by left|].
  intros s3 Hw3. rewrite put_put in Hw3. rewrite (proj2 (Z.eqb_neq code 0) Hc). cbn [negb]. apply ends_ret, ends_ret, H.
  eapply world_drift; [|reflexivity]. destruct Hw3 as (E & F & G). split_and!; [done..|].
  intros n. specialize (G n). simpl in G. destruct (decide (container.MachineStat = n)) as [<-|Hn].
  - rewrite lookup_insert_eq in G. rewrite Hb. destruct b. simpl in *. by subst.
  - by rewrite lookup_insert_ne in G.
Qed.

Lemma stuck_reconcile v m s : stuck v m -> world v s ->
  ends (MachineCtl.Reconcile fuel key) s (fun res s' => res.2 <> None /\ exists v', stuck v' m /\ world v' s').
Proof.
  intros Hk Hw. unfold MachineCtl.Reconcile. apply ends_bind. eapply ends_getRelationship; [exact Hw|]. intros s1 Hw1.
  rewrite bool_decide_true by apply Hk. cbn [negb]. apply ends_bind.
  eapply ends_get_machine; [exact Hw1|apply Hk|]. intros s2 Hw2.
  unfold MachineCtl.reconcile_machine. cbv zeta. rewrite (stuck_live _ _ Hk). fold (finalized m).
  rewrite (stuck_finalized _ _ Hk), (stuck_state _ _ Hk). cbn [negb andb]. unfold MachineCtl.reconcileStarting.
  eapply ends_with_client; [exact Hw2|apply Hk|apply Hk|]. intros s3 Hw3.
  unfold MachineCtl.starting_with. apply ends_bind. eapply ends_tryLock; [exact Hw3|apply Hk|].
  intros b port s4 Hw4 Hl. apply ends_bind. destruct (stuck_failed _ _ Hk) as (b' & code & Hb' & Hlife & Hc).
  eapply (ends_fetch_failed _ _ _ b' code); [exact Hw4|by rewrite lookup_put_ne|done|done|].
  intros e s5 Hw5. apply ends_bind. eapply ends_record; [exact Hw5|]. intros s6 Hw6. apply ends_ret.
  eexists. split; [exact Hw6|]. intros s7 Hw7. split; [done|]. eexists. split; [|exact Hw7].
  destruct Hk as [K1 K2 K3 K4 K5 K6 K7 K8]. split; [done..|by apply locked_lockable|].
  exists b', code. by rewrite lookup_put_ne.
Qed.
End convergence.

(** ** An example *)

Module MachineConvergenceExample.

Definition key : NamespacedName := mkNamespacedName "" "m".
Definition machine : Machine :=
  zeroMachine <| Machine_ObjectMeta := zeroMeta <| ObjectMeta_Name := "m" |> <| ObjectMeta_UID := "u1" |> |>
              <| Machine_Spec ::= fun s => s <| MachineSpec_Host := "h" |> <| MachineSpec_DockerPort := 2375 |> |>.
Definition client : DockerClient := mkDockerClient (Machine.DockerURL machine) "".
Definition raw : MachineInfo := mkMachineInfo "x86_64" 8 "1" ∅.

Definition stat (name : string) (b : box) : ContainerJSON :=
  let zero := "0001-01-01T00:00:00Z" in
  let day := "2020-01-01T00:00:00Z" in
  mkContainerJSON name name (mkContainerState (bool_decide (box_life b = Running)) false 0
      (if bool_decide (box_life b = Created) then zero else day) zero)
    (Some (box_config b)) (Some (box_host b)) ∅
    (if bool_decide (box_life b = Running) then HostConfig_PortBindings (box_host b) else ∅).

Definition on_box {A} (name : string) (missing : A) (f : box -> A * view) (v : view) : A * view :=
  match view_boxes v !! name with Some b => f b | None => (missing, v) end.
Definition on_machine (f : Machine -> Machine * option Machine) (v : view) : (error + Machine) * view :=
  match view_object v with
  | Some m => let '(o, kept) := f m in (inr o, put_object kept v)
  | None => (inl not_found, v)
  end.
Definition newer (m : Machine) : Machine :=
  m <| Machine_ObjectMeta ::= fun m => m <| ObjectMeta_ResourceVersion := "2" |> |>.

Definition serve (c : call) : view -> answer c * view :=
  match c return view -> answer c * view with
  | Get KMachine _ => fun v => (match view_object v with Some m => inr m | None => inl not_found end, v)
  | Get KRelationship _ => fun v => (inr (view_relation v), v)
  | StatusUpdate KMachine o => on_machine (fun m =>
      let o' := newer (m <| Machine_Status := Machine_Status o |>) in (o', Some o'))
  | Update KMachine o => on_machine (fun m =>
      let o' := newer (o <| Machine_Status := Machine_Status m |>) in
      (o', if bool_decide (ObjectMeta_Finalizers (Machine_ObjectMeta o) = [])
              && negb (DeletionTimestamp_IsZero (Machine_ObjectMeta m)) then None else Some o'))
  | StatusUpdate KRelationship o => fun v => (inr o, put_relation o v)
  | RecordEvent _ _ _ | DockerClose _ => fun v => (tt, v)
  | ScriptFind _ => fun v => (inr "os-stat", v)
  | UnmarshalMachineInfo _ => fun v => (None, Some raw, v)
  | DockerNewClient url version => fun v => (inr (mkDockerClient (Machine.DockerURL machine) ""), v)
  | ImageInspect _ _ | ImagePull _ _ | StreamCopy _ | StreamClose _ | ContainerLogs _ _ _ => fun v => (None, v)
  | StdCopy _ => fun v => ("{}", "", None, v)
  | ContainerInspect _ name => fun v => on_box name (inl not_found) (fun b => (inr (stat name b), v)) v
  | ContainerCreate _ cfg host name => fun v => (inr [], put name (mkBox Created cfg host) v)
  | ContainerStart _ name => fun v =>
      on_box name (Some not_found) (fun b => (None, put name (b <| box_life := Running |>) v)) v
  | ContainerWait _ name => fun v =>
      on_box name (inl not_found) (fun b =>
        let code := match box_life b with Exited code => code | _ => 0 end in
        (inr code, put name (b <| box_life := Exited code |>) v)) v
  | ContainerRemove _ name _ => fun v => on_box name (Some not_found) (fun b => (None, drop_box name v)) v
  | c => fun v => (refuse c, v)
  end.

Lemma stat_shown name b : shows (fun n => n) name b (stat name b).
Proof.
  destruct b as [l cfg host]. split; [by destruct l|]. split; [done|]. split; [done|]. split; [by left|]. split; [by left|].
  simpl. intros -> port p ps H _. by exists p, ps.
Qed.

#[export] Instance services : Services (Ob := Machine) view serve client IsErrNotFound (shows (fun n => n)).
Proof.
  refine {| look := fun v => v |}. intros c v. pose proof (reflexivity v : drift v v) as Hd.
  destruct c; try match goal with k : kind |- _ => destruct k end; try done;
    cbn [common serve fst snd]; unfold on_box.
  - intros _. by exists o.
  - intros _. destruct (view_boxes v !! name) as [b|] eqn:Hb; cbn [fst snd]; (split; [done|]); rewrite Hb.
    + exists (stat name b). split; [done|apply stat_shown].
    + by exists not_found.
Defined.

#[export] Instance host : MachineHost view serve key client "{}" raw.
Proof.
  refine {| named := fun n => n; host_services := services |}. intros c v.
  pose proof (reflexivity v : drift v v) as Hd.
  change (obeys key client (fun n => n) "{}" raw c v (serve c v).1 (serve c v).2).
  destruct c; try match goal with k : kind |- _ => destruct k end; try done;
    cbn [obeys serve fst snd]; unfold on_box, on_machine.
  - intros _. split; [done|]. destruct (view_object v); [done|by exists not_found].
  - intros m l -> Hm Hs. exists (newer (o <| Machine_Status := Machine_Status m |>)).
    split; [done|]. split; [by rewrite Hm|]. split; [by eexists|done].
  - intros m -> Hm. exists (newer (m <| Machine_Status := Machine_Status o |>)).
    split; [done|]. split; [done|]. split; [by eexists|done].
  - intros _ _. by exists [].
  - by intros b _ ->.
  - intros n b _ [->| ->] -> _; (eexists; split; [done|]; split; [done|]; split; [by intros ->|by intros e ->]).
  - by intros n b _ [->| ->] ->.
  - split; [done|]. by exists "os-stat".
Defined.

Definition start : view :=
  mkView (Some machine) (zeroRelationship <| Relationship_Status ::= fun s => s <| MachineToResources := Some ∅ |> |>) ∅.

Lemma start_joining : joining start machine.
Proof.
  split; [done..|by eexists| | | |done]; intros b; [..|intros ended]; unfold start; cbn [view_boxes]; by rewrite lookup_empty.
Qed.

(** The same machine, in use and then deleted. *)
Definition used : Machine :=
  machine <| Machine_ObjectMeta ::= fun m => m <| ObjectMeta_Finalizers := [MachineCtl.machineFinalizer] |>
               <| ObjectMeta_DeletionTimestamp := Some 1 |> |>
          <| Machine_Status ::= fun s => s <| MachineStatus_State := MachineReady |> |>.
Definition finish : view := put_object (Some used) start.

Lemma finish_leaving : leaving used finish used.
Proof. split; [done|by split_and!|done|done|done|by eexists|done]. Qed.

Lemma measured : exists info, MachineCtl.makeMachineInfo (U := BinarySizes.units) (Some raw) = Ret (inr info).
Proof. vm_compute. by eexists. Qed.

Lemma machine_converges_witness :
  (exists n, (n <= 5)%nat /\ rounds serve (MachineCtl.Reconcile (U := BinarySizes.units) 3 key) look view_object n start
     (fun v => exists m, joined v m)) /\
  (exists n, (n <= 2)%nat /\ rounds serve (MachineCtl.Reconcile (U := BinarySizes.units) 3 key) look view_object n finish
     (fun v => departed used v)).
Proof.
  split.
  - exact (proj1 (machine_converges (U := BinarySizes.units) serve key client "{}" raw 0 measured start machine) start_joining).
  - exact (proj2 (machine_converges (U := BinarySizes.units) serve key client "{}" raw 0 measured finish used) finish_leaving).
Defined.
End MachineConvergenceExample.
