(* ===== verification/TopologyProgress.v ===== *)
(** * No lost wakeups: the topology reconciler

    The part of Progress.v about controllers/testclustertopology_controller.go: none of what the
    deployment runs reads a topology, and a run that neither asks to be called again nor moves
    its topology had nothing to do. *)

From S2P Require Import Prelude GoStd Util ApiTypes TopologyTypes Prog World Machine Resource Relationship Docker.
From S2P Require Import SSH TiupSpec TiupCtl TopologyCtl Progress.

Abbreviation quietly := (quiet KTestClusterTopology (fun _ => True)).

(** ** Remote commands *)

Lemma quiet_NewSSHClient user key host port : quietly (sshUtil.NewSSHClient user key host port).
Proof. unfold sshUtil.NewSSHClient. quiet_walk. Qed.

Lemma quiet_RunCommand client cmd : quietly (sshUtil.RunCommand client cmd).
Proof. unfold sshUtil.RunCommand. quiet_walk. Qed.
#[local] Hint Resolve quiet_RunCommand : naglfar.

Lemma quiet_with_ssh {A} control (onerr : error -> A) body :
  (forall client, quietly (body client)) -> quietly (with_ssh control onerr body).
Proof.
  intros Hbody. unfold with_ssh. apply (quiet_bind _ (fun _ => True)); [apply quiet_NewSSHClient|].
  intros [err|client] _; [done|]. apply quiet_deferring; [by split|apply Hbody].
Qed.

Lemma quiet_ssh_command control cmd fail : quietly (ssh_command control cmd fail).
Proof.
  apply quiet_with_ssh. intros client. quiet_walk.
Qed.

Lemma quiet_scp_write control out path : quietly (scp_write control out path).
Proof. unfold scp_write. quiet_walk. Qed.
#[local] Hint Resolve quiet_ssh_command quiet_scp_write : naglfar.

Lemma quiet_run_all {Y : Yaml} {D : Defaults Y} client cmds : quietly (ClusterManager.run_all client cmds).
Proof. induction cmds as [|cmd l IH]; [done|]. cbn [ClusterManager.run_all]. quiet_walk. Qed.

Section managers.
Context {Y : Yaml} {D : Defaults Y} {M : Marshal Y} {U : URLs}.

Lemma quiet_patch c name version : quietly (ClusterManager.patch c name version).
Proof.
  apply quiet_with_ssh. intros client. quiet_walk.
Qed.

Lemma quiet_replace c name version : quietly (ClusterManager.replace c name version).
Proof. apply quiet_with_ssh. intros client. quiet_walk. apply quiet_run_all. Qed.
Hint Resolve quiet_patch quiet_replace : naglfar.

Lemma quiet_InstallCluster c name version mirror : quietly (ClusterManager.InstallCluster c name version mirror).
Proof.
  unfold ClusterManager.InstallCluster, ClusterManager.writeTopologyFileOnControl, ClusterManager.setTiUPMirror,
    ClusterManager.deployCluster, ClusterManager.startCluster. quiet_walk.
Qed.

Lemma quiet_UpdateCluster c name ct : quietly (ClusterManager.UpdateCluster c name ct).
Proof.
  unfold ClusterManager.UpdateCluster, ClusterManager.writeTemporaryTopologyMetaOnControl, ClusterManager.reloadCluster.
  quiet_walk.
Qed.

Lemma quiet_UpgradeCluster c name ct : quietly (ClusterManager.UpgradeCluster c name ct).
Proof.
  unfold ClusterManager.UpgradeCluster, ClusterManager.GetClusterVersion. apply (quiet_bind _ (fun _ => True)).
  { apply quiet_with_ssh. intros client. quiet_walk. }
  intros [err|version] _; [done|]. quiet_walk. apply quiet_with_ssh. intros client. quiet_walk.
Qed.

Lemma quiet_ScaleInCluster c name ct ips : quietly (ClusterManager.ScaleInCluster c name ct ips).
Proof. unfold ClusterManager.ScaleInCluster. quiet_walk. Qed.

Lemma quiet_GetNodeStatusList c name status : quietly (ClusterManager.GetNodeStatusList c name status).
Proof.
  apply quiet_with_ssh. intros client. quiet_walk.
Qed.

Lemma quiet_ScaleOutCluster c name ct ips : quietly (ClusterManager.ScaleOutCluster c name ct ips).
Proof.
  unfold ClusterManager.ScaleOutCluster, ClusterManager.writeScaleOutFileOnControl. quiet_walk.
Qed.

Lemma quiet_dm_InstallCluster c name version : quietly (DMManager.InstallCluster c name version).
Proof.
  unfold DMManager.InstallCluster, DMManager.writeTopologyFileOnControl, DMManager.deployCluster, DMManager.startCluster.
  quiet_walk.
Qed.
Hint Resolve quiet_InstallCluster quiet_UpdateCluster quiet_UpgradeCluster quiet_ScaleInCluster
  quiet_GetNodeStatusList quiet_ScaleOutCluster quiet_dm_InstallCluster : naglfar.

(** ** The steps of the reconciler *)
Import TopologyCtl.

Lemma quiet_list_owned rr : quietly (list_owned rr).
Proof. by split. Qed.
Lemma quiet_cluster_resources ct rr : quietly (cluster_resources ct rr).
Proof. unfold cluster_resources. apply (quiet_bind _ (fun _ => True)); [apply quiet_list_owned|]. by intros [err items]. Qed.
Lemma quiet_getResourceMachine r : quietly (getResourceMachine r).
Proof. unfold getResourceMachine. quiet_walk. Qed.
Hint Resolve quiet_list_owned quiet_cluster_resources quiet_getResourceMachine : naglfar.

Lemma quiet_init_node image expected prepare st p :
  quiet KTestClusterTopology (fun r => match r with inl _ => True | inr _ => True end)
    (init_node image expected prepare st p).
Proof. unfold init_node. quiet_walk. Qed.
Hint Resolve quiet_init_node : naglfar.

Lemma quiet_initResource ct items resources : quietly (initResource ct items resources).
Proof.
  unfold initResource, initTiDBResources, initDMResources, initFlinkResources, init_haproxy,
    haproxy.WriteConfigToMachine.
  quiet_walk.
Qed.

Hint Resolve quiet_initResource : naglfar.

Lemma quiet_install ct rr : quietly (install ct rr).
Proof. unfold install, installTiDBCluster, installFlinkCluster, installDMCluster. quiet_walk. Qed.

(** An update that is not done asks to be called again. *)
Definition unfinished (x : bool * (Result * option error)) : Prop := x.1 = false -> asks_again x.2.

Lemma quiet_update_step reason step k :
  quiet KTestClusterTopology unfinished k -> quiet KTestClusterTopology unfinished (update_step reason step k).
Proof.
  intros Hk. unfold update_step. destruct step as [[] [err|]]; [| | |exact Hk].
  - split; [done|]. intros []. intros _. apply asks_error.
  - intros _. by apply asks_after.
  - split; [done|]. intros []. intros _. apply asks_error.
Qed.

Lemma quiet_updateTiDBCluster ct rr : quiet KTestClusterTopology unfinished (updateTiDBCluster ct rr).
Proof.
  unfold updateTiDBCluster. apply (quiet_bind _ (fun _ => True)); [by apply quiet_lift|]. intros [pre cur] _.
  apply (quiet_bind _ (fun _ => True)); [unfold upgradeTiDBCluster; quiet_walk|]. intros upgrade _. apply quiet_update_step.
  apply (quiet_bind _ (fun _ => True)); [unfold updateClusterConfig; quiet_walk|]. intros config _. apply quiet_update_step.
  apply (quiet_bind _ (fun _ => True)); [unfold scaleInTiDBCluster; quiet_walk|]. intros [[requeue err] ct'] _. apply quiet_update_step.
  apply (quiet_bind _ (fun _ => True)); [by apply quiet_lift|]. intros [pre' cur'] _.
  apply (quiet_bind _ (fun _ => True)); [unfold scaleOutTiDBCluster; quiet_walk|]. intros out _. by apply quiet_update_step.
Qed.

(** The lists found, and nothing else, are changed by following a cluster that scales. *)
Lemma quiet_checkTiKVFinishedScaleIn ct rr :
  quiet KTestClusterTopology (fun _ => True) (checkTiKVFinishedScaleIn ct rr).
Proof. unfold checkTiKVFinishedScaleIn. quiet_walk. Qed.

Lemma quiet_pruneTiDBCluster ct rr : quietly (pruneTiDBCluster ct rr).
Proof. unfold pruneTiDBCluster, ClusterManager.PruneCluster. quiet_walk. Qed.

Lemma quiet_delete_configs ct proxy l : quietly (delete_configs ct proxy l).
Proof.
  induction l as [|r l IH]; [done|]. cbn [delete_configs]. unfold haproxy.DeleteConfigFromMachine. quiet_walk.
Qed.

Lemma quiet_deleteTopology ct : quietly (deleteTopology ct).
Proof.
  unfold deleteTopology, uninstall, ClusterManager.UninstallCluster, DMManager.UninstallCluster.
  quiet_walk. apply quiet_delete_configs.
Qed.

(** Nothing to do: there is no topology, it asks for no resources, it is ready and as wanted, or
    it was deleted and let go. *)
Definition topology_rests (req : NamespacedName) (h : history) : Prop :=
  match last_got KTestClusterTopology h with
  | None => True
  | Some ct =>
      (DeletionTimestamp_IsZero (Topology_ObjectMeta ct) = false /\
       NamespacedName_Name req ∉ ObjectMeta_Finalizers (Topology_ObjectMeta ct)) \/
      match TopologyStatus_State (Topology_Status ct) with
      | ClusterTopologyStateOther _ => True
      | ClusterTopologyStatePending => Topology_ResourceRequest (Topology_Spec ct) = ""
      | ClusterTopologyStateReady =>
          TiDBClusterInfo_IsScaling (TopologyStatus_TiDBClusterInfo (Topology_Status ct)) = false /\
          TopologyStatus_PreTiDBCluster (Topology_Status ct) = Topology_TiDBCluster (Topology_Spec ct) \/
          Topology_TiDBCluster (Topology_Spec ct) = None
      | _ => False
      end
  end.

Context (req : NamespacedName) (ct : TestClusterTopology).
Abbreviation topology_goes_on := (goes_on KTestClusterTopology (topology_rests req)).

Lemma topology_state_changes o h :
  last_got KTestClusterTopology h = Some ct ->
  TopologyStatus_State (Topology_Status o) <> TopologyStatus_State (Topology_Status ct) ->
  last_got KTestClusterTopology h <> Some o.
Proof. intros Hgot Hf. rewrite Hgot. by intros [= ->]. Qed.

Lemma topology_pending_goes_on h :
  last_got KTestClusterTopology h = Some ct ->
  TopologyStatus_State (Topology_Status ct) = ClusterTopologyStatePending ->
  wp admissible free (reconcilePending req ct) h topology_goes_on.
Proof.
  intros Hgot Hst. unfold reconcilePending.
  destruct (String.eqb_spec (Topology_ResourceRequest (Topology_Spec ct)) "") as [Hrr|Hrr].
  { right. right. unfold topology_rests. rewrite Hgot, Hst. by right. }
  apply (wp_quiet KTestClusterTopology (fun _ => True)); [unfold get_request; quiet_walk| |done].
  intros h1 [err|rr] Hext1 _; [apply quiet_goes_on; quiet_walk|].
  destruct (negb _); [left; by apply asks_after|].
  apply (wp_quiet KTestClusterTopology (fun _ => True)); [apply quiet_install| |done].
  assert (Hready : forall h' , carries KTestClusterTopology h1 h' ->
    wp admissible free (become_ready ct) h' topology_goes_on).
  { intros h' Hext. apply status_update_goes_on, topology_state_changes; [|by rewrite Hst].
    by rewrite (proj1 Hext), (proj1 Hext1). }
  intros h2 [[what [requeue [err|]]]|] Hext2 _; [apply quiet_goes_on; quiet_walk| |by apply Hready].
  destruct requeue; [left; by apply asks_after|].
  apply (wp_quiet KTestClusterTopology (fun _ => True)); [by split| |done].
  intros h3 [] Hext3 _. apply Hready. by etrans.
Qed.

Lemma follow_scaling_goes_on h :
  last_got KTestClusterTopology h = Some ct ->
  TiDBClusterInfo_IsScaling (TopologyStatus_TiDBClusterInfo (Topology_Status ct)) = true ->
  wp admissible free (follow_scaling req ct) h topology_goes_on.
Proof.
  intros Hgot Hsc. unfold follow_scaling.
  apply (wp_quiet KTestClusterTopology (fun _ => True)); [unfold get_request; quiet_walk| |done].
  intros h1 [err|rr] Hext1 _; [left; apply asks_error|].
  apply (wp_quiet KTestClusterTopology (fun _ => True)); [apply quiet_checkTiKVFinishedScaleIn| |done].
  intros h2 [err|[finished ct']] Hext2 _; [left; apply asks_error|].
  apply (wp_quiet KTestClusterTopology (fun _ => True)); [by split| |done].
  intros h3 [err|stored] Hext3 _; [left; apply asks_error|].
  destruct finished; [|left; by apply asks_after].
  apply (wp_quiet KTestClusterTopology (fun _ => True)); [apply quiet_pruneTiDBCluster| |done].
  intros h4 [err|] Hext4 _; [apply quiet_goes_on; quiet_walk|].
  apply status_update_goes_on. rewrite (proj1 Hext4), (proj1 Hext3), (proj1 Hext2), (proj1 Hext1), Hgot.
  intros [= E]. by rewrite E in Hsc.
Qed.

Lemma topology_ready_goes_on h :
  last_got KTestClusterTopology h = Some ct ->
  TopologyStatus_State (Topology_Status ct) = ClusterTopologyStateReady ->
  wp admissible free (reconcileReady req ct) h topology_goes_on.
Proof.
  intros Hgot Hst. unfold reconcileReady.
  destruct (Topology_TiDBCluster (Topology_Spec ct)) as [cur|] eqn:Hcur.
  2:{ right. right. unfold topology_rests. rewrite Hgot, Hst. right. by right. }
  destruct (TopologyStatus_PreTiDBCluster (Topology_Status ct)) as [pre|] eqn:Hpre.
  - unfold compare.IsClusterConfigModified. case_bool_decide as Heq; cbn [negb].
    + destruct (TiDBClusterInfo_IsScaling _) eqn:Hsc; [by apply follow_scaling_goes_on|].
      right. right. unfold topology_rests. rewrite Hgot, Hst. right. left. split; [done|]. congruence.
    + apply status_update_goes_on, topology_state_changes; [done|by rewrite Hst].
  - apply status_update_goes_on. rewrite Hgot. intros [= E].
    apply (f_equal (fun c => TopologyStatus_PreTiDBCluster (Topology_Status c))) in E. simpl in E. congruence.
Qed.

Lemma updating_goes_on h :
  last_got KTestClusterTopology h = Some ct ->
  TopologyStatus_State (Topology_Status ct) = ClusterTopologyStateUpdating ->
  wp admissible free (reconcileUpdating req ct) h topology_goes_on.
Proof.
  intros Hgot Hst. unfold reconcileUpdating.
  apply (wp_quiet KTestClusterTopology (fun _ => True)); [unfold get_request; quiet_walk| |done].
  intros h1 [err|rr] Hext1 _; [left; apply asks_error|].
  apply (wp_quiet KTestClusterTopology (fun _ => True)); [by apply quiet_lift| |done].
  intros h2 [pre cur] Hext2 _. cbv zeta.
  apply (wp_quiet KTestClusterTopology unfinished); [apply quiet_updateTiDBCluster| |done].
  intros h3 [done' result] Hext3 Hr. destruct done'; [|left; by apply Hr]. cbn [negb].
  apply status_update_goes_on, topology_state_changes; [|by rewrite Hst].
  by rewrite (proj1 Hext3), (proj1 Hext2), (proj1 Hext1).
Qed.

Lemma topology_state_goes_on h :
  last_got KTestClusterTopology h = Some ct ->
  wp admissible free (reconcile_state req ct) h topology_goes_on.
Proof.
  intros Hgot. unfold reconcile_state. destruct (TopologyStatus_State (Topology_Status ct)) eqn:Hst.
  - apply status_update_goes_on, topology_state_changes; [done|by rewrite Hst].
  - by apply topology_pending_goes_on.
  - by apply topology_ready_goes_on.
  - by apply updating_goes_on.
  - right. right. unfold topology_rests. rewrite Hgot, Hst. by right.
Qed.

Lemma topology_deletion_goes_on h :
  last_got KTestClusterTopology h = Some ct -> DeletionTimestamp_IsZero (Topology_ObjectMeta ct) = false ->
  wp admissible free (reconcileDeletion (NamespacedName_Name req) ct) h topology_goes_on.
Proof.
  intros Hgot Hdel. unfold reconcileDeletion. cbv zeta.
  apply (wp_quiet KTestClusterTopology (fun _ => True));
    [destruct (Slice.StringsContains _ _); [apply quiet_deleteTopology|done]| |done].
  intros h1 [err|] Hext1 _; [left; apply asks_error|].
  assert (Hgot1 : last_got KTestClusterTopology h1 = Some ct) by by rewrite (proj1 Hext1).
  apply wp_bind, wp_lift. destruct (Slice.StringsRemove _ _) as [fs|e] eqn:Hfs; [|done].
  destruct (decide (NamespacedName_Name req ∈ ObjectMeta_Finalizers (Topology_ObjectMeta ct))) as [Hin|Hnin].
  - apply object_update_goes_on. rewrite Hgot1. intros [= E].
    apply (f_equal (fun r => ObjectMeta_Finalizers (Topology_ObjectMeta r))) in E.
    simpl in E. apply Slice.StringsRemove_not_contains in Hfs. congruence.
  - unfold update. wp_run. split; [done|]. intros [err|o] _; [left; apply asks_error|].
    right. right. unfold topology_rests. cbn [last_got ev_call ev_answer got]. rewrite Hgot1. by left.
Qed.
End managers.

Lemma topology_woken {Y : Yaml} {D : Defaults Y} {M : Marshal Y} {U : URLs} req :
  woken KTestClusterTopology (topology_rests req) (TopologyCtl.Reconcile req).
Proof.
  unfold woken, safe, TopologyCtl.Reconcile, get. wp_run. split; [done|]. intros [err|ct] _.
  { unfold IgnoreNotFound. destruct (IsNotFound err); [right; by right|left; apply asks_error]. }
  destruct (DeletionTimestamp_IsZero _) eqn:Hdel; [|by apply topology_deletion_goes_on].
  destruct (negb _); [|by apply topology_state_goes_on].
  wp_run. split; [done|]. intros [err|ct'] _; [left; apply asks_error|].
  apply moved_goes_on. left. eexists. split; [done|]. intros [= E].
  apply (f_equal (fun r => length (ObjectMeta_Finalizers (Topology_ObjectMeta r)))) in E.
  simpl in E. rewrite length_app in E. simpl in E. lia.
Qed.
