(* ===== verification/System.v ===== *)
(** * The reconcilers together

    The reconcilers run concurrently and share the stored objects. The API server accepts an
    update only of the version that was read (optimistic concurrency), so a stored object moves
    by updates each of which was computed from it. Whatever the interleaving of all the
    reconcilers, then, the stored relationship moves along the ledger of Relationship.v, and a
    stored test resource along the steps of Lifecycle.v; what is proved of those holds of the
    store. *)

From S2P Require Import Prelude GoStd Util ApiTypes TopologyTypes Prog World Machine Resource Relationship Docker.
From S2P Require Import Scheduler SchedulerProofs SchedulerTheorems ResourceCtl ResourceTheorems MachineCtl MachineTheorems.
From S2P Require Import ChaosCtl ChaosTheorems TiupSpec TiupCtl TopologyCtl TopologyCtlProofs TopologyCtlTheorems.
From S2P Require Import WorkloadCtl WorkloadTheorems Lifecycle Progress TopologyProgress.

Section system.
Context {L : LocalTime} {B : Units} {Y : Yaml} {D : Defaults Y} {M : Marshal Y} {U : URLs}.

(** The handlers the manager runs. *)
Inductive reconciler : io (Result * option error) -> Prop :=
| relationship_reconciler req : reconciler (RelationshipReconciler_Reconcile req)
| request_reconciler req : reconciler (Scheduler.Reconcile req)
| resource_reconciler req : reconciler (ResourceCtl.Reconcile req)
| machine_reconciler fuel req : reconciler (MachineCtl.Reconcile fuel req)
| topology_reconciler req : reconciler (TopologyCtl.Reconcile req)
| workload_reconciler req : reconciler (WorkloadCtl.Reconcile req)
| chaos_reconciler req : reconciler (ChaosCtl.Reconcile req).

Lemma guarded_suffix (G : history -> call -> Prop) h1 e h0 :
  guarded G (h1 ++ e :: h0) -> G h0 (ev_call e).
Proof. induction h1 as [|e' h1 IH]; simpl; intros [? ?]; auto. Qed.

(** What a guard says of a call made in the middle of a run. *)
Lemma call_guarded {A} (G : history -> call -> Prop) (p : io A) h1 h0 e r :
  wp admissible G p [] (fun _ _ => True) -> exec admissible p [] (h1 ++ e :: h0) r -> G h0 (ev_call e).
Proof.
  intros Hp Hexec. destruct (wp_sound _ _ _ _ _ _ _ Hp I Hexec) as [Hg _].
  by apply guarded_suffix in Hg.
Qed.

(** ** The relationship *)

(** The stored status moves from [s] when some run of some reconciler, with whatever answers,
    writes a relationship it had last read as [s]. *)
Inductive store_step (s : RelationshipStatus) : RelationshipStatus -> Prop :=
| store_update p o x h1 h0 r :
    reconciler p ->
    exec admissible p [] (h1 ++ Event (StatusUpdate KRelationship o) x :: h0) r ->
    last_relationship h0 = s ->
    store_step s (Relationship_Status o).

Lemma reconciler_ledger p : reconciler p -> wp admissible ledger_guard p [] (fun _ _ => True).
Proof.
  destruct 1.
  - apply RelationshipReconciler_ledger.
  - apply SchedulerTheorems.request_ledger.
  - apply ResourceTheorems.resource_ledger.
  - apply MachineTheorems.machine_ledger.
  - eapply wp_guard; [apply topology_contract|]. intros h [] Hc; try done; by destruct k.
  - eapply wp_guard; [apply workload_contract|]. intros h [] Hc; try done; by destruct k.
  - eapply wp_mono; [eapply wp_guard; [apply chaos_calls|]|done]. intros h [] Hc; try done; by destruct k.
Qed.

Lemma store_step_ledger s s' : store_step s s' -> Ledger.steps s s'.
Proof. intros [p o x h1 h0 r Hp Hexec <-]. exact (call_guarded _ p _ _ _ _ (reconciler_ledger p Hp) Hexec). Qed.

Lemma store_steps_ledger s s' : rtc store_step s s' -> Ledger.steps s s'.
Proof. induction 1; [done|]. etrans; [by apply store_step_ledger|done]. Qed.

(** C6. Refinement: however the runs of the reconcilers interleave, the stored relationship
    moves along the ledger. *)
Theorem store_refines_ledger s s' : rtc store_step s s' -> Ledger.steps s s'.
Proof. apply store_steps_ledger. Qed.

(** C1. The cluster invariant: whatever the interleaving of the reconcilers and whatever the
    services answer, in every relationship stored no core is bound twice, two resources of a
    machine share no device, and what a resource is bound to is what its machine's list says. *)
Theorem store_keeps_invariant s : rtc store_step Ledger.start s -> Ledger.inv s.
Proof. intros H%store_steps_ledger. eapply Ledger.steps_inv; [exact H|apply Ledger.inv_start]. Qed.

(** ** A test resource *)

(** An object of the API server is known by its name, a version of it by its resource version. *)
Definition same_version (q s : TestResource) : Prop :=
  let id r := (ObjectMeta_Namespace (TestResource_ObjectMeta r), ObjectMeta_Name (TestResource_ObjectMeta r),
               ObjectMeta_ResourceVersion (TestResource_ObjectMeta r)) in
  id q = id s.

(** The resources an answer carries: read, listed, or as an update stored them. *)
Definition shows_resource (q : TestResource) (c : call) : answer c -> Prop :=
  match c return answer c -> Prop with
  | Get k _ | StatusUpdate k _ | Update k _ => fun x =>
      match x with inr o => obj_as KTestResource k o = Some q | inl _ => False end
  | List k _ _ => fun x => exists o, o ∈ x.2 /\ obj_as KTestResource k o = Some q
  | _ => fun _ => False
  end.

(** [s] is stored under the version of [o], and is what the services showed of that version. *)
Definition current (s o : TestResource) (h : history) : Prop :=
  same_version o s /\ forall q, happened (shows_resource q) h -> same_version q s -> q = s.

(** The stored resource moves when a run of some reconciler writes the stored version: an update
    of the status stores the status, any other update the rest, under a new version [v]. The
    server or its users may also mark it as deleted, or otherwise change its metadata. *)
Inductive resource_store_step (s : TestResource) : TestResource -> Prop :=
| resource_status_stored p o x h1 h0 r v :
    reconciler p ->
    exec admissible p [] (h1 ++ Event (StatusUpdate KTestResource o) x :: h0) r ->
    current s o h0 ->
    resource_store_step s (mkTestResource
      ((TestResource_ObjectMeta s) <| ObjectMeta_ResourceVersion := v |>) (TestResource_Spec s) (TestResource_Status o))
| resource_object_stored p o x h1 h0 r v :
    reconciler p ->
    exec admissible p [] (h1 ++ Event (Update KTestResource o) x :: h0) r ->
    current s o h0 ->
    resource_store_step s (mkTestResource
      ((TestResource_ObjectMeta o) <| ObjectMeta_ResourceVersion := v |>) (TestResource_Spec o) (TestResource_Status s))
| resource_meta_changed m :
    resource_store_step s (mkTestResource m (TestResource_Spec s) (TestResource_Status s)).

(** What every reconciler may write of a resource. *)
Definition resource_write_guard (h : history) (c : call) : Prop :=
  match c with
  | StatusUpdate KTestResource o => exists r, happened (shows_resource r) h /\
      TestResource_ObjectMeta o = TestResource_ObjectMeta r /\
      Lifecycle.step (TestResource_Status r) (TestResource_Status o)
  | Update KTestResource o => exists r, happened (shows_resource r) h /\
      TestResource_Spec o = TestResource_Spec r /\ same_version o r
  | _ => True
  end.

Lemma last_shown_shows r h : last_shown KTestResource h = Some r -> happened (shows_resource r) h.
Proof.
  induction h as [|[c x] h IH]; [done|]. cbn [last_shown ev_call ev_answer].
  destruct (shown KTestResource c x) as [q|] eqn:Hs.
  - intros [= ->]. apply happened_here. revert Hs. destruct c; try done; by destruct x.
  - intros H%IH. by apply happened_later.
Qed.

Lemma last_got_shows r h : last_got KTestResource h = Some r -> happened (shows_resource r) h.
Proof.
  induction h as [|[c x] h IH]; [done|]. cbn [last_got ev_call ev_answer].
  destruct (got KTestResource c x) as [q|] eqn:Hs.
  - intros [= ->]. apply happened_here. revert Hs. destruct c; try done; by destruct x.
  - intros H%IH. by apply happened_later.
Qed.

Lemma known_shows r h : happened (known r) h -> happened (shows_resource r) h.
Proof.
  apply happened_impl. intros [] x; try done. simpl. destruct k; try done. intros Hx. by exists r.
Qed.

(** A transition of the resource reconciler is a move of the life cycle. *)
Lemma transition_step h r o :
  transition h r o -> Lifecycle.step (TestResource_Status r) (TestResource_Status o).
Proof.
  intros [[Hc Hj] Ht]. apply Lifecycle.step_move; unfold TestResource_State, TestResource_Image in *.
  - destruct (TestResourceStatus_State (TestResource_Status r)); try done;
      by destruct (TestResourceStatus_State (TestResource_Status o)).
  - exact Hc.
  - case_bool_decide as Hd.
    + rewrite Hd in Ht. destruct (TestResourceStatus_State (TestResource_Status o)); try done. apply Ht.
    + by destruct Hj.
  - intros Hr Ho. rewrite Hr in Ht. destruct (TestResourceStatus_State (TestResource_Status o)); try done.
    + apply Ht.
    + by apply Ht.
  - intros Ho. rewrite Ho in Ht. unfold Lifecycle.exit_phase.
    destruct (TestResourceStatus_State (TestResource_Status r)); try done; apply Ht.
Qed.

Lemma reconciler_resource p : reconciler p -> wp admissible resource_write_guard p [] (fun _ _ => True).
Proof.
  destruct 1.
  - unfold RelationshipReconciler_Reconcile, get, status_update. wp_run.
    split; [done|]. intros [err|rel] _; [done|]. by destruct (initialized _); wp_run.
  - eapply wp_guard; [apply request_contract|]. intros h c (_ & Hc & _). by destruct c; try destruct k.
  - eapply wp_guard; [apply resource_contract|]. intros h c (_ & Hs & Hf & _).
    destruct c; try done; destruct k; try done; simpl in *.
    + destruct Hf as (r & Hr & (fs & ->) & _). exists r. split; [by apply last_got_shows|done].
    + destruct Hs as (r & Hr & Hm & _ & Ht). exists r. split; [by apply last_got_shows|].
      split; [done|]. by eapply transition_step.
  - eapply wp_guard; [apply machine_contract|]. intros h c (_ & Hc & _). by destruct c; try destruct k.
  - eapply wp_guard; [apply topology_contract|]. intros h [] Hc; try done; destruct k; try done; simpl in *.
    destruct Hc as (_ & r & Hr & Hst & Him & container & hn & ->). exists r. split; [by apply known_shows|].
    split; [done|]. by apply Lifecycle.step_prepare.
  - eapply wp_guard; [apply workload_contract|]. intros h [] Hc; try done; destruct k; try done; simpl in *.
    destruct Hc as (w & r & _ & Hr & Hw). exists r. split; [by apply last_shown_shows|].
    destruct Hw as [(_ & _ & Hst & Him & Hc & item & c & envs & _ & _ & _ & ->)|(_ & Hu & ->)].
    + split; [done|]. by apply Lifecycle.step_claim.
    + split; [done|]. by apply Lifecycle.step_destroy.
  - eapply wp_mono; [eapply wp_guard; [apply chaos_calls|]|done]. intros h [] Hc; try done; by destruct k.
Qed.

(** One step of the store is at most one step of the life cycle, and never changes the spec. *)
Lemma resource_store_step_life s s' :
  resource_store_step s s' ->
  TestResource_Spec s' = TestResource_Spec s /\
  (TestResource_Status s' = TestResource_Status s \/
   Lifecycle.step (TestResource_Status s) (TestResource_Status s')).
Proof.
  intros [p o x h1 h0 r v Hp Hexec [Hv Hcur]|p o x h1 h0 r v Hp Hexec [Hv Hcur]|m]; simpl.
  - destruct (call_guarded _ p _ _ _ _ (reconciler_resource p Hp) Hexec) as (q & Hq & Hm & Hst).
    split; [done|]. right. rewrite <-(Hcur q Hq); [done|]. unfold same_version in *. by rewrite <-Hm.
  - destruct (call_guarded _ p _ _ _ _ (reconciler_resource p Hp) Hexec) as (q & Hq & Hs & Hqv).
    split; [|by left]. rewrite Hs. f_equal. apply (Hcur q Hq). unfold same_version in *. congruence.
  - split; [done|]. by left.
Qed.

Lemma resource_store_life s s' :
  rtc resource_store_step s s' ->
  TestResource_Spec s' = TestResource_Spec s /\
  rtc Lifecycle.step (TestResource_Status s) (TestResource_Status s').
Proof.
  induction 1 as [s|s1 s2 s3 H12 _ [IHs IH]]; [done|].
  apply resource_store_step_life in H12 as [Hs [He|Hst]]; (split; [congruence|]).
  - by rewrite <-He.
  - by eapply rtc_l.
Qed.

(** C8. Refinement: however the runs of all the reconcilers interleave, the stored test resource
    keeps its spec and its status moves along the life cycle. *)
Theorem resource_refines_life s s' :
  rtc resource_store_step s s' ->
  TestResource_Spec s' = TestResource_Spec s /\
  rtc Lifecycle.step (TestResource_Status s) (TestResource_Status s').
Proof. apply resource_store_life. Qed.

(** C9. Every status a test resource ever has, from the moment it is created, is well formed:
    no claim and no image before it is bound to a machine, an image whenever it is ready or
    finished, succeeded or failed by its exit code when it is finished, and no claim while it is
    destroyed. *)
Theorem resource_status_typed s s' :
  TestResource_Status s = zeroResourceStatus -> rtc resource_store_step s s' ->
  Lifecycle.wf (TestResource_Status s').
Proof.
  intros Hs [_ Hlife]%resource_store_life. rewrite Hs in Hlife.
  eapply (rtc_ind_r (fun x => Lifecycle.wf x)); [exact Lifecycle.wf_zero| |exact Hlife].
  intros x y _ Hstep. by apply Lifecycle.step_wf.
Qed.

(** A step of the store that does not enter the destroyed state. *)
Definition serving_step (s s' : TestResource) : Prop :=
  resource_store_step s s' /\ TestResource_State s' <> ResourceDestroy.

Lemma serving_steps_life s s' :
  rtc serving_step s s' -> rtc Lifecycle.serves (TestResource_Status s) (TestResource_Status s').
Proof.
  induction 1 as [s|s1 s2 s3 [H12 Hd] _ IH]; [done|].
  apply resource_store_step_life in H12 as [_ [He|Hst]]; [by rewrite <-He|].
  eapply rtc_l; [|exact IH]. by split.
Qed.

(** C7. Exclusive use: as long as a resource is not destroyed, whatever topologies, workloads
    and reconcilers run, the workload that claimed it keeps the claim, and once a container was
    asked for, nobody replaces it, nor claims the resource, nor frees it. *)
Theorem resource_use_exclusive s s' :
  TestResource_State s <> ResourceDestroy -> rtc serving_step s s' ->
  (forall owner, claim_on s = Some owner -> claim_on s' = Some owner) /\
  (TestResource_Image s <> "" -> job s' = job s /\ claim_on s' = claim_on s).
Proof. intros Hd Hs%serving_steps_life. by apply Lifecycle.serving_keeps. Qed.

(** ** Liveness *)

(** C10. No wakeup is lost: whatever the services answer, a run of a reconciler that returns returns
    an error, asks to be called again, stores its own object otherwise than it was read, or leaves an
    object that is at rest: gone, ended, ready and as wanted, with nothing to run, or waiting for
    what wakes it. The exceptions are spelled out in [request_rests] and [chaos_rests]: a dropped
    error, a missing request, and the same state recorded again; [wakeups_lost] shows each of the
    three to happen. Nothing is said of a run that panics: it ends the manager's process, which lists
    every object when it is started again. *)
Theorem no_wakeup_lost :
  (forall req, woken KTestResource resource_rests (ResourceCtl.Reconcile req)) /\
  (forall req, woken KTestResourceRequest request_rests (Scheduler.Reconcile req)) /\
  (forall fuel req, woken KMachine machine_rests (MachineCtl.Reconcile fuel req)) /\
  (forall req, woken KTestClusterTopology (topology_rests req) (TopologyCtl.Reconcile req)) /\
  (forall req, woken KTestWorkload workload_rests (WorkloadCtl.Reconcile req)) /\
  (forall req, woken KProcChaos chaos_rests (ChaosCtl.Reconcile req)).
Proof.
  split; [apply resource_woken|]. split; [apply request_woken|]. split; [apply machine_woken|].
  split; [apply topology_woken|]. split; [apply workload_woken|apply chaos_woken].
Qed.

(** A run, of history [h], that ends without an error, without asking to be called again and without
    having moved its object. *)
Definition given_up_by (k : kind) (p : io (Result * option error)) (o : obj k) (h : history) : Prop :=
  exec admissible p [] h (Ret (noRequeue, None)) /\ ~ moved k h /\ last_got k h = Some o.
Definition given_up (k : kind) (p : io (Result * option error)) (o : obj k) : Prop := exists h, given_up_by k p o h.

(** A process chaos with one task, due all the time, whose last kill was at [killed], and the node it
    kills in. *)
Definition example_chaos (killed : string) : ProcChaos :=
  mkProcChaos zeroMeta "" [mkProcChaosTask "" ["n"] true "0"] [mkProcChaosState killed "n"].
Definition example_request : TestResourceRequest :=
  mkTestResourceRequest zeroMeta
    (mkTestResourceRequestSpec [] [mkResourceRequestItem "n" (TestResource_Spec zeroTestResource)]) TestResourceRequestReady.
Definition example_node : TestResource :=
  zeroTestResource <| TestResource_Status ::= fun s => s <| TestResourceStatus_State := ResourceReady |> |>.
Definition example_bound : Relationship :=
  zeroRelationship <| Relationship_Status ::= fun s =>
    s <| ResourceToMachine := Some {[ Key (CreateRef zeroMeta) := zeroMachineRef ]} |> |>.

Ltac answered_with x := refine (ex_intro _ x (conj _ _)); [done|].

(** The wakeups that are lost: a pending request all of whose resources are there is given
    up when the update that makes it ready is refused; so is every process chaos whose
    request is not found when it is looked at, although nothing wakes it when the request is
    created; and so is one whose kill is recorded with the node and the time that are recorded
    already, the time being printed in seconds. *)
Lemma wakeups_lost :
  (exists req request, TestResourceRequest_State request = TestResourceRequestPending /\
     given_up KTestResourceRequest (Scheduler.Reconcile req) request) /\
  (forall req p, given_up KProcChaos (ChaosCtl.Reconcile req) p) /\
  (forall t killed, Time.Parse (Time.NewTime t) = Some killed -> killed <= t ->
     exists req p h, given_up_by KProcChaos (ChaosCtl.Reconcile req) p h /\
       happened (stored_status KProcChaos (fun o refused => o = p /\ refused = false)) h).
Proof.
  split; [|split].
  - set (request := mkTestResourceRequest (zeroMeta <| ObjectMeta_Finalizers := [Scheduler.requestFinalizer] |>)
      (mkTestResourceRequestSpec [] []) TestResourceRequestPending).
    exists (mkNamespacedName "" ""), request. split; [done|]. eexists. split.
    + exists (inr request). split; [done|]. exists (None, []). split; [done|]. exists (None, []). split; [done|].
      exists (inl unavailable). split; [done|]. split; reflexivity.
    + split; [|done]. intros Hm. repeat (destruct Hm as [(o & Ho & _)|Hm]; [done|]). done.
  - intros req p. eexists. split.
    + exists (inr p). split; [done|]. exists (inl not_found). split; [done|]. split; reflexivity.
    + split; [|done]. intros Hm. repeat (destruct Hm as [(o & Ho & _)|Hm]; [done|]). done.
  - intros t killed Hkilled Hle. exists (mkNamespacedName "" ""), (example_chaos (Time.NewTime t)).
    assert (Hdue : (wrap64 (0 - Since t killed) <=? 0) = true).
    { apply Z.leb_le. unfold Since. rewrite wrap64_id; unfold in_int64; lia. }
    assert (Hunwrap : Time.Unwrap (Time.NewTime t) = Ret killed) by (unfold Time.Unwrap; by rewrite Hkilled).
    eexists. split; [split|].
    + answered_with (inr (A := error) (example_chaos (Time.NewTime t))). answered_with (inr (A := error) example_request).
      lazy -[Since wrap64 Time.NewTime Time.Unwrap Z.leb Z.sub Key CreateRef admissible]. rewrite Hunwrap.
      answered_with t. lazy -[Since wrap64 Time.NewTime Z.leb Z.sub Key CreateRef admissible]. rewrite Hdue.
      lazy -[Time.NewTime admissible].
      answered_with 0. lazy -[Time.NewTime admissible].
      answered_with (inr (A := error) example_node).
      answered_with (inr (A := error) example_bound).
      answered_with (inr (A := error) zeroMachine).
      answered_with (inr (A := error) (mkDockerClient "" "")).
      answered_with (inr (A := error) "find").
      answered_with (inr (A := error) "id").
      answered_with (@None error).
      answered_with ("", "", @None error).
      answered_with (@None error).
      answered_with (@None error, @nil string).
      answered_with tt.
      answered_with t.
      answered_with (inr (A := error) (example_chaos (Time.NewTime t))).
      by split.
    + split; [|done]. intros Hm. repeat (destruct Hm as [(o & Ho & Hne)|Hm]; [first [done|by apply Hne; injection Ho as <-]|]). done.
    + by apply happened_here.
Qed.
End system.

(** ** A first step of each store *)

(** Services for the examples, where the steps do not depend on them. *)
#[local] Instance example_time : LocalTime := fun _ => "".
#[local] Instance example_units : Units := BinarySizes.units.
#[local] Instance example_yaml : Yaml := plain_yaml.
#[local] Instance example_defaults : Defaults example_yaml := no_defaults.
#[local] Instance example_marshal : Marshal example_yaml :=
  @Build_Marshal plain_yaml (fun _ => ("", None)) (fun _ => ("", None)) (fun _ => ("", None)) (fun _ => ("", None)).
#[local] Instance example_urls : URLs := {| url_Parse := inr |}.

(** The relationship reconciler reads the object as it was created and stores it with its maps
    initialised. *)
Lemma example_store_step : store_step Ledger.start (init_status Ledger.start).
Proof.
  set (o := zeroRelationship <| Relationship_Status := init_status Ledger.start |>).
  refine (store_update _ (RelationshipReconciler_Reconcile relationshipName) o (inr o) []
            [Event (Get KRelationship relationshipName) (inr zeroRelationship)] (Ret (noRequeue, None)) _ _ _).
  - constructor.
  - exists (inr zeroRelationship). split; [done|]. exists (inr o). split; [done|]. split; reflexivity.
  - reflexivity.
Qed.

Lemma store_refines_ledger_witness : Ledger.steps Ledger.start (init_status Ledger.start).
Proof. apply store_refines_ledger. apply rtc_once, example_store_step. Defined.

Lemma store_keeps_invariant_witness : Ledger.inv (init_status Ledger.start).
Proof. apply store_keeps_invariant. apply rtc_once, example_store_step. Defined.

(** A resource as it is created, but for its finalizer, and one claimed for a container that is
    not running yet. *)
Definition example_resource : TestResource :=
  zeroTestResource <| TestResource_ObjectMeta := zeroMeta <| ObjectMeta_Name := "r" |>
    <| ObjectMeta_ResourceVersion := "1" |> <| ObjectMeta_Finalizers := [ResourceCtl.resourceFinalizer] |> |>.
Definition example_owner : Ref := mkRef "ns" "w" "uid".
Definition example_claimed : TestResource :=
  example_resource <| TestResource_Status ::= fun s => s <| TestResourceStatus_State := ResourceUninitialized |>
    <| TestResourceStatus_ClaimRef := Some example_owner |>
    <| TestResourceStatus_Container := zeroContainerSpec <| ContainerSpec_Image := "app" |> |> |>.

(** What the resource reconciler makes of either: it follows the state or the phase. *)
Definition with_new_status (f : TestResourceStatus -> TestResourceStatus) (r : TestResource) : TestResource :=
  r <| TestResource_ObjectMeta ::= fun m => m <| ObjectMeta_ResourceVersion := "2" |> |>
    <| TestResource_Status ::= f |>.
Definition example_pending : TestResource :=
  with_new_status (fun s => s <| TestResourceStatus_State := ResourcePending |>) example_resource.
Definition example_started : TestResource :=
  with_new_status (fun s => s <| TestResourceStatus_Phase := ResourcePhasePending |>) example_claimed.

Lemma example_current r o :
  same_version o r -> current r o [Event (Get KTestResource (mkNamespacedName "" "r")) (inr r)].
Proof.
  intros Hv. split; [done|]. intros q Hq _. apply Exists_cons in Hq as [Hq|Hq%Exists_nil]; [|done].
  simpl in Hq. congruence.
Qed.

Lemma example_run r f :
  exec admissible (ResourceCtl.Reconcile (mkNamespacedName "" "r")) []
    ([] ++ Event (StatusUpdate KTestResource (ResourceCtl.with_status f r)) (inl (Errorf "")) ::
     [Event (Get KTestResource (mkNamespacedName "" "r")) (inr r)]) (Ret (noRequeue, Some (Errorf ""))) ->
  resource_store_step r (with_new_status f r).
Proof.
  intros Hexec.
  apply (resource_status_stored r _ (ResourceCtl.with_status f r) _ _ _ _ "2" (resource_reconciler _) Hexec).
  by apply example_current.
Qed.

Lemma example_pending_step : resource_store_step example_resource example_pending.
Proof.
  apply example_run. exists (inr example_resource). split; [done|].
  exists (inl (Errorf "")). split; [done|]. split; reflexivity.
Qed.

Lemma example_started_step : resource_store_step example_claimed example_started.
Proof.
  apply example_run. exists (inr example_claimed). split; [done|].
  exists (inl (Errorf "")). split; [done|]. split; reflexivity.
Qed.

Lemma resource_refines_life_witness :
  rtc Lifecycle.step (TestResource_Status example_resource) (TestResource_Status example_pending).
Proof. apply (resource_refines_life example_resource example_pending), rtc_once, example_pending_step. Defined.

Lemma resource_status_typed_witness : Lifecycle.wf (TestResource_Status example_pending).
Proof. apply (resource_status_typed example_resource); [done|]. apply rtc_once, example_pending_step. Defined.

Lemma resource_use_exclusive_witness :
  claim_on example_started = Some example_owner /\ job example_started = job example_claimed.
Proof.
  destruct (resource_use_exclusive example_claimed example_started) as [Hc Hj].
  - done.
  - apply rtc_once. split; [apply example_started_step|done].
  - split; [by apply Hc|]. by apply Hj.
Defined.
