(* ===== verification/Isolation.v ===== *)
(** * Containers do not share cores

    The relationship never binds a core twice (System.v). The containers are elsewhere, on Docker
    daemons, are made from copies of the relationship that may be old, and outlive the runs that
    make them. This file puts the pieces together: runs of all the reconcilers interleave call by
    call, over a relationship kept under optimistic concurrency, caches that lag behind it, and
    the containers of the daemons; and whatever the order, two containers that run two resources
    on one machine are pinned to cores that the relationship keeps apart.

    What is relied on is documented behaviour: one run per object at a time (the work queue of
    controller-runtime), reads of the relationship that do not go back in time nor behind an own
    write, lists of resources that are up to date, a daemon that refuses a second container of a
    name and lists those it has, names of Kubernetes, machines that keep name, UID and daemon. *)

From stdpp Require Import functions.
From Stdlib Require Import Ascii.
From S2P Require Import Prelude GoStd Util ApiTypes TopologyTypes Prog World Machine Resource Relationship Docker.
From S2P Require Import Scheduler SchedulerProofs SchedulerTheorems SchedulerProperties ResourceCtl ResourceTheorems.
From S2P Require Import MachineCtl MachineTheorems ChaosCtl ChaosTheorems TiupSpec TiupCtl TopologyCtl.
From S2P Require Import TopologyCtlProofs TopologyCtlTheorems WorkloadCtl WorkloadTheorems Lifecycle Progress System.
Import Scheduler.

(** ** Names *)

(** The container that runs a resource. *)
Definition container_name (r : Ref) : string := Ref_Namespace r +:+ "." +:+ Ref_Name r.

(** What Kubernetes lets a resource be named (a namespace has no dot), and that it is not named
    like the cleaner of another one. *)
Record well_named (r : Ref) : Prop := {
  well_slash : slash_free r;
  well_namespace : strs.free_of "."%char (Ref_Namespace r);
  well_name n : Ref_Name r <> n +:+ "-cleaner";
}.

Lemma cut_at_separator c s1 t1 s2 t2 :
  strs.free_of c s1 -> strs.free_of c s2 ->
  s1 +:+ strs.sep1 c +:+ t1 = s2 +:+ strs.sep1 c +:+ t2 -> s1 = s2 /\ t1 = t2.
Proof.
  revert s2. induction s1 as [|a s1 IH]; intros [|b s2]; simpl; intros H1 H2 E; injection E.
  - done.
  - intros _ ->. by destruct H2.
  - intros _ <-. by destruct H1.
  - intros E' <-. destruct (IH s2) as [-> ->]; naive_solver.
Qed.

Lemma container_name_inj r1 r2 :
  well_named r1 -> well_named r2 -> container_name r1 = container_name r2 -> Namespaced r1 = Namespaced r2.
Proof.
  intros H1 H2 E. unfold Namespaced. destruct (cut_at_separator "."%char _ _ _ _ (well_namespace _ H1) (well_namespace _ H2) E).
  congruence.
Qed.

Lemma container_name_Namespaced r1 r2 : Namespaced r1 = Namespaced r2 -> container_name r1 = container_name r2.
Proof. unfold Namespaced, container_name. by intros [= -> ->]. Qed.

Lemma ContainerName_ref r : TestResource.ContainerName r = container_name (resource_ref r).
Proof. done. Qed.

(** The cleaner of one resource is never the container of another. *)
Lemma cleaner_apart r ref :
  well_named (resource_ref r) -> well_named ref -> TestResource.ContainerCleanerName r <> container_name ref.
Proof.
  intros H1 H2 E. destruct (cut_at_separator "."%char _ _ _ _ (well_namespace _ H1) (well_namespace _ H2) E) as [_ E'].
  by apply (well_name _ H2 (TestResource_Name r)).
Qed.

(** ** The site *)

(** What is fixed in an installation: the address of the daemon of each machine, one machine to
    a daemon; which machine a name stands for; which request a UID is of, and a resource for. *)
Class Site := {
  address : NamespacedName -> option string;
  machine_uid : NamespacedName -> string;
  request_with : string -> Ref;
  owner : Ref -> option Ref;
  address_inj k k' u : address k = Some u -> address k' = Some u -> k = k';
  address_nameless : address (mkNamespacedName "" "") = None;
}.

Definition machine_ref (m : Machine) : Ref := CreateRef (Machine_ObjectMeta m).

Section site.
Context {S : Site}.

Definition known (m : Machine) : Prop :=
  address (Namespaced (machine_ref m)) = Some (Machine.DockerURL m) /\
  Ref_UID (machine_ref m) = machine_uid (Namespaced (machine_ref m)).

(** What the services may answer: objects under their names, and errors of their own. The
    relationship is there. *)
Definition honest (c : call) (x : answer c) : Prop :=
  admissible c x /\
  match c return answer c -> Prop with
  | Get KRelationship _ => fun x => forall e, x = inl e -> IsNotFound e = false
  | Get KMachine key => fun x => forall m, x = inr m -> Namespaced (machine_ref m) = key /\ known m
  | List KMachine _ _ => fun x => forall m, m ∈ x.2 -> known m
  | Get KTestResource key => fun x => forall r, x = inr r ->
      Namespaced (resource_ref r) = key /\ well_named (resource_ref r)
  | List KTestResource _ _ => fun x => forall r, r ∈ x.2 -> well_named (resource_ref r) /\
      forall o, ObjectMeta_Controller (TestResource_ObjectMeta r) = Some o ->
        owner (resource_ref r) = Some (request_with (OwnerReference_UID o))
  | Get KTestResourceRequest key => fun x => forall q, x = inr q ->
      Namespaced (request_ref q) = key /\
      request_with (ObjectMeta_UID (TestResourceRequest_ObjectMeta q)) = request_ref q
  | DockerNewClient url version => fun x => forall d, x = inr d -> d = mkDockerClient url version
  | ContainerInspect _ _ => fun x => forall e, x = inl e -> IsNotFound e = false
  | ContainerRemove _ _ _ => fun x => forall e, x = Some e -> IsNotFound e = false
  | _ => fun _ => True
  end x.

(** ** The world *)

(** A container: the daemon it is on, its name, the resource it was made for, its cores. *)
Record box := mkBox { box_daemon : string; box_name : string; box_of : Ref; box_cpus : string }.

(** It runs the resource: it is not the cleaner. *)
Definition serves (b : box) : Prop := box_name b = container_name (box_of b).

(** The stored relationship, the containers, the resources that are and those that were, the
    calls of the current run of each resource and each request, and the versions of the
    relationship that the cache may still show to the runs of a resource, the latest first. *)
Record world := mkWorld {
  stored : RelationshipStatus;
  boxes : list box;
  present : list Ref;
  gone : list Ref;
  resource_runs : NamespacedName -> history;
  request_runs : NamespacedName -> history;
  visible : NamespacedName -> list RelationshipStatus;
}.
#[export] Instance world_eta : Eta world := fun w => {|
  stored := stored w; boxes := boxes w; present := present w; gone := gone w;
  resource_runs := resource_runs w; request_runs := request_runs w; visible := visible w |}.

Definition start : world := mkWorld Ledger.start [] [] [] (fun _ => []) (fun _ => []) (fun _ => [Ledger.start]).

Definition at_box (u name : string) (b : box) : Prop := box_daemon b = u /\ box_name b = name.
#[export] Instance at_box_dec u name b : Decision (at_box u name b).
Proof. unfold at_box. apply _. Defined.

Definition vacant (u name : string) (l : list box) : Prop := forall b, b ∈ l -> ~ at_box u name b.

(** The relationship is replaced, and the change gets to every cache sooner or later. *)
Definition store (s : RelationshipStatus) (w : world) : world :=
  w <| stored := s |> <| visible ::= fun v k => s :: v k |>.

(** Other calls a run may make: they change nothing that is looked at here, nor show any of it. *)
Definition aside (c : call) : answer c -> Prop :=
  match c return answer c -> Prop with
  | Get k _ | StatusUpdate k _ => fun x => k = KRelationship -> match x with inl _ => True | inr _ => False end
  | ContainerCreate _ _ _ _ => fun x => match x with inl _ => True | inr _ => False end
  | ContainerRemove _ _ _ => fun x => x <> None
  | ContainerInspect _ _ => fun x => match x with inl e => IsErrContainerNotFound e = false | inr _ => True end
  | _ => fun _ => True
  end.

Section world.
Context {L : LocalTime} {B : Units} {Y : Yaml} {D : Defaults Y} {M : Marshal Y} {U : URLs}.

(** The run of [p] that made the calls of [h] may go on with [c], answered [x]. *)
Definition prefix {A} (p : io A) (h : history) : Prop := exists h1 r, exec honest p [] (h1 ++ h) r.
Definition next {A} (p : io A) (h : history) (c : call) (x : answer c) : Prop := prefix p (Event c x :: h).

(** The reconcilers whose objects are not followed here. *)
Definition bystander (p : io (Result * option error)) : Prop :=
  (exists req, p = RelationshipReconciler_Reconcile req) \/ (exists fuel req, p = MachineCtl.Reconcile fuel req) \/
  (exists req, p = TopologyCtl.Reconcile req) \/ (exists req, p = WorkloadCtl.Reconcile req) \/
  (exists req, p = ChaosCtl.Reconcile req).

Definition goes_on_resource (k : NamespacedName) (c : call) (x : answer c) (w : world) : world :=
  w <| resource_runs ::= fun runs => <[k := Event c x :: runs k]> runs |>.
Definition goes_on_request (k : NamespacedName) (c : call) (x : answer c) (w : world) : world :=
  w <| request_runs ::= fun runs => <[k := Event c x :: runs k]> runs |>.

Inductive step (w : world) : world -> Prop :=
(** a run of a resource begins, the one before having ended or died with the manager *)
| resource_starts k : step w (w <| resource_runs ::= <[k := []]> |>)
| request_starts k : step w (w <| request_runs ::= <[k := []]> |>)
(** a read of the relationship shows a visible version, and none older is shown after it *)
| resource_reads k key o newer older :
    next (ResourceCtl.Reconcile k) (resource_runs w k) (Get KRelationship key) (inr o) ->
    visible w k = newer ++ Relationship_Status o :: older ->
    step w (goes_on_resource k (Get KRelationship key) (inr o) w
      <| visible ::= <[k := newer ++ [Relationship_Status o]]> |>)
(** a write is stored only if the stored version is the one that was read; whatever is answered,
    the run, and those after it, see nothing older *)
| resource_stores k o x :
    next (ResourceCtl.Reconcile k) (resource_runs w k) (StatusUpdate KRelationship o) x ->
    last_relationship (resource_runs w k) = stored w ->
    step w (goes_on_resource k (StatusUpdate KRelationship o) x (store (Relationship_Status o) w)
      <| visible ::= <[k := [Relationship_Status o]]> |>)
| resource_creates k d cfg host name x r :
    next (ResourceCtl.Reconcile k) (resource_runs w k) (ContainerCreate d cfg host name) x ->
    last_got KTestResource (resource_runs w k) = Some r ->
    vacant (DockerClient_URL d) name (boxes w) ->
    step w (goes_on_resource k (ContainerCreate d cfg host name) x w
      <| boxes ::= cons (mkBox (DockerClient_URL d) name (resource_ref r) (HostConfig_CpusetCpus host)) |>)
| resource_removes k d name force x :
    next (ResourceCtl.Reconcile k) (resource_runs w k) (ContainerRemove d name force) x ->
    step w (goes_on_resource k (ContainerRemove d name force) x w
      <| boxes ::= filter (fun b => ~ at_box (DockerClient_URL d) name b) |>)
| resource_misses k d name err :
    next (ResourceCtl.Reconcile k) (resource_runs w k) (ContainerInspect d name) (inl err) ->
    IsErrContainerNotFound err = true -> vacant (DockerClient_URL d) name (boxes w) ->
    step w (goes_on_resource k (ContainerInspect d name) (inl err) w)
| resource_calls k c x :
    next (ResourceCtl.Reconcile k) (resource_runs w k) c x -> aside c x ->
    step w (goes_on_resource k c x w)
| request_stores k o x :
    next (Scheduler.Reconcile k) (request_runs w k) (StatusUpdate KRelationship o) x ->
    last_relationship (request_runs w k) = stored w ->
    step w (goes_on_request k (StatusUpdate KRelationship o) x (store (Relationship_Status o) w))
(** the resources of a namespace, and those of a request, are listed as they are *)
| request_lists k ns by_owner x :
    next (Scheduler.Reconcile k) (request_runs w k) (List KTestResource ns by_owner) x ->
    (forall r, r ∈ x.2 -> resource_ref r ∈ present w) ->
    (forall space name ref q, ns = Some space -> by_owner = Some name -> x.1 = None ->
       ref ∈ present w -> owner ref = Some q -> Namespaced q = mkNamespacedName space name ->
       exists r, r ∈ x.2 /\ resource_ref r = ref) ->
    step w (goes_on_request k (List KTestResource ns by_owner) x w)
| request_calls k c x :
    next (Scheduler.Reconcile k) (request_runs w k) c x ->
    match c with List KTestResource _ _ => False | StatusUpdate KRelationship _ => aside c x | _ => True end ->
    step w (goes_on_request k c x w)
| other_stores p o x h :
    bystander p -> next p h (StatusUpdate KRelationship o) x -> last_relationship h = stored w ->
    step w (store (Relationship_Status o) w)
(** resources come and go, and none comes back: a UID is given once *)
| resource_appears ref :
    ref ∉ present w -> ref ∉ gone w -> step w (w <| present ::= cons ref |>)
| resource_leaves ref :
    step w (w <| present ::= filter (fun x => x <> ref) |> <| gone ::= cons ref |>)
(** containers end, or are removed by hand *)
| containers_vanish l : l ⊆ boxes w -> step w (w <| boxes := l |>).

(** ** Runs *)

Lemma exec_mono {A} (ok ok' : forall c, answer c -> Prop) (p : io A) h h' r :
  (forall c x, ok c x -> ok' c x) -> exec ok p h h' r -> exec ok' p h h' r.
Proof.
  intros Hok. revert h. induction p as [a|e|c k IH]; intros h; [done..|]. cbn [exec]. intros (x & Hx & H). eauto.
Qed.

Lemma exec_honest {A} (ok : forall c, answer c -> Prop) (p : io A) h h' r :
  exec ok p h h' r -> Forall (fun e => ok (ev_call e) (ev_answer e)) h ->
  Forall (fun e => ok (ev_call e) (ev_answer e)) h'.
Proof.
  revert h. induction p as [a|e|c k IH]; intros h; cbn [exec]; [by intros [-> _]..|].
  intros (x & Hx & H) Hh. apply (IH x _ H). by constructor.
Qed.

Lemma guarded_app (G : history -> call -> Prop) h1 h : guarded G (h1 ++ h) -> guarded G h.
Proof. induction h1 as [|e h1 IH]; [done|]. simpl. intros [_ H]. auto. Qed.

Lemma prefix_tail {A} (p : io A) e h : prefix p (e :: h) -> prefix p h.
Proof. intros (h1 & r & H). exists (h1 ++ [e]), r. by rewrite <-app_assoc. Qed.

Lemma prefix_honest {A} (p : io A) h : prefix p h -> Forall (fun e => honest (ev_call e) (ev_answer e)) h.
Proof.
  intros (h1 & r & H). apply exec_honest in H; [|constructor]. by apply Forall_app in H as [_ H].
Qed.

Lemma prefix_guarded {A} (p : io A) G Q h : safe G p Q -> prefix p h -> guarded G h.
Proof.
  intros Hp (h1 & r & H). apply (exec_mono _ admissible) in H; [|by intros c x []].
  destruct (wp_sound _ _ _ _ _ _ _ Hp I H) as [Hg _]. by apply guarded_app in Hg.
Qed.

(** What happened was called at some point, and allowed there. *)
Lemma happened_guarded (G : history -> call -> Prop) (P : forall c, answer c -> Prop) h :
  guarded G h -> happened P h ->
  exists c x h0, P c x /\ G h0 c /\ (forall Q, happened Q h0 -> happened Q h) /\
    (forall Q : forall c, answer c -> Prop, Q c x -> happened Q h).
Proof.
  induction h as [|[c x] h IH]; intros Hg H; [by apply Exists_nil in H|]. destruct Hg as [Hc Hg].
  apply Exists_cons in H as [H|H].
  - exists c, x, h. split_and!; [done..| |]; intros Q HQ; [by apply happened_later|by apply happened_here].
  - destruct (IH Hg H) as (c' & x' & h0 & HP & HG & H1 & H2). exists c', x', h0.
    split_and!; [done..| |]; intros Q HQ; apply happened_later; auto.
Qed.

Lemma happened_honest {A} (p : io A) (P : forall c, answer c -> Prop) h :
  prefix p h -> happened P h -> exists c x, honest c x /\ P c x.
Proof.
  intros Hp%prefix_honest (e & He & HP)%list.Exists_exists. rewrite list.Forall_forall in Hp.
  exists (ev_call e), (ev_answer e). split; [|done]. exact (Hp e He).
Qed.

(** A handler reads its own object once, first. *)
Lemma quiet_exec {A} k (P : A -> Prop) ok (p : io A) h h' r :
  quiet k P p -> exec ok p h h' r ->
  exists new, h' = new ++ h /\ Forall (fun e => reads_not k (ev_call e)) new.
Proof.
  revert h. induction p as [a|e|c f IH]; intros h; cbn [quiet exec].
  - intros _ [-> _]. by exists [].
  - intros _ [-> _]. by exists [].
  - intros [Hc Hf] (x & _ & H). destruct (IH x _ (Hf x) H) as (new & -> & Hnew).
    exists (new ++ [Event c x]). rewrite <-app_assoc. split; [done|]. apply Forall_app. split; [done|]. by constructor.
Qed.

Lemma reads_not_got k c (x : answer c) : reads_not k c -> got k c x = None.
Proof. destruct c; try done. simpl. destruct x; [done|]. by destruct k, k0. Qed.

Lemma last_got_app_quiet k new h :
  Forall (fun e => reads_not k (ev_call e)) new -> last_got k (new ++ h) = last_got k h.
Proof.
  induction 1 as [|[c x] new Hc _ IH]; [done|]. cbn [last_got app ev_call ev_answer].
  by rewrite (reads_not_got k c x Hc).
Qed.

Lemma happened_app (P : forall c, answer c -> Prop) h1 h2 : happened P (h1 ++ h2) <-> happened P h1 \/ happened P h2.
Proof. apply Exists_app. Qed.

(** The first call is that read, and it is the only one. *)
Lemma prefix_first {A} k key (f : answer (Get k key) -> io A) h :
  (forall x, quiet k (fun _ => True) (f x)) -> prefix (Call (Get k key) f) h ->
  h = [] \/ exists x new, honest (Get k key) x /\ h = new ++ [Event (Get k key) x] /\
    Forall (fun e => reads_not k (ev_call e)) new.
Proof.
  intros Hf (h1 & r & (x & Hx & H)). apply (quiet_exec k (fun _ => True)) in H as (new & E & Hnew); [|apply Hf].
  revert new E Hnew. induction h1 as [|e h1 IH]; intros new E Hnew; [right; by exists x, new|].
  destruct new as [|e' new]; simpl in E; injection E as -> E.
  - left. by apply app_eq_nil in E as [_ ->].
  - apply (IH new E). by apply Forall_inv_tail in Hnew.
Qed.

Lemma last_got_happened k h o : last_got k h = Some o -> happened (fun c x => got k c x = Some o) h.
Proof.
  induction h as [|[c x] h IH]; [done|]. cbn [last_got ev_call ev_answer].
  destruct (got k c x) as [o'|] eqn:E; [intros [= <-]; by apply happened_here|]. intros H. by apply happened_later, IH.
Qed.

Lemma resource_shape k :
  exists f, ResourceCtl.Reconcile k = Call (Get KTestResource k) f /\ forall x, quiet KTestResource (fun _ => True) (f x).
Proof.
  eexists. split; [reflexivity|]. intros [err|r]; [exact I|]. cbn [prog_bind]. cbv zeta.
  destruct (_ && negb _); [unfold update; quiet_walk|]. destruct (negb _ && _).
  - unfold ResourceCtl.reconcileDeletion, ResourceCtl.drop_finalizer, update. quiet_walk. apply quiet_finalize.
  - destruct (TestResource_State r); [quiet_walk|..|done].
    + unfold ResourceCtl.reconcileStatePending, ResourceCtl.requestResource. quiet_walk.
    + unfold ResourceCtl.reconcileStateUninitialized, ResourceCtl.getHostMachine, MakeClient, Machine.DockerClient,
        ResourceCtl.uninitialized_with, ResourceCtl.follow_started, range_keys. quiet_walk. apply quiet_createContainer.
    + unfold ResourceCtl.reconcileStateReady, ResourceCtl.getHostMachine, Machine.DockerClient, ResourceCtl.ready_with.
      quiet_walk.
    + done.
    + unfold ResourceCtl.reconcileStateDestroy, ResourceCtl.getHostMachine. quiet_walk. apply quiet_finalize.
Qed.

Lemma request_shape k :
  exists f, Scheduler.Reconcile k = Call (Get KTestResourceRequest k) f /\
    forall x, quiet KTestResourceRequest (fun _ => True) (f x).
Proof.
  eexists. split; [reflexivity|]. intros [err|r]; [exact I|]. cbn [prog_bind]. cbv zeta.
  destruct (_ && negb _); [unfold update; quiet_walk|]. destruct (negb _ && _).
  - unfold Scheduler.reconcileDeletion, listOwnedResources, list_objs, update. quiet_walk. apply quiet_removeAll.
  - destruct (TestResourceRequest_State r); [quiet_walk| |done..].
    unfold reconcilePending, listResources, listOwnedResources, list_objs. quiet_walk.
    + unfold note_resource. quiet_walk.
    + unfold create_missing. quiet_walk.
    + unfold tryRequest, getMachines, list_objs, groupCoLocatedItems, sortMachines, range_keys. quiet_walk.
      eapply quiet_mono; [apply quiet_bind_group|by intros [] _].
Qed.

(** The object a run is about: the only one of its kind it ever reads. *)
Section own.
Context {A : Type} (kd : kind) (k : NamespacedName) (p : io A).
Context (shape : exists f, p = Call (Get kd k) f /\ forall x, quiet kd (fun _ => True) (f x)).

Lemma own_got h o :
  prefix p h -> happened (fun c x => got kd c x = Some o) h ->
  last_got kd h = Some o /\ exists x, honest (Get kd k) x /\ got kd (Get kd k) x = Some o.
Proof using shape.
  destruct shape as (f & -> & Hf). intros Hp Ho.
  destruct (prefix_first kd k f h Hf Hp) as [->|(x & new & Hx & -> & Hnew)]; [by apply Exists_nil in Ho|].
  rewrite last_got_app_quiet by done. apply happened_app in Ho as [Ho|Ho].
  - apply list.Exists_exists in Ho as (e & He & Ho). rewrite list.Forall_forall in Hnew.
    by rewrite (reads_not_got kd _ _ (Hnew e He)) in Ho.
  - apply Exists_cons in Ho as [Ho|Ho%Exists_nil]; [|done]. split; [|by exists x]. simpl in *. by rewrite Ho.
Qed.

Lemma own_last e h : prefix p (e :: h) -> h <> [] -> last_got kd (e :: h) = last_got kd h.
Proof using shape.
  destruct shape as (f & -> & Hf). intros Hp Hne.
  destruct (prefix_first kd k f _ Hf Hp) as [|(x & new & _ & E & Hnew)]; [done|].
  destruct new as [|e' new]; simpl in E; injection E as -> ->; [done|].
  apply (last_got_app_quiet kd [e'] (new ++ [Event (Get kd k) x])). constructor; [by apply Forall_inv in Hnew|constructor].
Qed.
End own.

Lemma resource_got k h r :
  prefix (ResourceCtl.Reconcile k) h -> happened (fun c x => got KTestResource c x = Some r) h ->
  last_got KTestResource h = Some r /\ Namespaced (resource_ref r) = k /\ well_named (resource_ref r).
Proof.
  intros Hp Hr. destruct (own_got KTestResource k _ (resource_shape k) h r Hp Hr) as [Hl (x & [_ Hx] & E)].
  split; [done|]. simpl in *. destruct x as [|o]; [done|]. injection E as ->. by apply Hx.
Qed.

Lemma request_got k h q :
  prefix (Scheduler.Reconcile k) h -> happened (fun c x => got KTestResourceRequest c x = Some q) h ->
  last_got KTestResourceRequest h = Some q /\ Namespaced (request_ref q) = k /\
  request_with (ObjectMeta_UID (TestResourceRequest_ObjectMeta q)) = request_ref q.
Proof.
  intros Hp Hq. destruct (own_got KTestResourceRequest k _ (request_shape k) h q Hp Hq) as [Hl (x & [_ Hx] & E)].
  split; [done|]. simpl in *. destruct x as [|o]; [done|]. injection E as ->. by apply Hx.
Qed.

(** ** What the runs write *)

Definition bound (s : RelationshipStatus) (ref : Ref) : option MachineRef := go_lookup (ResourceToMachine s) (Key ref).
Definition accepted (q : Ref) (s : RelationshipStatus) : Prop := q ∈ default [] (AcceptedRequests s).

(** In a run of a resource: its container was missed or removed by this client. *)
Definition cleared (r : TestResource) (d : DockerClient) : history -> Prop :=
  happened (fun c => match c return answer c -> Prop with
    | ContainerInspect d' name => fun x => d' = d /\ name = container_name (resource_ref r) /\
        exists err, x = inl err /\ IsErrContainerNotFound err = true
    | ContainerRemove d' name _ => fun x => d' = d /\ name = container_name (resource_ref r) /\ x = None
    | _ => fun _ => False
    end).

Lemma located_bound {A} (p : io A) h r d :
  prefix p h -> located r d h ->
  exists s mref, relationship_was s h /\ bound s (resource_ref r) = Some mref /\
    address (Namespaced (MachineRef_Ref mref)) = Some (DockerClient_URL d).
Proof.
  intros Hp (m & (s & Hs & Hm) & Hd).
  apply (happened_honest p _ h Hp) in Hm as (c & x & [_ Hx] & Hm). destruct c; try done. destruct k; try done. destruct Hm as [-> ->]. destruct (Hx m eq_refl) as [Hkey [Haddr _]]. rewrite Hkey in Haddr.
  apply (happened_honest p _ h Hp) in Hd as (c & x & [_ Hx'] & Hd). destruct c; try done.
  destruct Hd as (-> & _ & ->). rewrite (Hx' d eq_refl). simpl.
  change (bound_in s r) with (bound s (resource_ref r)) in Haddr.
  destruct (bound s (resource_ref r)) as [mref|] eqn:Hb; simpl in Haddr.
  - by exists s, mref.
  - by rewrite address_nameless in Haddr.
Qed.

Lemma cleaned_cleared k h r :
  prefix (ResourceCtl.Reconcile k) h -> last_got KTestResource h = Some r -> cleaned r h ->
  exists d, located r d h /\ cleared r d h.
Proof.
  intros Hp Hgot Hc. pose proof (prefix_guarded _ _ _ _ (resource_contract k) Hp) as Hg.
  assert (Hplace : forall c h0, ResourceTheorems.contract h0 c -> (forall Q, happened Q h0 -> happened Q h) ->
    forall d, daemon_of c = Some d -> located r d h).
  { intros c h0 (_ & _ & _ & _ & Hplace & _) Hh d Hd. destruct (Hplace d Hd) as (r' & Hgot' & m & (s & Hs & Hm) & Hcl).
    destruct (resource_got k h r' Hp) as [E _]; [by apply Hh, last_got_happened|].
    rewrite Hgot in E. injection E as ->. exists m. split; [exists s; split|]; by apply Hh. }
  destruct Hc as [Hf|[[Ha|Hr] _]].
  - exfalso. apply (happened_honest _ _ h Hp) in Hf as (c & x & [_ Hx] & Hf). destruct c; try done;
      destruct Hf as (err & -> & He); by rewrite (Hx err eq_refl) in He.
  - apply (happened_guarded _ _ _ Hg) in Ha as (c & x & h0 & Ha & Hc & Hh & Hhere).
    destruct c; try done. exists c. split; [by eapply Hplace|]. apply Hhere. destruct Ha as (-> & err & -> & He). by eauto.
  - apply (happened_guarded _ _ _ Hg) in Hr as (c & x & h0 & Ha & Hc & Hh & Hhere).
    destruct c; try done. exists c. split; [by eapply Hplace|]. apply Hhere. by destruct Ha as [-> ->].
Qed.

(** A write to the relationship in a run of a resource unbinds exactly it, cleared away. *)
Lemma resource_write k h o x :
  next (ResourceCtl.Reconcile k) h (StatusUpdate KRelationship o) x ->
  Ledger.steps (last_relationship h) (Relationship_Status o) /\
  exists r d, last_got KTestResource h = Some r /\ ResourceTheorems.deleting r = true /\
    Namespaced (resource_ref r) = k /\ well_named (resource_ref r) /\ located r d h /\ cleared r d h /\
    ResourceToMachine (Relationship_Status o) =
      go_delete (ResourceToMachine (last_relationship h)) (Key (resource_ref r)) /\
    AcceptedRequests (Relationship_Status o) = AcceptedRequests (last_relationship h).
Proof.
  intros Hn. pose proof (prefix_guarded _ _ _ _ (resource_contract k) Hn) as [(Hl & _ & _ & _ & _ & Hu) _].
  apply prefix_tail in Hn. split; [exact Hl|]. destruct Hu as (r & Hgot & Hdel & Hc & Hrtm & Hacc).
  destruct (resource_got k h r Hn (last_got_happened _ _ _ Hgot)) as (_ & Hk & Hw).
  destruct (cleaned_cleared k h r Hn Hgot Hc) as (d & Hd & Hcl). by exists r, d.
Qed.

(** What a run of a resource creates: its container, while it lives and as it is bound, or the
    cleaner. *)
Lemma resource_create k h d cfg host name x :
  next (ResourceCtl.Reconcile k) h (ContainerCreate d cfg host name) x ->
  exists r, last_got KTestResource h = Some r /\ Namespaced (resource_ref r) = k /\ well_named (resource_ref r) /\
    located r d h /\
    ((name = container_name (resource_ref r) /\ ResourceTheorems.deleting r = false /\
      HostConfig_CpusetCpus host =
        Machine.cpuSetStr (ResourceBinding_CPUSet (binding_in (last_relationship h) r))) \/
     name = TestResource.ContainerCleanerName r).
Proof.
  intros Hn. pose proof (prefix_guarded _ _ _ _ (resource_contract k) Hn) as [(_ & _ & _ & Hc & Hpl & _) _].
  apply prefix_tail in Hn. destruct Hc as (r & Hgot & Hc). exists r. split; [done|].
  destruct (resource_got k h r Hn (last_got_happened _ _ _ Hgot)) as (_ & Hk & Hw).
  destruct (Hpl d eq_refl) as (r' & Hgot' & Hloc). rewrite Hgot in Hgot'. injection Hgot' as <-.
  split_and!; [done..|]. destruct Hc as [(-> & Hlive & _ & Hcpu & _)|(-> & _)]; [by left|by right].
Qed.

(** Writes that neither bind nor accept. *)
Definition same_bindings (s s' : RelationshipStatus) : Prop :=
  (forall key, go_lookup (ResourceToMachine s') key = go_lookup (ResourceToMachine s) key) /\
  forall q, accepted q s' <-> accepted q s.

Lemma relationship_write req :
  safe (fun h c => match c with
      | StatusUpdate KRelationship o => Relationship_Status o = init_status (last_relationship h)
      | _ => True
      end) (RelationshipReconciler_Reconcile req) (fun _ _ => True).
Proof.
  unfold safe, RelationshipReconciler_Reconcile, get, status_update. wp_run.
  split; [done|]. intros [err|rel] _; [done|]. by destruct (initialized _); wp_run.
Qed.

Lemma bystander_write p h o x :
  bystander p -> next p h (StatusUpdate KRelationship o) x ->
  Ledger.steps (last_relationship h) (Relationship_Status o) /\
  same_bindings (last_relationship h) (Relationship_Status o).
Proof.
  intros Hp Hn. assert (Hl : ledger_guard h (StatusUpdate KRelationship o)).
  { assert (Hr : reconciler p) by (destruct Hp as [(req & ->)|[(f & req & ->)|[(req & ->)|[(req & ->)|(req & ->)]]]]; constructor).
    exact (proj1 (prefix_guarded _ _ _ _ (reconciler_ledger p Hr) Hn)). }
  split; [exact Hl|]. destruct Hp as [(req & ->)|[(f & req & ->)|[(req & ->)|[(req & ->)|(req & ->)]]]].
  - destruct (prefix_guarded _ _ _ _ (relationship_write req) Hn) as [E _]. simpl in E. rewrite E.
    split; [|unfold accepted, init_status; simpl; by destruct (AcceptedRequests _)].
    intros key. unfold init_status, go_lookup. simpl. by destruct (ResourceToMachine _).
  - destruct (prefix_guarded _ _ _ _ (machine_contract f req) Hn) as [([_ [Hr Ha]] & _) _].
    split; [by rewrite Hr|]. unfold accepted. by rewrite Ha.
  - destruct (prefix_guarded _ _ _ _ (topology_contract req) Hn) as [[] _].
  - destruct (prefix_guarded _ _ _ _ (workload_contract req) Hn) as [[] _].
  - by destruct (prefix_guarded _ _ _ _ (chaos_calls req) Hn) as [Hc _].
Qed.

(** The resource was listed, with all of its namespace; the request was seen to have none left. *)
Definition listed (r : TestResource) : history -> Prop :=
  happened (fun c => match c return answer c -> Prop with
    | List KTestResource _ None => fun x => r ∈ x.2
    | _ => fun _ => False
    end).
Definition emptied (k : NamespacedName) : history -> Prop :=
  happened (fun c => match c return answer c -> Prop with
    | List KTestResource ns by_owner => fun x =>
        ns = Some (NamespacedName_Namespace k) /\ by_owner = Some (NamespacedName_Name k) /\ x = (None, [])
    | _ => fun _ => False
    end).

(** The request [q] is accepted: what is bound anew are resources of its own that were listed. *)
Definition accepts (q : Ref) (h : history) (s s' : RelationshipStatus) : Prop :=
  AcceptedRequests s' = Some (default [] (AcceptedRequests s) ++ [q]) /\ ~ accepted q s /\
  forall key, go_lookup (ResourceToMachine s') key = go_lookup (ResourceToMachine s) key \/
    exists r m b, listed r h /\ owner (resource_ref r) = Some q /\ well_named (resource_ref r) /\
      Key (resource_ref r) = key /\ known m /\
      go_lookup (ResourceToMachine s') key = Some (mkMachineRef (machine_ref m) b).

Definition releases (q : Ref) (s s' : RelationshipStatus) : Prop :=
  AcceptedRequests s' = Remove (AcceptedRequests s) q /\ ResourceToMachine s' = ResourceToMachine s.

(** A write to the relationship in a run of a request. *)
Lemma request_write k h o x :
  next (Scheduler.Reconcile k) h (StatusUpdate KRelationship o) x ->
  Ledger.steps (last_relationship h) (Relationship_Status o) /\
  exists q, last_got KTestResourceRequest h = Some q /\ Namespaced (request_ref q) = k /\
    ((SchedulerTheorems.deleting q = false /\
      accepts (request_ref q) h (last_relationship h) (Relationship_Status o)) \/
     (SchedulerTheorems.deleting q = true /\ emptied k h /\
      releases (request_ref q) (last_relationship h) (Relationship_Status o))).
Proof.
  intros Hn. pose proof (prefix_guarded _ _ _ _ (request_ledger k) Hn) as [Hl _]. split; [exact Hl|].
  pose proof (prefix_guarded _ _ _ _ (request_contract k) Hn) as [(Hr & _) _]. apply prefix_tail in Hn.
  destruct Hr as (q & Hgot & Hr). exists q. split; [done|].
  destruct (request_got k h q Hn (last_got_happened _ _ _ Hgot)) as (_ & Hk & Hu). split; [done|].
  destruct Hr as [(l & rm & Hlist & [Hlive _] & Hrm & Hacc)|(Hlist & Hdel & Hrel)]; [left|right]; (split; [done|]).
  - destruct Hacc as [_ Ha _ Hnew Hb _ _ _]. split; [done|]. split.
    { intros Hin. apply not_true_iff_false in Hnew. apply Hnew, IfExist_spec. unfold accepted in Hin.
      destruct (AcceptedRequests (last_relationship h)) as [a|]; [by exists a|by apply not_elem_of_nil in Hin]. }
    intros key. destruct (Hb key) as [?|(n & r & m & b & Hr & Hkey & [_ Hm] & E)]; [by left|right].
    destruct (Hrm n r Hr) as (Hin & _ & o' & Ho & Huid).
    assert (Hlr : listed r h).
    { eapply happened_impl; [|exact Hlist]. intros c y. destruct c; try done. destruct k0; try done.
      intros (_ & -> & ->). done. }
    exists r, m, b. split; [done|].
    pose proof (happened_honest _ _ h Hn Hlr) as (c & y & [_ Hy] & Hyl). destruct c; try done. destruct k0; try done.
    destruct owner0; [done|]. destruct (Hy r Hyl) as [Hw Hown]. rewrite (Hown o' Ho), Huid, Hu.
    pose proof (happened_honest _ _ h Hn Hm) as (c & z & [_ Hz] & Hzm). destruct c; try done. destruct k0; try done.
    split_and!; [done..|by apply Hz|done].
  - rewrite Hrel. split; [|split; [done|apply release_request_exact]].
    eapply happened_impl; [|exact Hlist]. intros c y. destruct c; try done. destruct k0; try done.
    intros (-> & -> & ->). by rewrite <-Hk.
Qed.

End world.
End site.
