(* ===== verification/IsolationTheorems.v ===== *)
(** * Containers do not share cores: the invariant

    What holds of every world that Isolation.v reaches, and why every step keeps it: containers
    are where, and pinned as, the stored relationship says; nothing is bound over, since a
    request binds only what is its own and only while it is not accepted; nothing is unbound
    before its container is gone. *)

From stdpp Require Import functions.
From Stdlib Require Import Ascii.
From S2P Require Import Prelude GoStd Util ApiTypes TopologyTypes Prog World Machine Resource Relationship Docker.
From S2P Require Import Scheduler SchedulerProofs SchedulerTheorems SchedulerProperties ResourceCtl ResourceTheorems.
From S2P Require Import MachineCtl MachineTheorems ChaosCtl ChaosTheorems TiupSpec TiupCtl TopologyCtl.
From S2P Require Import TopologyCtlProofs TopologyCtlTheorems WorkloadCtl WorkloadTheorems Lifecycle Progress System Isolation.
Import Scheduler.

Section invariant.
Context {S : Site} {L : LocalTime} {B : Units} {Y : Yaml} {D : Defaults Y} {M : Marshal Y} {U : URLs}.

(** ** The invariant *)

(** Nothing that is bound under a name in [s] is bound otherwise in [s']. *)
Definition kept (k : NamespacedName) (s s' : RelationshipStatus) : Prop :=
  forall ref mref, well_named ref -> Namespaced ref = k -> bound s ref = Some mref -> bound s' ref = Some mref.
#[local] Instance kept_preorder k : PreOrder (kept k).
Proof. split; [by intros s ref mref|]. intros s1 s2 s3 H12 H23 ref mref Hw Hk H. by apply H23, H12. Qed.

(** No container runs the resource. *)
Definition unserved (r : TestResource) (l : list box) : Prop :=
  forall b, b ∈ l -> serves b -> box_of b <> resource_ref r.

(** The run of a resource: what it read is still so, unless the resource is being deleted and has
    no container any more; and once the run missed or removed the container of a resource that is
    being deleted, there is none. *)
Record resource_run_ok (w : world) (k : NamespacedName) (h : history) : Prop := {
  run_own r : last_got KTestResource h = Some r -> Namespaced (resource_ref r) = k /\ well_named (resource_ref r);
  run_reads :
    (forall s, relationship_was s h ->
       kept k s (last_relationship h) /\ forall v, v ∈ visible w k -> kept k s v) \/
    (exists r, last_got KTestResource h = Some r /\ ResourceTheorems.deleting r = true /\ unserved r (boxes w));
  run_cleared r d : last_got KTestResource h = Some r -> ResourceTheorems.deleting r = true -> cleared r d h ->
    vacant (DockerClient_URL d) (container_name (resource_ref r)) (boxes w);
}.

(** The run of a request: while the request lives, the resources it listed are bound only if it
    is accepted; and once it was seen, being deleted, to have none, those that are bound are gone. *)
Record request_run_ok (w : world) (k : NamespacedName) (h : history) : Prop := {
  run_listed q0 r q : last_got KTestResourceRequest h = Some q0 -> SchedulerTheorems.deleting q0 = false ->
    listed r h -> well_named (resource_ref r) -> owner (resource_ref r) = Some q -> Namespaced q = k ->
    (resource_ref r ∈ present w \/ resource_ref r ∈ gone w) /\
    (is_Some (bound (stored w) (resource_ref r)) -> accepted q (stored w));
  run_emptied q0 q ref : last_got KTestResourceRequest h = Some q0 -> SchedulerTheorems.deleting q0 = true ->
    emptied k h -> well_named ref -> owner ref = Some q -> Namespaced q = k ->
    is_Some (bound (stored w) ref) -> ref ∉ present w;
}.

(** The container of a resource is on the daemon of the machine it is bound to, with its cores. *)
Definition placed_box (s : RelationshipStatus) (b : box) : Prop :=
  well_named (box_of b) /\ exists mref, bound s (box_of b) = Some mref /\
    address (Namespaced (MachineRef_Ref mref)) = Some (box_daemon b) /\
    box_cpus b = Machine.cpuSetStr (ResourceBinding_CPUSet (MachineRef_Binding mref)).

Record inv (w : world) : Prop := {
  inv_ledger : Ledger.inv (stored w);
  inv_known key mref : go_lookup (ResourceToMachine (stored w)) key = Some mref ->
    Ref_UID (MachineRef_Ref mref) = machine_uid (Namespaced (MachineRef_Ref mref));
  inv_visible k : exists older, visible w k = stored w :: older;
  inv_order k : pairwise (fun new old => kept k old new) (visible w k);
  inv_boxes b : b ∈ boxes w -> serves b -> placed_box (stored w) b;
  inv_alive ref : well_named ref -> is_Some (bound (stored w) ref) ->
    (ref ∈ present w \/ ref ∈ gone w) /\ (ref ∈ present w -> exists q, owner ref = Some q /\ accepted q (stored w));
  inv_resources k : resource_run_ok w k (resource_runs w k);
  inv_requests k : request_run_ok w k (request_runs w k);
}.

Lemma nothing_happened P : ~ happened P [].
Proof. by intros H%Exists_nil. Qed.

Lemma resource_run_nil w k : resource_run_ok w k [].
Proof. split; [done|left; by intros s ?%nothing_happened|by intros r d [=]]. Qed.
Lemma request_run_nil w k : request_run_ok w k [].
Proof. split; [by intros q0 r q [=]|by intros q0 q ref [=]]. Qed.

Lemma inv_at_start : inv start.
Proof.
  split; simpl; [apply Ledger.inv_start|done|by eexists|by intros k; split; [set_solver|]|set_solver| | |].
  - by intros ref _ [].
  - intros k. apply resource_run_nil.
  - intros k. apply request_run_nil.
Qed.

(** What other steps leave of a run. *)
Lemma resource_run_frame w w' k h :
  resource_run_ok w k h ->
  (forall v', v' ∈ visible w' k -> exists v, v ∈ visible w k /\ kept k v v') ->
  (forall b, b ∈ boxes w' -> b ∈ boxes w \/
     forall ref, well_named ref -> Namespaced ref = k -> box_name b <> container_name ref) ->
  resource_run_ok w' k h.
Proof.
  intros [H0 H1 H2] Hv Hb. split; [done|..].
  - destruct H1 as [H1|(r & Hgot & Hdel & Hun)]; [left|right].
    + intros s Hs. destruct (H1 s Hs) as [Hl Hvis]. split; [done|].
      intros v' (v & Hin & Hk)%Hv. etrans; [by apply Hvis|done].
    + exists r. split_and!; [done..|]. intros b Hin Hs E. destruct (Hb b Hin) as [Hin'|Hne]; [by apply (Hun b)|].
      destruct (H0 r Hgot) as [Hk Hw]. apply (Hne (resource_ref r) Hw Hk). by rewrite Hs, E.
  - intros r d Hgot Hdel Hc b Hin [Hd Hn]. destruct (H0 r Hgot) as [Hk Hw].
    destruct (Hb b Hin) as [Hin'|Hne]; [by apply (H2 r d Hgot Hdel Hc b Hin')|by apply (Hne _ Hw Hk)].
Qed.

Lemma request_run_frame w w' k h :
  request_run_ok w k h ->
  (forall ref, ref ∈ present w \/ ref ∈ gone w -> ref ∈ present w' \/ ref ∈ gone w') ->
  (forall ref q, well_named ref -> owner ref = Some q -> Namespaced q = k ->
     is_Some (bound (stored w') ref) -> is_Some (bound (stored w) ref)) ->
  (forall q, Namespaced q = k -> accepted q (stored w) -> accepted q (stored w')) ->
  (forall ref, well_named ref -> is_Some (bound (stored w) ref) -> ref ∈ present w' -> ref ∈ present w) ->
  request_run_ok w' k h.
Proof.
  intros [H1 H2] Hp Hb Ha Hpr. split.
  - intros q0 r q Hgot Hlive Hl Hn Ho Hq. destruct (H1 q0 r q Hgot Hlive Hl Hn Ho Hq) as [Hin Hacc].
    split; [by apply Hp|]. intros Hb'. apply Ha; [done|]. by eapply Hacc, Hb.
  - intros q0 q ref Hgot Hdel He Hn Ho Hq Hb' Hin. apply (Hb _ _ Hn Ho Hq) in Hb'.
    eapply H2; [done..|]. by eapply Hpr.
Qed.

Lemma resource_last k h e r :
  prefix (ResourceCtl.Reconcile k) (e :: h) -> last_got KTestResource h = Some r ->
  last_got KTestResource (e :: h) = Some r.
Proof. intros Hp Hgot. rewrite <-Hgot. apply (own_last KTestResource k _ (resource_shape k) _ _ Hp). by intros ->. Qed.

(** A call of the run of a resource that reads nothing of the relationship. *)
Lemma resource_run_next w w' k h c x :
  resource_run_ok w k h -> next (ResourceCtl.Reconcile k) h c x -> relationship_read c x = None ->
  (forall v', v' ∈ visible w' k -> exists v, v ∈ visible w k /\ kept k v v') \/
    (exists r, last_got KTestResource h = Some r /\ ResourceTheorems.deleting r = true /\ unserved r (boxes w')) ->
  (forall r b, last_got KTestResource h = Some r -> ResourceTheorems.deleting r = true -> b ∈ boxes w' ->
     b ∈ boxes w \/ box_name b <> container_name (resource_ref r)) ->
  (forall r d, cleared r d [Event c x] -> vacant (DockerClient_URL d) (container_name (resource_ref r)) (boxes w')) ->
  resource_run_ok w' k (Event c x :: h).
Proof.
  intros [H0 H1 H2] Hn Hr Hv Hb Hc. split.
  - intros r Hgot. apply (resource_got k _ r Hn). by apply last_got_happened.
  - destruct Hv as [Hv|(r & Hgot & Hdel & Hun)].
    2:{ right. exists r. split; [by eapply resource_last|done]. }
    destruct H1 as [H1|(r & Hgot & Hdel & Hun)]; [left|right].
    + intros s Hs. cbn [last_relationship ev_call ev_answer]. rewrite Hr.
      assert (Hs' : relationship_was s h).
      { apply Exists_cons in Hs as [Hs|Hs]; [|done]. simpl in Hs. congruence. }
      destruct (H1 s Hs') as [Hl Hvis]. split; [done|].
      intros v' Hin. destruct (Hv v' Hin) as (v & Hin' & Hk). etrans; [by apply Hvis|done].
    + exists r. split_and!; [by eapply resource_last|done|]. intros b Hin Hs E.
      destruct (Hb r b Hgot Hdel Hin) as [Hin'|Hne]; [by apply (Hun b)|]. apply Hne. by rewrite Hs, E.
  - intros r d Hgot Hdel [Hcl|Hcl]%Exists_cons.
    { apply Hc. by apply Exists_cons; left. }
    rewrite (own_last KTestResource k _ (resource_shape k) _ _ Hn) in Hgot.
    2:{ intros ->. by apply Exists_nil in Hcl. }
    intros b Hin [Hd Hname]. destruct (Hb r b Hgot Hdel Hin) as [Hin'|Hne]; [|done].
    by apply (H2 r d Hgot Hdel Hcl b Hin').
Qed.

(** A read of it. *)
Lemma resource_run_reads w w' k h key o newer older :
  resource_run_ok w k h -> next (ResourceCtl.Reconcile k) h (Get KRelationship key) (inr o) ->
  pairwise (fun new old => kept k old new) (visible w k) ->
  visible w k = newer ++ Relationship_Status o :: older ->
  visible w' k = newer ++ [Relationship_Status o] -> boxes w' = boxes w ->
  resource_run_ok w' k (Event (Get KRelationship key) (inr o) :: h).
Proof.
  intros [H0 H1 H2] Hn Hord Hvis Hvis' Hbox. rewrite Hvis in Hord. apply pairwise_app in Hord as (_ & _ & Hord).
  assert (Hin : forall v, v ∈ visible w' k -> v ∈ visible w k /\ kept k (Relationship_Status o) v).
  { intros v. rewrite Hvis', Hvis. intros [Hv| ->%list_elem_of_singleton]%elem_of_app.
    - split; [set_solver|]. apply Hord; [done|]. set_solver.
    - split; [set_solver|done]. }
  split.
  - intros r Hgot. apply (resource_got k _ r Hn). by apply last_got_happened.
  - destruct H1 as [H1|(r & Hgot & Hdel & Hun)]; [left|right].
    + intros s Hs. cbn [last_relationship ev_call ev_answer relationship_read].
      apply Exists_cons in Hs as [Hs|Hs].
      * injection Hs as <-. split; [done|]. intros v Hv. by apply Hin.
      * destruct (H1 s Hs) as [_ Hall].
        split; [apply Hall; rewrite Hvis; set_solver|]. intros v Hv. by apply Hall, Hin.
    + exists r. rewrite Hbox. by split_and!.
  - intros r d Hgot Hdel [Hcl|Hcl]%Exists_cons; [done|]. rewrite Hbox. by eapply H2.
Qed.

(** A call of the run of a request, given what it listed. *)
Lemma request_run_next w k h c x :
  request_run_ok w k h -> next (Scheduler.Reconcile k) h c x ->
  (forall r, listed r [Event c x] -> resource_ref r ∈ present w) ->
  (emptied k [Event c x] -> forall ref q, owner ref = Some q -> Namespaced q = k -> ref ∉ present w) ->
  (forall ref, well_named ref -> is_Some (bound (stored w) ref) ->
     ref ∈ present w -> exists q, owner ref = Some q /\ accepted q (stored w)) ->
  request_run_ok w k (Event c x :: h).
Proof.
  intros [H1 H2] Hn Hl He Ha.
  pose proof (own_last KTestResourceRequest k _ (request_shape k) _ _ Hn) as Hlast.
  split.
  - intros q0 r q Hgot Hlive [Hlr|Hlr]%Exists_cons Hn' Ho Hq.
    + assert (Hin : resource_ref r ∈ present w) by (apply Hl; apply Exists_cons; by left).
      split; [by left|]. intros Hb. destruct (Ha _ Hn' Hb Hin) as (q' & Ho' & Hacc). congruence.
    + rewrite Hlast in Hgot by (intros ->; by apply Exists_nil in Hlr). by apply (H1 q0 r q).
  - intros q0 q ref Hgot Hdel [Hem|Hem]%Exists_cons Hn' Ho Hq Hb.
    + eapply He; [apply Exists_cons; by left|done..].
    + rewrite Hlast in Hgot by (intros ->; by apply Exists_nil in Hem). by apply (H2 q0 q ref).
Qed.

(** ** Every step keeps it *)

Lemma all_runs (P : NamespacedName -> history -> Prop) runs k h :
  P k h -> (forall k', k' <> k -> P k' (runs k')) -> forall k', P k' (<[k := h]> runs k').
Proof.
  intros Hk Hother k'. destruct (decide (k = k')) as [<-|Hne]; [by rewrite fn_lookup_insert|].
  rewrite fn_lookup_insert_ne by done. by apply Hother.
Qed.

Lemma visible_kept w k v : inv w -> v ∈ visible w k -> kept k v (stored w).
Proof.
  intros Hi. destruct (inv_visible w Hi k) as [older E]. pose proof (inv_order w Hi k) as Ho. rewrite E in Ho |- *.
  intros [->|Hv]%elem_of_cons; [done|]. by apply Ho.
Qed.

Lemma stored_visible w k : inv w -> stored w ∈ visible w k.
Proof. intros Hi. destruct (inv_visible w Hi k) as [older ->]. by left. Qed.

Lemma order_store w k s : inv w -> kept k (stored w) s ->
  pairwise (fun new old => kept k old new) (s :: visible w k).
Proof.
  intros Hi Hk. split; [|by apply inv_order]. intros v Hv. etrans; [by apply visible_kept|done].
Qed.

(** A call of a run of a resource that does not change the relationship. *)
Lemma inv_resource_event w w' k c x :
  inv w -> stored w' = stored w -> present w' = present w -> gone w' = gone w -> request_runs w' = request_runs w ->
  resource_runs w' = <[k := Event c x :: resource_runs w k]> (resource_runs w) ->
  (forall k', k' <> k -> visible w' k' = visible w k') ->
  (exists older, visible w' k = stored w :: older) -> pairwise (fun new old => kept k old new) (visible w' k) ->
  (forall b, b ∈ boxes w' -> b ∈ boxes w \/ (serves b -> placed_box (stored w) b) /\
     forall ref, well_named ref -> Namespaced ref <> k -> box_name b <> container_name ref) ->
  resource_run_ok w' k (Event c x :: resource_runs w k) -> inv w'.
Proof.
  intros [I1 I2 I3 I4 I5 I6 I7 I8] Es Ep Eg Eq Er Hv Hhead Hord Hb Hrun. split; rewrite ?Es, ?Ep, ?Eg, ?Eq, ?Er; try done.
  - intros k'. destruct (decide (k' = k)) as [->|Hne]; [done|]. by rewrite Hv.
  - intros k'. destruct (decide (k' = k)) as [->|Hne]; [done|]. by rewrite Hv.
  - intros b Hin. destruct (Hb b Hin) as [Hin'|[Hp _]]; [by apply I5|done].
  - apply all_runs; [done|]. intros k' Hne. apply (resource_run_frame w); [done| |].
    { intros v Hin. rewrite Hv in Hin by done. by exists v. }
    intros b Hin. destruct (Hb b Hin) as [Hin'|[_ Hn]]; [by left|right]. intros ref Hw <-. by apply Hn.
  - intros k'. apply (request_run_frame w); [done|by rewrite Ep, Eg|by rewrite Es|by rewrite Es|by rewrite Ep].
Qed.

Lemma inv_resource_aside w k c x :
  inv w -> next (ResourceCtl.Reconcile k) (resource_runs w k) c x -> relationship_read c x = None ->
  (forall r d, cleared r d [Event c x] -> vacant (DockerClient_URL d) (container_name (resource_ref r)) (boxes w)) ->
  inv (goes_on_resource k c x w).
Proof.
  intros Hi Hn Hr Hc. apply (inv_resource_event w _ k c x); try done;
    [exact (inv_visible w Hi k)|exact (inv_order w Hi k)|by left|].
  apply (resource_run_next w); [by apply inv_resources|done|done|left; intros v Hv; by exists v|by left|done].
Qed.

Lemma inv_resource_reads w k key o newer older :
  inv w -> next (ResourceCtl.Reconcile k) (resource_runs w k) (Get KRelationship key) (inr o) ->
  visible w k = newer ++ Relationship_Status o :: older ->
  inv (goes_on_resource k (Get KRelationship key) (inr o) w
    <| visible ::= <[k := newer ++ [Relationship_Status o]]> |>).
Proof.
  intros Hi Hn Hv.
  assert (E : visible (goes_on_resource k (Get KRelationship key) (inr o) w
    <| visible ::= <[k := newer ++ [Relationship_Status o]]> |>) k = newer ++ [Relationship_Status o]).
  { simpl. by rewrite fn_lookup_insert. }
  apply (inv_resource_event w _ k (Get KRelationship key) (inr o)); try done; [| | |by left|].
  - intros k' Hne. simpl. by rewrite fn_lookup_insert_ne by done.
  - rewrite E. destruct (inv_visible w Hi k) as [older' E']. rewrite Hv in E'.
    destruct newer as [|v newer]; injection E' as -> _; by eexists.
  - rewrite E. pose proof (inv_order w Hi k) as Ho. rewrite Hv in Ho. apply pairwise_app in Ho as (Ho & _ & Hx).
    apply pairwise_app. split_and!; [done|by split; [set_solver|]|]. intros a b Ha ->%list_elem_of_singleton.
    apply Hx; [done|set_solver].
  - by apply (resource_run_reads w _ k _ key o newer older); [by apply inv_resources|done|by apply inv_order|done..].
Qed.

(** What the client of a run addresses: the machine the resource is bound to. *)
Lemma located_stored w k r d :
  inv w -> prefix (ResourceCtl.Reconcile k) (resource_runs w k) -> last_got KTestResource (resource_runs w k) = Some r ->
  located r d (resource_runs w k) ->
  (ResourceTheorems.deleting r = true /\ unserved r (boxes w)) \/
  exists mref, bound (stored w) (resource_ref r) = Some mref /\
    bound (last_relationship (resource_runs w k)) (resource_ref r) = Some mref /\
    address (Namespaced (MachineRef_Ref mref)) = Some (DockerClient_URL d).
Proof.
  intros Hi Hp Hgot Hloc. destruct (located_bound _ _ r d Hp Hloc) as (s & mref & Hs & Hb & Ha).
  destruct (inv_resources w Hi k) as [H0 [H1|(r' & Hgot' & Hdel & Hun)] _].
  - destruct (H1 s Hs) as [Hl Hv]. destruct (H0 r Hgot) as [Hk Hw]. right. exists mref.
    split_and!; [by apply (Hv (stored w) (stored_visible w k Hi))|by apply Hl|done].
  - left. rewrite Hgot in Hgot'. by injection Hgot' as <-.
Qed.

Lemma inv_resource_creates w k d cfg host name x r :
  inv w -> next (ResourceCtl.Reconcile k) (resource_runs w k) (ContainerCreate d cfg host name) x ->
  last_got KTestResource (resource_runs w k) = Some r ->
  inv (goes_on_resource k (ContainerCreate d cfg host name) x w
    <| boxes ::= cons (mkBox (DockerClient_URL d) name (resource_ref r) (HostConfig_CpusetCpus host)) |>).
Proof.
  intros Hi Hn Hgot. destruct (resource_create k _ d cfg host name x Hn) as (r' & Hgot' & Hk & Hw & Hloc & Hname).
  rewrite Hgot in Hgot'. injection Hgot' as <-.
  assert (Hplace : serves (mkBox (DockerClient_URL d) name (resource_ref r) (HostConfig_CpusetCpus host)) ->
    placed_box (stored w) (mkBox (DockerClient_URL d) name (resource_ref r) (HostConfig_CpusetCpus host))).
  { intros Hs. split; [done|]. destruct Hname as [(-> & Hlive & Hcpu)| ->]; [|by destruct (cleaner_apart r (resource_ref r) Hw Hw)].
    destruct (located_stored w k r d Hi (prefix_tail _ _ _ Hn) Hgot Hloc) as [[]|(mref & Hb & Hl & Ha)]; [congruence|].
    exists mref. split_and!; [done..|]. simpl. rewrite Hcpu. do 2 f_equal. unfold binding_in.
    change (bound_in (last_relationship (resource_runs w k)) r) with (bound (last_relationship (resource_runs w k)) (resource_ref r)).
    by rewrite Hl. }
  apply (inv_resource_event w _ k (ContainerCreate d cfg host name) x); try done;
    [exact (inv_visible w Hi k)|exact (inv_order w Hi k)|..].
  - intros b [->|Hb]%elem_of_cons; [right|by left]. split; [done|]. intros ref Hw' Hne E. simpl in E.
    destruct Hname as [(-> & _)| ->]; [|by destruct (cleaner_apart r ref Hw Hw')].
    apply Hne. rewrite <-Hk. by apply container_name_inj.
  - apply (resource_run_next w); [by apply inv_resources|done|done|left; intros v Hv; by exists v| |].
    2:{ by intros r' d' [[]|[]%Exists_nil]%Exists_cons. }
    intros r' b Hgot' Hdel [->|Hb]%elem_of_cons; [right|by left]. rewrite Hgot in Hgot'. injection Hgot' as <-.
    destruct Hname as [(_ & Hlive & _)| ->]; [congruence|]. by apply cleaner_apart.
Qed.

Lemma inv_resource_removes w k d name force x :
  inv w -> next (ResourceCtl.Reconcile k) (resource_runs w k) (ContainerRemove d name force) x ->
  inv (goes_on_resource k (ContainerRemove d name force) x w
    <| boxes ::= filter (fun b => ~ at_box (DockerClient_URL d) name b) |>).
Proof.
  intros Hi Hn. apply (inv_resource_event w _ k (ContainerRemove d name force) x); try done;
    [exact (inv_visible w Hi k)|exact (inv_order w Hi k)|..].
  - intros b [_ Hb]%list_elem_of_filter. by left.
  - apply (resource_run_next w); [by apply inv_resources|done|done|left; intros v Hv; by exists v| |].
    + intros r b _ _ [_ Hb]%list_elem_of_filter. by left.
    + intros r d' [(-> & -> & _)|[]%Exists_nil]%Exists_cons b [Hb _]%list_elem_of_filter. done.
Qed.

(** A write that unbinds the resource of the run. *)
Lemma inv_resource_stores w k o x :
  inv w -> next (ResourceCtl.Reconcile k) (resource_runs w k) (StatusUpdate KRelationship o) x ->
  last_relationship (resource_runs w k) = stored w ->
  inv (goes_on_resource k (StatusUpdate KRelationship o) x (store (Relationship_Status o) w)
    <| visible ::= <[k := [Relationship_Status o]]> |>).
Proof.
  intros Hi Hn Hlast.
  destruct (resource_write k _ o x Hn) as (Hsteps & r & d & Hgot & Hdel & Hk & Hw & Hloc & Hcl & Hrtm & Hacc).
  rewrite Hlast in Hsteps, Hrtm, Hacc. set (s' := Relationship_Status o) in *.
  assert (Hlook : forall key, go_lookup (ResourceToMachine s') key =
    if decide (key = Key (resource_ref r)) then None else go_lookup (ResourceToMachine (stored w)) key).
  { intros key. rewrite Hrtm. unfold go_lookup, go_delete, go_map.
    destruct (ResourceToMachine (stored w)) as [m|]; simpl; [|by case_decide].
    case_decide as E; [subst key; by rewrite lookup_delete_eq|by rewrite lookup_delete_ne]. }
  assert (Hback : forall ref mref, bound s' ref = Some mref -> bound (stored w) ref = Some mref).
  { intros ref mref. unfold bound. rewrite Hlook. by case_decide. }
  assert (Hother : forall ref, well_named ref -> ref <> resource_ref r -> bound s' ref = bound (stored w) ref).
  { intros ref Hw' Hne. unfold bound. rewrite Hlook. case_decide as E; [|done].
    apply Key_inj_slash_free in E; [done|apply Hw'|apply Hw]. }
  assert (Hun : unserved r (boxes w)).
  { destruct (located_stored w k r d Hi (prefix_tail _ _ _ Hn) Hgot Hloc) as [[_ Hun]|(mref & Hb & _ & Ha)]; [done|].
    intros b Hin Hs E. destruct (inv_boxes w Hi b Hin Hs) as (_ & mref' & Hb' & Ha' & _).
    rewrite E, Hb in Hb'. injection Hb' as <-. apply (run_cleared w k _ (inv_resources w Hi k) r d Hgot Hdel Hcl b Hin).
    split; [congruence|]. by rewrite Hs, E. }
  assert (Hacc' : forall q, accepted q s' <-> accepted q (stored w)) by (intros q; unfold accepted; by rewrite Hacc).
  assert (Hkept : forall k', k' <> k -> kept k' (stored w) s').
  { intros k' Hne ref mref Hw' Hk' Hb. rewrite Hother; [done..|]. intros ->. congruence. }
  pose proof Hi as [I1 I2 _ _ I5 I6 I7 I8]. split; simpl.
  - by eapply Ledger.steps_inv.
  - intros key mref. rewrite Hlook. case_decide; [done|]. apply I2.
  - intros k'. destruct (decide (k = k')) as [<-|Hne]; [rewrite fn_lookup_insert|rewrite fn_lookup_insert_ne by done]; by eexists.
  - intros k'. destruct (decide (k = k')) as [<-|Hne]; [rewrite fn_lookup_insert|rewrite fn_lookup_insert_ne by done].
    + split; [set_solver|done].
    + apply (order_store w k'); [done|]. by apply Hkept.
  - intros b Hin Hs. destruct (I5 b Hin Hs) as (Hw' & mref & Hb & ?). split; [done|]. exists mref.
    split; [|done]. rewrite Hother; [done..|]. by apply Hun.
  - intros ref Hw' [mref Hb%Hback]. destruct (I6 ref Hw') as [Hin Ho]; [by eexists|]. split; [done|].
    intros Hpr. destruct (Ho Hpr) as (q & Hq & Ha). exists q. split; [done|]. by apply Hacc'.
  - apply all_runs.
    + apply (resource_run_next w); [apply I7|done|done|right; by exists r|by left|].
      by intros r' d' [[]|[]%Exists_nil]%Exists_cons.
    + intros k' Hne. apply (resource_run_frame w); [apply I7| |by left].
      simpl. rewrite fn_lookup_insert_ne by done. intros v [->|Hv]%elem_of_cons; [|by exists v].
      exists (stored w). split; [by apply stored_visible|]. by apply Hkept.
  - intros k'. apply (request_run_frame w); [apply I8|done| |by intros q _ ?; apply Hacc'|done].
    intros ref q _ _ _ [mref Hb%Hback]. by eexists.
Qed.

(** A write that binds nothing otherwise than it was. *)
Lemma inv_store w s' :
  inv w -> Ledger.steps (stored w) s' -> (forall k, kept k (stored w) s') ->
  (forall key mref, go_lookup (ResourceToMachine s') key = Some mref ->
     Ref_UID (MachineRef_Ref mref) = machine_uid (Namespaced (MachineRef_Ref mref))) ->
  (forall ref, well_named ref -> is_Some (bound s' ref) ->
     (ref ∈ present w \/ ref ∈ gone w) /\ (ref ∈ present w -> exists q, owner ref = Some q /\ accepted q s')) ->
  (forall k, request_run_ok (store s' w) k (request_runs w k)) -> inv (store s' w).
Proof.
  intros Hi Hsteps Hk Hknown Halive Hreq. pose proof Hi as [I1 _ _ _ I5 _ I7 _]. split; simpl; try done.
  - by eapply Ledger.steps_inv.
  - by eexists.
  - intros k. by apply order_store.
  - intros b Hin Hs. destruct (I5 b Hin Hs) as (Hw & mref & Hb & ?). split; [done|]. exists mref.
    split; [|done]. by eapply Hk.
  - intros k. apply (resource_run_frame w); [apply I7| |by left].
    intros v [->|Hv]%elem_of_cons; [exists (stored w); split; [by apply stored_visible|done]|by exists v].
Qed.

Lemma inv_same_bindings w s' :
  inv w -> Ledger.steps (stored w) s' -> same_bindings (stored w) s' -> inv (store s' w).
Proof.
  intros Hi Hsteps [Hb Ha]. apply inv_store; [done|done|..].
  - intros k ref mref _ _. unfold bound. by rewrite Hb.
  - intros key mref. rewrite Hb. by apply inv_known.
  - intros ref Hw. unfold bound. rewrite Hb. intros Hr. destruct (inv_alive w Hi ref Hw Hr) as [Hin Ho].
    split; [done|]. intros Hp. destruct (Ho Hp) as (q & Hq & Hq'). exists q. split; [done|]. by apply Ha.
  - intros k. apply (request_run_frame w); [by apply inv_requests|done| | |done].
    + intros ref q _ _ _. unfold bound. simpl. by rewrite Hb.
    + intros q _ Hq. by apply Ha.
Qed.

(** The run of a request goes on: the world is as it was. *)
Lemma inv_request_event w k c x :
  inv w -> next (Scheduler.Reconcile k) (request_runs w k) c x ->
  (forall r, listed r [Event c x] -> resource_ref r ∈ present w) ->
  (emptied k [Event c x] -> forall ref q, owner ref = Some q -> Namespaced q = k -> ref ∉ present w) ->
  inv (goes_on_request k c x w).
Proof.
  intros Hi Hn Hl He. pose proof Hi as [I1 I2 I3 I4 I5 I6 I7 I8]. split; simpl; try done.
  - intros k'. apply (resource_run_frame w); [done|intros v Hv; by exists v|by left].
  - apply all_runs.
    + apply (request_run_frame w); [|by auto..]. apply request_run_next; [done|done|done|done|].
      intros ref Hw Hb. by apply I6.
    + intros k' _. by apply (request_run_frame w); [|auto..].
Qed.

Lemma inv_request_accepts w k o x q :
  inv w -> next (Scheduler.Reconcile k) (request_runs w k) (StatusUpdate KRelationship o) x ->
  Ledger.steps (stored w) (Relationship_Status o) -> last_got KTestResourceRequest (request_runs w k) = Some q ->
  Namespaced (request_ref q) = k -> SchedulerTheorems.deleting q = false ->
  accepts (request_ref q) (request_runs w k) (stored w) (Relationship_Status o) ->
  inv (store (Relationship_Status o) (goes_on_request k (StatusUpdate KRelationship o) x w)).
Proof.
  intros Hi Hn Hsteps Hgot Hk Hlive (Hacc & Hnew & Hb). set (s' := Relationship_Status o) in *.
  assert (Hi' : inv (goes_on_request k (StatusUpdate KRelationship o) x w)).
  { apply inv_request_event; [done|done|..].
    - by intros r [[]|[]%Exists_nil]%Exists_cons.
    - by intros [[]|[]%Exists_nil]%Exists_cons. }
  assert (Haccepted : forall q', accepted q' s' <-> accepted q' (stored w) \/ q' = request_ref q).
  { intros q'. unfold accepted. rewrite Hacc. simpl. set_solver. }
  assert (Hbound : forall ref, well_named ref -> bound s' ref = bound (stored w) ref \/
    (bound (stored w) ref = None /\ owner ref = Some (request_ref q) /\ (ref ∈ present w \/ ref ∈ gone w))).
  { intros ref Hw. destruct (Hb (Key ref)) as [?|(r & m & b & Hl & Ho & Hw' & E & _)]; [by left|right].
    apply Key_inj_slash_free in E as <-; [|apply Hw'|apply Hw].
    destruct (run_listed w k _ (inv_requests w Hi k) q r (request_ref q) Hgot Hlive Hl Hw Ho Hk) as [Hin Ha].
    split; [|done]. destruct (bound (stored w) (resource_ref r)); [|done]. by destruct Hnew; apply Ha. }
  apply inv_store; [done|done|..].
  - intros k' ref mref Hw _ Href. destruct (Hbound ref Hw) as [->|[E _]]; [done|]. simpl in Href. congruence.
  - intros key mref E. destruct (Hb key) as [E'|(r & m & b & _ & _ & _ & _ & [_ Hm] & E')].
    + rewrite E' in E. by eapply (inv_known w).
    + rewrite E' in E. injection E as <-. exact Hm.
  - intros ref Hw Href. destruct (Hbound ref Hw) as [E|(_ & Ho & Hin)].
    + rewrite E in Href. destruct (inv_alive w Hi ref Hw Href) as [Hin Ho]. split; [done|]. intros Hp.
      destruct (Ho Hp) as (q' & Hq' & Ha). exists q'. split; [done|]. apply Haccepted. by left.
    + split; [done|]. intros _. exists (request_ref q). split; [done|]. apply Haccepted. by right.
  - intros k'. simpl. revert k'. apply all_runs.
    + split.
      * intros q0 r q1 _ _ Hl Hw Ho Hq1. apply Exists_cons in Hl as [[]|Hl].
        destruct (run_listed w k _ (inv_requests w Hi k) q r q1 Hgot Hlive Hl Hw Ho Hq1) as [Hin Ha].
        split; [done|]. intros Href. apply Haccepted. destruct (Hbound _ Hw) as [E|(_ & Ho' & _)].
        -- left. apply Ha. by rewrite <-E.
        -- right. congruence.
      * intros q0 q1 ref Hgot' Hdel. simpl in Hgot'. rewrite Hgot in Hgot'. injection Hgot' as <-. congruence.
    + intros k' Hne. apply (request_run_frame w); [by apply inv_requests|done| |intros; apply Haccepted; by left|done].
      intros ref q' Hw Ho Hq' Href. destruct (Hbound ref Hw) as [E|(_ & Ho' & _)]; [by rewrite <-E|].
      destruct Hne. rewrite Ho' in Ho. injection Ho as <-. by rewrite <-Hq'.
Qed.

Lemma inv_request_releases w k o x q :
  inv w -> next (Scheduler.Reconcile k) (request_runs w k) (StatusUpdate KRelationship o) x ->
  Ledger.steps (stored w) (Relationship_Status o) -> last_got KTestResourceRequest (request_runs w k) = Some q ->
  Namespaced (request_ref q) = k -> SchedulerTheorems.deleting q = true -> emptied k (request_runs w k) ->
  releases (request_ref q) (stored w) (Relationship_Status o) ->
  inv (store (Relationship_Status o) (goes_on_request k (StatusUpdate KRelationship o) x w)).
Proof.
  intros Hi Hn Hsteps Hgot Hk Hdel Hem (Hacc & Hrtm). set (s' := Relationship_Status o) in *.
  assert (Hi' : inv (goes_on_request k (StatusUpdate KRelationship o) x w)).
  { apply inv_request_event; [done|done|..].
    - by intros r [[]|[]%Exists_nil]%Exists_cons.
    - by intros [[]|[]%Exists_nil]%Exists_cons. }
  assert (Hb : forall ref, bound s' ref = bound (stored w) ref) by (intros ref; unfold bound; by rewrite Hrtm).
  assert (Haccepted : forall q', accepted q' s' <-> accepted q' (stored w) /\ q' <> request_ref q).
  { intros q'. unfold accepted. rewrite Hacc. apply elem_of_Remove. }
  apply inv_store; [done|done|..].
  - intros k' ref mref _ _. by rewrite Hb.
  - intros key mref. rewrite Hrtm. by apply (inv_known w).
  - intros ref Hw. rewrite Hb. intros Href. destruct (inv_alive w Hi ref Hw Href) as [Hin Ho]. split; [done|].
    intros Hp. destruct (Ho Hp) as (q' & Hq' & Ha). exists q'. split; [done|]. apply Haccepted. split; [done|].
    intros ->. by apply (run_emptied w k _ (inv_requests w Hi k) q (request_ref q) ref Hgot Hdel Hem Hw Hq' Hk Href).
  - intros k'. simpl. revert k'. apply all_runs.
    + split.
      * intros q0 r q1 Hgot' Hlive. simpl in Hgot'. rewrite Hgot in Hgot'. injection Hgot' as <-. congruence.
      * intros q0 q1 ref _ _ He Hw Ho Hq1. simpl. rewrite Hb. intros Href. apply Exists_cons in He as [[]|He].
        by apply (run_emptied w k _ (inv_requests w Hi k) q q1 ref).
    + intros k' Hne. apply (request_run_frame w); [by apply inv_requests|done| | |done].
      * intros ref q' _ _ _. simpl. by rewrite Hb.
      * intros q' Hq' Ha. apply Haccepted. split; [done|]. intros ->. congruence.
Qed.

Lemma honest_read_fails key e : honest (Get KRelationship key) (inl e) -> relationship_read (Get KRelationship key) (inl e) = None.
Proof. intros [_ He]. simpl. by rewrite (He e eq_refl). Qed.

Lemma next_honest {A} (p : io A) h c x : next p h c x -> honest c x.
Proof. intros Hn%prefix_honest. by apply Forall_inv in Hn. Qed.

Lemma inv_step w w' : step w w' -> inv w -> inv w'.
Proof.
  intros Hstep Hi. destruct Hstep as
    [k|k|k key o newer older Hn Hv|k o x Hn Hl|k d cfg host name x r Hn Hgot _|k d name force x Hn
    |k d name err Hn _ Hvac|k c x Hn Hc|k o x Hn Hl|k ns by_owner x Hn Hp Ho|k c x Hn Hc|p o x h Hp Hn Hl
    |ref Hp Hg|ref|l Hsub].
  - pose proof Hi as [I1 I2 I3 I4 I5 I6 I7 I8]. split; simpl; try done.
    + apply all_runs; [apply resource_run_nil|]. intros k' _. apply (resource_run_frame w); [done|intros v ?; by exists v|by left].
    + intros k'. by apply (request_run_frame w); [|auto..].
  - pose proof Hi as [I1 I2 I3 I4 I5 I6 I7 I8]. split; simpl; try done.
    + intros k'. apply (resource_run_frame w); [done|intros v ?; by exists v|by left].
    + apply all_runs; [apply request_run_nil|]. intros k' _. by apply (request_run_frame w); [|auto..].
  - by eapply inv_resource_reads.
  - by apply inv_resource_stores.
  - by apply inv_resource_creates.
  - by apply inv_resource_removes.
  - apply inv_resource_aside; [done|done|done|].
    intros r d' [(-> & -> & _)|[]%Exists_nil]%Exists_cons. done.
  - pose proof (next_honest _ _ _ _ Hn) as Hh. apply inv_resource_aside; [done|done|..].
    + destruct c; try done. destruct k0; try done. destruct x as [e|o]; [by apply honest_read_fails|].
      by destruct (Hc eq_refl).
    + intros r d [Hcl|[]%Exists_nil]%Exists_cons. destruct c; try done; simpl in Hcl.
      * destruct Hcl as (_ & _ & e & -> & He). simpl in Hc. congruence.
      * by destruct Hcl as (_ & _ & ->).
  - destruct (request_write k _ o x Hn) as (Hsteps & q & Hgot & Hk & Hw). rewrite Hl in Hsteps, Hw.
    change (goes_on_request k (StatusUpdate KRelationship o) x (store (Relationship_Status o) w))
      with (store (Relationship_Status o) (goes_on_request k (StatusUpdate KRelationship o) x w)).
    destruct Hw as [[Hlive Ha]|(Hdel & He & Hr)]; [by eapply inv_request_accepts|by eapply inv_request_releases].
  - apply inv_request_event; [done|done|..].
    + intros r [Hr|[]%Exists_nil]%Exists_cons. apply Hp. by destruct by_owner.
    + intros [He|[]%Exists_nil]%Exists_cons. simpl in He. destruct He as (-> & -> & ->). intros ref q Hq <- Hin.
      by destruct (Ho _ _ ref q eq_refl eq_refl eq_refl Hin Hq) as (r & ?%not_elem_of_nil & _).
  - apply inv_request_event; [done|done|..].
    + intros r [Hr|[]%Exists_nil]%Exists_cons. destruct c; try done. by destruct k0.
    + intros [He|[]%Exists_nil]%Exists_cons. destruct c; try done. by destruct k0.
  - destruct (bystander_write p h o x Hp Hn) as [Hsteps Hsame]. rewrite Hl in Hsteps, Hsame.
    by apply inv_same_bindings.
  - pose proof Hi as [I1 I2 I3 I4 I5 I6 I7 I8]. split; simpl; try done.
    + intros ref' Hw Hb. destruct (I6 ref' Hw Hb) as [Hin Ho]. split; [set_solver|].
      intros [->|Hin']%elem_of_cons; [by destruct Hin|by apply Ho].
    + intros k'. apply (resource_run_frame w); [done|intros v ?; by exists v|by left].
    + intros k'. apply (request_run_frame w); simpl; [done|set_solver|done|done|].
      intros ref' Hw Hb [->|Hin']%elem_of_cons; [by destruct (I6 ref Hw Hb) as [[]]|done].
  - pose proof Hi as [I1 I2 I3 I4 I5 I6 I7 I8].
    assert (Hmoved : forall ref', ref' ∈ present w \/ ref' ∈ gone w ->
      ref' ∈ filter (fun x => x <> ref) (present w) \/ ref' ∈ ref :: gone w).
    { intros ref' Hin. destruct (decide (ref' = ref)) as [->|Hne]; [right; by left|].
      rewrite list_elem_of_filter, elem_of_cons. naive_solver. }
    split; simpl; try done.
    + intros ref' Hw Hb. destruct (I6 ref' Hw Hb) as [Hin Ho]. split; [by apply Hmoved|].
      intros [_ Hin']%list_elem_of_filter. by apply Ho.
    + intros k'. apply (resource_run_frame w); [done|intros v ?; by exists v|by left].
    + intros k'. apply (request_run_frame w); simpl; [done|exact Hmoved|done|done|].
      by intros ref' _ _ [_ Hin']%list_elem_of_filter.
  - pose proof Hi as [I1 I2 I3 I4 I5 I6 I7 I8]. split; simpl; try done.
    + intros b Hin. apply I5. by apply Hsub.
    + intros k'. apply (resource_run_frame w); [done|intros v ?; by exists v|]. intros b Hin. left. by apply Hsub.
    + intros k'. by apply (request_run_frame w); [|auto..].
Qed.

Lemma reachable_inv w : rtc step start w -> inv w.
Proof. intros H. eapply (rtc_ind_r inv); [apply inv_at_start| |exact H]. intros w1 w2 _ Hstep. by apply inv_step. Qed.

(** Two resources bound to one machine are kept apart by the relationship. *)
Lemma bound_apart w ref1 ref2 m1 m2 :
  inv w -> well_named ref1 -> well_named ref2 -> ref1 <> ref2 ->
  bound (stored w) ref1 = Some m1 -> bound (stored w) ref2 = Some m2 ->
  MachineRef_Ref m1 = MachineRef_Ref m2 ->
  NoDup (ResourceBinding_CPUSet (MachineRef_Binding m1)) /\
  (forall c, c ∈ ResourceBinding_CPUSet (MachineRef_Binding m1) -> c ∉ ResourceBinding_CPUSet (MachineRef_Binding m2)).
Proof.
  intros Hi Hw1 Hw2 Hne H1 H2 Hm. pose proof (inv_ledger w Hi) as [L1 L2 L3].
  destruct (L3 _ _ H1) as (r1 & Hin1 & Hk1 & Hb1). destruct (L3 _ _ H2) as (r2 & Hin2 & Hk2 & Hb2).
  rewrite Hm in Hin1. rewrite <-Hb1, <-Hb2.
  assert (Hr : r1 <> r2).
  { intros ->. rewrite Hk1 in Hk2. apply Hne. eapply Key_inj_slash_free; [apply Hw1|apply Hw2|done]. }
  split; [exact (L1 _ _ Hin1)|]. intros c Hc1 Hc2.
  destruct (pairwise_elem _ _ r1 r2 (L2 (Key (MachineRef_Ref m2))) Hin1 Hin2 Hr) as [[Ha _]|[Ha _]].
  - by apply (Ha c).
  - by apply (Ha c).
Qed.

(** C4. Isolation: whatever the order in which the runs of the reconcilers make their calls, and
    however late the caches show a change of the relationship, two containers that run two
    resources on one daemon are pinned to sets of cores that have no core in common. (The set of
    a resource that asked for no core is empty; see [coreless_unpinned].) *)
Theorem containers_share_no_core w b1 b2 :
  rtc step start w -> b1 ∈ boxes w -> b2 ∈ boxes w -> serves b1 -> serves b2 ->
  box_daemon b1 = box_daemon b2 -> box_of b1 <> box_of b2 ->
  exists cpus1 cpus2, box_cpus b1 = Machine.cpuSetStr cpus1 /\ box_cpus b2 = Machine.cpuSetStr cpus2 /\
    NoDup cpus1 /\ forall c, c ∈ cpus1 -> c ∉ cpus2.
Proof.
  intros Hi%reachable_inv Hin1 Hin2 Hs1 Hs2 Hd Hne.
  destruct (inv_boxes w Hi b1 Hin1 Hs1) as (Hw1 & m1 & Hb1 & Ha1 & ->).
  destruct (inv_boxes w Hi b2 Hin2 Hs2) as (Hw2 & m2 & Hb2 & Ha2 & ->).
  do 2 eexists. split; [done|]. split; [done|]. apply (bound_apart w (box_of b1) (box_of b2)); try done.
  rewrite <-Hd in Ha2. pose proof (address_inj _ _ _ Ha1 Ha2) as E.
  pose proof (inv_known w Hi _ _ Hb1) as U1. pose proof (inv_known w Hi _ _ Hb2) as U2. rewrite <-E, <-U1 in U2.
  destruct (MachineRef_Ref m1), (MachineRef_Ref m2). unfold Namespaced in E. simpl in *. congruence.
Qed.

(** What the hypotheses leave out. A resource that asks for no core, which no webhook refuses, is
    given the empty set, and its container the empty string, by which Docker pins nothing. *)
Lemma coreless_unpinned r binding cpuSet :
  TestResourceSpec_Cores (TestResource_Spec r) = 0 ->
  ResourceBinding_CPUSet binding = pickCpuSet cpuSet (TestResourceSpec_Cores (TestResource_Spec r)) ->
  HostConfig_CpusetCpus zeroHostConfig = Machine.cpuSetStr (ResourceBinding_CPUSet binding).
Proof. intros -> ->. unfold pickCpuSet. by destruct (_ <? _). Qed.

(** A resource may be named like the cleaner of another one: they then share a container. *)
Lemma cleaner_shares_name r r' :
  ObjectMeta_Namespace (TestResource_ObjectMeta r') = ObjectMeta_Namespace (TestResource_ObjectMeta r) ->
  TestResource_Name r' = TestResource_Name r +:+ "-cleaner" ->
  TestResource.ContainerName r' = TestResource.ContainerCleanerName r.
Proof. unfold TestResource.ContainerName, TestResource.ContainerCleanerName. by intros -> ->. Qed.

(** ** Whole runs *)

(** The two worlds differ in the run of one resource, and in how much of the past it may see. *)
Record same_but_run (k : NamespacedName) (w w' : world) : Prop := {
  same_stored : stored w' = stored w;
  same_boxes : boxes w' = boxes w;
  same_present : present w' = present w;
  same_runs k' : k' <> k -> resource_runs w' k' = resource_runs w k';
  same_visible k' : exists older, visible w' k' = stored w :: older;
}.

(** An event that leaves the world as it is: the latest relationship is read, no container is
    found where there is none. *)
Definition sync (w : world) (e : event answer) : Prop :=
  match ev_call e as c return answer c -> Prop with
  | Get KRelationship _ => fun x => exists o, x = inr o /\ Relationship_Status o = stored w
  | ContainerInspect d name => fun x => exists e, x = inl e /\ IsErrContainerNotFound e = true /\
      vacant (DockerClient_URL d) name (boxes w)
  | c => aside c
  end (ev_answer e).

Lemma resource_run_steps w k new :
  resource_runs w k = [] -> (forall k', exists older, visible w k' = stored w :: older) ->
  prefix (ResourceCtl.Reconcile k) new -> Forall (sync w) new ->
  exists w', rtc step w w' /\ same_but_run k w w' /\ resource_runs w' k = new.
Proof.
  intros Hnil Hv Hp Hs. induction new as [|[c x] new IH]; [exists w; by split_and!|].
  apply list.Forall_cons in Hs as [He Hs].
  destruct (IH (prefix_tail _ _ _ Hp) Hs) as (w1 & Hsteps & [E1 E2 E3 E4 E5] & Hrun).
  assert (Hn : next (ResourceCtl.Reconcile k) (resource_runs w1 k) c x) by by rewrite Hrun.
  assert (Haside : step w1 (goes_on_resource k c x w1) ->
    exists w', rtc step w w' /\ same_but_run k w w' /\ resource_runs w' k = Event c x :: new).
  { intros Hstep. eexists. split; [by eapply rtc_r|]. simpl. rewrite fn_lookup_insert, Hrun. split; [|done].
    split; simpl; [done..| |done]. intros k' Hne. rewrite fn_lookup_insert_ne by done. by apply E4. }
  destruct c; try (apply Haside; by apply resource_calls).
  - destruct k0; try (apply Haside; by apply resource_calls). unfold sync in He. cbn [ev_call ev_answer] in He.
    destruct He as (o & -> & Ho).
    destruct (E5 k) as [older Hvis]. rewrite <-Ho in Hvis. eexists. split.
    { eapply rtc_r; [exact Hsteps|]. by apply (resource_reads w1 k key o [] older). }
    simpl. rewrite fn_lookup_insert, Hrun. split; [|done]. split; simpl; [done..| |].
    + intros k' Hne. rewrite fn_lookup_insert_ne by done. by apply E4.
    + intros k'. destruct (decide (k = k')) as [<-|Hne]; [rewrite fn_lookup_insert, Ho; by eexists|].
      rewrite fn_lookup_insert_ne by done. by apply E5.
  - unfold sync in He. cbn [ev_call ev_answer] in He. destruct He as (e & -> & He & Hvac). apply Haside. apply resource_misses; [done..|]. by rewrite E2.
Qed.

(** The same for a request: its lists show the resources that are present. *)
Definition calm (w : world) (e : event answer) : Prop :=
  match ev_call e as c return answer c -> Prop with
  | List KTestResource _ _ => fun x => forall ref, ref ∈ present w <-> ref ∈ resource_ref <$> x.2
  | StatusUpdate k _ => fun _ => k <> KRelationship
  | _ => fun _ => True
  end (ev_answer e).

Lemma request_run_steps w k new :
  request_runs w k = [] -> prefix (Scheduler.Reconcile k) new -> Forall (calm w) new ->
  exists w', rtc step w w' /\ stored w' = stored w /\ boxes w' = boxes w /\ present w' = present w /\
    resource_runs w' = resource_runs w /\ visible w' = visible w /\ request_runs w' k = new.
Proof.
  intros Hnil Hp Hs. induction new as [|[c x] new IH]; [exists w; by split_and!|].
  apply list.Forall_cons in Hs as [He Hs].
  destruct (IH (prefix_tail _ _ _ Hp) Hs) as (w1 & Hsteps & E1 & E2 & E3 & E4 & E5 & Hrun).
  assert (Hn : next (Scheduler.Reconcile k) (request_runs w1 k) c x) by by rewrite Hrun.
  exists (goes_on_request k c x w1). simpl. rewrite fn_lookup_insert, Hrun. split_and!; [|done..].
  eapply rtc_r; [exact Hsteps|]. destruct c; try by apply request_calls.
  - unfold calm in He. cbn [ev_call ev_answer] in He. destruct k0; try by apply request_calls. apply request_lists; [done|..]; rewrite E3.
    + intros r Hr. apply He, list_elem_of_fmap. by exists r.
    + intros space name ref q _ _ _ Hin _ _. apply He, list_elem_of_fmap in Hin as (r & -> & Hr). by exists r.
  - unfold calm in He. cbn [ev_call ev_answer] in He. destruct k0; by apply request_calls.
Qed.

End invariant.

(** ** An example: two resources of a request on one machine *)

Module IsolationExample.

Definition meta (name uid : string) : ObjectMeta :=
  zeroMeta <| ObjectMeta_Namespace := "default" |> <| ObjectMeta_Name := name |> <| ObjectMeta_UID := uid |>.

Definition machine : Machine :=
  mkMachine (meta "m" "mu") (mkMachineSpec "h" 2375 "1.25" false (Some (mkReserveResources 1 "1")) [])
    (mkMachineStatus MachineReady 0 (Some (mkMachineInfo "x86_64" 4 "0001" ∅)) 0).

Definition spec : TestResourceSpec := mkTestResourceSpec "1" 1 "" ∅ "".

Definition request : TestResourceRequest :=
  mkTestResourceRequest ((meta "q" "qu") <| ObjectMeta_Finalizers := [requestFinalizer] |>)
    (mkTestResourceRequestSpec [] [mkResourceRequestItem "a" spec; mkResourceRequestItem "b" spec])
    TestResourceRequestPending.

(** A resource that waits to be bound, and then, claimed for a container. *)
Definition waiting (name uid : string) : TestResource :=
  zeroTestResource
    <| TestResource_ObjectMeta := (meta name uid) <| ObjectMeta_Finalizers := [ResourceCtl.resourceFinalizer] |>
         <| ObjectMeta_Controller := Some (mkOwnerReference "" "TestResourceRequest" "q" "qu") |> |>
    <| TestResource_Spec := spec |>
    <| TestResource_Status ::= fun s => s <| TestResourceStatus_State := ResourcePending |> |>.
Definition resource (name uid : string) : TestResource :=
  (waiting name uid)
    <| TestResource_Status ::= fun s => s <| TestResourceStatus_State := ResourceUninitialized |>
         <| TestResourceStatus_Phase := ResourcePhasePending |>
         <| TestResourceStatus_Container ::= fun c => c <| ContainerSpec_Image := "app" |> |> |>.
Definition a : TestResource := resource "a" "ua".
Definition b : TestResource := resource "b" "ub".

#[local] Instance site : Site.
Proof.
  refine {|
    address := fun k => if decide (k = mkNamespacedName "default" "m") then Some (Machine.DockerURL machine) else None;
    machine_uid := fun _ => "mu"; request_with := fun _ => request_ref request;
    owner := fun _ => Some (request_ref request) |}.
  - intros k k' u. by repeat case_decide; subst.
  - done.
Defined.

(** The services: they answer with these objects, and the relationship as it is given. *)
Definition serve (s : RelationshipStatus) (r : TestResource) (c : call) : answer c :=
  match c return answer c with
  | Get KTestResource _ => inr r
  | Get KTestResourceRequest _ => inr request
  | Get KMachine _ => inr machine
  | Get KRelationship _ => inr (zeroRelationship <| Relationship_Status := s |>)
  | StatusUpdate _ o => inr o
  | List KTestResource _ _ => (None, [waiting "a" "ua"; waiting "b" "ub"])
  | List KMachine _ _ => (None, [machine])
  | DockerNewClient url version => inr (mkDockerClient url version)
  | ContainerInspect _ _ => inl (External (mkExtError "no such container" false false true true true))
  | ContainerCreate _ _ _ _ => inr []
  | ImageInspect _ _ => None
  | c => refuse c
  end.

(** The calls they answer honestly. *)
Definition answerable (r : TestResource) (c : call) : bool :=
  match c with
  | Get KTestResource key => bool_decide (key = Namespaced (resource_ref r))
  | Get KTestResourceRequest key => bool_decide (key = Namespaced (request_ref request))
  | Get KMachine key => bool_decide (key = Namespaced (machine_ref machine))
  | RandIntn _ => false
  | SortMachines _ l => (length l <=? 1)%nat
  | SSHDial _ _ _ _ => false
  | _ => true
  end.

Definition run_of {A} (s : RelationshipStatus) (r : TestResource) (p : io A) : history :=
  fst (replay (fun _ => serve s r) p []).

Lemma example_named name uid :
  strs.free_of "/" name -> strs.free_of "/" uid -> (String.length name <= 7)%nat -> well_named (mkRef "default" name uid).
Proof.
  intros Hn Hu Hl. split; simpl.
  - split; [|done]. vm_compute. repeat split; congruence.
  - vm_compute. repeat split; congruence.
  - intros n ->. assert (E : String.length (n +:+ "-cleaner") = (String.length n + 8)%nat) by (clear; induction n; simpl; congruence). lia.
Qed.

Lemma named_a : well_named (resource_ref a).
Proof. apply example_named; [by vm_compute|by vm_compute|simpl; lia]. Qed.
Lemma named_b : well_named (resource_ref b).
Proof. apply example_named; [by vm_compute|by vm_compute|simpl; lia]. Qed.

Lemma machine_known : known machine.
Proof. by split. Qed.

Lemma serve_honest s r c : well_named (resource_ref r) -> answerable r c = true -> honest c (serve s r c).
Proof.
  intros Hw Hc. split.
  - destruct c; try done; simpl; [reflexivity..|]. split; [reflexivity|]. simpl in Hc.
    destruct l as [|m [|m' l]]; [constructor|by repeat constructor|done].
  - destruct c; try exact I; try (by destruct k).
    + destruct k; simpl in *; try done.
      * intros m [= <-]. apply bool_decide_eq_true in Hc as ->. split; [done|apply machine_known].
      * intros r' [= <-]. apply bool_decide_eq_true in Hc as ->. done.
      * intros q [= <-]. apply bool_decide_eq_true in Hc as ->. done.
    + destruct k; simpl in *; try done.
      * intros m ->%list_elem_of_singleton. apply machine_known.
      * intros r' [->|[->|[]%elem_of_nil]%elem_of_cons]%elem_of_cons; (split; [|by intros o [= <-]]);
          [apply named_a|apply named_b].
    + by intros d [= <-].
    + by intros e [= <-].
    + by intros e [= <-].
Qed.

Lemma replay_answers {A} (f : forall c : call, answer c) (p : io A) h :
  Forall (fun e => ev_answer e = f (ev_call e)) h -> Forall (fun e => ev_answer e = f (ev_call e)) (fst (replay (fun _ => f) p h)).
Proof. revert h. induction p as [x|e|c k IH]; intros h Hh; simpl; [done..|]. apply IH. by constructor. Qed.

(** A fact of the events of a run, but for the last [n], by the calls made. *)
Lemma run_events {A} n s r (p : io A) (P : event answer -> Prop) (ok : call -> bool) :
  forallb ok (ev_call <$> drop n (run_of s r p)) = true -> (forall c, ok c = true -> P (Event c (serve s r c))) ->
  Forall P (drop n (run_of s r p)).
Proof.
  intros Hok HP. pose proof (Forall_drop _ n _ (replay_answers (serve s r) p [] (list.Forall_nil_2 _))) as Ha.
  fold (run_of s r p) in Ha. induction Ha as [|[c x] h Hx _ IH]; [done|].
  cbn in Hok. apply andb_true_iff in Hok as [Hc Hok].
  constructor; [|by apply IH]. cbn in Hx. subst x. by apply HP.
Qed.

Lemma run_prefix {A} s r (p : io A) n :
  well_named (resource_ref r) -> forallb (answerable r) (ev_call <$> run_of s r p) = true ->
  prefix p (drop n (run_of s r p)).
Proof.
  intros Hw Hok. exists (take n (run_of s r p)). eexists. rewrite take_drop. apply replay_exec.
  apply (run_events 0 s r p (fun e => honest (ev_call e) (ev_answer e)) (answerable r)); [done|].
  intros c Hc. by apply serve_honest.
Qed.

(** The relationship reconciler makes the maps, the request binds its two resources, and each of
    these creates its container. *)
Definition ka : NamespacedName := mkNamespacedName "default" "a".
Definition kb : NamespacedName := mkNamespacedName "default" "b".
Definition kq : NamespacedName := mkNamespacedName "default" "q".

Definition initialised : Relationship := zeroRelationship <| Relationship_Status := init_status Ledger.start |>.

#[local] Instance units : Units := BinarySizes.units.
#[local] Instance times : LocalTime := fun _ => "".
#[local] Instance yaml : Yaml := plain_yaml.
#[local] Instance defaults : Defaults yaml := no_defaults.
#[local] Instance marshal : Marshal yaml :=
  @Build_Marshal plain_yaml (fun _ => ("", None)) (fun _ => ("", None)) (fun _ => ("", None)) (fun _ => ("", None)).
#[local] Instance urls : URLs := {| url_Parse := inr |}.

Definition request_run : history := run_of (Relationship_Status initialised) a (Scheduler.Reconcile kq).

(** What the run of the request writes. *)
Definition bound_to_both : RelationshipStatus :=
  match request_run with
  | e :: _ => match ev_call e with StatusUpdate KRelationship o => Relationship_Status o | _ => Ledger.start end
  | [] => Ledger.start
  end.

Definition resource_run (r : TestResource) (k : NamespacedName) : history := run_of bound_to_both r (ResourceCtl.Reconcile k).

Lemma first_step : step start (store (Relationship_Status initialised) start).
Proof.
  refine (other_stores start (RelationshipReconciler_Reconcile relationshipName) initialised (inr initialised)
            [Event (Get KRelationship relationshipName) (inr zeroRelationship)] _ _ _).
  - left. by eexists.
  - exists [], (Ret (noRequeue, None)). exists (inr zeroRelationship). split; [by split|].
    exists (inr initialised). split; [by split|]. split; reflexivity.
  - reflexivity.
Qed.

Lemma both_bound : exists w, rtc step start w /\ stored w = bound_to_both /\ boxes w = [] /\
  resource_runs w ka = [] /\ resource_runs w kb = [].
Proof.
  set (w1 := store (Relationship_Status initialised) start).
  set (w2 := w1 <| present ::= cons (resource_ref b) |>). set (w3 := w2 <| present ::= cons (resource_ref a) |>).
  assert (Hw3 : rtc step start w3).
  { eapply rtc_l; [apply first_step|]. eapply rtc_l.
    - apply (resource_appears w1 (resource_ref b)); by apply not_elem_of_nil.
    - apply rtc_once. apply (resource_appears w2 (resource_ref a)); [|by apply not_elem_of_nil].
      simpl. by intros [|[]%elem_of_nil]%elem_of_cons. }
  assert (Hp : forall n, prefix (Scheduler.Reconcile kq) (drop n request_run)).
  { intros n. apply run_prefix; [apply named_a|by vm_compute]. }
  destruct (request_run_steps w3 kq (drop 1 request_run)) as (w4 & Hsteps & E1 & E2 & _ & E4 & _ & E6).
  - done.
  - apply Hp.
  - apply (run_events 1 _ _ _ _ (fun c => match c with StatusUpdate _ _ => false | _ => true end)); [by vm_compute|].
    intros c Hc. destruct c; try done. by destruct k.
  - assert (Hlast : exists o x, request_run = Event (StatusUpdate KRelationship o) x :: drop 1 request_run /\
      Relationship_Status o = bound_to_both) by (vm_compute; do 2 eexists; by split).
    destruct Hlast as (o & x & Hrun & Ho).
    exists (goes_on_request kq (StatusUpdate KRelationship o) x (store (Relationship_Status o) w4)).
    split; [|split_and!; [exact Ho|exact E2|simpl; by rewrite E4..]].
    etrans; [exact Hw3|]. eapply rtc_r; [exact Hsteps|]. apply (request_stores w4 kq o x).
    + unfold next. rewrite E6, <-Hrun. apply (Hp 0%nat).
    + rewrite E1, E6. by vm_compute.
Qed.

(** A run of a resource up to the creation of its container. *)
Lemma creates w r k u cpus :
  rtc step start w -> stored w = bound_to_both -> resource_runs w k = [] -> well_named (resource_ref r) ->
  forallb (answerable r) (ev_call <$> resource_run r k) = true ->
  vacant u (container_name (resource_ref r)) (boxes w) ->
  (exists d cfg host, drop 1 (resource_run r k) =
     Event (ContainerCreate d cfg host (container_name (resource_ref r))) (inr []) :: drop 2 (resource_run r k) /\
     DockerClient_URL d = u /\ HostConfig_CpusetCpus host = cpus) ->
  last_got KTestResource (drop 2 (resource_run r k)) = Some r ->
  forallb (fun c => match c with
    | ContainerInspect d name => bool_decide (DockerClient_URL d = u /\ name = container_name (resource_ref r))
    | StatusUpdate _ _ | ContainerCreate _ _ _ _ => false
    | _ => true end) (ev_call <$> drop 2 (resource_run r k)) = true ->
  exists w', rtc step start w' /\ stored w' = bound_to_both /\
    boxes w' = mkBox u (container_name (resource_ref r)) (resource_ref r) cpus :: boxes w /\
    forall k', k' <> k -> resource_runs w' k' = resource_runs w k'.
Proof.
  intros Hw Hst Hnil Hn Hok Hvac (d & cfg & host & Hrun & <- & <-) Hgot Hsync.
  assert (Hp : forall n, prefix (ResourceCtl.Reconcile k) (drop n (resource_run r k))) by (intros n; by apply run_prefix).
  destruct (resource_run_steps w k (drop 2 (resource_run r k))) as (w1 & Hsteps & [E1 E2 _ E4 _] & Hr).
  - done.
  - intros k'. by apply inv_visible, reachable_inv.
  - apply Hp.
  - eapply run_events; [exact Hsync|]. intros c Hc. destruct c; try done.
    + destruct k0; try done. eexists. split; [reflexivity|]. by rewrite Hst.
    + apply bool_decide_eq_true in Hc as [Hu ->]. eexists. split; [done|]. split; [done|]. by rewrite Hu.
  - eexists. split; [|split_and!].
    + eapply rtc_r; [etrans; [exact Hw|exact Hsteps]|].
      apply (resource_creates w1 k d cfg host (container_name (resource_ref r)) (inr []) r); rewrite ?Hr.
      * unfold next. rewrite <-Hrun. apply Hp.
      * done.
      * by rewrite E2.
    + by rewrite <-E1 in Hst.
    + simpl. by rewrite E2.
    + intros k' Hne. simpl. rewrite fn_lookup_insert_ne by done. by apply E4.
Qed.

Definition box_a : box := mkBox "tcp://h:2375" "default.a" (resource_ref a) "1".
Definition box_b : box := mkBox "tcp://h:2375" "default.b" (resource_ref b) "2".

Lemma both_running : exists w, rtc step start w /\ boxes w = [box_b; box_a].
Proof.
  destruct both_bound as (w1 & Hw1 & Hst1 & Hb1 & Ha & Hb).
  destruct (creates w1 a ka "tcp://h:2375" "1") as (w2 & Hw2 & Hst2 & Hb2 & Hr2).
  1-3: done.
  - apply named_a.
  - by vm_compute.
  - rewrite Hb1. by intros b' ?%elem_of_nil.
  - vm_compute. do 3 eexists. by split_and!.
  - by vm_compute.
  - by vm_compute.
  - destruct (creates w2 b kb "tcp://h:2375" "2") as (w3 & Hw3 & _ & Hb3 & _).
    1-2: done.
    + by rewrite Hr2.
    + apply named_b.
    + by vm_compute.
    + rewrite Hb2, Hb1. intros b' ->%list_elem_of_singleton. by intros [_ [=]].
    + vm_compute. do 3 eexists. by split_and!.
    + by vm_compute.
    + by vm_compute.
    + exists w3. split; [done|]. by rewrite Hb3, Hb2, Hb1.
Qed.

Lemma containers_share_no_core_witness : exists w cpus1 cpus2,
  rtc step start w /\ boxes w = [box_b; box_a] /\
  box_cpus box_a = Machine.cpuSetStr cpus1 /\ box_cpus box_b = Machine.cpuSetStr cpus2 /\
  NoDup cpus1 /\ forall c, c ∈ cpus1 -> c ∉ cpus2.
Proof.
  destruct both_running as (w & Hw & Hb).
  destruct (containers_share_no_core w box_a box_b Hw) as (cpus1 & cpus2 & H).
  - rewrite Hb. by right; left.
  - rewrite Hb. by left.
  - reflexivity.
  - reflexivity.
  - reflexivity.
  - done.
  - by exists w, cpus1, cpus2.
Defined.

End IsolationExample.
