(* ===== verification/Webhooks.v ===== *)
(** * Admission: the webhooks behind their interface

    A kind with webhooks implements webhook.Defaulter, webhook.Validator or both
    (api/v1/*_webhook.go); SetupWebhookWithManager registers what it implements, and the markers
    over the methods say for which operations the API server asks. This file states the
    interfaces, gives each kind its instances, composes the handlers the way a write meets them
    ([admission]), and shows what an admitted machine is good for. *)

From S2P Require Import Prelude GoStd Util ApiTypes TopologyTypes Prog World.
From S2P Require Import Machine Resource ChaosCtl Topology WorkloadCtl MachineCtl.

(** ** The interfaces *)

Class Defaulter (T : Type) := webhook_Default : T -> T.

Class Validator (T : Type) := {
  webhook_ValidateCreate : T -> go (option error);
  webhook_ValidateUpdate : T -> T -> go (option error);
  webhook_ValidateDelete : T -> go (option error);
}.

(** What is written: an object created, an object changed (new and old), an object deleted. *)
Inductive operation (T : Type) :=
| OpCreate (o : T)
| OpUpdate (o old : T)
| OpDelete (o : T).
Arguments OpCreate {T} o.
Arguments OpUpdate {T} o old.
Arguments OpDelete {T} o.

(** A verb of a marker. *)
Inductive verb := VerbCreate | VerbUpdate | VerbDelete.
#[export] Instance verb_eq_dec : EqDecision verb.
Proof. solve_decision. Defined.

Definition verb_of {T} (op : operation T) : verb :=
  match op with OpCreate _ => VerbCreate | OpUpdate _ _ => VerbUpdate | OpDelete _ => VerbDelete end.

(** The webhooks of a kind, each with the verbs of its marker. *)
Record Webhook (T : Type) := mkWebhook {
  mutating : option (Defaulter T * list verb);
  validating : option (Validator T * list verb);
}.
Arguments mkWebhook {T} mutating validating.
Arguments mutating {T} w.
Arguments validating {T} w.

(** How the API server and controller-runtime put a write through them: the mutating webhook
    first, then the validating one on what it made; every marker says failurePolicy=fail, so a
    write whose webhook panics is refused as well. *)
Definition default_with {T} (w : Webhook T) (v : verb) (o : T) : T :=
  match mutating w with
  | Some (d, verbs) => if bool_decide (v ∈ verbs) then webhook_Default (Defaulter := d) o else o
  | None => o
  end.

Definition validate_with {T} (w : Webhook T) (op : operation T) : go (option error) :=
  match validating w with
  | Some (d, verbs) =>
      if bool_decide (verb_of op ∈ verbs) then
        match op with
        | OpCreate o => webhook_ValidateCreate (Validator := d) o
        | OpUpdate o old => webhook_ValidateUpdate (Validator := d) o old
        | OpDelete o => webhook_ValidateDelete (Validator := d) o
        end
      else Ret None
  | None => Ret None
  end.

Definition refusal {T} (o : T) (r : go (option error)) : go (error + T) :=
  err ← r; Ret (match err with Some e => inl e | None => inr o end).

Definition admission {T} (w : Webhook T) (op : operation T) : go (error + T) :=
  match op with
  | OpCreate o => let o := default_with w VerbCreate o in refusal o (validate_with w (OpCreate o))
  | OpUpdate o old => let o := default_with w VerbUpdate o in refusal o (validate_with w (OpUpdate o old))
  | OpDelete o => refusal o (validate_with w (OpDelete o))
  end.

(** ** The methods that decide nothing

    Each only logs; what the other files do not have of the webhooks. *)

Definition Machine_ValidateDelete (r : Machine) : option error := None.
Definition ProcChaos_ValidateDelete (r : ProcChaos) : option error := None.
Definition TestClusterTopology_Default (r : TestClusterTopology) : TestClusterTopology := r.
Definition TestClusterTopology_ValidateDelete (r : TestClusterTopology) : option error := None.
Definition TestResource_ValidateUpdate (r old : TestResource) : option error := None.
Definition TestResource_ValidateDelete (r : TestResource) : option error := None.
Definition TestResourceRequest_Default (r : TestResourceRequest) : TestResourceRequest := r.
Definition TestResourceRequest_ValidateUpdate (r old : TestResourceRequest) : option error := None.
Definition TestResourceRequest_ValidateDelete (r : TestResourceRequest) : option error := None.
Definition TestWorkload_Default (r : TestWorkload) : TestWorkload := r.
Definition TestWorkload_ValidateDelete (r : TestWorkload) : option error := None.

(** ** The instances *)

Section webhooks.
Context {U : Units} {D : Differ} {I : ImageReferences}.

#[export] Instance Machine_Defaulter : Defaulter Machine := Machine.Default.
#[export] Instance Machine_Validator : Validator Machine := {|
  webhook_ValidateCreate r := Ret (Machine.ValidateCreate r);
  webhook_ValidateUpdate r old := Ret (Machine.ValidateUpdate r old);
  webhook_ValidateDelete r := Ret (Machine_ValidateDelete r) |}.

#[export] Instance ProcChaos_Validator : Validator ProcChaos := {|
  webhook_ValidateCreate r := Ret (ChaosCtl.ValidateCreate r);
  webhook_ValidateUpdate r old := Ret (ChaosCtl.ValidateUpdate r old);
  webhook_ValidateDelete r := Ret (ProcChaos_ValidateDelete r) |}.

#[export] Instance TestClusterTopology_Defaulter : Defaulter TestClusterTopology := TestClusterTopology_Default.
#[export] Instance TestClusterTopology_Validator : Validator TestClusterTopology := {|
  webhook_ValidateCreate r := Ret (Topology.ValidateCreate r);
  webhook_ValidateUpdate r old := Ret (Topology.ValidateUpdate r old);
  webhook_ValidateDelete r := Ret (TestClusterTopology_ValidateDelete r) |}.

#[export] Instance TestResource_Defaulter : Defaulter TestResource := TestResource.Default.
#[export] Instance TestResource_Validator : Validator TestResource := {|
  webhook_ValidateCreate r := Ret (TestResource.ValidateCreate r);
  webhook_ValidateUpdate r old := Ret (TestResource_ValidateUpdate r old);
  webhook_ValidateDelete r := Ret (TestResource_ValidateDelete r) |}.

#[export] Instance TestResourceRequest_Defaulter : Defaulter TestResourceRequest := TestResourceRequest_Default.
#[export] Instance TestResourceRequest_Validator : Validator TestResourceRequest := {|
  webhook_ValidateCreate r := Ret (TestResourceRequest.ValidateCreate r);
  webhook_ValidateUpdate r old := Ret (TestResourceRequest_ValidateUpdate r old);
  webhook_ValidateDelete r := Ret (TestResourceRequest_ValidateDelete r) |}.

#[export] Instance TestWorkload_Defaulter : Defaulter TestWorkload := TestWorkload_Default.
#[export] Instance TestWorkload_Validator : Validator TestWorkload := {|
  webhook_ValidateCreate r := WorkloadCtl.ValidateCreate r;
  webhook_ValidateUpdate r old := Ret (WorkloadCtl.ValidateUpdate r old);
  webhook_ValidateDelete r := Ret (TestWorkload_ValidateDelete r) |}.

(** Every marker says verbs=create;update. *)
Definition marked : list verb := [VerbCreate; VerbUpdate].

Definition both (T : Type) {d : Defaulter T} {v : Validator T} : Webhook T :=
  mkWebhook (Some (d, marked)) (Some (v, marked)).

(** The markers of each file, with the assertions below them that the kind implements the
    interface; process chaos is only validated, and the relationship has no webhook. *)
Definition Machine_webhook : Webhook Machine := both Machine.
Definition ProcChaos_webhook : Webhook ProcChaos := mkWebhook None (Some (ProcChaos_Validator, marked)).
Definition TestClusterTopology_webhook : Webhook TestClusterTopology := both TestClusterTopology.
Definition TestResource_webhook : Webhook TestResource := both TestResource.
Definition TestResourceRequest_webhook : Webhook TestResourceRequest := both TestResourceRequest.
Definition TestWorkload_webhook : Webhook TestWorkload := both TestWorkload.

Definition webhook (k : kind) : Webhook (obj k) :=
  match k with
  | KMachine => Machine_webhook
  | KTestResource => TestResource_webhook
  | KTestResourceRequest => TestResourceRequest_webhook
  | KTestClusterTopology => TestClusterTopology_webhook
  | KTestWorkload => TestWorkload_webhook
  | KProcChaos => ProcChaos_webhook
  | KRelationship => mkWebhook None None
  end.
End webhooks.

(** ** Defaulting *)

Section defaulting.
Context {U : Units} {L : UnitsLaws U}.

Lemma parsed_nonempty s n : BytesSize.ToSize s = Some n -> String.eqb s "" = false.
Proof using L. intros H. apply String.eqb_neq. intros ->. unfold BytesSize.ToSize in H. by rewrite units_empty in H. Qed.

Lemma GiB_parses : is_Some (BytesSize.ToSize (BytesSize.Size (1 * Machine.GiB))).
Proof using L.
  unfold BytesSize.ToSize, BytesSize.Size, Machine.GiB. rewrite float64_of_int_small by lia.
  destruct (units_print_parse (1 * 2 ^ 30)) as [n ->]; [lia|done].
Qed.

Lemma defaultReserve_idemp r : Machine.defaultReserve (Some (Machine.defaultReserve r)) = Machine.defaultReserve r.
Proof using L.
  unfold Machine.defaultReserve. destruct GiB_parses as [n Hn%parsed_nonempty].
  destruct (default _ r) as [cores memory]. simpl.
  destruct (Z.eqb_spec cores 0) as [->|Hc]; simpl; destruct (String.eqb_spec memory "") as [->|Hm]; simpl;
    rewrite ?Hn; try done.
  - by apply String.eqb_neq in Hm as ->.
  - destruct (Z.eqb_spec cores 0); [done|]. simpl. by rewrite Hn.
  - destruct (Z.eqb_spec cores 0); [done|]. simpl. by apply String.eqb_neq in Hm as ->.
Qed.

Lemma Machine_Default_idemp m : Machine.Default (Machine.Default m) = Machine.Default m.
Proof using L.
  unfold Machine.Default. destruct m as [meta [host port version tls reserve disks] status]. cbn.
  destruct (Z.eqb_spec port 0) as [->|Hp%Z.eqb_neq]; destruct (String.eqb_spec version "") as [->|Hv%String.eqb_neq];
    destruct tls; cbn; rewrite ?Hp, ?Hv; cbn; rewrite ?Hp, ?Hv; cbn; rewrite ?defaultReserve_idemp, ?Hv; done.
Qed.

Lemma Clean_nonempty p : String.eqb (path.Clean p) "" = false.
Proof using.
  unfold path.Clean. destruct (String.eqb p ""); [done|]. destruct (strs.HasPrefix _ _); [done|].
  by match goal with |- context [String.eqb ?b ""] => destruct (String.eqb_spec b "") as [|He]; [|apply String.eqb_neq in He as ->] end.
Qed.

Lemma defaultDisk_idemp name disk :
  TestResource.defaultDisk name (TestResource.defaultDisk name disk) = TestResource.defaultDisk name disk.
Proof using L.
  unfold TestResource.defaultDisk, BytesSize.Zero. destruct disk as [mount kind size].
  assert (Hz : String.eqb (BytesSize.Size 0) "" = false) by apply (parsed_nonempty _ 0), units_zero.
  pose proof (Clean_nonempty (strs.Join [TestResource.mountPrefix; name] "/")) as Hm.
  change (path.Clean (strs.Join [TestResource.mountPrefix; name] "/")) with
    (path.Join [TestResource.mountPrefix; name]) in Hm.
  revert Hz Hm. generalize (BytesSize.Size 0) (path.Join [TestResource.mountPrefix; name]). intros z p Hz Hm.
  cbn. destruct (String.eqb mount "") eqn:Hn; destruct (String.eqb size "") eqn:Hs;
    do 3 (cbn; rewrite ?Hz, ?Hm, ?Hn, ?Hs); done.
Qed.

Lemma TestResource_Default_idemp r : TestResource.Default (TestResource.Default r) = TestResource.Default r.
Proof using L.
  unfold TestResource.Default. destruct r as [meta [mem cores mach disks tm] status]. simpl. do 2 f_equal.
  apply map_eq. intros name. rewrite !map_lookup_imap. destruct (disks !! name) as [d|]; [|done]. simpl.
  by rewrite defaultDisk_idemp.
Qed.

Context {D : Differ} {I : ImageReferences}.

Lemma default_with_idemp k v (o : obj k) :
  default_with (webhook k) v (default_with (webhook k) v o) = default_with (webhook k) v o.
Proof using L.
  unfold default_with. destruct k; simpl; try done; destruct (bool_decide _); try done.
  - apply Machine_Default_idemp.
  - apply TestResource_Default_idemp.
Qed.

(** Admission is stable: an object that was admitted on creation is admitted again as it is,
    since defaulting fills in nothing twice; and no webhook is asked about a deletion. *)
Lemma admission_stable k (o o' : obj k) :
  admission (webhook k) (OpCreate o) = Ret (inr o') ->
  admission (webhook k) (OpCreate o') = Ret (inr o') /\ admission (webhook k) (OpDelete o') = Ret (inr o').
Proof using L.
  unfold admission, refusal. intros H. apply go_bind_Ret_inv in H as ([e|] & Hv & [= Ho]).
  rewrite <-Ho, default_with_idemp, Hv. split; [done|]. by destruct k.
Qed.
End defaulting.

(** ** What an admitted machine is good for *)

Section machines.
Context {U : Units} {L : UnitsLaws U} {D : Differ} {I : ImageReferences}.

(** A size small enough for the arithmetic on sizes to be exact about its sign. *)
Definition fits (s : BytesSize.t) : Prop := forall n, BytesSize.ToSize s = Some n -> 0 <= n < 2 ^ 59.

Lemma Size_parses n : 0 <= n < 2 ^ 59 -> is_Some (BytesSize.ToSize (BytesSize.Size n)).
Proof using L.
  intros Hn. pose proof (BytesSize.float64_of_int_nonneg n ltac:(lia)).
  destruct (units_print_parse (float64_of_int n)) as [k Hk]; [lia|]. by exists k.
Qed.

(** A machine as the reconciler leaves it once it was measured. *)
Definition measured (m : Machine) (info : MachineInfo) : Machine :=
  m <| Machine_Status ::= fun s => s <| MachineStatus_Info := Some info |> |>.

Lemma makeMachineInfo_inr raw info :
  MachineCtl.makeMachineInfo (Some raw) = Ret (inr info) -> fits (MachineInfo_Memory raw) ->
  map_Forall (fun _ d => fits (StorageDevice_Total d) /\ fits (StorageDevice_Used d)) (MachineInfo_StorageDevices raw) ->
  is_Some (BytesSize.ToSize (MachineInfo_Memory info)) /\
  map_Forall (fun _ d => is_Some (BytesSize.ToSize (StorageDevice_Total d)) /\
                         is_Some (BytesSize.ToSize (StorageDevice_Used d))) (MachineInfo_StorageDevices info).
Proof using L.
  unfold MachineCtl.makeMachineInfo. cbn. intros [= H] Hm Hd.
  destruct (BytesSize.ToSize (MachineInfo_Memory raw)) as [memory|] eqn:Hmem; [|done].
  destruct (bool_decide _); [|done]. injection H as <-. simpl. split; [by apply Size_parses, Hm|].
  intros d dev. rewrite lookup_omap, lookup_fmap. destruct (_ !! d) as [dev0|] eqn:Hdev; simpl; [|done].
  destruct (Hd _ _ Hdev) as [Ht Hu]. unfold MachineCtl.normalizeDevice. simpl.
  destruct (BytesSize.ToSize (StorageDevice_Total dev0)) as [total|] eqn:Htot; simpl; [|done].
  destruct (BytesSize.ToSize (StorageDevice_Used dev0)) as [used|] eqn:Hus; simpl; [|done].
  intros [= <-]. simpl. split; apply Size_parses; auto.
Qed.

Lemma Sub_returns b other : is_Some (BytesSize.ToSize b) -> is_Some (BytesSize.ToSize other) -> returns (BytesSize.Sub b other).
Proof using.
  intros [x Hx%BytesSize.Unwrap_Ret] [y Hy%BytesSize.Unwrap_Ret]. unfold BytesSize.Sub. rewrite Hx. simpl. rewrite Hy. simpl. by eexists.
Qed.

Lemma availableDisks_returns exclusive devices :
  map_Forall (fun _ d => is_Some (BytesSize.ToSize (StorageDevice_Total d)) /\
                         is_Some (BytesSize.ToSize (StorageDevice_Used d))) devices ->
  returns (Machine.availableDisks exclusive (map_to_list devices)).
Proof using.
  intros Hall. unfold Machine.availableDisks.
  destruct (go_fold_returns (fun _ => True) (fun disks '(device, disk) =>
      if decide (device ∈ exclusive) then d ← Machine.diskResource device disk; Ret (<[device := d]> disks) else Ret disks)
    (map_to_list devices) (∅ : gmap string DiskResource)) as (s & Hs & _); [|done|by exists s].
  intros [device disk] t [Ht Hu]%elem_of_map_to_list%Hall _. destruct (decide _); [|by eexists].
  unfold Machine.diskResource. destruct (Sub_returns _ _ Ht Hu) as [size Hsize]. rewrite Hsize. by eexists.
Qed.

Lemma Default_reserve m :
  MachineSpec_Reserve (Machine_Spec (Machine.Default m)) = Some (Machine.defaultReserve (MachineSpec_Reserve (Machine_Spec m))).
Proof using.
  unfold Machine.Default. destruct m as [meta [host port version tls reserve disks] status].
  cbn. by destruct (port =? 0); destruct (String.eqb version "") eqn:Hver; cbn; rewrite ?Hver.
Qed.

(** The reserve an admitted machine has. *)
Lemma admitted_reserve m m' :
  admission (webhook KMachine) (OpCreate m) = Ret (inr m') ->
  exists reserve y, MachineSpec_Reserve (Machine_Spec m') = Some reserve /\ 1 <= ReserveResources_Cores reserve /\
    BytesSize.ToSize (ReserveResources_Memory reserve) = Some y.
Proof using L.
  change (admission (webhook KMachine) (OpCreate m)) with
    (refusal (Machine.Default m) (Ret (Machine.ValidateCreate (Machine.Default m)))).
  unfold refusal. intros H. injection H as H.
  destruct (Machine.ValidateCreate (Machine.Default m)) as [e|] eqn:Hv; [done|]. injection H as <-.
  pose proof (Default_reserve m) as Hr.
  rewrite Hr. eexists. unfold Machine.ValidateCreate in Hv. rewrite Hr in Hv.
  destruct (_ <? 0); [done|]. destruct (Z.ltb_spec (ReserveResources_Cores (Machine.defaultReserve (MachineSpec_Reserve (Machine_Spec m)))) 0)
    as [|Hc]; [done|].
  assert (Hne : String.eqb (ReserveResources_Memory (Machine.defaultReserve (MachineSpec_Reserve (Machine_Spec m)))) "" = false
             /\ ReserveResources_Cores (Machine.defaultReserve (MachineSpec_Reserve (Machine_Spec m))) <> 0).
  { unfold Machine.defaultReserve. destruct GiB_parses as [n Hn%parsed_nonempty].
    destruct (default _ _) as [cores memory]. simpl.
    destruct (Z.eqb_spec cores 0); simpl; destruct (String.eqb_spec memory "") as [|Hm%String.eqb_neq]; simpl; done. }
  destruct Hne as [Hne Hnz]. rewrite Hne in Hv. simpl in Hv.
  destruct (bool_decide_reflect (is_Some (BytesSize.ToSize (ReserveResources_Memory
    (Machine.defaultReserve (MachineSpec_Reserve (Machine_Spec m))))))) as [[y Hy]|]; [|done].
  exists y. split_and!; [done|lia|done].
Qed.

(** [Available] of a machine whose sizes parse. *)
Lemma Available_measured m info reserve :
  MachineSpec_Reserve (Machine_Spec m) = Some reserve ->
  is_Some (BytesSize.ToSize (ReserveResources_Memory reserve)) ->
  is_Some (BytesSize.ToSize (MachineInfo_Memory info)) ->
  map_Forall (fun _ d => is_Some (BytesSize.ToSize (StorageDevice_Total d)) /\
                         is_Some (BytesSize.ToSize (StorageDevice_Used d))) (MachineInfo_StorageDevices info) ->
  exists a, Machine.Available (measured m info) = Ret (Some a) /\
    BytesSize.Sub (MachineInfo_Memory info) (ReserveResources_Memory reserve) = Ret (AvailableResource_Memory a).
Proof using.
  intros Hr Hres Hmem Hdev. unfold Machine.Available, measured. cbn. rewrite Hr. cbn.
  destruct (Sub_returns _ _ Hmem Hres) as [memory Hm]. rewrite Hm. cbn.
  destruct (availableDisks_returns (list_to_set (MachineSpec_ExclusiveDisks (Machine_Spec m))) _ Hdev) as [disks Hd].
  rewrite Hd. cbn. by eexists.
Qed.

(** C29. A machine that was created through the webhooks and measured by the reconciler can be
    scheduled on: it holds back at least one core and a size of memory that parses, [Available]
    and [Rest] of it do not panic, and what is left of its memory can be compared with a request
    exactly when the machine has the memory that is held back. *)
Theorem admitted_machine_usable m m' raw info x :
  admission (webhook KMachine) (OpCreate m) = Ret (inr m') ->
  MachineCtl.makeMachineInfo (Some raw) = Ret (inr info) ->
  fits (MachineInfo_Memory raw) ->
  map_Forall (fun _ d => fits (StorageDevice_Total d) /\ fits (StorageDevice_Used d)) (MachineInfo_StorageDevices raw) ->
  BytesSize.ToSize (MachineInfo_Memory info) = Some x -> 0 <= x < 2 ^ 59 ->
  exists reserve y a,
    MachineSpec_Reserve (Machine_Spec m') = Some reserve /\ 1 <= ReserveResources_Cores reserve /\
    BytesSize.ToSize (ReserveResources_Memory reserve) = Some y /\
    Machine.Available (measured m' info) = Ret (Some a) /\
    Machine.Machine_Rest (measured m' info) [] = Ret (Some a) /\
    (0 <= y -> returns (BytesSize.Unwrap (AvailableResource_Memory a)) <-> y <= x).
Proof using L.
  intros Hadm Hinfo Hfit Hfits Hx Hxb. destruct (admitted_reserve _ _ Hadm) as (reserve & y & Hr & Hc & Hy).
  destruct (makeMachineInfo_inr _ _ Hinfo Hfit Hfits) as [Hmem Hdev].
  destruct (Available_measured m' info reserve Hr (mk_is_Some _ _ Hy) Hmem Hdev) as (a & Ha & Hsub).
  exists reserve, y, a. split_and!; [done..|by unfold Machine.Machine_Rest; rewrite Ha|]. intros Hyn.
  destruct (BytesSize.Sub_usable (MachineInfo_Memory info) (ReserveResources_Memory reserve) x y) as (r & Hr' & Hiff);
    [by apply BytesSize.Unwrap_Ret..|lia|done|]. assert (AvailableResource_Memory a = r) as -> by congruence. exact Hiff.
Qed.

Lemma Available_panics m info reserve x :
  MachineSpec_Reserve (Machine_Spec m) = Some reserve -> BytesSize.ToSize (ReserveResources_Memory reserve) = None ->
  BytesSize.ToSize (MachineInfo_Memory info) = Some x -> panics (Machine.Available (measured m info)).
Proof using.
  intros Hr Hbad Hx%BytesSize.Unwrap_Ret. destruct (BytesSize.Unwrap_panics _ Hbad) as [e He].
  unfold Machine.Available, measured, BytesSize.Sub. cbn. rewrite Hr. cbn. rewrite Hx. cbn. rewrite He. by eexists.
Qed.

(** But a change of a machine is not validated: any change of the size held back is admitted,
    and with one that does not parse [Available] panics, in the scheduler's next look at the
    machine. *)
Lemma updated_machine_panics m old s reserve info x :
  MachineSpec_Reserve (Machine_Spec m) = Some reserve -> ReserveResources_Memory reserve = s ->
  s <> "" -> BytesSize.ToSize s = None -> BytesSize.ToSize (MachineInfo_Memory info) = Some x ->
  exists m', admission (webhook KMachine) (OpUpdate m old) = Ret (inr m') /\
    panics (Machine.Available (measured m' info)) /\ panics (Machine.Machine_Rest (measured m' info) []).
Proof using.
  intros Hr Hs Hne Hbad Hx. exists (Machine.Default m).
  split; [reflexivity|].
  assert (Hp : panics (Machine.Available (measured (Machine.Default m) info))).
  { eapply Available_panics; [apply Default_reserve| |done]. rewrite Hr. apply String.eqb_neq in Hne.
    unfold Machine.defaultReserve. destruct reserve as [cores memory]. cbn in Hs. subst s. cbn.
    destruct (Z.eqb_spec cores 0); cbn; by rewrite Hne. }
  split; [done|]. destruct Hp as [e He]. exists e. unfold Machine.Machine_Rest. by rewrite He.
Qed.
End machines.

(** Services for the examples, which do not depend on them. *)
#[local] Instance example_differ : Differ :=
  {| Diff_TiDB _ _ := inr 0%nat; Diff_PD _ _ := inr 0%nat; Diff_TiKV _ _ := inr 0%nat |}.
#[local] Instance example_images : ImageReferences := {| reference_Parse _ := None |}.

Lemma admission_stable_witness :
  admission (webhook (U := BinarySizes.units) KMachine) (OpCreate zeroMachine)
    = Ret (inr (Machine.Default (U := BinarySizes.units) zeroMachine)) /\
  admission (webhook (U := BinarySizes.units) KMachine) (OpCreate (Machine.Default (U := BinarySizes.units) zeroMachine))
    = Ret (inr (Machine.Default (U := BinarySizes.units) zeroMachine)).
Proof.
  split; [reflexivity|].
  exact (proj1 (admission_stable (U := BinarySizes.units) (L := BinarySizes.laws) KMachine zeroMachine _ eq_refl)).
Defined.

Lemma admitted_machine_usable_witness : exists a m',
  admission (webhook (U := BinarySizes.units) KMachine) (OpCreate zeroMachine) = Ret (inr m') /\
  Machine.Available (U := BinarySizes.units) (measured m' (mkMachineInfo "x86" 4 (BinarySizes.print (2 ^ 31)) ∅))
    = Ret (Some a) /\
  returns (BytesSize.Unwrap (U := BinarySizes.units) (AvailableResource_Memory a)).
Proof.
  set (info := mkMachineInfo "x86" 4 (BinarySizes.print (2 ^ 31)) ∅).
  set (m' := Machine.Default (U := BinarySizes.units) zeroMachine).
  assert (Hraw : MachineCtl.makeMachineInfo (U := BinarySizes.units) (Some info) = Ret (inr info)) by (vm_compute; reflexivity).
  destruct (admitted_machine_usable (U := BinarySizes.units) (L := BinarySizes.laws) zeroMachine m' info info (2 ^ 31))
    as (reserve & y & a & Hr & _ & Hy & Ha & _ & Hiff).
  - reflexivity.
  - exact Hraw.
  - intros n Hn. assert (n = 2 ^ 31) as -> by (vm_compute in Hn |- *; congruence). lia.
  - intros d dev Hd. vm_compute in Hd. done.
  - vm_compute. reflexivity.
  - lia.
  - exists a, m'. split_and!; [reflexivity|exact Ha|].
    assert (reserve = mkReserveResources 1 (BinarySizes.print (2 ^ 30))) as -> by (vm_compute in Hr |- *; congruence).
    assert (y = 2 ^ 30) as -> by (vm_compute in Hy |- *; congruence). apply Hiff; lia.
Defined.
