(* ===== verification/Setup.v ===== *)
(** * The manager: src/main.go

    The command line, the scheme, and what main registers with controller-runtime before it
    starts the manager: eight controllers (the SetupWithManager of controllers/*.go), six
    webhooks (SetupWebhookWithManager in api/v1/*_webhook.go) and the index by which the
    resources of a request are listed. *)

From Stdlib Require Import Ascii.
From S2P Require Import Prelude GoStd Util ApiTypes TopologyTypes Prog World.
From S2P Require Import Machine Resource Relationship Docker Scheduler ResourceCtl MachineCtl ChaosCtl.
From S2P Require Import Topology TiupSpec TiupCtl TopologyCtl WorkloadCtl Webhooks System.

(** ** Flags

    The standard library's package flag, as Go 1.13 has it: every error of the command line,
    asking for help included, ends the program with code 2. *)

Module flag.

Inductive value := VString (s : string) | VBool (b : bool).
#[export] Instance value_eq_dec : EqDecision value.
Proof. solve_decision. Defined.

Abbreviation FlagSet := (gmap string value).

Definition StringVar (name value : string) (fs : FlagSet) : FlagSet := <[name := VString value]> fs.
Definition BoolVar (name : string) (value : bool) (fs : FlagSet) : FlagSet := <[name := VBool value]> fs.

Definition ParseBool (s : string) : option bool :=
  if bool_decide (s ∈ ["1"; "t"; "T"; "TRUE"; "true"; "True"]) then Some true
  else if bool_decide (s ∈ ["0"; "f"; "F"; "FALSE"; "false"; "False"]) then Some false
  else None.

(** The name and, after the first equals sign that is not its first character, the value. *)
Fixpoint split_value (s : string) : string * option string :=
  match s with
  | EmptyString => ("", None)
  | String c s' =>
      if decide (c = "="%char) then ("", Some s')
      else let '(name, v) := split_value s' in (String c name, v)
  end.

(** The text of an argument behind its one or two minus signs; [None] when it is not a flag. *)
Definition flag_text (s : string) : option string :=
  match s with
  | String "-" (String "-" EmptyString) => None
  | String "-" (String "-" name) => Some name
  | String "-" (String c name) => Some (String c name)
  | _ => None
  end.

Definition bad_syntax (text : string) : bool :=
  match text with
  | EmptyString => true
  | String c _ => bool_decide (c = "-"%char) || bool_decide (c = "="%char)
  end.

Definition usage : Z := 2.

(** [flag.Parse]: the exit code of a command line that is refused, or the values. *)
Fixpoint Parse (args : list string) (fs : FlagSet) : Z + FlagSet :=
  match args with
  | [] => inr fs
  | s :: rest =>
      match flag_text s with
      | None => inr fs
      | Some text =>
          if bad_syntax text then inl usage else
          let '(name, v) := split_value text in
          match fs !! name, v with
          | None, _ => inl usage
          | Some (VBool _), None => Parse rest (<[name := VBool true]> fs)
          | Some (VBool _), Some v =>
              match ParseBool v with
              | None => inl usage
              | Some b => Parse rest (<[name := VBool b]> fs)
              end
          | Some (VString _), Some v => Parse rest (<[name := VString v]> fs)
          | Some (VString _), None =>
              match rest with
              | [] => inl usage
              | v :: rest => Parse rest (<[name := VString v]> fs)
              end
          end
      end
  end.

(** Parsing changes values only: every flag keeps its name and its type. *)
Definition same_type (v w : value) : Prop :=
  match v, w with VString _, VString _ | VBool _, VBool _ => True | _, _ => False end.

Lemma Parse_types args fs fs' name v :
  Parse args fs = inr fs' -> fs !! name = Some v -> exists w, fs' !! name = Some w /\ same_type v w.
Proof.
  assert (Hset : forall (fs : FlagSet) n (w0 w : value) v, fs !! n = Some w0 -> same_type w0 w -> fs !! name = Some v ->
            exists v', (<[n := w]> fs : FlagSet) !! name = Some v' /\ same_type v v').
  { intros m n w0 w u Hn Hw Hv. destruct (decide (n = name)) as [->|Hne].
    - rewrite lookup_insert_eq. exists w. split; [done|]. congruence.
    - rewrite lookup_insert_ne by done. exists u. split; [done|]. by destruct u. }
  assert (Htrans : forall u v w, same_type u v -> same_type v w -> same_type u w) by by intros [] [] [].
  assert (Hlen : forall n args fs v, (length args <= n)%nat -> Parse args fs = inr fs' -> fs !! name = Some v ->
            exists w, fs' !! name = Some w /\ same_type v w); [|by eapply (Hlen (length args))].
  induction n as [|n IH]; intros [|s rest] m u Hl H Hu; simpl in Hl, H; try lia;
    try (injection H as <-; exists u; split; [done|by destruct u]).
  destruct (flag_text s) as [text|]; [|injection H as <-; exists u; split; [done|by destruct u]].
  destruct (bad_syntax text); [done|]. destruct (split_value text) as [nm o].
  destruct (m !! nm) as [[old|old]|] eqn:Hnm; [| |done].
  all: assert (Hstep : forall w rest', (length rest' <= n)%nat -> same_type (match m !! nm with Some o => o | None => w end) w ->
         Parse rest' (<[nm := w]> m) = inr fs' -> exists w, fs' !! name = Some w /\ same_type u w);
    [intros w rest' Hl' Hw Hp; rewrite Hnm in Hw; destruct (Hset m nm _ w u Hnm Hw Hu) as (u' & Hu' & Ht);
     destruct (IH _ _ _ Hl' Hp Hu') as (w' & Hw' & Ht'); exists w'; split; [done|by eapply Htrans]|].
  - destruct o as [s'|]; [|destruct rest as [|s' rest]; [done|]]; (eapply Hstep; [..|exact H]); first [by rewrite Hnm|simpl in *; lia].
  - destruct o as [s'|]; [destruct (ParseBool s'); [|done]|]; (eapply Hstep; [..|exact H]); first [by rewrite Hnm|simpl in *; lia].
Qed.
End flag.

(** ** The scheme: api/v1/groupversion_info.go and the init functions of api/v1/*_types.go *)

Record GroupVersion := mkGroupVersion { Group : string; Version : string }.

(** [schema.GroupVersion.String] is k8s.io/apimachinery's. *)
Class APIMachinery := { GroupVersion_String : GroupVersion -> string }.

Definition naglfar_v1 : GroupVersion := mkGroupVersion "naglfar.pingcap.com" "v1".
Definition apiGVStr {G : APIMachinery} : string := GroupVersion_String naglfar_v1.

(** What one init function hands to [SchemeBuilder.Register]: a type and its list type. The
    builder is kept as the list of what it was handed, a scheme as that of what was added. *)
Definition Register (types builder : list string) : list string := builder ++ types.

Definition Machine_init := Register ["Machine"; "MachineList"].
Definition ProcChaos_init := Register ["ProcChaos"; "ProcChaosList"].
Definition Relationship_init := Register ["Relationship"; "RelationshipList"].
Definition TestClusterTopology_init := Register ["TestClusterTopology"; "TestClusterTopologyList"].
Definition TestResource_init := Register ["TestResource"; "TestResourceList"].
Definition TestResourceRequest_init := Register ["TestResourceRequest"; "TestResourceRequestList"].
Definition TestWorkflow_init := Register ["TestWorkflow"; "TestWorkflowList"].
Definition TestWorkload_init := Register ["TestWorkload"; "TestWorkloadList"].

(** The files of a package are initialised in the order of their names. *)
Definition SchemeBuilder : list string :=
  TestWorkload_init (TestWorkflow_init (TestResourceRequest_init (TestResource_init
    (TestClusterTopology_init (Relationship_init (ProcChaos_init (Machine_init []))))))).

Abbreviation Scheme := (list (GroupVersion * string)).
Definition AddToScheme (scheme : Scheme) : Scheme := scheme ++ (pair naglfar_v1 <$> SchemeBuilder).

(** ** The index of a request's resources: controllers/testresourcerequest_controller.go *)

Definition resourceOwnerKey : string := ".metadata.controller".

(** The function given to [IndexField]: the name of the request that controls the resource. *)
Section index.
Context {G : APIMachinery}.

Definition owner_index (resource : TestResource) : list string :=
  match ObjectMeta_Controller (TestResource_ObjectMeta resource) with
  | None => []
  | Some owner =>
      if negb (String.eqb (OwnerReference_APIVersion owner) apiGVStr)
         || negb (String.eqb (OwnerReference_Kind owner) "TestResourceRequest") then []
      else [OwnerReference_Name owner]
  end.

(** A resource is listed under the names of requests that control it, and under no other's. *)
Lemma owner_index_spec resource name :
  name ∈ owner_index resource <->
  exists uid, ObjectMeta_Controller (TestResource_ObjectMeta resource) =
                Some (mkOwnerReference apiGVStr "TestResourceRequest" name uid).
Proof.
  unfold owner_index. destruct (ObjectMeta_Controller _) as [[v k n uid]|]; simpl.
  - destruct (String.eqb_spec v apiGVStr) as [->|]; simpl; [|split; [set_solver|intros [? [= ]]; congruence]].
    destruct (String.eqb_spec k "TestResourceRequest") as [->|]; simpl; [|split; [set_solver|intros [? [= ]]; congruence]].
    rewrite list_elem_of_singleton. split; [intros ->; eauto|intros [? [= ]]; done].
  - split; [set_solver|intros [? [=]]].
Qed.
End index.

(** ** The workflow reconciler: controllers/testworkflow_controller.go *)

Definition TestWorkflow_Reconcile (req : NamespacedName) : io (Result * option error) := mret (noRequeue, None).

(** ** What main says to controller-runtime *)

Module setup.

Record Options := mkOptions {
  opt_Scheme : Scheme;
  MetricsBindAddress : string;
  Port : Z;
  LeaderElection : bool;
  LeaderElectionID : string;
}.

(** A reconciler as main fills it in, but for the logger and what every one gets of the manager:
    whether it has a context, and its recorder of events. *)
Record Reconciler := mkReconciler {
  has_Ctx : bool;
  Eventer : option string;
  Reconcile : NamespacedName -> io (Result * option error);
}.

(** [ctrl.NewControllerManagedBy(mgr).For(...).Owns(...).Complete(r)]. *)
Record Builder := mkBuilder {
  For : string;
  Owns : list string;
  by_reconciler : Reconciler;
}.

Inductive call :=
| GetConfigOrDie
| NewManager (o : Options)
| GetEventRecorderFor (name : string)
| IndexField (object field : string) (extract : TestResource -> list string)
| CompleteController (b : Builder)
| CompleteWebhook (object : string)
| SetupSignalHandler
| Start.

(** GetConfigOrDie ends the program with code 1 when there is no configuration. *)
Definition answer (c : call) : Type :=
  match c with
  | GetConfigOrDie => bool
  | GetEventRecorderFor _ | SetupSignalHandler => unit
  | NewManager _ | IndexField _ _ _ | CompleteController _ | CompleteWebhook _ | Start => option error
  end.

Abbreviation setup A := (prog answer A).
Definition ask (c : call) : setup (answer c) := Prog.ask c.

Section setup.
Context {U : Units} {LT : LocalTime} {Y : Yaml} {F : Defaults Y} {M : Marshal Y} {W : URLs} {G : APIMachinery}.
Context (fuel : nat).

Definition simple_controller (object : string) (r : Reconciler) : setup (option error) :=
  ask (CompleteController (mkBuilder object [] r)).

Definition Relationship_SetupWithManager (r : Reconciler) := simple_controller "Relationship" r.
Definition Machine_SetupWithManager (r : Reconciler) := simple_controller "Machine" r.
Definition TestResource_SetupWithManager (r : Reconciler) := simple_controller "TestResource" r.
Definition TestClusterTopology_SetupWithManager (r : Reconciler) := simple_controller "TestClusterTopology" r.
Definition TestWorkload_SetupWithManager (r : Reconciler) := simple_controller "TestWorkload" r.
Definition TestWorkflow_SetupWithManager (r : Reconciler) := simple_controller "TestWorkflow" r.
Definition ProcChaos_SetupWithManager (r : Reconciler) := simple_controller "ProcChaos" r.

Definition TestResourceRequest_SetupWithManager (r : Reconciler) : setup (option error) :=
  check ask (IndexField "TestResource" resourceOwnerKey owner_index) orelse err => mret (Some err) in
  ask (CompleteController (mkBuilder "TestResourceRequest" ["TestResource"] r)).

Definition Machine_SetupWebhookWithManager := ask (CompleteWebhook "Machine").
Definition TestResourceRequest_SetupWebhookWithManager := ask (CompleteWebhook "TestResourceRequest").
Definition TestResource_SetupWebhookWithManager := ask (CompleteWebhook "TestResource").
Definition TestClusterTopology_SetupWebhookWithManager := ask (CompleteWebhook "TestClusterTopology").
Definition ProcChaos_SetupWebhookWithManager := ask (CompleteWebhook "ProcChaos").
Definition TestWorkload_SetupWebhookWithManager := ask (CompleteWebhook "TestWorkload").

(** The reconcilers, as main fills them in. *)
Definition RelationshipReconciler := mkReconciler false None RelationshipReconciler_Reconcile.
Definition MachineReconciler (eventer : string) := mkReconciler true (Some eventer) (MachineCtl.Reconcile fuel).
Definition TestResourceReconciler (eventer : string) := mkReconciler true (Some eventer) ResourceCtl.Reconcile.
Definition TestResourceRequestReconciler (eventer : string) := mkReconciler false (Some eventer) Scheduler.Reconcile.
Definition TestClusterTopologyReconciler (recorder : string) := mkReconciler false (Some recorder) TopologyCtl.Reconcile.
Definition TestWorkloadReconciler (recorder : string) := mkReconciler false (Some recorder) WorkloadCtl.Reconcile.
Definition TestWorkflowReconciler := mkReconciler false None TestWorkflow_Reconcile.
Definition ProcChaosReconciler := mkReconciler true None ChaosCtl.Reconcile.

(** A reconciler with a recorder of its own: GetEventRecorderFor is called while it is filled in. *)
Definition with_recorder (name : string) (r : string -> Reconciler) (k : Reconciler -> setup (option error))
  : setup (option error) :=
  _ ← ask (GetEventRecorderFor name); k (r name).

(** init: the scheme of client-go, then the program's; the errors of both are dropped. *)
Definition init (clientgo : Scheme) : Scheme := AddToScheme clientgo.

(** The flags of main, beside those that imported packages define (controller-runtime's
    kubeconfig). *)
Definition flags (foreign : flag.FlagSet) : flag.FlagSet :=
  flag.BoolVar "enable-leader-election" false (flag.StringVar "metrics-addr" ":8080" foreign).

Definition flag_string (fs : flag.FlagSet) (name : string) : string :=
  match fs !! name with Some (flag.VString s) => s | _ => "" end.
Definition flag_bool (fs : flag.FlagSet) (name : string) : bool :=
  match fs !! name with Some (flag.VBool b) => b | _ => false end.

Definition options (clientgo : Scheme) (fs : flag.FlagSet) : Options :=
  mkOptions (init clientgo) (flag_string fs "metrics-addr") 9443 (flag_bool fs "enable-leader-election")
    "b9b8c63b.pingcap.com".

(** From the parsed flags on; the result is the exit code. *)
Definition main_with (clientgo : Scheme) (fs : flag.FlagSet) : setup Z :=
  config ← ask GetConfigOrDie;
  if negb config then mret 1 else
  check ask (NewManager (options clientgo fs)) orelse err => mret 1 in
  check Relationship_SetupWithManager RelationshipReconciler orelse err => mret 1 in
  check with_recorder "machine-controller" MachineReconciler Machine_SetupWithManager orelse err => mret 1 in
  check Machine_SetupWebhookWithManager orelse err => mret 1 in
  check with_recorder "testresource-controller" TestResourceReconciler TestResource_SetupWithManager
    orelse err => mret 1 in
  check with_recorder "testresourcerequest-controller" TestResourceRequestReconciler
    TestResourceRequest_SetupWithManager orelse err => mret 1 in
  check with_recorder "clustertopology-controller" TestClusterTopologyReconciler
    TestClusterTopology_SetupWithManager orelse err => mret 1 in
  check with_recorder "workload-controller" TestWorkloadReconciler TestWorkload_SetupWithManager
    orelse err => mret 1 in
  check TestWorkflow_SetupWithManager TestWorkflowReconciler orelse err => mret 1 in
  check TestResourceRequest_SetupWebhookWithManager orelse err => mret 1 in
  check TestResource_SetupWebhookWithManager orelse err => mret 1 in
  check TestClusterTopology_SetupWebhookWithManager orelse err => mret 1 in
  check ProcChaos_SetupWebhookWithManager orelse err => mret 1 in
  check ProcChaos_SetupWithManager ProcChaosReconciler orelse err => mret 1 in
  check TestWorkload_SetupWebhookWithManager orelse err => mret 1 in
  _ ← ask SetupSignalHandler;
  check ask Start orelse err => mret 1 in
  mret 0.

Definition main (clientgo : Scheme) (foreign : flag.FlagSet) (args : list string) : setup Z :=
  match flag.Parse args (flags foreign) with
  | inl code => mret code
  | inr fs => main_with clientgo fs
  end.

(** ** The order of it *)

Definition controller (object : string) (owns : list string) (r : Reconciler) : call :=
  CompleteController (mkBuilder object owns r).

(** What is registered, in order. *)
Definition registrations : list call :=
  [controller "Relationship" [] RelationshipReconciler;
   GetEventRecorderFor "machine-controller";
   controller "Machine" [] (MachineReconciler "machine-controller");
   CompleteWebhook "Machine";
   GetEventRecorderFor "testresource-controller";
   controller "TestResource" [] (TestResourceReconciler "testresource-controller");
   GetEventRecorderFor "testresourcerequest-controller";
   IndexField "TestResource" resourceOwnerKey owner_index;
   controller "TestResourceRequest" ["TestResource"] (TestResourceRequestReconciler "testresourcerequest-controller");
   GetEventRecorderFor "clustertopology-controller";
   controller "TestClusterTopology" [] (TestClusterTopologyReconciler "clustertopology-controller");
   GetEventRecorderFor "workload-controller";
   controller "TestWorkload" [] (TestWorkloadReconciler "workload-controller");
   controller "TestWorkflow" [] TestWorkflowReconciler;
   CompleteWebhook "TestResourceRequest";
   CompleteWebhook "TestResource";
   CompleteWebhook "TestClusterTopology";
   CompleteWebhook "ProcChaos";
   controller "ProcChaos" [] ProcChaosReconciler;
   CompleteWebhook "TestWorkload"].

Definition script (clientgo : Scheme) (fs : flag.FlagSet) : list call :=
  [GetConfigOrDie; NewManager (options clientgo fs)] ++ registrations ++ [SetupSignalHandler; Start].

Definition failed (c : call) : answer c -> bool :=
  match c return answer c -> bool with
  | GetConfigOrDie => negb
  | GetEventRecorderFor _ | SetupSignalHandler => fun _ => false
  | NewManager _ | IndexField _ _ _ | CompleteController _ | CompleteWebhook _ | Start =>
      fun err => match err with Some _ => true | None => false end
  end.
Definition event_failed (e : event answer) : bool := failed (ev_call e) (ev_answer e).

(** The executions that go down a list of calls until one fails. *)
Fixpoint goes_down (l : list call) (h h' : list (event answer)) (r : go Z) : Prop :=
  match l with
  | [] => h' = h /\ r = Ret 0
  | c :: l => exists x, if failed c x then h' = Event c x :: h /\ r = Ret 1 else goes_down l (Event c x :: h) h' r
  end.

Definition any (c : call) (x : answer c) : Prop := True.

Definition as_listed (p : setup Z) (l : list call) : Prop :=
  forall h h' r, exec any p h h' r <-> goes_down l h h' r.

Lemma as_listed_nil : as_listed (Done 0) [].
Proof. intros h h' r. done. Qed.

Lemma as_listed_call c k l :
  (forall x, if failed c x then k x = Done 1 else as_listed (k x) l) -> as_listed (Call c k) (c :: l).
Proof.
  intros Hk h h' r. simpl. split.
  - intros (x & _ & H). exists x. specialize (Hk x). destruct (failed c x); [by rewrite Hk in H|by apply Hk].
  - intros (x & H). exists x. split; [done|]. specialize (Hk x). destruct (failed c x); [by rewrite Hk|by apply Hk].
Qed.

Lemma main_as_listed clientgo fs : as_listed (main_with clientgo fs) (script clientgo fs).
Proof.
  unfold main_with, script, registrations. simpl app.
  repeat first [apply as_listed_nil|apply as_listed_call; intros []; simpl; try reflexivity].
Qed.

(** Such an execution made the calls from the first on, and stopped at the first failure. *)
Lemma goes_down_spec l h h' r : goes_down l h h' r ->
  exists new rest, h' = new ++ h /\ l = rev (ev_call <$> new) ++ rest /\
    ((r = Ret 0 /\ rest = [] /\ Forall (fun e => event_failed e = false) new) \/
     (r = Ret 1 /\ exists e before, new = e :: before /\ event_failed e = true /\
        Forall (fun e => event_failed e = false) before)).
Proof using.
  revert h. induction l as [|c l IH]; intros h; simpl.
  - intros [-> ->]. exists [], []. split_and!; [done..|]. by left.
  - intros (x & H). destruct (failed c x) eqn:Hf.
    + destruct H as [-> ->]. exists [Event c x], l. split_and!; [done..|]. right. split; [done|]. by exists (Event c x), [].
    + destruct (IH _ H) as (new & rest & -> & -> & Hr). exists (new ++ [Event c x]), rest.
      split_and!; [by rewrite <-app_assoc|by rewrite fmap_app, rev_app_distr|].
      destruct Hr as [(-> & -> & Hall)|(-> & e & before & -> & He & Hall)]; [left|right].
      * split_and!; [done..|]. apply Forall_app. split; [done|]. by apply list.Forall_singleton.
      * split; [done|]. exists e, (before ++ [Event c x]). split_and!; [done..|].
        apply Forall_app. split; [done|]. by apply list.Forall_singleton.
Qed.

(** ** What is registered *)

Definition controllers (l : list call) : list Builder :=
  omap (fun c => match c with CompleteController b => Some b | _ => None end) l.
Definition webhooks (l : list call) : list string :=
  omap (fun c => match c with CompleteWebhook k => Some k | _ => None end) l.

Definition kind_name (k : kind) : string :=
  match k with
  | KMachine => "Machine" | KTestResource => "TestResource" | KTestResourceRequest => "TestResourceRequest"
  | KTestClusterTopology => "TestClusterTopology" | KTestWorkload => "TestWorkload"
  | KProcChaos => "ProcChaos" | KRelationship => "Relationship"
  end.

(** The reconciler a kind is handed to, by System.v. *)
Definition reconciles (b : Builder) : Prop :=
  (For b = "TestWorkflow" /\ Reconcile (by_reconciler b) = TestWorkflow_Reconcile) \/
  forall req, reconciler (Reconcile (by_reconciler b) req).

Lemma registrations_reconcile : Forall reconciles (controllers registrations).
Proof using.
  unfold controllers, registrations. simpl.
  repeat first [apply list.Forall_nil; exact I|apply list.Forall_cons; split;
    [first [by left|right; intros req; simpl; constructor]|]].
Qed.

(** One controller for each kind of the scheme, and webhooks for the kinds that have some. *)
Lemma registrations_kinds :
  NoDup (For <$> controllers registrations) /\ NoDup (webhooks registrations) /\
  (forall t, t ∈ SchemeBuilder <-> exists b, b ∈ controllers registrations /\ (t = For b \/ t = For b +:+ "List")).
Proof using.
  split; [apply (bool_decide_unpack _); vm_compute; exact I|].
  split; [apply (bool_decide_unpack _); vm_compute; exact I|]. intros t. split.
  - intros Ht. assert (Hex : Exists (fun b => t = For b \/ t = For b +:+ "List") (controllers registrations)).
    { revert Ht. revert t. apply list.Forall_forall. simpl.
      repeat first [apply list.Forall_nil; exact I|apply list.Forall_cons; split;
        [repeat first [apply List.Exists_cons_hd; first [left; reflexivity|right; reflexivity]
                      |apply List.Exists_cons_tl]|]]. }
    apply list.Exists_exists in Hex as (b & Hb & Ht'). by exists b.
  - intros (b & Hb & Ht). assert (Hall : Forall (fun b => For b ∈ SchemeBuilder /\ (For b +:+ "List") ∈ SchemeBuilder)
      (controllers registrations)).
    { simpl. repeat first [apply list.Forall_nil; exact I|apply list.Forall_cons; split;
        [split; apply (bool_decide_unpack _); vm_compute; exact I|]]. }
    apply (proj1 (list.Forall_forall _ _)) with (x := b) in Hall; [|done]. destruct Hall, Ht; by subst.
Qed.

Lemma elem_of_rev {A} (x : A) l : x ∈ rev l <-> x ∈ l.
Proof using. by rewrite !list_elem_of_In, <-in_rev. Qed.

Lemma registrations_before_start : Forall (fun c => c <> Start) registrations.
Proof using. unfold registrations. repeat constructor; discriminate. Qed.

Lemma script_last clientgo fs :
  script clientgo fs =
    (([GetConfigOrDie; NewManager (options clientgo fs)] ++ registrations) ++ [SetupSignalHandler]) ++ [Start].
Proof using. reflexivity. Qed.

(** Start is the last call. *)
Lemma script_ends clientgo fs l rest : script clientgo fs = rev l ++ rest -> Start ∈ l -> rest = [].
Proof using.
  intros Hs Hin. destruct rest as [|c rest _] using rev_ind; [done|]. exfalso.
  rewrite script_last, app_assoc in Hs.
  apply app_inj_tail in Hs as [Hs _]. assert (Hst : Start ∈ rev l ++ rest).
  { apply elem_of_app. left. by apply elem_of_rev. }
  rewrite <-Hs in Hst. rewrite !elem_of_app in Hst. pose proof registrations_before_start as Hn.
  rewrite list.Forall_forall in Hn. destruct Hst as [[Hst|Hst%Hn]|Hst]; [|done|].
  - apply elem_of_cons in Hst as [|Hst%list_elem_of_singleton]; discriminate.
  - apply list_elem_of_singleton in Hst. discriminate.
Qed.

Context {D : Differ} {I : ImageReferences}.

Lemma registrations_webhooks k : kind_name k ∈ webhooks registrations <-> is_Some (validating (webhook k)).
Proof using.
  split.
  - intros Hk. destruct k; try by eexists. apply (bool_decide_pack _) in Hk. by vm_compute in Hk.
  - intros [w Hw]. destruct k; first [discriminate Hw|apply (bool_decide_unpack _); vm_compute; exact Logic.I].
Qed.

(** C32. main registers everything, in order, and starts the manager only then. A command line
    that is refused ends the program with code 2 before anything is done; otherwise main makes
    the calls of [script] in its order and stops at the first that fails, with code 1; with
    code 0 it ends only when Start returned without an error, so the manager never runs with
    part of it registered. What is registered is one controller for each kind of the scheme,
    whose Reconcile is the one modelled for it, the webhooks of exactly the kinds that have
    some, and the index of the request's resources before the controller that lists by it. *)
Theorem main_registers clientgo foreign args h r :
  exec any (main clientgo foreign args) [] h r ->
  match flag.Parse args (flags foreign) with
  | inl code => h = [] /\ r = Ret code
  | inr fs =>
      exists rest, script clientgo fs = rev (ev_call <$> h) ++ rest /\
        ((r = Ret 0 /\ rest = [] /\ Forall (fun e => event_failed e = false) h) \/
         (r = Ret 1 /\ exists e before, h = e :: before /\ event_failed e = true /\
            Forall (fun e => event_failed e = false) before)) /\
        (Start ∈ (ev_call <$> h) ->
           forall c, c ∈ registrations -> exists e, e ∈ h /\ ev_call e = c /\ event_failed e = false)
  end /\
  Forall reconciles (controllers registrations) /\
  NoDup (For <$> controllers registrations) /\
  (forall t, t ∈ SchemeBuilder <-> exists b, b ∈ controllers registrations /\ (t = For b \/ t = For b +:+ "List")) /\
  (forall k, kind_name k ∈ webhooks registrations <-> is_Some (validating (webhook k))).
Proof using.
  intros H. split; [|split; [apply registrations_reconcile|]];
    [|destruct registrations_kinds as (? & _ & ?); split_and!; [done..|apply registrations_webhooks]].
  unfold main in H. destruct (flag.Parse args (flags foreign)) as [code|fs]; [by destruct H as [-> ->]|].
  apply main_as_listed, goes_down_spec in H as (new & rest & Hh & Hl & Hr). rewrite app_nil_r in Hh. subst new.
  exists rest. split_and!; [done|done|]. intros Hstart c Hc.
  assert (rest = []) as -> by by eapply script_ends. rewrite app_nil_r in Hl.
  assert (Hin : c ∈ script clientgo fs) by (unfold script; rewrite !elem_of_app; by right; left).
  rewrite Hl, elem_of_rev in Hin. apply list_elem_of_fmap in Hin as (e & -> & He).
  exists e. split_and!; [done..|]. destruct Hr as [(_ & _ & Hall)|(_ & e0 & before & -> & _ & Hall)].
  - by apply (proj1 (list.Forall_forall _ _) Hall).
  - apply elem_of_cons in He as [->|He]; [|by apply (proj1 (list.Forall_forall _ _) Hall)].
    exfalso. rewrite script_last, fmap_cons in Hl. cbn [rev] in Hl. apply app_inj_tail in Hl as [_ Hl]. rewrite <-Hl in Hc.
    pose proof registrations_before_start as Hn. rewrite list.Forall_forall in Hn. by apply Hn in Hc.
Qed.

(** ** Against controller-runtime as documented

    It refuses a registration for a kind that the scheme does not know. *)

Definition documented (c : call) : answer c -> Prop :=
  match c return answer c -> Prop with
  | CompleteController b => fun err => For b ∈ SchemeBuilder -> Forall (.∈ SchemeBuilder) (Owns b) -> err = None
  | CompleteWebhook k => fun err => k ∈ SchemeBuilder -> err = None
  | IndexField k _ _ => fun err => k ∈ SchemeBuilder -> err = None
  | _ => fun _ => True
  end.

Lemma exec_answers {A} (ok : forall c, answer c -> Prop) (p : setup A) h h' r :
  exec ok p h h' r -> Forall (fun e => ok (ev_call e) (ev_answer e)) h ->
  Forall (fun e => ok (ev_call e) (ev_answer e)) h' /\ exec any p h h' r.
Proof using.
  revert h. induction p as [a|s|c k IH]; intros h; simpl; [by intros [-> ->]..|].
  intros (x & Hx & H) Hall. destruct (IH x _ H) as [H1 H2]; [by constructor|]. split; [done|]. by exists x.
Qed.

Lemma registrations_known c (x : answer c) :
  c ∈ registrations -> documented c x -> failed c x = false.
Proof using.
  intros Hc. revert x. assert (Hall : Forall (fun c => forall x : answer c, documented c x -> failed c x = false) registrations).
  { unfold registrations, controller. repeat constructor; intros x Hx; simpl in *; try done;
      rewrite Hx; first [done|apply (bool_decide_unpack _); vm_compute; exact Logic.I]. }
  by apply (proj1 (list.Forall_forall _ _) Hall).
Qed.

(** Then only a missing configuration, the manager itself or its run can fail. *)
Lemma main_starts clientgo foreign args fs h r :
  flag.Parse args (flags foreign) = inr fs ->
  exec documented (main clientgo foreign args) [] h r ->
  r = Ret 0 \/ exists e before, h = e :: before /\ r = Ret 1 /\
    (ev_call e = GetConfigOrDie \/ ev_call e = NewManager (options clientgo fs) \/ ev_call e = Start).
Proof using.
  intros Hfs H. apply exec_answers in H as [Hall H]; [|constructor]. unfold main in H. rewrite Hfs in H.
  apply main_as_listed, goes_down_spec in H as (new & rest & Hh & Hl & Hr). rewrite app_nil_r in Hh. subst new.
  destruct Hr as [(-> & _)|(-> & e & before & -> & He & _)]; [by left|]. right. exists e, before.
  split_and!; [done..|]. apply list.Forall_cons in Hall as [Hdoc _].
  assert (Hin : ev_call e ∈ script clientgo fs) by (rewrite Hl, elem_of_app; left; apply elem_of_rev; by left).
  unfold script in Hin. rewrite !elem_of_app in Hin. destruct Hin as [Hin|[Hin|Hin]].
  - apply elem_of_cons in Hin as [|Hin%list_elem_of_singleton]; auto.
  - unfold event_failed in He. by rewrite (registrations_known _ _ Hin Hdoc) in He.
  - apply elem_of_cons in Hin as [Hin|Hin%list_elem_of_singleton]; [|auto].
    exfalso. unfold event_failed in He. destruct e as [c x]. simpl in Hin. subst c. by destruct x.
Qed.
End setup.

(** ** A start that succeeds *)

#[local] Instance example_time : LocalTime := fun _ => "".
#[local] Instance example_units : Units := BinarySizes.units.
#[local] Instance example_yaml : Yaml := plain_yaml.
#[local] Instance example_defaults : Defaults example_yaml := no_defaults.
#[local] Instance example_marshal : Marshal example_yaml :=
  @Build_Marshal plain_yaml (fun _ => ("", None)) (fun _ => ("", None)) (fun _ => ("", None)) (fun _ => ("", None)).
#[local] Instance example_urls : URLs := {| url_Parse := inr |}.
#[local] Instance example_differ : Differ :=
  {| Diff_TiDB _ _ := inr 0%nat; Diff_PD _ _ := inr 0%nat; Diff_TiKV _ _ := inr 0%nat |}.
#[local] Instance example_machinery : APIMachinery :=
  {| GroupVersion_String gv := Group gv +:+ "/" +:+ Version gv |}.
#[local] Instance example_images : ImageReferences := {| reference_Parse _ := None |}.

Definition obliging (h : list (event answer)) (c : call) : answer c :=
  match c return answer c with
  | GetConfigOrDie => true
  | GetEventRecorderFor _ | SetupSignalHandler => tt
  | NewManager _ | IndexField _ _ _ | CompleteController _ | CompleteWebhook _ | Start => None
  end.

Definition example_args : list string := ["--enable-leader-election"; "-metrics-addr"; ":9090"].
Definition example_flags : flag.FlagSet := {["kubeconfig" := flag.VString ""]}.

Example example_options :
  (MetricsBindAddress <$> (options [] <$> (match flag.Parse example_args (flags example_flags) with inr fs => Some fs | inl _ => None end))) = Some ":9090" /\
  flag.Parse ["--enable-leader-election=maybe"] (flags example_flags) = inl 2 /\
  flag.Parse ["-h"] (flags example_flags) = inl 2.
Proof. split_and!; vm_compute; reflexivity. Qed.

Lemma obliging_never_fails {A} (p : setup A) h :
  Forall (fun e => event_failed e = false) h -> Forall (fun e => event_failed e = false) (fst (replay obliging p h)).
Proof.
  revert h. induction p as [a|s|c k IH]; intros h Hh; simpl; [done..|]. apply IH. constructor; [|done]. by destruct c.
Qed.

Lemma example_parses : exists fs, flag.Parse example_args (flags example_flags) = inr fs.
Proof. eexists. vm_compute. reflexivity. Qed.

Lemma main_registers_witness : exists h fs,
  exec any (main 3 [] example_flags example_args) [] h (Ret 0) /\
  script 3 [] fs = rev (ev_call <$> h) /\ length (script 3 [] fs) = 24%nat.
Proof.
  destruct (replay obliging (main 3 [] example_flags example_args) []) as [h r] eqn:Hrun.
  assert (Hexec : exec any (main 3 [] example_flags example_args) [] h r).
  { pose proof (replay_exec any obliging (main 3 [] example_flags example_args) []) as Hr.
    rewrite Hrun in Hr. apply Hr. by apply list.Forall_forall. }
  pose proof (obliging_never_fails (main 3 [] example_flags example_args) [] (Forall_nil_2 _)) as Hok.
  rewrite Hrun in Hok. simpl in Hok.
  destruct (main_registers 3 [] example_flags example_args h r Hexec) as [Hmain _].
  destruct example_parses as [fs Hfs]. rewrite Hfs in Hmain.
  destruct Hmain as (rest & Hs & [(-> & -> & _)|(_ & e & before & -> & He & _)] & _).
  - rewrite app_nil_r in Hs. exists h, fs. split; [exact Hexec|]. split; [exact Hs|reflexivity].
  - apply list.Forall_cons in Hok as [Hok _]. congruence.
Defined.
End setup.
